(* ===== verification/_CoqProject ===== *)
-Q . S2P
Prelude.v
Store.v
Hashmap.v
HashmapSpec.v
HashmapLoop.v
Vector.v
Queue.v
Crc32.v
Wire.v
Frames.v
Chunks.v
Allocator.v
PacketBuffer.v
SendPacket.v
Receiver.v
Listener.v
ProcessPackets.v
Reassembly.v
Protocol.v
Delivery.v
Connections.v
Registry.v
Handshake.v
EndToEnd.v
Callback.v
LossRecovery.v
Typing.v
Requests.v
Wakeup.v
Service.v
Library.v
Interface.v
DpdkBuffer.v
DpdkSend.v
DpdkCard.v
DpdkListener.v
Backends.v
