(* ===== verification/Prelude.v ===== *)
(** * SwiftNet: a verified model of the protocol core

    SwiftNet (src/) is a message library over raw IP frames written in C.  An
    endpoint, server or client, runs three threads: the listener copies matching
    frames to packet buffers and queues them, the processing thread takes them from
    the queue, reassembles messages and answers protocol packets, and the callback
    thread hands complete packets to the application.  The application sends from
    its own thread.  Frames go through libpcap or, in another build of the library,
    through DPDK.  This library models the code of both builds, with requests and
    dynamic rate limiting compiled in, and proves what makes it correct.

    ** Files, and the code they model

    - Prelude.v: the [Outcome] monad (a call returns, exits the process, has
      undefined behaviour, or runs out of fuel), machine words as [Z] with explicit
      wrap-around, little-endian byte images, bounded memory regions ([mem_read] and
      [mem_write] are [Fault] outside a block), tactics and list lemmas.
    - Store.v: objects behind pointers as finite maps (use after free and double free
      are [Fault]), and keyed tables with the behaviour the callers rely on.
    - Hashmap.v: internal/datatype_hashmap.c, all operations, and [LOOP_HASHMAP]
      (internal/internal.h), over slots, chain nodes, key objects and the occupancy
      bitset; HashmapSpec.v: the invariant and the refinement to the tables of Store.v;
      HashmapLoop.v: walking and destroying a map.
    - Vector.v: internal/datatype_vector.c.
    - Queue.v: [struct SwiftNetPacketQueue] and the callback queue:
      [insert_queue_node] (handle_packets.c), [insert_callback_queue_node] and
      [wait_for_next_packet] (process_packets.c), [wait_for_next_packet_callback].
    - Crc32.v: [crc32] (internal/internal.h) over the processor's CRC instructions.
    - Wire.v: header structures, [construct_packet_info], [construct_ip_header]
      (internal/internal.h), [HANDLE_PACKET_CONSTRUCTION], [HANDLE_CHECKSUM]
      (internal/networking.h), [packet_corrupted], [is_private_ip].
    - Frames.v: frames in closed form, the meeting point of senders and receivers.
    - Chunks.v: [chunk_received], [chunk_already_received],
      [return_lost_chunk_indexes] (process_packets.c).
    - Allocator.v: internal/datatype_allocator.c, all operations, with the checks of
      the testing build as a flag; the class [Pool] states what a pool promises.
    - PacketBuffer.v: internal/pcap/pcap_buffer.c, the buffers of the pcap build.
    - SendPacket.v: send_packet.c, the whole of [swiftnet_send_packet] and
      [handle_lost_packets].
    - Receiver.v: the state of an endpoint and the table helpers of
      process_packets.c.
    - Listener.v: handle_packets.c: a captured frame goes to a client or a server, to
      the hand-shake or to a packet queue.
    - ProcessPackets.v: [swiftnet_process_packets]: the loop, the checksum gate, the
      switch over the packet types, reassembly, rate control, delivery.
    - Reassembly.v, Protocol.v, Delivery.v: the theorems on ProcessPackets.v.
    - Connections.v: internal/check_existing_listener.c, initialize_server.c,
      initialize_client_connection.c, cleanup_connection.c,
      [swiftnet_initialize_networking]; Registry.v and Handshake.v: its theorems.
    - EndToEnd.v: sender, wire, listener and processing thread put together.
    - Callback.v: execute_packet_callback.c and generic_functions.c.
    - LossRecovery.v: the rounds of the exchange about lost chunks, both endpoints and
      a network that loses chunks, requests and answers put together.
    - Typing.v: the types of the structures of an endpoint, and that the processing
      thread respects them.
    - Requests.v: make_request.c, make_response.c and the two send functions of the
      application interface.
    - Wakeup.v: the sleeping and waking of the threads (the idle branch of
      process_packets.c and execute_packet_callback.c, the signalling of
      handle_packets.c, [close_threads]) as interleaved steps.
    - Service.v: memory_cleanup_background_service.c and [close_listeners].
    - Library.v: initialize_swiftnet.c, [swiftnet_cleanup], manipulate_debug_flags.c.
    - Interface.v: internal/get_default_interface_and_mac.c, internal/get_mtu.c,
      internal/pcap/pcap_open.c, internal/pcap/pcap_send.c, and the queries of
      [swiftnet_initialize].
    - DpdkBuffer.v: internal/dpdk/dpdk_buffer.c, packet buffers as arrays of message
      buffers; the functions of DPDK are the class [MbufLib] with the laws [MbufLaws].
    - DpdkSend.v: internal/dpdk/dpdk_send.c and the branches of send_packet.c and
      internal/networking.h for DPDK; the network card is the class [EthDev].
    - DpdkCard.v: the theorems on DpdkSend.v for any card, by simulation of a card that
      takes every frame.
    - DpdkListener.v: the branches of handle_packets.c and internal/networking.h for
      DPDK, internal/dpdk/dpdk_open.c.
    - Backends.v: the public functions for packet buffers in the two builds, behind the
      interface [BufferBackend] with the laws [BufferLaws].

    ** What is shown

    - Data structures: the queue refines a FIFO list under any interleaving; the hash
      map refines a keyed table through collisions, duplicate keys and resizes (a key is
      not removed again after its last entry was); the vector, created with room for an
      element, refines a list; a pool, in runs of any length that hold at most 32 stacks of
      items at once, hands out distinct items inside its blocks, loses none, takes them back
      in any order, detects double frees and counts leaks exactly; the
      chunk bitmap and the list of missing chunks are exact; the CRC routine equals
      its bytewise definition and detects every burst of four bytes.
    - Sending: the frames on the wire are, byte for byte, the chunks of the data with
      their headers and checksums; the packet buffer and the tables are left as they
      were; the exchange about lost chunks resends what the receiver listed.
    - Receiving: the listener hands a frame, with its sender's address, to the endpoint
      that owns its port; the frames of a message whose last chunk is not full, reordered
      behind chunk 0 and duplicated, deliver exactly the data sent; one-frame packets and responses are delivered;
      a lost-packets request and its answer, processed by the two endpoints, tell the
      sender exactly the missing chunks or that the packet arrived; packets completed
      before change nothing; every packet buffer is freed once or handed over once;
      the loop drains its queue in order; the callback thread gives packets back.
    - Types: whatever bytes arrive, the processing thread keeps blocks bytes, fields in
      their words, and tables pointing to live records that carry their key.
    - Composition: a message sent by one endpoint, captured and processed by the
      other, arrives as it was sent (its last chunk not full, its chunk 0 first), also over
      a network that loses chunks, requests for chunks and answers, as long
      as often enough some resent chunk arrives; a request returns the data of its response; a
      client and a server complete the hand-shake, after any number of lost requests and on
      an interface with or without a listener; the registry of listeners has exactly one
      listener and one open handle per interface in use, whatever the order of creations
      and clean-ups; initialization makes sound pools and cleanup reports
      what was not given back, less what it frees itself; the interface chosen at start-up is the one with the
      local address.
    - The DPDK build: packet buffers refine a sequence of bytes through writes and
      resizes across message buffers, and hold the same bytes as those of the pcap
      build; a long packet is handed to the card as the frames of its chunks, and those the
      card takes are on the wire; the listener treats the
      endpoints as the pcap listener does.
    - Threads: under every schedule, further frames and spurious wake-ups included, a
      packet is taken and a closed thread is joined within a bounded number of steps, when
      the packet or the close does not fall into the window before the wait, in which a
      wake-up is lost.
    - Defects: theorems that pin down where the code does not do what it means to
      (a full last chunk is not copied, the first chunk to arrive is misplaced, the
      checksum is not enforced, a stray delay update dereferences NULL, a resent last
      chunk damages its link header, a pool cannot have more than 32 stacks, messages
      just below the transmission unit overrun the receiver's buffer, a timed-out
      client is used after it was freed, wake-ups are lost, walks over hash maps visit
      nothing, so completed packets are never forgotten; the DPDK build resends the
      wrong chunks, never confirms packets of full chunks, garbles messages just below
      the transmission unit, and leaks the message buffers of foreign frames).

    ** Conventions and bounds

    Memory is typed: a block is a list of bytes, a pointer into it an offset; blocks
    start as unspecified bytes ([uninitialized]).  Loops that are not structural
    carry fuel; the theorems give the amount that suffices: one round per queued
    packet and one more for [swiftnet_process_packets] and [execute_packet_callback]
    (two for the one packet of a step of EndToEnd.v), the number of message buffers for
    the loops of DpdkBuffer.v, the length of the
    environment script for the polling loops of send_packet.c, make_request.c and
    initialize_client_connection.c (the script is what
    the other threads do between two polls), the number of stacks for the
    allocator, the number of live nodes ([chain_fuel]) for the chains of a hash map;
    [LOOP_HASHMAP] returns for every fuel or for none.  Message lengths go up to
    2^32 - 2^16 (beyond, 32-bit offsets wrap), hash maps up to 2^30 entries.

    ** Not modelled

    System calls and the functions of libpcap and DPDK (their answers are parameters),
    the closing of the DPDK ports in [swiftnet_cleanup], debug output; contention on spin locks (operations under a lock are atomic steps);
    weak memory; the branches for Apple systems.  A client and a server connection share
    one model where their code is the same.  The rest of the plan: contention of threads
    on the lock bitmap of the allocator. *)

(** ** This file: shared vocabulary *)


From stdpp Require Export base numbers list gmap.
From Stdlib Require Export ZArith Lia.

#[global] Open Scope Z_scope.

(** ** Outcomes

    A C call either returns, ends the process with [exit(EXIT_FAILURE)], or has
    undefined behaviour (a dereference of [NULL], an access outside an object, a
    division by zero).  Non-terminating recursion that exhausts its fuel is
    [Diverge]. *)
Inductive Outcome (A : Type) : Type :=
| Ok (a : A)
| Exit
| Fault
| Diverge.

Arguments Ok {A} a.
Arguments Exit {A}.
Arguments Fault {A}.
Arguments Diverge {A}.

#[export] Instance outcome_ret : MRet Outcome := fun A a => Ok a.
#[export] Instance outcome_bind : MBind Outcome := fun A B f m =>
  match m with
  | Ok a => f a
  | Exit => Exit
  | Fault => Fault
  | Diverge => Diverge
  end.

Definition of_option {A} (o : option A) : Outcome A :=
  match o with Some a => Ok a | None => Fault end.

Definition is_ok {A} (m : Outcome A) : bool :=
  match m with Ok _ => true | _ => false end.

(** Running a bind; rewriting with it keeps the continuation folded. *)
Lemma bind_Ok {A B} (a : A) (f : A -> Outcome B) : (x ← Ok a; f x) = f a.
Proof. done. Qed.

Lemma Ok_inj {A} (a b : A) : Ok a = Ok b -> a = b.
Proof. by intros [=]. Qed.

Lemma bind_ok {A B} (m : Outcome A) (f : A -> Outcome B) b :
  (m ≫= f) = Ok b <-> exists a, m = Ok a /\ f a = Ok b.
Proof. split; [destruct m; cbn; try done; eauto | by intros (a & -> & Hf)]. Qed.

Lemma of_option_ok {A} (o : option A) a : of_option o = Ok a <-> o = Some a.
Proof. destruct o; cbn; naive_solver. Qed.

(** ** Machine words

    A [w]-bit unsigned integer is a [Z] in [0, 2^w); arithmetic wraps. *)
Definition wrap (w : Z) (x : Z) : Z := x mod 2 ^ w.
Abbreviation u8 := (wrap 8).
Abbreviation u16 := (wrap 16).
Abbreviation u32 := (wrap 32).
Abbreviation u64 := (wrap 64).

Definition in_word (w : Z) (x : Z) : Prop := 0 <= x < 2 ^ w.

Lemma wrap_add_l w x y : wrap w (wrap w x + y) = wrap w (x + y).
Proof. apply Zplus_mod_idemp_l. Qed.
Lemma wrap_in_word w x : 0 <= w -> in_word w (wrap w x).
Proof. intros. apply Z.mod_pos_bound, Z.pow_pos_nonneg; lia. Qed.

Lemma wrap_small w x : in_word w x -> wrap w x = x.
Proof. intros. apply Z.mod_small, H. Qed.

Lemma wrap_wrap w x : 0 <= w -> wrap w (wrap w x) = wrap w x.
Proof. intros. apply wrap_small, wrap_in_word, H. Qed.

Lemma u8_spec x : 0 <= u8 x < 256.
Proof. apply (wrap_in_word 8). lia. Qed.
Lemma u16_spec x : 0 <= u16 x < 65536.
Proof. apply (wrap_in_word 16). lia. Qed.
Lemma u32_spec x : 0 <= u32 x < 4294967296.
Proof. apply (wrap_in_word 32). lia. Qed.
Lemma u64_spec x : 0 <= u64 x < 18446744073709551616.
Proof. apply (wrap_in_word 64). lia. Qed.

Lemma u8_id x : 0 <= x < 256 -> u8 x = x.
Proof. apply (wrap_small 8). Qed.
Lemma u16_id x : 0 <= x < 65536 -> u16 x = x.
Proof. apply (wrap_small 16). Qed.
Lemma u32_id x : 0 <= x < 4294967296 -> u32 x = x.
Proof. apply (wrap_small 32). Qed.
Lemma u64_id x : 0 <= x < 18446744073709551616 -> u64 x = x.
Proof. apply (wrap_small 64). Qed.

Create Rewrite HintDb words.
#[export] Hint Rewrite u8_id u16_id u32_id u64_id using lia : words.

(** ** Bytes and little-endian integers *)
Definition is_byte (b : Z) : Prop := 0 <= b < 256.
Definition is_bytes (l : list Z) : Prop := Forall is_byte l.

(** The little-endian object representation of an [n]-byte unsigned integer, and
    the integer read back from [n] bytes. *)
Fixpoint le_bytes (n : nat) (x : Z) : list Z :=
  match n with
  | O => []
  | S n' => x mod 256 :: le_bytes n' (x / 256)
  end.

Fixpoint le_val (l : list Z) : Z :=
  match l with
  | [] => 0
  | b :: l' => b + 256 * le_val l'
  end.

Lemma length_le_bytes n x : length (le_bytes n x) = n.
Proof. revert x. induction n as [|n IH]; intros x; cbn; auto. Qed.

Lemma is_bytes_le_bytes n x : is_bytes (le_bytes n x).
Proof.
  revert x. induction n as [|n IH]; intros x; cbn; constructor.
  - apply Z.mod_pos_bound. lia.
  - apply IH.
Qed.

Lemma pow256 n : 256 ^ Z.of_nat n = 2 ^ (8 * Z.of_nat n).
Proof. rewrite Z.pow_mul_r by lia. reflexivity. Qed.

Lemma le_val_bound l : is_bytes l -> 0 <= le_val l < 2 ^ (8 * Z.of_nat (length l)).
Proof.
  rewrite <- pow256. induction 1 as [|b l Hb Hl IH]; cbn [le_val length]; [lia|].
  rewrite Nat2Z.inj_succ, Z.pow_succ_r by lia. unfold is_byte in Hb. nia.
Qed.

Lemma le_val_le_bytes n x : le_val (le_bytes n x) = x mod 2 ^ (8 * Z.of_nat n).
Proof.
  rewrite <- pow256. revert x. induction n as [|n IH]; intros x; cbn [le_val le_bytes].
  - rewrite Z.mod_1_r. done.
  - rewrite IH, Nat2Z.inj_succ, Z.pow_succ_r by lia.
    rewrite Z.rem_mul_r by lia. lia.
Qed.

Lemma le_bytes_le_val l : is_bytes l -> le_bytes (length l) (le_val l) = l.
Proof.
  induction 1 as [|b l Hb Hl IH]; cbn [le_val le_bytes length]; [done|].
  unfold is_byte in Hb. rewrite (Z.mul_comm 256).
  rewrite Z.mod_add, Z.mod_small, Z.div_add, Z.div_small, Z.add_0_l, IH by lia. done.
Qed.

Lemma le_val_app l1 l2 :
  le_val (l1 ++ l2) = le_val l1 + 2 ^ (8 * Z.of_nat (length l1)) * le_val l2.
Proof.
  rewrite <- pow256. induction l1 as [|b l1 IH]; cbn [le_val app length]; [lia|].
  rewrite IH, Nat2Z.inj_succ, Z.pow_succ_r by lia. lia.
Qed.

(** Byte-order conversions of a little-endian host ([arpa/inet.h]). *)
Definition htons (x : Z) : Z := (x mod 256) * 256 + (x / 256) mod 256.
Definition ntohs : Z -> Z := htons.
Definition htonl (x : Z) : Z := le_val (rev (le_bytes 4 x)).
Definition ntohl : Z -> Z := htonl.

Lemma htons_range x : in_word 16 (htons x).
Proof.
  unfold htons, in_word.
  pose proof (Z.mod_pos_bound x 256). pose proof (Z.mod_pos_bound (x / 256) 256). lia.
Qed.

Lemma htons_involutive x : in_word 16 x -> htons (htons x) = x.
Proof. unfold htons, in_word. intros H. Z.to_euclidean_division_equations. lia. Qed.

(** ** Memory regions

    A region of memory is the list of its bytes.  [slice] reads [n] bytes at an
    offset, [blit] overwrites the bytes at an offset. *)
Section regions.
Context {A : Type}.
Implicit Types (l src dst : list A).

Definition slice (off n : nat) l : list A := take n (drop off l).
Definition blit (off : nat) src dst : list A :=
  take off dst ++ src ++ drop (off + length src) dst.

Lemma lookup_slice off n l i :
  slice off n l !! i = if decide (i < n)%nat then l !! (off + i)%nat else None.
Proof.
  unfold slice. case_decide.
  - rewrite lookup_take_lt, lookup_drop by lia. done.
  - apply lookup_take_ge. lia.
Qed.

Lemma length_slice off n l :
  (off + n <= length l)%nat -> length (slice off n l) = n.
Proof. intros. unfold slice. rewrite length_take, length_drop. lia. Qed.

Lemma length_blit off src dst :
  (off + length src <= length dst)%nat -> length (blit off src dst) = length dst.
Proof.
  intros. unfold blit. rewrite !length_app, length_take, length_drop. lia.
Qed.

Lemma lookup_blit off src dst i :
  (off + length src <= length dst)%nat ->
  blit off src dst !! i =
    if decide (off <= i < off + length src)%nat then src !! (i - off)%nat else dst !! i.
Proof.
  intros Hle. unfold blit.
  assert (length (take off dst) = off) as Ht by (rewrite length_take; lia).
  destruct (decide (i < off)%nat).
  - rewrite lookup_app_l, lookup_take_lt, decide_False by lia. done.
  - rewrite lookup_app_r, Ht by lia. case_decide as Hc.
    + rewrite lookup_app_l by lia. done.
    + rewrite lookup_app_r, lookup_drop by lia. f_equal. lia.
Qed.

Lemma slice_blit off src dst :
  (off + length src <= length dst)%nat -> slice off (length src) (blit off src dst) = src.
Proof.
  intros. apply list_eq. intros i. rewrite lookup_slice. case_decide.
  - rewrite lookup_blit, decide_True by lia. f_equal. lia.
  - symmetry. apply lookup_ge_None. lia.
Qed.

Lemma slice_blit_other off src dst o n :
  (off + length src <= length dst)%nat ->
  (o + n <= off \/ off + length src <= o)%nat ->
  slice o n (blit off src dst) = slice o n dst.
Proof.
  intros. apply list_eq. intros i. rewrite !lookup_slice. case_decide; [|done].
  rewrite lookup_blit, decide_False by lia. done.
Qed.

Lemma blit_slice_restore off src dst :
  (off + length src <= length dst)%nat ->
  blit off (slice off (length src) dst) (blit off src dst) = dst.
Proof.
  intros Hle. apply list_eq. intros i.
  assert (length (slice off (length src) dst) = length src) as Hs by (by apply length_slice).
  rewrite lookup_blit by (rewrite Hs, length_blit; lia). rewrite Hs. case_decide.
  - rewrite lookup_slice, decide_True by lia. f_equal. lia.
  - rewrite lookup_blit, decide_False by lia. done.
Qed.

Lemma slice_slice o1 n1 o2 n2 l :
  (o2 + n2 <= n1)%nat -> slice o2 n2 (slice o1 n1 l) = slice (o1 + o2) n2 l.
Proof.
  intros. apply list_eq. intros i. rewrite !lookup_slice.
  case_decide; [|done]. rewrite decide_True by lia. f_equal. lia.
Qed.

Lemma slice_split off n m l :
  (off + n + m <= length l)%nat -> slice off (n + m) l = slice off n l ++ slice (off + n) m l.
Proof.
  intros. unfold slice. rewrite <- take_take_drop, drop_drop. done.
Qed.

Lemma slice_full l : slice 0 (length l) l = l.
Proof. unfold slice. rewrite drop_0, take_ge; done. Qed.

Lemma slice_app_l off n l1 l2 :
  (off + n <= length l1)%nat -> slice off n (l1 ++ l2) = slice off n l1.
Proof.
  intros. apply list_eq. intros i. rewrite !lookup_slice. case_decide; [|done].
  apply lookup_app_l. lia.
Qed.

Lemma slice_app_r off n l1 l2 :
  (length l1 <= off)%nat -> slice off n (l1 ++ l2) = slice (off - length l1) n l2.
Proof.
  intros. apply list_eq. intros i. rewrite !lookup_slice. case_decide; [|done].
  rewrite lookup_app_r by lia. f_equal. lia.
Qed.

Lemma slice_blit_inner o n off src dst :
  (o <= off)%nat -> (off + length src <= o + n)%nat -> (o + n <= length dst)%nat ->
  slice o n (blit off src dst) = blit (off - o) src (slice o n dst).
Proof.
  intros. assert (length (slice o n dst) = n) by (by apply length_slice).
  apply list_eq. intros i. rewrite lookup_slice, !lookup_blit, lookup_slice by lia.
  repeat case_decide; try lia; try done. f_equal; lia.
Qed.

Lemma blit_blit_same off src src' dst :
  length src = length src' -> (off + length src <= length dst)%nat ->
  blit off src (blit off src' dst) = blit off src dst.
Proof.
  intros Hl Hle. apply list_eq. intros i.
  rewrite !lookup_blit by (rewrite ?length_blit; lia). repeat case_decide; try lia; done.
Qed.

Lemma blit_id off src dst :
  (off + length src <= length dst)%nat -> slice off (length src) dst = src -> blit off src dst = dst.
Proof.
  intros Hle Hs. apply list_eq. intros i. rewrite lookup_blit by done. case_decide; [|done].
  rewrite <- Hs, lookup_slice, decide_True by lia. f_equal. lia.
Qed.

(** A write inside a block that was written before, and inside a concatenation. *)
Lemma blit_blit_inner off o src h dst :
  (o + length src <= length h)%nat -> (off + length h <= length dst)%nat ->
  blit (off + o) src (blit off h dst) = blit off (blit o src h) dst.
Proof.
  intros Ho Hoff. apply list_eq. intros i.
  rewrite !lookup_blit; rewrite ?length_blit; try lia.
  repeat case_decide; try lia; try done; f_equal; lia.
Qed.

Lemma blit_app_r a b o src :
  (o + length src <= length b)%nat -> blit (length a + o) src (a ++ b) = a ++ blit o src b.
Proof.
  intros Ho. unfold blit. rewrite take_app, take_ge by lia. rewrite drop_app, (drop_ge a) by lia.
  rewrite <- !app_assoc. cbn [app]. do 2 f_equal; [f_equal; lia|]. do 2 f_equal. lia.
Qed.

Lemma blit_app_l a b o src :
  (o + length src <= length a)%nat -> blit o src (a ++ b) = blit o src a ++ b.
Proof.
  intros Ho. unfold blit. rewrite take_app_le, drop_app_le by lia. by rewrite <- !app_assoc.
Qed.

Lemma blit_blit_adjacent off a b dst :
  (off + length a + length b <= length dst)%nat ->
  blit (off + length a) b (blit off a dst) = blit off (a ++ b) dst.
Proof.
  intros Hl. apply list_eq. intros i.
  rewrite !lookup_blit; rewrite ?length_blit, ?length_app; try lia.
  repeat case_decide; try lia; try done.
  - rewrite lookup_app_r by lia. f_equal. lia.
  - rewrite lookup_app_l by lia. done.
Qed.

Lemma slice_blit_prefix off n h dst :
  (off + length h <= length dst)%nat -> (length h <= n)%nat -> (off + n <= length dst)%nat ->
  slice off n (blit off h dst) = h ++ slice (off + length h) (n - length h) dst.
Proof.
  intros H1 H2 H3. replace n with (length h + (n - length h))%nat at 1 by lia.
  rewrite slice_split by (rewrite length_blit; lia).
  rewrite slice_blit, slice_blit_other by lia. done.
Qed.

(** [memcpy] out of and into a region; an access outside it is undefined. *)
Definition mem_read (off n : Z) l : Outcome (list A) :=
  if bool_decide (0 <= off /\ 0 <= n /\ off + n <= Z.of_nat (length l))
  then Ok (slice (Z.to_nat off) (Z.to_nat n) l) else Fault.

Definition mem_write (off : Z) src dst : Outcome (list A) :=
  if bool_decide (0 <= off /\ off + Z.of_nat (length src) <= Z.of_nat (length dst))
  then Ok (blit (Z.to_nat off) src dst) else Fault.

Lemma mem_read_ok off n l :
  0 <= off -> 0 <= n -> off + n <= Z.of_nat (length l) ->
  mem_read off n l = Ok (slice (Z.to_nat off) (Z.to_nat n) l).
Proof. intros. unfold mem_read. by rewrite bool_decide_true. Qed.

Lemma mem_write_ok off src dst :
  0 <= off -> off + Z.of_nat (length src) <= Z.of_nat (length dst) ->
  mem_write off src dst = Ok (blit (Z.to_nat off) src dst).
Proof. intros. unfold mem_write. by rewrite bool_decide_true. Qed.

Lemma mem_write_inv off src dst r :
  mem_write off src dst = Ok r ->
  0 <= off /\ off + Z.of_nat (length src) <= Z.of_nat (length dst) /\
  r = blit (Z.to_nat off) src dst /\ length r = length dst.
Proof.
  unfold mem_write. case_bool_decide as H; [|done]. intros [= <-].
  repeat split; try lia. apply length_blit. lia.
Qed.
End regions.

Lemma is_bytes_app l1 l2 : is_bytes (l1 ++ l2) <-> is_bytes l1 /\ is_bytes l2.
Proof. apply Forall_app. Qed.

Lemma is_bytes_slice off n l : is_bytes l -> is_bytes (slice off n l).
Proof. intros. by apply Forall_take, Forall_drop. Qed.

Lemma is_bytes_blit off src dst : is_bytes src -> is_bytes dst -> is_bytes (blit off src dst).
Proof.
  intros. unfold blit. repeat apply Forall_app_2; auto; [by apply Forall_take|by apply Forall_drop].
Qed.

Create HintDb bytes.
#[export] Hint Resolve is_bytes_le_bytes is_bytes_slice is_bytes_blit : bytes.

(** ** Tactics *)

(** Case analysis on a chain of monadic steps that ended in [Ok]. *)
Ltac ok_inv :=
  repeat match goal with
  | H : (_ ≫= _) = Ok _ |- _ =>
      apply bind_ok in H; let a := fresh "a" in destruct H as (a & ? & H)
  | H : Ok _ = Ok _ |- _ => injection H as H; subst
  | H : of_option _ = Ok _ |- _ => apply of_option_ok in H
  | H : mret _ = Ok _ |- _ => injection H as H; subst
  end.

(** Turn boolean comparisons into propositions. *)
Ltac bool_prop :=
  repeat match goal with
  | H : (_ && _) = true |- _ => apply andb_true_iff in H; destruct H
  | H : (_ <? _) = true |- _ => apply Z.ltb_lt in H
  | H : (_ <? _) = false |- _ => apply Z.ltb_ge in H
  | H : (_ <=? _) = true |- _ => apply Z.leb_le in H
  | H : (_ <=? _) = false |- _ => apply Z.leb_gt in H
  | H : (_ =? _) = true |- _ => apply Z.eqb_eq in H
  | H : (_ =? _) = false |- _ => apply Z.eqb_neq in H
  | H : negb _ = true |- _ => apply negb_true_iff in H
  | H : negb _ = false |- _ => apply negb_false_iff in H
  end.

(** Rewrite wrapped words that do not overflow. *)
Ltac words := autorewrite with words.

(** Linear arithmetic with quotients and remainders by constants. *)
Ltac dlia := Z.to_euclidean_division_equations; lia.

(** ** Lists *)
Lemma filter_none {A} (P : A -> Prop) `{!forall x, Decision (P x)} (l : list A) :
  (forall x, x ∈ l -> ~ P x) -> filter P l = [].
Proof.
  induction l as [|x l IH]; intros Hn; [done|].
  rewrite filter_cons, decide_False by (apply Hn; left). apply IH. intros y Hy. apply Hn. by right.
Qed.

Lemma filter_nil_iff {A} (P : A -> Prop) `{!forall x, Decision (P x)} (l : list A) :
  filter P l = [] <-> forall x, x ∈ l -> ~ P x.
Proof.
  split; [|apply filter_none]. intros Hf x Hx HP. by eapply filter_nil_not_elem_of.
Qed.

Lemma filter_all {A} (P : A -> Prop) `{!forall x, Decision (P x)} (l : list A) :
  (forall x, x ∈ l -> P x) -> filter P l = l.
Proof.
  induction l as [|x l IH]; intros Hl; [done|]. rewrite filter_cons, decide_True by (apply Hl; left).
  by rewrite IH by (intros y Hy; apply Hl; by right).
Qed.

Lemma filter_ext_elem {A} (P Q : A -> Prop) `{!forall x, Decision (P x), !forall x, Decision (Q x)} (l : list A) :
  (forall x, x ∈ l -> (P x <-> Q x)) -> filter P l = filter Q l.
Proof.
  induction l as [|x l IH]; intros Hl; [done|]. rewrite !filter_cons.
  rewrite IH by (intros y Hy; apply Hl; by right). specialize (Hl x ltac:(left)).
  destruct (decide (P x)); [rewrite decide_True by tauto|rewrite decide_False by tauto]; done.
Qed.

(** ** Bitmaps: an array of bytes read as a sequence of bits, low bit first *)
Definition bitmap_bit (l : list Z) (i : Z) : bool :=
  Z.testbit (default 0 (l !! Z.to_nat (i / 8))) (i mod 8).

Lemma land_bit_test b i : 0 <= i -> (Z.land b (Z.shiftl 1 i) =? 0) = negb (Z.testbit b i).
Proof.
  intros Hi. rewrite Z.shiftl_1_l. destruct (Z.testbit b i) eqn:E; cbn.
  - apply Z.eqb_neq. intros H0. apply (f_equal (fun z => Z.testbit z i)) in H0.
    rewrite Z.land_spec, Z.pow2_bits_true, E, Z.bits_0 in H0 by done. done.
  - apply Z.eqb_eq, Z.bits_inj'. intros j Hj. rewrite Z.land_spec, Z.bits_0.
    destruct (Z.eq_dec j i) as [->|Hne]; [by rewrite E|].
    by rewrite Z.pow2_bits_false, andb_false_r by lia.
Qed.

Lemma u8_testbit x i : 0 <= i < 8 -> Z.testbit (u8 x) i = Z.testbit x i.
Proof. intros Hi. apply Z.mod_pow2_bits_low. lia. Qed.

(** Replacing the byte that holds bit [i] by one that differs from it in that bit
    only. *)
Lemma bitmap_bit_update l i b b' v j :
  0 <= i -> 0 <= j -> l !! Z.to_nat (i / 8) = Some b ->
  (forall k, 0 <= k < 8 -> Z.testbit b' k = if bool_decide (k = i mod 8) then v else Z.testbit b k) ->
  bitmap_bit (<[Z.to_nat (i / 8) := b']> l) j = if bool_decide (j = i) then v else bitmap_bit l j.
Proof.
  intros Hi Hj Hb Hk. unfold bitmap_bit.
  destruct (decide (Z.to_nat (j / 8) = Z.to_nat (i / 8))) as [He|Hne].
  - rewrite He, list_lookup_insert_eq, Hb by (by eapply lookup_lt_Some). cbn [from_option id].
    assert (j / 8 = i / 8) by (pose proof (Z.div_pos j 8); pose proof (Z.div_pos i 8); lia).
    rewrite Hk by dlia. pose proof (Z.div_mod j 8). pose proof (Z.div_mod i 8).
    repeat case_bool_decide; subst; try done; lia.
  - rewrite list_lookup_insert_ne by done. rewrite bool_decide_false; [done|]. by intros ->.
Qed.

Lemma lor_bit_testbit b i k :
  0 <= i < 8 -> 0 <= k < 8 ->
  Z.testbit (u8 (Z.lor b (Z.shiftl 1 i))) k = if bool_decide (k = i) then true else Z.testbit b k.
Proof.
  intros Hi Hk. rewrite u8_testbit, Z.lor_spec, Z.shiftl_1_l by done. case_bool_decide as E.
  - subst. rewrite Z.pow2_bits_true by lia. apply orb_true_r.
  - rewrite Z.pow2_bits_false by lia. apply orb_false_r.
Qed.

Lemma land_bit_testbit b i k :
  0 <= i < 8 -> 0 <= k < 8 ->
  Z.testbit (u8 (Z.land b (Z.lxor (Z.shiftl 1 i) (2 ^ 32 - 1)))) k
  = if bool_decide (k = i) then false else Z.testbit b k.
Proof.
  intros Hi Hk. rewrite u8_testbit, Z.land_spec, Z.lxor_spec, Z.shiftl_1_l by done.
  change (2 ^ 32 - 1) with (Z.ones 32). rewrite Z.ones_spec_low by lia. case_bool_decide as E.
  - subst. rewrite Z.pow2_bits_true by lia. apply andb_false_r.
  - rewrite Z.pow2_bits_false by lia. apply andb_true_r.
Qed.

(** Bit operations stay in the word. *)
Lemma in_word_testbit w x : 0 <= w -> in_word w x -> forall i, w <= i -> Z.testbit x i = false.
Proof.
  intros Hw Hx i Hi. rewrite <- (Z.mod_small x (2 ^ w)) by apply Hx.
  by apply Z.mod_pow2_bits_high.
Qed.

Lemma lxor_in_word w a b : 0 <= w -> in_word w a -> in_word w b -> in_word w (Z.lxor a b).
Proof.
  intros Hw Ha Hb. assert (0 <= Z.lxor a b) by (apply Z.lxor_nonneg; unfold in_word in *; lia).
  split; [done|].
  rewrite <- (Z.mod_small (Z.lxor a b) (2 ^ w)); [apply Z.mod_pos_bound; lia|].
  split; [done|]. apply Z.lt_nge. intros Hge.
  assert (Z.lxor a b <> 0) as Hnz by (pose proof (Z.pow_pos_nonneg 2 w); lia).
  assert (w <= Z.log2 (Z.lxor a b)) as Hlog by (by apply Z.log2_le_pow2; [lia|]).
  pose proof (Z.bit_log2 (Z.lxor a b) ltac:(lia)) as Hbit.
  rewrite Z.lxor_spec, !(in_word_testbit w) in Hbit by done. done.
Qed.

Lemma lor_in_word w a b : 0 <= w -> in_word w a -> in_word w b -> in_word w (Z.lor a b).
Proof.
  intros Hw Ha Hb. assert (0 <= Z.lor a b) by (apply Z.lor_nonneg; unfold in_word in *; lia).
  split; [done|].
  rewrite <- (Z.mod_small (Z.lor a b) (2 ^ w)); [apply Z.mod_pos_bound; lia|].
  split; [done|]. apply Z.lt_nge. intros Hge.
  assert (Z.lor a b <> 0) as Hnz by (pose proof (Z.pow_pos_nonneg 2 w); lia).
  assert (w <= Z.log2 (Z.lor a b)) as Hlog by (by apply Z.log2_le_pow2; [lia|]).
  pose proof (Z.bit_log2 (Z.lor a b) ltac:(lia)) as Hbit.
  rewrite Z.lor_spec, !(in_word_testbit w) in Hbit by done. done.
Qed.
