(* ===== verification/Store.v ===== *)
(** * Typed stores and keyed tables

    Two abstractions the protocol components are written against.

    - [Store X]: the objects of one type that the code keeps behind pointers.
      Reading, writing or freeing an address that is not live is undefined, so a
      use after free or a double free shows up as [Fault].  The allocator provides
      the fresh addresses (class [Pool] of Allocator.v).
    - association lists with the behaviour of src/src/internal/datatype_hashmap.c:
      insertion goes behind the entries already there, so with two entries under
      one key [al_get] and [al_remove] meet the older one. *)

From S2P Require Import Prelude.
From stdpp Require Export gmap.
#[global] Open Scope Z_scope.

(** ** Stores *)
Abbreviation loc := positive.
Abbreviation Store X := (gmap loc X).

(** An address above every live one. *)
Definition store_next {X} (m : Store X) : loc :=
  map_fold (fun k _ acc => Pos.max (Pos.succ k) acc) 1%positive m.

Definition store_alloc {X} (x : X) (m : Store X) : loc * Store X := (store_next m, <[store_next m := x]> m).
Definition store_get {X} (l : loc) (m : Store X) : Outcome X := of_option (m !! l).
Definition store_set {X} (l : loc) (x : X) (m : Store X) : Outcome (Store X) :=
  _ ← store_get l m; Ok (<[l := x]> m).
Definition store_update {X} (l : loc) (f : X -> X) (m : Store X) : Outcome (Store X) :=
  x ← store_get l m; Ok (<[l := f x]> m).
Definition store_free {X} (l : loc) (m : Store X) : Outcome (Store X) :=
  _ ← store_get l m; Ok (delete l m).

Lemma store_next_above {X} (m : Store X) l x : m !! l = Some x -> (l < store_next m)%positive.
Proof.
  revert l x. unfold store_next.
  apply (map_fold_weak_ind (fun r m => forall l x, m !! l = Some x -> (l < r)%positive)); [done|].
  intros k y m' r Hk IH l x. destruct (decide (l = k)) as [->|Hne].
  - intros _. lia.
  - rewrite lookup_insert_ne by done. intros Hl%IH. lia.
Qed.

Lemma store_next_fresh {X} (m : Store X) : m !! store_next m = None.
Proof.
  destruct (m !! store_next m) as [x|] eqn:E; [|done]. apply store_next_above in E. lia.
Qed.

Lemma store_get_ok {X} (m : Store X) l x : store_get l m = Ok x <-> m !! l = Some x.
Proof. unfold store_get. destruct (m !! l); cbn; split; congruence. Qed.

Lemma store_update_ok {X} (m : Store X) l f x : m !! l = Some x -> store_update l f m = Ok (<[l := f x]> m).
Proof. intros H. unfold store_update, store_get. by rewrite H. Qed.

Lemma store_set_ok {X} (m : Store X) l x y : m !! l = Some x -> store_set l y m = Ok (<[l := y]> m).
Proof. intros H. unfold store_set, store_get. by rewrite H. Qed.

Lemma store_free_ok {X} (m : Store X) l x : m !! l = Some x -> store_free l m = Ok (delete l m).
Proof. intros H. unfold store_free, store_get. by rewrite H. Qed.

(** ** Keyed tables *)
Section assoc.
Context {K V : Type} `{EqDecision K}.
Implicit Types (k : K) (v : V) (m : list (K * V)).

Fixpoint al_get k m : option V :=
  match m with
  | [] => None
  | (k', v) :: m => if decide (k = k') then Some v else al_get k m
  end.

Definition al_insert k v m : list (K * V) := m ++ [(k, v)].

Fixpoint al_remove k m : list (K * V) :=
  match m with
  | [] => []
  | (k', v) :: m => if decide (k = k') then m else (k', v) :: al_remove k m
  end.

Definition al_keys m : list K := map fst m.

Lemma al_get_Some_in k v m : al_get k m = Some v -> (k, v) ∈ m.
Proof.
  induction m as [|[k' v'] m IH]; cbn; [done|]. case_decide as E; [intros [= ->]; subst; left|right; auto].
Qed.

Lemma al_get_None k m : al_get k m = None <-> k ∉ al_keys m.
Proof.
  induction m as [|[k' v'] m IH]; cbn; [split; [intros _ H; by apply not_elem_of_nil in H|done]|].
  rewrite not_elem_of_cons. case_decide as E; [split; [done|by intros []]|]. tauto.
Qed.

Lemma al_get_insert k v m k' :
  al_get k' (al_insert k v m) = match al_get k' m with
                                | Some v' => Some v'
                                | None => if decide (k' = k) then Some v else None
                                end.
Proof. unfold al_insert. induction m as [|[k2 v2] m IH]; cbn; [done|]. by destruct (decide (k' = k2)). Qed.

Lemma al_get_remove_ne k k' m : k' <> k -> al_get k' (al_remove k m) = al_get k' m.
Proof.
  intros Hne. induction m as [|[k2 v2] m IH]; cbn; [done|]. destruct (decide (k = k2)) as [<-|].
  - by rewrite decide_False.
  - cbn. by rewrite IH.
Qed.

Lemma al_get_remove_eq k m : NoDup (al_keys m) -> al_get k (al_remove k m) = None.
Proof.
  induction m as [|[k2 v2] m IH]; cbn; [done|]. intros Hnd%NoDup_cons. destruct Hnd as [Hk Hnd].
  destruct (decide (k = k2)) as [<-|]; [by apply al_get_None|]. cbn. rewrite decide_False by done. auto.
Qed.

Lemma al_remove_insert k v m : al_get k m = None -> al_remove k (al_insert k v m) = m.
Proof.
  unfold al_insert. induction m as [|[k2 v2] m IH]; cbn; [by rewrite decide_True|].
  case_decide; [done|]. intros Hk. by rewrite IH.
Qed.

Lemma al_keys_insert k v m : al_keys (al_insert k v m) = al_keys m ++ [k].
Proof. unfold al_keys, al_insert. by rewrite map_app. Qed.

Lemma al_remove_keys k k' m : k' ∈ al_keys (al_remove k m) -> k' ∈ al_keys m.
Proof.
  induction m as [|[k2 v2] m IH]; cbn; [done|]. case_decide; [by right|]. cbn. rewrite !elem_of_cons. tauto.
Qed.

Lemma al_remove_NoDup k m : NoDup (al_keys m) -> NoDup (al_keys (al_remove k m)).
Proof.
  induction m as [|[k2 v2] m IH]; cbn; [done|]. intros [Hk Hnd]%NoDup_cons. case_decide; [done|]. cbn.
  apply NoDup_cons. split; [|auto]. intros Hin. by apply Hk, (al_remove_keys k).
Qed.

Lemma al_insert_NoDup k v m : NoDup (al_keys m) -> al_get k m = None -> NoDup (al_keys (al_insert k v m)).
Proof.
  intros Hnd Hk%al_get_None. rewrite al_keys_insert. apply NoDup_app. split; [done|].
  split; [|apply NoDup_singleton]. intros x Hx Hx'. apply list_elem_of_singleton in Hx'. by subst.
Qed.
End assoc.
