(* ===== verification/Hashmap.v ===== *)
(** * The hash map (src/src/internal/datatype_hashmap.c)

    An array of slots; a slot holds the first entry of its chain, further entries are
    nodes of a pool shared by all maps.  The model keeps the slots, the occupancy
    bitset, and two stores: the chain nodes and the key objects, so that every
    dereference, comparison and release is checked.  The map is then shown to behave
    as the association lists of Store.v, which the protocol components use. *)

From S2P Require Import Prelude Store.

Record SwiftNetHashMapItem := mk_item {
  item_next : option loc;
  key_original_data : option loc;
  key_original_data_size : Z;
  item_value : option loc
}.

Record SwiftNetHashMap := mk_hashmap {
  hm_items : list SwiftNetHashMapItem;
  item_occupation : list Z;
  hm_capacity : Z;
  hm_size : Z
}.

(** The memory a map refers to. *)
Record MapHeap := mk_heap {
  map_nodes : Store SwiftNetHashMapItem;
  map_keys : Store (list Z)
}.

Definition SWIFT_NET_MEMORY_USAGE : Z := 5.

(** A [struct SwiftNetHashMapItem *]: into the array or to a node. *)
Inductive item_ptr := InSlot (i : nat) | InNode (l : loc).

#[export] Instance item_ptr_eq_dec : EqDecision item_ptr.
Proof. solve_decision. Defined.

Definition blank_item : SwiftNetHashMapItem := mk_item None None 0 None.
Definition set_next (n : option loc) (x : SwiftNetHashMapItem) : SwiftNetHashMapItem :=
  mk_item n (key_original_data x) (key_original_data_size x) (item_value x).
Definition set_value (v : option loc) (x : SwiftNetHashMapItem) : SwiftNetHashMapItem :=
  mk_item (item_next x) (key_original_data x) (key_original_data_size x) v.
Definition set_items (l : list SwiftNetHashMapItem) (m : SwiftNetHashMap) : SwiftNetHashMap :=
  mk_hashmap l (item_occupation m) (hm_capacity m) (hm_size m).
Definition set_size (n : Z) (m : SwiftNetHashMap) : SwiftNetHashMap :=
  mk_hashmap (hm_items m) (item_occupation m) (hm_capacity m) n.
Definition set_occupation (o : list Z) (m : SwiftNetHashMap) : SwiftNetHashMap :=
  mk_hashmap (hm_items m) o (hm_capacity m) (hm_size m).
Definition set_nodes (s : Store SwiftNetHashMapItem) (h : MapHeap) : MapHeap := mk_heap s (map_keys h).
Definition set_keys (s : Store (list Z)) (h : MapHeap) : MapHeap := mk_heap (map_nodes h) s.

Section operations.
Context (seed : Z) (calloc_ok : Z -> bool).

Definition hash64 (data : list Z) : Z := foldl (fun res b => u64 (Z.lxor res b * seed)) 0 data.

Definition get_key (key_data : list Z) (cap : Z) : Z := u32 (Z.shiftr (hash64 key_data * cap) 64).

Definition read_item (p : item_ptr) (m : SwiftNetHashMap) (h : MapHeap) : Outcome SwiftNetHashMapItem :=
  match p with
  | InSlot i => of_option (hm_items m !! i)
  | InNode l => store_get l (map_nodes h)
  end.

Definition write_item (p : item_ptr) (x : SwiftNetHashMapItem) (m : SwiftNetHashMap) (h : MapHeap)
    : Outcome (SwiftNetHashMap * MapHeap) :=
  match p with
  | InSlot i => _ ← of_option (hm_items m !! i); Ok (set_items (<[i := x]> (hm_items m)) m, h)
  | InNode l => s ← store_set l x (map_nodes h); Ok (m, set_nodes s h)
  end.

(** [data_size == item->key_original_data_size && memcmp(...) == 0] *)
Definition key_equal (key_data : list Z) (x : SwiftNetHashMapItem) (h : MapHeap) : Outcome bool :=
  if Z.of_nat (length key_data) =? key_original_data_size x then
    k ← of_option (key_original_data x);
    stored ← store_get k (map_keys h);
    prefix ← mem_read 0 (Z.of_nat (length key_data)) stored;
    Ok (bool_decide (prefix = key_data))
  else Ok false.

(** Updates of the occupancy bitset. *)
Definition update_word (f : Z -> Z) (byte : Z) (occ : list Z) : Outcome (list Z) :=
  w ← of_option (occ !! Z.to_nat byte); Ok (<[Z.to_nat byte := f w]> occ).

(** A chain is no longer than the pool. *)
Definition chain_fuel (h : MapHeap) : nat := S (S (base.size (map_nodes h))).

Definition calloc_items (n : Z) : list SwiftNetHashMapItem := if calloc_ok n then repeat blank_item (Z.to_nat n) else [].
Definition calloc_words (n : Z) : list Z := if calloc_ok n then repeat 0 (Z.to_nat n) else [].

Definition hashmap_create : SwiftNetHashMap :=
  mk_hashmap (calloc_items (0x40 * SWIFT_NET_MEMORY_USAGE))
    (calloc_words ((0x40 * SWIFT_NET_MEMORY_USAGE + 31) / 32)) (0x40 * SWIFT_NET_MEMORY_USAGE) 0.

Fixpoint get_loop (fuel : nat) (key_data : list Z) (current_item : option item_ptr) (m : SwiftNetHashMap) (h : MapHeap)
    : Outcome (option loc) :=
  match fuel with
  | O => Diverge
  | S fuel =>
      match current_item with
      | None => Ok None
      | Some p =>
          x ← read_item p m h;
          found ← key_equal key_data x h;
          if found : bool then Ok (item_value x) else get_loop fuel key_data (InNode <$> item_next x) m h
      end
  end.

Definition hashmap_get (key_data : list Z) (m : SwiftNetHashMap) (h : MapHeap) : Outcome (option loc) :=
  get_loop (chain_fuel h) key_data (Some (InSlot (Z.to_nat (get_key key_data (hm_capacity m))))) m h.

(** *** Resizing *)
Fixpoint last_in_chain (fuel : nat) (p : item_ptr) (m : SwiftNetHashMap) (h : MapHeap) : Outcome item_ptr :=
  match fuel with
  | O => Diverge
  | S fuel =>
      x ← read_item p m h;
      match item_next x with
      | None => Ok p
      | Some n => last_in_chain fuel (InNode n) m h
      end
  end.

(** One entry goes to its place in the new array.  [1 << bit] is an [int]; for bit 31 C
    leaves the result open, here it is the 32-bit word with that bit, as compilers have it. *)
Definition rehash_item (x : SwiftNetHashMapItem) (m : SwiftNetHashMap) (h : MapHeap) : Outcome (SwiftNetHashMap * MapHeap) :=
  k ← of_option (key_original_data x);
  stored ← store_get k (map_keys h);
  key_data ← mem_read 0 (key_original_data_size x) stored;
  let new_key := get_key key_data (hm_capacity m) in
  let p := InSlot (Z.to_nat new_key) in
  occ ← update_word (fun w => Z.lor w (u32 (Z.shiftl 1 (new_key mod 32)))) (new_key / 32) (item_occupation m);
  let m := set_occupation occ m in
  t ← read_item p m h;
  let x_new := mk_item None (key_original_data x) (key_original_data_size x) (item_value x) in
  match item_value t with
  | Some _ =>
      last ← last_in_chain (chain_fuel h) p m h;
      let '(l, s) := store_alloc x_new (map_nodes h) in
      let h := set_nodes s h in
      y ← read_item last m h;
      write_item last (set_next (Some l) y) m h
  | None => write_item p x_new m h
  end.

Fixpoint rehash_nodes (fuel : nat) (o : option loc) (m : SwiftNetHashMap) (h : MapHeap) : Outcome (SwiftNetHashMap * MapHeap) :=
  match fuel with
  | O => Diverge
  | S fuel =>
      match o with
      | None => Ok (m, h)
      | Some n =>
          x ← store_get n (map_nodes h);
          '(m, h) ← rehash_item x m h;
          x ← store_get n (map_nodes h);
          rehash_nodes fuel (item_next x) m h
      end
  end.

Fixpoint rehash_slots (old : list SwiftNetHashMapItem) (m : SwiftNetHashMap) (h : MapHeap) : Outcome (SwiftNetHashMap * MapHeap) :=
  match old with
  | [] => Ok (m, h)
  | x :: old =>
      '(m, h) ← match item_value x with
                | None => Ok (m, h)
                | Some _ =>
                    '(m, h) ← rehash_item x m h;
                    rehash_nodes (chain_fuel h) (item_next x) m h
                end;
      rehash_slots old m h
  end.

(** The old chain nodes are not released. *)
Definition hashmap_resize (m : SwiftNetHashMap) (h : MapHeap) : Outcome (SwiftNetHashMap * MapHeap) :=
  let new_capacity := u32 (hm_capacity m * 4) in
  rehash_slots (hm_items m)
    (mk_hashmap (calloc_items new_capacity) (calloc_words (u32 (new_capacity + 31) / 32)) new_capacity (hm_size m)) h.

(** *** Insertion *)
Fixpoint insert_find (fuel : nat) (p : item_ptr) (m : SwiftNetHashMap) (h : MapHeap)
    : Outcome (item_ptr * SwiftNetHashMap * MapHeap) :=
  match fuel with
  | O => Diverge
  | S fuel =>
      x ← read_item p m h;
      match item_value x with
      | None => Ok (p, m, h)
      | Some _ =>
          match item_next x with
          | None =>
              let '(l, s) := store_alloc blank_item (map_nodes h) in
              '(m, h) ← write_item p (set_next (Some l) x) m (set_nodes s h);
              Ok (InNode l, m, h)
          | Some n => insert_find fuel (InNode n) m h
          end
      end
  end.

(** The occupancy bit is [0 << bit]. *)
Definition hashmap_insert (key_data : loc) (data_size : Z) (value : option loc) (m : SwiftNetHashMap) (h : MapHeap)
    : Outcome (SwiftNetHashMap * MapHeap) :=
  stored ← store_get key_data (map_keys h);
  bytes ← mem_read 0 data_size stored;
  let key := get_key bytes (hm_capacity m) in
  '(p, m, h) ← insert_find (chain_fuel h) (InSlot (Z.to_nat key)) m h;
  '(m, h) ← write_item p (mk_item None (Some key_data) data_size value) m h;
  let m := set_size (u32 (hm_size m + 1)) m in
  occ ← update_word (fun w => Z.lor w (u32 (Z.shiftl 0 (key mod 32)))) (key / 32) (item_occupation m);
  let m := set_occupation occ m in
  if hm_capacity m <=? hm_size m then hashmap_resize m h else Ok (m, h).

(** *** Removal *)
Definition free_hashmap_item_key (x : SwiftNetHashMapItem) (h : MapHeap) : Outcome MapHeap :=
  k ← of_option (key_original_data x);
  s ← store_free k (map_keys h);
  Ok (set_keys s h).

Fixpoint remove_find (fuel : nat) (key_data : list Z) (previous : item_ptr) (current : option item_ptr)
    (m : SwiftNetHashMap) (h : MapHeap) : Outcome (option (item_ptr * item_ptr)) :=
  match fuel with
  | O => Diverge
  | S fuel =>
      match current with
      | None => Ok None
      | Some p =>
          x ← read_item p m h;
          found ← key_equal key_data x h;
          if found : bool then Ok (Some (previous, p))
          else remove_find fuel key_data p (InNode <$> item_next x) m h
      end
  end.

(** The entry in the slot: its successor takes its place; without a successor the
    slot keeps the key of the removed entry. *)
Definition remove_head (p : item_ptr) (m : SwiftNetHashMap) (h : MapHeap) : Outcome (SwiftNetHashMap * MapHeap) :=
  x ← read_item p m h;
  '(m, h) ← write_item p (set_value None x) m h;
  match item_next x with
  | None => Ok (m, h)
  | Some n =>
      h ← free_hashmap_item_key x h;
      y ← store_get n (map_nodes h);
      '(m, h) ← write_item p y m h;
      '(m, h) ← write_item (InNode n) (set_next None (set_value None y)) m h;
      s ← store_free n (map_nodes h);
      Ok (m, set_nodes s h)
  end.

Definition remove_node (previous current : item_ptr) (m : SwiftNetHashMap) (h : MapHeap) : Outcome (SwiftNetHashMap * MapHeap) :=
  y ← read_item current m h;
  x ← read_item previous m h;
  '(m, h) ← write_item previous (set_next (item_next y) x) m h;
  '(m, h) ← write_item current (set_next None (set_value None y)) m h;
  h ← free_hashmap_item_key y h;
  match current with
  | InSlot _ => Fault
  | InNode l => s ← store_free l (map_nodes h); Ok (m, set_nodes s h)
  end.

Definition hashmap_remove (key_data : list Z) (m : SwiftNetHashMap) (h : MapHeap) : Outcome (SwiftNetHashMap * MapHeap) :=
  let key := get_key key_data (hm_capacity m) in
  let slot := InSlot (Z.to_nat key) in
  x ← read_item slot m h;
  occ ← match item_next x with
        | None => update_word (fun w => Z.land w (u32 (Z.lnot (Z.shiftl 0 (key mod 32))))) (key / 32) (item_occupation m)
        | Some _ => Ok (item_occupation m)
        end;
  let m := set_occupation occ m in
  found ← remove_find (chain_fuel h) key_data slot (Some slot) m h;
  match found with
  | None => Ok (m, h)
  | Some (previous, current) =>
      '(m, h) ← (if decide (current = previous) then remove_head current m h else remove_node previous current m h);
      Ok (set_size (u32 (hm_size m - 1)) m, h)
  end.

(** *** Destruction: the slots' own keys are not released. *)
Fixpoint destroy_chain (fuel : nat) (o : option loc) (h : MapHeap) : Outcome MapHeap :=
  match fuel with
  | O => Diverge
  | S fuel =>
      match o with
      | None => Ok h
      | Some n =>
          x ← store_get n (map_nodes h);
          h ← free_hashmap_item_key x h;
          s ← store_free n (map_nodes h);
          destroy_chain fuel (item_next x) (set_nodes s h)
      end
  end.

Fixpoint destroy_slots (l : list SwiftNetHashMapItem) (h : MapHeap) : Outcome MapHeap :=
  match l with
  | [] => Ok h
  | x :: l =>
      h ← match item_value x with
          | None => Ok h
          | Some _ => destroy_chain (chain_fuel h) (item_next x) h
          end;
      destroy_slots l h
  end.

Definition hashmap_destroy (m : SwiftNetHashMap) (h : MapHeap) : Outcome MapHeap := destroy_slots (hm_items m) h.
End operations.

(** *** [LOOP_HASHMAP]: [body] is run on the items of a chain. *)
Section loop.
Context {S : Type} (body : item_ptr -> S -> Outcome S) (next_of : item_ptr -> S -> Outcome (option loc)).

Fixpoint loop_chain (fuel : nat) (p : item_ptr) (s : S) : Outcome S :=
  match fuel with
  | O => Diverge
  | Datatypes.S fuel =>
      s ← body p s;
      n ← next_of p s;
      match n with
      | None => Ok s
      | Some l => loop_chain fuel (InNode l) s
      end
  end.

(** [__builtin_ctzl] of a non-zero 32-bit value. *)
Fixpoint lowest_bit (n : nat) (i x : Z) : Z :=
  match n with O => i | Datatypes.S n => if Z.testbit x i then i else lowest_bit n (i + 1) x end.

Fixpoint loop_word (fuel : nat) (i inverted : Z) (s : S) : Outcome S :=
  match fuel with
  | O => Diverge
  | Datatypes.S fuel =>
      if inverted =? (2 ^ 32 - 1) then Ok s
      else if inverted =? 0 then Fault
      else
        let bit_index := lowest_bit 32 0 inverted in
        s ← loop_chain fuel (InSlot (Z.to_nat (i * 32 + bit_index))) s;
        loop_word fuel i (Z.lor inverted (u32 (Z.shiftl 1 bit_index))) s
  end.

Fixpoint loop_words (fuel : nat) (n : nat) (i : Z) (occ : list Z) (s : S) : Outcome S :=
  match n with
  | O => Ok s
  | Datatypes.S n =>
      w ← of_option (occ !! Z.to_nat i);
      s ← (if w =? 0 then Ok s else loop_word fuel i (Z.lxor w (2 ^ 32 - 1)) s);
      loop_words fuel n (i + 1) occ s
  end.

(** The bodies of the loops in the code do not change the bitset. *)
Definition LOOP_HASHMAP (fuel : nat) (m : SwiftNetHashMap) (s : S) : Outcome S :=
  loop_words fuel (Z.to_nat (u32 (hm_capacity m + 31) / 32)) 0 (item_occupation m) s.
End loop.
