(* ===== verification/HashmapSpec.v ===== *)
(** * The hash map refines a keyed table

    The invariant of the map ([map_ok]): every slot with its chain represents a list of
    entries, chains and keys are pairwise disjoint and live, every entry lies in the
    slot its key hashes to.  Each operation is specified on the lists of entries; a
    run of operations then behaves as the association lists of Store.v. *)

From S2P Require Import Prelude Store Hashmap.

(** ** Buckets *)
Record entry := mk_entry { e_ptr : loc; e_key : list Z; e_value : loc }.

Definition item_of (e : entry) (next : option loc) : SwiftNetHashMapItem :=
  mk_item next (Some (e_ptr e)) (Z.of_nat (length (e_key e))) (Some (e_value e)).

Fixpoint node_chain (nodes : Store SwiftNetHashMapItem) (o : option loc) (l : list (loc * entry)) : Prop :=
  match l with
  | [] => o = None
  | (n, e) :: l => o = Some n /\ exists next, nodes !! n = Some (item_of e next) /\ node_chain nodes next l
  end.

(** An empty slot may still hold the key of its last entry. *)
Inductive bucket := BEmpty (stale : option (loc * list Z)) | BFull (e : entry) (rest : list (loc * entry)).

Definition bucket_ok (nodes : Store SwiftNetHashMapItem) (x : SwiftNetHashMapItem) (b : bucket) : Prop :=
  match b with
  | BEmpty None => x = blank_item
  | BEmpty (Some (k, key)) => x = mk_item None (Some k) (Z.of_nat (length key)) None
  | BFull e rest => exists next, x = item_of e next /\ node_chain nodes next rest
  end.

Definition entries (b : bucket) : list entry := match b with BEmpty _ => [] | BFull e rest => e :: map snd rest end.
Definition nodes_of (b : bucket) : list loc := match b with BEmpty _ => [] | BFull _ rest => map fst rest end.
Definition keys_of (b : bucket) : list (loc * list Z) :=
  match b with
  | BEmpty o => option_list o
  | BFull e rest => map (fun e => (e_ptr e, e_key e)) (e :: map snd rest)
  end.

Definition key_ok (key : list Z) : Prop := key <> [] /\ is_bytes key /\ Z.of_nat (length key) < 2 ^ 32.

Record map_ok (seed : Z) (m : SwiftNetHashMap) (h : MapHeap) (bs : list bucket) : Prop := {
  mp_length : Z.of_nat (length bs) = hm_capacity m;
  mp_capacity : 0 < hm_capacity m < 2 ^ 32 - 31;
  mp_slots : Forall2 (bucket_ok (map_nodes h)) (hm_items m) bs;
  mp_nodes : NoDup (concat (map nodes_of bs));
  mp_keys : NoDup (map fst (concat (map keys_of bs)));
  mp_live : forall k key, (k, key) ∈ concat (map keys_of bs) -> map_keys h !! k = Some key /\ key_ok key;
  mp_words : Z.of_nat (length (item_occupation m)) = (hm_capacity m + 31) / 32;
  mp_place : forall i b e, bs !! i = Some b -> e ∈ entries b -> Z.to_nat (get_key seed (e_key e) (hm_capacity m)) = i
}.

Definition all_entries (bs : list bucket) : list entry := concat (map entries bs).

(** ** Keys and slots *)
Lemma hash64_range seed data : 0 <= hash64 seed data < 2 ^ 64.
Proof.
  unfold hash64. assert (forall l a, 0 <= a < 2 ^ 64 -> 0 <= foldl (fun res b => u64 (Z.lxor res b * seed)) a l < 2 ^ 64) as H.
  { induction l as [|b l IH]; intros a Ha; [done|]. cbn [foldl]. apply IH. apply Z.mod_pos_bound. lia. }
  apply H. lia.
Qed.

Lemma get_key_range seed key cap : 0 < cap < 2 ^ 32 -> 0 <= get_key seed key cap < cap.
Proof.
  intros Hc. unfold get_key. pose proof (hash64_range seed key) as Hh. rewrite Z.shiftr_div_pow2 by lia.
  assert (0 <= hash64 seed key * cap / 2 ^ 64 < cap).
  { split; [apply Z.div_pos; nia|]. apply Z.div_lt_upper_bound; nia. }
  rewrite u32_id; lia.
Qed.

(** ** Buckets of a map *)
Lemma bucket_split {A} (f : bucket -> list A) bs i b :
  bs !! i = Some b ->
  exists pre post, (forall b', concat (map f (<[i := b']> bs)) = pre ++ f b' ++ post)
    /\ concat (map f bs) = pre ++ f b ++ post
    /\ (forall x, x ∈ pre \/ x ∈ post -> exists j b', j <> i /\ bs !! j = Some b' /\ x ∈ f b').
Proof.
  intros Hb. pose proof (lookup_lt_Some _ _ _ Hb) as Hi.
  exists (concat (map f (take i bs))), (concat (map f (drop (S i) bs))). split_and!.
  - intros b'. rewrite insert_take_drop by done. by rewrite map_app, concat_app.
  - rewrite <- (take_drop_middle bs i b Hb) at 1. by rewrite map_app, concat_app.
  - intros x Hx. rewrite !list_elem_of_In, !in_concat in Hx.
    destruct Hx as [(l & Hl & Hx)|(l & Hl & Hx)]; apply list_elem_of_In in Hl, Hx;
      apply list_elem_of_fmap in Hl as (b' & -> & Hl); apply list_elem_of_lookup in Hl as [j Hj].
    + apply lookup_take_Some in Hj as [Hj Hlt]. exists j, b'. split; [lia|done].
    + rewrite lookup_drop in Hj. exists (S i + j)%nat, b'. split; [lia|done].
Qed.

Lemma elem_of_concat_map {A} (f : bucket -> list A) bs i b x :
  bs !! i = Some b -> x ∈ f b -> x ∈ concat (map f bs).
Proof.
  intros Hb Hx. destruct (bucket_split f bs i b Hb) as (pre & post & _ & -> & _).
  rewrite !elem_of_app. auto.
Qed.

Lemma chain_frame nodes nodes' o l :
  (forall n, n ∈ map fst l -> nodes' !! n = nodes !! n) -> node_chain nodes o l -> node_chain nodes' o l.
Proof.
  revert o. induction l as [|[n e] l IH]; intros o Hf; cbn; [done|].
  intros (-> & next & Hn & Hc). split; [done|]. exists next. split; [rewrite Hf; [done|left]|].
  apply IH; [|done]. intros k Hk. apply Hf. by right.
Qed.

Lemma bucket_frame nodes nodes' x b :
  (forall n, n ∈ nodes_of b -> nodes' !! n = nodes !! n) -> bucket_ok nodes x b -> bucket_ok nodes' x b.
Proof.
  destruct b as [[[k key]|]|e rest]; cbn; [done|done|]. intros Hf (next & -> & Hc). exists next. split; [done|].
  by eapply chain_frame.
Qed.

Lemma concat_map_disjoint {A} (f : bucket -> list A) bs i j b b' x :
  NoDup (concat (map f bs)) -> bs !! i = Some b -> bs !! j = Some b' -> x ∈ f b -> x ∈ f b' -> i = j.
Proof.
  revert i j. induction bs as [|b0 bs IH]; intros i j; [done|]. cbn [map concat]. intros (_ & Hd & Hnd)%NoDup_app.
  destruct i as [|i], j as [|j]; cbn; intros Hi Hj Hx Hx'; [done| | |f_equal; by apply IH].
  - injection Hi as ->. exfalso. by apply (Hd x Hx), (elem_of_concat_map f bs j b').
  - injection Hj as ->. exfalso. by apply (Hd x Hx'), (elem_of_concat_map f bs i b).
Qed.

(** Replacing one bucket; the nodes of the others are untouched. *)
Lemma slots_update nodes nodes' its bs i b b' x' :
  Forall2 (bucket_ok nodes) its bs -> bs !! i = Some b -> bucket_ok nodes' x' b' ->
  NoDup (concat (map nodes_of bs)) ->
  (forall n, n ∈ concat (map nodes_of bs) -> n ∉ nodes_of b -> nodes' !! n = nodes !! n) ->
  Forall2 (bucket_ok nodes') (<[i := x']> its) (<[i := b']> bs).
Proof.
  intros Hf Hb Hx Hnd Hframe.
  assert (length its = length bs) as Hlen by (by eapply Forall2_length). pose proof (lookup_lt_Some _ _ _ Hb) as Hi.
  apply Forall2_same_length_lookup. split; [by rewrite !length_insert|]. intros j y z Hy Hz.
  destruct (decide (j = i)) as [->|Hne].
  - rewrite list_lookup_insert_eq in Hy by lia. rewrite list_lookup_insert_eq in Hz by lia. by simplify_eq.
  - rewrite list_lookup_insert_ne in Hy by done. rewrite list_lookup_insert_ne in Hz by done.
    eapply bucket_frame; [|by eapply Forall2_lookup_lr].
    intros n Hn. apply Hframe; [by eapply elem_of_concat_map|]. intros Hn'. apply Hne.
    by eapply (concat_map_disjoint nodes_of).
Qed.

(** Replacing a bucket keeps ownership when the new bucket owns no more than the old one
    and fresh objects. *)
Lemma owned_update {A B} (g : A -> B) (f : bucket -> list A) bs i b b' :
  NoDup (map g (concat (map f bs))) -> bs !! i = Some b -> NoDup (map g (f b')) ->
  (forall x, x ∈ map g (f b') -> x ∈ map g (f b) \/ x ∉ map g (concat (map f bs))) ->
  NoDup (map g (concat (map f (<[i := b']> bs)))).
Proof.
  intros Hnd Hb Hnd' Hsub. destruct (bucket_split f bs i b Hb) as (pre & post & -> & Heq & _).
  rewrite Heq in Hnd, Hsub. rewrite !map_app in *. apply NoDup_app in Hnd as (H1 & H2 & H3).
  apply NoDup_app in H3 as (H4 & H5 & H6).
  assert (forall x, x ∈ map g (f b') -> x ∈ map g pre \/ x ∈ map g post -> x ∈ map g (f b)) as Hin.
  { intros x Hx Hor. destruct (Hsub x Hx) as [|Hno]; [done|]. exfalso. apply Hno. rewrite !elem_of_app. tauto. }
  apply NoDup_app. split; [done|]. split.
  - intros x Hx. rewrite elem_of_app. intros [Hx'|Hx'].
    + apply (H2 x Hx). rewrite elem_of_app. left. auto.
    + apply (H2 x Hx). rewrite elem_of_app. by right.
  - apply NoDup_app. split; [done|]. split; [|done]. intros x Hx Hx'. apply (H5 x); auto.
Qed.

(** ** Comparing keys *)
Lemma key_equal_live key x h k stored :
  key_original_data x = Some k -> key_original_data_size x = Z.of_nat (length stored) -> map_keys h !! k = Some stored ->
  key_equal key x h = Ok (bool_decide (stored = key)).
Proof.
  intros Hk Hs Hl. unfold key_equal. rewrite Hs, Hk. destruct (Z.eqb_spec (Z.of_nat (length key)) (Z.of_nat (length stored))) as [E|E].
  - cbn [of_option]. rewrite bind_Ok. unfold store_get. rewrite Hl. cbn [of_option]. rewrite bind_Ok, E.
    rewrite mem_read_ok, bind_Ok by lia. rewrite Nat2Z.id. change (Z.to_nat 0) with 0%nat. by rewrite slice_full.
  - rewrite bool_decide_false; [done|]. intros ->. lia.
Qed.

Lemma key_equal_blank key h : key <> [] -> key_equal key blank_item h = Ok false.
Proof. intros Hk. unfold key_equal. cbn. destruct key; [done|]. by rewrite (proj2 (Z.eqb_neq _ _)) by (cbn [length]; lia). Qed.

(** The entries under one key, oldest first. *)
Definition under (key : list Z) (l : list entry) : list entry := filter (fun e => e_key e = key) l.

Definition live (h : MapHeap) (l : list entry) : Prop := forall e, e ∈ l -> map_keys h !! e_ptr e = Some (e_key e).

Lemma key_equal_item key e next h : live h [e] -> key_equal key (item_of e next) h = Ok (bool_decide (e_key e = key)).
Proof. intros Hl. apply (key_equal_live _ _ _ (e_ptr e)); [done|done|]. apply Hl. left. Qed.

Lemma live_cons h e l : live h (e :: l) <-> live h [e] /\ live h l.
Proof.
  unfold live. split.
  - intros H. split; [intros x ->%list_elem_of_singleton; apply H; left|intros x Hx; apply H; by right].
  - intros [H1 H2] x [->|Hx]%elem_of_cons; [apply H1; left|by apply H2].
Qed.

Lemma get_nodes fuel key m h o l :
  node_chain (map_nodes h) o l -> live h (map snd l) -> (length l < fuel)%nat ->
  get_loop fuel key (InNode <$> o) m h = Ok (e_value <$> head (under key (map snd l))).
Proof.
  revert o fuel. induction l as [|[n e] l IH]; intros o fuel Hc Hlive Hf; (destruct fuel as [|fuel]; [cbn [length] in Hf; lia|]); cbn [node_chain] in Hc.
  - by subst o.
  - destruct Hc as (-> & next & Hn & Hc). cbn [map snd] in *. apply live_cons in Hlive as [Hle Hlive].
    cbn [get_loop fmap option_fmap option_map]. unfold read_item, store_get. rewrite Hn. cbn [of_option].
    rewrite bind_Ok, key_equal_item, bind_Ok by done. unfold under. rewrite filter_cons.
    cbn [length] in Hf. case_bool_decide; [by rewrite decide_True|]. rewrite decide_False by done. apply IH; [done|done|lia].
Qed.

Lemma chain_length nodes o l : node_chain nodes o l -> NoDup (map fst l) -> (length l <= base.size nodes)%nat.
Proof.
  intros Hc Hnd. rewrite <- (length_map fst l), <- size_dom.
  rewrite <- (size_list_to_set (C := gset loc)) by done. apply subseteq_size. intros n Hn.
  apply elem_of_list_to_set in Hn. apply elem_of_dom. revert o Hc Hn. clear Hnd.
  induction l as [|[n' e] l IH]; intros o; cbn; [intros _ Hn; by apply not_elem_of_nil in Hn|].
  intros (-> & next & Hn' & Hc) [->|Hn]%elem_of_cons; [by eexists|by eapply IH].
Qed.

Lemma chain_fuel_S h : exists f, chain_fuel h = S f /\ (base.size (map_nodes h) < f)%nat.
Proof. eexists. split; [done|]. lia. Qed.

Section map_facts.
Context {seed : Z} {m : SwiftNetHashMap} {h : MapHeap} {bs : list bucket}.
Hypothesis Hok : map_ok seed m h bs.

Lemma slot_of key : exists i b x, i = Z.to_nat (get_key seed key (hm_capacity m)) /\ bs !! i = Some b
  /\ hm_items m !! i = Some x /\ bucket_ok (map_nodes h) x b.
Proof.
  pose proof (get_key_range seed key (hm_capacity m) ltac:(pose proof (mp_capacity _ _ _ _ Hok); lia)) as Hr.
  pose proof (mp_length _ _ _ _ Hok) as Hl. set (i := Z.to_nat (get_key seed key (hm_capacity m))) in *.
  destruct (lookup_lt_is_Some_2 bs i) as [b Hb]; [lia|].
  destruct (Forall2_lookup_r _ _ _ _ _ (mp_slots _ _ _ _ Hok) Hb) as (x & Hx & Hbx). by exists i, b, x.
Qed.

Lemma bucket_live i b : bs !! i = Some b -> live h (entries b).
Proof.
  intros Hb e He. apply (mp_live _ _ _ _ Hok). apply (elem_of_concat_map keys_of bs i b); [done|].
  destruct b as [|e0 rest]; [by apply not_elem_of_nil in He|]. cbn [entries keys_of] in *.
  by apply (list_elem_of_fmap_2 (fun e => (e_ptr e, e_key e))) in He.
Qed.

Lemma bucket_chain_length i e rest : bs !! i = Some (BFull e rest) -> (length rest <= base.size (map_nodes h))%nat.
Proof.
  intros Hb. destruct (Forall2_lookup_r _ _ _ _ _ (mp_slots _ _ _ _ Hok) Hb) as (x & Hx & next & -> & Hc).
  eapply chain_length; [done|]. pose proof (mp_nodes _ _ _ _ Hok) as Hnd.
  destruct (bucket_split nodes_of bs i _ Hb) as (pre & post & _ & Heq & _). rewrite Heq in Hnd.
  apply NoDup_app in Hnd as (_ & _ & Hnd). by apply NoDup_app in Hnd as (Hnd & _).
Qed.

(** Entries under a key lie in the key's bucket. *)
Lemma under_all key i b : i = Z.to_nat (get_key seed key (hm_capacity m)) -> bs !! i = Some b ->
  under key (all_entries bs) = under key (entries b).
Proof.
  intros Hi Hb. unfold all_entries. destruct (bucket_split entries bs i b Hb) as (pre & post & _ & -> & Hout).
  unfold under. rewrite !filter_app, (filter_none _ pre), (filter_none _ post), app_nil_r; [done|..].
  - intros e He Hk. destruct (Hout e (or_intror He)) as (j & b' & Hne & Hb' & He').
    apply Hne. rewrite <- (mp_place _ _ _ _ Hok j b' e Hb' He'), Hk. done.
  - intros e He Hk. destruct (Hout e (or_introl He)) as (j & b' & Hne & Hb' & He').
    apply Hne. rewrite <- (mp_place _ _ _ _ Hok j b' e Hb' He'), Hk. done.
Qed.

Lemma hashmap_get_ok key : key <> [] ->
  hashmap_get seed key m h = Ok (e_value <$> head (under key (all_entries bs))).
Proof.
  intros Hkey. destruct (slot_of key) as (i & b & x & Hi & Hb & Hx & Hbx).
  rewrite (under_all key i b Hi Hb). unfold hashmap_get. destruct (chain_fuel_S h) as (f & -> & Hf).
  rewrite <- Hi. cbn [get_loop read_item].
  rewrite Hx. cbn [of_option]. rewrite bind_Ok. destruct b as [[[k stale]|]|e rest]; cbn [bucket_ok] in Hbx.
  - subst x. rewrite (key_equal_live _ _ _ k stale), bind_Ok; [|done|done|].
    + destruct f as [|f]; [lia|]. by case_bool_decide.
    + apply (mp_live _ _ _ _ Hok). apply (elem_of_concat_map keys_of bs i _ _ Hb). left.
  - subst x. rewrite key_equal_blank, bind_Ok by done. by destruct f as [|f]; [lia|].
  - destruct Hbx as (next & -> & Hc). pose proof (bucket_live i _ Hb) as Hlive. cbn [entries] in *.
    apply live_cons in Hlive as [Hle Hlive]. rewrite key_equal_item, bind_Ok by done.
    unfold under. rewrite filter_cons. case_bool_decide; [by rewrite decide_True|]. rewrite decide_False by done.
    apply get_nodes; [done|done|]. pose proof (bucket_chain_length i e rest Hb). lia.
Qed.
End map_facts.

(** ** Appending an entry to a bucket *)
Definition append_entry (l : loc) (e : entry) (b : bucket) : bucket :=
  match b with
  | BEmpty _ => BFull e []
  | BFull e0 rest => BFull e0 (rest ++ [(l, e)])
  end.

Lemma entries_append l e b : entries (append_entry l e b) = entries b ++ [e].
Proof. destruct b; [done|]. cbn. by rewrite map_app. Qed.

Lemma node_chain_elem nodes o l n e : node_chain nodes o l -> (n, e) ∈ l -> exists next, nodes !! n = Some (item_of e next).
Proof.
  revert o. induction l as [|[n' e'] l IH]; intros o; cbn; [intros _ H; by apply not_elem_of_nil in H|].
  intros (-> & next & Hn & Hc). rewrite elem_of_cons. intros [[= -> ->]|Hin]; [by exists next|by eapply IH].
Qed.

Lemma chain_append nodes nodes' o l n en e k :
  node_chain nodes o (l ++ [(n, en)]) -> NoDup (map fst (l ++ [(n, en)])) -> nodes !! k = None ->
  nodes' !! n = Some (item_of en (Some k)) -> nodes' !! k = Some (item_of e None) ->
  (forall j, j <> n -> j <> k -> nodes' !! j = nodes !! j) ->
  node_chain nodes' o ((l ++ [(n, en)]) ++ [(k, e)]).
Proof.
  intros Hc Hnd Hk Hn' Hk' Hf. revert o Hc. induction l as [|[n' e'] l IH]; intros o; cbn.
  - intros (-> & next & _ & _). split; [done|]. exists (Some k). split; [done|]. split; [done|]. by exists None.
  - intros (-> & next & Hn & Hc). cbn in Hnd. apply NoDup_cons in Hnd as [Hni Hnd]. split; [done|]. exists next.
    split; [|by apply IH]. rewrite Hf; [done| |].
    + intros ->. apply Hni. rewrite map_app. apply elem_of_app. right. left.
    + intros ->. congruence.
Qed.

(** What placing an entry in slot [i] does. *)
Definition placed (i : nat) (b : bucket) (e : entry) (m : SwiftNetHashMap) (h : MapHeap) (m' : SwiftNetHashMap) (h' : MapHeap) : Prop :=
  exists l x', map_nodes h !! l = None
    /\ hm_items m' = <[i := x']> (hm_items m) /\ hm_capacity m' = hm_capacity m
    /\ length (item_occupation m') = length (item_occupation m) /\ map_keys h' = map_keys h
    /\ bucket_ok (map_nodes h') x' (append_entry l e b)
    /\ forall n, n ∉ nodes_of b -> n <> l -> map_nodes h' !! n = map_nodes h !! n.

Lemma insert_find_nodes fuel m h o l n en :
  node_chain (map_nodes h) o (l ++ [(n, en)]) -> (length l < fuel)%nat ->
  exists p, InNode <$> o = Some p
    /\ insert_find fuel p m h
       = Ok (InNode (store_next (map_nodes h)), m,
             set_nodes (<[n := item_of en (Some (store_next (map_nodes h)))]> (<[store_next (map_nodes h) := blank_item]> (map_nodes h))) h)
    /\ last_in_chain fuel p m h = Ok (InNode n).
Proof.
  revert o fuel. induction l as [|[n' e'] l IH]; intros o fuel; cbn [app node_chain];
    (intros (-> & next & Hn & Hc) Hf); cbn [length] in Hf; (destruct fuel as [|fuel]; [lia|]);
    eexists; (split; [done|]); cbn [insert_find last_in_chain read_item]; unfold store_get; rewrite Hn; cbn [of_option];
    rewrite !bind_Ok; cbn [item_of item_value item_next].
  - cbn in Hc. subst next. split; [|done]. cbn [store_alloc write_item set_nodes map_nodes].
    assert (n <> store_next (map_nodes h)) as Hne by (intros E; rewrite E, store_next_fresh in Hn; done).
    rewrite (store_set_ok _ _ (item_of en None)), !bind_Ok by (by rewrite lookup_insert_ne). done.
  - destruct (IH next fuel Hc ltac:(lia)) as (p & Hp & H1 & H2). destruct next as [k|]; [|done].
    injection Hp as <-. by split.
Qed.

(** Reading and writing the slot. *)
Lemma chain_last (rest : list (loc * entry)) : rest = [] \/ exists l n en, rest = l ++ [(n, en)].
Proof. induction rest as [|[n en] l _] using rev_ind; [by left|]. right. by exists l, n, en. Qed.

Lemma insert_place fuel i b e m h x :
  hm_items m !! i = Some x -> bucket_ok (map_nodes h) x b -> NoDup (nodes_of b) -> (length (nodes_of b) < fuel)%nat ->
  exists m' h', ('(p, m, h) ← insert_find (S fuel) (InSlot i) m h; write_item p (item_of e None) m h) = Ok (m', h')
    /\ placed i b e m h m' h' /\ hm_size m' = hm_size m /\ item_occupation m' = item_occupation m.
Proof.
  intros Hx Hb Hnd Hf. pose proof (lookup_lt_Some _ _ _ Hx) as Hi. cbn [insert_find read_item]. rewrite Hx. cbn [of_option].
  rewrite bind_Ok. set (k := store_next (map_nodes h)). pose proof (store_next_fresh (map_nodes h)) as Hk. fold k in Hk.
  destruct b as [o|e0 rest].
  - assert (item_value x = None) as -> by (by destruct o as [[??]|]; cbn in Hb; subst x). rewrite bind_Ok.
    cbn [write_item]. rewrite Hx. cbn [of_option]. rewrite bind_Ok. do 2 eexists. split; [done|]. split; [|done].
    exists k, (item_of e None). split_and!; try done. cbn. by exists None.
  - cbn [bucket_ok] in Hb. destruct Hb as (next & -> & Hc). cbn [item_of item_value item_next nodes_of] in *.
    destruct (chain_last rest) as [->|(l & n & en & ->)].
    + cbn in Hc. subst next. cbn [store_alloc write_item set_nodes map_nodes]. fold k. rewrite Hx. cbn [of_option]. rewrite !bind_Ok.
      cbn [write_item map_nodes]. rewrite (store_set_ok _ _ blank_item), bind_Ok by apply lookup_insert_eq.
      do 2 eexists. split; [done|]. split; [|done]. exists k, (item_of e0 (Some k)). split_and!; try done.
      * cbn. exists (Some k). split; [done|]. split; [done|]. exists None. by rewrite lookup_insert_eq.
      * intros j _ Hj. cbn. by rewrite !lookup_insert_ne.
    + destruct (insert_find_nodes fuel m h next l n en Hc) as (p & Hp & Hins & _).
      { rewrite length_map, length_app in Hf. cbn in Hf. lia. }
      destruct next as [n0|]; [|done]. injection Hp as <-. rewrite Hins, bind_Ok. fold k. cbn [write_item set_nodes map_nodes].
      assert (n <> k) as Hne.
      { intros ->. destruct (node_chain_elem _ _ _ k en Hc) as [? E]; [apply elem_of_app; right; left|]. congruence. }
      rewrite (store_set_ok _ _ blank_item), bind_Ok by (rewrite lookup_insert_ne by done; apply lookup_insert_eq).
      do 2 eexists. split; [done|]. split; [|done]. exists k, (item_of e0 (Some n0)).
      split_and!; try done.
      * cbn. symmetry. by apply list_insert_id.
      * cbn. exists (Some n0). split; [done|]. eapply chain_append; [done|done|done|..].
        -- rewrite lookup_insert_ne by done. apply lookup_insert_eq.
        -- apply lookup_insert_eq.
        -- intros j H1 H2. by rewrite !lookup_insert_ne.
      * intros j Hj1 Hj2. cbn. rewrite !lookup_insert_ne; [done|done| |done].
        intros ->. apply Hj1. cbn [nodes_of]. rewrite map_app. apply elem_of_app. right. left.
Qed.

Lemma nodes_append l e b n : n ∈ nodes_of (append_entry l e b) -> n ∈ nodes_of b \/ n = l.
Proof.
  destruct b as [o|e0 rest]; cbn; [intros H; by apply not_elem_of_nil in H|]. rewrite map_app, elem_of_app.
  intros [H|H]; [by left|right]. by apply list_elem_of_singleton in H.
Qed.

Lemma nodup_nodes_append l e b : NoDup (nodes_of b) -> l ∉ nodes_of b -> NoDup (nodes_of (append_entry l e b)).
Proof.
  destruct b as [o|e0 rest]; cbn; [intros _ _; apply NoDup_nil_2|]. intros Hnd Hl. rewrite map_app. apply NoDup_app.
  split; [done|]. split; [|apply NoDup_singleton]. intros x Hx Hx'. apply list_elem_of_singleton in Hx'. cbn in Hx'. by subst.
Qed.

Lemma keys_append l e b k : k ∈ keys_of (append_entry l e b) -> k ∈ keys_of b \/ k = (e_ptr e, e_key e).
Proof.
  destruct b as [o|e0 rest]; cbn.
  - intros Hk. apply list_elem_of_singleton in Hk. by right.
  - rewrite map_app, map_app, !elem_of_cons, elem_of_app. intros [H|[H|H]]; [by left; left|by left; right|right].
    by apply list_elem_of_singleton in H.
Qed.

Lemma nodup_keys_append l e b :
  NoDup (map fst (keys_of b)) -> e_ptr e ∉ map fst (keys_of b) -> NoDup (map fst (keys_of (append_entry l e b))).
Proof.
  destruct b as [o|e0 rest]; cbn; [intros _ _; apply NoDup_singleton|]. intros [H1 H2]%NoDup_cons [H3 H4]%not_elem_of_cons.
  rewrite !map_app. cbn. apply NoDup_cons. split.
  - rewrite elem_of_app. intros [H|H]; [done|]. apply list_elem_of_singleton in H. by subst.
  - apply NoDup_app. split; [done|]. split; [|apply NoDup_singleton]. intros x Hx Hx'.
    apply list_elem_of_singleton in Hx'. by subst.
Qed.

Lemma bucket_nodup_nodes bs i b : NoDup (concat (map nodes_of bs)) -> bs !! i = Some b -> NoDup (nodes_of b).
Proof.
  intros Hnd Hb. destruct (bucket_split nodes_of bs i b Hb) as (pre & post & _ & Heq & _). rewrite Heq in Hnd.
  apply NoDup_app in Hnd as (_ & _ & Hnd). by apply NoDup_app in Hnd as (Hnd & _).
Qed.

Lemma bucket_nodup_keys bs i b : NoDup (map fst (concat (map keys_of bs))) -> bs !! i = Some b -> NoDup (map fst (keys_of b)).
Proof.
  intros Hnd Hb. destruct (bucket_split keys_of bs i b Hb) as (pre & post & _ & Heq & _). rewrite Heq, !map_app in Hnd.
  apply NoDup_app in Hnd as (_ & _ & Hnd). by apply NoDup_app in Hnd as (Hnd & _).
Qed.

Lemma elem_of_update {A} (f : bucket -> list A) bs i b b' x :
  bs !! i = Some b -> x ∈ concat (map f (<[i := b']> bs)) -> x ∈ concat (map f bs) \/ x ∈ f b'.
Proof.
  intros Hb. destruct (bucket_split f bs i b Hb) as (pre & post & -> & -> & _). rewrite !elem_of_app. tauto.
Qed.

(** Every node of the map is allocated. *)
Lemma owned_allocated {seed m h bs} n : map_ok seed m h bs -> n ∈ concat (map nodes_of bs) -> is_Some (map_nodes h !! n).
Proof.
  intros Hok Hn. rewrite list_elem_of_In, in_concat in Hn. destruct Hn as (l & Hl & Hn). apply list_elem_of_In in Hl, Hn.
  apply list_elem_of_fmap in Hl as (b & -> & Hl). apply list_elem_of_lookup in Hl as [j Hj].
  destruct (Forall2_lookup_r _ _ _ _ _ (mp_slots _ _ _ _ Hok) Hj) as (x & Hx & Hb).
  destruct b as [o|e rest]; [by apply not_elem_of_nil in Hn|]. destruct Hb as (next & -> & Hc).
  apply list_elem_of_fmap in Hn as ([n' en] & -> & Hn). cbn. destruct (node_chain_elem _ _ _ _ _ Hc Hn) as [? ->]. by eexists.
Qed.

(** The other nodes and the keys after an operation. *)
Record grown (h : MapHeap) (bs : list bucket) (h' : MapHeap) (bs' : list bucket) : Prop := {
  gr_keys : map_keys h' = map_keys h;
  gr_frame : forall n, is_Some (map_nodes h !! n) -> n ∉ concat (map nodes_of bs) ->
               map_nodes h' !! n = map_nodes h !! n /\ n ∉ concat (map nodes_of bs')
}.

(** The buckets after an entry was placed, the invariant and what is under a key. *)
Lemma placed_map_ok seed i b e l x' m h m' h' bs :
  map_ok seed m h bs -> bs !! i = Some b -> i = Z.to_nat (get_key seed (e_key e) (hm_capacity m)) ->
  live h [e] -> key_ok (e_key e) -> e_ptr e ∉ map fst (concat (map keys_of bs)) ->
  l ∉ concat (map nodes_of bs) -> hm_items m' = <[i := x']> (hm_items m) -> hm_capacity m' = hm_capacity m ->
  length (item_occupation m') = length (item_occupation m) -> map_keys h' = map_keys h -> bucket_ok (map_nodes h') x' (append_entry l e b) ->
  (forall n, n ∉ nodes_of b -> n <> l -> map_nodes h' !! n = map_nodes h !! n) ->
  map_ok seed m' h' (<[i := append_entry l e b]> bs).
Proof.
  intros Hok Hb Hi Hlive Hkey Hnew Hlb Hits Hcap Hocc Hkeys Hx' Hframe.
  pose proof (bucket_nodup_nodes _ _ _ (mp_nodes _ _ _ _ Hok) Hb) as Hndb.
  pose proof (bucket_nodup_keys _ _ _ (mp_keys _ _ _ _ Hok) Hb) as Hkdb.
  assert (l ∉ nodes_of b) as Hlb' by (intros H; by apply Hlb, (elem_of_concat_map nodes_of bs i b)).
  pose proof Hok as []. constructor; rewrite ?Hcap, ?Hits, ?Hocc, ?length_insert; try done.
  - eapply slots_update; [done|done|done|done|]. intros n Hn Hnb. apply Hframe; [done|]. intros ->. done.
  - rewrite <- (map_id (concat (map nodes_of _))). eapply owned_update; [by rewrite map_id|done|rewrite map_id; by apply nodup_nodes_append|].
    intros n. rewrite !map_id. intros [Hn| ->]%nodes_append; [by left|by right].
  - eapply owned_update; [done|done|apply nodup_keys_append; [done|]|].
    + intros H. apply Hnew. destruct (bucket_split keys_of bs i b Hb) as (pre & post & _ & -> & _).
      rewrite !map_app, !elem_of_app. auto.
    + intros k Hk. apply list_elem_of_fmap in Hk as (kk & -> & Hk). apply keys_append in Hk as [Hk| ->].
      * left. by apply (list_elem_of_fmap_2 fst).
      * by right.
  - intros k key Hk. rewrite Hkeys. apply (elem_of_update keys_of bs i b _ _ Hb) in Hk as [Hk|Hk]; [auto|].
    apply keys_append in Hk as [Hk|[= -> ->]].
    + apply mp_live0. by eapply elem_of_concat_map.
    + split; [|done]. apply Hlive. left.
  - intros j b' e' Hj He. destruct (decide (j = i)) as [->|Hne].
    + rewrite list_lookup_insert_eq in Hj by (by eapply lookup_lt_Some). injection Hj as <-.
      rewrite entries_append, elem_of_app in He. destruct He as [He|He]; [by eapply mp_place0|].
      apply list_elem_of_singleton in He. by subst.
    + rewrite list_lookup_insert_ne in Hj by done. by eapply mp_place0.
Qed.

Lemma placed_under seed i b e l m h bs key :
  map_ok seed m h bs -> bs !! i = Some b -> i = Z.to_nat (get_key seed (e_key e) (hm_capacity m)) ->
  under key (all_entries (<[i := append_entry l e b]> bs)) = under key (all_entries bs) ++ under key [e].
Proof.
  intros Hok Hb Hi. unfold all_entries. destruct (bucket_split entries bs i b Hb) as (pre & post & -> & Heq & Hout).
  rewrite Heq, entries_append. unfold under. rewrite !filter_app, <- !app_assoc. do 2 f_equal.
  destruct (decide (e_key e = key)) as [<-|Hne].
  - rewrite (filter_none _ post), !app_nil_r; [done|]. intros e' He' Hk.
    destruct (Hout e' (or_intror He')) as (j & b' & Hne & Hb' & Hin). apply Hne.
    rewrite <- (mp_place _ _ _ _ Hok j b' e' Hb' Hin), Hk. done.
  - rewrite (filter_none _ [e]), app_nil_r; [done|]. intros e' ->%list_elem_of_singleton. done.
Qed.

Lemma placed_ok seed i b e m h m' h' bs :
  map_ok seed m h bs -> bs !! i = Some b -> i = Z.to_nat (get_key seed (e_key e) (hm_capacity m)) ->
  live h [e] -> key_ok (e_key e) -> e_ptr e ∉ map fst (concat (map keys_of bs)) -> placed i b e m h m' h' ->
  exists bs', map_ok seed m' h' bs' /\ grown h bs h' bs'
    /\ (forall key, under key (all_entries bs') = under key (all_entries bs) ++ under key [e])
    /\ (forall k, k ∈ map fst (concat (map keys_of bs')) -> k ∈ map fst (concat (map keys_of bs)) \/ k = e_ptr e)
    /\ length (all_entries bs') = S (length (all_entries bs)).
Proof.
  intros Hok Hb Hi Hlive Hkey Hnew (l & x' & Hl & Hits & Hcap & Hocc & Hkeys & Hx' & Hframe).
  assert (l ∉ concat (map nodes_of bs)) as Hlb.
  { intros Hin. destruct (owned_allocated l Hok Hin) as [? E]. congruence. }
  exists (<[i := append_entry l e b]> bs).
  split_and!.
  - by eapply placed_map_ok.
  - constructor; [done|]. intros n [y Hn] Hno. split.
    + apply Hframe; [|congruence]. intros H. by apply Hno, (elem_of_concat_map nodes_of bs i b).
    + intros H. apply (elem_of_update nodes_of bs i b _ _ Hb) in H as [H|H]; [done|].
      apply nodes_append in H as [H| ->]; [|congruence]. by apply Hno, (elem_of_concat_map nodes_of bs i b).
  - intros key. by eapply placed_under.
  - intros k Hk. apply list_elem_of_fmap in Hk as (kk & -> & Hk).
    apply (elem_of_update keys_of bs i b _ _ Hb) in Hk as [Hk|Hk]; [left; by apply (list_elem_of_fmap_2 fst)|].
    apply keys_append in Hk as [Hk| ->]; [|by right]. left. apply (list_elem_of_fmap_2 fst). by eapply elem_of_concat_map.
  - unfold all_entries. destruct (bucket_split entries bs i b Hb) as (pre & post & -> & -> & _).
    rewrite entries_append, !length_app. cbn. lia.
Qed.

(** ** Rehashing *)
Lemma update_word_ok f byte occ w : occ !! Z.to_nat byte = Some w -> update_word f byte occ = Ok (<[Z.to_nat byte := f w]> occ).
Proof. intros H. unfold update_word. by rewrite H. Qed.

Lemma word_of {seed m h bs} key : map_ok seed m h bs ->
  exists w, item_occupation m !! Z.to_nat (get_key seed key (hm_capacity m) / 32) = Some w.
Proof.
  intros Hok. pose proof (mp_capacity _ _ _ _ Hok). pose proof (mp_words _ _ _ _ Hok) as Hw.
  pose proof (get_key_range seed key (hm_capacity m) ltac:(lia)). apply lookup_lt_is_Some_2. dlia.
Qed.

Lemma rehash_place fuel i b e m h x :
  hm_items m !! i = Some x -> bucket_ok (map_nodes h) x b -> NoDup (nodes_of b) -> (length (nodes_of b) < fuel)%nat ->
  exists m' h', (match item_value x with
      | Some _ =>
          last ← last_in_chain (S fuel) (InSlot i) m h;
          let '(l, s) := store_alloc (item_of e None) (map_nodes h) in
          let h := set_nodes s h in
          y ← read_item last m h;
          write_item last (set_next (Some l) y) m h
      | None => write_item (InSlot i) (item_of e None) m h
      end) = Ok (m', h')
    /\ placed i b e m h m' h' /\ hm_size m' = hm_size m.
Proof.
  intros Hx Hb Hnd Hf. set (k := store_next (map_nodes h)). pose proof (store_next_fresh (map_nodes h)) as Hk. fold k in Hk.
  destruct b as [o|e0 rest].
  - assert (item_value x = None) as -> by (by destruct o as [[??]|]; cbn in Hb; subst x).
    cbn [write_item]. rewrite Hx. cbn [of_option]. rewrite bind_Ok. do 2 eexists. split; [done|]. split; [|done].
    exists k, (item_of e None). split_and!; try done. cbn. by exists None.
  - cbn [bucket_ok] in Hb. destruct Hb as (next & -> & Hc). cbn [item_of item_value nodes_of last_in_chain read_item] in *.
    rewrite Hx. cbn [of_option]. rewrite bind_Ok. cbn [item_next item_of].
    destruct (chain_last rest) as [->|(l & n & en & ->)].
    + cbn in Hc. subst next. rewrite bind_Ok. cbn [store_alloc read_item write_item]. fold k. rewrite Hx. cbn [of_option]. rewrite !bind_Ok.
      do 2 eexists. split; [done|]. split; [|done]. exists k, (item_of e0 (Some k)). split_and!; try done.
      * cbn. exists (Some k). split; [done|]. split; [done|]. exists None. by rewrite lookup_insert_eq.
      * intros j _ Hj. cbn. by rewrite !lookup_insert_ne.
    + destruct (insert_find_nodes fuel m h next l n en Hc) as (p & Hp & _ & Hlast).
      { rewrite length_map, length_app in Hf. cbn in Hf. lia. }
      destruct next as [n0|]; [|done]. injection Hp as <-. rewrite Hlast, bind_Ok.
      cbn [store_alloc read_item write_item set_nodes map_nodes]. fold k.
      destruct (node_chain_elem _ _ _ n en Hc) as [nx Hn]; [apply elem_of_app; right; left|].
      assert (n <> k) as Hne by (intros ->; congruence).
      unfold store_get. rewrite lookup_insert_ne by done. rewrite Hn. cbn [of_option]. rewrite bind_Ok.
      rewrite (store_set_ok _ _ (item_of en nx)), bind_Ok by (by rewrite lookup_insert_ne).
      do 2 eexists. split; [done|]. split; [|done]. exists k, (item_of e0 (Some n0)). split_and!; try done.
      * symmetry. by apply list_insert_id.
      * cbn. exists (Some n0). split; [done|]. eapply chain_append; [done|done|done|..].
        -- apply lookup_insert_eq.
        -- rewrite lookup_insert_ne by done. apply lookup_insert_eq.
        -- intros j H1 H2. by rewrite !lookup_insert_ne.
      * intros j Hj1 Hj2. cbn. rewrite !lookup_insert_ne; [done|done|].
        intros ->. apply Hj1. cbn [nodes_of]. rewrite map_app. apply elem_of_app. right. left.
Qed.

Lemma set_occupation_ok seed m h bs occ :
  map_ok seed m h bs -> length occ = length (item_occupation m) -> map_ok seed (set_occupation occ m) h bs.
Proof. intros [] Hl. constructor; try done. cbn. by rewrite Hl. Qed.

Lemma set_size_ok seed m h bs n : map_ok seed m h bs -> map_ok seed (set_size n m) h bs.
Proof. intros []. by constructor. Qed.

(** The effect of entering [es], in order, on the entries. *)
Definition entered (es : list entry) (bs bs' : list bucket) : Prop :=
  (forall key, under key (all_entries bs') = under key (all_entries bs) ++ under key es)
  /\ (forall k, k ∈ map fst (concat (map keys_of bs')) -> k ∈ map fst (concat (map keys_of bs)) \/ k ∈ map e_ptr es)
  /\ length (all_entries bs') = (length (all_entries bs) + length es)%nat.

Lemma rehash_item_ok seed e nx m h bs :
  map_ok seed m h bs -> live h [e] -> key_ok (e_key e) -> e_ptr e ∉ map fst (concat (map keys_of bs)) ->
  exists m' h' bs', rehash_item seed (item_of e nx) m h = Ok (m', h') /\ map_ok seed m' h' bs' /\ grown h bs h' bs'
    /\ entered [e] bs bs' /\ hm_size m' = hm_size m /\ hm_capacity m' = hm_capacity m.
Proof.
  intros Hok Hlive Hkey Hnew. unfold rehash_item. cbn [item_of key_original_data of_option key_original_data_size item_value].
  rewrite bind_Ok. unfold store_get at 1. rewrite (Hlive e) by left. cbn [of_option]. rewrite bind_Ok, mem_read_ok, bind_Ok by lia.
  rewrite Nat2Z.id. change (Z.to_nat 0) with 0%nat. rewrite slice_full.
  destruct (word_of (e_key e) Hok) as [w Hw]. rewrite (update_word_ok _ _ _ w Hw), bind_Ok.
  set (occ := <[_ := _]> (item_occupation m)).
  assert (map_ok seed (set_occupation occ m) h bs) as Hok' by (apply set_occupation_ok; [done|apply length_insert]).
  destruct (slot_of Hok' (e_key e)) as (i & b & x & Hi & Hb & Hx & Hbx). cbn [set_occupation hm_capacity] in Hi.
  rewrite <- Hi. cbn [read_item]. rewrite Hx. cbn [of_option]. rewrite bind_Ok.
  destruct (chain_fuel_S h) as (f & -> & Hf).
  destruct (rehash_place f i b e (set_occupation occ m) h x Hx Hbx) as (m' & h' & Hr & Hp & Hs).
  { eapply bucket_nodup_nodes; [apply Hok|done]. }
  { destruct b as [o|e0 rest]; cbn [nodes_of length]; [lia|]. rewrite length_map. pose proof (bucket_chain_length Hok i e0 rest Hb). lia. }
  destruct (placed_ok seed i b e (set_occupation occ m) h m' h' bs) as (bs' & H1 & H2 & H3 & H4 & H5); try done.
  exists m', h', bs'. split; [exact Hr|]. split; [done|]. split; [done|]. split; [|split; [done|by destruct Hp as (? & ? & _ & _ & Hp & _)]].
  split; [done|]. split; [|cbn; lia]. intros k Hk. destruct (H4 k Hk) as [| ->]; [by left|right; left].
Qed.

Lemma grown_trans h bs h' bs' h2 bs2 : grown h bs h' bs' -> grown h' bs' h2 bs2 -> grown h bs h2 bs2.
Proof.
  intros [Hk Hf] [Hk' Hf']. constructor; [congruence|]. intros n Hn Hno. destruct (Hf n Hn Hno) as [E Hno'].
  destruct (Hf' n) as [E' ?]; [by rewrite E|done|]. split; [congruence|done].
Qed.

Lemma entered_app es es' bs bs' bs2 : entered es bs bs' -> entered es' bs' bs2 -> entered (es ++ es') bs bs2.
Proof.
  intros (H1 & H2 & H3) (H4 & H5 & H6). split_and!.
  - intros key. unfold under in *. by rewrite H4, H1, filter_app, app_assoc.
  - intros k Hk. rewrite map_app, elem_of_app. destruct (H5 k Hk) as [Hk'|]; [|tauto]. destruct (H2 k Hk'); tauto.
  - rewrite length_app. lia.
Qed.

Lemma grown_refl h bs : grown h bs h bs.
Proof. by constructor. Qed.

Lemma entered_nil bs : entered [] bs bs.
Proof. split_and!; [intros; by rewrite app_nil_r|by left|cbn; lia]. Qed.

(** Entries waiting to be entered: live, with keys of their own. *)
Definition enterable (h : MapHeap) (bs : list bucket) (es : list entry) : Prop :=
  live h es /\ (forall e, e ∈ es -> key_ok (e_key e)) /\ NoDup (map e_ptr es)
  /\ forall k, k ∈ map e_ptr es -> k ∉ map fst (concat (map keys_of bs)).

Lemma enterable_app h bs es es' h1 bs1 :
  enterable h bs (es ++ es') -> grown h bs h1 bs1 -> entered es bs bs1 ->
  enterable h bs es /\ enterable h1 bs1 es'.
Proof.
  intros (Hl & Hk & Hnd & Hn) [Hgk _] (_ & Hin & _). rewrite map_app in Hnd, Hn. apply NoDup_app in Hnd as (Hn1 & Hn2 & Hn3).
  split; split_and!.
  - intros e He. apply Hl. apply elem_of_app. by left.
  - intros e He. apply Hk. apply elem_of_app. by left.
  - done.
  - intros k Hk'. apply Hn. apply elem_of_app. by left.
  - intros e He. rewrite Hgk. apply Hl. apply elem_of_app. by right.
  - intros e He. apply Hk. apply elem_of_app. by right.
  - done.
  - intros k Hk' Hc. destruct (Hin k Hc) as [Hc'|Hc']; [|by apply (Hn2 k)]. apply (Hn k); [|done]. apply elem_of_app. by right.
Qed.

Lemma enterable_single h bs e : enterable h bs [e] -> live h [e] /\ key_ok (e_key e) /\ e_ptr e ∉ map fst (concat (map keys_of bs)).
Proof. intros (Hl & Hk & _ & Hn). split_and!; [done|apply Hk; left|apply Hn; left]. Qed.

Lemma enterable_first h bs es es' : enterable h bs (es ++ es') -> enterable h bs es.
Proof.
  intros (Hl & Hk & Hnd & Hn). rewrite map_app in Hnd, Hn. apply NoDup_app in Hnd as (Hn1 & _).
  split_and!; [intros e He; apply Hl|intros e He; apply Hk|done|intros k Hk'; apply Hn]; apply elem_of_app; by left.
Qed.

(** The old chains are not part of the new map. *)
Definition outside (bs : list bucket) (ns : list loc) : Prop := forall n, n ∈ ns -> n ∉ concat (map nodes_of bs).

Lemma chain_keep nodes o l h bs h' bs' :
  nodes = map_nodes h -> node_chain nodes o l -> outside bs (map fst l) -> grown h bs h' bs' ->
  node_chain (map_nodes h') o l /\ outside bs' (map fst l).
Proof.
  intros -> Hc Hout [_ Hf].
  assert (forall n, n ∈ map fst l -> map_nodes h' !! n = map_nodes h !! n /\ n ∉ concat (map nodes_of bs')) as Hn.
  { intros n Hin. apply Hf; [|by apply Hout]. apply list_elem_of_fmap in Hin as ([n' e] & -> & Hin).
    destruct (node_chain_elem _ _ _ _ _ Hc Hin) as [? E]. cbn. rewrite E. by eexists. }
  split; [|intros n Hin; by apply Hn]. eapply chain_frame; [|done]. intros n Hin. by apply Hn.
Qed.

Definition entering (seed : Z) (es : list entry) (m : SwiftNetHashMap) (h : MapHeap) (bs : list bucket)
    (r : Outcome (SwiftNetHashMap * MapHeap)) : Prop :=
  exists m' h' bs', r = Ok (m', h') /\ map_ok seed m' h' bs' /\ grown h bs h' bs' /\ entered es bs bs'
    /\ hm_size m' = hm_size m /\ hm_capacity m' = hm_capacity m.

Lemma rehash_nodes_ok seed fuel o l m h bs :
  map_ok seed m h bs -> node_chain (map_nodes h) o l -> outside bs (map fst l) -> enterable h bs (map snd l) ->
  (length l < fuel)%nat -> entering seed (map snd l) m h bs (rehash_nodes seed fuel o m h).
Proof.
  revert o m h bs fuel. induction l as [|[n e] l IH]; intros o m h bs fuel Hok Hc Hout Hen Hf;
    (destruct fuel as [|fuel]; [cbn [length] in Hf; lia|]); cbn [node_chain] in Hc.
  - subst o. exists m, h, bs. split_and!; try done. apply entered_nil.
  - pose proof Hc as (-> & next & Hn & Hc'). cbn [rehash_nodes map snd fst length] in *.
    rewrite (proj2 (store_get_ok _ _ _) Hn), bind_Ok. change (e :: map snd l) with ([e] ++ map snd l) in *.
    destruct (enterable_single _ _ _ (enterable_first _ _ [e] _ Hen)) as (He1 & He2 & He3).
    destruct (rehash_item_ok seed e next m h bs Hok He1 He2 He3) as (m1 & h1 & bs1 & -> & Hok1 & Hg1 & Hen1 & Hs1 & Hc1).
    rewrite bind_Ok. destruct (chain_keep _ _ ((n, e) :: l) h bs h1 bs1 eq_refl Hc Hout Hg1) as [Hc2 Hout2].
    destruct Hc2 as (_ & next' & Hn' & Hc2).
    assert (next' = next) as ->.
    { destruct Hg1 as [_ Hfr]. destruct (Hfr n (mk_is_Some _ _ Hn)) as [E _]; [apply Hout; left|]. rewrite E, Hn in Hn'. by injection Hn'. }
    rewrite (proj2 (store_get_ok _ _ _) Hn'), bind_Ok. cbn [item_of item_next].
    destruct (enterable_app _ _ _ _ _ _ Hen Hg1 Hen1) as [_ Hen2].
    destruct (IH next m1 h1 bs1 fuel Hok1 Hc2) as (m2 & h2 & bs2 & Hr & Hok2 & Hg2 & Hen3 & Hs2 & Hcap2); [|done|lia|].
    { intros k Hk. apply Hout2. by right. }
    exists m2, h2, bs2. split; [exact Hr|]. split; [done|]. split; [by eapply grown_trans|]. split; [by eapply entered_app|]. split; congruence.
Qed.

Lemma slots_keep its obs h bs h' bs' :
  Forall2 (bucket_ok (map_nodes h)) its obs -> outside bs (concat (map nodes_of obs)) -> grown h bs h' bs' ->
  Forall2 (bucket_ok (map_nodes h')) its obs /\ outside bs' (concat (map nodes_of obs)).
Proof.
  intros Hf Hout Hg. induction Hf as [|x b its obs Hx Hf IH]; [split; [constructor|intros n Hn; by apply not_elem_of_nil in Hn]|].
  cbn [map concat] in *. destruct IH as [IH1 IH2]; [intros n Hn; apply Hout, elem_of_app; by right|].
  assert (forall n, n ∈ nodes_of b -> map_nodes h' !! n = map_nodes h !! n /\ n ∉ concat (map nodes_of bs')) as Hb.
  { destruct b as [o|e rest]; [intros n Hn; by apply not_elem_of_nil in Hn|]. destruct Hx as (next & _ & Hc). cbn [nodes_of].
    intros n Hn. destruct Hg as [_ Hfr]. apply Hfr; [|apply Hout, elem_of_app; by left].
    apply list_elem_of_fmap in Hn as ([n' en] & -> & Hn). destruct (node_chain_elem _ _ _ _ _ Hc Hn) as [? E]. cbn. rewrite E. by eexists. }
  split.
  - constructor; [|done]. eapply bucket_frame; [|done]. intros n Hn. by apply Hb.
  - intros n [Hn|Hn]%elem_of_app; [by apply Hb|by apply IH2].
Qed.

Lemma rehash_bucket_ok seed x b m h bs :
  map_ok seed m h bs -> bucket_ok (map_nodes h) x b -> outside bs (nodes_of b) -> NoDup (nodes_of b) -> enterable h bs (entries b) ->
  entering seed (entries b) m h bs
    (match item_value x with
     | None => Ok (m, h)
     | Some _ => '(m, h) ← rehash_item seed x m h; rehash_nodes seed (chain_fuel h) (item_next x) m h
     end).
Proof.
  intros Hok Hx Hout Hnd Hen. destruct b as [o|e rest].
  - assert (item_value x = None) as -> by (by destruct o as [[??]|]; cbn in Hx; subst x).
    exists m, h, bs. split_and!; try done. apply entered_nil.
  - destruct Hx as (next & -> & Hc). cbn [item_of item_value item_next entries nodes_of] in *. fold (item_of e next).
    change (e :: map snd rest) with ([e] ++ map snd rest) in *.
    destruct (enterable_single _ _ _ (enterable_first _ _ [e] _ Hen)) as (He1 & He2 & He3).
    destruct (rehash_item_ok seed e next m h bs Hok He1 He2 He3) as (m1 & h1 & bs1 & -> & Hok1 & Hg1 & Hen1 & Hs1 & Hc1).
    rewrite bind_Ok. destruct (chain_keep _ _ rest h bs h1 bs1 eq_refl Hc Hout Hg1) as [Hc2 Hout2].
    destruct (enterable_app _ _ _ _ _ _ Hen Hg1 Hen1) as [_ Hen2].
    destruct (rehash_nodes_ok seed (chain_fuel h1) next rest m1 h1 bs1) as (m2 & h2 & bs2 & Hr & Hok2 & Hg2 & Hen3 & Hs2 & Hcap2); try done.
    { unfold chain_fuel. pose proof (chain_length _ _ _ Hc2 Hnd). lia. }
    exists m2, h2, bs2. split; [exact Hr|]. split; [done|]. split; [by eapply grown_trans|]. split; [by eapply entered_app|]. split; congruence.
Qed.

Lemma rehash_slots_ok seed its obs m h bs :
  map_ok seed m h bs -> Forall2 (bucket_ok (map_nodes h)) its obs -> outside bs (concat (map nodes_of obs)) ->
  NoDup (concat (map nodes_of obs)) -> enterable h bs (all_entries obs) ->
  entering seed (all_entries obs) m h bs (rehash_slots seed its m h).
Proof.
  revert obs m h bs. induction its as [|x its IH]; intros obs m h bs Hok Hf Hout Hnd Hen; destruct obs as [|b obs]; try by inversion Hf.
  { exists m, h, bs. split_and!; try done. apply entered_nil. }
  apply Forall2_cons in Hf as [Hx Hf]. unfold all_entries in *. cbn [map concat rehash_slots] in *. fold (all_entries obs) in *.
  apply NoDup_app in Hnd as (Hnd1 & _ & Hnd2).
  assert (outside bs (nodes_of b)) as Hob by (intros n Hn; apply Hout, elem_of_app; by left).
  assert (outside bs (concat (map nodes_of obs))) as Hoo by (intros n Hn; apply Hout, elem_of_app; by right).
  destruct (rehash_bucket_ok seed x b m h bs Hok Hx Hob Hnd1 (enterable_first _ _ _ _ Hen))
    as (m1 & h1 & bs1 & -> & Hok1 & Hg1 & Hen1 & Hs1 & Hc1). rewrite bind_Ok.
  destruct (slots_keep its obs h bs h1 bs1 Hf Hoo Hg1) as [Hf1 Hoo1].
  destruct (enterable_app _ _ _ _ _ _ Hen Hg1 Hen1) as [_ Hen2].
  destruct (IH obs m1 h1 bs1 Hok1 Hf1 Hoo1 Hnd2 Hen2) as (m2 & h2 & bs2 & Hr & Hok2 & Hg2 & Hen3 & Hs2 & Hcap2).
  exists m2, h2, bs2. split; [exact Hr|]. split; [done|]. split; [by eapply grown_trans|]. split; [by eapply entered_app|]. split; congruence.
Qed.

(** ** A fresh map *)
Definition blank_buckets (n : Z) : list bucket := repeat (BEmpty None) (Z.to_nat n).

Lemma blank_concat {A} (f : bucket -> list A) n : f (BEmpty None) = [] -> concat (map f (blank_buckets n)) = [].
Proof. intros Hf. unfold blank_buckets. induction (Z.to_nat n) as [|k IH]; [done|]. cbn. by rewrite Hf. Qed.

Lemma blank_ok seed h cap sz :
  0 < cap < 2 ^ 32 - 31 ->
  map_ok seed (mk_hashmap (repeat blank_item (Z.to_nat cap)) (repeat 0 (Z.to_nat ((cap + 31) / 32))) cap sz) h (blank_buckets cap).
Proof.
  intros Hc. constructor; cbn [hm_items hm_capacity item_occupation].
  - unfold blank_buckets. rewrite repeat_length. lia.
  - done.
  - unfold blank_buckets. induction (Z.to_nat cap) as [|k IH]; [constructor|]. cbn. by constructor.
  - rewrite blank_concat by done. apply NoDup_nil_2.
  - rewrite blank_concat by done. apply NoDup_nil_2.
  - intros k key. rewrite blank_concat by done. intros H. by apply not_elem_of_nil in H.
  - rewrite repeat_length. dlia.
  - intros i b e Hb He. apply list_elem_of_lookup_2, list_elem_of_In, repeat_spec in Hb. subst b. by apply not_elem_of_nil in He.
Qed.

Lemma entries_keys bs k : k ∈ map e_ptr (all_entries bs) -> k ∈ map fst (concat (map keys_of bs)).
Proof.
  unfold all_entries. induction bs as [|b bs IH]; cbn; [done|]. rewrite !map_app, !elem_of_app. intros [H|H]; [left|auto].
  destruct b as [o|e rest]; [by apply not_elem_of_nil in H|]. cbn [entries keys_of] in *. by rewrite map_map.
Qed.

Lemma nodup_entries bs : NoDup (map fst (concat (map keys_of bs))) -> NoDup (map e_ptr (all_entries bs)).
Proof.
  unfold all_entries. induction bs as [|b bs IH]; cbn; [done|]. rewrite !map_app, !NoDup_app. intros (H1 & H2 & H3). split_and!; [|..].
  - destruct b as [o|e rest]; [apply NoDup_nil_2|]. cbn [entries keys_of] in *. by rewrite map_map in H1.
  - intros k Hk Hk'. apply (H2 k); [|by apply entries_keys].
    destruct b as [o|e rest]; [by apply not_elem_of_nil in Hk|]. cbn [entries keys_of] in *. by rewrite map_map.
  - auto.
Qed.

(** ** Resizing keeps every entry, and the order under each key *)
Definition resized (m : SwiftNetHashMap) (h : MapHeap) (bs : list bucket) (m' : SwiftNetHashMap) (h' : MapHeap) (bs' : list bucket) : Prop :=
  map_keys h' = map_keys h
  /\ (forall key, under key (all_entries bs') = under key (all_entries bs))
  /\ (forall k, k ∈ map fst (concat (map keys_of bs')) -> k ∈ map fst (concat (map keys_of bs)))
  /\ length (all_entries bs') = length (all_entries bs) /\ hm_size m' = hm_size m.

Lemma all_live {seed m h bs} : map_ok seed m h bs -> live h (all_entries bs) /\ forall e, e ∈ all_entries bs -> key_ok (e_key e).
Proof.
  intros Hok. assert (forall e, e ∈ all_entries bs -> (e_ptr e, e_key e) ∈ concat (map keys_of bs)) as Hin.
  { clear Hok. unfold all_entries. induction bs as [|b bs IH]; cbn; [intros e He; by apply not_elem_of_nil in He|].
    intros e. rewrite !elem_of_app. intros [He|He]; [left|auto]. destruct b as [o|e0 rest]; [by apply not_elem_of_nil in He|].
    cbn [entries keys_of] in *. by apply (list_elem_of_fmap_2 (fun e => (e_ptr e, e_key e))) in He. }
  split; intros e He; apply (mp_live _ _ _ _ Hok) with (k := e_ptr e), Hin, He.
Qed.

Lemma hashmap_resize_ok seed calloc_ok m h bs :
  map_ok seed m h bs -> hm_capacity m * 4 < 2 ^ 32 - 31 -> (forall n, calloc_ok n = true) ->
  exists m' h' bs', hashmap_resize seed calloc_ok m h = Ok (m', h') /\ map_ok seed m' h' bs'
    /\ resized m h bs m' h' bs' /\ hm_capacity m' = hm_capacity m * 4.
Proof.
  intros Hok Hcap Hcal. pose proof (mp_capacity _ _ _ _ Hok) as Hc. unfold hashmap_resize, calloc_items, calloc_words.
  rewrite !Hcal, !u32_id by lia. set (cap := hm_capacity m * 4).
  pose proof (blank_ok seed h cap (hm_size m) ltac:(lia)) as Hb.
  destruct (rehash_slots_ok seed (hm_items m) bs _ h (blank_buckets cap) Hb) as (m' & h' & bs' & -> & Hok' & Hg & (H1 & H2 & H3) & Hs & Hcap').
  - apply Hok.
  - intros n _. rewrite blank_concat by done. apply not_elem_of_nil.
  - apply Hok.
  - destruct (all_live Hok) as [Hl Hk]. split_and!; [done|done|apply nodup_entries, Hok|].
    intros k _. rewrite blank_concat by done. apply not_elem_of_nil.
  - exists m', h', bs'. split; [done|]. split; [done|]. split; [|done]. split_and!; [apply Hg|..].
    + intros key. rewrite H1. unfold all_entries at 1. by rewrite blank_concat.
    + intros k Hk. destruct (H2 k Hk) as [Hk'|Hk']; [rewrite blank_concat in Hk' by done; by apply not_elem_of_nil in Hk'|].
      by apply entries_keys.
    + rewrite H3. unfold all_entries at 1. by rewrite blank_concat.
    + done.
Qed.

(** ** Insertion *)
Lemma hashmap_insert_ok seed calloc_ok e m h bs :
  map_ok seed m h bs -> live h [e] -> key_ok (e_key e) -> e_ptr e ∉ map fst (concat (map keys_of bs)) ->
  (forall n, calloc_ok n = true) -> 0 <= hm_size m < 2 ^ 32 - 1 -> hm_size m + 1 < 2 ^ 30 - 8 ->
  exists m' h' bs', hashmap_insert seed calloc_ok (e_ptr e) (Z.of_nat (length (e_key e))) (Some (e_value e)) m h = Ok (m', h')
    /\ map_ok seed m' h' bs' /\ map_keys h' = map_keys h
    /\ (forall key, under key (all_entries bs') = under key (all_entries bs) ++ under key [e])
    /\ (forall k, k ∈ map fst (concat (map keys_of bs')) -> k ∈ map fst (concat (map keys_of bs)) \/ k = e_ptr e)
    /\ length (all_entries bs') = S (length (all_entries bs)) /\ hm_size m' = hm_size m + 1.
Proof.
  intros Hok Hlive Hkey Hnew Hcal Hsz Hmax. unfold hashmap_insert.
  unfold store_get. rewrite (Hlive e) by left. cbn [of_option]. rewrite bind_Ok, mem_read_ok, bind_Ok by lia.
  rewrite Nat2Z.id. change (Z.to_nat 0) with 0%nat. rewrite slice_full.
  destruct (slot_of Hok (e_key e)) as (i & b & x & Hi & Hb & Hx & Hbx). rewrite <- Hi.
  destruct (chain_fuel_S h) as (f & -> & Hf).
  destruct (insert_place f i b e m h x Hx Hbx) as (m1 & h1 & Hins & Hp & Hs1 & Ho1).
  { eapply bucket_nodup_nodes; [apply Hok|done]. }
  { destruct b as [o|e0 rest]; cbn [nodes_of length]; [lia|]. rewrite length_map. pose proof (bucket_chain_length Hok i e0 rest Hb). lia. }
  fold (item_of e None).
  destruct (placed_ok seed i b e m h m1 h1 bs) as (bs1 & Hok1 & [Hk1 _] & H3 & H4 & H5); try done.
  pose proof Hp as (_ & _ & _ & _ & Hcap & _).
  destruct (insert_find (S f) (InSlot i) m h) as [[[p m2] h2]| | |] eqn:Ef; try done. rewrite bind_Ok in Hins |- *. rewrite Hins, bind_Ok.
  rewrite Hs1, u32_id by lia. cbn [set_size item_occupation]. rewrite Ho1.
  destruct (word_of (e_key e) Hok) as [w Hw]. rewrite (update_word_ok _ _ _ w Hw), bind_Ok.
  set (occ := <[_ := _]> (item_occupation m)). set (m3 := set_occupation occ (set_size (hm_size m + 1) m1)).
  assert (map_ok seed m3 h1 bs1) as Hok3.
  { apply set_occupation_ok; [by apply set_size_ok|]. cbn. unfold occ. by rewrite Ho1, length_insert. }
  destruct (Z.leb_spec (hm_capacity m3) (hm_size m3)) as [Hle|Hlt].
  - cbn in Hle. destruct (hashmap_resize_ok seed calloc_ok m3 h1 bs1 Hok3) as (m' & h' & bs' & -> & Hok' & (R1 & R2 & R3 & R4 & R5) & _); [cbn; lia|done|].
    exists m', h', bs'. split; [done|]. split; [done|]. split; [congruence|]. split; [intros key; by rewrite R2|].
    split; [intros k Hk; auto|]. split; [lia|]. done.
  - exists m3, h1, bs1. split_and!; done.
Qed.

(** ** Removal *)
Fixpoint remove_first (key : list Z) (l : list entry) : list entry :=
  match l with
  | [] => []
  | e :: l => if decide (e_key e = key) then l else e :: remove_first key l
  end.

Lemma under_remove key k l : under k (remove_first key l) = if decide (k = key) then tail (under key l) else under k l.
Proof.
  unfold under. induction l as [|e l IH]; cbn [remove_first]; [by case_decide|]. rewrite !filter_cons.
  destruct (decide (e_key e = key)) as [E|E].
  - destruct (decide (k = key)) as [->|Hne]; [done|]. rewrite decide_False by congruence. done.
  - rewrite filter_cons, IH. destruct (decide (k = key)) as [->|Hne]; [by rewrite decide_False|done].
Qed.

Lemma remove_first_split key pre e post :
  (forall x, x ∈ pre -> e_key x <> key) -> e_key e = key -> remove_first key (pre ++ e :: post) = pre ++ post.
Proof.
  intros Hpre He. induction pre as [|x pre IH]; cbn; [by rewrite decide_True|].
  rewrite decide_False by (apply Hpre; left). f_equal. apply IH. intros y Hy. apply Hpre. by right.
Qed.

Lemma first_split key (l : list (loc * entry)) :
  under key (map snd l) <> [] ->
  exists pre n e post, l = pre ++ (n, e) :: post /\ (forall x, x ∈ map snd pre -> e_key x <> key) /\ e_key e = key.
Proof.
  unfold under. induction l as [|[n e] l IH]; cbn [map snd]; [done|]. rewrite filter_cons. intros Hne.
  destruct (decide (e_key e = key)) as [E|E].
  - exists [], n, e, l. split; [done|]. split; [intros x Hx; by apply not_elem_of_nil in Hx|done].
  - destruct (IH Hne) as (pre & n' & e' & post & -> & Hpre & He'). exists ((n, e) :: pre), n', e', post.
    split; [done|]. split; [|done]. cbn. intros x [->|Hx]%elem_of_cons; [done|auto].
Qed.

Lemma remove_find_nodes fuel key prev m h o pre n e post :
  node_chain (map_nodes h) o (pre ++ (n, e) :: post) -> live h (map snd (pre ++ (n, e) :: post)) ->
  (forall x, x ∈ map snd pre -> e_key x <> key) -> e_key e = key -> (length pre < fuel)%nat ->
  remove_find fuel key prev (InNode <$> o) m h = Ok (Some (from_option (fun k => InNode k.1) prev (last pre), InNode n)).
Proof.
  revert o prev fuel. induction pre as [|[k ek] pre IH]; intros o prev fuel Hc Hl Hpre He Hf;
    (destruct fuel as [|fuel]; [cbn [length] in Hf; lia|]); cbn [app node_chain map snd length] in *;
    destruct Hc as (-> & next & Hn & Hc); apply live_cons in Hl as [Hl1 Hl2];
    cbn [remove_find fmap option_fmap option_map read_item]; rewrite (proj2 (store_get_ok _ _ _) Hn), bind_Ok, key_equal_item, bind_Ok by done.
  - by rewrite bool_decide_true.
  - rewrite bool_decide_false by (apply Hpre; left). cbn [item_of item_next].
    rewrite (IH next (InNode k) fuel); [|done|done|intros x Hx; apply Hpre; by right|done|lia].
    do 3 f_equal. destruct pre as [|kk pre]; [done|]. cbn [last]. destruct (last (kk :: pre)) eqn:E; [done|by apply last_None in E].
Qed.

(** Taking a node out of a chain. *)
Lemma chain_remove nodes nodes' o pre k ek n e post next :
  node_chain nodes o (pre ++ (k, ek) :: (n, e) :: post) -> NoDup (map fst (pre ++ (k, ek) :: (n, e) :: post)) ->
  nodes !! n = Some (item_of e next) -> nodes' !! k = Some (item_of ek next) ->
  (forall j, j <> n -> j <> k -> nodes' !! j = nodes !! j) ->
  node_chain nodes' o (pre ++ (k, ek) :: post).
Proof.
  intros Hc Hnd Hn Hk' Hf. revert o Hc. induction pre as [|[j ej] pre IH]; intros o; cbn [app node_chain map fst] in *.
  - intros (-> & nk & Hk & _ & nn & Hn2 & Hc). rewrite Hn in Hn2. injection Hn2 as <-. split; [done|]. exists next. split; [done|].
    apply NoDup_cons in Hnd as [Hk1 [Hn1 _]%NoDup_cons]. eapply chain_frame; [|done]. intros j Hj. apply Hf; intros ->; [done|].
    apply Hk1. by right.
  - intros (-> & nj & Hj & Hc). apply NoDup_cons in Hnd as [Hj1 Hnd]. split; [done|]. exists nj. split; [|by apply IH].
    rewrite Hf; [done| |]; intros ->; apply Hj1; rewrite map_app; apply elem_of_app; right; [right; left|left].
Qed.

Lemma chain_at nodes o pre n e post : node_chain nodes o (pre ++ (n, e) :: post) -> exists next, nodes !! n = Some (item_of e next).
Proof. intros Hc. eapply node_chain_elem; [done|]. apply elem_of_app. right. left. Qed.

(** Replacing a bucket by a smaller one. *)
Lemma shrink_ok seed m h bs m' h' i b b' x' :
  map_ok seed m h bs -> bs !! i = Some b -> bucket_ok (map_nodes h') x' b' ->
  hm_items m' = <[i := x']> (hm_items m) -> hm_capacity m' = hm_capacity m ->
  length (item_occupation m') = length (item_occupation m) ->
  (forall n, n ∉ nodes_of b -> map_nodes h' !! n = map_nodes h !! n) ->
  (sublist (nodes_of b') (nodes_of b)) -> (sublist (keys_of b') (keys_of b)) -> (forall e, e ∈ entries b' -> e ∈ entries b) ->
  (forall k, k ∈ map fst (concat (map keys_of (<[i := b']> bs))) -> map_keys h' !! k = map_keys h !! k) ->
  map_ok seed m' h' (<[i := b']> bs).
Proof.
  intros Hok Hb Hx' Hits Hcap Hocc Hframe Hns Hks Hes Hkeys. pose proof Hok as [].
  pose proof (bucket_nodup_nodes _ _ _ mp_nodes0 Hb) as Hndb. pose proof (bucket_nodup_keys _ _ _ mp_keys0 Hb) as Hkdb.
  constructor; rewrite ?Hcap, ?Hits, ?Hocc, ?length_insert; try done.
  - eapply slots_update; [done|done|done|done|]. auto.
  - rewrite <- (map_id (concat (map nodes_of _))). eapply owned_update; [by rewrite map_id|done|rewrite map_id; by apply (sublist_NoDup _ _ Hndb)|].
    intros n. rewrite !map_id. intros Hn. left. by apply (elem_of_submseteq _ _ _ Hn), sublist_submseteq.
  - eapply owned_update; [done|done|apply (sublist_NoDup _ _ Hkdb); by apply fmap_sublist|].
    intros k Hk. left. apply (elem_of_submseteq _ _ _ Hk), sublist_submseteq. by apply fmap_sublist.
  - intros k key Hk. rewrite Hkeys by (by apply (list_elem_of_fmap_2 fst) in Hk). apply mp_live0.
    apply (elem_of_update keys_of bs i b _ _ Hb) in Hk as [Hk|Hk]; [done|]. eapply elem_of_concat_map; [done|].
    by apply (elem_of_submseteq _ _ _ Hk), sublist_submseteq.
  - intros j b2 e2 Hj He. destruct (decide (j = i)) as [->|Hne].
    + rewrite list_lookup_insert_eq in Hj by (by eapply lookup_lt_Some). injection Hj as <-. eapply mp_place0; [done|]. auto.
    + rewrite list_lookup_insert_ne in Hj by done. by eapply mp_place0.
Qed.

(** A key released with its entry is nobody else's. *)
Lemma released_key seed m h bs i b b' k :
  map_ok seed m h bs -> bs !! i = Some b -> k ∈ map fst (keys_of b) -> k ∉ map fst (keys_of b') ->
  k ∉ map fst (concat (map keys_of (<[i := b']> bs))).
Proof.
  intros Hok Hb Hk Hk'. pose proof (mp_keys _ _ _ _ Hok) as Hnd.
  destruct (bucket_split keys_of bs i b Hb) as (pre & post & -> & Heq & _). rewrite Heq in Hnd. rewrite !map_app in *.
  apply NoDup_app in Hnd as (_ & H1 & Hnd). apply NoDup_app in Hnd as (_ & H2 & _).
  rewrite !elem_of_app. intros [H|[H|H]]; [|done|by apply (H2 k)]. apply (H1 k H). apply elem_of_app. by left.
Qed.

Lemma entries_update bs i b b' key :
  bs !! i = Some b -> entries b' = remove_first key (entries b) ->
  (forall j b2 e, j <> i -> bs !! j = Some b2 -> e ∈ entries b2 -> e_key e <> key) -> under key (entries b) <> [] ->
  (forall k, under k (all_entries (<[i := b']> bs)) = if decide (k = key) then tail (under key (all_entries bs)) else under k (all_entries bs))
  /\ S (length (all_entries (<[i := b']> bs))) = length (all_entries bs).
Proof.
  intros Hb He Hother Hne. unfold all_entries. destruct (bucket_split entries bs i b Hb) as (pre & post & -> & -> & Hout).
  assert (under key pre = [] /\ under key post = []) as [Hpre Hpost].
  { split; apply filter_none; intros e Hin Hk; [destruct (Hout e (or_introl Hin)) as (j & b2 & Hj & Hb2 & Hin2)
      |destruct (Hout e (or_intror Hin)) as (j & b2 & Hj & Hb2 & Hin2)]; by eapply Hother. }
  split.
  - intros k. rewrite He. unfold under. rewrite !filter_app. fold (under k (remove_first key (entries b))). rewrite under_remove.
    fold (under k pre) (under k post) (under key pre) (under key post) (under key (entries b)) (under k (entries b)).
    case_decide as E; [subst k; by rewrite Hpre, Hpost, !app_nil_r|done].
  - rewrite He, !length_app. clear - Hne. unfold under in Hne.
    enough (S (length (remove_first key (entries b))) = length (entries b)) by lia.
    induction (entries b) as [|e l IH]; [done|]. cbn. rewrite filter_cons in Hne. case_decide; [done|]. cbn. f_equal. by apply IH.
Qed.

Lemma keys_of_full e rest : keys_of (BFull e rest) = (e_ptr e, e_key e) :: map (fun x => (e_ptr x.2, e_key x.2)) rest.
Proof. cbn. by rewrite map_map. Qed.

(** The result of taking the first entry under [key] out of bucket [i]. *)
Definition taken (seed : Z) (i : nat) (b : bucket) (key : list Z) (m : SwiftNetHashMap) (h : MapHeap) (bs : list bucket)
    (r : Outcome (SwiftNetHashMap * MapHeap)) : Prop :=
  exists m' h' b', r = Ok (m', h') /\ map_ok seed m' h' (<[i := b']> bs) /\ entries b' = remove_first key (entries b)
    /\ hm_size m' = hm_size m /\ sublist (keys_of b') (keys_of b).

Section remove.
Context (seed : Z) (m : SwiftNetHashMap) (h : MapHeap) (bs : list bucket) (i : nat) (key : list Z).
Hypothesis Hok : map_ok seed m h bs.

Lemma slot_item b : bs !! i = Some b -> exists x, hm_items m !! i = Some x /\ bucket_ok (map_nodes h) x b.
Proof. intros Hb. destruct (Forall2_lookup_r _ _ _ _ _ (mp_slots _ _ _ _ Hok) Hb) as (x & Hx & Hbx). by exists x. Qed.

Lemma full_nodup e rest : bs !! i = Some (BFull e rest) -> NoDup (map fst rest) /\ NoDup (e_ptr e :: map (fun x => e_ptr x.2) rest).
Proof.
  intros Hb. split; [exact (bucket_nodup_nodes _ _ _ (mp_nodes _ _ _ _ Hok) Hb)|].
  pose proof (bucket_nodup_keys _ _ _ (mp_keys _ _ _ _ Hok) Hb) as Hk. rewrite keys_of_full in Hk. cbn [map fst] in Hk.
  by rewrite map_map in Hk.
Qed.

Lemma remove_head_alone e :
  bs !! i = Some (BFull e []) -> e_key e = key -> taken seed i (BFull e []) key m h bs (remove_head (InSlot i) m h).
Proof.
  intros Hb He. destruct (slot_item _ Hb) as (x & Hx & next & -> & ->). unfold remove_head. cbn [read_item]. rewrite Hx. cbn [of_option].
  rewrite bind_Ok. cbn [write_item]. rewrite Hx. cbn [of_option]. rewrite !bind_Ok. cbn [item_of item_next].
  exists (set_items (<[i := set_value None (item_of e None)]> (hm_items m)) m), h, (BEmpty (Some (e_ptr e, e_key e))).
  split; [done|]. split; [|split; [cbn; by rewrite decide_True|by split]].
  eapply shrink_ok; [done|done|reflexivity|done|done|done|done|done|done| |done].
  intros e' He'. by apply not_elem_of_nil in He'.
Qed.

Lemma remove_head_next e n e1 rest :
  bs !! i = Some (BFull e ((n, e1) :: rest)) -> e_key e = key ->
  taken seed i (BFull e ((n, e1) :: rest)) key m h bs (remove_head (InSlot i) m h).
Proof.
  intros Hb He. destruct (slot_item _ Hb) as (x & Hx & next & -> & -> & next1 & Hn & Hc). pose proof (lookup_lt_Some _ _ _ Hx) as Hi.
  destruct (full_nodup _ _ Hb) as [Hnd Hkd]. cbn [map fst snd] in Hnd, Hkd. apply NoDup_cons in Hnd as [Hn1 Hnd]. apply NoDup_cons in Hkd as [Hk1 Hkd].
  pose proof (bucket_live Hok i _ Hb) as Hlive. cbn [entries] in Hlive.
  unfold remove_head. cbn [read_item]. rewrite Hx. cbn [of_option]. rewrite bind_Ok. cbn [write_item]. rewrite Hx. cbn [of_option].
  rewrite !bind_Ok. cbn [item_of item_next]. unfold free_hashmap_item_key. cbn [item_of key_original_data of_option]. rewrite bind_Ok.
  rewrite (store_free_ok _ _ (e_key e)), !bind_Ok by (apply Hlive; left). cbn [set_keys map_nodes].
  rewrite (proj2 (store_get_ok _ _ _) Hn), bind_Ok. cbn [write_item set_items hm_items].
  rewrite list_lookup_insert_eq by done. cbn [of_option]. rewrite !bind_Ok. cbn [write_item map_nodes].
  rewrite (store_set_ok _ _ _ _ Hn), !bind_Ok. cbn [set_nodes map_nodes].
  rewrite (store_free_ok _ _ (set_next None (set_value None (item_of e1 next1)))), bind_Ok by apply lookup_insert_eq.
  rewrite list_insert_insert_eq. eexists _, _, (BFull e1 rest). split; [done|].
  split; [|split; [cbn; by rewrite decide_True|split; [done|rewrite !keys_of_full; by apply sublist_cons]]].
  eapply shrink_ok; [done|done| |reflexivity|done|done| | | | |].
  - cbn. exists next1. split; [done|]. eapply chain_frame; [|done]. intros k Hk.
    rewrite lookup_delete_ne by (intros ->; done). by rewrite lookup_insert_ne by (intros ->; done).
  - intros k Hk. cbn in Hk |- *. apply not_elem_of_cons in Hk as [Hk _]. by rewrite lookup_delete_ne, lookup_insert_ne by done.
  - cbn. by apply sublist_cons.
  - rewrite !keys_of_full. by apply sublist_cons.
  - intros e' He'. cbn in *. by right.
  - intros k Hk. cbn. apply lookup_delete_ne. intros <-. revert Hk. eapply released_key; [done|done| |].
    + rewrite keys_of_full. left.
    + rewrite keys_of_full. cbn [map fst]. by rewrite map_map.
Qed.

Lemma sublist_drop_middle {A} (pre : list A) x post : sublist (pre ++ post) (pre ++ x :: post).
Proof. apply sublist_app; [done|]. by apply sublist_cons. Qed.

Lemma inner_keys e0 pre n e post : sublist (keys_of (BFull e0 (pre ++ post))) (keys_of (BFull e0 (pre ++ (n, e) :: post))).
Proof. rewrite !keys_of_full, !map_app. apply sublist_skip. apply sublist_drop_middle. Qed.

(** What [shrink_ok] asks of a bucket that loses an inner entry. *)
Lemma remove_inner_facts e0 pre n e post m' h' x' :
  bs !! i = Some (BFull e0 (pre ++ (n, e) :: post)) ->
  bucket_ok (map_nodes h') x' (BFull e0 (pre ++ post)) ->
  hm_items m' = <[i := x']> (hm_items m) -> hm_capacity m' = hm_capacity m ->
  length (item_occupation m') = length (item_occupation m) ->
  (forall k, k ∉ map fst (pre ++ (n, e) :: post) -> map_nodes h' !! k = map_nodes h !! k) ->
  map_keys h' = delete (e_ptr e) (map_keys h) ->
  map_ok seed m' h' (<[i := BFull e0 (pre ++ post)]> bs).
Proof.
  intros Hb Hx' Hits Hcap Hocc Hf Hkeys. destruct (full_nodup _ _ Hb) as [Hnd Hkd].
  eapply shrink_ok; [done|done|exact Hx'|done|done|done|exact Hf| | | |].
  - cbn. rewrite !map_app. apply sublist_drop_middle.
  - apply inner_keys.
  - intros e'. cbn. rewrite !map_app, !elem_of_cons, !elem_of_app. cbn. rewrite elem_of_cons. tauto.
  - intros k Hk. rewrite Hkeys. apply lookup_delete_ne. intros <-. revert Hk. eapply released_key; [done|done| |].
    + rewrite keys_of_full, map_cons, map_app, map_app, elem_of_cons, elem_of_app. right. right. left.
    + rewrite keys_of_full, map_cons, map_map. cbn [fst snd]. rewrite !map_app in Hkd |- *. cbn [map snd] in Hkd.
      apply NoDup_cons in Hkd as [H1 H2]. apply NoDup_app in H2 as (_ & H3 & H4). apply NoDup_cons in H4 as [H4 _].
      rewrite elem_of_cons, elem_of_app. intros [E|[H|H]]; [|by apply (H3 _ H); left|done].
      apply H1. rewrite <- E. apply elem_of_app. right. left.
Qed.

Lemma remove_node_first e0 n e post :
  bs !! i = Some (BFull e0 ((n, e) :: post)) -> e_key e0 <> key -> e_key e = key ->
  taken seed i (BFull e0 ((n, e) :: post)) key m h bs (remove_node (InSlot i) (InNode n) m h).
Proof.
  intros Hb Hne He. destruct (slot_item _ Hb) as (x & Hx & o & -> & -> & next & Hn & Hc).
  destruct (full_nodup _ _ Hb) as [Hnd _]. cbn [map fst] in Hnd. apply NoDup_cons in Hnd as [Hn1 Hnd].
  pose proof (bucket_live Hok i _ Hb) as Hlive. cbn [entries map snd] in Hlive.
  unfold remove_node. cbn [read_item]. rewrite (proj2 (store_get_ok _ _ _) Hn), Hx. cbn [of_option]. rewrite !bind_Ok.
  cbn [write_item]. rewrite Hx. cbn [of_option]. rewrite !bind_Ok. rewrite (store_set_ok _ _ _ _ Hn), !bind_Ok.
  unfold free_hashmap_item_key. cbn [set_next set_value item_of key_original_data of_option set_nodes map_keys item_next]. rewrite bind_Ok.
  rewrite (store_free_ok _ _ (e_key e)), !bind_Ok by (apply Hlive; right; left). cbn [set_keys map_nodes].
  rewrite (store_free_ok _ _ (set_next None (set_value None (item_of e next)))), bind_Ok by apply lookup_insert_eq.
  eexists _, _, (BFull e0 post). split; [done|].
  split; [|split; [cbn; by rewrite decide_False, decide_True|split; [done|apply (inner_keys e0 [])]]].
  apply (remove_inner_facts e0 [] n e post _ _ (item_of e0 next)); try done.
  - cbn. exists next. split; [done|]. eapply chain_frame; [|done]. intros k Hk.
    rewrite lookup_delete_ne by (intros ->; done). by rewrite lookup_insert_ne by (intros ->; done).
  - intros k Hk. cbn in Hk |- *. apply not_elem_of_cons in Hk as [Hk _]. by rewrite lookup_delete_ne, lookup_insert_ne by done.
Qed.

Lemma remove_node_inner e0 pre k ek n e post :
  bs !! i = Some (BFull e0 (pre ++ (k, ek) :: (n, e) :: post)) ->
  e_key e0 <> key -> (forall x, x ∈ map snd (pre ++ [(k, ek)]) -> e_key x <> key) -> e_key e = key ->
  taken seed i (BFull e0 (pre ++ (k, ek) :: (n, e) :: post)) key m h bs (remove_node (InNode k) (InNode n) m h).
Proof.
  intros Hb Hne Hpre He. destruct (slot_item _ Hb) as (x & Hx & o & -> & Hc). destruct (full_nodup _ _ Hb) as [Hnd _].
  destruct (chain_at _ _ _ _ _ _ Hc) as [nk Hk].
  assert (exists next, map_nodes h !! n = Some (item_of e next)) as [next Hn].
  { eapply node_chain_elem; [done|]. apply elem_of_app. right. right. left. }
  assert (k <> n) as Hkn.
  { intros ->. rewrite map_app in Hnd. apply NoDup_app in Hnd as (_ & _ & Hnd). cbn in Hnd. apply NoDup_cons in Hnd as [H _]. apply H. left. }
  pose proof (bucket_live Hok i _ Hb) as Hlive. cbn [entries] in Hlive.
  assert (map_keys h !! e_ptr e = Some (e_key e)) as Hkey.
  { apply Hlive. right. rewrite map_app. apply elem_of_app. right. right. left. }
  unfold remove_node. cbn [read_item]. rewrite (proj2 (store_get_ok _ _ _) Hn), (proj2 (store_get_ok _ _ _) Hk), !bind_Ok.
  cbn [write_item]. rewrite (store_set_ok _ _ _ _ Hk), !bind_Ok. cbn [set_nodes map_nodes].
  rewrite (store_set_ok _ _ (item_of e next)), !bind_Ok by (by rewrite lookup_insert_ne).
  unfold free_hashmap_item_key. cbn [set_next set_value item_of key_original_data of_option set_nodes map_keys item_next map_nodes]. rewrite bind_Ok.
  rewrite (store_free_ok _ _ (e_key e)), !bind_Ok by done. cbn [set_keys map_nodes].
  rewrite (store_free_ok _ _ (set_next None (set_value None (item_of e next)))), bind_Ok by apply lookup_insert_eq.
  eexists _, _, (BFull e0 ((pre ++ [(k, ek)]) ++ post)). split; [done|].
  replace (pre ++ (k, ek) :: (n, e) :: post) with ((pre ++ [(k, ek)]) ++ (n, e) :: post) in * by (by rewrite <- app_assoc).
  split; [|split; [|split; [done|apply inner_keys]]].
  - apply (remove_inner_facts e0 (pre ++ [(k, ek)]) n e post _ _ (item_of e0 o)); try done.
    + cbn. exists o. split; [done|]. rewrite <- app_assoc in Hc, Hnd |- *.
      apply (chain_remove (map_nodes h) _ o pre k ek n e post next); [exact Hc|exact Hnd|done| |].
      * rewrite lookup_delete_ne, lookup_insert_ne by done. apply lookup_insert_eq.
      * intros j H1 H2. by rewrite lookup_delete_ne, !lookup_insert_ne by done.
    + cbn. symmetry. by apply list_insert_id.
    + intros j Hj. cbn. rewrite !map_app, !not_elem_of_app in Hj. destruct Hj as [[_ Hj1] Hj2]. cbn in Hj1, Hj2.
      apply not_elem_of_cons in Hj1 as [Hj1 _]. apply not_elem_of_cons in Hj2 as [Hj2 _]. by rewrite lookup_delete_ne, !lookup_insert_ne by done.
  - cbn [entries remove_first]. rewrite decide_False by done. f_equal. rewrite !(map_app snd _ post), (map_app snd (pre ++ _) (_ :: _)). cbn [map snd].
    symmetry. by apply remove_first_split.
Qed.
End remove.

Lemma set_occupation_slot (seed : Z) m h bs occ : map_ok seed m h bs -> forall i, hm_items (set_occupation occ m) !! i = hm_items m !! i.
Proof. done. Qed.

(** Finding and taking the entry, in the bucket [BFull e0 rest]. *)
Lemma take_from_bucket seed m h bs i key e0 rest f :
  map_ok seed m h bs -> bs !! i = Some (BFull e0 rest) -> under key (e0 :: map snd rest) <> [] -> (length rest < f)%nat ->
  exists previous current, remove_find (S f) key (InSlot i) (Some (InSlot i)) m h = Ok (Some (previous, current))
    /\ taken seed i (BFull e0 rest) key m h bs
         (if decide (current = previous) then remove_head current m h else remove_node previous current m h).
Proof.
  intros Hok Hb Hne Hf. destruct (slot_item seed m h bs i Hok _ Hb) as (x & Hx & o & -> & Hc).
  pose proof (bucket_live Hok i _ Hb) as Hlive. cbn [entries] in Hlive. apply live_cons in Hlive as [Hl0 Hlive].
  cbn [remove_find read_item]. rewrite Hx. cbn [of_option]. rewrite bind_Ok, key_equal_item, bind_Ok by done.
  case_bool_decide as E0.
  - exists (InSlot i), (InSlot i). split; [done|]. rewrite decide_True by done.
    destruct rest as [|[n e1] rest]; [by apply remove_head_alone|by apply remove_head_next].
  - unfold under in Hne. rewrite filter_cons, decide_False in Hne by done.
    destruct (first_split key rest Hne) as (pre & n & e & post & -> & Hpre & He).
    cbn [item_of item_next]. rewrite (remove_find_nodes f key (InSlot i) m h o pre n e post Hc Hlive Hpre He)
      by (rewrite length_app in Hf; lia).
    eexists _, _. split; [done|].
    destruct (chain_last pre) as [->|(l & k & ek & ->)].
    + cbn [last from_option]. rewrite decide_False by done. by apply remove_node_first.
    + rewrite last_snoc. cbn [from_option fst].
      assert (InNode n <> InNode k) as Hnk.
      { intros [= ->]. destruct (full_nodup seed m h bs i Hok _ _ Hb) as [Hnd _]. rewrite <- app_assoc, map_app in Hnd.
        apply NoDup_app in Hnd as (_ & _ & Hnd). cbn in Hnd. apply NoDup_cons in Hnd as [H _]. apply H. left. }
      rewrite decide_False by done. rewrite <- app_assoc in *. by apply remove_node_inner.
Qed.

Lemma hashmap_remove_ok seed key m h bs :
  map_ok seed m h bs -> under key (all_entries bs) <> [] ->
  exists m' h' bs', hashmap_remove seed key m h = Ok (m', h') /\ map_ok seed m' h' bs'
    /\ (forall k, under k (all_entries bs') = if decide (k = key) then tail (under key (all_entries bs)) else under k (all_entries bs))
    /\ S (length (all_entries bs')) = length (all_entries bs) /\ hm_size m' = u32 (hm_size m - 1)
    /\ (forall x, x ∈ concat (map keys_of bs') -> x ∈ concat (map keys_of bs)).
Proof.
  intros Hok Hne. destruct (slot_of Hok key) as (i & b & x & Hi & Hb & Hx & Hbx). rewrite (under_all Hok key i b Hi Hb) in Hne |- *.
  unfold hashmap_remove. rewrite <- Hi. cbn [read_item]. rewrite Hx. cbn [of_option]. rewrite bind_Ok.
  destruct (word_of key Hok) as [w Hw].
  assert (exists occ, (match item_next x with
    | None => update_word (fun w => Z.land w (u32 (Z.lnot (Z.shiftl 0 (get_key seed key (hm_capacity m) mod 32)))))
                (get_key seed key (hm_capacity m) / 32) (item_occupation m)
    | Some _ => Ok (item_occupation m) end) = Ok occ /\ length occ = length (item_occupation m)) as (occ & -> & Hocc).
  { destruct (item_next x); [by eexists|]. rewrite (update_word_ok _ _ _ w Hw). eexists. split; [done|]. apply length_insert. }
  rewrite bind_Ok. set (m1 := set_occupation occ m).
  assert (map_ok seed m1 h bs) as Hok1 by (by apply set_occupation_ok).
  destruct b as [o|e0 rest]; [done|]. cbn [entries] in Hne. destruct (chain_fuel_S h) as (f & -> & Hf).
  destruct (take_from_bucket seed m1 h bs i key e0 rest f Hok1 Hb Hne) as (prev & cur & -> & m' & h' & b' & Hr & Hok' & He & Hs & Hks).
  { pose proof (bucket_chain_length Hok i e0 rest Hb). lia. }
  rewrite bind_Ok. rewrite Hr, bind_Ok.
  destruct (entries_update bs i (BFull e0 rest) b' key Hb He) as [Hu Hlen]; [|done|].
  { intros j b2 e Hj Hb2 He2 Hk. apply Hj. rewrite <- (mp_place _ _ _ _ Hok j b2 e Hb2 He2), Hk. done. }
  exists (set_size (u32 (hm_size m' - 1)) m'), h', (<[i := b']> bs). split; [done|]. split; [by apply set_size_ok|].
  split; [|split; [done|]].
  - intros k. rewrite Hu. by rewrite (under_all Hok key i _ Hi Hb).
  - split; [cbn; by rewrite Hs|]. intros y Hy. apply (elem_of_update keys_of bs i _ _ _ Hb) in Hy as [Hy|Hy]; [done|].
    eapply elem_of_concat_map; [done|]. by apply (elem_of_submseteq _ _ _ Hy), sublist_submseteq.
Qed.

(** A key that no slot and no node holds, not even a slot that was emptied: the removal
    changes nothing. *)
Lemma remove_find_none fuel key prev m h o l :
  node_chain (map_nodes h) o l -> live h (map snd l) -> (forall e, e ∈ map snd l -> e_key e <> key) -> (length l < fuel)%nat ->
  remove_find fuel key prev (InNode <$> o) m h = Ok None.
Proof.
  revert o prev fuel. induction l as [|[n e] l IH]; intros o prev fuel Hc Hl Hne Hf;
    (destruct fuel as [|fuel]; [cbn [length] in Hf; lia|]); cbn [node_chain map snd length] in *.
  - by subst o.
  - destruct Hc as (-> & next & Hn & Hc). apply live_cons in Hl as [Hl1 Hl2].
    cbn [remove_find fmap option_fmap option_map read_item]. rewrite (proj2 (store_get_ok _ _ _) Hn), bind_Ok, key_equal_item, bind_Ok by done.
    rewrite bool_decide_false by (apply Hne; left). cbn [item_of item_next].
    apply IH; [done|done|intros x Hx; apply Hne; by right|lia].
Qed.

Lemma hashmap_remove_absent seed key m h bs :
  map_ok seed m h bs -> key <> [] -> (forall k, (k, key) ∉ concat (map keys_of bs)) ->
  exists m', hashmap_remove seed key m h = Ok (m', h) /\ map_ok seed m' h bs /\ hm_size m' = hm_size m
    /\ hm_items m' = hm_items m /\ length (item_occupation m') = length (item_occupation m).
Proof.
  intros Hok Hkey Hno. destruct (slot_of Hok key) as (i & b & x & Hi & Hb & Hx & Hbx).
  unfold hashmap_remove. rewrite <- Hi. cbn [read_item]. rewrite Hx. cbn [of_option]. rewrite bind_Ok.
  destruct (word_of key Hok) as [w Hw].
  assert (exists occ, (match item_next x with
    | None => update_word (fun w => Z.land w (u32 (Z.lnot (Z.shiftl 0 (get_key seed key (hm_capacity m) mod 32)))))
                (get_key seed key (hm_capacity m) / 32) (item_occupation m)
    | Some _ => Ok (item_occupation m) end) = Ok occ /\ length occ = length (item_occupation m)) as (occ & -> & Hocc).
  { destruct (item_next x); [by eexists|]. rewrite (update_word_ok _ _ _ w Hw). eexists. split; [done|]. apply length_insert. }
  rewrite bind_Ok. set (m1 := set_occupation occ m).
  exists m1. split; [|split; [by apply set_occupation_ok|done]].
  assert (forall k, (k, key) ∉ keys_of b) as Hnb by (intros k Hk; apply (Hno k); by eapply elem_of_concat_map).
  destruct (chain_fuel_S h) as (f & -> & Hf). cbn [remove_find read_item]. change (hm_items m1) with (hm_items m). rewrite Hx. cbn [of_option].
  rewrite bind_Ok. destruct b as [[[k stale]|]|e rest]; cbn [bucket_ok] in Hbx.
  - subst x. rewrite (key_equal_live _ _ _ k stale), bind_Ok; [|done|done|].
    + rewrite bool_decide_false; [by destruct f; [lia|]|]. intros ->. apply (Hnb k). left.
    + apply (mp_live _ _ _ _ Hok). apply (elem_of_concat_map keys_of bs i _ _ Hb). left.
  - subst x. rewrite key_equal_blank, bind_Ok by done. by destruct f as [|f]; [lia|].
  - destruct Hbx as (next & -> & Hc). pose proof (bucket_live Hok i _ Hb) as Hlive. cbn [entries] in *.
    assert (forall e', e' ∈ e :: map snd rest -> e_key e' <> key) as Hne.
    { intros e' He' <-. apply (Hnb (e_ptr e')). cbn [keys_of]. by apply (list_elem_of_fmap_2 (fun e => (e_ptr e, e_key e))). }
    apply live_cons in Hlive as [Hle Hlive]. rewrite key_equal_item, bind_Ok by done.
    rewrite bool_decide_false by (apply Hne; left). cbn [item_of item_next].
    rewrite (remove_find_none f key _ m1 h next rest); [done|done|done|intros e' He'; apply Hne; by right|].
    pose proof (bucket_chain_length Hok i e rest Hb). lia.
Qed.

(** ** Runs *)
Inductive map_op := MapInsert (key : list Z) (value : loc) | MapGet (key : list Z) | MapRemove (key : list Z).

(** What the callers do: a key object is allocated for an insertion. *)
Definition map_step (seed : Z) (calloc_ok : Z -> bool) (st : SwiftNetHashMap * MapHeap) (o : map_op)
    : Outcome (list (option loc) * (SwiftNetHashMap * MapHeap)) :=
  let '(m, h) := st in
  match o with
  | MapInsert key v =>
      let '(k, s) := store_alloc key (map_keys h) in
      r ← hashmap_insert seed calloc_ok k (Z.of_nat (length key)) (Some v) m (set_keys s h); Ok ([], r)
  | MapGet key => v ← hashmap_get seed key m h; Ok ([v], (m, h))
  | MapRemove key => r ← hashmap_remove seed key m h; Ok ([], r)
  end.

Fixpoint map_run (seed : Z) (calloc_ok : Z -> bool) (st : SwiftNetHashMap * MapHeap) (os : list map_op)
    : Outcome (list (option loc) * (SwiftNetHashMap * MapHeap)) :=
  match os with
  | [] => Ok ([], st)
  | o :: os =>
      '(r, st) ← map_step seed calloc_ok st o;
      '(rs, st) ← map_run seed calloc_ok st os;
      Ok (r ++ rs, st)
  end.

(** The same operations on the tables of Store.v. *)
Fixpoint table_run (t : list (list Z * loc)) (os : list map_op) : list (option loc) * list (list Z * loc) :=
  match os with
  | [] => ([], t)
  | MapInsert key v :: os => table_run (al_insert key v t) os
  | MapGet key :: os => let '(rs, t') := table_run t os in (al_get key t :: rs, t')
  | MapRemove key :: os => table_run (al_remove key t) os
  end.

(** Keys are not empty, and no key is removed once more after its last entry was
    removed: a key to remove is in the table or was never inserted ([seen] are the keys
    inserted so far). *)
Fixpoint clean (seen : list (list Z)) (t : list (list Z * loc)) (os : list map_op) : Prop :=
  match os with
  | [] => True
  | MapInsert key v :: os => key_ok key /\ clean (key :: seen) (al_insert key v t) os
  | MapGet key :: os => key_ok key /\ clean seen t os
  | MapRemove key :: os => key_ok key /\ (is_Some (al_get key t) \/ key ∉ seen) /\ clean seen (al_remove key t) os
  end.

Definition table_under (key : list Z) (t : list (list Z * loc)) : list loc := map snd (filter (fun x => x.1 = key) t).

Definition represents (bs : list bucket) (t : list (list Z * loc)) : Prop :=
  (forall key, map e_value (under key (all_entries bs)) = table_under key t) /\ length (all_entries bs) = length t.

Lemma al_get_under key t : al_get key t = head (table_under key t).
Proof.
  unfold table_under. induction t as [|[k v] t IH]; [done|]. rewrite filter_cons. cbn [al_get fst].
  destruct (decide (key = k)) as [->|Hne]; [by rewrite decide_True|]. by rewrite decide_False.
Qed.

Lemma table_under_insert k v t key : table_under key (al_insert k v t) = table_under key t ++ (if decide (k = key) then [v] else []).
Proof. unfold table_under, al_insert. rewrite filter_app, map_app. f_equal. rewrite filter_cons. cbn [fst]. by case_decide. Qed.

Lemma table_under_remove k t key : table_under key (al_remove k t) = if decide (key = k) then tail (table_under k t) else table_under key t.
Proof.
  unfold table_under. induction t as [|[k' v] t IH]; cbn [al_remove]; [by case_decide|]. rewrite !filter_cons. cbn [fst].
  destruct (decide (k = k')) as [->|Hne].
  - rewrite (decide_True (P := k' = k')) by done. destruct (decide (key = k')) as [->|]; [done|]. by rewrite decide_False by congruence.
  - rewrite filter_cons. cbn [fst]. rewrite (decide_False (P := k' = k)) by congruence.
    destruct (decide (key = k)) as [->|]; [rewrite decide_False by congruence; done|].
    destruct (decide (k' = key)); [cbn; by rewrite IH|done].
Qed.

Lemma length_al_remove k (t : list (list Z * loc)) : is_Some (al_get k t) -> S (length (al_remove k t)) = length t.
Proof.
  induction t as [|[k' v] t IH]; cbn; [by intros []|]. case_decide; [done|]. intros Hs. cbn. f_equal. by apply IH.
Qed.

Lemma fresh_key_ok seed m h bs key :
  map_ok seed m h bs ->
  map_ok seed m (set_keys (<[store_next (map_keys h) := key]> (map_keys h)) h) bs
  /\ store_next (map_keys h) ∉ map fst (concat (map keys_of bs)).
Proof.
  intros Hok.
  assert (store_next (map_keys h) ∉ map fst (concat (map keys_of bs))) as Hnew.
  { intros ([k key'] & Hk & Hin)%list_elem_of_fmap. cbn in Hk. subst k. apply (mp_live _ _ _ _ Hok) in Hin as [Hk _].
    by rewrite store_next_fresh in Hk. }
  split; [|done]. destruct Hok as [H1 H2 H3 H4 H5 H6 H7 H8]. constructor; try done.
  intros k key' Hin. cbn [map_keys set_keys]. rewrite lookup_insert_ne; [by apply H6|].
  intros <-. apply Hnew, list_elem_of_fmap. by exists (store_next (map_keys h), key').
Qed.

(** The map and the table in step; the keys the map holds, those of emptied slots
    included, were inserted. *)
Definition in_step (seed : Z) (seen : list (list Z)) (t : list (list Z * loc)) (st : SwiftNetHashMap * MapHeap) : Prop :=
  exists bs, map_ok seed st.1 st.2 bs /\ represents bs t /\ hm_size st.1 = Z.of_nat (length t)
    /\ forall k key, (k, key) ∈ concat (map keys_of bs) -> key ∈ seen.

Lemma al_remove_absent k (t : list (list Z * loc)) : al_get k t = None -> al_remove k t = t.
Proof. induction t as [|[k' v] t IH]; cbn; [done|]. case_decide; [done|]. intros Hn. by rewrite IH. Qed.

Section simulation.
Context (seed : Z) (calloc_ok : Z -> bool) (Hcal : forall n, calloc_ok n = true).

Lemma insert_in_step seen t m h key v :
  in_step seed seen t (m, h) -> key_ok key -> Z.of_nat (length t) + 1 < 2 ^ 30 - 8 ->
  exists st, map_step seed calloc_ok (m, h) (MapInsert key v) = Ok ([], st) /\ in_step seed (key :: seen) (al_insert key v t) st.
Proof.
  intros (bs & Hok & [Hrep Hlen] & Hsize & Hseen) Hkey Hmax. cbn in Hok, Hsize.
  destruct (fresh_key_ok seed m h bs key Hok) as [Hok1 Hnew].
  destruct (hashmap_insert_ok seed calloc_ok (mk_entry (store_next (map_keys h)) key v) m _ bs Hok1)
    as (m' & h' & bs' & Hins & Hok' & Hkeys & Hu & Hks & Hlen' & Hs); [..|exists (m', h'); split]; try done; try lia.
  - intros e ->%list_elem_of_singleton. cbn. apply lookup_insert_eq.
  - cbn [e_ptr e_key e_value] in Hins. cbn [map_step store_alloc]. by rewrite Hins, bind_Ok.
  - exists bs'. cbn [fst snd]. split; [done|]. split; [split|split].
    + intros k. rewrite Hu, map_app, table_under_insert, Hrep. f_equal. unfold under. rewrite filter_cons. cbn [e_key].
      by case_decide.
    + rewrite Hlen', Hlen. unfold al_insert. rewrite length_app. cbn. lia.
    + rewrite Hs, Hsize. unfold al_insert. rewrite length_app. cbn. lia.
    + intros k key' Hk. pose proof (proj1 (mp_live _ _ _ _ Hok' _ _ Hk)) as Hlive. rewrite Hkeys in Hlive.
      destruct (Hks k) as [Hold| ->]; [by apply (list_elem_of_fmap_2 fst) in Hk|..].
      * apply list_elem_of_fmap in Hold as ([k2 key2] & -> & Hin). cbn in Hlive.
        pose proof (proj1 (mp_live _ _ _ _ Hok1 _ _ Hin)) as Hlive'. cbn in Hlive'. rewrite Hlive' in Hlive. injection Hlive as ->. right. by eapply Hseen.
      * cbn in Hlive. rewrite lookup_insert_eq in Hlive. injection Hlive as ->. left.
Qed.

Lemma get_in_step seen t m h key :
  in_step seed seen t (m, h) -> key_ok key -> map_step seed calloc_ok (m, h) (MapGet key) = Ok ([al_get key t], (m, h)).
Proof.
  intros (bs & Hok & [Hrep _] & _) [Hne _]. cbn [map_step fst snd] in *. rewrite (hashmap_get_ok Hok key Hne), bind_Ok.
  rewrite al_get_under, <- Hrep. by destruct (under key (all_entries bs)).
Qed.

Lemma remove_present_in_step seen t m h key :
  in_step seed seen t (m, h) -> is_Some (al_get key t) -> Z.of_nat (length t) < 2 ^ 32 ->
  exists st, map_step seed calloc_ok (m, h) (MapRemove key) = Ok ([], st) /\ in_step seed seen (al_remove key t) st.
Proof.
  intros (bs & Hok & [Hrep Hlen] & Hsize & Hseen) Hin Hmax. cbn in Hok, Hsize.
  assert (under key (all_entries bs) <> []) as Hne.
  { intros E. specialize (Hrep key). rewrite E in Hrep. rewrite al_get_under, <- Hrep in Hin. by destruct Hin. }
  destruct (hashmap_remove_ok seed key m h bs Hok Hne) as (m' & h' & bs' & Hrem & Hok' & Hu & Hlen' & Hs & Hks).
  pose proof (length_al_remove key t Hin) as Hlt.
  exists (m', h'). split; [cbn [map_step]; by rewrite Hrem, bind_Ok|]. exists bs'. cbn [fst snd].
  split; [done|]. split; [split|split].
  - intros k. rewrite Hu, table_under_remove. case_decide; [|apply Hrep].
    rewrite <- (Hrep key). by destruct (under key (all_entries bs)).
  - lia.
  - rewrite Hs, Hsize, u32_id by lia. lia.
  - intros k key' Hk. apply (Hseen k), Hks, Hk.
Qed.

Lemma remove_in_step seen t m h key :
  in_step seed seen t (m, h) -> key_ok key -> is_Some (al_get key t) \/ key ∉ seen -> Z.of_nat (length t) < 2 ^ 32 ->
  exists st, map_step seed calloc_ok (m, h) (MapRemove key) = Ok ([], st) /\ in_step seed seen (al_remove key t) st.
Proof.
  intros Hst Hkey Hc Hmax. destruct (al_get key t) as [v|] eqn:Ev; [by apply remove_present_in_step; [|rewrite Ev; eexists|]|].
  destruct Hc as [[? ?]|Hns]; [done|]. destruct Hst as (bs & Hok & Hrep & Hsize & Hseen). cbn in Hok, Hsize.
  destruct (hashmap_remove_absent seed key m h bs Hok (proj1 Hkey)) as (m' & Hrem & Hok' & Hs & _); [intros k Hk; by apply Hns, (Hseen k)|].
  exists (m', h). split; [cbn [map_step]; by rewrite Hrem, bind_Ok|]. rewrite al_remove_absent by done.
  exists bs. cbn [fst snd]. by rewrite Hs.
Qed.

Lemma length_remove_le k (t : list (list Z * loc)) : (length (al_remove k t) <= length t)%nat.
Proof. induction t as [|[k' v] t IH]; cbn; [done|]. case_decide; cbn; lia. Qed.

Lemma map_run_in_step os : forall seen t st,
  in_step seed seen t st -> clean seen t os -> Z.of_nat (length t) + Z.of_nat (length os) < 2 ^ 30 - 8 ->
  exists seen' st', map_run seed calloc_ok st os = Ok (fst (table_run t os), st') /\ in_step seed seen' (snd (table_run t os)) st'.
Proof.
  induction os as [|o os IH]; intros seen t [m h] Hst Hcl Hmax; [by exists seen, (m, h)|]. cbn [length] in Hmax.
  destruct o as [key v|key|key]; cbn [clean] in Hcl; cbn [map_run table_run].
  - destruct Hcl as [Hk Hcl]. destruct (insert_in_step seen t m h key v Hst Hk ltac:(lia)) as (st & -> & Hst1). rewrite bind_Ok.
    destruct (IH _ _ st Hst1 Hcl) as (seen' & st' & -> & Hst'); [unfold al_insert; rewrite length_app; cbn; lia|]. by exists seen', st'.
  - destruct Hcl as [Hk Hcl]. rewrite (get_in_step seen t m h key Hst Hk), bind_Ok.
    destruct (IH _ _ (m, h) Hst Hcl) as (seen' & st' & -> & Hst'); [lia|]. rewrite bind_Ok.
    destruct (table_run t os). by exists seen', st'.
  - destruct Hcl as (Hk & Hin & Hcl). destruct (remove_in_step seen t m h key Hst Hk Hin ltac:(lia)) as (st & -> & Hst1). rewrite bind_Ok.
    pose proof (length_remove_le key t). destruct (IH _ _ st Hst1 Hcl) as (seen' & st' & -> & Hst'); [lia|]. by exists seen', st'.
Qed.

Lemma create_in_step h : in_step seed [] [] (hashmap_create calloc_ok, h).
Proof.
  exists (blank_buckets 320). unfold hashmap_create, calloc_items, calloc_words. rewrite !Hcal. split; [|split; [split|split]].
  - by apply (blank_ok seed h 320 0).
  - done.
  - done.
  - done.
  - intros k key Hk. rewrite blank_concat in Hk by done. by apply not_elem_of_nil in Hk.
Qed.
End simulation.

(** C5 A run of insertions, lookups and removals on a fresh map, of any length below the
    size at which the capacity would overflow 32 bits, with keys that collide or not,
    equal keys, resizes and removals of keys that were never inserted included: no access
    is undefined, every lookup returns what the keyed table of Store.v returns (the oldest
    value under the key), the map satisfies its invariant at the end, holds the table's
    entries and counts them.  Left out, by [clean], are empty keys and one use of the map
    the code gets wrong: removing a key again after its last entry was removed
    ([second_remove_wraps_size]: the emptied slot may still hold the key, and the size
    wraps below 0). *)
Theorem hashmap_refines_table seed calloc_ok h os :
  (forall n, calloc_ok n = true) -> clean [] [] os -> Z.of_nat (length os) < 2 ^ 30 - 8 ->
  exists m' h' bs, map_run seed calloc_ok (hashmap_create calloc_ok, h) os = Ok (fst (table_run [] os), (m', h'))
    /\ map_ok seed m' h' bs /\ represents bs (snd (table_run [] os))
    /\ hm_size m' = Z.of_nat (length (snd (table_run [] os))).
Proof.
  intros Hcal Hcl Hlen.
  destruct (map_run_in_step seed calloc_ok Hcal os [] [] _ (create_in_step seed calloc_ok Hcal h) Hcl) as (seen & [m' h'] & -> & bs & H1 & H2 & H3 & _);
    [cbn; lia|]. by exists m', h', bs.
Qed.

(** Seed 0 puts every key in the first slot: the removal unlinks inside a chain.  Keys
    [4] and [5] are removed without being there, before and after they share a slot. *)
Definition sample_ops : list map_op :=
  [MapRemove [4]; MapInsert [1; 2] 10%positive; MapInsert [3] 11%positive; MapInsert [1; 2] 12%positive; MapGet [1; 2];
   MapRemove [1; 2]; MapGet [1; 2]; MapRemove [5]; MapRemove [3]; MapGet [3]].

Lemma hashmap_refines_table_witness :
  clean [] [] sample_ops /\ exists m' h', map_run 0 (fun _ => true) (hashmap_create (fun _ => true), mk_heap ∅ ∅) sample_ops
    = Ok ([Some 10%positive; Some 12%positive; None], (m', h')) /\ hm_size m' = 1.
Proof.
  assert (clean [] [] sample_ops) as Hcl.
  { cbn; repeat split; try done; try (repeat constructor; done); try (left; by eexists);
      right; rewrite ?elem_of_cons, ?elem_of_nil; intuition congruence. }
  split; [exact Hcl|].
  destruct (hashmap_refines_table 0 (fun _ => true) (mk_heap ∅ ∅) sample_ops (fun _ => eq_refl) Hcl ltac:(reflexivity))
    as (m' & h' & bs & Hr & _ & _ & Hs). exists m', h'. split; [exact Hr|exact Hs].
Defined.
