(* ===== verification/HashmapLoop.v ===== *)
(** * Walking a hash map ([LOOP_HASHMAP], internal/internal.h)

    The loop is meant to visit the entries of the occupied slots.  [hashmap_insert]
    never sets an occupancy bit, so on a map that was never resized the loop visits
    nothing; and where a bit is set (by [hashmap_resize]) the loop picks an unset
    bit of the word and never gets past it. *)

From S2P Require Import Prelude Store Hashmap HashmapSpec.

Lemma lowest_bit_set n : forall i x, (exists j, i <= j < i + Z.of_nat n /\ Z.testbit x j = true) ->
  Z.testbit x (lowest_bit n i x) = true /\ i <= lowest_bit n i x < i + Z.of_nat n.
Proof.
  induction n as [|n IH]; intros i x (j & Hj & Hb); [lia|]. cbn [lowest_bit]. destruct (Z.testbit x i) eqn:E; [split; [done|lia]|].
  destruct (IH (i + 1) x) as [H1 H2]; [|split; [done|lia]].
  exists j. split; [|done]. assert (j <> i) by congruence. lia.
Qed.

Lemma word_has_bit x : 0 <= x < 2 ^ 32 -> x <> 0 -> exists j, 0 <= j < 0 + Z.of_nat 32 /\ Z.testbit x j = true.
Proof.
  intros Hx Hne. exists (Z.log2 x). split; [|apply Z.bit_log2; lia].
  split; [apply Z.log2_nonneg|]. change (0 + Z.of_nat 32) with 32. apply Z.log2_lt_pow2; lia.
Qed.

(** Setting a bit that is set changes nothing. *)
Lemma set_lowest_bit x : 0 <= x < 2 ^ 32 -> x <> 0 -> Z.lor x (u32 (Z.shiftl 1 (lowest_bit 32 0 x))) = x.
Proof.
  intros Hx Hne. destruct (lowest_bit_set 32 0 x (word_has_bit x Hx Hne)) as [Hb Hr].
  set (b := lowest_bit 32 0 x) in *. rewrite Z.shiftl_mul_pow2, Z.mul_1_l by lia.
  rewrite u32_id by (split; [apply Z.pow_nonneg; lia|change 4294967296 with (2 ^ 32); apply Z.pow_lt_mono_r; lia]).
  apply Z.bits_inj'. intros k Hk. rewrite Z.lor_spec, Z.pow2_bits_eqb by lia.
  destruct (Z.eqb_spec b k) as [<-|]; [by rewrite Hb|by rewrite orb_false_r].
Qed.

Section loop.
Context {S : Type} (body : item_ptr -> S -> Outcome S) (next_of : item_ptr -> S -> Outcome (option loc)).

(** A word with an unset bit is never left. *)
Lemma loop_word_never fuel i inverted s s' :
  0 <= inverted < 2 ^ 32 - 1 -> loop_word body next_of fuel i inverted s <> Ok s'.
Proof.
  intros Hi. revert s. induction fuel as [|fuel IH]; intros s; [done|]. cbn [loop_word].
  rewrite (proj2 (Z.eqb_neq _ _)) by lia. destruct (Z.eqb_spec inverted 0) as [|Hne]; [done|].
  rewrite set_lowest_bit by lia. intros (s1 & _ & H)%bind_ok. by apply IH in H.
Qed.

Lemma inverted_range w : 0 <= w < 2 ^ 32 -> w <> 0 -> 0 <= Z.lxor w (2 ^ 32 - 1) < 2 ^ 32 - 1.
Proof.
  intros Hw Hne. change (2 ^ 32 - 1) with (Z.ones 32).
  assert (Z.lxor w (Z.ones 32) = Z.ones 32 - w) as ->.
  { assert (Z.land w (Z.lxor w (Z.ones 32)) = 0) as Hd.
    { apply Z.bits_inj'. intros k Hk. rewrite Z.land_spec, Z.lxor_spec, Z.bits_0. destruct (Z.testbit w k) eqn:E; [|done].
      cbn. apply negb_false_iff. rewrite Z.ones_spec_low; [done|]. split; [done|].
      destruct (Z.lt_ge_cases k 32); [done|]. rewrite Z.bits_above_log2 in E; [done|lia|].
      destruct (Z.eq_dec w 0) as [->|]; [cbn; lia|]. apply Z.lt_le_trans with 32; [apply Z.log2_lt_pow2; lia|lia]. }
    pose proof (Z.add_nocarry_lxor _ _ Hd) as Ha. rewrite <- Z.lxor_assoc, Z.lxor_nilpotent, Z.lxor_0_l in Ha. lia. }
  change (Z.ones 32) with (2 ^ 32 - 1). lia.
Qed.

Lemma loop_words_ok fuel n : forall i occ s s', 0 <= i -> Forall (fun w => 0 <= w < 2 ^ 32) occ ->
  loop_words body next_of fuel n i occ s = Ok s' <->
    s' = s /\ forall j, i <= j < i + Z.of_nat n -> occ !! Z.to_nat j = Some 0.
Proof.
  induction n as [|n IH]; intros i occ s s' Hi Hocc; cbn [loop_words].
  { split; [intros [= ->]; split; [done|lia]|by intros [-> _]]. }
  rewrite bind_ok. split.
  - intros (w & Hw & H). apply of_option_ok in Hw. apply bind_ok in H as (s1 & H1 & H2).
    assert (0 <= w < 2 ^ 32) as Hr by (by eapply Forall_lookup_1 in Hocc).
    destruct (Z.eqb_spec w 0) as [->|Hne]; [|by apply loop_word_never in H1; [|by apply inverted_range]].
    injection H1 as <-. apply IH in H2 as [-> H2]; [|lia|done]. split; [done|].
    intros j Hj. destruct (decide (j = i)) as [->|]; [done|apply H2; lia].
  - intros [-> Hz]. exists 0. split; [apply of_option_ok, Hz; lia|]. rewrite Z.eqb_refl, bind_Ok. apply IH; [lia|done|].
    split; [done|]. intros j Hj. apply Hz. lia.
Qed.
End loop.

(** ** The occupancy words of a map that was never resized *)
Definition same_table (m m' : SwiftNetHashMap) : Prop :=
  item_occupation m' = item_occupation m /\ hm_capacity m' = hm_capacity m /\ hm_size m' = hm_size m.

Lemma same_table_trans m m1 m2 : same_table m m1 -> same_table m1 m2 -> same_table m m2.
Proof. unfold same_table. intuition congruence. Qed.

Lemma write_item_same p x m h m' h' : write_item p x m h = Ok (m', h') -> same_table m m'.
Proof.
  destruct p; cbn [write_item]; intros (? & _ & [= <- <-])%bind_ok; done.
Qed.

Lemma insert_find_same fuel : forall p m h p' m' h', insert_find fuel p m h = Ok (p', m', h') -> same_table m m'.
Proof.
  induction fuel as [|fuel IH]; intros p m h p' m' h'; [done|]. cbn [insert_find]. intros (x & _ & H)%bind_ok.
  destruct (item_value x); [|by injection H as <- <- <-]. destruct (item_next x); [by apply IH in H|].
  cbn [store_alloc] in H. apply bind_ok in H as ([m1 h1] & H & [= <- <- <-]). by apply write_item_same in H.
Qed.

Lemma remove_head_same p m h m' h' : remove_head p m h = Ok (m', h') -> same_table m m'.
Proof.
  unfold remove_head. intros (x & _ & ([m1 h1] & H1 & H)%bind_ok)%bind_ok. apply write_item_same in H1.
  destruct (item_next x); [|by injection H as <- <-].
  apply bind_ok in H as (h2 & _ & (y & _ & ([m3 h3] & H3 & ([m4 h4] & H4 & (s & _ & [= <- <-])%bind_ok)%bind_ok)%bind_ok)%bind_ok).
  apply write_item_same in H3, H4. eauto using same_table_trans.
Qed.

Lemma remove_node_same q p m h m' h' : remove_node q p m h = Ok (m', h') -> same_table m m'.
Proof.
  unfold remove_node.
  intros (y & _ & (x & _ & ([m1 h1] & H1 & ([m2 h2] & H2 & (h3 & _ & H)%bind_ok)%bind_ok)%bind_ok)%bind_ok)%bind_ok.
  apply write_item_same in H1, H2. destruct p; [done|]. apply bind_ok in H as (s & _ & [= <- <-]). eauto using same_table_trans.
Qed.

Definition words_zero (m : SwiftNetHashMap) : Prop := Forall (fun w => w = 0) (item_occupation m).

Lemma update_word_zero f byte occ occ' : f 0 = 0 -> Forall (fun w => w = 0) occ -> update_word f byte occ = Ok occ' -> Forall (fun w => w = 0) occ'.
Proof.
  intros Hf Hz (w & Hw & [= <-])%bind_ok. apply of_option_ok in Hw. apply Forall_insert; [done|].
  assert (w = 0) as -> by (by eapply Forall_lookup_1 in Hz). done.
Qed.

Lemma hashmap_insert_words seed calloc_ok k n v m h m' h' :
  hashmap_insert seed calloc_ok k n v m h = Ok (m', h') -> words_zero m -> u32 (hm_size m + 1) < hm_capacity m ->
  words_zero m' /\ hm_capacity m' = hm_capacity m.
Proof.
  unfold hashmap_insert.
  intros (st & _ & (bytes & _ & ([[p m1] h1] & H1 & ([m2 h2] & H2 & (occ & Ho & H)%bind_ok)%bind_ok)%bind_ok)%bind_ok)%bind_ok Hz Hlt.
  apply insert_find_same in H1. apply write_item_same in H2. destruct (same_table_trans _ _ _ H1 H2) as (Eo & Ec & Es).
  cbn [set_occupation set_size hm_capacity hm_size item_occupation] in H, Ho.
  rewrite Ec, Es in H. rewrite (proj2 (Z.leb_gt _ _)) in H by done. injection H as <- <-. split; [|done].
  apply update_word_zero in Ho; [done| |by rewrite Eo]. by rewrite Z.lor_0_l, Z.shiftl_0_l.
Qed.

Lemma hashmap_remove_words seed key m h m' h' :
  hashmap_remove seed key m h = Ok (m', h') -> words_zero m -> words_zero m' /\ hm_capacity m' = hm_capacity m.
Proof.
  unfold hashmap_remove. intros (x & _ & (occ & Ho & (found & _ & H)%bind_ok)%bind_ok)%bind_ok Hz.
  assert (Forall (fun w => w = 0) occ) as Hocc.
  { destruct (item_next x); [by injection Ho as <-|]. by apply update_word_zero in Ho. }
  destruct found as [[q p]|]; [|by injection H as <- <-]. apply bind_ok in H as ([m1 h1] & H & [= <- <-]).
  assert (same_table (set_occupation occ m) m1) as (Eo & Ec & _).
  { destruct (decide (p = q)); [by apply remove_head_same in H|by apply remove_node_same in H]. }
  split; [|done]. unfold words_zero. cbn. by rewrite Eo.
Qed.

Lemma update_word_length f byte occ occ' : update_word f byte occ = Ok occ' -> length occ' = length occ.
Proof. intros (w & _ & [= <-])%bind_ok. apply length_insert. Qed.

Lemma hashmap_insert_length seed calloc_ok k n v m h m' h' :
  hashmap_insert seed calloc_ok k n v m h = Ok (m', h') -> u32 (hm_size m + 1) < hm_capacity m ->
  length (item_occupation m') = length (item_occupation m).
Proof.
  unfold hashmap_insert.
  intros (st & _ & (bytes & _ & ([[p m1] h1] & H1 & ([m2 h2] & H2 & (occ & Ho & H)%bind_ok)%bind_ok)%bind_ok)%bind_ok)%bind_ok Hlt.
  apply insert_find_same in H1. apply write_item_same in H2. destruct (same_table_trans _ _ _ H1 H2) as (Eo & Ec & Es).
  cbn [set_occupation set_size hm_capacity hm_size item_occupation] in H, Ho.
  rewrite Ec, Es in H. rewrite (proj2 (Z.leb_gt _ _)) in H by done. injection H as <- <-.
  apply update_word_length in Ho. cbn. congruence.
Qed.

Lemma hashmap_remove_length seed key m h m' h' :
  hashmap_remove seed key m h = Ok (m', h') -> length (item_occupation m') = length (item_occupation m).
Proof.
  unfold hashmap_remove. intros (x & _ & (occ & Ho & (found & _ & H)%bind_ok)%bind_ok)%bind_ok.
  assert (length occ = length (item_occupation m)) as Hocc.
  { destruct (item_next x); [by injection Ho as <-|]. by apply update_word_length in Ho. }
  destruct found as [[q p]|]; [|by injection H as <- <-]. apply bind_ok in H as ([m1 h1] & H & [= <- <-]).
  assert (same_table (set_occupation occ m) m1) as (Eo & _ & _).
  { destruct (decide (p = q)); [by apply remove_head_same in H|by apply remove_node_same in H]. }
  cbn. by rewrite Eo.
Qed.

Lemma map_run_words seed calloc_ok os : (forall n, calloc_ok n = true) -> forall seen t st res st',
  in_step seed seen t st -> clean seen t os -> words_zero st.1 -> hm_capacity st.1 = 320 ->
  Z.of_nat (length t) + Z.of_nat (length os) < 320 -> map_run seed calloc_ok st os = Ok (res, st') ->
  words_zero st'.1 /\ hm_capacity st'.1 = 320.
Proof.
  intros Hcal. induction os as [|o os IH]; intros seen t [m h] res st' Hst Hcl Hz Hc Hmax Hrun;
    [by injection Hrun as _ <-|]. cbn [length fst] in *. cbn [map_run] in Hrun.
  apply bind_ok in Hrun as ([r st1] & Hs & Hrun). apply bind_ok in Hrun as ([rs st2] & Hrun & [= _ <-]).
  destruct o as [key v|key|key]; cbn [clean] in Hcl.
  - destruct Hcl as [Hk Hcl]. destruct (insert_in_step seed calloc_ok Hcal seen t m h key v Hst Hk ltac:(lia)) as (st & E & Hst1).
    rewrite E in Hs. injection Hs as <- <-. cbn [map_step store_alloc] in E. apply bind_ok in E as ([m1 h1] & E & [= <-]).
    destruct Hst as (bs & _ & _ & Hsz & _). cbn in Hsz.
    apply hashmap_insert_words in E as [Hz1 Hc1]; [|done|rewrite u32_id; lia].
    apply (IH (key :: seen) (al_insert key v t) (m1, h1) rs); try done; cbn; [congruence|]. unfold al_insert. rewrite length_app. cbn. lia.
  - destruct Hcl as [Hk Hcl]. rewrite (get_in_step seed calloc_ok seen t m h key Hst Hk) in Hs. injection Hs as <- <-.
    apply (IH seen t (m, h) rs); try done. lia.
  - destruct Hcl as (Hk & Hin & Hcl). destruct (remove_in_step seed calloc_ok seen t m h key Hst Hk Hin ltac:(lia)) as (st & E & Hst1).
    rewrite E in Hs. injection Hs as <- <-. cbn [map_step] in E. apply bind_ok in E as ([m1 h1] & E & [= <-]).
    apply hashmap_remove_words in E as [Hz1 Hc1]; [|done]. pose proof (length_remove_le key t).
    apply (IH seen (al_remove key t) (m1, h1) rs); try done; cbn; [congruence|lia].
Qed.

(** [LOOP_HASHMAP] returns only on a map whose occupancy words are all zero, and
    then it has visited nothing; and after any run of fewer than 320 operations on a fresh
    map all words are zero, so the loop visits none of the entries, whatever the body. *)
Theorem loop_hashmap_visits_nothing {S} (body : item_ptr -> S -> Outcome S) next_of seed calloc_ok h os fuel :
  (forall n, calloc_ok n = true) -> clean [] [] os -> Z.of_nat (length os) < 320 ->
  (exists m' h', map_run seed calloc_ok (hashmap_create calloc_ok, h) os = Ok (fst (table_run [] os), (m', h'))
     /\ hm_size m' = Z.of_nat (length (snd (table_run [] os)))
     /\ forall s, LOOP_HASHMAP body next_of fuel m' s = Ok s)
  /\ forall m s s', Forall (fun w => 0 <= w < 2 ^ 32) (item_occupation m) ->
       LOOP_HASHMAP body next_of fuel m s = Ok s' ->
       s' = s /\ forall i, 0 <= i < u32 (hm_capacity m + 31) / 32 -> item_occupation m !! Z.to_nat i = Some 0.
Proof.
  intros Hcal Hcl Hlen. split.
  - destruct (map_run_in_step seed calloc_ok Hcal os [] [] _ (create_in_step seed calloc_ok Hcal h) Hcl) as (seen & [m' h'] & Hrun & Hst);
      [cbn; lia|]. exists m', h'. split; [done|]. destruct Hst as (bs & Hok & _ & Hs & _). split; [done|]. intros s.
    destruct (fun H1 H2 H3 => map_run_words seed calloc_ok os Hcal [] [] _ _ _ (create_in_step seed calloc_ok Hcal h) Hcl H1 H2 H3 Hrun)
      as [Hz Hc]; [|done|cbn; lia|].
    { unfold words_zero, hashmap_create, calloc_words. cbn [fst item_occupation]. rewrite Hcal. by repeat constructor. }
    cbn [fst] in Hz, Hc. unfold LOOP_HASHMAP. rewrite Hc. change (Z.to_nat (u32 (320 + 31) / 32)) with 10%nat.
    assert (length (item_occupation m') = 10%nat) as Hl.
    { pose proof (mp_words _ _ _ _ Hok) as Hw. cbn [fst] in Hw. rewrite Hc in Hw. change ((320 + 31) / 32) with 10 in Hw. lia. }
    apply loop_words_ok; [lia|by eapply Forall_impl; [exact Hz|]; cbn; lia|]. split; [done|].
    intros j Hj. destruct (lookup_lt_is_Some_2 (item_occupation m') (Z.to_nat j)) as [w Hw]; [lia|].
    rewrite Hw. f_equal. by eapply Forall_lookup_1 in Hz.
  - intros m s s' Hw H. apply loop_words_ok in H as [-> H]; [|lia|done]. split; [done|]. intros i Hi. apply H.
    rewrite Z2Nat.id; lia.
Qed.

Lemma loop_hashmap_visits_nothing_witness :
  exists m' h', map_run 7 (fun _ => true) (hashmap_create (fun _ => true), mk_heap ∅ ∅) [MapInsert [1] 5%positive; MapGet [1]]
      = Ok ([Some 5%positive], (m', h')) /\ hm_size m' = 1
    /\ forall s : nat, LOOP_HASHMAP (fun _ n => Ok (S n)) (fun _ _ => Ok None) 3 m' s = Ok s.
Proof.
  destruct (loop_hashmap_visits_nothing (fun _ n => Ok (S n)) (fun _ _ => Ok None) 7 (fun _ => true) (mk_heap ∅ ∅)
    [MapInsert [1] 5%positive; MapGet [1]] 3) as [(m' & h' & H) _]; [done| |done|by exists m', h'].
  cbn. repeat split; try done; repeat constructor; done.
Defined.

(** ** Destruction *)
Definition chain_keys (b : bucket) : list loc := match b with BEmpty _ => [] | BFull _ rest => map (fun x => e_ptr x.2) rest end.

(** What destruction releases: the chain nodes and the keys of the chained entries. *)
Definition released (ns ks : list loc) (h h' : MapHeap) : Prop :=
  (forall n, map_nodes h' !! n = if decide (n ∈ ns) then None else map_nodes h !! n)
  /\ (forall k, map_keys h' !! k = if decide (k ∈ ks) then None else map_keys h !! k).

Lemma decide_app {A} `{EqDecision A} {B} (x : A) (l l' : list A) (a b : B) :
  (if decide (x ∈ l') then a else if decide (x ∈ l) then a else b) = if decide (x ∈ l ++ l') then a else b.
Proof.
  destruct (decide (x ∈ l ++ l')) as [H|H]; rewrite elem_of_app in H.
  - destruct (decide (x ∈ l')); [done|]. by rewrite decide_True by tauto.
  - by rewrite !decide_False by tauto.
Qed.

Lemma released_app ns ks ns' ks' h h1 h2 :
  released ns ks h h1 -> released ns' ks' h1 h2 -> released (ns ++ ns') (ks ++ ks') h h2.
Proof.
  intros [H1 H2] [H3 H4]. split; intros x; [rewrite H3, H1|rewrite H4, H2]; apply decide_app.
Qed.

Lemma released_cons n k h ns ks h' x key :
  map_nodes h !! n = Some x -> map_keys h !! k = Some key ->
  released ns ks (mk_heap (delete n (map_nodes h)) (delete k (map_keys h))) h' -> released (n :: ns) (k :: ks) h h'.
Proof.
  intros Hn Hk H. apply (released_app [n] [k]) with (h1 := mk_heap (delete n (map_nodes h)) (delete k (map_keys h))); [|done].
  split; intros y; cbn;
    (case_decide as E; rewrite list_elem_of_singleton in E; [subst; apply lookup_delete_eq|by apply lookup_delete_ne]).
Qed.

Lemma destroy_chain_ok fuel : forall h o rest, node_chain (map_nodes h) o rest -> live h (map snd rest) ->
  NoDup (map fst rest) -> NoDup (map (fun x => e_ptr x.2) rest) -> (length rest < fuel)%nat ->
  exists h', destroy_chain fuel o h = Ok h' /\ released (map fst rest) (map (fun x => e_ptr x.2) rest) h h'.
Proof.
  induction fuel as [|fuel IH]; intros h o rest Hc Hl Hn Hk Hf; [lia|]. cbn [destroy_chain].
  destruct rest as [|[n e] rest]; cbn [node_chain] in Hc.
  { subst o. exists h. split; [done|]. split; intros x; by case_decide; [set_solver|]. }
  destruct Hc as (-> & next & Hx & Hc). cbn [map fst snd] in *. apply NoDup_cons in Hn as [Hn Hnd], Hk as [Hk Hkd].
  apply live_cons in Hl as [Hle Hl]. assert (map_keys h !! e_ptr e = Some (e_key e)) as Hke by (apply Hle; left).
  rewrite (proj2 (store_get_ok _ _ _) Hx), bind_Ok. unfold free_hashmap_item_key. cbn [item_of key_original_data of_option].
  rewrite bind_Ok, (store_free_ok _ _ _ Hke), !bind_Ok. cbn [set_keys map_nodes map_keys].
  rewrite (store_free_ok _ _ _ Hx), bind_Ok. cbn [set_nodes map_keys item_next].
  destruct (IH (mk_heap (delete n (map_nodes h)) (delete (e_ptr e) (map_keys h))) next rest) as (h' & E & Hr); [..|done|done| |].
  - eapply chain_frame; [|exact Hc]. intros k Hin. cbn. apply lookup_delete_ne. congruence.
  - intros e' He'. cbn. rewrite lookup_delete_ne; [by apply Hl|]. intros Heq. apply Hk. rewrite Heq.
    apply list_elem_of_fmap in He' as (y & -> & Hy). apply list_elem_of_fmap. by exists y.
  - cbn in Hf. lia.
  - exists h'. split; [exact E|]. by eapply released_cons.
Qed.

Lemma destroy_slots_ok bs : forall its h, Forall2 (bucket_ok (map_nodes h)) its bs ->
  NoDup (concat (map nodes_of bs)) -> NoDup (concat (map chain_keys bs)) ->
  (forall e rest, BFull e rest ∈ bs -> live h (map snd rest)) ->
  exists h', destroy_slots its h = Ok h' /\ released (concat (map nodes_of bs)) (concat (map chain_keys bs)) h h'.
Proof.
  induction bs as [|b bs IH]; intros its h Hits Hn Hk Hl; apply Forall2_cons_inv_r in Hits || apply Forall2_nil_inv_r in Hits.
  { subst its. exists h. split; [done|]. split; intros x; by case_decide; [set_solver|]. }
  destruct Hits as (x & its' & Hb & Hits & ->). cbn [destroy_slots map concat] in *.
  apply NoDup_app in Hn as (Hn & Hnd & Hns), Hk as (Hk & Hkd & Hks).
  assert (exists h1, (match item_value x with None => Ok h | Some _ => destroy_chain (chain_fuel h) (item_next x) h end) = Ok h1
    /\ released (nodes_of b) (chain_keys b) h h1) as (h1 & -> & Hr).
  { destruct b as [[[k key]|]|e rest]; cbn [bucket_ok] in Hb.
    - subst x. exists h. split; [done|]. split; intros y; by case_decide; [set_solver|].
    - subst x. exists h. split; [done|]. split; intros y; by case_decide; [set_solver|].
    - destruct Hb as (next & -> & Hc). cbn [item_of item_value item_next]. apply destroy_chain_ok; try done.
      + apply (Hl e). left.
      + unfold chain_fuel. pose proof (chain_length _ _ _ Hc Hn). lia. }
  rewrite bind_Ok. destruct (IH its' h1) as (h' & -> & Hr'); [..|by exists h'; split; [|eapply released_app]]; try done.
  - destruct Hr as [Hr _]. clear -Hits Hnd Hr. induction Hits as [|y b' l bs Hy Hits IH]; constructor.
    + eapply bucket_frame; [|exact Hy]. intros n Hin. rewrite Hr, decide_False; [done|]. intros Hin'.
      apply (Hnd n Hin'). cbn. apply elem_of_app. by left.
    + apply IH. intros n Hin Hin'. apply (Hnd n Hin). cbn. apply elem_of_app. by right.
  - intros e0 rest Hb' e He. destruct Hr as [_ Hr]. rewrite Hr, decide_False; [apply (Hl e0 rest); [by right|done]|].
    intros Hin. apply (Hkd _ Hin). apply list_elem_of_lookup in Hb' as [j Hj].
    apply (elem_of_concat_map chain_keys bs j _ _ Hj). apply list_elem_of_fmap in He as (y & -> & Hy).
    apply list_elem_of_fmap. by exists y.
Qed.

Lemma nodup_chain_keys bs : NoDup (map fst (concat (map keys_of bs))) -> NoDup (concat (map chain_keys bs)).
Proof.
  intros Hnd. eapply sublist_NoDup; [exact Hnd|]. clear Hnd. induction bs as [|b bs IH]; [done|]. cbn [map concat]. rewrite map_app. apply sublist_app; [|done].
  destruct b as [o|e rest]; [apply sublist_nil_l|]. rewrite keys_of_full. cbn. apply sublist_cons.
  by rewrite map_map.
Qed.

(** Destroying a map is safe: every chain node and every chained key is freed once.
    The keys of the slots themselves stay allocated. *)
Theorem hashmap_destroy_ok seed m h bs :
  map_ok seed m h bs ->
  exists h', hashmap_destroy m h = Ok h' /\ released (concat (map nodes_of bs)) (concat (map chain_keys bs)) h h'
    /\ forall i e rest, bs !! i = Some (BFull e rest) -> map_keys h' !! e_ptr e = Some (e_key e).
Proof.
  intros Hok. destruct (destroy_slots_ok bs (hm_items m) h) as (h' & Hd & Hr); [apply Hok|apply Hok|apply nodup_chain_keys, Hok|..].
  - intros e rest [i Hi]%list_elem_of_lookup. pose proof (bucket_live Hok i _ Hi) as Hl. cbn in Hl.
    by apply live_cons in Hl as [_ Hl].
  - exists h'. split; [done|]. split; [done|]. intros i e rest Hi. rewrite (proj2 Hr), decide_False.
    + apply (bucket_live Hok i _ Hi). left.
    + intros Hin. rewrite list_elem_of_In, in_concat in Hin. destruct Hin as (l & Hb & Hin).
      apply list_elem_of_In in Hb, Hin. apply list_elem_of_fmap in Hb as (b & -> & [j Hj]%list_elem_of_lookup).
      destruct b as [o|e' rest']; [by apply not_elem_of_nil in Hin|]. pose proof (mp_keys _ _ _ _ Hok) as Hnd.
      assert (i = j) as <-.
      { rewrite concat_map, map_map in Hnd.
        apply (concat_map_disjoint (fun b => map fst (keys_of b)) bs i j _ _ (e_ptr e) Hnd Hi Hj); rewrite keys_of_full; cbn; [left|].
        right. by rewrite map_map. }
      rewrite Hi in Hj. injection Hj as <- <-. destruct (full_nodup seed m h bs i Hok e rest Hi) as [_ Hk].
      by apply NoDup_cons in Hk as [Hk _].
Qed.

(** A slot keeps the key of its last entry, so removing the key again finds it and
    counts the size down once more. *)
Example second_remove_wraps_size :
  (match map_run 7 (fun _ => true) (hashmap_create (fun _ => true), mk_heap ∅ ∅)
           [MapInsert [1] 5%positive; MapRemove [1]; MapRemove [1]] with
   | Ok (_, (m, _)) => hm_size m
   | _ => 0
   end) = 2 ^ 32 - 1.
Proof. vm_compute. reflexivity. Qed.
