(* ===== verification/Vector.v ===== *)
(** * Vectors (src/src/internal/datatype_vector.c)

    A growing array of pointers: a block of cells ([None] is an unspecified cell), the
    number of cells in use and the capacity.  The vector behaves as a list whose
    removal puts the last element in the place of the removed one, from a starting
    amount of at least one; from zero the capacity never grows. *)

From S2P Require Import Prelude Store.

Section vector.
Context {A : Type} (malloc_ok : Z -> bool).

Record SwiftNetVector := mk_vector { vec_data : list (option A); vec_size : Z; vec_capacity : Z }.

Definition vector_create (starting_amount : Z) : Outcome SwiftNetVector :=
  if malloc_ok (8 * starting_amount) then Ok (mk_vector (repeat None (Z.to_nat starting_amount)) 0 starting_amount) else Exit.

(** [realloc]: the common prefix is kept. *)
Definition realloc_cells (n : Z) (d : list (option A)) : list (option A) :=
  take (Z.to_nat n) d ++ repeat None (Z.to_nat n - length d).

Definition store_cell (i : Z) (x : option A) (d : list (option A)) : Outcome (list (option A)) :=
  if (0 <=? i) && (i <? Z.of_nat (length d)) then Ok (<[Z.to_nat i := x]> d) else Fault.

Definition load_cell (i : Z) (d : list (option A)) : Outcome (option A) :=
  if 0 <=? i then of_option (d !! Z.to_nat i) else Fault.

Definition vector_push (data : A) (v : SwiftNetVector) : Outcome SwiftNetVector :=
  let size := vec_size v in
  let capacity := vec_capacity v in
  v ← (if size =? capacity then
         let new_capacity := u32 (capacity * 2) in
         if malloc_ok (8 * new_capacity) then Ok (mk_vector (realloc_cells new_capacity (vec_data v)) (vec_size v) new_capacity)
         else Exit
       else Ok v);
  d ← store_cell size (Some data) (vec_data v);
  Ok (mk_vector d (u32 (vec_size v + 1)) (vec_capacity v)).

Definition vector_remove (index : Z) (v : SwiftNetVector) : Outcome SwiftNetVector :=
  d ← (if index <? u32 (vec_size v - 1) then
         x ← load_cell (vec_size v - 1) (vec_data v);
         store_cell index x (vec_data v)
       else Ok (vec_data v));
  Ok (mk_vector d (u32 (vec_size v - 1)) (vec_capacity v)).

(** Using an unspecified pointer is undefined. *)
Definition vector_get (index : Z) (v : SwiftNetVector) : Outcome A :=
  x ← load_cell index (vec_data v); of_option x.

(** ** The list a vector stands for *)
Definition vector_ok (v : SwiftNetVector) (l : list A) : Prop :=
  vec_size v = Z.of_nat (length l) /\ vec_capacity v = Z.of_nat (length (vec_data v)) /\ 0 < vec_capacity v < 2 ^ 32
  /\ exists rest, vec_data v = map Some l ++ rest.

(** The last element takes the place of element [i]. *)
Definition swap_remove (i : nat) (l : list A) : list A :=
  match last l with
  | None => l
  | Some x => take (pred (length l)) (<[i := x]> l)
  end.

Lemma store_cell_ok d i x : (i < length d)%nat -> store_cell (Z.of_nat i) x d = Ok (<[i := x]> d).
Proof. intros Hi. unfold store_cell. rewrite (proj2 (Z.leb_le _ _)), (proj2 (Z.ltb_lt _ _)) by lia. by rewrite Nat2Z.id. Qed.

Lemma load_cell_ok d i : load_cell (Z.of_nat i) d = of_option (d !! i).
Proof. unfold load_cell. rewrite (proj2 (Z.leb_le _ _)) by lia. by rewrite Nat2Z.id. Qed.

Lemma vector_create_ok n : malloc_ok (8 * n) = true -> 0 < n < 2 ^ 32 -> exists v, vector_create n = Ok v /\ vector_ok v [].
Proof.
  intros Hm Hn. unfold vector_create. rewrite Hm. eexists. split; [done|]. split_and!; cbn.
  - done.
  - rewrite repeat_length. lia.
  - lia.
  - lia.
  - by eexists.
Qed.

Lemma snoc_cells (l : list A) x rest : (0 < length rest)%nat ->
  <[length l := Some x]> (map Some l ++ rest) = map Some (l ++ [x]) ++ tail rest.
Proof.
  destruct rest as [|y rest]; cbn [length]; [lia|]. intros _. rewrite map_app, <- app_assoc. cbn.
  rewrite <- (length_map Some l) at 1. by rewrite insert_app_r_alt, Nat.sub_diag by lia.
Qed.

Lemma vector_push_ok x v l :
  (forall n, malloc_ok n = true) -> vector_ok v l -> Z.of_nat (length l) < 2 ^ 31 ->
  exists v', vector_push x v = Ok v' /\ vector_ok v' (l ++ [x]).
Proof.
  intros Hm (Hs & Hc & Hr & rest & Hd) Hlen. unfold vector_push.
  assert (exists rest' cap, (if vec_size v =? vec_capacity v then
       if malloc_ok (8 * u32 (vec_capacity v * 2)) then
         Ok (mk_vector (realloc_cells (u32 (vec_capacity v * 2)) (vec_data v)) (vec_size v) (u32 (vec_capacity v * 2))) else Exit
       else Ok v) = Ok (mk_vector (map Some l ++ rest') (vec_size v) cap)
     /\ cap = Z.of_nat (length (map Some l ++ rest')) /\ 0 < cap < 2 ^ 32 /\ (0 < length rest')%nat) as (rest' & cap & -> & Hcap & Hcr & Hrest).
  { rewrite Hd, length_app, length_map in Hc. destruct (Z.eqb_spec (vec_size v) (vec_capacity v)) as [E|E].
    - assert (rest = []) as -> by (apply length_zero_iff_nil; lia). rewrite app_nil_r in Hd. cbn in Hc. rewrite Hm, u32_id by lia.
      exists (repeat None (length l)), (vec_capacity v * 2). unfold realloc_cells. rewrite Hd, length_map, take_ge by (rewrite length_map; lia).
      rewrite length_app, length_map, repeat_length.
      replace (Z.to_nat (vec_capacity v * 2) - length l)%nat with (length l) by lia. split; [done|]. lia.
    - exists rest, (vec_capacity v). destruct v. cbn in *. rewrite Hd, length_app, length_map. split; [done|]. lia. }
  rewrite bind_Ok. cbn [vec_data vec_size vec_capacity].
  rewrite length_app, length_map in Hcap.
  rewrite Hs, store_cell_ok by (rewrite length_app, length_map; lia).
  rewrite bind_Ok, snoc_cells by done. eexists. split; [done|]. split_and!; cbn [vec_size vec_data vec_capacity]; try lia.
  - rewrite length_app, u32_id by lia. cbn. lia.
  - rewrite length_app, length_map, length_app. destruct rest'; cbn in *; lia.
  - by eexists.
Qed.

Lemma last_lookup_cell (l : list A) x rest : last l = Some x -> (map Some l ++ rest) !! pred (length l) = Some (Some x).
Proof.
  intros Hx. rewrite lookup_app_l by (rewrite length_map; destruct l; cbn in *; [done|lia]).
  rewrite last_lookup in Hx. by rewrite list_lookup_fmap, Hx.
Qed.

Lemma vector_remove_ok i v l : vector_ok v l -> (i < length l)%nat ->
  exists v', vector_remove (Z.of_nat i) v = Ok v' /\ vector_ok v' (swap_remove i l).
Proof.
  intros (Hs & Hc & Hr & rest & Hd) Hi. unfold vector_remove, swap_remove.
  assert (Z.of_nat (length l) <= vec_capacity v) as Hle by (rewrite Hc, Hd, length_app, length_map; lia).
  rewrite Hs, u32_id by lia. destruct (last l) as [x|] eqn:Hl; [|apply last_None in Hl; by subst; cbn in Hi; lia].
  pose proof (last_lookup_cell l x rest Hl) as Hx.
  assert (forall d, d = map Some (<[i := x]> l) ++ rest ->
    vector_ok (mk_vector d (Z.of_nat (length l) - 1) (vec_capacity v)) (take (pred (length l)) (<[i := x]> l))) as Hok.
  { intros d ->. split_and!; cbn [vec_size vec_data vec_capacity].
    - rewrite length_take, length_insert. lia.
    - rewrite Hc, Hd, !length_app, !length_map, length_insert. done.
    - lia.
    - lia.
    - exists (map Some (drop (pred (length l)) (<[i := x]> l)) ++ rest). rewrite app_assoc, <- map_app. by rewrite take_drop. }
  destruct (Z.ltb_spec (Z.of_nat i) (Z.of_nat (length l) - 1)) as [Hlt|Hge].
  - assert (load_cell (Z.of_nat (length l) - 1) (vec_data v) = Ok (Some x)) as ->.
    { replace (Z.of_nat (length l) - 1) with (Z.of_nat (pred (length l))) by lia. by rewrite load_cell_ok, Hd, Hx. }
    rewrite bind_Ok, Hd, store_cell_ok, bind_Ok by (rewrite length_app, length_map; lia).
    eexists. split; [done|]. apply Hok. rewrite insert_app_l by (rewrite length_map; lia). f_equal.
    symmetry. apply list_fmap_insert.
  - rewrite bind_Ok. eexists. split; [done|]. apply Hok. rewrite Hd. f_equal. f_equal. symmetry. apply list_insert_id.
    rewrite last_lookup in Hl. replace i with (pred (length l)) by lia. done.
Qed.

Lemma vector_get_ok i v l : vector_ok v l -> (i < length l)%nat -> vector_get (Z.of_nat i) v = of_option (l !! i).
Proof.
  intros (_ & _ & _ & rest & Hd) Hi. unfold vector_get. rewrite load_cell_ok, Hd.
  rewrite lookup_app_l, list_lookup_fmap by (rewrite length_map; lia).
  by destruct (lookup_lt_is_Some_2 l i Hi) as [x ->].
Qed.

(** ** Runs *)
Inductive vector_op := VPush (x : A) | VRemove (i : nat) | VGet (i : nat).

Definition vector_step (v : SwiftNetVector) (o : vector_op) : Outcome (list A * SwiftNetVector) :=
  match o with
  | VPush x => v ← vector_push x v; Ok ([], v)
  | VRemove i => v ← vector_remove (Z.of_nat i) v; Ok ([], v)
  | VGet i => x ← vector_get (Z.of_nat i) v; Ok ([x], v)
  end.

Fixpoint vector_run (v : SwiftNetVector) (os : list vector_op) : Outcome (list A * SwiftNetVector) :=
  match os with
  | [] => Ok ([], v)
  | o :: os => '(r, v) ← vector_step v o; '(rs, v) ← vector_run v os; Ok (r ++ rs, v)
  end.

(** The same on lists; [None] when an index is out of range. *)
Fixpoint list_run (l : list A) (os : list vector_op) : option (list A * list A) :=
  match os with
  | [] => Some ([], l)
  | VPush x :: os => list_run (l ++ [x]) os
  | VRemove i :: os => if decide (i < length l)%nat then list_run (swap_remove i l) os else None
  | VGet i :: os => match l !! i, list_run l os with
                    | Some x, Some (rs, l') => Some (x :: rs, l')
                    | _, _ => None
                    end
  end.
End vector.

Arguments SwiftNetVector : clear implicits.
Arguments vector_op : clear implicits.

Lemma swap_remove_permutation {A} i (l : list A) x : l !! i = Some x -> Permutation l (x :: swap_remove i l).
Proof.
  intros Hi. unfold swap_remove. destruct (last l) as [y|] eqn:Hy; [|apply last_None in Hy; by subst].
  apply last_Some in Hy as [l' ->]. rewrite length_app. cbn [length]. replace (pred (length l' + 1)) with (length l') by lia.
  destruct (decide (i < length l')%nat) as [Hlt|Hge].
  - rewrite insert_app_l by done. rewrite take_app_le, take_ge by (rewrite length_insert; lia).
    rewrite lookup_app_l in Hi by done. rewrite <- (take_drop_middle l' i x Hi) at 1. rewrite insert_take_drop by done. solve_Permutation.
  - rewrite lookup_app_r in Hi by lia. assert (i = length l') as -> by (apply lookup_lt_Some in Hi; cbn in Hi; lia).
    rewrite Nat.sub_diag in Hi. injection Hi as ->. rewrite insert_app_r_alt, Nat.sub_diag by lia. cbn.
    rewrite take_app_length. solve_Permutation.
Qed.

Lemma length_swap_remove {A} i (l : list A) : (i < length l)%nat -> length (swap_remove i l) = pred (length l).
Proof.
  intros Hi. destruct (lookup_lt_is_Some_2 l i Hi) as [x Hx]. apply swap_remove_permutation, Permutation_length in Hx. cbn in Hx. lia.
Qed.

(** C19 A run of pushes, removals and reads on a vector with a starting amount of at
    least 1 computes what the list does, across every growth of the block, as long as the
    indices are in range and the list stays below 2^31 elements; a removal keeps the other
    elements, with the last one moved to the gap. *)
Theorem vector_refines_list {A} (malloc_ok : Z -> bool) n (os : list (vector_op A)) rs l :
  (forall n, malloc_ok n = true) -> 0 < n < 2 ^ 32 -> Z.of_nat (length os) <= 2 ^ 31 -> list_run [] os = Some (rs, l) ->
  (exists v v', vector_create malloc_ok n = Ok v /\ vector_run malloc_ok v os = Ok (rs, v') /\ vector_ok v' l)
  /\ forall i x, l !! i = Some x -> Permutation l (x :: swap_remove i l).
Proof.
  intros Hm Hn Hlen Hrun. split; [|intros i x; apply swap_remove_permutation].
  destruct (@vector_create_ok A malloc_ok n (Hm _) Hn) as (v & Hv & Hok). exists v.
  cut (exists v', vector_run malloc_ok v os = Ok (rs, v') /\ vector_ok v' l); [intros (v' & ?); by exists v'|].
  assert (Z.of_nat (length (@nil A)) + Z.of_nat (length os) <= 2 ^ 31) as Hmax by (cbn; lia). clear Hv Hlen.
  revert v Hok rs Hrun Hmax. generalize (@nil A). induction os as [|o os IH]; intros l0 v Hok rs Hrun Hmax.
  { injection Hrun as <- <-. by exists v. }
  cbn [length] in Hmax. destruct o as [x|i|i]; cbn [list_run] in Hrun; cbn [vector_run vector_step].
  - destruct (vector_push_ok malloc_ok x v l0 Hm Hok ltac:(lia)) as (v1 & -> & Hok1). rewrite !bind_Ok.
    destruct (IH _ v1 Hok1 rs Hrun) as (v' & -> & Hok'); [rewrite length_app; cbn; lia|]. by exists v'.
  - case_decide as Hi; [|done]. destruct (vector_remove_ok i v l0 Hok Hi) as (v1 & -> & Hok1). rewrite !bind_Ok.
    destruct (IH _ v1 Hok1 rs Hrun) as (v' & -> & Hok'); [rewrite length_swap_remove by done; lia|]. by exists v'.
  - destruct (l0 !! i) as [x|] eqn:Hx; [|done]. destruct (list_run l0 os) as [[rs1 l1]|] eqn:E; [|done]. injection Hrun as <- <-.
    rewrite (vector_get_ok i v l0 Hok (lookup_lt_Some _ _ _ Hx)), Hx. cbn [of_option]. rewrite !bind_Ok.
    destruct (IH _ v Hok rs1 E) as (v' & -> & Hok'); [lia|]. by exists v'.
Qed.

(** Two growths, a removal from the middle and one at the end. *)
Lemma vector_refines_list_witness :
  exists v v', vector_create (fun _ => true) 1 = Ok v
    /\ vector_run (fun _ => true) v [VPush 10; VPush 20; VPush 30; VRemove 0; VGet 0; VRemove 1; VPush 40; VGet 1] = Ok ([30; 40], v')
    /\ vector_ok v' [30; 40].
Proof.
  apply (vector_refines_list (fun _ => true) 1
    [VPush 10; VPush 20; VPush 30; VRemove 0; VGet 0; VRemove 1; VPush 40; VGet 1] [30; 40] [30; 40]);
    [done|lia|cbn; lia|reflexivity].
Defined.

(** From a starting amount of zero the capacity stays zero and the first push writes
    behind the block. *)
Example vector_zero_start : (v ← vector_create (fun _ => true) 0; vector_push (fun _ => true) 5 v) = Fault.
Proof. reflexivity. Qed.

(** Removing from an empty vector copies the cell before the block. *)
Example vector_remove_empty : (v ← @vector_create Z (fun _ => true) 4; vector_remove 0 v) = Fault.
Proof. reflexivity. Qed.
