(* ===== verification/Queue.v ===== *)
(** * The packet queue and the callback queue

    [struct SwiftNetPacketQueue] (filled by the listener in src/src/handle_packets.c,
    emptied in src/src/process_packets.c) and [struct SwiftNetPacketCallbackQueue]
    (filled in src/src/process_packets.c, emptied in src/src/execute_packet_callback.c)
    have the same shape and the same code; the model is generic in the node's content.
    Every operation runs under the queue's lock, so operations are steps. *)

From S2P Require Import Prelude Store.

Section queue.
Context {A : Type}.

Record QueueNode := mk_queue_node {
  node_next : option loc;
  node_content : A
}.

Record PacketQueue := mk_queue {
  first_node : option loc;
  last_node : option loc
}.

Implicit Types (nodes : Store QueueNode) (q : PacketQueue).

(** The producer's side of a queue, under the lock of the queue. *)
Definition insert_queue_node (new_node : option loc) q nodes : Outcome (PacketQueue * Store QueueNode) :=
  match new_node with
  | None => Ok (q, nodes)
  | Some n =>
      '(last, nodes) ← match last_node q with
                       | None => Ok (Some n, nodes)
                       | Some l =>
                           nodes ← store_update l (fun x => mk_queue_node (Some n) (node_content x)) nodes;
                           Ok (Some n, nodes)
                       end;
      let first := match first_node q with None => Some n | Some f => Some f end in
      Ok (mk_queue first last, nodes)
  end.

(** The consumer's side. *)
Definition wait_for_next_packet q nodes : Outcome (option loc * PacketQueue) :=
  match first_node q with
  | None => Ok (None, q)
  | Some f =>
      n ← store_get f nodes;
      match node_next n with
      | None => Ok (Some f, mk_queue None None)
      | Some next => Ok (Some f, mk_queue (Some next) (last_node q))
      end
  end.

(** The queue of callbacks has functions of its own with the same bodies. *)
Definition insert_callback_queue_node (new_node : option loc) q nodes : Outcome (PacketQueue * Store QueueNode) :=
  insert_queue_node new_node q nodes.

Definition wait_for_next_packet_callback q nodes : Outcome (option loc * PacketQueue) :=
  wait_for_next_packet q nodes.

Definition empty_queue : PacketQueue := mk_queue None None.

(** ** The queue as a list *)
Fixpoint chain nodes (o : option loc) (l : list (loc * A)) : Prop :=
  match l with
  | [] => o = None
  | (p, a) :: l => o = Some p /\ exists next, nodes !! p = Some (mk_queue_node next a) /\ chain nodes next l
  end.

(** [l] lists the nodes from first to last. *)
Definition queue_rep q nodes (l : list (loc * A)) : Prop :=
  chain nodes (first_node q) l /\ last_node q = fst <$> last l /\ NoDup (map fst l).

Lemma chain_other nodes o l p x : p ∉ map fst l -> chain nodes o l -> chain (<[p := x]> nodes) o l.
Proof.
  revert o. induction l as [|[p' a] l IH]; intros o; cbn; [done|].
  rewrite not_elem_of_cons. intros [Hne Hp] (-> & next & Hn & Hc). split; [done|]. exists next.
  rewrite lookup_insert_ne by done. auto.
Qed.

Lemma chain_delete nodes o l p : p ∉ map fst l -> chain nodes o l -> chain (delete p nodes) o l.
Proof.
  revert o. induction l as [|[p' a] l IH]; intros o; cbn; [done|].
  rewrite not_elem_of_cons. intros [Hne Hp] (-> & next & Hn & Hc). split; [done|]. exists next.
  rewrite lookup_delete_ne by done. auto.
Qed.

Lemma chain_elem nodes o l p a : chain nodes o l -> (p, a) ∈ l -> exists next, nodes !! p = Some (mk_queue_node next a).
Proof.
  revert o. induction l as [|[p' a'] l IH]; intros o; cbn; [intros _ H; by apply not_elem_of_nil in H|].
  intros (-> & next & Hn & Hc). rewrite elem_of_cons. intros [[= -> ->]|Hin]; [by exists next|by eapply IH].
Qed.

(** Linking a new node behind the last one. *)
Lemma chain_snoc nodes o l p a n b :
  chain nodes o (l ++ [(p, a)]) -> NoDup (map fst (l ++ [(p, a)])) -> n ∉ map fst (l ++ [(p, a)]) ->
  nodes !! n = Some (mk_queue_node None b) ->
  chain (<[p := mk_queue_node (Some n) a]> nodes) o (l ++ [(p, a)] ++ [(n, b)]).
Proof.
  revert o. induction l as [|[p' a'] l IH]; intros o; cbn.
  - intros (-> & next & Hn & _) _ Hne%not_elem_of_cons Hnew. split; [done|]. exists (Some n).
    rewrite lookup_insert_eq. split; [done|]. split; [done|]. exists None.
    rewrite lookup_insert_ne by (intros ->; by destruct Hne). done.
  - intros (-> & next & Hn & Hc) [Hp Hnd]%NoDup_cons [Hne Hnn]%not_elem_of_cons Hnew. split; [done|]. exists next.
    rewrite lookup_insert_ne. 2:{ intros ->. apply Hp. rewrite map_app. apply elem_of_app. right. left. }
    split; [done|]. by apply IH.
Qed.

Lemma last_snoc_fst (l : list (loc * A)) p : fst <$> last l = Some p -> exists l' a, l = l' ++ [(p, a)].
Proof.
  destruct (last l) as [[p' a]|] eqn:E; [|done]. intros [= ->]. apply last_Some in E as [l' ->]. by exists l', a.
Qed.

Lemma insert_refines q nodes l n b :
  queue_rep q nodes l -> nodes !! n = Some (mk_queue_node None b) -> n ∉ map fst l ->
  exists q' nodes', insert_queue_node (Some n) q nodes = Ok (q', nodes') /\ queue_rep q' nodes' (l ++ [(n, b)])
    /\ forall p, p ∉ map fst l -> nodes' !! p = nodes !! p.
Proof.
  intros (Hc & Hl & Hnd) Hn Hnew. unfold insert_queue_node.
  assert (NoDup (map fst (l ++ [(n, b)]))) as Hnd'.
  { rewrite map_app. apply NoDup_app. split; [done|]. split; [|apply NoDup_singleton].
    intros x Hx Hx'. apply list_elem_of_singleton in Hx'. cbn in Hx'. by subst. }
  destruct (last_node q) as [p|] eqn:E.
  - symmetry in Hl. apply last_snoc_fst in Hl as (l' & a & ->).
    destruct (chain_elem _ _ _ p a Hc) as [next Hp]; [apply elem_of_app; right; left|].
    rewrite (store_update_ok _ _ _ _ Hp). rewrite !bind_Ok. do 2 eexists. split; [done|].
    split; [|intros x Hx; apply lookup_insert_ne; intros ->; apply Hx; rewrite map_app; apply elem_of_app; right; left].
    assert (first_node q = Some (match l' ++ [(p, a)] with [] => n | x :: _ => x.1 end)) as Hf
      by (destruct l' as [|[]]; cbn in Hc |- *; apply Hc).
    split; [|split; [by rewrite last_snoc|done]]. cbn [first_node]. rewrite Hf.
    rewrite <- app_assoc. apply chain_snoc; try done. by rewrite <- Hf.
  - assert (l = []) as -> by (symmetry in Hl; destruct (last l) eqn:E2; [done|by apply last_None in E2]).
    cbn in Hc. rewrite Hc, bind_Ok. do 2 eexists. split; [done|]. split; [|done].
    split; [|done]. cbn. split; [done|]. by exists None.
Qed.

Lemma wait_refines q nodes l :
  queue_rep q nodes l ->
  match l with
  | [] => wait_for_next_packet q nodes = Ok (None, q)
  | (p, a) :: l' => exists q' next, wait_for_next_packet q nodes = Ok (Some p, q')
                      /\ nodes !! p = Some (mk_queue_node next a) /\ queue_rep q' nodes l' /\ p ∉ map fst l'
  end.
Proof.
  intros (Hc & Hl & Hnd). unfold wait_for_next_packet. destruct l as [|[p a] l']; cbn in Hc; [by rewrite Hc|].
  destruct Hc as (-> & next & Hp & Hc). unfold store_get. rewrite Hp. cbn [of_option]. rewrite bind_Ok.
  apply NoDup_cons in Hnd as [Hin Hnd]. cbn [node_next].
  destruct l' as [|[p2 a2] l']; cbn in Hc.
  - subst next. do 2 eexists. split; [done|]. done.
  - destruct Hc as (-> & next2 & Hp2 & Hc). do 2 eexists. split; [done|]. split; [done|]. split; [|done].
    split; [|split; [|done]]; [|by rewrite Hl]. cbn. split; [done|]. by exists next2.
Qed.

(** ** Runs of producers and consumers *)
Inductive queue_op := Enqueue (a : A) | Dequeue.

(** A producer allocates a node and inserts it; a consumer takes the next node, uses
    its content and frees it. *)
Definition queue_step (st : PacketQueue * Store QueueNode) (o : queue_op)
    : Outcome (option A * (PacketQueue * Store QueueNode)) :=
  let '(q, nodes) := st in
  match o with
  | Enqueue a =>
      let '(n, nodes) := store_alloc (mk_queue_node None a) nodes in
      '(q, nodes) ← insert_queue_node (Some n) q nodes;
      Ok (None, (q, nodes))
  | Dequeue =>
      '(r, q) ← wait_for_next_packet q nodes;
      match r with
      | None => Ok (None, (q, nodes))
      | Some p => n ← store_get p nodes; nodes ← store_free p nodes; Ok (Some (node_content n), (q, nodes))
      end
  end.

Fixpoint queue_run (st : PacketQueue * Store QueueNode) (os : list queue_op)
    : Outcome (list A * (PacketQueue * Store QueueNode)) :=
  match os with
  | [] => Ok ([], st)
  | o :: os =>
      '(r, st) ← queue_step st o;
      '(rs, st) ← queue_run st os;
      Ok (match r with Some a => a :: rs | None => rs end, st)
  end.

(** The specification: a list, served from the front. *)
Fixpoint fifo_run (l : list A) (os : list queue_op) : list A * list A :=
  match os with
  | [] => ([], l)
  | Enqueue a :: os => fifo_run (l ++ [a]) os
  | Dequeue :: os => match l with
                     | [] => fifo_run [] os
                     | a :: l => let '(rs, l) := fifo_run l os in (a :: rs, l)
                     end
  end.

(** The nodes in memory are exactly those in the queue. *)
Definition queue_exact q nodes (l : list (loc * A)) : Prop :=
  queue_rep q nodes l /\ forall p, is_Some (nodes !! p) -> p ∈ map fst l.

Lemma queue_run_refines os q nodes l :
  queue_exact q nodes l ->
  exists q' nodes' l', queue_run (q, nodes) os = Ok ((fifo_run (map snd l) os).1, (q', nodes'))
    /\ queue_exact q' nodes' l' /\ map snd l' = (fifo_run (map snd l) os).2.
Proof.
  revert q nodes l. induction os as [|o os IH]; intros q nodes l [Hrep Hex]; cbn [queue_run fifo_run].
  { exists q, nodes, l. split; [done|]. by split. }
  destruct o as [a|]; cbn [queue_step store_alloc].
  - destruct (insert_refines q (<[store_next nodes := mk_queue_node None a]> nodes) l (store_next nodes) a)
      as (q' & nodes' & Hins & Hrep' & Hother).
    { destruct Hrep as (Hc & Hl & Hnd). split; [|done]. apply chain_other; [|done].
      intros Hin. apply list_elem_of_fmap in Hin as ([p b] & Hp & Hin). cbn in Hp. subst p.
      destruct (chain_elem _ _ _ _ _ Hc Hin) as [next Hn]. by rewrite store_next_fresh in Hn. }
    { apply lookup_insert_eq. }
    { intros Hin. apply list_elem_of_fmap in Hin as ([p b] & Hp & Hin). cbn in Hp. subst p.
      destruct (chain_elem _ _ _ _ _ (proj1 Hrep) Hin) as [next Hn]. by rewrite store_next_fresh in Hn. }
    rewrite Hins, !bind_Ok. destruct (IH q' nodes' (l ++ [(store_next nodes, a)])) as (q2 & n2 & l2 & Hr & Hx & Hs).
    { split; [done|]. intros p [x Hx]. rewrite map_app. apply elem_of_app.
      destruct (decide (p ∈ map fst l)) as [|Hno]; [by left|]. right. rewrite Hother in Hx by done.
      destruct (decide (p = store_next nodes)) as [->|Hne]; [left|].
      rewrite lookup_insert_ne in Hx by done. exfalso. apply Hno, Hex. by exists x. }
    rewrite Hr, bind_Ok. rewrite map_app in *. exists q2, n2, l2. by split.
  - pose proof (wait_refines q nodes l Hrep) as Hw. destruct l as [|[p a] l].
    + rewrite Hw, bind_Ok, bind_Ok. cbn [map]. destruct (IH q nodes [] (conj Hrep Hex)) as (q2 & n2 & l2 & Hr & Hx & Hs).
      rewrite Hr, bind_Ok. exists q2, n2, l2. by split.
    + destruct Hw as (q' & next & -> & Hp & Hrep' & Hnot). rewrite bind_Ok. unfold store_get at 1. rewrite Hp.
      cbn [of_option]. rewrite bind_Ok. rewrite (store_free_ok _ _ _ Hp), !bind_Ok. cbn [node_content map snd].
      destruct (IH q' (delete p nodes) l) as (q2 & n2 & l2 & Hr & Hx & Hs).
      { destruct Hrep' as (Hc & Hl & Hnd). split; [split; [by apply chain_delete|done]|].
        intros x Hx. destruct (decide (x = p)) as [->|Hne]; [by rewrite lookup_delete_eq in Hx; destruct Hx|].
        rewrite lookup_delete_ne in Hx by done. apply Hex in Hx. cbn in Hx. rewrite elem_of_cons in Hx. by destruct Hx. }
      rewrite Hr, bind_Ok. destruct (fifo_run (map snd l) os) as [rs lrest] eqn:E. exists q2, n2, l2. by split.
Qed.
End queue.
Arguments QueueNode : clear implicits.
Arguments queue_op : clear implicits.

(** C11 The linked queues refine a first-in-first-out list: from an empty queue, any
    interleaving of producers and consumers delivers exactly what the list delivers,
    in order, without losing or duplicating a packet; no step touches a freed node,
    and the nodes in memory are those still queued. *)
Theorem queue_is_fifo {A : Type} (os : list (queue_op A)) :
  exists q nodes l, queue_run (empty_queue, ∅) os = Ok ((fifo_run [] os).1, (q, nodes))
    /\ queue_rep q nodes l /\ map snd l = (fifo_run [] os).2
    /\ forall p, is_Some (nodes !! p) <-> p ∈ map fst l.
Proof.
  destruct (queue_run_refines os empty_queue ∅ []) as (q & nodes & l & Hr & [Hrep Hex] & Hs).
  { split; [|intros p [x Hx]; done]. split; [done|]. split; [done|]. apply NoDup_nil_2. }
  exists q, nodes, l. split; [done|]. split; [done|]. split; [done|]. intros p. split; [apply Hex|].
  intros Hin. apply list_elem_of_fmap in Hin as ([p' a] & -> & Hin).
  destruct (chain_elem _ _ _ _ _ (proj1 Hrep) Hin) as [next Hn]. by exists (mk_queue_node next a).
Qed.
