(* ===== verification/Crc32.v ===== *)
(** * The checksum: [crc32] of src/src/internal/internal.h

    The C function feeds eight bytes at a time to the AArch64 CRC32 instruction
    (the ACLE intrinsic [__crc32d]) and the remaining bytes one at a time to
    [__crc32b].  The intrinsics are written out bit-serially with the reflected
    polynomial of IEEE 802.3; [crc32] follows the two loops of the source.  The
    theorems relate it to the byte-at-a-time CRC-32 and show which corruptions
    of a message it detects. *)

From S2P Require Import Prelude.

(** ** Definitions *)

(** The reflected generator polynomial of the CRC32 instructions. *)
Definition crc_poly : Z := 0xEDB88320.

(** One shift of the reflected register. *)
Definition crc_shift (x : Z) : Z :=
  if Z.odd x then Z.lxor (Z.shiftr x 1) crc_poly else Z.shiftr x 1.

(** [n] message bits, least significant first, are shifted into the register. *)
Fixpoint crc_bits (n : nat) (crc v : Z) : Z :=
  match n with
  | O => crc
  | S n' => crc_bits n' (crc_shift (Z.lxor crc (v mod 2))) (v / 2)
  end.

(** The ACLE intrinsics the source calls. *)
Definition __crc32b (crc v : Z) : Z := crc_bits 8 crc v.
Definition __crc32d (crc v : Z) : Z := crc_bits 64 crc v.

(** The two loops, for any pair of intrinsics. *)
Section loops.
Context (crc32b crc32d : Z -> Z -> Z).

(** [while (remaining >= 8)]: the unaligned 64-bit load is little-endian. *)
Fixpoint crc32_loop8 (ptr : list Z) (crc : Z) {struct ptr} : Z * list Z :=
  match ptr with
  | b0 :: b1 :: b2 :: b3 :: b4 :: b5 :: b6 :: b7 :: rest =>
      crc32_loop8 rest (crc32d crc (le_val [b0; b1; b2; b3; b4; b5; b6; b7]))
  | _ => (crc, ptr)
  end.

(** [while (remaining > 0)]. *)
Fixpoint crc32_loop1 (ptr : list Z) (crc : Z) {struct ptr} : Z :=
  match ptr with
  | [] => crc
  | b :: rest => crc32_loop1 rest (crc32b crc b)
  end.

Lemma crc32_loop1_fold crc ptr : crc32_loop1 ptr crc = fold_left crc32b ptr crc.
Proof. revert crc. induction ptr as [|b l IH]; intros crc; [reflexivity|apply IH]. Qed.

Lemma crc32_loops crc ptr :
  (forall l c, is_bytes l -> length l = 8%nat -> crc32d c (le_val l) = fold_left crc32b l c) ->
  is_bytes ptr ->
  (let '(crc', ptr') := crc32_loop8 ptr crc in crc32_loop1 ptr' crc') = fold_left crc32b ptr crc.
Proof.
  intros Hd. revert crc. remember (length ptr) as n eqn:Hn. revert ptr Hn.
  induction n as [n IH] using lt_wf_ind. intros ptr Hn crc Hb.
  do 8 (destruct ptr as [|? ptr]; [apply crc32_loop1_fold|]).
  change (z :: z0 :: z1 :: z2 :: z3 :: z4 :: z5 :: z6 :: ptr)
    with ([z; z0; z1; z2; z3; z4; z5; z6] ++ ptr) in Hb. apply is_bytes_app in Hb as [H8 Hb].
  cbn [crc32_loop8]. rewrite (IH (length ptr)) by (done || subst; cbn; lia).
  by rewrite (Hd _ crc H8).
Qed.
End loops.

(** [crc32(data, length)]; the argument is the region [data, data + length). *)
Definition crc32 (data : list Z) : Z :=
  let '(crc, ptr) := crc32_loop8 __crc32d data 0xFFFFFFFF in
  Z.lxor (crc32_loop1 __crc32b ptr crc) 0xFFFFFFFF.

(** The check value of CRC-32/ISO-HDLC: the ASCII digits "123456789". *)
Example crc32_check_value :
  crc32 [0x31; 0x32; 0x33; 0x34; 0x35; 0x36; 0x37; 0x38; 0x39] = 0xCBF43926.
Proof. vm_compute. reflexivity. Qed.

(** ** The register as a linear map *)

Lemma crc_shift_lxor a b : crc_shift (Z.lxor a b) = Z.lxor (crc_shift a) (crc_shift b).
Proof.
  unfold crc_shift. rewrite <- !Z.bit0_odd, Z.lxor_spec, Z.shiftr_lxor.
  destruct (Z.testbit a 0), (Z.testbit b 0); cbn [xorb].
  - rewrite (Z.lxor_comm (Z.shiftr b 1)), <- Z.lxor_assoc, (Z.lxor_assoc (Z.shiftr a 1)).
    rewrite Z.lxor_nilpotent, Z.lxor_0_r. done.
  - rewrite !Z.lxor_assoc. f_equal. apply Z.lxor_comm.
  - by rewrite Z.lxor_assoc.
  - done.
Qed.

Lemma crc_shift_double w : crc_shift (2 * w) = w.
Proof.
  unfold crc_shift. rewrite Z.odd_mul. cbn [Z.odd andb].
  rewrite Z.shiftr_div_pow2, Z.mul_comm, Z.div_mul by lia. done.
Qed.

Lemma crc_shift_bit31 x :
  in_word 32 x -> Z.testbit (crc_shift x) 31 = Z.odd x.
Proof.
  intros Hx. unfold crc_shift.
  assert (Z.testbit (Z.shiftr x 1) 31 = false) as H31.
  { rewrite Z.shiftr_spec by lia. apply (in_word_testbit 32); [lia|done|lia]. }
  destruct (Z.odd x); [|done]. by rewrite Z.lxor_spec, H31.
Qed.

Lemma crc_shift_in_word x : in_word 32 x -> in_word 32 (crc_shift x).
Proof.
  intros Hx. unfold crc_shift.
  assert (in_word 32 (Z.shiftr x 1)).
  { unfold in_word in *. rewrite Z.shiftr_div_pow2 by lia.
    split; [apply Z.div_pos; lia | apply Z.div_lt_upper_bound; lia]. }
  destruct (Z.odd x); [|done]. apply lxor_in_word; [lia|done|]. unfold in_word, crc_poly. lia.
Qed.

(** The register step loses no information: the top bit of the result tells
    whether the polynomial was added. *)
Lemma crc_shift_nonzero x : in_word 32 x -> crc_shift x = 0 -> x = 0.
Proof.
  intros Hx H0. pose proof (crc_shift_bit31 x Hx) as Hb. rewrite H0, Z.bits_0 in Hb.
  unfold crc_shift in H0. rewrite <- Hb, Z.shiftr_div_pow2 in H0 by lia.
  pose proof (Zmod_odd x) as Hm. rewrite <- Hb in Hm.
  change (2 ^ 1) with 2 in H0. pose proof (Z.div_mod x 2). lia.
Qed.

Fixpoint crc_shifts (n : nat) (x : Z) : Z :=
  match n with O => x | S n' => crc_shifts n' (crc_shift x) end.

Lemma crc_shifts_lxor n a b :
  crc_shifts n (Z.lxor a b) = Z.lxor (crc_shifts n a) (crc_shifts n b).
Proof.
  revert a b. induction n as [|n IH]; intros a b; cbn; [done|]. by rewrite crc_shift_lxor, IH.
Qed.

Lemma crc_shifts_in_word n x : in_word 32 x -> in_word 32 (crc_shifts n x).
Proof.
  revert x. induction n as [|n IH]; intros x Hx; cbn; [done|]. by apply IH, crc_shift_in_word.
Qed.

Lemma crc_shifts_nonzero n x : in_word 32 x -> crc_shifts n x = 0 -> x = 0.
Proof.
  revert x. induction n as [|n IH]; intros x Hx H0; cbn in H0; [done|].
  apply crc_shift_nonzero; [done|]. apply IH; [by apply crc_shift_in_word|done].
Qed.

Lemma split_low_bit v : v = Z.lxor (v mod 2) (2 * (v / 2)).
Proof.
  rewrite <- Z.add_nocarry_lxor; [pose proof (Z.div_mod v 2); lia|].
  apply Z.bits_inj'. intros i Hi. rewrite Z.land_spec, Z.bits_0.
  destruct (Z.eq_dec i 0) as [->|].
  - by rewrite Z.testbit_even_0, andb_false_r.
  - rewrite (in_word_testbit 1 (v mod 2)); [done|lia| |lia].
    unfold in_word. change (2 ^ 1) with 2. apply Z.mod_pos_bound. lia.
Qed.

(** Feeding [n] message bits is shifting the register after the message has been
    added to it. *)
Lemma crc_bits_shifts n c v : 0 <= v < 2 ^ Z.of_nat n -> crc_bits n c v = crc_shifts n (Z.lxor c v).
Proof.
  revert c v. induction n as [|n IH]; intros c v Hv; cbn [crc_bits crc_shifts].
  - change (2 ^ Z.of_nat 0) with 1 in Hv. replace v with 0 by lia. by rewrite Z.lxor_0_r.
  - rewrite IH.
    + f_equal. rewrite (split_low_bit v) at 3. rewrite <- Z.lxor_assoc.
      by rewrite (crc_shift_lxor (Z.lxor c (v mod 2))), crc_shift_double.
    + rewrite Nat2Z.inj_succ, Z.pow_succ_r in Hv by lia.
      split; [apply Z.div_pos; lia | apply Z.div_lt_upper_bound; lia].
Qed.

(** ** The loops of the source *)

Lemma crc_bits_add m n c v : crc_bits (m + n) c v = crc_bits n (crc_bits m c v) (v / 2 ^ Z.of_nat m).
Proof.
  revert c v. induction m as [|m IH]; intros c v; cbn [crc_bits Nat.add].
  - change (2 ^ Z.of_nat 0) with 1. by rewrite Z.div_1_r.
  - rewrite IH, Nat2Z.inj_succ, Z.pow_succ_r, Z.div_div by lia. done.
Qed.

Lemma crc_bits_low n c v x : crc_bits n c (v + 2 ^ Z.of_nat n * x) = crc_bits n c v.
Proof.
  revert c v x. induction n as [|n IH]; intros c v x; cbn [crc_bits]; [done|].
  rewrite Nat2Z.inj_succ, Z.pow_succ_r by lia.
  replace (v + 2 * 2 ^ Z.of_nat n * x) with (v + (2 ^ Z.of_nat n * x) * 2) by lia.
  rewrite Z.mod_add, Z.div_add by lia. apply IH.
Qed.

Lemma __crc32b_bits c b : __crc32b c b = crc_bits 8 c b.
Proof. reflexivity. Qed.

Lemma __crc32d_bits c v : __crc32d c v = crc_bits 64 c v.
Proof. reflexivity. Qed.

Lemma crc_bits_0 c v : crc_bits 0 c v = c.
Proof. reflexivity. Qed.

Lemma pow2_8 : 2 ^ Z.of_nat 8 = 256.
Proof. reflexivity. Qed.

Lemma __crc32b_shifts c b : is_byte b -> __crc32b c b = crc_shifts 8 (Z.lxor c b).
Proof. intros Hb. rewrite __crc32b_bits. apply crc_bits_shifts. exact Hb. Qed.

#[local] Opaque __crc32b __crc32d crc_bits crc_shifts.

Lemma crc_bits_byte n c b x :
  is_byte b -> crc_bits (8 + n) c (b + 256 * x) = crc_bits n (__crc32b c b) x.
Proof.
  intros Hb. rewrite (crc_bits_add 8 n). rewrite (__crc32b_bits c b). rewrite pow2_8.
  rewrite (Z.mul_comm 256), Z.div_add, Z.div_small, Z.add_0_l by (apply Hb || lia).
  rewrite Z.mul_comm, <- pow2_8. rewrite (crc_bits_low 8 c b x). reflexivity.
Qed.

Lemma le_val_cons b l : le_val (b :: l) = b + 256 * le_val l.
Proof. reflexivity. Qed.

Lemma fold_left_cons {A B} (f : A -> B -> A) b l a :
  fold_left f (b :: l) a = fold_left f l (f a b).
Proof. reflexivity. Qed.

(** A little-endian word is processed as its bytes, first byte first. *)
Lemma crc_bits_le_val l c :
  is_bytes l -> crc_bits (8 * length l) c (le_val l) = fold_left __crc32b l c.
Proof.
  intros Hl. revert c. induction Hl as [|b l Hb Hl IH]; intros c.
  { cbn [length le_val fold_left]. rewrite Nat.mul_0_r. apply crc_bits_0. }
  replace (8 * length (b :: l))%nat with (8 + 8 * length l)%nat by (cbn; lia).
  rewrite le_val_cons, fold_left_cons, (crc_bits_byte _ c b _ Hb), IH. reflexivity.
Qed.

Lemma __crc32d_bytes l c :
  is_bytes l -> length l = 8%nat -> __crc32d c (le_val l) = fold_left __crc32b l c.
Proof. intros Hl H8. rewrite __crc32d_bits, <- crc_bits_le_val, H8 by done. reflexivity. Qed.

(** The checksum with the message bytes folded into the register one by one. *)
Definition crc32_bytewise (data : list Z) : Z :=
  Z.lxor (fold_left __crc32b data 0xFFFFFFFF) 0xFFFFFFFF.

Lemma crc32_unfold data : is_bytes data -> crc32 data = crc32_bytewise data.
Proof.
  intros Hb. unfold crc32, crc32_bytewise. rewrite <- (crc32_loops _ _ _ data __crc32d_bytes Hb).
  destruct (crc32_loop8 _ data _). done.
Qed.

Lemma __crc32b_in_word c b : in_word 32 c -> is_byte b -> in_word 32 (__crc32b c b).
Proof.
  intros Hc Hb. rewrite __crc32b_shifts by done.
  apply crc_shifts_in_word, lxor_in_word; [lia|done|]. unfold is_byte, in_word in *. lia.
Qed.

Lemma crc_fold_in_word c l : in_word 32 c -> is_bytes l -> in_word 32 (fold_left __crc32b l c).
Proof.
  intros Hc Hl. revert c Hc. induction Hl as [|b l Hb Hl IH]; intros c Hc; [done|].
  rewrite fold_left_cons. by apply IH, __crc32b_in_word.
Qed.

Lemma ones32_in_word : in_word 32 0xFFFFFFFF.
Proof. unfold in_word. lia. Qed.

Lemma crc32_in_word data : is_bytes data -> in_word 32 (crc32 data).
Proof.
  intros Hb. rewrite crc32_unfold by done. unfold crc32_bytewise.
  apply lxor_in_word; [lia| |apply ones32_in_word]. by apply crc_fold_in_word; [apply ones32_in_word|].
Qed.

(** Two registers that differ before the same bytes differ after them. *)
Lemma crc_fold_suffix c c' l :
  in_word 32 c -> in_word 32 c' -> is_bytes l ->
  fold_left __crc32b l c = fold_left __crc32b l c' -> c = c'.
Proof.
  intros Hc Hc' Hl. revert c c' Hc Hc'.
  induction Hl as [|b l Hb Hl IH]; intros c c' Hc Hc' Heq; [done|].
  rewrite !fold_left_cons in Heq. apply IH in Heq; [|by apply __crc32b_in_word..].
  rewrite (__crc32b_shifts c b Hb), (__crc32b_shifts c' b Hb) in Heq.
  apply Z.lxor_eq. apply (crc_shifts_nonzero 8); [by apply lxor_in_word; [lia|..]|].
  rewrite !crc_shifts_lxor in Heq. rewrite crc_shifts_lxor.
  apply Z.lxor_eq_0_iff.
  apply (f_equal (fun z => Z.lxor z (crc_shifts 8 b))) in Heq.
  by rewrite !Z.lxor_assoc, Z.lxor_nilpotent, !Z.lxor_0_r in Heq.
Qed.

Lemma crc_fold_window c w w' :
  in_word 32 c -> is_bytes w -> is_bytes w' -> length w = length w' -> (length w <= 4)%nat ->
  fold_left __crc32b w c = fold_left __crc32b w' c -> w = w'.
Proof.
  intros Hc Hw Hw' Hlen H4 Heq.
  pose proof (le_val_bound w Hw) as Bw. pose proof (le_val_bound w' Hw') as Bw'.
  rewrite <- Hlen in Bw'.
  rewrite <- !crc_bits_le_val, <- Hlen, !crc_bits_shifts in Heq
    by (done || by rewrite Nat2Z.inj_mul).
  assert (2 ^ (8 * Z.of_nat (length w)) <= 2 ^ 32) as Hp by (apply Z.pow_le_mono_r; lia).
  assert (le_val w = le_val w') as Hv.
  { apply Z.lxor_eq, (crc_shifts_nonzero (8 * length w)).
    { apply lxor_in_word; unfold in_word; lia. }
    rewrite !crc_shifts_lxor in Heq. rewrite crc_shifts_lxor. apply Z.lxor_eq_0_iff.
    apply (f_equal (Z.lxor (crc_shifts (8 * length w) c))) in Heq.
    by rewrite <- !Z.lxor_assoc, Z.lxor_nilpotent, !Z.lxor_0_l in Heq. }
  rewrite <- (le_bytes_le_val w Hw), <- (le_bytes_le_val w' Hw'), Hlen, Hv. done.
Qed.

(** A change of a message that is confined to four consecutive bytes, anywhere
    in a message of any length, changes the checksum. *)
Lemma crc32_burst (pre w w' post : list Z)
  (Hpre : is_bytes pre) (Hw : is_bytes w) (Hw' : is_bytes w') (Hpost : is_bytes post)
  (Hlen : length w = length w') (H4 : (length w <= 4)%nat) (Hdiff : w <> w') :
  crc32 (pre ++ w ++ post) <> crc32 (pre ++ w' ++ post).
Proof.
  assert (forall v, is_bytes v -> is_bytes (pre ++ v ++ post)) as Hb
    by (intros v Hv; by repeat apply Forall_app_2).
  intros Heq. rewrite (crc32_unfold _ (Hb w Hw)), (crc32_unfold _ (Hb w' Hw')) in Heq.
  unfold crc32_bytewise in Heq. apply (f_equal (fun z => Z.lxor z 0xFFFFFFFF)) in Heq.
  rewrite !Z.lxor_assoc, Z.lxor_nilpotent, !Z.lxor_0_r, !fold_left_app in Heq.
  pose proof (crc_fold_in_word _ pre ones32_in_word Hpre) as Hc.
  apply crc_fold_suffix in Heq; [|by apply crc_fold_in_word..|done].
  by apply Hdiff, (crc_fold_window (fold_left __crc32b pre 0xFFFFFFFF)).
Qed.

(** ** Properties *)

(** C31 The two-loop routine that consumes eight bytes per instruction computes the
    byte-at-a-time CRC-32 of the message, for messages of every length. *)
Theorem crc32_equals_bytewise (data : list Z) (Hdata : is_bytes data) :
  crc32 data = crc32_bytewise data.
Proof. by apply crc32_unfold. Qed.

Lemma crc32_equals_bytewise_witness :
  crc32 [1; 2; 3; 4; 5; 6; 7; 8; 9; 10; 11] = crc32_bytewise [1; 2; 3; 4; 5; 6; 7; 8; 9; 10; 11].
Proof. apply crc32_equals_bytewise. unfold is_bytes, is_byte. repeat constructor; lia. Defined.

#[global] Opaque __crc32b __crc32d crc_bits crc_shifts crc32.
