(* ===== verification/Wire.v ===== *)
(** * Wire formats and packet construction

    The structures that travel in a frame ([struct ether_header], [struct ip],
    [struct SwiftNetPacketInfo] and [struct SwiftNetServerInformation]), their
    little-endian object representations, the constructors and macros of
    src/src/internal/internal.h and src/src/internal/networking.h that build a
    frame with the pcap backend, and the checksum test of the receiver
    (src/src/process_packets.c). *)

From S2P Require Import Prelude Crc32.

(** ** Sizes and constants *)
Definition sizeof_ether_header : Z := 14.
Definition sizeof_ip : Z := 20.
Definition sizeof_SwiftNetPacketInfo : Z := 24.
Definition sizeof_SwiftNetServerInformation : Z := 4.
Definition PACKET_HEADER_SIZE : Z := sizeof_ip + sizeof_SwiftNetPacketInfo.
Definition PROT_NUMBER : Z := 253.
Definition DLT_NULL : Z := 0.
Definition DLT_EN10MB : Z := 1.
Definition PF_INET : Z := 2.
Definition ETHERTYPE_IP : Z := 0x0800.

(** [offsetof] of the fields the code patches in place. *)
Definition offsetof_ip_len : Z := 2.
Definition offsetof_packet_length : Z := 0.
Definition offsetof_chunk_index : Z := 8.
Definition offsetof_checksum : Z := 12.
Definition offsetof_port_info : Z := 16.

(** [enum PacketType]: the codes of the [packet_type] byte. *)
Inductive PacketType :=
| MESSAGE | REQUEST_INFORMATION | SEND_LOST_PACKETS_REQUEST | SEND_LOST_PACKETS_RESPONSE
| SUCCESSFULLY_RECEIVED_PACKET | PACKET_DELAY_UPDATE | REQUEST | RESPONSE.

Definition packet_type_code (t : PacketType) : Z :=
  match t with
  | MESSAGE => 1 | REQUEST_INFORMATION => 2 | SEND_LOST_PACKETS_REQUEST => 3
  | SEND_LOST_PACKETS_RESPONSE => 4 | SUCCESSFULLY_RECEIVED_PACKET => 5
  | PACKET_DELAY_UPDATE => 6 | REQUEST => 7 | RESPONSE => 8
  end.

(** The [switch] label a received byte selects; other bytes fall to [default]. *)
Definition packet_type_of_code (c : Z) : option PacketType :=
  match c with
  | 1 => Some MESSAGE | 2 => Some REQUEST_INFORMATION | 3 => Some SEND_LOST_PACKETS_REQUEST
  | 4 => Some SEND_LOST_PACKETS_RESPONSE | 5 => Some SUCCESSFULLY_RECEIVED_PACKET
  | 6 => Some PACKET_DELAY_UPDATE | 7 => Some REQUEST | 8 => Some RESPONSE
  | _ => None
  end.

#[export] Instance PacketType_eq_dec : EqDecision PacketType.
Proof. solve_decision. Defined.

(** ** Structures *)
Record ether_header := mk_ether_header {
  ether_dhost : list Z;
  ether_shost : list Z;
  ether_type : Z
}.

Record ip := mk_ip {
  ip_hl : Z; ip_v : Z; ip_tos : Z; ip_len : Z; ip_id : Z; ip_off : Z;
  ip_ttl : Z; ip_p : Z; ip_sum : Z; ip_src : Z; ip_dst : Z
}.

Record SwiftNetPortInfo := mk_port_info {
  destination_port : Z;
  source_port : Z
}.

Record SwiftNetPacketInfo := mk_packet_info {
  packet_length : Z;
  chunk_amount : Z;
  chunk_index : Z;
  checksum : Z;
  port_info : SwiftNetPortInfo;
  pi_maximum_transmission_unit : Z;
  packet_type : Z
}.

(** Per-interface data; [pcap] is the capture handle, NULL before an interface was opened
    and not there in the DPDK build. *)
Record SwiftNetNetworkData := mk_network_data {
  pcap : option positive;
  addr_type : Z;
  prepend_size : Z
}.

(** The global variables of src/src/initialize_swiftnet.c that packet construction
    reads, and the unspecified content of fresh memory. *)
Record Globals := mk_globals {
  maximum_transmission_unit : Z;
  private_ip_address : Z;
  mac_address : list Z;
  garbage : nat -> Z
}.

Definition uninitialized (g : Globals) (n : Z) : list Z := map (garbage g) (seq 0 (Z.to_nat n)).

(** ** Object representations *)
Definition ether_header_bytes (h : ether_header) : list Z :=
  ether_dhost h ++ ether_shost h ++ le_bytes 2 (ether_type h).

Definition ip_bytes (h : ip) : list Z :=
  [ip_hl h + 16 * ip_v h; ip_tos h] ++ le_bytes 2 (ip_len h) ++ le_bytes 2 (ip_id h)
  ++ le_bytes 2 (ip_off h) ++ [ip_ttl h; ip_p h] ++ le_bytes 2 (ip_sum h)
  ++ le_bytes 4 (ip_src h) ++ le_bytes 4 (ip_dst h).

(** The last byte pads the structure to its 4-byte alignment. *)
Definition packet_info_bytes (p : SwiftNetPacketInfo) : list Z :=
  le_bytes 4 (packet_length p) ++ le_bytes 4 (chunk_amount p) ++ le_bytes 4 (chunk_index p)
  ++ le_bytes 4 (checksum p) ++ le_bytes 2 (destination_port (port_info p))
  ++ le_bytes 2 (source_port (port_info p)) ++ le_bytes 2 (pi_maximum_transmission_unit p)
  ++ [packet_type p; 0].

Definition ip_of_bytes (l : list Z) : ip :=
  let b i := le_val (slice i 1 l) in let h i := le_val (slice i 2 l) in
  let w i := le_val (slice i 4 l) in
  mk_ip (b 0%nat mod 16) (b 0%nat / 16) (b 1%nat) (h 2%nat) (h 4%nat) (h 6%nat)
    (b 8%nat) (b 9%nat) (h 10%nat) (w 12%nat) (w 16%nat).

Definition packet_info_of_bytes (l : list Z) : SwiftNetPacketInfo :=
  let h i := le_val (slice i 2 l) in let w i := le_val (slice i 4 l) in
  mk_packet_info (w 0%nat) (w 4%nat) (w 8%nat) (w 12%nat)
    (mk_port_info (h 16%nat) (h 18%nat)) (h 20%nat) (le_val (slice 22 1 l)).

Definition ether_header_of_bytes (l : list Z) : ether_header :=
  mk_ether_header (slice 0 6 l) (slice 6 6 l) (le_val (slice 12 2 l)).

(** [struct SwiftNetServerInformation], padded to 4 bytes. *)
Definition server_information_bytes (mtu : Z) : list Z := le_bytes 2 mtu ++ [0; 0].
Definition server_information_of_bytes (l : list Z) : Z := le_val (slice 0 2 l).

(** ** Constructors *)
Definition construct_packet_info (g : Globals) (packet_length packet_type chunk_amount chunk_index : Z)
    (port_info : SwiftNetPortInfo) : SwiftNetPacketInfo :=
  mk_packet_info packet_length chunk_amount chunk_index 0x00 port_info
    (maximum_transmission_unit g) packet_type.

Definition construct_ip_header (g : Globals) (destination_addr packet_size packet_id : Z) : ip :=
  mk_ip 5 4 0 (htons (u16 packet_size)) (htons (u16 packet_id)) (htons 0) 64 PROT_NUMBER (htons 0)
    (private_ip_address g) destination_addr.

Definition PACKET_PREPEND_SIZE (addr_type : Z) : Z :=
  if addr_type =? DLT_NULL then 4
  else if addr_type =? DLT_EN10MB then sizeof_ether_header else 0.

(** [HANDLE_PACKET_CONSTRUCTION]: a buffer of [buffer_size] bytes that starts with
    the link header, the IP header and the packet information. *)
Definition HANDLE_PACKET_CONSTRUCTION (g : Globals) (ip_header : ip) (packet_info : SwiftNetPacketInfo)
    (network_data : SwiftNetNetworkData) (eth_hdr : ether_header) (buffer_size : Z)
    : Outcome (list Z) :=
  let buffer := uninitialized g buffer_size in
  if addr_type network_data =? DLT_NULL then
    buffer ← mem_write 0 (le_bytes 4 PF_INET) buffer;
    buffer ← mem_write 4 (ip_bytes ip_header) buffer;
    mem_write (4 + sizeof_ip) (packet_info_bytes packet_info) buffer
  else if addr_type network_data =? DLT_EN10MB then
    buffer ← mem_write 0 (ether_header_bytes eth_hdr) buffer;
    buffer ← mem_write sizeof_ether_header (ip_bytes ip_header) buffer;
    mem_write (sizeof_ether_header + sizeof_ip) (packet_info_bytes packet_info) buffer
  else Ok buffer.

(** [HANDLE_CHECKSUM(buffer + off, size)]: the checksum of [size] bytes is stored
    in the [checksum] field of the packet information that starts at [off]. *)
Definition HANDLE_CHECKSUM (buffer : list Z) (off size : Z) : Outcome (list Z) :=
  region ← mem_read off size buffer;
  mem_write (off + offsetof_checksum) (le_bytes 4 (crc32 region)) buffer.

(** ** Receiver-side tests *)
Definition packet_corrupted (checksum chunk_size : Z) (buffer : list Z) : Outcome bool :=
  region ← mem_read 0 chunk_size buffer;
  Ok (negb (crc32 region =? checksum)).

Definition is_private_ip (ip : Z) : bool :=
  let addr := htonl ip in
  Z.land (Z.shiftr addr 24) 0xFF =? 127.

(** ** Lemmas on the representations *)
Definition port_info_ok (p : SwiftNetPortInfo) : Prop :=
  in_word 16 (destination_port p) /\ in_word 16 (source_port p).

Definition packet_info_ok (p : SwiftNetPacketInfo) : Prop :=
  in_word 32 (packet_length p) /\ in_word 32 (chunk_amount p) /\ in_word 32 (chunk_index p)
  /\ in_word 32 (checksum p) /\ port_info_ok (port_info p)
  /\ in_word 16 (pi_maximum_transmission_unit p) /\ in_word 8 (packet_type p).

Definition ip_ok (h : ip) : Prop :=
  in_word 4 (ip_hl h) /\ in_word 4 (ip_v h) /\ in_word 8 (ip_tos h) /\ in_word 16 (ip_len h)
  /\ in_word 16 (ip_id h) /\ in_word 16 (ip_off h) /\ in_word 8 (ip_ttl h) /\ in_word 8 (ip_p h)
  /\ in_word 16 (ip_sum h) /\ in_word 32 (ip_src h) /\ in_word 32 (ip_dst h).

Definition ether_header_ok (h : ether_header) : Prop :=
  length (ether_dhost h) = 6%nat /\ length (ether_shost h) = 6%nat
  /\ is_bytes (ether_dhost h) /\ is_bytes (ether_shost h) /\ in_word 16 (ether_type h).

Lemma length_ip_bytes h : length (ip_bytes h) = 20%nat.
Proof. reflexivity. Qed.

Lemma length_packet_info_bytes p : length (packet_info_bytes p) = 24%nat.
Proof. reflexivity. Qed.

Lemma length_ether_header_bytes h : ether_header_ok h -> length (ether_header_bytes h) = 14%nat.
Proof.
  intros (Hd & Hs & _). unfold ether_header_bytes.
  rewrite !length_app, Hd, Hs, length_le_bytes. done.
Qed.

Lemma le_val_word n x : in_word (8 * Z.of_nat n) x -> le_val (le_bytes n x) = x.
Proof. intros H. rewrite le_val_le_bytes. by apply Z.mod_small. Qed.

Lemma packet_info_bytes_read p :
  packet_info_ok p -> packet_info_of_bytes (packet_info_bytes p) = p.
Proof.
  destruct p as [len amount idx sum [dst src] mtu ty]. unfold packet_info_ok, port_info_ok. cbn.
  intros (? & ? & ? & ? & (? & ?) & ? & ?). unfold packet_info_of_bytes.
  pose proof (le_val_word 4 len). pose proof (le_val_word 4 amount). pose proof (le_val_word 4 idx).
  pose proof (le_val_word 4 sum). pose proof (le_val_word 2 dst). pose proof (le_val_word 2 src).
  pose proof (le_val_word 2 mtu).
  f_equal; [..|f_equal| |]; auto. cbn. lia.
Qed.

Lemma ip_bytes_read h : ip_ok h -> ip_of_bytes (ip_bytes h) = h.
Proof.
  destruct h as [hl v tos len id off ttl p sum src dst]. unfold ip_ok, in_word. cbn -[Z.pow].
  intros (? & ? & ? & ? & ? & ? & ? & ? & ? & ? & ?). unfold ip_of_bytes.
  pose proof (le_val_word 2 len). pose proof (le_val_word 2 id). pose proof (le_val_word 2 off).
  pose proof (le_val_word 2 sum). pose proof (le_val_word 4 src). pose proof (le_val_word 4 dst).
  f_equal; auto; cbn; Z.to_euclidean_division_equations; lia.
Qed.

(** The receiver copies the two headers out of the frame it was handed. *)
Definition read_ip_header (prepend_size : Z) (packet_buffer : list Z) : Outcome ip :=
  b ← mem_read prepend_size sizeof_ip packet_buffer; Ok (ip_of_bytes b).

Definition read_packet_info (prepend_size : Z) (packet_buffer : list Z) : Outcome SwiftNetPacketInfo :=
  b ← mem_read (prepend_size + sizeof_ip) sizeof_SwiftNetPacketInfo packet_buffer;
  Ok (packet_info_of_bytes b).

Lemma length_uninitialized g n : 0 <= n -> Z.of_nat (length (uninitialized g n)) = n.
Proof. intros. unfold uninitialized. rewrite length_map, length_seq. lia. Qed.

(** A buffer that received a link header [lh], an IP header and a packet
    information, in this order, starting from its first byte. *)
Lemma headers_written (lh : list Z) (h : ip) (p : SwiftNetPacketInfo) (buffer : list Z) :
  ip_ok h -> packet_info_ok p -> (length lh + 44 <= length buffer)%nat ->
  exists frame,
    (b ← mem_write 0 lh buffer;
     b ← mem_write (Z.of_nat (length lh)) (ip_bytes h) b;
     mem_write (Z.of_nat (length lh) + sizeof_ip) (packet_info_bytes p) b) = Ok frame
    /\ length frame = length buffer
    /\ slice 0 (length lh) frame = lh
    /\ drop (length lh + 44) frame = drop (length lh + 44) buffer
    /\ read_ip_header (Z.of_nat (length lh)) frame = Ok h
    /\ read_packet_info (Z.of_nat (length lh)) frame = Ok p.
Proof.
  intros Hh Hp Hlen. set (b1 := blit 0 lh buffer). set (b2 := blit (length lh) (ip_bytes h) b1).
  set (b3 := blit (length lh + 20) (packet_info_bytes p) b2).
  assert (length b1 = length buffer) as L1 by (apply length_blit; lia).
  assert (length b2 = length buffer) as L2
    by (unfold b2; rewrite length_blit; rewrite ?length_ip_bytes; lia).
  assert (length b3 = length buffer) as L3
    by (unfold b3; rewrite length_blit; rewrite ?length_packet_info_bytes; lia).
  exists b3. unfold sizeof_ip.
  rewrite mem_write_ok by lia. cbn [mbind outcome_bind]. change (Z.to_nat 0) with 0%nat. fold b1.
  rewrite mem_write_ok by (rewrite ?length_ip_bytes; lia). cbn [mbind outcome_bind].
  rewrite Nat2Z.id. fold b2.
  rewrite mem_write_ok by (rewrite ?length_packet_info_bytes; lia).
  replace (Z.to_nat (Z.of_nat (length lh) + 20)) with (length lh + 20)%nat by lia. fold b3.
  repeat split; [done| | | |].
  - unfold b3. rewrite slice_blit_other by (rewrite ?length_packet_info_bytes; lia).
    unfold b2. rewrite slice_blit_other by (rewrite ?length_ip_bytes; lia).
    unfold b1. apply slice_blit. lia.
  - apply list_eq. intros i. rewrite !lookup_drop.
    unfold b3. rewrite lookup_blit, decide_False by (rewrite ?length_packet_info_bytes; lia).
    unfold b2. rewrite lookup_blit, decide_False by (rewrite ?length_ip_bytes; lia).
    unfold b1. rewrite lookup_blit, decide_False by lia. done.
  - unfold read_ip_header, sizeof_ip. rewrite mem_read_ok by lia. cbn [mbind outcome_bind].
    rewrite Nat2Z.id. unfold b3. rewrite slice_blit_other by (rewrite ?length_packet_info_bytes; lia).
    unfold b2. rewrite (slice_blit _ (ip_bytes h)) by (rewrite length_ip_bytes; lia).
    by rewrite ip_bytes_read.
  - unfold read_packet_info, sizeof_SwiftNetPacketInfo, sizeof_ip.
    rewrite mem_read_ok by lia. cbn [mbind outcome_bind].
    replace (Z.to_nat (Z.of_nat (length lh) + 20)) with (length lh + 20)%nat by lia.
    unfold b3. rewrite (slice_blit _ (packet_info_bytes p)) by (rewrite length_packet_info_bytes; lia).
    by rewrite packet_info_bytes_read.
Qed.

(** The link header that precedes the IP header on each kind of interface. *)
Definition link_header (nd : SwiftNetNetworkData) (eth_hdr : ether_header) : list Z :=
  if addr_type nd =? DLT_NULL then le_bytes 4 PF_INET else ether_header_bytes eth_hdr.

(** Interfaces the pcap backend supports: the loopback and Ethernet link types, with
    the prepend size [swiftnet_initialize_networking] stores. *)
Definition network_ok (nd : SwiftNetNetworkData) : Prop :=
  (addr_type nd = DLT_NULL \/ addr_type nd = DLT_EN10MB)
  /\ prepend_size nd = PACKET_PREPEND_SIZE (addr_type nd).

Lemma length_link_header nd eth :
  network_ok nd -> ether_header_ok eth -> Z.of_nat (length (link_header nd eth)) = prepend_size nd.
Proof.
  intros [[Ht|Ht] ->] He; unfold link_header, PACKET_PREPEND_SIZE; rewrite Ht; cbn; [done|].
  by rewrite length_ether_header_bytes.
Qed.

Lemma prepend_size_range nd : network_ok nd -> prepend_size nd = 4 \/ prepend_size nd = 14.
Proof. intros [[Ht|Ht] ->]; rewrite Ht; cbn; auto. Qed.

Lemma construction_ok g h p nd eth n :
  network_ok nd -> ether_header_ok eth -> ip_ok h -> packet_info_ok p ->
  prepend_size nd + PACKET_HEADER_SIZE <= n ->
  exists frame, HANDLE_PACKET_CONSTRUCTION g h p nd eth n = Ok frame
    /\ Z.of_nat (length frame) = n
    /\ slice 0 (Z.to_nat (prepend_size nd)) frame = link_header nd eth
    /\ drop (Z.to_nat (prepend_size nd) + 44) frame = drop (Z.to_nat (prepend_size nd) + 44) (uninitialized g n)
    /\ read_ip_header (prepend_size nd) frame = Ok h
    /\ read_packet_info (prepend_size nd) frame = Ok p.
Proof.
  intros Hnd He Hh Hp Hn. pose proof (length_link_header nd eth Hnd He) as Hl.
  pose proof (prepend_size_range nd Hnd).
  assert (0 <= n) by (unfold PACKET_HEADER_SIZE, sizeof_ip, sizeof_SwiftNetPacketInfo in Hn; lia).
  pose proof (length_uninitialized g n ltac:(done)) as Hu.
  destruct (headers_written (link_header nd eth) h p (uninitialized g n)) as (f & E & L & S & D & R1 & R2);
    [done|done|unfold PACKET_HEADER_SIZE, sizeof_ip, sizeof_SwiftNetPacketInfo in Hn; lia|].
  exists f. rewrite <- Hl, Nat2Z.id, L, Hu. split; [|done].
  rewrite <- E, Hl. unfold HANDLE_PACKET_CONSTRUCTION, link_header, network_ok in *.
  destruct Hnd as [[Ht|Ht] ->]; rewrite Ht; reflexivity.
Qed.

(** What [HANDLE_CHECKSUM] leaves in the covered region. *)
Lemma handle_checksum_ok buffer off size :
  0 <= off -> sizeof_SwiftNetPacketInfo <= size -> off + size <= Z.of_nat (length buffer) ->
  let region := slice (Z.to_nat off) (Z.to_nat size) buffer in
  exists frame, HANDLE_CHECKSUM buffer off size = Ok frame
    /\ frame = blit (Z.to_nat off + 12) (le_bytes 4 (crc32 region)) buffer
    /\ length frame = length buffer
    /\ slice (Z.to_nat off) (Z.to_nat size) frame = blit 12 (le_bytes 4 (crc32 region)) region.
Proof.
  intros Ho Hs Hl region. unfold sizeof_SwiftNetPacketInfo in Hs. unfold HANDLE_CHECKSUM.
  assert (length region = Z.to_nat size) as Hr by (apply length_slice; lia).
  rewrite mem_read_ok by lia. cbn [mbind outcome_bind]. fold region.
  unfold offsetof_checksum. rewrite mem_write_ok by (rewrite ?length_le_bytes; lia).
  replace (Z.to_nat (off + 12)) with (Z.to_nat off + 12)%nat by lia.
  eexists. split; [done|]. split; [done|]. split; [apply length_blit; rewrite length_le_bytes; lia|].
  rewrite slice_blit_inner by (rewrite ?length_le_bytes; lia). f_equal. lia.
Qed.

Lemma checksum_field_restored (region : list Z) c :
  (24 <= length region)%nat -> slice 12 4 region = [0; 0; 0; 0] ->
  blit 12 [0; 0; 0; 0] (blit 12 (le_bytes 4 c) region) = region
  /\ slice 12 4 (blit 12 (le_bytes 4 c) region) = le_bytes 4 c.
Proof.
  intros Hl Hz. split.
  - rewrite blit_blit_same by first [by rewrite length_le_bytes | cbn; lia]. apply blit_id; [cbn; lia|done].
  - apply (slice_blit 12 (le_bytes 4 c)). rewrite length_le_bytes. lia.
Qed.

Lemma packet_corrupted_spec c region :
  packet_corrupted c (Z.of_nat (length region)) region = Ok (negb (crc32 region =? c)).
Proof.
  unfold packet_corrupted. rewrite mem_read_ok by lia. cbn [mbind outcome_bind].
  rewrite Nat2Z.id. change (Z.to_nat 0) with 0%nat. by rewrite slice_full.
Qed.

(** ** Properties *)

Definition globals_ok (g : Globals) : Prop :=
  in_word 16 (maximum_transmission_unit g) /\ in_word 32 (private_ip_address g)
  /\ length (mac_address g) = 6%nat /\ is_bytes (mac_address g) /\ (forall n, is_byte (garbage g n)).

Lemma construct_ip_header_ok g dst size id :
  globals_ok g -> in_word 32 dst -> ip_ok (construct_ip_header g dst size id).
Proof.
  intros (_ & ? & _) ?. pose proof (htons_range (u16 size)). pose proof (htons_range (u16 id)).
  unfold ip_ok, in_word, construct_ip_header, PROT_NUMBER in *. change (htons 0) with 0.
  cbn [ip_hl ip_v ip_tos ip_len ip_id ip_off ip_ttl ip_p ip_sum ip_src ip_dst]. lia.
Qed.

Lemma construct_packet_info_ok g len ty amount index ports :
  globals_ok g -> in_word 32 len -> in_word 8 ty -> in_word 32 amount -> in_word 32 index ->
  port_info_ok ports -> packet_info_ok (construct_packet_info g len ty amount index ports).
Proof.
  intros (? & _) ? ? ? ? ?. unfold packet_info_ok, port_info_ok, in_word, construct_packet_info in *.
  cbn [packet_length chunk_amount chunk_index checksum port_info pi_maximum_transmission_unit packet_type].
  lia.
Qed.

(** C33 A frame built by the packet-construction macro, on the loopback or on an
    Ethernet interface, is parsed by the receiver into exactly the IP header and
    packet information it was built from; no write leaves the buffer. *)
Theorem construct_parse_roundtrip (g : Globals) (nd : SwiftNetNetworkData) (eth : ether_header)
  (dst size id len ty amount index : Z) (ports : SwiftNetPortInfo) (buffer_size : Z)
  (Hg : globals_ok g) (Hnd : network_ok nd) (Heth : ether_header_ok eth)
  (Hdst : in_word 32 dst) (Hlen : in_word 32 len) (Hty : in_word 8 ty) (Ham : in_word 32 amount)
  (Hix : in_word 32 index) (Hpt : port_info_ok ports)
  (Hsize : prepend_size nd + PACKET_HEADER_SIZE <= buffer_size) :
  let ip_header := construct_ip_header g dst size id in
  let packet_info := construct_packet_info g len ty amount index ports in
  exists frame,
    HANDLE_PACKET_CONSTRUCTION g ip_header packet_info nd eth buffer_size = Ok frame
    /\ Z.of_nat (length frame) = buffer_size
    /\ read_ip_header (prepend_size nd) frame = Ok ip_header
    /\ read_packet_info (prepend_size nd) frame = Ok packet_info.
Proof.
  intros ip_header packet_info.
  destruct (construction_ok g ip_header packet_info nd eth buffer_size)
    as (f & ? & ? & _ & _ & ? & ?); eauto using construct_ip_header_ok, construct_packet_info_ok.
Qed.

Definition g0 : Globals := mk_globals 1500 0x0101A8C0 [2; 0; 0; 0; 0; 1] (fun _ => 0xAA).
Definition eth0 : ether_header := mk_ether_header (repeat 0xFF 6) [2; 0; 0; 0; 0; 1] (htons ETHERTYPE_IP).
Definition nd_ethernet : SwiftNetNetworkData := mk_network_data (Some 1%positive) DLT_EN10MB 14.
Definition nd_loopback : SwiftNetNetworkData := mk_network_data (Some 2%positive) DLT_NULL 4.

Ltac in_range := unfold in_word, is_byte in *; cbn -[Z.pow]; lia.
Ltac bytes_ok := unfold is_bytes, is_byte; repeat constructor; lia.

Lemma g0_ok : globals_ok g0.
Proof. unfold globals_ok. repeat split; try in_range; try done; bytes_ok. Qed.
Lemma eth0_ok : ether_header_ok eth0.
Proof. unfold ether_header_ok. repeat split; try done; try bytes_ok. Qed.
Lemma nd_ethernet_ok : network_ok nd_ethernet.
Proof. split; [by right|done]. Qed.
Lemma nd_loopback_ok : network_ok nd_loopback.
Proof. split; [by left|done]. Qed.

Lemma construct_parse_roundtrip_witness :
  exists frame,
    HANDLE_PACKET_CONSTRUCTION g0 (construct_ip_header g0 0x0201A8C0 1500 0x1234)
      (construct_packet_info g0 4000 1 3 2 (mk_port_info 8080 4242)) nd_ethernet eth0 58 = Ok frame
    /\ Z.of_nat (length frame) = 58
    /\ read_ip_header 14 frame = Ok (construct_ip_header g0 0x0201A8C0 1500 0x1234)
    /\ read_packet_info 14 frame
       = Ok (construct_packet_info g0 4000 1 3 2 (mk_port_info 8080 4242)).
Proof.
  apply (construct_parse_roundtrip g0 nd_ethernet eth0);
    first [exact g0_ok | exact eth0_ok | exact nd_ethernet_ok | split; in_range | in_range | done].
Defined.

(** A region that went through [HANDLE_CHECKSUM] with a cleared checksum field
    is accepted by the receiver: clearing the field again and recomputing the
    checksum gives the transmitted value. *)
Theorem checksum_accepts_genuine (buffer : list Z) (off size : Z)
  (Ho : 0 <= off) (Hs : sizeof_SwiftNetPacketInfo <= size)
  (Hl : off + size <= Z.of_nat (length buffer))
  (Hz : slice (Z.to_nat off + 12) 4 buffer = [0; 0; 0; 0]) (Hb : is_bytes buffer) :
  exists frame, HANDLE_CHECKSUM buffer off size = Ok frame /\
    let received := slice (Z.to_nat off) (Z.to_nat size) frame in
    packet_corrupted (checksum (packet_info_of_bytes received)) size
      (blit 12 [0; 0; 0; 0] received) = Ok false.
Proof.
  destruct (handle_checksum_ok buffer off size) as (f & E & _ & _ & R); [done..|].
  exists f. split; [done|]. cbv zeta. rewrite R.
  set (region := slice (Z.to_nat off) (Z.to_nat size) buffer) in *.
  unfold sizeof_SwiftNetPacketInfo in Hs.
  assert (length region = Z.to_nat size) as Hr by (apply length_slice; lia).
  destruct (checksum_field_restored region (crc32 region)) as [-> F];
    [lia|unfold region; by rewrite slice_slice by lia|].
  cbn [checksum packet_info_of_bytes]. rewrite F, le_val_word
    by (apply crc32_in_word; unfold region; auto with bytes).
  replace size with (Z.of_nat (length region)) by lia.
  by rewrite packet_corrupted_spec, Z.eqb_refl.
Qed.

Lemma checksum_accepts_genuine_witness :
  exists frame, HANDLE_CHECKSUM (repeat 9 14 ++ repeat 0 30) 14 30 = Ok frame /\
    let received := slice 14 30 frame in
    packet_corrupted (checksum (packet_info_of_bytes received)) 30
      (blit 12 [0; 0; 0; 0] received) = Ok false.
Proof. apply checksum_accepts_genuine; first [done | cbn; lia | bytes_ok]. Defined.

(** C32 The receiver's checksum test rejects a region in which up to four
    consecutive bytes were changed after the checksum was computed. *)
Theorem checksum_rejects_burst (pre w w' post : list Z)
  (Hpre : is_bytes pre) (Hw : is_bytes w) (Hw' : is_bytes w') (Hpost : is_bytes post)
  (Hlen : length w = length w') (H4 : (length w <= 4)%nat) (Hdiff : w <> w') :
  let sent := pre ++ w ++ post in
  let received := pre ++ w' ++ post in
  packet_corrupted (crc32 sent) (Z.of_nat (length received)) received = Ok true.
Proof.
  intros sent received. rewrite packet_corrupted_spec. f_equal. apply negb_true_iff, Z.eqb_neq.
  intros Heq. by apply (crc32_burst pre w w' post).
Qed.

Lemma checksum_rejects_burst_witness :
  packet_corrupted (crc32 ([7; 9; 1] ++ [2; 3; 4; 5] ++ [6])) 8 ([7; 9; 1] ++ [2; 3; 4; 6] ++ [6]) = Ok true.
Proof. apply (checksum_rejects_burst [7; 9; 1] [2; 3; 4; 5] [2; 3; 4; 6] [6]); first [done | cbn; lia | bytes_ok]. Defined.
