(* ===== verification/Frames.v ===== *)
(** * Frames in closed form

    What the senders put on the wire, written as one concatenation: the link header,
    the IP header, the packet information with its checksum, the payload.  The lemmas
    here turn the buffer writes of the code into this form, and read a frame in this
    form back; senders and receivers meet in it. *)

From S2P Require Import Prelude Store Crc32 Wire.

Definition with_index (i : Z) (p : SwiftNetPacketInfo) : SwiftNetPacketInfo :=
  mk_packet_info (packet_length p) (chunk_amount p) i (checksum p) (port_info p)
    (pi_maximum_transmission_unit p) (packet_type p).
Definition with_checksum (c : Z) (p : SwiftNetPacketInfo) : SwiftNetPacketInfo :=
  mk_packet_info (packet_length p) (chunk_amount p) (chunk_index p) c (port_info p)
    (pi_maximum_transmission_unit p) (packet_type p).
Definition with_length (n : Z) (p : SwiftNetPacketInfo) : SwiftNetPacketInfo :=
  mk_packet_info n (chunk_amount p) (chunk_index p) (checksum p) (port_info p)
    (pi_maximum_transmission_unit p) (packet_type p).
Definition with_ip_len (n : Z) (h : ip) : ip :=
  mk_ip (ip_hl h) (ip_v h) (ip_tos h) n (ip_id h) (ip_off h) (ip_ttl h) (ip_p h) (ip_sum h) (ip_src h) (ip_dst h).

(** The three headers. *)
Definition headers (lh : list Z) (h : ip) (p : SwiftNetPacketInfo) : list Z :=
  lh ++ ip_bytes h ++ packet_info_bytes p.

(** A frame whose checksum covers the packet information and the payload. *)
Definition sealed_info (p : SwiftNetPacketInfo) (payload : list Z) : SwiftNetPacketInfo :=
  with_checksum (crc32 (packet_info_bytes p ++ payload)) p.
Definition sealed_frame (lh : list Z) (h : ip) (p : SwiftNetPacketInfo) (payload : list Z) : list Z :=
  headers lh h (sealed_info p payload) ++ payload.

Lemma length_headers lh h p : length (headers lh h p) = (length lh + 44)%nat.
Proof. unfold headers. rewrite !length_app, length_ip_bytes, length_packet_info_bytes. done. Qed.

Lemma length_sealed_frame lh h p payload : length (sealed_frame lh h p payload) = (length lh + 44 + length payload)%nat.
Proof. unfold sealed_frame. rewrite length_app, length_headers. done. Qed.

(** ** Writing a field of a header *)
Lemma write_info lh h p o src :
  (o + length src <= 24)%nat ->
  blit (length lh + 20 + o) src (headers lh h p) = lh ++ ip_bytes h ++ blit o src (packet_info_bytes p).
Proof.
  intros Ho. unfold headers. rewrite <- Nat.add_assoc.
  rewrite blit_app_r by (rewrite length_app, length_ip_bytes, length_packet_info_bytes; lia).
  done.
Qed.

Lemma write_chunk_index lh h p i :
  blit (length lh + 20 + 8) (le_bytes 4 i) (headers lh h p) = headers lh h (with_index i p).
Proof. rewrite write_info by (rewrite length_le_bytes; lia). reflexivity. Qed.

Lemma write_checksum lh h p c :
  blit (length lh + 20 + 12) (le_bytes 4 c) (headers lh h p) = headers lh h (with_checksum c p).
Proof. rewrite write_info by (rewrite length_le_bytes; lia). reflexivity. Qed.

Lemma write_packet_length lh h p n :
  blit (length lh + 20 + 0) (le_bytes 4 n) (headers lh h p) = headers lh h (with_length n p).
Proof. rewrite write_info by (rewrite length_le_bytes; lia). reflexivity. Qed.

Lemma write_ip_len lh h p n :
  blit (length lh + 2) (le_bytes 2 n) (headers lh h p) = headers lh (with_ip_len n h) p.
Proof.
  unfold headers.
  rewrite blit_app_r by (rewrite length_app, length_ip_bytes, length_packet_info_bytes, length_le_bytes; lia).
  done.
Qed.

(** ** Building headers *)
Lemma write_headers lh h p buffer :
  (length lh + 44 <= length buffer)%nat ->
  (b ← mem_write 0 lh buffer;
   b ← mem_write (Z.of_nat (length lh)) (ip_bytes h) b;
   mem_write (Z.of_nat (length lh) + sizeof_ip) (packet_info_bytes p) b)
  = Ok (headers lh h p ++ drop (length lh + 44) buffer).
Proof.
  intros Hl. rewrite mem_write_ok, bind_Ok by lia. change (Z.to_nat 0) with 0%nat.
  assert (blit 0 lh buffer = lh ++ drop (length lh) buffer) as -> by done.
  assert (forall (src b : list Z), (length src <= length b)%nat -> blit 0 src b = src ++ drop (length src) b) as Hb
    by done.
  rewrite mem_write_ok, bind_Ok by (rewrite ?length_app, ?length_drop, ?length_ip_bytes; lia).
  replace (Z.to_nat (Z.of_nat (length lh))) with (length lh + 0)%nat by lia.
  rewrite blit_app_r, Hb by (rewrite length_drop, length_ip_bytes; lia).
  rewrite drop_drop, length_ip_bytes. unfold sizeof_ip.
  rewrite mem_write_ok by (rewrite ?length_app, ?length_drop, ?length_ip_bytes, ?length_packet_info_bytes; lia).
  replace (Z.to_nat (Z.of_nat (length lh) + 20)) with (length (lh ++ ip_bytes h) + 0)%nat
    by (rewrite length_app, length_ip_bytes; lia).
  rewrite app_assoc, blit_app_r, Hb by (rewrite length_drop, length_packet_info_bytes; lia).
  rewrite drop_drop, length_packet_info_bytes. unfold headers. rewrite <- !app_assoc.
  do 4 f_equal. f_equal. lia.
Qed.

Lemma construction_exact g h p nd eth n :
  network_ok nd -> ether_header_ok eth -> prepend_size nd + PACKET_HEADER_SIZE <= n ->
  HANDLE_PACKET_CONSTRUCTION g h p nd eth n
  = Ok (headers (link_header nd eth) h p ++ drop (length (link_header nd eth) + 44) (uninitialized g n)).
Proof.
  intros Hnd He Hn. pose proof (length_link_header nd eth Hnd He) as Hl. change PACKET_HEADER_SIZE with 44 in Hn.
  pose proof (prepend_size_range nd Hnd). pose proof (length_uninitialized g n ltac:(lia)) as Hu.
  rewrite <- write_headers by lia. rewrite Hl.
  unfold HANDLE_PACKET_CONSTRUCTION, link_header, network_ok in *.
  destruct Hnd as [[Ht|Ht] ->]; rewrite Ht; reflexivity.
Qed.

Lemma construction_headers g h p nd eth n :
  network_ok nd -> ether_header_ok eth -> n = prepend_size nd + PACKET_HEADER_SIZE ->
  HANDLE_PACKET_CONSTRUCTION g h p nd eth n = Ok (headers (link_header nd eth) h p).
Proof.
  intros Hnd He ->. rewrite construction_exact by (done || lia). rewrite drop_ge, app_nil_r; [done|].
  pose proof (length_link_header nd eth Hnd He) as Hl. pose proof (prepend_size_range nd Hnd).
  change PACKET_HEADER_SIZE with 44.
  pose proof (length_uninitialized g (prepend_size nd + 44) ltac:(lia)) as Hu. lia.
Qed.

(** ** Sealing a frame in place

    The frame lies at offset [off] of [mem], its headers already written. *)
Lemma seal_in_place lh h p (mem : list Z) (off n : nat) :
  (length lh + 44 <= n)%nat -> (off + n <= length mem)%nat ->
  HANDLE_CHECKSUM (blit off (headers lh h p) mem) (Z.of_nat (off + length lh) + sizeof_ip)
      (Z.of_nat (n - length lh - 20))
  = Ok (blit off (headers lh h (sealed_info p (slice (off + (length lh + 44)) (n - (length lh + 44)) mem))) mem).
Proof.
  intros Hn Hoff. unfold sizeof_ip. unfold HANDLE_CHECKSUM.
  set (payload := slice (off + (length lh + 44)) (n - (length lh + 44)) mem).
  pose proof (length_headers lh h p) as Hh.
  assert (slice off n (blit off (headers lh h p) mem) = headers lh h p ++ payload) as Hf.
  { rewrite slice_blit_prefix by lia. by rewrite Hh. }
  rewrite mem_read_ok, bind_Ok by (rewrite ?length_blit; lia).
  replace (slice (Z.to_nat (Z.of_nat (off + length lh) + 20)) (Z.to_nat (Z.of_nat (n - length lh - 20)))
    (blit off (headers lh h p) mem)) with (packet_info_bytes p ++ payload); cycle 1.
  { replace (Z.to_nat (Z.of_nat (off + length lh) + 20)) with (off + (length lh + 20))%nat by lia.
    rewrite <- (slice_slice off n) by lia. rewrite Hf. unfold headers. rewrite <- !app_assoc, app_assoc.
    rewrite slice_app_r by (rewrite length_app, length_ip_bytes; lia).
    rewrite length_app, length_ip_bytes, Nat.sub_diag. unfold slice. rewrite drop_0, take_ge; [done|].
    rewrite length_app, length_packet_info_bytes. unfold payload. rewrite length_slice by lia. lia. }
  unfold offsetof_checksum. rewrite mem_write_ok by (rewrite ?length_le_bytes, ?length_blit; lia).
  replace (Z.to_nat (Z.of_nat (off + length lh) + 20 + 12)) with (off + (length lh + 20 + 12))%nat by lia.
  rewrite blit_blit_inner by (rewrite ?length_le_bytes; lia). by rewrite write_checksum.
Qed.

Lemma sealed_slice lh h p (mem : list Z) (off n : nat) :
  (length lh + 44 <= n)%nat -> (off + n <= length mem)%nat ->
  let payload := slice (off + (length lh + 44)) (n - (length lh + 44)) mem in
  slice off n (blit off (headers lh h (sealed_info p payload)) mem) = sealed_frame lh h p payload.
Proof.
  intros Hn Hoff payload. pose proof (length_headers lh h (sealed_info p payload)) as Hh.
  rewrite slice_blit_prefix by lia. by rewrite Hh.
Qed.

(** A frame without payload. *)
Lemma header_frame_built g nd eth h p :
  network_ok nd -> ether_header_ok eth ->
  (b ← HANDLE_PACKET_CONSTRUCTION g h p nd eth (PACKET_HEADER_SIZE + prepend_size nd);
   HANDLE_CHECKSUM b (prepend_size nd + sizeof_ip) sizeof_SwiftNetPacketInfo)
  = Ok (sealed_frame (link_header nd eth) h p []).
Proof.
  intros Hnd He. rewrite construction_headers, bind_Ok by (done || lia).
  pose proof (length_link_header nd eth Hnd He) as Hl. set (lh := link_header nd eth) in *.
  pose proof (length_headers lh h p) as Hh.
  pose proof (seal_in_place lh h p (headers lh h p) 0 (length lh + 44) ltac:(lia) ltac:(lia)) as Hs.
  assert (forall x, length x = length (headers lh h p) -> blit 0 x (headers lh h p) = x) as Hb.
  { intros x Hx. unfold blit. rewrite take_0, Nat.add_0_l, drop_ge by lia. by rewrite app_nil_r. }
  rewrite !Hb, Nat.add_0_l, Nat.sub_diag, Hl in Hs by (rewrite ?length_headers; lia).
  unfold sizeof_SwiftNetPacketInfo. replace 24 with (Z.of_nat (length lh + 44 - length lh - 20)) by lia.
  rewrite Hs. unfold sealed_frame. by rewrite app_nil_r.
Qed.

(** ** Reading a frame back *)
Lemma is_bytes_packet_info p : packet_info_ok p -> is_bytes (packet_info_bytes p).
Proof.
  intros (_ & _ & _ & _ & _ & _ & Ht). unfold packet_info_bytes.
  rewrite !is_bytes_app. split_and!; auto with bytes.
  apply Forall_cons. split; [done|]. apply Forall_singleton. by split.
Qed.

Lemma sealed_info_ok p payload : packet_info_ok p -> is_bytes payload -> packet_info_ok (sealed_info p payload).
Proof.
  intros Hp Hb. pose proof Hp as (? & ? & ? & ? & ? & ? & ?). split_and!; try done. apply crc32_in_word.
  rewrite is_bytes_app. by split; [apply is_bytes_packet_info|].
Qed.

Lemma read_headers lh h p rest :
  ip_ok h -> packet_info_ok p ->
  read_ip_header (Z.of_nat (length lh)) (headers lh h p ++ rest) = Ok h
  /\ read_packet_info (Z.of_nat (length lh)) (headers lh h p ++ rest) = Ok p.
Proof.
  intros Hh Hp. unfold read_ip_header, read_packet_info, sizeof_ip, sizeof_SwiftNetPacketInfo.
  pose proof (length_headers lh h p) as Hl.
  rewrite !mem_read_ok by (rewrite ?length_app; lia). rewrite !bind_Ok.
  replace (Z.to_nat (Z.of_nat (length lh) + 20)) with (length lh + 20)%nat by lia. rewrite Nat2Z.id.
  change (Z.to_nat 20) with 20%nat. change (Z.to_nat 24) with 24%nat.
  rewrite !slice_app_l by lia. unfold headers.
  rewrite (slice_app_r (length lh) 20 lh), (slice_app_r (length lh + 20) 24 lh) by lia.
  rewrite Nat.sub_diag. replace (length lh + 20 - length lh)%nat with 20%nat by lia.
  rewrite (slice_app_l 0 20 (ip_bytes h)), (slice_app_r 20 24 (ip_bytes h)) by (by rewrite length_ip_bytes).
  rewrite length_ip_bytes. change (slice 0 20 (ip_bytes h)) with (ip_bytes h).
  change (slice (20 - 20) 24 (packet_info_bytes p)) with (packet_info_bytes p).
  by rewrite ip_bytes_read, packet_info_bytes_read.
Qed.
