(* ===== verification/Chunks.v ===== *)
(** * The received-chunk bitmap (src/src/process_packets.c)

    A pending message records the chunks it holds in a bitmap, one bit per chunk.
    [chunk_received] sets a bit, [chunk_already_received] tests one, and
    [return_lost_chunk_indexes] lists the clear bits into a bounded buffer, which
    is the body of the answer to a lost-packets request. *)

From S2P Require Import Prelude.

(** ** Operations *)
Definition chunk_already_received (chunks_received : list Z) (index : Z) : Outcome bool :=
  b ← of_option (chunks_received !! Z.to_nat (index / 8));
  Ok (negb (Z.land b (Z.shiftl 1 (index mod 8)) =? 0)).

Definition chunk_received (chunks_received : list Z) (index : Z) : Outcome (list Z) :=
  let byte := Z.to_nat (index / 8) in
  let bit := index mod 8 in
  b ← of_option (chunks_received !! byte);
  Ok (<[byte := Z.lor b (u8 (Z.shiftl 1 bit))]> chunks_received).

(** [return_lost_chunk_indexes]: the two inner [for] loops differ only in the
    number of bits they visit.  The result is the list of indexes written to
    [buffer] (its length is the returned [offset]); the flag tells that the loop
    left through [goto exit]. *)
Section lost.
Context (chunks_received : list Z) (chunk_amount buffer_size : Z).

Fixpoint lost_bits (n : nat) (bit byte : Z) (out : list Z) : Outcome (bool * list Z) :=
  match n with
  | O => Ok (false, out)
  | S n' =>
      let offset := Z.of_nat (length out) in
      if buffer_size <? u32 (u32 (offset * 4) + 4) then Ok (true, out)
      else
        b ← of_option (chunks_received !! Z.to_nat byte);
        let out' := if Z.land b (Z.shiftl 1 bit) =? 0x00
                    then out ++ [u32 (u32 (byte * 8) + bit)] else out in
        lost_bits n' (bit + 1) byte out'
  end.

Fixpoint lost_loop (fuel : nat) (byte : Z) (out : list Z) : Outcome (list Z) :=
  match fuel with
  | O => Diverge
  | S fuel' =>
      if u32 (u32 (byte * 8) + 8) <? chunk_amount then
        b ← of_option (chunks_received !! Z.to_nat byte);
        if b =? 0xFF then lost_loop fuel' (u32 (byte + 1)) out
        else
          '(exit, out) ← lost_bits 8 0 byte out;
          if exit : bool then Ok out else lost_loop fuel' (u32 (byte + 1)) out
      else
        '(_, out) ← lost_bits (Z.to_nat (u32 (chunk_amount - u32 (byte * 8)))) 0 byte out;
        Ok out
  end.

(** The loop visits one byte of the bitmap per round. *)
Definition return_lost_chunk_indexes : Outcome (list Z) :=
  lost_loop (S (Z.to_nat (chunk_amount / 8))) 0 [].
End lost.

(** ** The bitmap as a set of chunk indexes *)
Definition chunk_bit (chunks_received : list Z) (i : Z) : bool := bitmap_bit chunks_received i.

(** The chunks of a message of [n] chunks that are still missing, in order. *)
Definition missing_chunks (chunks_received : list Z) (n : Z) : list Z :=
  filter (fun i => chunk_bit chunks_received i = false) (seqZ 0 n).

Lemma byte_full b i : is_byte b -> 0 <= i < 8 -> b = 0xFF -> Z.testbit b i = true.
Proof.
  intros _ Hi ->. change 0xFF with (Z.ones 8). apply Z.ones_spec_low. lia.
Qed.

Lemma chunk_received_spec cr i :
  0 <= i -> i / 8 < Z.of_nat (length cr) -> is_bytes cr ->
  exists cr', chunk_received cr i = Ok cr' /\ length cr' = length cr /\ is_bytes cr'
    /\ forall j, 0 <= j -> chunk_bit cr' j = if bool_decide (j = i) then true else chunk_bit cr j.
Proof.
  intros Hi Hl Hbs. unfold chunk_received.
  destruct (lookup_lt_is_Some_2 cr (Z.to_nat (i / 8))) as [b Hb]; [dlia|].
  rewrite Hb. cbn [of_option mbind outcome_bind].
  assert (is_byte b) as Hbb by (by eapply Forall_lookup_1).
  assert (0 <= i mod 8 < 8) as Hm by (apply Z.mod_pos_bound; lia).
  assert (forall k, 0 <= k < 8 -> Z.testbit (Z.lor b (u8 (Z.shiftl 1 (i mod 8)))) k
            = if bool_decide (k = i mod 8) then true else Z.testbit b k) as Hk.
  { intros k Hk. rewrite <- (lor_bit_testbit b (i mod 8) k), u8_testbit by done.
    by rewrite !Z.lor_spec, u8_testbit. }
  eexists. split; [done|]. split; [apply length_insert|]. split.
  - apply Forall_insert; [done|].
    assert (in_word 8 (Z.lor b (u8 (Z.shiftl 1 (i mod 8))))) as Hw; [|exact Hw].
    apply lor_in_word; [lia|done|apply u8_spec].
  - intros j Hj. by apply (bitmap_bit_update _ _ b).
Qed.

Lemma chunk_already_received_spec cr i :
  0 <= i -> i / 8 < Z.of_nat (length cr) -> chunk_already_received cr i = Ok (chunk_bit cr i).
Proof.
  intros Hi Hl. unfold chunk_already_received, chunk_bit, bitmap_bit.
  destruct (lookup_lt_is_Some_2 cr (Z.to_nat (i / 8))) as [b Hb]; [dlia|].
  rewrite Hb. cbn [of_option mbind outcome_bind from_option id].
  rewrite land_bit_test, negb_involutive by (apply Z.mod_pos_bound; lia). done.
Qed.

(** ** [return_lost_chunk_indexes] against its specification *)
Section lost_spec.
Context (cr : list Z) (buffer_size : Z).
Hypothesis Hbuf : 0 <= buffer_size <= 2 ^ 32 - 8.

#[local] Abbreviation cap := (Z.to_nat (buffer_size / 4)).
#[local] Abbreviation missing := (filter (fun i => chunk_bit cr i = false)).

Lemma buffer_full_test (n : nat) :
  (n <= cap)%nat -> (buffer_size <? u32 (u32 (Z.of_nat n * 4) + 4)) = bool_decide (n = cap).
Proof.
  intros Hn. assert (Z.of_nat n <= buffer_size / 4) by dlia.
  assert (Z.of_nat n * 4 <= buffer_size) by dlia.
  rewrite (u32_id (Z.of_nat n * 4)), u32_id by lia.
  case_bool_decide; [apply Z.ltb_lt | apply Z.ltb_ge]; dlia.
Qed.

Lemma take_missing_full (out l : list Z) :
  length out = cap -> take cap (out ++ l) = out.
Proof. intros <-. by rewrite take_app_length. Qed.

Lemma lost_bits_spec n bit byte out :
  0 <= byte -> 0 <= bit -> bit + Z.of_nat n <= 8 -> byte * 8 + 8 <= 2 ^ 32 ->
  (n = 0%nat \/ byte < Z.of_nat (length cr)) -> (length out <= cap)%nat ->
  exists stop, lost_bits cr buffer_size n bit byte out
    = Ok (stop, take cap (out ++ missing (seqZ (byte * 8 + bit) (Z.of_nat n))))
    /\ (stop = true -> length out = cap
        \/ length (take cap (out ++ missing (seqZ (byte * 8 + bit) (Z.of_nat n)))) = cap).
Proof.
  intros Hby. revert bit out. induction n as [|n IH]; intros bit out Hbit Hn Hov Hin Hout.
  { exists false. cbn [lost_bits seqZ]. change (Z.of_nat 0) with 0. rewrite seqZ_nil by lia.
    cbn. rewrite app_nil_r, take_ge by done. done. }
  cbn [lost_bits]. rewrite buffer_full_test by done. case_bool_decide as Hfull.
  { exists true. rewrite take_missing_full by done. auto. }
  destruct Hin as [|Hin]; [lia|].
  destruct (lookup_lt_is_Some_2 cr (Z.to_nat byte)) as [b Hb]; [lia|].
  rewrite Hb. cbn [of_option mbind outcome_bind].
  rewrite (u32_id (byte * 8)), (u32_id (byte * 8 + bit)) by lia.
  rewrite Nat2Z.inj_succ, seqZ_cons by lia. cbn [Z.pred]. rewrite Z.pred_succ.
  assert (chunk_bit cr (byte * 8 + bit) = Z.testbit b bit) as Hcb.
  { unfold chunk_bit, bitmap_bit. replace ((byte * 8 + bit) / 8) with byte by dlia.
    replace ((byte * 8 + bit) mod 8) with bit by dlia. by rewrite Hb. }
  rewrite land_bit_test by done. rewrite filter_cons, Hcb.
  destruct (IH (bit + 1) (if negb (Z.testbit b bit) then out ++ [byte * 8 + bit] else out))
    as (stop & -> & Hstop); [lia|lia|lia|auto| |].
  { destruct (Z.testbit b bit); cbn [negb]; rewrite ?length_app; cbn; lia. }
  exists stop. replace (Z.succ (byte * 8 + bit)) with (byte * 8 + (bit + 1)) by lia.
  destruct (Z.testbit b bit) eqn:Eb; cbn [negb] in *.
  - rewrite decide_False by done. auto.
  - rewrite decide_True by done. rewrite <- app_assoc in *. cbn [app] in *. split; [done|].
    intros Hs. right. destruct (Hstop Hs) as [Hc|Hc]; [|done].
    rewrite length_app in Hc. cbn in Hc.
    rewrite length_take, length_app. cbn [length]. lia.
Qed.

Lemma missing_byte_full byte b :
  0 <= byte -> cr !! Z.to_nat byte = Some b -> b = 0xFF -> missing (seqZ (byte * 8) 8) = [].
Proof.
  intros Hby Hb ->. apply filter_none. intros i Hi. apply elem_of_seqZ in Hi.
  unfold chunk_bit, bitmap_bit. replace (i / 8) with byte by dlia. rewrite Hb. cbn [from_option id].
  rewrite (byte_full 0xFF) by (done || unfold is_byte; dlia). done.
Qed.

Lemma lost_loop_spec chunk_amount fuel byte out :
  0 <= chunk_amount <= 2 ^ 32 - 8 -> chunk_amount <= 8 * Z.of_nat (length cr) ->
  0 <= byte -> byte * 8 <= chunk_amount -> chunk_amount < (byte + Z.of_nat fuel) * 8 ->
  (byte = 0 \/ byte * 8 < chunk_amount) -> out = take cap (missing (seqZ 0 (byte * 8))) ->
  lost_loop cr chunk_amount buffer_size fuel byte out = Ok (take cap (missing (seqZ 0 chunk_amount))).
Proof.
  intros Hca Hcr. revert byte out. induction fuel as [|fuel IH]; intros byte out Hby Hle Hfuel Hpos ->; [lia|].
  cbn [lost_loop]. set (out := take cap (missing (seqZ 0 (byte * 8)))).
  assert (length out <= cap)%nat as Hout by (unfold out; rewrite length_take; lia).
  rewrite (u32_id (byte * 8)), (u32_id (byte * 8 + 8)) by lia.
  assert (forall n, 0 <= n -> take cap (out ++ missing (seqZ (byte * 8) n))
            = take cap (missing (seqZ 0 (byte * 8 + n)))) as Hext.
  { intros n Hn. rewrite seqZ_app, filter_app by lia. cbn [Z.add]. rewrite Z.add_0_l.
    unfold out. rewrite !take_app, take_take, Nat.min_id. f_equal.
    rewrite length_take. f_equal. lia. }
  destruct (byte * 8 + 8 <? chunk_amount) eqn:E; bool_prop.
  - destruct (lookup_lt_is_Some_2 cr (Z.to_nat byte)) as [b Hb]; [lia|].
    rewrite Hb. cbn [of_option mbind outcome_bind].
    rewrite (u32_id (byte + 1)) by lia.
    destruct (b =? 0xFF) eqn:Eb; bool_prop.
    + apply IH; try lia. pose proof (Hext 8 ltac:(lia)) as Hx.
      rewrite (missing_byte_full byte b), app_nil_r in Hx by done.
      rewrite take_ge in Hx by done. rewrite Hx. do 3 f_equal. lia.
    + destruct (lost_bits_spec 8 0 byte out) as (stop & -> & Hstop); [lia..|right; lia|done|].
      cbn [mbind outcome_bind]. rewrite Z.add_0_r in *. change (Z.of_nat 8) with 8 in *.
      rewrite (Hext 8) by lia. destruct stop.
      * f_equal. replace chunk_amount with (byte * 8 + 8 + (chunk_amount - (byte * 8 + 8))) by lia.
        rewrite (seqZ_app 0 (byte * 8 + 8)), filter_app by lia.
        assert (length (take cap (missing (seqZ 0 (byte * 8 + 8)))) = cap) as Hlen.
        { destruct (Hstop eq_refl) as [Hc|Hc]; [|by rewrite <- Hext by lia].
          rewrite <- (Hext 8), length_take, length_app by lia. lia. }
        rewrite length_take in Hlen. rewrite take_app_le by lia. done.
      * apply IH; try lia. do 3 f_equal. lia.
  - assert (chunk_amount <= byte * 8 + 8) as Hlast by lia.
    rewrite u32_id by lia.
    destruct (lost_bits_spec (Z.to_nat (chunk_amount - byte * 8)) 0 byte out) as (stop & -> & _);
      [lia..|lia|done|].
    cbn [mbind outcome_bind]. rewrite Z.add_0_r, Z2Nat.id, Hext by lia. do 4 f_equal. lia.
Qed.
End lost_spec.

Lemma lost_indexes_spec cr chunk_amount buffer_size :
  0 <= chunk_amount <= 2 ^ 32 - 8 -> chunk_amount <= 8 * Z.of_nat (length cr) ->
  0 <= buffer_size <= 2 ^ 32 - 8 ->
  return_lost_chunk_indexes cr chunk_amount buffer_size
  = Ok (take (Z.to_nat (buffer_size / 4)) (missing_chunks cr chunk_amount)).
Proof.
  intros Hca Hcr Hbuf. apply lost_loop_spec; try done; try lia; [dlia|].
  rewrite seqZ_nil by lia. by rewrite filter_nil, take_nil.
Qed.

Lemma missing_chunks_nil cr n :
  missing_chunks cr n = [] <-> forall i, 0 <= i < n -> chunk_bit cr i = true.
Proof.
  unfold missing_chunks. rewrite filter_nil_iff. setoid_rewrite elem_of_seqZ. split.
  - intros H i Hi. apply not_false_is_true, H. lia.
  - intros H i Hi. rewrite H by lia. done.
Qed.

(** ** Properties *)

(** C34 For a message of up to 2^32 - 8 chunks the loop ends and lists exactly the
    chunks that have not arrived, in increasing order, cut to the number of
    indexes that fit the answer; when at least one index fits, the list is empty
    exactly when every chunk has arrived. *)
Theorem lost_chunk_indexes_exact (chunks_received : list Z) (chunk_amount buffer_size : Z)
  (Hamount : 0 <= chunk_amount <= 2 ^ 32 - 8)
  (Hbitmap : chunk_amount <= 8 * Z.of_nat (length chunks_received))
  (Hbuffer : 0 <= buffer_size <= 2 ^ 32 - 8) :
  return_lost_chunk_indexes chunks_received chunk_amount buffer_size
    = Ok (take (Z.to_nat (buffer_size / 4)) (missing_chunks chunks_received chunk_amount))
  /\ (4 <= buffer_size ->
      return_lost_chunk_indexes chunks_received chunk_amount buffer_size = Ok []
      <-> forall i, 0 <= i < chunk_amount -> chunk_bit chunks_received i = true).
Proof.
  rewrite lost_indexes_spec by done. split; [done|]. intros H4. rewrite <- missing_chunks_nil.
  split; [|intros ->; by rewrite take_nil]. intros [= Ht].
  destruct (missing_chunks _ _) as [|x l]; [done|].
  destruct (Z.to_nat (buffer_size / 4)) eqn:E; [dlia|done].
Qed.

Lemma lost_chunk_indexes_exact_witness :
  return_lost_chunk_indexes [0xFF; 0x05; 0x02] 19 1456 = Ok [9; 11; 12; 13; 14; 15; 16; 18]
  /\ (4 <= 1456 ->
      return_lost_chunk_indexes [0xFF; 0x05; 0x02] 19 1456 = Ok []
      <-> forall i, 0 <= i < 19 -> chunk_bit [0xFF; 0x05; 0x02] i = true).
Proof. apply (lost_chunk_indexes_exact [0xFF; 0x05; 0x02] 19 1456); cbn; lia. Defined.

(** Recording a chunk never leaves the bitmap when its index is in range, sets
    the bit of that chunk, and leaves every other chunk as it was. *)
Theorem chunk_received_marks_one (chunks_received : list Z) (index : Z)
  (Hindex : 0 <= index) (Hrange : index / 8 < Z.of_nat (length chunks_received))
  (Hbytes : is_bytes chunks_received) :
  exists chunks_received', chunk_received chunks_received index = Ok chunks_received'
    /\ length chunks_received' = length chunks_received
    /\ forall j, 0 <= j -> j / 8 < Z.of_nat (length chunks_received) ->
         exists old, chunk_already_received chunks_received j = Ok old
           /\ chunk_already_received chunks_received' j = Ok (bool_decide (j = index) || old).
Proof.
  destruct (chunk_received_spec chunks_received index) as (cr' & E & L & Hb & B); [done..|].
  exists cr'. split; [done|]. split; [done|]. intros j Hj Hr.
  exists (chunk_bit chunks_received j). rewrite !chunk_already_received_spec by (done || by rewrite L).
  rewrite B by done. by case_bool_decide.
Qed.

Lemma chunk_received_marks_one_witness :
  exists cr', chunk_received [0; 0x10] 9 = Ok cr' /\ length cr' = 2%nat
    /\ forall j, 0 <= j -> j / 8 < 2 ->
         exists old, chunk_already_received [0; 0x10] j = Ok old
           /\ chunk_already_received cr' j = Ok (bool_decide (j = 9) || old).
Proof. apply (chunk_received_marks_one [0; 0x10] 9); [lia | done |].
  unfold is_bytes, is_byte. repeat constructor; lia. Defined.
