(* ===== verification/Allocator.v ===== *)
(** * The pool allocator (src/src/internal/datatype_allocator.c)

    Fixed-size items are handed out from up to 64 stacks.  A stack owns one block
    of [chunk_item_amount] items and an array of pointers to free items; a 64-bit
    bitmap [occupied] has one lock bit per stack.  The operations below are the
    code of one thread that is not preempted (every compare-and-swap compares
    with the value just read).  [internal_testing] selects the code under
    [SWIFT_NET_INTERNAL_TESTING]: the per-item status bits, the double-free check
    and the leak counters. *)

From S2P Require Import Prelude.

(** ** Memory blocks

    A pointer is a block obtained from [malloc] and an offset in it; [malloc] may
    fail, which the oracle [malloc_succeeds] decides for each call. *)
Abbreviation ptr := (positive * Z)%type.

Record System := mk_system {
  next_block : positive;
  malloc_succeeds : positive -> bool
}.

Definition malloc (sys : System) : option positive * System :=
  (if malloc_succeeds sys (next_block sys) then Some (next_block sys) else None,
   mk_system (Pos.succ (next_block sys)) (malloc_succeeds sys)).

(** ** State *)
Record SwiftNetMemoryAllocatorStack := mk_stack {
  stack_pointers : list ptr;
  stack_data : positive;
  ptr_status : list Z;
  stack_size : Z;
  stack_index : Z
}.

Record SwiftNetMemoryAllocator := mk_allocator {
  occupied : Z;
  stacks : list (option SwiftNetMemoryAllocatorStack);
  stacks_allocated : Z;
  item_size : Z;
  chunk_item_amount : Z;
  creating_stack : Z
}.

Definition STACK_CREATING_LOCKED : Z := 0.
Definition STACK_CREATING_UNLOCKED : Z := 1.
Definition UINT64_MAX : Z := 2 ^ 64 - 1.
Definition UINT32_MAX : Z := 2 ^ 32 - 1.

Definition set_occupied (o : Z) (a : SwiftNetMemoryAllocator) : SwiftNetMemoryAllocator :=
  mk_allocator o (stacks a) (stacks_allocated a) (item_size a) (chunk_item_amount a) (creating_stack a).
Definition set_stack (i : nat) (s : SwiftNetMemoryAllocatorStack) (a : SwiftNetMemoryAllocator)
    : SwiftNetMemoryAllocator :=
  mk_allocator (occupied a) (<[i := Some s]> (stacks a)) (stacks_allocated a) (item_size a)
    (chunk_item_amount a) (creating_stack a).

(** [stacks[i]], dereferenced. *)
Definition get_stack (a : SwiftNetMemoryAllocator) (i : nat) : Outcome SwiftNetMemoryAllocatorStack :=
  of_option (mjoin (stacks a !! i)).

(** [__builtin_ctzll] of a non-zero 64-bit word. *)
Fixpoint ctz_from (n : nat) (i x : Z) : Z :=
  match n with
  | O => i
  | S n' => if Z.testbit x i then i else ctz_from n' (i + 1) x
  end.
Definition __builtin_ctzll (x : Z) : Z := ctz_from 64 0 x.

(** ** Operations *)
Section operations.
Context (internal_testing : bool).

(** [occupied &= ~(1u << index)]: the mask is computed in 32 bits and converted to
    64; a shift by 32 or more is undefined. *)
Definition free_stack_lock (stack : SwiftNetMemoryAllocatorStack) (allocator : SwiftNetMemoryAllocator)
    : Outcome SwiftNetMemoryAllocator :=
  if stack_index stack <? 32 then
    Ok (set_occupied (Z.land (occupied allocator) (Z.lxor (Z.shiftl 1 (stack_index stack)) UINT32_MAX)) allocator)
  else Fault.

(** Is [memory_location] inside the items of [stack], and which item is it? *)
Definition item_of (a : SwiftNetMemoryAllocator) (stack : SwiftNetMemoryAllocatorStack) (p : ptr) : option Z :=
  if bool_decide (p.1 = stack_data stack) && (0 <=? p.2) && (p.2 <? u32 (item_size a * chunk_item_amount a))
  then Some (p.2 / item_size a) else None.

Fixpoint set_memory_status_loop (n : nat) (i : nat) (p : ptr) (status : bool)
    (a : SwiftNetMemoryAllocator) : Outcome SwiftNetMemoryAllocator :=
  match n with
  | O => Ok a
  | S n' =>
      stack ← get_stack a i;
      match item_of a stack p with
      | Some ix =>
          let byte := Z.to_nat (ix / 8) in
          let bit := ix mod 8 in
          b ← of_option (ptr_status stack !! byte);
          let b' := if status then Z.lor b (Z.shiftl 1 bit)
                    else Z.land b (Z.lxor (Z.shiftl 1 bit) UINT32_MAX) in
          Ok (set_stack i (mk_stack (stack_pointers stack) (stack_data stack) (<[byte := u8 b']> (ptr_status stack))
                (stack_size stack) (stack_index stack)) a)
      | None => set_memory_status_loop n' (S i) p status a
      end
  end.

Definition set_memory_status (a : SwiftNetMemoryAllocator) (p : ptr) (status : bool) :=
  set_memory_status_loop (Z.to_nat (stacks_allocated a)) 0 p status a.

Fixpoint is_already_free_loop (n : nat) (i : nat) (p : ptr) (a : SwiftNetMemoryAllocator) : Outcome bool :=
  match n with
  | O => Ok false
  | S n' =>
      stack ← get_stack a i;
      match item_of a stack p with
      | Some ix =>
          b ← of_option (ptr_status stack !! Z.to_nat (ix / 8));
          Ok (Z.land b (Z.shiftl 1 (ix mod 8)) =? 0)
      | None => is_already_free_loop n' (S i) p a
      end
  end.

Definition is_already_free (a : SwiftNetMemoryAllocator) (p : ptr) : Outcome bool :=
  is_already_free_loop (Z.to_nat (stacks_allocated a)) 0 p a.

(** [valid_size]: [type] is 1 to allocate and 0 to free. *)
Definition valid_size (type : Z) (a : SwiftNetMemoryAllocator) (stack : SwiftNetMemoryAllocatorStack) : bool :=
  if type =? 0 then stack_size stack <? chunk_item_amount a
  else (stack_size stack <=? chunk_item_amount a) && (0 <? stack_size stack).

(** The loop of [find_free_pointer_stack]; [bitmap] is the expected value of the
    compare-and-swap, [invalid_bitmap] the stacks found unusable. *)
Fixpoint find_free_stack (fuel : nat) (type stacks_allocated bitmap invalid_bitmap : Z)
    (a : SwiftNetMemoryAllocator) : Outcome (option nat * SwiftNetMemoryAllocator) :=
  match fuel with
  | O => Diverge
  | S fuel' =>
      if Z.lor bitmap invalid_bitmap =? UINT64_MAX then Ok (None, a)
      else
        let first_free := __builtin_ctzll (Z.lxor (Z.lor bitmap invalid_bitmap) UINT64_MAX) in
        if stacks_allocated <=? first_free then Ok (None, a)
        else
          let new_bitmap := Z.lor bitmap (Z.shiftl 1 first_free) in
          if occupied a =? bitmap then
            let a := set_occupied new_bitmap a in
            stack ← get_stack a (Z.to_nat first_free);
            if valid_size type a stack then Ok (Some (Z.to_nat first_free), a)
            else
              a ← free_stack_lock stack a;
              find_free_stack fuel' type stacks_allocated bitmap
                (Z.lor invalid_bitmap (Z.shiftl 1 first_free)) a
          else find_free_stack fuel' type stacks_allocated (occupied a) invalid_bitmap a
  end.

(** Every round marks one of 64 stacks invalid or reloads the bitmap. *)
Definition find_free_pointer_stack (a : SwiftNetMemoryAllocator) (type : Z)
    : Outcome (option nat * SwiftNetMemoryAllocator) :=
  find_free_stack 130 type (stacks_allocated a) (occupied a) 0x00 a.

(** [calloc(sizeof(uint8_t), n)] of the status bits, whose result is not checked:
    after a failure every access to [ptr_status] is out of range. *)
Definition calloc_status (sys : System) (chunk_item_amount : Z) : list Z * System :=
  if internal_testing then
    let '(r, sys) := malloc sys in
    (match r with Some _ => repeat 0 (Z.to_nat (chunk_item_amount / 8 + 1)) | None => [] end, sys)
  else ([], sys).

(** A fresh stack over block [d]: all items free. *)
Definition new_stack (item_size chunk_item_amount : Z) (d : positive) (ix : Z) (status : list Z)
    : SwiftNetMemoryAllocatorStack :=
  mk_stack (map (fun i => (d, u32 (i * item_size))) (seqZ 0 chunk_item_amount)) d status
    chunk_item_amount ix.

Definition allocator_create (sys : System) (item_size chunk_item_amount : Z)
    : Outcome (SwiftNetMemoryAllocator * System) :=
  let '(allocated_memory, sys) := malloc sys in
  let '(pointers_memory, sys) := malloc sys in
  match allocated_memory, pointers_memory with
  | Some d, Some _ =>
      let '(first_stack, sys) := malloc sys in
      match first_stack with
      | Some _ =>
          let '(status, sys) := calloc_status sys chunk_item_amount in
          Ok (mk_allocator 0x00
                (<[0%nat := Some (new_stack item_size chunk_item_amount d 0 status)]> (repeat None 64))
                1 item_size chunk_item_amount STACK_CREATING_UNLOCKED, sys)
      | None => Exit
      end
  | _, _ => Exit
  end.

Definition create_new_stack (sys : System) (a : SwiftNetMemoryAllocator)
    : Outcome (SwiftNetMemoryAllocator * System) :=
  if creating_stack a =? STACK_CREATING_UNLOCKED then
    let '(allocated_memory, sys) := malloc sys in
    let '(allocated_memory_pointers, sys) := malloc sys in
    match allocated_memory, allocated_memory_pointers with
    | Some d, Some _ =>
        let '(stack, sys) := malloc sys in
        match stack with
        | Some _ =>
            let n := stacks_allocated a in
            let '(status, sys) := calloc_status sys (chunk_item_amount a) in
            if n <? 64 then
              Ok (mk_allocator (occupied a)
                    (<[Z.to_nat n := Some (new_stack (item_size a) (chunk_item_amount a) d n status)]> (stacks a))
                    (u16 (n + 1)) (item_size a) (chunk_item_amount a) STACK_CREATING_UNLOCKED, sys)
            else Fault
        | None => Exit
        end
    | _, _ => Exit
    end
  else Diverge.

(** [allocator_allocate]; at most 64 stacks can be created before the array of
    stacks is exhausted, which bounds the recursion. *)
Fixpoint allocate_rec (fuel : nat) (sys : System) (a : SwiftNetMemoryAllocator)
    : Outcome (ptr * SwiftNetMemoryAllocator * System) :=
  match fuel with
  | O => Diverge
  | S fuel' =>
      '(valid_stack, a) ← find_free_pointer_stack a 1;
      match valid_stack with
      | None =>
          '(a, sys) ← create_new_stack sys a;
          allocate_rec fuel' sys a
      | Some i =>
          stack ← get_stack a i;
          let size := stack_size stack in
          let stack := mk_stack (stack_pointers stack) (stack_data stack) (ptr_status stack)
                         (u32 (size - 1)) (stack_index stack) in
          let a := set_stack i stack a in
          item_ptr ← of_option (stack_pointers stack !! Z.to_nat (size - 1));
          a ← (if internal_testing then set_memory_status a item_ptr true else Ok a);
          stack ← get_stack a i;
          a ← free_stack_lock stack a;
          Ok (item_ptr, a, sys)
      end
  end.

Definition allocator_allocate (sys : System) (a : SwiftNetMemoryAllocator) := allocate_rec 66 sys a.

Fixpoint free_rec (fuel : nat) (sys : System) (a : SwiftNetMemoryAllocator) (memory_location : ptr)
    : Outcome (SwiftNetMemoryAllocator * System) :=
  match fuel with
  | O => Diverge
  | S fuel' =>
      already_free ← (if internal_testing then is_already_free a memory_location else Ok false);
      if already_free : bool then Exit
      else
        '(free_stack, a) ← find_free_pointer_stack a 0;
        match free_stack with
        | None =>
            '(a, sys) ← create_new_stack sys a;
            free_rec fuel' sys a memory_location
        | Some i =>
            stack ← get_stack a i;
            let size := stack_size stack in
            if Z.to_nat size <? length (stack_pointers stack) then
              let stack := mk_stack (<[Z.to_nat size := memory_location]> (stack_pointers stack))
                             (stack_data stack) (ptr_status stack) (u32 (size + 1)) (stack_index stack) in
              let a := set_stack i stack a in
              a ← (if internal_testing then set_memory_status a memory_location false else Ok a);
              stack ← get_stack a i;
              a ← free_stack_lock stack a;
              Ok (a, sys)
            else Fault
        end
  end%nat.

Definition allocator_free (sys : System) (a : SwiftNetMemoryAllocator) (memory_location : ptr) :=
  free_rec 66 sys a memory_location.

(** The leak report of [allocator_destroy]: the items whose status bit is set. *)
Definition leaked_in_stack (total_items : Z) (status : list Z) : Z :=
  let bytes := total_items / 8 + 1 in
  foldl (fun acc byte =>
    let mask := default 0 (status !! Z.to_nat byte) in
    if mask =? 0x00 then acc
    else foldl (fun acc bit =>
           let idx := byte * 8 + bit in
           if total_items <=? idx then acc
           else if negb (Z.land mask (Z.shiftl 1 bit) =? 0) then acc + 1 else acc)
         acc (seqZ 0 8))
    0 (seqZ 0 bytes).

Fixpoint destroy_loop (n i : nat) (disable_internal_check : bool) (a : SwiftNetMemoryAllocator)
    (items_leaked bytes_leaked : Z) : Outcome (Z * Z) :=
  match n with
  | O => Ok (items_leaked, bytes_leaked)
  | S n' =>
      stack ← get_stack a i;
      let k := if internal_testing && negb disable_internal_check
               then leaked_in_stack (chunk_item_amount a) (ptr_status stack) else 0 in
      destroy_loop n' (S i) disable_internal_check a
        (u32 (items_leaked + k)) (u32 (bytes_leaked + k * item_size a))
  end.

(** [allocator_destroy]: the new values of the global leak counters. *)
Definition allocator_destroy (a : SwiftNetMemoryAllocator) (disable_internal_check : bool)
    (items_leaked bytes_leaked : Z) : Outcome (Z * Z) :=
  destroy_loop (Z.to_nat (stacks_allocated a)) 0 disable_internal_check a items_leaked bytes_leaked.
End operations.

(** ** Bit arithmetic of the lock bitmap *)
Lemma ctz_from_spec n i x k :
  0 <= i -> i <= k < i + Z.of_nat n -> Z.testbit x k = true ->
  (forall j, i <= j < k -> Z.testbit x j = false) -> ctz_from n i x = k.
Proof.
  revert i. induction n as [|n IH]; intros i Hi Hk Ht Hf; [lia|]. cbn [ctz_from].
  destruct (decide (i = k)) as [->|]; [by rewrite Ht|].
  rewrite Hf by lia. apply IH; [lia|lia|done|]. intros j Hj. apply Hf. lia.
Qed.

Lemma ctz_not_ones k : 0 <= k < 64 -> __builtin_ctzll (Z.lxor (Z.ones k) UINT64_MAX) = k.
Proof.
  intros Hk. unfold UINT64_MAX. change (2 ^ 64 - 1) with (Z.ones 64).
  apply ctz_from_spec; try lia.
  - rewrite Z.lxor_spec, Z.ones_spec_high, Z.ones_spec_low by lia. done.
  - intros j Hj. rewrite Z.lxor_spec, !Z.ones_spec_low by lia. done.
Qed.

Lemma ones_succ k : 0 <= k -> Z.lor (Z.ones k) (Z.shiftl 1 k) = Z.ones (k + 1).
Proof.
  intros Hk. apply Z.bits_inj'. intros j Hj. rewrite Z.lor_spec, Z.shiftl_1_l.
  destruct (Z.lt_trichotomy j k) as [Hlt|[->|Hgt]].
  - rewrite !Z.ones_spec_low by lia. done.
  - rewrite Z.pow2_bits_true, (Z.ones_spec_low (k + 1)) by lia. apply orb_true_r.
  - rewrite !Z.ones_spec_high, Z.pow2_bits_false by lia. done.
Qed.

Lemma ones_not_max k : 0 <= k < 64 -> (Z.ones k =? UINT64_MAX) = false.
Proof.
  intros Hk. apply Z.eqb_neq. unfold UINT64_MAX. rewrite Z.ones_equiv.
  pose proof (Z.pow_lt_mono_r 2 k 64 ltac:(lia) ltac:(lia) ltac:(lia)). lia.
Qed.

Lemma lock_released k :
  0 <= k < 32 -> Z.land (Z.lor 0 (Z.shiftl 1 k)) (Z.lxor (Z.shiftl 1 k) UINT32_MAX) = 0.
Proof.
  intros Hk. apply Z.bits_inj'. intros j Hj. unfold UINT32_MAX. change (2 ^ 32 - 1) with (Z.ones 32).
  rewrite Z.land_spec, Z.lor_spec, Z.bits_0, Z.lxor_spec, Z.shiftl_1_l. cbn [orb].
  destruct (decide (j = k)) as [->|].
  - rewrite Z.pow2_bits_true, Z.ones_spec_low by lia. done.
  - rewrite Z.pow2_bits_false by lia. done.
Qed.

(** ** The invariant

    [ss] is the list of the allocated stacks and [live] the pointers currently
    handed out.  The free pointers of all stacks and the live pointers are,
    together, every item of every stack exactly once. *)
Definition stack_free (s : SwiftNetMemoryAllocatorStack) : list ptr :=
  take (Z.to_nat (stack_size s)) (stack_pointers s).

Definition stack_items (isz n : Z) (s : SwiftNetMemoryAllocatorStack) : list ptr :=
  map (fun i => (stack_data s, i * isz)) (seqZ 0 n).

Definition all_free (ss : list SwiftNetMemoryAllocatorStack) : list ptr := concat (map stack_free ss).
Definition all_items (isz n : Z) (ss : list SwiftNetMemoryAllocatorStack) : list ptr :=
  concat (map (stack_items isz n) ss).

Record stack_ok (n i : Z) (s : SwiftNetMemoryAllocatorStack) : Prop := {
  so_index : stack_index s = i;
  so_size : 0 <= stack_size s <= n;
  so_pointers : Z.of_nat (length (stack_pointers s)) = n
}.

(** Under internal testing a status bit is set exactly for the live items. *)
Definition status_ok (isz n : Z) (live : list ptr) (s : SwiftNetMemoryAllocatorStack) : Prop :=
  Z.of_nat (length (ptr_status s)) = n / 8 + 1 /\
  forall i, 0 <= i < n -> bitmap_bit (ptr_status s) i = bool_decide ((stack_data s, i * isz) ∈ live).

Record core_ok (sys : System) (a : SwiftNetMemoryAllocator)
    (ss : list SwiftNetMemoryAllocatorStack) (live : list ptr) : Prop := {
  ok_stacks : stacks a = map Some ss ++ repeat None (64 - length ss);
  ok_count : stacks_allocated a = Z.of_nat (length ss);
  ok_bound : (1 <= length ss <= 32)%nat;
  ok_creating : creating_stack a = STACK_CREATING_UNLOCKED;
  ok_item_size : 0 < item_size a;
  ok_chunk : 0 < chunk_item_amount a;
  ok_block : item_size a * chunk_item_amount a < 2 ^ 32;
  ok_stack : forall i s, ss !! i = Some s -> stack_ok (chunk_item_amount a) (Z.of_nat i) s;
  ok_blocks : NoDup (map stack_data ss);
  ok_fresh : forall s, s ∈ ss -> (stack_data s < next_block sys)%positive;
  ok_perm : all_free ss ++ live ≡ₚ all_items (item_size a) (chunk_item_amount a) ss
}.

Definition statuses_ok (internal_testing : bool) (a : SwiftNetMemoryAllocator)
    (ss : list SwiftNetMemoryAllocatorStack) (live : list ptr) : Prop :=
  internal_testing = true ->
  forall s, s ∈ ss -> status_ok (item_size a) (chunk_item_amount a) live s.

(** Between two operations no stack is locked. *)
Definition allocator_ok (internal_testing : bool) (sys : System) (a : SwiftNetMemoryAllocator)
    (ss : list SwiftNetMemoryAllocatorStack) (live : list ptr) : Prop :=
  core_ok sys a ss live /\ occupied a = 0 /\ statuses_ok internal_testing a ss live.

(** The abstraction of the allocator: the set of live pointers. *)
Definition allocator_live (internal_testing : bool) (sys : System) (a : SwiftNetMemoryAllocator)
    (live : list ptr) : Prop :=
  exists ss, allocator_ok internal_testing sys a ss live.

Lemma lookup_stacks {T : Type} (ss : list T) k i :
  mjoin ((map Some ss ++ repeat None k) !! i) = ss !! i.
Proof.
  destruct (decide (i < length ss)%nat) as [Hi|Hi].
  - rewrite lookup_app_l by (by rewrite length_map). rewrite list_lookup_fmap.
    destruct (lookup_lt_is_Some_2 ss i Hi) as [s ->]. done.
  - rewrite lookup_app_r, (lookup_ge_None_2 ss) by (rewrite ?length_map; lia).
    destruct (repeat None k !! _) as [o|] eqn:E; [|done].
    apply list_elem_of_lookup_2, list_elem_of_In, repeat_spec in E. by subst.
Qed.

Lemma NoDup_items isz n (ss : list SwiftNetMemoryAllocatorStack) :
  0 < isz -> NoDup (map stack_data ss) -> NoDup (all_items isz n ss).
Proof.
  intros Hisz. unfold all_items. induction ss as [|s ss IH]; cbn; intros Hnd; [constructor|].
  apply NoDup_cons in Hnd as [Hs Hnd]. apply NoDup_app. split; [|split; [|by apply IH]].
  - apply NoDup_fmap_2; [|apply NoDup_seqZ]. intros i j [= Hij]. nia.
  - intros p Hp Hq. apply list_elem_of_fmap in Hp as (i & -> & _).
    apply list_elem_of_In, in_concat in Hq as (l & Hl & Hq).
    apply in_map_iff in Hl as (s' & <- & Hs').
    apply in_map_iff in Hq as (j & [= Heq _] & _).
    apply Hs. rewrite <- Heq. apply list_elem_of_fmap_2. by apply list_elem_of_In.
Qed.

(** Replacing one stack: only its free pointers change. *)
Lemma all_free_update ss i s s' :
  ss !! i = Some s ->
  exists rest, all_free ss ≡ₚ stack_free s ++ rest /\ all_free (<[i := s']> ss) ≡ₚ stack_free s' ++ rest.
Proof.
  intros Hi. exists (all_free (take i ss) ++ all_free (drop (S i) ss)).
  assert (forall t, all_free (take i ss ++ t :: drop (S i) ss)
            ≡ₚ stack_free t ++ all_free (take i ss) ++ all_free (drop (S i) ss)) as Hp.
  { intros t. unfold all_free. rewrite map_app, concat_app. cbn. solve_Permutation. }
  split.
  - by rewrite <- Hp, take_drop_middle.
  - rewrite <- Hp. rewrite insert_take_drop by (by eapply lookup_lt_Some). done.
Qed.

Lemma all_items_update isz n ss i s s' :
  ss !! i = Some s -> stack_data s' = stack_data s -> all_items isz n (<[i := s']> ss) = all_items isz n ss.
Proof.
  intros Hi Hd. unfold all_items. f_equal. rewrite <- (list_insert_id ss i s Hi) at 2.
  rewrite !list_fmap_insert. f_equal. unfold stack_items. by rewrite Hd.
Qed.

(** ** Searching for a stack *)
Lemma set_occupied_id a : occupied a = 0 -> set_occupied 0 a = a.
Proof. destruct a; cbn. by intros ->. Qed.

Lemma get_stack_lookup a ss k i :
  stacks a = map Some ss ++ repeat None k -> get_stack a i = of_option (ss !! i).
Proof. intros Hs. unfold get_stack. by rewrite Hs, lookup_stacks. Qed.

Lemma free_stack_lock_ok s a i :
  stack_index s = i -> 0 <= i < 32 -> occupied a = Z.lor 0 (Z.shiftl 1 i) ->
  free_stack_lock s a = Ok (set_occupied 0 a).
Proof.
  intros <- Hi Ho. unfold free_stack_lock.
  destruct (stack_index s <? 32) eqn:E; bool_prop; [|lia]. by rewrite Ho, lock_released.
Qed.

Section searching.
Context (type : Z) (ss : list SwiftNetMemoryAllocatorStack).
Hypothesis Hidx : forall i s, ss !! i = Some s -> stack_index s = Z.of_nat i.
Hypothesis Hlen : (length ss <= 32)%nat.

Lemma find_free_stack_spec fuel k a n :
  stacks a = map Some ss ++ repeat None n -> occupied a = 0 ->
  (k <= length ss)%nat -> (length ss - k < fuel)%nat ->
  (forall i s, (i < k)%nat -> ss !! i = Some s -> valid_size type a s = false) ->
  let r := find_free_stack fuel type (Z.of_nat (length ss)) 0 (Z.ones (Z.of_nat k)) a in
  (exists i s, ss !! i = Some s /\ valid_size type a s = true
     /\ r = Ok (Some i, set_occupied (Z.lor 0 (Z.shiftl 1 (Z.of_nat i))) a))
  \/ ((forall i s, ss !! i = Some s -> valid_size type a s = false) /\ r = Ok (None, a)).
Proof.
  intros Hs Ho. revert k. induction fuel as [|fuel IH]; intros k Hk Hf Hinv r; [lia|].
  unfold r. cbn [find_free_stack]. rewrite Z.lor_0_l, ones_not_max, ctz_not_ones by lia.
  destruct (Z.of_nat (length ss) <=? Z.of_nat k) eqn:E; bool_prop.
  { right. split; [|done]. intros i s Hi. apply (Hinv i); [|done].
    apply lookup_lt_Some in Hi. lia. }
  rewrite Ho, Z.eqb_refl, Nat2Z.id.
  rewrite (get_stack_lookup _ ss n) by done.
  destruct (lookup_lt_is_Some_2 ss k) as [s Hsk]; [lia|]. rewrite Hsk. cbn [of_option mbind outcome_bind].
  destruct (valid_size type (set_occupied (Z.lor 0 (Z.shiftl 1 (Z.of_nat k))) a) s) eqn:Ev.
  { left. exists k, s. done. }
  rewrite (free_stack_lock_ok _ _ (Z.of_nat k)) by (first [by apply Hidx | lia | done]).
  cbn [mbind outcome_bind]. rewrite ones_succ by lia.
  change (set_occupied 0 (set_occupied ?x a)) with (set_occupied 0 a).
  rewrite set_occupied_id by done.
  replace (Z.of_nat k + 1) with (Z.of_nat (S k)) by lia.
  apply IH; [lia|lia|]. intros i s' Hi Hsi. destruct (decide (i = k)) as [->|]; [by simplify_eq|].
  apply (Hinv i); [lia|done].
Qed.
End searching.

Lemma find_free_pointer_stack_spec it sys a ss live type :
  allocator_ok it sys a ss live ->
  (exists i s, ss !! i = Some s /\ valid_size type a s = true
     /\ find_free_pointer_stack a type = Ok (Some i, set_occupied (Z.lor 0 (Z.shiftl 1 (Z.of_nat i))) a))
  \/ ((forall i s, ss !! i = Some s -> valid_size type a s = false)
     /\ find_free_pointer_stack a type = Ok (None, a)).
Proof.
  intros ([] & Ho & _). unfold find_free_pointer_stack. rewrite ok_count0, Ho.
  apply (find_free_stack_spec type ss) with (k := 0%nat) (n := (64 - length ss)%nat); try done; try lia.
  intros i s Hi. by apply ok_stack0 in Hi as [].
Qed.

#[global] Opaque find_free_pointer_stack.

(** ** Status bits *)
Lemma item_of_spec a s p :
  0 < item_size a -> 0 < chunk_item_amount a -> item_size a * chunk_item_amount a < 2 ^ 32 ->
  match item_of a s p with
  | Some ix => p.1 = stack_data s /\ 0 <= ix < chunk_item_amount a
  | None => p ∉ stack_items (item_size a) (chunk_item_amount a) s
  end.
Proof.
  intros Hi Hc Hb. unfold item_of. rewrite u32_id by nia.
  destruct (_ && _ && _) eqn:E.
  - bool_prop. apply bool_decide_eq_true in H. split; [done|].
    split; [apply Z.div_pos; lia|]. apply Z.div_lt_upper_bound; lia.
  - intros Hp. apply list_elem_of_fmap in Hp as (j & -> & Hj). apply elem_of_seqZ in Hj. cbn in E.
    rewrite bool_decide_true in E by done. cbn in E.
    destruct (0 <=? j * item_size a) eqn:E1; bool_prop; [|nia].
    cbn in E. bool_prop. nia.
Qed.

Lemma item_of_item a s j :
  0 < item_size a -> 0 <= j < chunk_item_amount a -> item_size a * chunk_item_amount a < 2 ^ 32 ->
  item_of a s (stack_data s, j * item_size a) = Some j.
Proof.
  intros Hi Hj Hb. unfold item_of. rewrite u32_id by nia. cbn.
  rewrite bool_decide_true by done. cbn.
  destruct (0 <=? j * item_size a) eqn:E1; bool_prop; [|nia].
  destruct (j * item_size a <? item_size a * chunk_item_amount a) eqn:E2; bool_prop; [|nia].
  cbn. by rewrite Z.div_mul by lia.
Qed.

Lemma item_of_other a s s' j :
  stack_data s' <> stack_data s -> item_of a s' (stack_data s, j) = None.
Proof. intros Hne. unfold item_of. cbn. rewrite bool_decide_false; [done|congruence]. Qed.

Section status.
Context (a : SwiftNetMemoryAllocator) (ss : list SwiftNetMemoryAllocatorStack) (n k : nat).
Context (s : SwiftNetMemoryAllocatorStack) (j : Z).
Hypothesis Hs : stacks a = map Some ss ++ repeat None n.
Hypothesis Hcount : stacks_allocated a = Z.of_nat (length ss).
Hypothesis Hnd : NoDup (map stack_data ss).
Hypothesis Hk : ss !! k = Some s.
Hypothesis Hi : 0 < item_size a.
Hypothesis Hj : 0 <= j < chunk_item_amount a.
Hypothesis Hb : item_size a * chunk_item_amount a < 2 ^ 32.
Hypothesis Hst : Z.of_nat (length (ptr_status s)) = chunk_item_amount a / 8 + 1.
#[local] Abbreviation p := (stack_data s, j * item_size a).

Lemma other_stack_skipped i s' : (i < k)%nat -> ss !! i = Some s' -> item_of a s' p = None.
Proof.
  intros Hik Hsi. apply item_of_other. intros He.
  assert (i = k); [|lia]. eapply (NoDup_lookup (map stack_data ss)); [done|..]; rewrite list_lookup_fmap.
  - rewrite Hsi. cbn. by rewrite He.
  - by rewrite Hk.
Qed.

Lemma status_byte : exists b, ptr_status s !! Z.to_nat (j / 8) = Some b.
Proof. apply lookup_lt_is_Some_2. dlia. Qed.

Lemma set_memory_status_spec status :
  exists st, set_memory_status a p status
    = Ok (set_stack k (mk_stack (stack_pointers s) (stack_data s) st (stack_size s) (stack_index s)) a)
  /\ length st = length (ptr_status s)
  /\ forall i, 0 <= i -> bitmap_bit st i = if bool_decide (i = j) then status else bitmap_bit (ptr_status s) i.
Proof.
  destruct status_byte as [b Hbyte].
  set (b' := if status then Z.lor b (Z.shiftl 1 (j mod 8))
             else Z.land b (Z.lxor (Z.shiftl 1 (j mod 8)) UINT32_MAX)).
  exists (<[Z.to_nat (j / 8) := u8 b']> (ptr_status s)). split; [|split; [apply length_insert|]].
  - assert (forall m i, (i <= k)%nat -> (k < i + m)%nat ->
      set_memory_status_loop m i p status a = Ok (set_stack k (mk_stack (stack_pointers s) (stack_data s)
        (<[Z.to_nat (j / 8) := u8 b']> (ptr_status s)) (stack_size s) (stack_index s)) a)) as Hloop.
    { induction m as [|m IH]; intros i Hik Hm; [lia|]. cbn [set_memory_status_loop].
      rewrite (get_stack_lookup _ ss n) by done.
      destruct (decide (i = k)) as [->|].
      - rewrite Hk. cbn [of_option mbind outcome_bind]. rewrite item_of_item by done. rewrite Hbyte. done.
      - destruct (lookup_lt_is_Some_2 ss i) as [s' Hs']; [apply lookup_lt_Some in Hk; lia|].
        rewrite Hs'. cbn [of_option mbind outcome_bind]. rewrite (other_stack_skipped i) by (done || lia).
        apply IH; lia. }
    unfold set_memory_status. rewrite Hcount, Nat2Z.id. apply Hloop; [lia|]. by apply lookup_lt_Some in Hk.
  - intros i Hi0. apply (bitmap_bit_update _ _ b); [lia..|done|].
    intros c Hc. unfold b'. destruct status; [apply lor_bit_testbit|apply land_bit_testbit]; dlia.
Qed.

Lemma is_already_free_spec : is_already_free a p = Ok (negb (bitmap_bit (ptr_status s) j)).
Proof.
  destruct status_byte as [b Hbyte].
  assert (forall m i, (i <= k)%nat -> (k < i + m)%nat ->
      is_already_free_loop m i p a = Ok (negb (bitmap_bit (ptr_status s) j))) as Hloop.
  { induction m as [|m IH]; intros i Hik Hm; [lia|]. cbn [is_already_free_loop].
    rewrite (get_stack_lookup _ ss n) by done.
    destruct (decide (i = k)) as [->|].
    - rewrite Hk. cbn [of_option mbind outcome_bind]. rewrite item_of_item by done. rewrite Hbyte.
      cbn [of_option mbind outcome_bind]. unfold bitmap_bit. rewrite Hbyte. cbn [from_option id].
      by rewrite land_bit_test by dlia.
    - destruct (lookup_lt_is_Some_2 ss i) as [s' Hs']; [apply lookup_lt_Some in Hk; lia|].
      rewrite Hs'. cbn [of_option mbind outcome_bind]. rewrite (other_stack_skipped i) by (done || lia).
      apply IH; lia. }
  unfold is_already_free. rewrite Hcount, Nat2Z.id. apply Hloop; [lia|]. by apply lookup_lt_Some in Hk.
Qed.
End status.

(** ** Preservation of the invariant *)
Definition with_size (sz : Z) (ps : list ptr) (s : SwiftNetMemoryAllocatorStack) :=
  mk_stack ps (stack_data s) (ptr_status s) sz (stack_index s).
Definition with_status (st : list Z) (s : SwiftNetMemoryAllocatorStack) :=
  mk_stack (stack_pointers s) (stack_data s) st (stack_size s) (stack_index s).

Section preservation.
Context (sys : System) (a : SwiftNetMemoryAllocator).
Context (ss : list SwiftNetMemoryAllocatorStack) (live : list ptr).
Hypothesis Hok : core_ok sys a ss live.

Lemma core_set_occupied o : core_ok sys (set_occupied o a) ss live.
Proof. destruct Hok. by constructor. Qed.

(** Replacing a stack by one over the same block. *)
Lemma core_replace k s s' live' :
  ss !! k = Some s -> stack_data s' = stack_data s ->
  stack_ok (chunk_item_amount a) (Z.of_nat k) s' ->
  all_free (<[k := s']> ss) ++ live' ≡ₚ all_free ss ++ live ->
  core_ok sys (set_stack k s' a) (<[k := s']> ss) live'.
Proof.
  intros Hk Hd Hs' Hp. destruct Hok. pose proof (lookup_lt_Some _ _ _ Hk) as Hlt.
  assert (map stack_data (<[k := s']> ss) = map stack_data ss) as Hmap.
  { rewrite list_fmap_insert, Hd. apply list_insert_id. rewrite list_lookup_fmap, Hk. done. }
  constructor; cbn; rewrite ?length_insert, ?Hmap; try done.
  - rewrite ok_stacks0, insert_app_l by (by rewrite length_map). by rewrite list_fmap_insert.
  - intros i t Hi. destruct (decide (i = k)) as [->|].
    + rewrite list_lookup_insert_eq in Hi by done. by simplify_eq.
    + rewrite list_lookup_insert_ne in Hi by done. auto.
  - intros t Ht. apply list_elem_of_lookup in Ht as [i Hi]. destruct (decide (i = k)) as [->|].
    + rewrite list_lookup_insert_eq in Hi by done. simplify_eq. rewrite Hd.
      apply ok_fresh0. by eapply list_elem_of_lookup_2.
    + rewrite list_lookup_insert_ne in Hi by done. apply ok_fresh0. by eapply list_elem_of_lookup_2.
  - by rewrite Hp, (all_items_update _ _ _ _ s).
Qed.

(** [pointers[size - 1]] leaves the free pointers and becomes live. *)
Lemma core_pop k s :
  ss !! k = Some s -> 0 < stack_size s ->
  exists p, stack_pointers s !! Z.to_nat (stack_size s - 1) = Some p
    /\ core_ok sys (set_stack k (with_size (stack_size s - 1) (stack_pointers s) s) a)
         (<[k := with_size (stack_size s - 1) (stack_pointers s) s]> ss) (p :: live).
Proof.
  intros Hk Hsz. pose proof (ok_stack _ _ _ _ Hok _ _ Hk) as [Hi Hs Hp].
  destruct (lookup_lt_is_Some_2 (stack_pointers s) (Z.to_nat (stack_size s - 1))) as [p Hlk]; [lia|].
  exists p. split; [done|]. apply core_replace with (s := s); [done|done|by split; cbn; lia|].
  destruct (all_free_update ss k s (with_size (stack_size s - 1) (stack_pointers s) s) Hk)
    as (rest & -> & ->).
  unfold stack_free. cbn. replace (Z.to_nat (stack_size s)) with (S (Z.to_nat (stack_size s - 1))) by lia.
  rewrite (take_S_r _ _ p) by done. solve_Permutation.
Qed.

(** [pointers[size] = p] takes a live pointer back. *)
Lemma core_push k s p live' :
  ss !! k = Some s -> stack_size s < chunk_item_amount a -> live ≡ₚ p :: live' ->
  core_ok sys (set_stack k (with_size (stack_size s + 1) (<[Z.to_nat (stack_size s) := p]> (stack_pointers s)) s) a)
    (<[k := with_size (stack_size s + 1) (<[Z.to_nat (stack_size s) := p]> (stack_pointers s)) s]> ss) live'.
Proof.
  intros Hk Hsz Hlive. pose proof (ok_stack _ _ _ _ Hok _ _ Hk) as [Hi Hs Hp].
  apply core_replace with (s := s); [done|done|split; cbn; rewrite ?length_insert; lia|].
  set (s' := with_size _ _ _). destruct (all_free_update ss k s s' Hk) as (rest & -> & ->).
  unfold stack_free, s'. cbn.
  replace (Z.to_nat (stack_size s + 1)) with (S (Z.to_nat (stack_size s))) by lia.
  rewrite (take_S_r _ _ p) by (apply list_lookup_insert_eq; lia).
  rewrite take_insert_ge by lia. rewrite Hlive. solve_Permutation.
Qed.

Lemma core_status k s st :
  ss !! k = Some s -> core_ok sys (set_stack k (with_status st s) a) (<[k := with_status st s]> ss) live.
Proof.
  intros Hk. pose proof (ok_stack _ _ _ _ Hok _ _ Hk) as [Hi Hs Hp].
  apply core_replace with (s := s); [done|done|by split|].
  destruct (all_free_update ss k s (with_status st s) Hk) as (rest & -> & ->). done.
Qed.

Lemma pool_NoDup : NoDup (all_free ss ++ live).
Proof. destruct Hok. rewrite ok_perm0. by apply NoDup_items. Qed.

Lemma live_item p :
  p ∈ live -> exists k s j, ss !! k = Some s /\ 0 <= j < chunk_item_amount a /\ p = (stack_data s, j * item_size a).
Proof.
  intros Hp. destruct Hok.
  assert (p ∈ all_items (item_size a) (chunk_item_amount a) ss) as Hin
    by (rewrite <- ok_perm0; by apply elem_of_app; right).
  apply list_elem_of_In, in_concat in Hin as (l & Hl & Hin).
  apply in_map_iff in Hl as (s & <- & Hs). apply list_elem_of_In, list_elem_of_lookup in Hs as [k Hk].
  apply in_map_iff in Hin as (j & <- & Hj). apply list_elem_of_In, elem_of_seqZ in Hj.
  exists k, s, j. split; [done|]. split; [lia|done].
Qed.

(** Some stack has a free pointer, or every item is live. *)
Lemma free_pointer_count : Z.of_nat (length (all_free ss)) + Z.of_nat (length live)
  = Z.of_nat (length ss) * chunk_item_amount a.
Proof.
  destruct Hok. apply Permutation_length in ok_perm0. rewrite length_app in ok_perm0.
  assert (forall l, Z.of_nat (length (all_items (item_size a) (chunk_item_amount a) l))
            = Z.of_nat (length l) * chunk_item_amount a) as Hl.
  { induction l as [|t l IH]; [done|]. unfold all_items in *. cbn [map concat length].
    unfold stack_items at 1. rewrite length_app, length_map, length_seqZ. lia. }
  rewrite <- Hl. lia.
Qed.

Lemma all_free_bounds (l : list SwiftNetMemoryAllocatorStack) (lo hi : Z) :
  (forall s, s ∈ l -> lo <= Z.of_nat (length (stack_free s)) <= hi) ->
  Z.of_nat (length l) * lo <= Z.of_nat (length (all_free l)) <= Z.of_nat (length l) * hi.
Proof.
  induction l as [|t l IH]; intros Hl; [done|]. unfold all_free in *. cbn [map concat length].
  rewrite length_app. pose proof (Hl t ltac:(left)).
  pose proof (IH ltac:(intros ? ?; apply Hl; by right)). lia.
Qed.

Lemma length_stack_free k s : ss !! k = Some s -> Z.of_nat (length (stack_free s)) = stack_size s.
Proof.
  intros Hk. pose proof (ok_stack _ _ _ _ Hok _ _ Hk) as [Hi Hs Hp].
  unfold stack_free. rewrite length_take. lia.
Qed.
End preservation.

(** The status bits follow the live pointers when one item changes hands. *)
Lemma statuses_update it a ss k s j st live live' v :
  ss !! k = Some s -> 0 < item_size a -> NoDup (map stack_data ss) ->
  statuses_ok it a ss live ->
  length st = length (ptr_status s) ->
  (forall i, 0 <= i -> bitmap_bit st i = if bool_decide (i = j) then v else bitmap_bit (ptr_status s) i) ->
  (forall q, q <> (stack_data s, j * item_size a) -> (q ∈ live' <-> q ∈ live)) ->
  ((stack_data s, j * item_size a) ∈ live' <-> v = true) ->
  statuses_ok it a (<[k := with_status st s]> ss) live'.
Proof.
  intros Hk Hisz Hnd Hst Hlen Hbits Hother Hp it_true t Ht.
  apply list_elem_of_lookup in Ht as [i Hi]. destruct (decide (i = k)) as [->|Hne].
  - rewrite list_lookup_insert_eq in Hi by (by eapply lookup_lt_Some). injection Hi as <-.
    destruct (Hst it_true s) as [Hl Hb]; [by eapply list_elem_of_lookup_2|].
    split; cbn; [by rewrite Hlen|]. intros i Hi. rewrite Hbits by lia. case_bool_decide as E; [subst i|].
    + destruct v; symmetry; [apply bool_decide_eq_true; tauto|apply bool_decide_eq_false; intros Hin; by apply Hp in Hin].
    + rewrite Hb by done. apply bool_decide_ext. symmetry. apply Hother. intros [= Hij]. nia.
  - rewrite list_lookup_insert_ne in Hi by done.
    destruct (Hst it_true t) as [Hl Hb]; [by eapply list_elem_of_lookup_2|].
    split; [done|]. intros x Hx. rewrite Hb by done. apply bool_decide_ext. symmetry. apply Hother.
    intros [= Hd _]. apply Hne. eapply (NoDup_lookup (map stack_data ss)); [done|..]; rewrite list_lookup_fmap.
    + by rewrite Hi.
    + rewrite Hk. cbn. by rewrite Hd.
Qed.

(** Changing only the free pointers keeps the status bits. *)
Lemma statuses_with_size it a ss k s sz ps live :
  ss !! k = Some s -> statuses_ok it a ss live -> statuses_ok it a (<[k := with_size sz ps s]> ss) live.
Proof.
  intros Hk Hst it_true t Ht. apply list_elem_of_lookup in Ht as [i Hi]. destruct (decide (i = k)) as [->|Hne].
  - rewrite list_lookup_insert_eq in Hi by (by eapply lookup_lt_Some). injection Hi as <-.
    destruct (Hst it_true s) as [Hl Hb]; [by eapply list_elem_of_lookup_2|]. by split.
  - rewrite list_lookup_insert_ne in Hi by done. apply Hst; [done|]. by eapply list_elem_of_lookup_2.
Qed.

(** [set_memory_status] on an item that has just been taken or given back. *)
Lemma set_status_live it sys a ss live p live0 v :
  core_ok sys a ss live -> statuses_ok it a ss live0 -> it = true ->
  p ∈ all_items (item_size a) (chunk_item_amount a) ss ->
  (forall q, q <> p -> (q ∈ live <-> q ∈ live0)) -> (p ∈ live <-> v = true) ->
  exists k s st, ss !! k = Some s /\ set_memory_status a p v = Ok (set_stack k (with_status st s) a)
    /\ core_ok sys (set_stack k (with_status st s) a) (<[k := with_status st s]> ss) live
    /\ statuses_ok it (set_stack k (with_status st s) a) (<[k := with_status st s]> ss) live.
Proof.
  intros Hc Hst Hit Hp Hother Hv.
  apply list_elem_of_In, in_concat in Hp as (l & Hl & Hin).
  apply in_map_iff in Hl as (s & <- & Hs). apply list_elem_of_In, list_elem_of_lookup in Hs as [k Hk].
  apply in_map_iff in Hin as (j & <- & Hj). apply list_elem_of_In, elem_of_seqZ in Hj.
  destruct (Hst Hit s) as [Hl _]; [by eapply list_elem_of_lookup_2|].
  pose proof Hc as [].
  destruct (set_memory_status_spec a ss (64 - length ss) k s j ltac:(done) ltac:(done) ltac:(done)
    ltac:(done) ltac:(done) ltac:(lia) ltac:(done) ltac:(done) v) as (st & Hset & Hlen & Hbits).
  exists k, s, st. split; [done|]. split; [done|]. split; [by apply core_status|].
  change (statuses_ok it a (<[k := with_status st s]> ss) live).
  by apply (statuses_update it a ss k s j st live0 live v).
Qed.

(** ** Creating stacks *)
Definition malloc_never_fails (sys : System) : Prop := forall b, malloc_succeeds sys b = true.

Lemma malloc_ok sys : malloc_never_fails sys ->
  exists sys', malloc sys = (Some (next_block sys), sys') /\ malloc_never_fails sys'
    /\ (next_block sys < next_block sys')%positive.
Proof. intros Hm. unfold malloc. rewrite Hm. eexists. split; [done|]. split; [apply Hm|cbn; lia]. Qed.

Lemma calloc_status_ok it sys n : malloc_never_fails sys -> 0 < n ->
  exists st sys', calloc_status it sys n = (st, sys') /\ malloc_never_fails sys'
    /\ (next_block sys <= next_block sys')%positive
    /\ (it = true -> Z.of_nat (length st) = n / 8 + 1 /\ forall i, bitmap_bit st i = false).
Proof.
  intros Hm Hn. unfold calloc_status. destruct it.
  - destruct (malloc_ok sys Hm) as (sys' & -> & ? & ?). do 2 eexists. split; [done|]. split; [done|].
    split; [lia|]. intros _. rewrite repeat_length. split; [dlia|]. intros i. unfold bitmap_bit.
    destruct (repeat 0 _ !! _) as [b|] eqn:E; cbn; [|apply Z.testbit_0_l].
    apply list_elem_of_lookup_2, list_elem_of_In, repeat_spec in E. subst. apply Z.testbit_0_l.
  - by exists [], sys.
Qed.

Lemma new_stack_free isz n d ix st :
  0 < isz -> 0 < n -> isz * n < 2 ^ 32 ->
  stack_free (new_stack isz n d ix st) = stack_items isz n (new_stack isz n d ix st).
Proof.
  intros Hi Hn Hb. unfold stack_free, stack_items, new_stack. cbn.
  rewrite take_ge by (rewrite length_map, length_seqZ; lia).
  apply map_ext_in. intros j Hj. apply list_elem_of_In, elem_of_seqZ in Hj. rewrite u32_id by nia. done.
Qed.

Lemma new_stack_ok isz n d i st : 0 < n -> stack_ok n i (new_stack isz n d i st).
Proof. intros Hn. split; cbn; [done|lia|]. rewrite length_map, length_seqZ. lia. Qed.

(** The three checked allocations of a new stack. *)
Lemma create_new_stack_ok it sys a ss live :
  allocator_ok it sys a ss live -> malloc_never_fails sys -> (length ss < 32)%nat ->
  exists s a' sys', create_new_stack it sys a = Ok (a', sys') /\ malloc_never_fails sys'
    /\ item_size a' = item_size a /\ chunk_item_amount a' = chunk_item_amount a
    /\ stack_size s = chunk_item_amount a
    /\ allocator_ok it sys' a' (ss ++ [s]) live.
Proof.
  intros (Hc & Ho & Hst) Hm Hlt. pose proof Hc as []. unfold create_new_stack.
  rewrite ok_creating0, Z.eqb_refl.
  destruct (malloc_ok sys Hm) as (s1 & -> & Hm1 & Hn1). destruct (malloc_ok s1 Hm1) as (s2 & -> & Hm2 & Hn2).
  destruct (malloc_ok s2 Hm2) as (s3 & -> & Hm3 & Hn3).
  destruct (calloc_status_ok it s3 (chunk_item_amount a)) as (st & s4 & -> & Hm4 & Hn4 & Hbits); [done..|].
  rewrite ok_count0, Nat2Z.id. destruct (Z.of_nat (length ss) <? 64) eqn:E; bool_prop; [|lia].
  set (s := new_stack _ _ _ _ _). exists s. do 2 eexists. split; [done|]. split; [done|].
  split; [done|]. split; [done|]. split; [done|].
  assert (forall t, t ∈ ss -> stack_data t <> stack_data s) as Hnew.
  { intros t Ht He. apply ok_fresh0 in Ht. rewrite He in Ht. cbn in Ht. lia. }
  split; [|split; [done|]].
  - constructor; cbn; rewrite ?length_app; cbn [length]; try done; try lia.
    + rewrite ok_stacks0, insert_app_r_alt by (rewrite length_map; lia). rewrite length_map.
      replace (64 - length ss)%nat with (S (64 - (length ss + 1))) by lia. rewrite Nat.sub_diag.
      cbn. by rewrite map_app, <- app_assoc.
    + rewrite u16_id by lia. lia.
    + intros i t Hi. apply lookup_app_Some in Hi as [Hi|[Hi Hs]]; [auto|].
      apply list_lookup_singleton_Some in Hs as [Hs <-].
      replace i with (length ss) by lia. by apply new_stack_ok.
    + rewrite map_app. apply NoDup_app. split; [done|]. split; [|apply NoDup_singleton].
      intros d Hd Hd'. apply list_elem_of_fmap in Hd as (t & -> & Ht).
      apply list_elem_of_singleton in Hd'. by apply (Hnew t).
    + intros t Ht. apply elem_of_app in Ht as [Ht|Ht]; [specialize (ok_fresh0 t Ht); lia|].
      apply list_elem_of_singleton in Ht. subst t. cbn. lia.
    + unfold all_free, all_items in *. rewrite !map_app, !concat_app, <- ok_perm0. cbn [map concat].
      assert (stack_free s = stack_items (item_size a) (chunk_item_amount a) s) as ->
        by (by apply new_stack_free). solve_Permutation.
  - intros Hit t Ht. apply elem_of_app in Ht as [Ht|Ht]; [by apply Hst|].
    apply list_elem_of_singleton in Ht. subst t. destruct (Hbits Hit) as [Hl Hb]. split; [done|].
    intros i Hi. cbn [ptr_status s new_stack]. rewrite Hb. symmetry. apply bool_decide_eq_false. intros Hin.
    destruct (live_item _ _ _ _ Hc _ Hin) as (k & t & j & Hk & _ & [= He _]).
    by apply (Hnew t); [eapply list_elem_of_lookup_2|].
Qed.

#[global] Opaque create_new_stack.

(** ** Allocation *)
Lemma pop_size sys a ss live k s :
  core_ok sys a ss live -> ss !! k = Some s -> 0 < stack_size s -> u32 (stack_size s - 1) = stack_size s - 1.
Proof.
  intros [] Hk Hs. pose proof (ok_stack0 _ _ Hk) as []. rewrite u32_id; [done|].
  split; [lia|]. nia.
Qed.

(** The update of the status bits, compiled in or out, with stack [k] locked. *)
Lemma status_step it sys a ss live live0 p v k :
  core_ok sys a ss live -> statuses_ok it a ss live0 ->
  p ∈ all_items (item_size a) (chunk_item_amount a) ss -> (k < length ss)%nat ->
  (forall q, q <> p -> (q ∈ live <-> q ∈ live0)) -> (p ∈ live <-> v = true) ->
  exists t a' ss', (if it then set_memory_status a p v else Ok a) = Ok a'
    /\ core_ok sys a' ss' live /\ statuses_ok it a' ss' live /\ occupied a' = occupied a
    /\ ss' !! k = Some t /\ item_size a' = item_size a /\ chunk_item_amount a' = chunk_item_amount a
    /\ length ss' = length ss.
Proof.
  intros Hc Hst Hp Hk Hother Hv. destruct it.
  - destruct (set_status_live true sys a ss live p live0 v Hc Hst eq_refl Hp Hother Hv)
      as (i & s & st & Hi & -> & Hc' & Hst').
    destruct (lookup_lt_is_Some_2 (<[i := with_status st s]> ss) k) as [t Ht]; [by rewrite length_insert|].
    exists t. do 2 eexists. split; [done|]. split; [exact Hc'|]. split; [exact Hst'|].
    rewrite length_insert. done.
  - destruct (lookup_lt_is_Some_2 ss k Hk) as [t Ht]. exists t, a, ss.
    split; [done|]. split; [exact Hc|]. split; [intros [=]|]. done.
Qed.

(** Releasing the lock of stack [k] restores the invariant. *)
Lemma unlock_ok it sys a ss live k t :
  core_ok sys a ss live -> statuses_ok it a ss live -> occupied a = Z.lor 0 (Z.shiftl 1 (Z.of_nat k)) ->
  ss !! k = Some t ->
  get_stack a k = Ok t /\ free_stack_lock t a = Ok (set_occupied 0 a)
    /\ allocator_ok it sys (set_occupied 0 a) ss live.
Proof.
  intros Hc Hst Ho Hk. split; [|split].
  - rewrite (get_stack_lookup _ ss (64 - length ss)) by apply (ok_stacks _ _ _ _ Hc). by rewrite Hk.
  - pose proof (lookup_lt_Some _ _ _ Hk). pose proof (ok_bound _ _ _ _ Hc).
    apply (free_stack_lock_ok _ _ (Z.of_nat k)); [by apply (ok_stack _ _ _ _ Hc)|lia|done].
  - split; [by apply core_set_occupied|done].
Qed.

(** One round of [allocator_allocate] that finds the stack [k]. *)
Lemma allocate_round it sys a ss live fuel k s :
  allocator_ok it sys a ss live -> ss !! k = Some s -> 0 < stack_size s ->
  find_free_pointer_stack a 1 = Ok (Some k, set_occupied (Z.lor 0 (Z.shiftl 1 (Z.of_nat k))) a) ->
  exists p a' ss', allocate_rec it (S fuel) sys a = Ok (p, a', sys)
    /\ item_size a' = item_size a /\ chunk_item_amount a' = chunk_item_amount a
    /\ length ss' = length ss /\ allocator_ok it sys a' ss' (p :: live).
Proof.
  intros (Hc & Ho & Hst) Hk Hsz Hfind. cbn [allocate_rec]. rewrite Hfind. cbn [mbind outcome_bind].
  set (a1 := set_occupied _ a). pose proof (core_set_occupied _ _ _ _ Hc (Z.lor 0 (Z.shiftl 1 (Z.of_nat k)))) as Hc1.
  fold a1 in Hc1. rewrite (get_stack_lookup _ ss (64 - length ss)) by apply (ok_stacks _ _ _ _ Hc1).
  rewrite Hk. cbn [of_option mbind outcome_bind].
  rewrite (pop_size _ _ _ _ _ _ Hc Hk Hsz).
  destruct (core_pop _ _ _ _ Hc1 k s Hk Hsz) as (p & Hp & Hc2).
  cbn [stack_pointers]. rewrite Hp. cbn [of_option mbind outcome_bind].
  fold (with_size (stack_size s - 1) (stack_pointers s) s). set (s' := with_size _ _ _) in *.
  pose proof (pool_NoDup _ _ _ _ Hc2) as Hnd. rewrite NoDup_app in Hnd.
  destruct Hnd as (_ & _ & Hnd). apply NoDup_cons in Hnd as [Hnew _].
  destruct (status_step it sys (set_stack k s' a1) (<[k := s']> ss) (p :: live) live p true k)
    as (t & a3 & ss3 & -> & Hc3 & Hst3 & Ho3 & Hk3 & Hi3 & Hn3 & Hl3).
  { exact Hc2. }
  { by apply statuses_with_size. }
  { rewrite <- (ok_perm _ _ _ _ Hc2). apply elem_of_app. right. left. }
  { rewrite length_insert. by eapply lookup_lt_Some. }
  { intros q Hq. rewrite elem_of_cons. split; [by intros [->|]|by right]. }
  { split; [done|]. left. }
  destruct (unlock_ok it sys a3 ss3 (p :: live) k t Hc3 Hst3 Ho3 Hk3) as (Hg & Hf & Hok).
  cbn [mbind outcome_bind]. rewrite Hg. cbn [mbind outcome_bind]. rewrite Hf.
  exists p, (set_occupied 0 a3), ss3. rewrite length_insert in Hl3. split_and!; done.
Qed.

Lemma valid_allocate sys a ss live k s :
  core_ok sys a ss live -> ss !! k = Some s -> valid_size 1 a s = bool_decide (0 < stack_size s).
Proof.
  intros [] Hk. pose proof (ok_stack0 _ _ Hk) as []. unfold valid_size. change (1 =? 0) with false. cbv iota.
  rewrite (proj2 (Z.leb_le _ _)) by lia. rewrite andb_true_l. destruct (Z.ltb_spec 0 (stack_size s)); case_bool_decide; lia.
Qed.

Lemma valid_free sys a ss live k s :
  core_ok sys a ss live -> ss !! k = Some s ->
  valid_size 0 a s = bool_decide (stack_size s < chunk_item_amount a).
Proof.
  intros [] Hk. unfold valid_size. change (0 =? 0) with true. cbv iota. destruct (Z.ltb_spec (stack_size s) (chunk_item_amount a)); case_bool_decide; lia.
Qed.

(** No stack has a free pointer exactly when every item is live. *)
Lemma nothing_free sys a ss live :
  core_ok sys a ss live -> (forall k s, ss !! k = Some s -> stack_size s = 0) ->
  Z.of_nat (length live) = Z.of_nat (length ss) * chunk_item_amount a.
Proof.
  intros Hc Hz. rewrite <- (free_pointer_count _ _ _ _ Hc).
  assert (Z.of_nat (length ss) * 0 <= Z.of_nat (length (all_free ss)) <= Z.of_nat (length ss) * 0); [|lia].
  apply all_free_bounds. intros s Hs. apply list_elem_of_lookup in Hs as [k Hk].
  rewrite (length_stack_free _ _ _ _ Hc k) by done. by rewrite (Hz k).
Qed.

(** A stack with room exists whenever some item is live. *)
Lemma everything_free sys a ss live :
  core_ok sys a ss live -> (forall k s, ss !! k = Some s -> stack_size s = chunk_item_amount a) -> live = [].
Proof.
  intros Hc Hz. pose proof (free_pointer_count _ _ _ _ Hc) as Hcount.
  assert (Z.of_nat (length ss) * chunk_item_amount a <= Z.of_nat (length (all_free ss))
    <= Z.of_nat (length ss) * chunk_item_amount a) as Hl.
  { apply all_free_bounds. intros s Hs. apply list_elem_of_lookup in Hs as [k Hk].
    rewrite (length_stack_free _ _ _ _ Hc k) by done. by rewrite (Hz k). }
  apply nil_length_inv. lia.
Qed.

Lemma allocate_rec_spec it sys a ss live fuel :
  allocator_ok it sys a ss live -> malloc_never_fails sys ->
  Z.of_nat (length live) < 32 * chunk_item_amount a ->
  exists p a' sys' ss', allocate_rec it (S (S fuel)) sys a = Ok (p, a', sys')
    /\ item_size a' = item_size a /\ chunk_item_amount a' = chunk_item_amount a
    /\ malloc_never_fails sys'
    /\ allocator_ok it sys' a' ss' (p :: live)
    /\ (length ss' = length ss /\ sys' = sys \/
        length ss' = S (length ss) /\ Z.of_nat (length live) = Z.of_nat (length ss) * chunk_item_amount a).
Proof.
  intros Hok Hm Hlive. pose proof Hok as (Hc & _ & _).
  destruct (find_free_pointer_stack_spec _ _ _ _ _ 1 Hok) as [(k & s & Hk & Hv & Hf)|[Hv Hf]].
  - rewrite (valid_allocate _ _ _ _ _ _ Hc Hk) in Hv. apply bool_decide_eq_true in Hv.
    destruct (allocate_round _ _ _ _ _ (S fuel) _ _ Hok Hk Hv Hf) as (p & a' & ss' & Ha & Hi & Hn & Hl & Hok').
    exists p, a', sys, ss'. split_and!; try done. by left.
  - assert (Z.of_nat (length live) = Z.of_nat (length ss) * chunk_item_amount a) as Hfull.
    { apply (nothing_free _ _ _ _ Hc). intros k s Hk. pose proof (Hv k s Hk) as Hz.
      rewrite (valid_allocate _ _ _ _ _ _ Hc Hk) in Hz. apply bool_decide_eq_false in Hz.
      pose proof (ok_stack _ _ _ _ Hc _ _ Hk) as []. lia. }
    remember (S fuel) as f eqn:Hfuel. cbn [allocate_rec]. rewrite Hf. cbn [mbind outcome_bind].
    destruct (create_new_stack_ok _ _ _ _ _ Hok Hm) as (s & a1 & sys1 & -> & Hm1 & Hi1 & Hn1 & Hs & Hok1).
    { pose proof (ok_chunk _ _ _ _ Hc). nia. }
    cbn [mbind outcome_bind]. pose proof Hok1 as (Hc1 & _ & _).
    assert ((ss ++ [s]) !! length ss = Some s) as Hlast by (rewrite lookup_app_r, Nat.sub_diag by lia; done).
    pose proof (ok_chunk _ _ _ _ Hc).
    destruct (find_free_pointer_stack_spec _ _ _ _ _ 1 Hok1) as [(k & t & Hk & Hv' & Hf')|[Hv' _]].
    + rewrite (valid_allocate _ _ _ _ _ _ Hc1 Hk) in Hv'. apply bool_decide_eq_true in Hv'.
      destruct (allocate_round _ _ _ _ _ fuel _ _ Hok1 Hk Hv' Hf') as (p & a' & ss' & Ha & Hi & Hn & Hl & Hok').
      subst f. exists p, a', sys1, ss'. rewrite length_app in Hl. cbn in Hl.
      split_and!; [exact Ha|congruence|congruence|exact Hm1|exact Hok'|right]. split; [lia|done].
    + specialize (Hv' _ _ Hlast). rewrite (valid_allocate _ _ _ _ _ _ Hc1 Hlast) in Hv'.
      apply bool_decide_eq_false in Hv'. lia.
Qed.

(** ** Freeing *)
Lemma already_free_spec it sys a ss live p :
  allocator_ok it sys a ss live -> p ∈ all_items (item_size a) (chunk_item_amount a) ss -> it = true ->
  is_already_free a p = Ok (bool_decide (p ∉ live)).
Proof.
  intros (Hc & _ & Hst) Hp Hit.
  apply list_elem_of_In, in_concat in Hp as (l & Hl & Hin).
  apply in_map_iff in Hl as (s & <- & Hs). apply list_elem_of_In, list_elem_of_lookup in Hs as [k Hk].
  apply in_map_iff in Hin as (j & <- & Hj). apply list_elem_of_In, elem_of_seqZ in Hj.
  destruct (Hst Hit s) as [Hl Hb]; [by eapply list_elem_of_lookup_2|]. pose proof Hc as [].
  rewrite (is_already_free_spec a ss (64 - length ss) k s j) by (done || lia).
  rewrite Hb by lia. f_equal. by rewrite bool_decide_not.
Qed.

Lemma free_rec_spec it sys a ss live p live' fuel :
  allocator_ok it sys a ss live -> live ≡ₚ p :: live' ->
  exists a' ss', free_rec it (S fuel) sys a p = Ok (a', sys)
    /\ item_size a' = item_size a /\ chunk_item_amount a' = chunk_item_amount a
    /\ length ss' = length ss /\ allocator_ok it sys a' ss' live'.
Proof.
  intros Hok Hlive. pose proof Hok as (Hc & Ho & Hst).
  assert (p ∈ live) as Hin by (rewrite Hlive; left).
  assert (p ∈ all_items (item_size a) (chunk_item_amount a) ss) as Hitem
    by (rewrite <- (ok_perm _ _ _ _ Hc); apply elem_of_app; by right).
  assert (p ∉ live') as Hgone.
  { pose proof (pool_NoDup _ _ _ _ Hc) as Hnd. rewrite Hlive, NoDup_app in Hnd.
    destruct Hnd as (_ & _ & Hnd). by apply NoDup_cons in Hnd as []. }
  cbn [free_rec].
  replace (if it then is_already_free a p else Ok false) with (Ok false); cycle 1.
  { destruct it; [|done]. rewrite (already_free_spec _ _ _ _ _ _ Hok Hitem eq_refl).
    by rewrite bool_decide_false by (intros ?; done). }
  rewrite bind_Ok.
  destruct (find_free_pointer_stack_spec _ _ _ _ _ 0 Hok) as [(k & s & Hk & Hv & ->)|[Hv _]]; cycle 1.
  { exfalso. assert (live = []); [|by subst; apply not_elem_of_nil in Hin].
    apply (everything_free _ _ _ _ Hc). intros k s Hk. specialize (Hv k s Hk).
    rewrite (valid_free _ _ _ _ _ _ Hc Hk) in Hv. apply bool_decide_eq_false in Hv.
    pose proof (ok_stack _ _ _ _ Hc _ _ Hk) as []. lia. }
  rewrite (valid_free _ _ _ _ _ _ Hc Hk) in Hv. apply bool_decide_eq_true in Hv.
  set (a1 := set_occupied _ a). rewrite bind_Ok.
  pose proof (core_set_occupied _ _ _ _ Hc (Z.lor 0 (Z.shiftl 1 (Z.of_nat k)))) as Hc1. fold a1 in Hc1.
  rewrite (get_stack_lookup _ ss (64 - length ss)) by apply (ok_stacks _ _ _ _ Hc1).
  rewrite Hk. cbn [of_option mbind outcome_bind].
  pose proof (ok_stack _ _ _ _ Hc _ _ Hk) as [Hix Hsz Hps].
  rewrite (proj2 (Nat.ltb_lt _ _)) by lia.
  rewrite u32_id by (pose proof (ok_block _ _ _ _ Hc); pose proof (ok_item_size _ _ _ _ Hc); nia).
  pose proof (core_push _ _ _ _ Hc1 k s p live' Hk Hv Hlive) as Hc2.
  fold (with_size (stack_size s + 1) (<[Z.to_nat (stack_size s) := p]> (stack_pointers s)) s).
  set (s' := with_size _ _ _) in *.
  destruct (status_step it sys (set_stack k s' a1) (<[k := s']> ss) live' live p false k)
    as (t & a3 & ss3 & -> & Hc3 & Hst3 & Ho3 & Hk3 & Hi3 & Hn3 & Hl3).
  { exact Hc2. }
  { by apply statuses_with_size. }
  { by rewrite (all_items_update _ _ _ _ s). }
  { rewrite length_insert. by eapply lookup_lt_Some. }
  { intros q Hq. rewrite Hlive, elem_of_cons. split; [by right|by intros [->|]]. }
  { by split. }
  destruct (unlock_ok it sys a3 ss3 live' k t Hc3 Hst3 Ho3 Hk3) as (Hg & Hf & Hok').
  cbn [mbind outcome_bind]. rewrite Hg. cbn [mbind outcome_bind]. rewrite Hf.
  exists (set_occupied 0 a3), ss3. rewrite length_insert in Hl3. split_and!; done.
Qed.

(** ** Creating and destroying *)
Lemma create_spec it sys isz n :
  0 < isz -> 0 < n -> isz * n < 2 ^ 32 -> malloc_never_fails sys ->
  exists a sys' s, allocator_create it sys isz n = Ok (a, sys') /\ malloc_never_fails sys'
    /\ item_size a = isz /\ chunk_item_amount a = n /\ allocator_ok it sys' a [s] [].
Proof.
  intros Hisz Hn Hb Hm. unfold allocator_create.
  destruct (malloc_ok sys Hm) as (s1 & -> & Hm1 & Hn1). destruct (malloc_ok s1 Hm1) as (s2 & -> & Hm2 & Hn2).
  destruct (malloc_ok s2 Hm2) as (s3 & -> & Hm3 & Hn3).
  destruct (calloc_status_ok it s3 n) as (st & s4 & -> & Hm4 & Hn4 & Hbits); [done..|].
  set (s := new_stack _ _ _ _ _). do 2 eexists. exists s. split; [done|]. do 3 (split; [done|]).
  split; [|split; [done|]].
  - constructor; cbn [length stacks stacks_allocated creating_stack item_size chunk_item_amount]; try done; try lia.
    + intros i t Hi. apply list_lookup_singleton_Some in Hi as [-> <-]. by apply new_stack_ok.
    + apply NoDup_singleton.
    + intros t Ht. apply list_elem_of_singleton in Ht. subst t. cbn. lia.
    + unfold all_free, all_items. cbn [map concat]. rewrite !app_nil_r.
      by assert (stack_free s = stack_items isz n s) as -> by (by apply new_stack_free).
  - intros Hit t Ht. apply list_elem_of_singleton in Ht. subst t. destruct (Hbits Hit) as [Hl Hbit].
    split; [done|]. intros i Hi. cbn [ptr_status s new_stack]. rewrite Hbit. symmetry.
    apply bool_decide_eq_false. apply not_elem_of_nil.
Qed.

(** The leak report of one stack counts the set status bits below [total_items]. *)
Lemma leaked_bits (status : list Z) (total byte acc : Z) (m : nat) :
  0 <= byte -> (m <= 8)%nat ->
  foldl (fun acc bit => if total <=? byte * 8 + bit then acc
      else if negb (Z.land (default 0 (status !! Z.to_nat byte)) (Z.shiftl 1 bit) =? 0) then acc + 1 else acc)
    acc (seqZ 0 (Z.of_nat m))
  = acc + Z.of_nat (length (filter (fun i => i < total /\ bitmap_bit status i = true)
                                   (seqZ (byte * 8) (Z.of_nat m)))).
Proof.
  intros Hb. induction m as [|m IH]; intros Hm.
  { change (seqZ (byte * 8) (Z.of_nat 0)) with (@nil Z). change (seqZ 0 (Z.of_nat 0)) with (@nil Z). cbn. lia. }
  replace (Z.of_nat (S m)) with (Z.of_nat m + 1) by lia.
  rewrite !seqZ_app, foldl_app, filter_app, length_app, IH by lia. change (seqZ (0 + Z.of_nat m) 1) with [Z.of_nat m].
  change (seqZ (byte * 8 + Z.of_nat m) 1) with [byte * 8 + Z.of_nat m].
  cbn [foldl]. rewrite land_bit_test, negb_involutive by lia.
  assert (bitmap_bit status (byte * 8 + Z.of_nat m) = Z.testbit (default 0 (status !! Z.to_nat byte)) (Z.of_nat m)) as Hbit.
  { unfold bitmap_bit. f_equal; [do 2 f_equal; dlia|dlia]. }
  rewrite filter_cons, <- Hbit. destruct (Z.leb_spec total (byte * 8 + Z.of_nat m)) as [Ht|Ht].
  - rewrite decide_False by lia. cbn. lia.
  - destruct (bitmap_bit status (byte * 8 + Z.of_nat m)) eqn:E.
    + rewrite decide_True by done. cbn. lia.
    + rewrite decide_False by (intros [_ ?]; done). cbn. lia.
Qed.

Lemma leaked_bytes (status : list Z) (total : Z) (m : nat) :
  foldl (fun acc byte =>
    let mask := default 0 (status !! Z.to_nat byte) in
    if mask =? 0x00 then acc
    else foldl (fun acc bit =>
           let idx := byte * 8 + bit in
           if total <=? idx then acc
           else if negb (Z.land mask (Z.shiftl 1 bit) =? 0) then acc + 1 else acc)
         acc (seqZ 0 8)) 0 (seqZ 0 (Z.of_nat m))
  = Z.of_nat (length (filter (fun i => i < total /\ bitmap_bit status i = true) (seqZ 0 (8 * Z.of_nat m)))).
Proof.
  induction m as [|m IH]; [done|].
  replace (Z.of_nat (S m)) with (Z.of_nat m + 1) by lia. rewrite Z.mul_add_distr_l.
  rewrite !seqZ_app, foldl_app, IH, filter_app, length_app by lia.
  change (seqZ (0 + Z.of_nat m) 1) with [Z.of_nat m]. cbn [foldl]. cbv zeta.
  pose proof (leaked_bits status total (Z.of_nat m)
    (Z.of_nat (length (filter (fun i => i < total /\ bitmap_bit status i = true) (seqZ 0 (8 * Z.of_nat m)))))
    8 ltac:(lia) ltac:(lia)) as Hbits.
  destruct (Z.eqb_spec (default 0 (status !! Z.to_nat (Z.of_nat m))) 0) as [Hz|Hz]; cycle 1.
  { etransitivity; [exact Hbits|]. rewrite Nat2Z.inj_add, Z.add_0_l, (Z.mul_comm _ 8). done. }
  rewrite (filter_none _ (seqZ (0 + 8 * Z.of_nat m) (8 * 1))); [cbn; lia|]. intros i Hi [_ Hbit]. apply elem_of_seqZ in Hi.
  unfold bitmap_bit in Hbit. replace (Z.to_nat (i / 8)) with (Z.to_nat (Z.of_nat m)) in Hbit by dlia.
  by rewrite Hz, Z.testbit_0_l in Hbit.
Qed.

Lemma leaked_in_stack_spec (n : Z) (status : list Z) :
  0 < n ->
  leaked_in_stack n status = Z.of_nat (length (filter (fun i => bitmap_bit status i = true) (seqZ 0 n))).
Proof.
  intros Hn. unfold leaked_in_stack. replace (n / 8 + 1) with (Z.of_nat (Z.to_nat (n / 8 + 1))) by dlia.
  etransitivity; [apply leaked_bytes|]. set (m := Z.to_nat (n / 8 + 1)).
  assert (n <= 8 * Z.of_nat m) as Hm by (unfold m; dlia).
  replace (8 * Z.of_nat m) with (n + (8 * Z.of_nat m - n)) by lia. rewrite seqZ_app, filter_app by lia.
  rewrite (filter_none _ (seqZ (0 + n) _)), app_nil_r; cycle 1.
  { intros i Hi [Hlt _]. apply elem_of_seqZ in Hi. lia. }
  do 2 f_equal. apply filter_ext_elem. intros i Hi. apply elem_of_seqZ in Hi. split; [tauto|by split; [lia|]].
Qed.

Lemma live_in_stack isz n live s :
  status_ok isz n live s ->
  length (filter (fun i => bitmap_bit (ptr_status s) i = true) (seqZ 0 n))
  = length (filter (fun q => q ∈ live) (stack_items isz n s)).
Proof.
  intros [_ Hb]. unfold stack_items.
  assert (forall l, (forall i, i ∈ l -> 0 <= i < n) ->
    length (filter (fun i => bitmap_bit (ptr_status s) i = true) l)
    = length (filter (fun q => q ∈ live) (map (fun i => (stack_data s, i * isz)) l))) as Hl; cycle 1.
  { apply Hl. intros i Hi. apply elem_of_seqZ in Hi. lia. }
  induction l as [|i l IH]; intros Hr; [done|]. cbn [map]. rewrite !filter_cons.
  rewrite (Hb i) by (apply Hr; left). specialize (IH ltac:(intros ? ?; apply Hr; by right)).
  case_bool_decide as E.
  - rewrite (decide_True _ _ eq_refl), decide_True by done. cbn. by rewrite IH.
  - rewrite !decide_False by done. done.
Qed.

Lemma destroy_loop_spec it sys a ss live m i il bl :
  allocator_ok it sys a ss live -> it = true -> (i + m = length ss)%nat ->
  destroy_loop it m i false a (u32 il) (u32 bl)
  = let k := Z.of_nat (length (filter (fun q => q ∈ live)
                 (all_items (item_size a) (chunk_item_amount a) (drop i ss)))) in
    Ok (u32 (il + k), u32 (bl + k * item_size a)).
Proof.
  intros (Hc & _ & Hst) ->. revert i il bl. induction m as [|m IH]; intros i il bl Hm.
  - rewrite drop_ge by lia. cbn. by rewrite !Z.add_0_r.
  - cbn [destroy_loop]. rewrite (get_stack_lookup _ ss (64 - length ss)) by apply (ok_stacks _ _ _ _ Hc).
    destruct (lookup_lt_is_Some_2 ss i) as [s Hs]; [lia|]. rewrite Hs. cbn [of_option]. rewrite bind_Ok.
    cbn [andb negb]. rewrite leaked_in_stack_spec by apply (ok_chunk _ _ _ _ Hc).
    rewrite (live_in_stack (item_size a) _ live) by (apply Hst; [done|by eapply list_elem_of_lookup_2]).
    rewrite !wrap_add_l, IH by lia.
    rewrite (drop_S _ _ _ Hs). unfold all_items. cbn [map concat]. rewrite filter_app, length_app.
    cbv zeta. do 2 f_equal; f_equal; lia.
Qed.

Lemma live_items_count sys a ss live :
  core_ok sys a ss live ->
  length (filter (fun q => q ∈ live) (all_items (item_size a) (chunk_item_amount a) ss)) = length live.
Proof.
  intros Hc. rewrite <- (ok_perm _ _ _ _ Hc), filter_app.
  pose proof (pool_NoDup _ _ _ _ Hc) as Hnd. apply NoDup_app in Hnd as (_ & Hnd & _).
  rewrite (filter_none _ (all_free ss)) by (intros q Hq Hl; by apply (Hnd q)). cbn.
  by rewrite (filter_all (fun q => q ∈ live) live) by done.
Qed.

(** ** The interface of a pool

    What the other components rely on: a pool hands out pointers that are not in
    use, up to a capacity, and takes back pointers that are. *)
Class Pool (S : Type) := {
  pool_allocate : S -> Outcome (ptr * S);
  pool_free : S -> ptr -> Outcome S;
  pool_live : S -> list ptr -> Prop;
  pool_capacity : S -> Z;
  pool_live_proper s live live' : (live ≡ₚ live') -> pool_live s live -> pool_live s live';
  pool_allocate_ok s live :
    pool_live s live -> Z.of_nat (length live) < pool_capacity s ->
    exists p s', pool_allocate s = Ok (p, s') /\ (p ∉ live) /\ pool_live s' (p :: live)
      /\ pool_capacity s' = pool_capacity s;
  pool_free_ok s live p :
    pool_live s (p :: live) ->
    exists s', pool_free s p = Ok s' /\ pool_live s' live /\ pool_capacity s' = pool_capacity s
}.

Section implements.
Context (it : bool).

Definition AllocatorState : Type := (SwiftNetMemoryAllocator * System)%type.

(** The first 32 stacks are usable. *)
Definition allocator_capacity (s : AllocatorState) : Z := 32 * chunk_item_amount s.1.
Definition allocator_holds (s : AllocatorState) (live : list ptr) : Prop :=
  malloc_never_fails s.2 /\ exists ss, allocator_ok it s.2 s.1 ss live.

Lemma core_ok_perm sys a ss live live' : (live ≡ₚ live') -> core_ok sys a ss live -> core_ok sys a ss live'.
Proof. intros Hp []. constructor; try done. by rewrite <- Hp. Qed.

Lemma allocator_ok_perm sys a ss live live' :
  (live ≡ₚ live') -> allocator_ok it sys a ss live -> allocator_ok it sys a ss live'.
Proof.
  intros Hp (Hc & Ho & Hst). split; [by eapply core_ok_perm|]. split; [done|].
  intros Hit s Hs. destruct (Hst Hit s Hs) as [Hl Hb]. split; [done|].
  intros i Hi. rewrite Hb by done. apply bool_decide_ext. by rewrite Hp.
Qed.

Lemma allocator_holds_perm s live live' : (live ≡ₚ live') -> allocator_holds s live -> allocator_holds s live'.
Proof. intros Hp (Hm & ss & Hok). split; [done|]. exists ss. by eapply allocator_ok_perm. Qed.

Lemma live_fresh sys a ss p live : core_ok sys a ss (p :: live) -> p ∉ live.
Proof.
  intros Hc. pose proof (pool_NoDup _ _ _ _ Hc) as Hnd. apply NoDup_app in Hnd as (_ & _ & Hnd).
  by apply NoDup_cons in Hnd as [].
Qed.

Lemma allocator_allocate_ok s live :
  allocator_holds s live -> Z.of_nat (length live) < allocator_capacity s ->
  exists p s', ('(p, a, sys) ← allocator_allocate it s.2 s.1; Ok (p, (a, sys))) = Ok (p, s')
    /\ (p ∉ live) /\ allocator_holds s' (p :: live) /\ allocator_capacity s' = allocator_capacity s.
Proof.
  intros (Hm & ss & Hok) Hlt. destruct s as [a sys]. cbn [fst snd] in *. unfold allocator_capacity in *.
  destruct (allocate_rec_spec _ _ _ _ _ 64 Hok Hm Hlt) as (p & a' & sys' & ss' & Hall & _ & Hn & Hm' & Hok' & _).
  exists p, (a', sys'). unfold allocator_allocate. rewrite Hall, bind_Ok. split; [done|].
  cbn [fst snd]. rewrite Hn. split; [by apply (live_fresh _ _ _ _ _ (proj1 Hok'))|].
  split; [|done]. split; [done|by exists ss'].
Qed.

Lemma allocator_free_ok s live p :
  allocator_holds s (p :: live) ->
  exists s', allocator_free it s.2 s.1 p = Ok s' /\ allocator_holds s' live
    /\ allocator_capacity s' = allocator_capacity s.
Proof.
  intros (Hm & ss & Hok). destruct s as [a sys]. cbn [fst snd] in *. unfold allocator_capacity, allocator_free.
  destruct (free_rec_spec _ _ _ _ _ _ _ 65 Hok (reflexivity _)) as (a' & ss' & Hf & _ & Hn & _ & Hok').
  exists (a', sys). split; [done|]. cbn [fst snd]. rewrite Hn. split; [|done]. split; [done|by exists ss'].
Qed.

#[export] Instance allocator_pool : Pool AllocatorState := {
  pool_allocate s := '(p, a, sys) ← allocator_allocate it s.2 s.1; Ok (p, (a, sys));
  pool_free s p := allocator_free it s.2 s.1 p;
  pool_live := allocator_holds;
  pool_capacity := allocator_capacity;
  pool_live_proper := allocator_holds_perm;
  pool_allocate_ok := allocator_allocate_ok;
  pool_free_ok := allocator_free_ok
}.
End implements.

(** ** The allocator's contract *)

(** Runs of the allocator: a client allocates, and frees pointers it holds. *)
Inductive pool_op := OpAllocate | OpFree (n : nat).

(** The state of a run: the allocator, the system and the pointers held, newest
    first; [OpFree n] gives back the [n]-th of them (modulo their number). *)
Definition pool_step (it : bool) (st : SwiftNetMemoryAllocator * System * list ptr) (o : pool_op)
    : Outcome (SwiftNetMemoryAllocator * System * list ptr) :=
  let '(a, sys, live) := st in
  match o with
  | OpAllocate => '(p, a, sys) ← allocator_allocate it sys a; Ok (a, sys, p :: live)
  | OpFree n =>
      match live !! (n mod length live)%nat with
      | Some p => '(a, sys) ← allocator_free it sys a p; Ok (a, sys, delete (n mod length live)%nat live)
      | None => Ok (a, sys, live)
      end
  end.

Fixpoint pool_run (it : bool) (st : SwiftNetMemoryAllocator * System * list ptr) (os : list pool_op)
    : Outcome (SwiftNetMemoryAllocator * System * list ptr) :=
  match os with
  | [] => Ok st
  | o :: os => st ← pool_step it st o; pool_run it st os
  end.

(** How many pointers the client holds after each step, and the most it ever holds. *)
Definition held_next (k : nat) (o : pool_op) : nat := match o with OpAllocate => S k | OpFree _ => pred k end.
Definition held (k : nat) (os : list pool_op) : nat := foldl held_next k os.
Fixpoint peak (k : nat) (os : list pool_op) : nat :=
  match os with [] => k | o :: os => k `max` peak (held_next k o) os end.

(** [m] is the most that was held so far: there are exactly the stacks it needs. *)
Definition stacks_needed (n : Z) (m : nat) : Z := Z.max 1 ((Z.of_nat m + n - 1) / n).

Lemma stacks_needed_grow n m k c :
  0 < n -> (k <= m)%nat -> c = stacks_needed n m -> Z.of_nat k <= c * n ->
  stacks_needed n (m `max` S k) = if bool_decide (Z.of_nat k = c * n) then c + 1 else c.
Proof.
  unfold stacks_needed. intros Hn Hk -> Hle.
  pose proof (Z.div_mod (Z.of_nat m + n - 1) n ltac:(lia)). pose proof (Z.mod_pos_bound (Z.of_nat m + n - 1) n ltac:(lia)).
  set (q := (Z.of_nat m + n - 1) / n) in *.
  pose proof (Z.div_mod (Z.of_nat (m `max` S k) + n - 1) n ltac:(lia)).
  pose proof (Z.mod_pos_bound (Z.of_nat (m `max` S k) + n - 1) n ltac:(lia)).
  set (q' := (Z.of_nat (m `max` S k) + n - 1) / n) in *.
  case_bool_decide as E; [|destruct (decide (k = m)) as [->|]; [|unfold q'; by replace (m `max` S k)%nat with m by lia]].
  - assert (k = m) as -> by nia. nia.
  - nia.
Qed.

Section run.
Context (it : bool).

(** A step from a state with [stacks_needed n m] stacks. *)
Lemma pool_step_ok a sys live o ss m :
  allocator_ok it sys a ss live -> malloc_never_fails sys -> (length live <= m)%nat ->
  Z.of_nat (length ss) = stacks_needed (chunk_item_amount a) m ->
  Z.of_nat (held_next (length live) o) <= 32 * chunk_item_amount a ->
  exists a' sys' live' ss', pool_step it (a, sys, live) o = Ok (a', sys', live')
    /\ allocator_ok it sys' a' ss' live' /\ malloc_never_fails sys'
    /\ chunk_item_amount a' = chunk_item_amount a /\ item_size a' = item_size a
    /\ length live' = held_next (length live) o
    /\ Z.of_nat (length ss') = stacks_needed (chunk_item_amount a) (m `max` length live').
Proof.
  intros Hok Hm Hle Hss Hlt. pose proof (free_pointer_count _ _ _ _ (proj1 Hok)) as Hcount.
  pose proof (ok_chunk _ _ _ _ (proj1 Hok)) as Hchunk. destruct o as [|i]; cbn [pool_step held_next] in *.
  - destruct (allocate_rec_spec _ _ _ _ _ 64 Hok Hm ltac:(lia)) as (p & a' & sys' & ss' & Hall & Hi & Hn & Hm' & Hok' & Hgrow).
    unfold allocator_allocate. rewrite Hall, bind_Ok. exists a', sys', (p :: live), ss'. split_and!; try done. cbn [length].
    rewrite (stacks_needed_grow _ m (length live) (Z.of_nat (length ss))) by lia.
    pose proof (free_pointer_count _ _ _ _ (proj1 Hok')) as Hcount'. cbn [length] in Hcount'. rewrite Hn in Hcount'.
    destruct Hgrow as [[E _]|[E Hfull]]; case_bool_decide; lia.
  - destruct (live !! (i mod length live)%nat) as [p|] eqn:E; cycle 1.
    { assert (live = []) as ->.
      { destruct live as [|p l]; [done|]. apply lookup_ge_None in E. pose proof (Nat.mod_upper_bound i (length (p :: l)) ltac:(done)). lia. }
      exists a, sys, [], ss. rewrite Nat.max_l by (cbn; lia). split_and!; done. }
    destruct (free_rec_spec _ _ _ _ _ _ _ 65 Hok (delete_Permutation _ _ _ E)) as (a' & ss' & Hf & Hi & Hn & Hl & Hok').
    unfold allocator_free. rewrite Hf, bind_Ok. do 4 eexists. split; [done|]. split; [done|]. split; [done|]. split; [done|]. split; [done|].
    rewrite length_delete by (by exists p). split; [lia|]. rewrite Hl, Hss. f_equal. lia.
Qed.

Lemma pool_run_ok os : forall a sys live ss m,
  allocator_ok it sys a ss live -> malloc_never_fails sys -> (length live <= m)%nat ->
  Z.of_nat (length ss) = stacks_needed (chunk_item_amount a) m ->
  Z.of_nat (peak (length live) os) <= 32 * chunk_item_amount a ->
  exists a' sys' live' ss', pool_run it (a, sys, live) os = Ok (a', sys', live')
    /\ allocator_ok it sys' a' ss' live' /\ chunk_item_amount a' = chunk_item_amount a
    /\ item_size a' = item_size a /\ length live' = held (length live) os
    /\ Z.of_nat (length ss') = stacks_needed (chunk_item_amount a) (m `max` peak (length live) os).
Proof.
  induction os as [|o os IH]; intros a sys live ss m Hok Hm Hle Hss Hl; cbn [pool_run peak] in *.
  { exists a, sys, live, ss. rewrite Nat.max_l by lia. split_and!; done. }
  assert (held_next (length live) o <= peak (held_next (length live) o) os)%nat by (destruct os; cbn [peak]; lia).
  destruct (pool_step_ok a sys live o ss m Hok Hm Hle Hss ltac:(lia)) as (a' & sys' & live' & ss' & -> & Hok' & Hm' & Hn & Hi & Hlen & Hss').
  rewrite bind_Ok. rewrite <- Hlen in *.
  destruct (IH a' sys' live' ss' (m `max` length live')%nat Hok' Hm') as (a2 & sys2 & live2 & ss2 & Hr & Hok2 & Hn2 & Hi2 & Hl2 & Hss2);
    rewrite ?Hn; try done; try lia.
  exists a2, sys2, live2, ss2. unfold held in *. cbn [foldl]. rewrite <- Hlen. split_and!; [done|done|lia|lia|done|].
  rewrite Hss2, Hn. f_equal. lia.
Qed.
End run.

(** C10 Allocator safety: take any run, however long, of allocations and of frees of held
    pointers from a fresh allocator of [n] items per stack, in which the client never holds
    more than [32 * n] pointers at once, and let malloc succeed.  Then no step faults, exits
    or diverges, and at the end: the client holds as many pointers as it allocated and did
    not give back, pairwise distinct, each the start of an item inside a block of the
    allocator; the free pointers in the stacks and the held ones are together all items of
    all stacks, each exactly once (nothing is lost or doubled by a free); there are only as
    many stacks as the largest number of pointers held at once needs, so freed items are
    used again before memory is asked for; and no stack stays locked.  (With more than 32
    stacks the lock mask is undefined, [allocator_33rd_stack_undefined].) *)
Theorem allocator_run_safe it sys isz n os :
  0 < isz -> 0 < n -> isz * n < 2 ^ 32 -> malloc_never_fails sys -> Z.of_nat (peak 0 os) <= 32 * n ->
  exists a0 sys0 a sys' live ss,
    allocator_create it sys isz n = Ok (a0, sys0)
    /\ pool_run it (a0, sys0, []) os = Ok (a, sys', live)
    /\ length live = held 0 os /\ NoDup live
    /\ (forall p, p ∈ live -> exists s, s ∈ ss /\ p.1 = stack_data s
          /\ 0 <= p.2 /\ p.2 + isz <= isz * n /\ (isz | p.2))
    /\ stacks a = map Some ss ++ repeat None (64 - length ss)
    /\ all_free ss ++ live ≡ₚ all_items isz n ss
    /\ stacks_allocated a = Z.max 1 ((Z.of_nat (peak 0 os) + n - 1) / n)
    /\ stacks_allocated a = Z.of_nat (length ss)
    /\ occupied a = 0.
Proof.
  intros Hi Hn Hb Hm Hl.
  destruct (create_spec it sys isz n Hi Hn Hb Hm) as (a0 & sys0 & s & Hc & Hm0 & Hi0 & Hn0 & Hok0).
  assert (stacks_needed n 0 = 1) as Hneed.
  { unfold stacks_needed. rewrite (Z.div_small (Z.of_nat 0 + n - 1)) by lia. done. }
  destruct (pool_run_ok it os a0 sys0 [] [s] 0 Hok0 Hm0) as (a & sys' & live & ss & Hr & Hok & Hn' & Hi' & Hlen & Hss);
    rewrite ?Hn0; try done; try lia.
  exists a0, sys0, a, sys', live, ss. split; [done|]. split; [done|]. split; [done|]. destruct Hok as (Hcore & Ho & _).
  rewrite Hi0, Hn0 in *. pose proof (ok_perm _ _ _ _ Hcore) as Hperm. rewrite Hi', Hn' in Hperm.
  split; [by pose proof (pool_NoDup _ _ _ _ Hcore) as (_ & _ & ?)%NoDup_app|]. split.
  { intros p Hp. destruct (live_item _ _ _ _ Hcore p Hp) as (k & t & j & Hk & Hj & ->). exists t.
    split; [by eapply list_elem_of_lookup_2|]. cbn. rewrite Hi', Hn' in *. split_and!; [done|nia|nia|by exists j]. }
  split; [apply Hcore|]. split; [done|]. rewrite (ok_count _ _ _ _ Hcore). split; [|done]. by rewrite Hss.
Qed.

Definition sys0 : System := mk_system 1 (fun _ => true).

(** A run of 300 steps over two items per stack that never holds more than three. *)
Definition sample_pool_ops : list pool_op :=
  OpAllocate :: concat (repeat [OpAllocate; OpAllocate; OpFree 1; OpFree 0] 75).

Lemma allocator_run_safe_witness :
  held 0 sample_pool_ops = 1%nat /\ peak 0 sample_pool_ops = 3%nat /\
  exists a0 sys0' a sys' live ss,
    allocator_create true sys0 64 2 = Ok (a0, sys0')
    /\ pool_run true (a0, sys0', []) sample_pool_ops = Ok (a, sys', live)
    /\ length live = held 0 sample_pool_ops /\ NoDup live
    /\ (forall p, p ∈ live -> exists s, s ∈ ss /\ p.1 = stack_data s
          /\ 0 <= p.2 /\ p.2 + 64 <= 64 * 2 /\ (64 | p.2))
    /\ stacks a = map Some ss ++ repeat None (64 - length ss)
    /\ all_free ss ++ live ≡ₚ all_items 64 2 ss
    /\ stacks_allocated a = Z.max 1 ((Z.of_nat (peak 0 sample_pool_ops) + 2 - 1) / 2)
    /\ stacks_allocated a = Z.of_nat (length ss)
    /\ occupied a = 0.
Proof.
  split; [reflexivity|]. split; [reflexivity|].
  apply (allocator_run_safe true sys0 64 2); [lia|lia|lia|done|]. vm_compute. discriminate.
Defined.

(** [allocator_allocate] refines "hand out an unused item": from a pool whose
    live pointers are [live] it returns a pointer outside [live] and adds exactly
    it; a new stack is created only when every item of every stack is live, and
    otherwise no memory is requested from the system. *)
Theorem allocate_takes_unused it sys a ss live :
  allocator_ok it sys a ss live -> malloc_never_fails sys ->
  Z.of_nat (length live) < 32 * chunk_item_amount a ->
  exists p a' sys' ss', allocator_allocate it sys a = Ok (p, a', sys')
    /\ (p ∉ live) /\ allocator_ok it sys' a' ss' (p :: live)
    /\ (if bool_decide (Z.of_nat (length live) = Z.of_nat (length ss) * chunk_item_amount a)
        then length ss' = S (length ss) else length ss' = length ss /\ sys' = sys).
Proof.
  intros Hok Hm Hlt.
  destruct (allocate_rec_spec _ _ _ _ _ 64 Hok Hm Hlt) as (p & a' & sys' & ss' & Ha & Hi & Hn & _ & Hok' & Hgrow).
  exists p, a', sys', ss'. split; [done|]. split; [by apply (live_fresh _ _ _ _ _ (proj1 Hok'))|].
  split; [done|]. case_bool_decide as E; [|tauto]. destruct Hgrow as [[Hl _]|]; [|tauto].
  pose proof (free_pointer_count _ _ _ _ (proj1 Hok')) as Hcount. cbn [length] in Hcount.
  rewrite Hl, Hn in Hcount. lia.
Qed.

Lemma allocate_takes_unused_witness :
  exists a sys ss, allocator_create true sys0 16 2 = Ok (a, sys) /\ allocator_ok true sys a ss [] /\
  exists p a' sys' ss', allocator_allocate true sys a = Ok (p, a', sys')
    /\ (p ∉ []) /\ allocator_ok true sys' a' ss' [p]
    /\ (if bool_decide (Z.of_nat 0 = Z.of_nat (length ss) * chunk_item_amount a)
        then length ss' = S (length ss) else length ss' = length ss /\ sys' = sys).
Proof.
  destruct (create_spec true sys0 16 2 ltac:(lia) ltac:(lia) ltac:(lia) ltac:(done))
    as (a & sys & s & Hc & Hm & Hi & Hn & Hok).
  exists a, sys, [s]. split; [done|]. split; [done|].
  apply (allocate_takes_unused true sys a [s] []); [done|done|]. rewrite Hn. cbn. lia.
Defined.

(** [allocator_free] of any live pointer, in whatever order the pointers come
    back, succeeds without creating a stack or asking the system for memory, and
    removes exactly that pointer from the live ones. *)
Theorem free_returns_to_pool it sys a ss live p live' :
  allocator_ok it sys a ss live -> (live ≡ₚ p :: live') ->
  exists a' ss', allocator_free it sys a p = Ok (a', sys)
    /\ allocator_ok it sys a' ss' live' /\ length ss' = length ss.
Proof.
  intros Hok Hl. destruct (free_rec_spec _ _ _ _ _ _ _ 65 Hok Hl) as (a' & ss' & Hf & Hi & Hn & Hlen & Hok').
  by exists a', ss'.
Qed.

Lemma free_returns_to_pool_witness :
  exists a sys ss p, allocator_ok true sys a ss [p]
    /\ exists a' ss', allocator_free true sys a p = Ok (a', sys)
         /\ allocator_ok true sys a' ss' [] /\ length ss' = length ss.
Proof.
  destruct (create_spec true sys0 16 2 ltac:(lia) ltac:(lia) ltac:(lia) ltac:(done))
    as (a & sys & s & Hc & Hm & Hi & Hn & Hok).
  destruct (allocate_rec_spec true sys a [s] [] 64 Hok Hm) as (p & a' & sys' & ss' & _ & _ & _ & _ & Hok' & _).
  { rewrite Hn. cbn. lia. }
  exists a', sys', ss', p. split; [done|]. by apply (free_returns_to_pool true sys' a' ss' [p] p []).
Defined.

(** Under internal testing, freeing an item of the pool that is not live (a
    second free, or a pointer never handed out) terminates the program instead of
    corrupting the stacks. *)
Theorem double_free_exits sys a ss live p :
  allocator_ok true sys a ss live ->
  p ∈ all_items (item_size a) (chunk_item_amount a) ss -> p ∉ live ->
  allocator_free true sys a p = Exit.
Proof.
  intros Hok Hin Hno. unfold allocator_free. cbn [free_rec].
  rewrite (already_free_spec _ _ _ _ _ _ Hok Hin eq_refl), bind_Ok. by rewrite bool_decide_true by done.
Qed.

Lemma double_free_exits_witness :
  exists a sys ss p, allocator_ok true sys a ss []
    /\ (p ∈ all_items (item_size a) (chunk_item_amount a) ss) /\ allocator_free true sys a p = Exit.
Proof.
  destruct (create_spec true sys0 16 2 ltac:(lia) ltac:(lia) ltac:(lia) ltac:(done))
    as (a & sys & s & Hc & Hm & Hi & Hn & Hok).
  assert ((stack_data s, 0) ∈ all_items (item_size a) (chunk_item_amount a) [s]) as Hin.
  { rewrite Hi, Hn. left. }
  exists a, sys, [s], (stack_data s, 0). split; [done|]. split; [done|].
  apply (double_free_exits sys a [s] [] _ Hok Hin). apply not_elem_of_nil.
Defined.

(** The leak report of [allocator_destroy] under internal testing is exact: the
    counters grow by the number of live items and by their bytes (in 32 bits). *)
Theorem destroy_counts_leaks sys a ss live il bl :
  allocator_ok true sys a ss live -> in_word 32 il -> in_word 32 bl ->
  allocator_destroy true a false il bl
  = Ok (u32 (il + Z.of_nat (length live)), u32 (bl + Z.of_nat (length live) * item_size a)).
Proof.
  intros Hok Hil Hbl. unfold allocator_destroy. rewrite <- (wrap_small 32 il), <- (wrap_small 32 bl) at 1 by done.
  rewrite (ok_count _ _ _ _ (proj1 Hok)), Nat2Z.id, (destroy_loop_spec true sys a ss live) by done.
  cbv zeta. by rewrite drop_0, (live_items_count _ _ _ _ (proj1 Hok)).
Qed.

Lemma destroy_counts_leaks_witness :
  exists a sys ss p, allocator_ok true sys a ss [p] /\ item_size a = 16
    /\ allocator_destroy true a false 3 5 = Ok (4, 21).
Proof.
  destruct (create_spec true sys0 16 2 ltac:(lia) ltac:(lia) ltac:(lia) ltac:(done))
    as (a & sys & s & Hc & Hm & Hi & Hn & Hok).
  destruct (allocate_rec_spec true sys a [s] [] 64 Hok Hm) as (p & a' & sys' & ss' & _ & Hi' & _ & _ & Hok' & _).
  { rewrite Hn. cbn. lia. }
  exists a', sys', ss', p. split; [done|]. split; [congruence|].
  rewrite (destroy_counts_leaks sys' a' ss' [p] 3 5); [|done|by split|by split]. by rewrite Hi', Hi.
Defined.

(** The lock mask [1u << index] of [free_stack_lock] limits a pool to 32 stacks,
    although the array holds 64: with one item per stack, 32 allocations succeed
    and the 33rd reaches the undefined shift. *)
Theorem allocator_33rd_stack_undefined it :
  let run k := '(a, sys) ← allocator_create it sys0 64 1; pool_run it (a, sys, []) (repeat OpAllocate k) in
  is_ok (run 32%nat) = true /\ run 33%nat = Fault.
Proof. destruct it; split; vm_compute; reflexivity. Qed.
