(* ===== verification/PacketBuffer.v ===== *)
(** * Packet buffers of the pcap backend (src/src/internal/pcap/pcap_buffer.c)

    A packet buffer is one block: room for an Ethernet header, an IP header and the
    packet information, then the user's data.  The three pointers of
    [struct SwiftNetPacketBuffer] are offsets into the block. *)

From S2P Require Import Prelude Wire.

Record SwiftNetPacketBuffer := mk_packet_buffer {
  packet_memory : list Z;
  packet_buffer_start : Z;
  packet_data_start : Z;
  packet_append_pointer : Z
}.

(** The bytes before the user's data. *)
Definition data_offset : Z := PACKET_HEADER_SIZE + sizeof_ether_header.

(** [malloc] may return [NULL], which is not checked: the block is then empty and
    every access is out of range. *)
Definition create_packet_buffer (g : Globals) (malloc_ok : bool) (buffer_size : Z) : SwiftNetPacketBuffer :=
  mk_packet_buffer (if malloc_ok then uninitialized g (buffer_size + data_offset) else [])
    0 data_offset data_offset.

(** [realloc] keeps the common prefix of the block. *)
Definition realloc (g : Globals) (mem : list Z) (n : Z) : list Z :=
  take (Z.to_nat n) mem ++ drop (length mem) (uninitialized g n).

Definition resize_packet_buffer (g : Globals) (realloc_ok : bool) (new_buffer_size : Z) (b : SwiftNetPacketBuffer)
    : Outcome SwiftNetPacketBuffer :=
  let current_offset := u32 (packet_append_pointer b - packet_data_start b) in
  let new_buffer_size := u32 (new_buffer_size + data_offset) in
  if realloc_ok then
    Ok (mk_packet_buffer (realloc g (packet_memory b) new_buffer_size) 0 data_offset (data_offset + current_offset))
  else Exit.

Definition write_packet_buffer (byte_offset : Z) (b : SwiftNetPacketBuffer) (data : list Z)
    : Outcome SwiftNetPacketBuffer :=
  m ← mem_write (packet_data_start b + byte_offset) data (packet_memory b);
  Ok (mk_packet_buffer m (packet_buffer_start b) (packet_data_start b) (packet_append_pointer b)).

Definition validate_append_to_packet_args (data : option (list Z)) (data_size : Z) : Outcome unit :=
  match data with
  | Some _ => if data_size =? 0 then Exit else Ok tt
  | None => Exit
  end.

Definition append_data (b : SwiftNetPacketBuffer) (data : list Z) (data_size : Z) : Outcome SwiftNetPacketBuffer :=
  src ← mem_read 0 data_size data;
  m ← mem_write (packet_append_pointer b) src (packet_memory b);
  Ok (mk_packet_buffer m (packet_buffer_start b) (packet_data_start b) (packet_append_pointer b + data_size)).

(** [error_checking] is off under [SWIFT_NET_DISABLE_ERROR_CHECKING]; then a [NULL]
    source is dereferenced. *)
Definition swiftnet_append_to_buffer (error_checking : bool) (data : option (list Z)) (data_size : Z)
    (b : SwiftNetPacketBuffer) : Outcome SwiftNetPacketBuffer :=
  _ ← (if error_checking then validate_append_to_packet_args data data_size else Ok tt);
  match data with
  | Some data => append_data b data data_size
  | None => if data_size =? 0 then Ok b else Fault
  end.

(** [free] wants the start of the block. *)
Definition destroy_packet_buffer (b : SwiftNetPacketBuffer) : Outcome unit :=
  if packet_buffer_start b =? 0 then Ok tt else Fault.

(** ** Properties *)

(** [buffer_holds n d b]: [b] has room for [n] bytes and holds the data [d]. *)
Record buffer_holds (n : Z) (d : list Z) (b : SwiftNetPacketBuffer) : Prop := {
  bh_length : Z.of_nat (length (packet_memory b)) = n + data_offset;
  bh_start : packet_buffer_start b = 0;
  bh_data : packet_data_start b = data_offset;
  bh_append : packet_append_pointer b = data_offset + Z.of_nat (length d);
  bh_room : Z.of_nat (length d) <= n;
  bh_content : slice (Z.to_nat data_offset) (length d) (packet_memory b) = d
}.

Lemma create_holds g n : 0 <= n -> buffer_holds n [] (create_packet_buffer g true n).
Proof.
  intros Hn. constructor; cbn [packet_memory create_packet_buffer packet_buffer_start packet_data_start packet_append_pointer length];
    try done; try lia.
  - apply length_uninitialized. unfold data_offset, PACKET_HEADER_SIZE, sizeof_ip, sizeof_SwiftNetPacketInfo, sizeof_ether_header. lia.
Qed.

Lemma append_holds n d b data :
  buffer_holds n d b -> Z.of_nat (length d + length data) <= n ->
  exists b', append_data b data (Z.of_nat (length data)) = Ok b' /\ buffer_holds n (d ++ data) b'.
Proof.
  intros [] Hle. unfold append_data. rewrite mem_read_ok by lia. rewrite Nat2Z.id.
  change (Z.to_nat 0) with 0%nat. rewrite slice_full, bind_Ok, bh_append0.
  assert (data_offset = 58) as Hoff by done.
  rewrite mem_write_ok, bind_Ok by lia. eexists. split; [done|].
  assert (Z.to_nat (data_offset + Z.of_nat (length d)) = Z.to_nat data_offset + length d)%nat as Hn by lia.
  constructor; cbn [packet_memory packet_buffer_start packet_data_start packet_append_pointer]; try done.
  - rewrite length_blit by lia. done.
  - rewrite length_app. lia.
  - rewrite length_app. lia.
  - rewrite length_app, slice_split by (rewrite length_blit; lia). f_equal.
    + rewrite slice_blit_other by lia. done.
    + rewrite Hn. apply slice_blit. lia.
Qed.

Fixpoint append_all (error_checking : bool) (ds : list (list Z)) (b : SwiftNetPacketBuffer)
    : Outcome SwiftNetPacketBuffer :=
  match ds with
  | [] => Ok b
  | d :: ds => b ← swiftnet_append_to_buffer error_checking (Some d) (Z.of_nat (length d)) b;
               append_all error_checking ds b
  end.

Lemma append_all_holds ec n ds d b :
  buffer_holds n d b -> Z.of_nat (length d + length (concat ds)) <= n ->
  (forall x, x ∈ ds -> x <> []) ->
  exists b', append_all ec ds b = Ok b' /\ buffer_holds n (d ++ concat ds) b'.
Proof.
  revert d b. induction ds as [|x ds IH]; intros d b Hb Hle Hne; cbn [append_all concat] in *.
  { exists b. by rewrite app_nil_r. }
  rewrite length_app in Hle.
  destruct (append_holds n d b x Hb) as (b' & Happ & Hb'); [lia|].
  assert (swiftnet_append_to_buffer ec (Some x) (Z.of_nat (length x)) b = Ok b') as ->.
  { unfold swiftnet_append_to_buffer, validate_append_to_packet_args. destruct ec; [|by rewrite bind_Ok].
    destruct (Z.eqb_spec (Z.of_nat (length x)) 0) as [E|_]; [|by rewrite bind_Ok].
    exfalso. apply (Hne x ltac:(left)). apply nil_length_inv. lia. }
  rewrite bind_Ok. destruct (IH (d ++ x) b' Hb') as (b2 & H2 & Hb2).
  { rewrite length_app. lia. }
  { intros y Hy. apply Hne. by right. }
  exists b2. split; [done|]. by rewrite app_assoc.
Qed.

(** Appending to a packet buffer: any sequence of non-empty appends that fits the
    requested size succeeds and the data area holds the concatenation, with the
    append pointer at its end; one more append past the size writes outside the
    block. *)
Theorem append_concatenates (g : Globals) (ec : bool) (n : Z) (ds : list (list Z)) :
  0 <= n -> Z.of_nat (length (concat ds)) <= n -> (forall x, x ∈ ds -> x <> []) ->
  exists b, append_all ec ds (create_packet_buffer g true n) = Ok b
    /\ mem_read (packet_data_start b) (Z.of_nat (length (concat ds))) (packet_memory b) = Ok (concat ds)
    /\ packet_append_pointer b = packet_data_start b + Z.of_nat (length (concat ds))
    /\ forall x, x <> [] -> n < Z.of_nat (length (concat ds) + length x) ->
         swiftnet_append_to_buffer ec (Some x) (Z.of_nat (length x)) b = Fault.
Proof.
  intros Hn Hle Hne.
  destruct (append_all_holds ec n ds [] _ (create_holds g n Hn) Hle Hne) as (b & Happ & []).
  rewrite app_nil_l in *. exists b. split; [done|]. assert (data_offset = 58) as Hoff by done. split; [|split].
  - rewrite bh_data0, mem_read_ok by lia. by rewrite Nat2Z.id, bh_content0.
  - by rewrite bh_data0.
  - intros x Hx Hover. unfold swiftnet_append_to_buffer, validate_append_to_packet_args.
    assert (length x <> 0)%nat by (intros E; by apply nil_length_inv in E).
    rewrite (proj2 (Z.eqb_neq (Z.of_nat (length x)) 0)) by lia.
    replace (if ec then Ok tt else Ok tt) with (Ok tt) by (by destruct ec). rewrite bind_Ok.
    unfold append_data. rewrite mem_read_ok by lia. rewrite Nat2Z.id, slice_full, bind_Ok.
    unfold mem_write. rewrite bool_decide_false; [done|]. rewrite bh_append0, bh_length0. lia.
Qed.

Lemma append_concatenates_witness :
  exists b, append_all true [[1; 2; 3]; [4]] (create_packet_buffer g0 true 5) = Ok b
    /\ mem_read (packet_data_start b) 4 (packet_memory b) = Ok [1; 2; 3; 4]
    /\ packet_append_pointer b = packet_data_start b + 4
    /\ forall x, x <> [] -> 5 < Z.of_nat (4 + length x) ->
         swiftnet_append_to_buffer true (Some x) (Z.of_nat (length x)) b = Fault.
Proof.
  apply (append_concatenates g0 true 5 [[1; 2; 3]; [4]]); [lia|cbn; lia|].
  intros x Hx. rewrite !elem_of_cons in Hx. destruct Hx as [->|[->|Hx]]; [done|done|by apply not_elem_of_nil in Hx].
Defined.

(** Resizing a packet buffer keeps the data already appended and the append
    position, whenever the new size still holds them and does not wrap in 32 bits. *)
Theorem resize_keeps_data (g : Globals) (n m : Z) (d : list Z) (b : SwiftNetPacketBuffer) :
  buffer_holds n d b -> Z.of_nat (length d) <= m -> m + data_offset < 2 ^ 32 ->
  exists b', resize_packet_buffer g true m b = Ok b' /\ buffer_holds m d b'.
Proof.
  intros [] Hd Hm. assert (data_offset = 58) as Hoff by done. unfold resize_packet_buffer.
  rewrite bh_append0, bh_data0. rewrite !u32_id by lia. eexists. split; [done|].
  assert (length (realloc g (packet_memory b) (m + data_offset)) = Z.to_nat (m + data_offset)) as Hl.
  { unfold realloc. rewrite length_app, length_take, length_drop.
    pose proof (length_uninitialized g (m + data_offset) ltac:(lia)). lia. }
  constructor; cbn [packet_memory packet_buffer_start packet_data_start packet_append_pointer]; try done; try lia.
  unfold realloc. rewrite slice_app_l by (rewrite length_take; lia).
  rewrite <- bh_content0 at 2. apply list_eq. intros i. rewrite !lookup_slice. case_decide; [|done].
  apply lookup_take_lt. lia.
Qed.

Lemma resize_keeps_data_witness :
  exists b b', append_all true [[7; 8]] (create_packet_buffer g0 true 2) = Ok b
    /\ buffer_holds 2 [7; 8] b
    /\ resize_packet_buffer g0 true 100 b = Ok b' /\ buffer_holds 100 [7; 8] b'.
Proof.
  destruct (append_all_holds true 2 [[7; 8]] [] (create_packet_buffer g0 true 2)) as (b & Hb & Hh).
  { apply create_holds. lia. }
  { cbn. lia. }
  { intros x Hx. apply list_elem_of_singleton in Hx. by subst. }
  destruct (resize_keeps_data g0 2 100 [7; 8] b Hh) as (b' & Hr & Hh'); [cbn; lia|done|].
  exists b, b'. split; [done|]. split; [exact Hh|]. split; [exact Hr|exact Hh'].
Defined.
