(* ===== verification/SendPacket.v ===== *)
(** * Sending packets (src/src/send_packet.c, pcap backend)

    A packet that fits the path MTU goes out as one frame; a longer one is cut into
    chunks.  Each chunk's headers are written into the packet buffer itself, over
    the end of the preceding chunk's data, which is saved and put back afterwards.
    When all chunks are out, the sender asks for the list of lost chunks and sends
    them again until the receiver confirms the packet.

    The frames handed to [pcap_inject] are recorded in [wire], once per frame (a
    frame refused with [ENOBUFS] is offered again until it is taken).  The thread
    that processes incoming packets changes the [SwiftNetPacketSending] structure
    while the sender polls it: its actions are the list [env], one action before
    each poll; running out of actions means waiting forever. *)

From S2P Require Import Prelude Store Crc32 Wire Frames PacketBuffer.

(** ** Data *)
Inductive SwiftNetPacketSendingUpdated := NO_UPDATE | UPDATED_LOST_CHUNKS | SUCCESSFULLY_RECEIVED.

#[export] Instance updated_eq_dec : EqDecision SwiftNetPacketSendingUpdated.
Proof. solve_decision. Defined.

(** [lost_chunks] is the block of 32-bit indexes, byte by byte. *)
Record SwiftNetPacketSending := mk_packet_sending {
  lost_chunks : option (list Z);
  updated : SwiftNetPacketSendingUpdated;
  current_send_delay : Z;
  lost_chunks_size : Z;
  sending_packet_id : Z;
  sending_locked : bool
}.

Definition set_updated (u : SwiftNetPacketSendingUpdated) (p : SwiftNetPacketSending) : SwiftNetPacketSending :=
  mk_packet_sending (lost_chunks p) u (current_send_delay p) (lost_chunks_size p) (sending_packet_id p) (sending_locked p).

Inductive RequestLostPacketsReturnType :=
  REQUEST_LOST_PACKETS_RETURN_UPDATED_BIT_ARRAY | REQUEST_LOST_PACKETS_RETURN_COMPLETED_PACKET.

Record RequestSent := mk_request_sent {
  rs_packet_data : option loc;
  rs_address : Z;
  rs_packet_id : Z
}.

(** What a sender changes: the table of packets being sent, the table of requests
    that wait for a response, and the wire. *)
Record SendState := mk_send_state {
  packets_sending : list (Z * loc);
  sending_store : Store SwiftNetPacketSending;
  requests_sent : list (Z * loc);
  requests_store : Store RequestSent;
  wire : list (list Z)
}.

(** [wire] lists the frames handed to libpcap.  The loop around [pcap_inject] is
    [send_packet_loop] of Interface.v: it repeats a frame while there is no buffer space and
    drops it, without telling the caller, on any other error. *)
Definition SWIFTNET_SEND_PACKET (frame : list Z) (st : SendState) : SendState :=
  mk_send_state (packets_sending st) (sending_store st) (requests_sent st) (requests_store st) (wire st ++ [frame]).

Definition set_sending (t : list (Z * loc)) (s : Store SwiftNetPacketSending) (st : SendState) : SendState :=
  mk_send_state t s (requests_sent st) (requests_store st) (wire st).

(** ** Operations *)
Section operations.
Context (g : Globals) (network_data : SwiftNetNetworkData) (eth_hdr : ether_header).

(** The loop of [request_lost_packets_bitarray]: 255 polls, then the request is
    sent again. *)
Fixpoint poll_updates (raw_data : list Z) (packet_sending : loc)
    (env : list (SwiftNetPacketSending -> SwiftNetPacketSending)) (times_checked : Z) (st : SendState)
    : Outcome (RequestLostPacketsReturnType * SendState * list (SwiftNetPacketSending -> SwiftNetPacketSending)) :=
  match env with
  | [] => Diverge
  | action :: env =>
      store ← store_update packet_sending action (sending_store st);
      p ← store_get packet_sending store;
      let st' := set_sending (packets_sending st) store st in
      let reset := set_sending (packets_sending st) (<[packet_sending := set_updated NO_UPDATE p]> store) st in
      match updated p with
      | NO_UPDATE =>
          if times_checked + 1 <? 0xFF then poll_updates raw_data packet_sending env (times_checked + 1) st'
          else poll_updates raw_data packet_sending env 0 (SWIFTNET_SEND_PACKET raw_data st')
      | UPDATED_LOST_CHUNKS => Ok (REQUEST_LOST_PACKETS_RETURN_UPDATED_BIT_ARRAY, reset, env)
      | SUCCESSFULLY_RECEIVED => Ok (REQUEST_LOST_PACKETS_RETURN_COMPLETED_PACKET, reset, env)
      end
  end.

Definition request_lost_packets_bitarray (raw_data : list Z) (packet_sending : loc)
    (env : list (SwiftNetPacketSending -> SwiftNetPacketSending)) (st : SendState) :=
  poll_updates raw_data packet_sending env 0 (SWIFTNET_SEND_PACKET raw_data st).

(** One iteration of the resend loop of [handle_lost_packets]: the frame sent and
    the packet buffer after its bytes are put back. *)
Definition resend_chunk (mtu packet_length : Z) (prepend_buffer : list Z) (data_start lost_chunk_index : Z)
    (mem : list Z) : Outcome (list Z * list Z) :=
  let ps := prepend_size network_data in
  let current_offset := u32 (lost_chunk_index * (mtu - PACKET_HEADER_SIZE)) in
  let header := data_start + current_offset - ps - PACKET_HEADER_SIZE in
  temp_data_buffer ← mem_read header (ps + PACKET_HEADER_SIZE) mem;
  mem ← mem_write header prepend_buffer mem;
  mem ← mem_write (header + sizeof_ip + ps + offsetof_chunk_index) (le_bytes 4 lost_chunk_index) mem;
  mem ← mem_write (header + ps + sizeof_ip + offsetof_checksum) (repeat 0x00 4) mem;
  if packet_length <=? u64 (u32 (current_offset + mtu) - PACKET_HEADER_SIZE) then
    let bytes_to_complete := u16 (packet_length - current_offset) in
    let new_ip_len := htons (u16 (bytes_to_complete + PACKET_HEADER_SIZE)) in
    mem ← mem_write (header + offsetof_ip_len) (le_bytes 2 new_ip_len) mem;
    mem ← HANDLE_CHECKSUM mem (header + ps + sizeof_ip) (bytes_to_complete + sizeof_SwiftNetPacketInfo);
    frame ← mem_read header (bytes_to_complete + PACKET_HEADER_SIZE + ps) mem;
    mem ← mem_write header temp_data_buffer mem;
    Ok (frame, mem)
  else
    mem ← HANDLE_CHECKSUM mem (header + ps + sizeof_ip) (mtu - sizeof_ip);
    frame ← mem_read header (mtu + ps) mem;
    mem ← mem_write header temp_data_buffer mem;
    Ok (frame, mem).

Fixpoint resend_chunks (n : nat) (i mtu packet_length : Z) (prepend_buffer : list Z) (data_start : Z)
    (lost : list Z) (mem : list Z) (st : SendState) : Outcome (list Z * SendState) :=
  match n with
  | O => Ok (mem, st)
  | S n =>
      b ← mem_read (4 * i) 4 lost;
      '(frame, mem) ← resend_chunk mtu packet_length prepend_buffer data_start (le_val b) mem;
      resend_chunks n (i + 1) mtu packet_length prepend_buffer data_start lost mem (SWIFTNET_SEND_PACKET frame st)
  end.

(** The [while(1)] of [handle_lost_packets]; every round uses at least one action
    of [env], which bounds the rounds. *)
Fixpoint handle_lost_loop (fuel : nat) (request_buffer prepend_buffer : list Z) (mtu packet_length data_start : Z)
    (packet_sending : loc) (env : list (SwiftNetPacketSending -> SwiftNetPacketSending)) (mem : list Z)
    (st : SendState) : Outcome (list Z * SendState) :=
  match fuel with
  | O => Diverge
  | S fuel =>
      '(response, st, env) ← request_lost_packets_bitarray request_buffer packet_sending env st;
      p ← store_get packet_sending (sending_store st);
      match response with
      | REQUEST_LOST_PACKETS_RETURN_COMPLETED_PACKET =>
          store ← store_free packet_sending (sending_store st);
          Ok (mem, set_sending (al_remove (sending_packet_id p) (packets_sending st)) store st)
      | REQUEST_LOST_PACKETS_RETURN_UPDATED_BIT_ARRAY =>
          let lost := default [] (lost_chunks p) in
          '(mem, st) ← resend_chunks (Z.to_nat (lost_chunks_size p)) 0 mtu packet_length prepend_buffer data_start lost mem st;
          handle_lost_loop fuel request_buffer prepend_buffer mtu packet_length data_start packet_sending env mem st
      end
  end.

Definition handle_lost_packets (packet_sending : loc) (packet : SwiftNetPacketBuffer)
    (destination_address source_port destination_port packet_length mtu chunk_amount packet_type : Z)
    (env : list (SwiftNetPacketSending -> SwiftNetPacketSending)) (st : SendState)
    : Outcome (SwiftNetPacketBuffer * SendState) :=
  let ps := prepend_size network_data in
  let port_info := mk_port_info destination_port source_port in
  p ← store_get packet_sending (sending_store st);
  let request_ip := construct_ip_header g destination_address PACKET_HEADER_SIZE (sending_packet_id p) in
  let request_info := construct_packet_info g 0x00 (packet_type_code SEND_LOST_PACKETS_REQUEST) 1 0 port_info in
  request_buffer ← HANDLE_PACKET_CONSTRUCTION g request_ip request_info network_data eth_hdr (PACKET_HEADER_SIZE + ps);
  request_buffer ← HANDLE_CHECKSUM request_buffer (ps + sizeof_ip) sizeof_SwiftNetPacketInfo;
  let resend_info := construct_packet_info g packet_length packet_type chunk_amount 0 port_info in
  let resend_ip := construct_ip_header g destination_address mtu (sending_packet_id p) in
  prepend_buffer ← HANDLE_PACKET_CONSTRUCTION g resend_ip resend_info network_data eth_hdr (ps + PACKET_HEADER_SIZE);
  '(mem, st) ← handle_lost_loop (S (length env)) request_buffer prepend_buffer mtu packet_length
                 (packet_data_start packet) packet_sending env (packet_memory packet) st;
  Ok (mk_packet_buffer mem (packet_buffer_start packet) (packet_data_start packet) (packet_append_pointer packet), st).

(** One iteration of the loop over the chunks in [swiftnet_send_packet]: is it the
    last chunk, the frame sent, and the buffer after its bytes are put back. *)
Definition send_chunk (mtu packet_length : Z) (prepend_buffer : list Z) (data_start i : Z) (mem : list Z)
    : Outcome (bool * list Z * list Z) :=
  let ps := prepend_size network_data in
  let current_offset := u32 (i * (mtu - PACKET_HEADER_SIZE)) in
  let header := data_start + current_offset - ps - PACKET_HEADER_SIZE in
  temp_data_buffer ← mem_read header (ps + PACKET_HEADER_SIZE) mem;
  mem ← mem_write header prepend_buffer mem;
  mem ← mem_write (header + sizeof_ip + ps + offsetof_chunk_index) (le_bytes 4 i) mem;
  mem ← mem_write (header + sizeof_ip + ps + offsetof_checksum) (repeat 0x00 4) mem;
  if packet_length <=? u64 (current_offset + u64 (mtu - PACKET_HEADER_SIZE)) then
    let bytes_to_send := u16 (packet_length - current_offset + PACKET_HEADER_SIZE + ps) in
    let bytes_to_send_net_order := htons (u16 (bytes_to_send - ps)) in
    mem ← mem_write (header + ps + offsetof_ip_len) (le_bytes 2 bytes_to_send_net_order) mem;
    mem ← HANDLE_CHECKSUM mem (header + ps + sizeof_ip) (u32 (bytes_to_send - ps - sizeof_ip));
    frame ← mem_read header bytes_to_send mem;
    mem ← mem_write header temp_data_buffer mem;
    Ok (true, frame, mem)
  else
    let bytes_to_send := u16 (ps + mtu) in
    mem ← HANDLE_CHECKSUM mem (header + ps + sizeof_ip) (u32 (bytes_to_send - ps - sizeof_ip));
    frame ← mem_read header bytes_to_send mem;
    mem ← mem_write header temp_data_buffer mem;
    Ok (false, frame, mem).

(** The loop itself stops after the last chunk. *)
Fixpoint send_chunks (fuel : nat) (mtu packet_length : Z) (prepend_buffer : list Z) (data_start i : Z)
    (mem : list Z) (st : SendState) : Outcome (list Z * SendState) :=
  match fuel with
  | O => Diverge
  | S fuel =>
      '(last, frame, mem) ← send_chunk mtu packet_length prepend_buffer data_start i mem;
      let st := SWIFTNET_SEND_PACKET frame st in
      if last : bool then Ok (mem, st)
      else send_chunks fuel mtu packet_length prepend_buffer data_start (u32 (i + 1)) mem st
  end.

(** [chunk_amount]; the division is by zero when the MTU is the header size. *)
Definition compute_chunk_amount (mtu packet_length : Z) : Outcome Z :=
  let stride := u64 (mtu - PACKET_HEADER_SIZE) in
  if stride =? 0 then Fault else Ok (u32 (u64 (packet_length + stride - 1) / stride)).

(** The branch for packets longer than the MTU. *)
Definition send_fragmented (mtu : Z) (port_info : SwiftNetPortInfo) (packet : SwiftNetPacketBuffer)
    (packet_length target_addr packet_id packet_type chunk_amount : Z)
    (env : list (SwiftNetPacketSending -> SwiftNetPacketSending)) (st : SendState)
    : Outcome (SwiftNetPacketBuffer * SendState) :=
  let ps := prepend_size network_data in
  let packet_info := construct_packet_info g packet_length packet_type chunk_amount 0 port_info in
  let ip_header := construct_ip_header g target_addr mtu packet_id in
  let ip_header := mk_ip (ip_hl ip_header) (ip_v ip_header) (ip_tos ip_header) (htons (u16 (mtu + ps)))
    (ip_id ip_header) (ip_off ip_header) (ip_ttl ip_header) (ip_p ip_header) (ip_sum ip_header)
    (ip_src ip_header) (ip_dst ip_header) in
  let '(new_packet_sending, store) :=
    store_alloc (mk_packet_sending None NO_UPDATE 50 0 packet_id false) (sending_store st) in
  let st := set_sending (al_insert packet_id new_packet_sending (packets_sending st)) store st in
  prepend_buffer ← HANDLE_PACKET_CONSTRUCTION g ip_header packet_info network_data eth_hdr (ps + PACKET_HEADER_SIZE);
  '(mem, st) ← send_chunks (S (Z.to_nat chunk_amount)) mtu packet_length prepend_buffer (packet_data_start packet) 0
                 (packet_memory packet) st;
  let packet := mk_packet_buffer mem (packet_buffer_start packet) (packet_data_start packet) (packet_append_pointer packet) in
  handle_lost_packets new_packet_sending packet target_addr (source_port port_info) (destination_port port_info)
    packet_length mtu chunk_amount packet_type env st.

(** The body of the two cases of the branch for short packets, which differ in the
    link header: the headers are written in front of the data and the frame is sent
    from [link_offset]. *)
Definition send_single_frame (packet : SwiftNetPacketBuffer) (packet_length link_offset : Z) (link : list Z)
    (ip_header : ip) (packet_info : SwiftNetPacketInfo) (final_packet_size : Z) (st : SendState)
    : Outcome (SwiftNetPacketBuffer * SendState) :=
  let start := packet_buffer_start packet in
  mem ← mem_write (start + link_offset) link (packet_memory packet);
  mem ← mem_write (start + sizeof_ether_header) (ip_bytes ip_header) mem;
  mem ← mem_write (start + sizeof_ether_header + sizeof_ip) (packet_info_bytes packet_info) mem;
  data ← mem_read (packet_data_start packet) packet_length mem;
  mem ← mem_write (start + PACKET_HEADER_SIZE + sizeof_ether_header) data mem;
  mem ← HANDLE_CHECKSUM mem (packet_data_start packet - sizeof_SwiftNetPacketInfo) (packet_length + sizeof_SwiftNetPacketInfo);
  frame ← mem_read (start + link_offset) final_packet_size mem;
  Ok (mk_packet_buffer mem start (packet_data_start packet) (packet_append_pointer packet),
      SWIFTNET_SEND_PACKET frame st).

(** The branch for packets that fit the MTU; on a link that is neither BSD loopback
    nor Ethernet nothing is sent. *)
Definition send_single (port_info : SwiftNetPortInfo) (packet : SwiftNetPacketBuffer)
    (packet_length target_addr packet_id packet_type : Z) (st : SendState)
    : Outcome (SwiftNetPacketBuffer * SendState) :=
  let ps := prepend_size network_data in
  let final_packet_size := u16 (ps + PACKET_HEADER_SIZE + packet_length) in
  let packet_info := construct_packet_info g packet_length packet_type 1 0 port_info in
  let ip_header := construct_ip_header g target_addr (final_packet_size - ps) packet_id in
  if addr_type network_data =? DLT_NULL then
    send_single_frame packet packet_length (sizeof_ether_header - 4) (le_bytes 4 PF_INET) ip_header packet_info final_packet_size st
  else if addr_type network_data =? DLT_EN10MB then
    send_single_frame packet packet_length 0 (ether_header_bytes eth_hdr) ip_header packet_info final_packet_size st
  else Ok (packet, st).

(** [rand_value] is the value of [rand()]; [request_sent] the request that waits for
    the response, if any. *)
Definition swiftnet_send_packet (target_maximum_transmission_unit : Z) (port_info : SwiftNetPortInfo)
    (packet : SwiftNetPacketBuffer) (packet_length target_addr : Z) (request_sent : option loc) (response : bool)
    (request_packet_id rand_value : Z) (env : list (SwiftNetPacketSending -> SwiftNetPacketSending)) (st : SendState)
    : Outcome (SwiftNetPacketBuffer * SendState) :=
  let mtu := Z.min target_maximum_transmission_unit (maximum_transmission_unit g) in
  let packet_id := if response then request_packet_id else u16 rand_value in
  st ← match request_sent with
       | Some r =>
           requests ← store_update r (fun q => mk_request_sent (rs_packet_data q) (rs_address q) packet_id) (requests_store st);
           Ok (mk_send_state (packets_sending st) (sending_store st) (al_insert packet_id r (requests_sent st)) requests (wire st))
       | None => Ok st
       end;
  let packet_type := packet_type_code (if response then RESPONSE else match request_sent with None => MESSAGE | Some _ => REQUEST end) in
  chunk_amount ← compute_chunk_amount mtu packet_length;
  if mtu <? packet_length then
    send_fragmented mtu port_info packet packet_length target_addr packet_id packet_type chunk_amount env st
  else send_single port_info packet packet_length target_addr packet_id packet_type st.
End operations.

(** ** The chunks of a packet *)

(** The bytes of [data] that chunk [i] carries, at [stride] bytes per chunk. *)
Definition chunk_payload (stride : Z) (data : list Z) (i : Z) : list Z :=
  slice (Z.to_nat (i * stride)) (Z.to_nat (Z.min stride (Z.of_nat (length data) - i * stride))) data.

(** Rounding up. *)
Definition chunk_count (stride len : Z) : Z := (len + stride - 1) / stride.

Lemma chunk_count_bounds stride len :
  0 < stride -> 0 < len -> (chunk_count stride len - 1) * stride < len <= chunk_count stride len * stride.
Proof.
  intros Hs Hl. unfold chunk_count. pose proof (Z.div_mod (len + stride - 1) stride ltac:(lia)).
  pose proof (Z.mod_pos_bound (len + stride - 1) stride Hs). nia.
Qed.

Lemma chunk_count_pos stride len : 0 < stride -> 0 < len -> 0 < chunk_count stride len.
Proof. intros Hs Hl. pose proof (chunk_count_bounds stride len Hs Hl). nia. Qed.

Lemma last_chunk_iff stride len i :
  0 < stride -> 0 < len -> 0 <= i < chunk_count stride len ->
  (len <= i * stride + stride <-> i = chunk_count stride len - 1).
Proof. intros Hs Hl Hi. pose proof (chunk_count_bounds stride len Hs Hl). split; nia. Qed.

Lemma chunk_payload_length stride data i :
  0 < stride -> 0 <= i < chunk_count stride (Z.of_nat (length data)) -> (0 < length data)%nat ->
  Z.of_nat (length (chunk_payload stride data i)) = Z.min stride (Z.of_nat (length data) - i * stride).
Proof.
  intros Hs Hi Hd. pose proof (chunk_count_bounds stride (Z.of_nat (length data)) Hs ltac:(lia)).
  unfold chunk_payload. rewrite length_slice; nia.
Qed.

(** The data is the concatenation of the chunks. *)
Lemma chunks_concat_upto stride data n :
  0 < stride -> (0 < length data)%nat -> Z.of_nat n <= chunk_count stride (Z.of_nat (length data)) ->
  concat (map (fun i => chunk_payload stride data (Z.of_nat i)) (seq 0 n))
  = take (Z.to_nat (Z.of_nat n * stride)) data.
Proof.
  intros Hs Hd Hn. induction n as [|n IH]; [by rewrite Z.mul_0_l|].
  rewrite seq_S, map_app, concat_app, IH by lia. cbn [map concat]. rewrite app_nil_r, Nat.add_0_l.
  pose proof (chunk_count_bounds stride (Z.of_nat (length data)) Hs ltac:(lia)).
  unfold chunk_payload, slice.
  replace (Z.to_nat (Z.of_nat (S n) * stride)) with (Z.to_nat (Z.of_nat n * stride) + Z.to_nat stride)%nat by nia.
  rewrite <- take_take_drop. f_equal.
  destruct (Z.min_spec stride (Z.of_nat (length data) - Z.of_nat n * stride)) as [[_ ->]|[? ->]]; [done|].
  rewrite !take_ge; [done| |]; rewrite length_drop; nia.
Qed.

Lemma chunks_concat stride data :
  0 < stride -> (0 < length data)%nat ->
  concat (map (fun i => chunk_payload stride data (Z.of_nat i))
    (seq 0 (Z.to_nat (chunk_count stride (Z.of_nat (length data)))))) = data.
Proof.
  intros Hs Hd. pose proof (chunk_count_bounds stride (Z.of_nat (length data)) Hs ltac:(lia)).
  pose proof (chunk_count_pos stride (Z.of_nat (length data)) Hs ltac:(lia)).
  rewrite chunks_concat_upto by lia. apply take_ge. nia.
Qed.

(** The frame of chunk [i]: all but the last carry the IP header unchanged. *)
Definition chunk_frame (lh : list Z) (h : ip) (p : SwiftNetPacketInfo) (mtu : Z) (data : list Z) (i : Z) : list Z :=
  let payload := chunk_payload (mtu - PACKET_HEADER_SIZE) data i in
  let h := if Z.of_nat (length data) <=? i * (mtu - PACKET_HEADER_SIZE) + (mtu - PACKET_HEADER_SIZE)
           then with_ip_len (htons (u16 (PACKET_HEADER_SIZE + Z.of_nat (length payload)))) h else h in
  sealed_frame lh h (with_index i p) payload.

(** Overwriting the headers in the packet buffer, field by field. *)
Lemma overlay_field (mem : list Z) (off o : nat) src hdr :
  (o + length src <= length hdr)%nat -> (off + length hdr <= length mem)%nat ->
  mem_write (Z.of_nat (off + o)) src (blit off hdr mem) = Ok (blit off (blit o src hdr) mem).
Proof.
  intros Ho Hoff. rewrite mem_write_ok by (rewrite ?length_blit; lia). by rewrite Nat2Z.id, blit_blit_inner.
Qed.

(** The end of an iteration: checksum, send, and put the saved bytes back; [L] is
    the length of the payload. *)
Lemma seal_and_restore {B} (lh mem : list Z) (off L : nat) size n hdr info (k : list Z -> list Z -> Outcome B) :
  (off + (length lh + 44) + L <= length mem)%nat ->
  size = Z.of_nat (24 + L) -> n = Z.of_nat (length lh + 44 + L) ->
  (mem' ← HANDLE_CHECKSUM (blit off (headers lh hdr info) mem) (Z.of_nat off + Z.of_nat (length lh) + 20) size;
   frame ← mem_read (Z.of_nat off) n mem';
   mem' ← mem_write (Z.of_nat off) (slice off (length lh + 44) mem) mem';
   k frame mem')
  = k (sealed_frame lh hdr info (slice (off + (length lh + 44)) L mem)) mem.
Proof.
  intros Hoff -> ->. rewrite <- Nat2Z.inj_add.
  replace (24 + L)%nat with (length lh + 44 + L - length lh - 20)%nat by lia.
  rewrite seal_in_place, bind_Ok by lia.
  replace (length lh + 44 + L - (length lh + 44))%nat with L by lia.
  set (payload := slice (off + (length lh + 44)) L mem).
  pose proof (length_headers lh hdr (sealed_info info payload)) as Hh.
  rewrite mem_read_ok, bind_Ok by (rewrite ?length_blit; lia). rewrite !Nat2Z.id.
  rewrite mem_write_ok, bind_Ok by (rewrite ?length_slice, ?length_blit; lia). rewrite Nat2Z.id.
  pose proof (sealed_slice lh hdr info mem off (length lh + 44 + L) ltac:(lia) ltac:(lia)) as Hs. cbv zeta in Hs.
  replace (length lh + 44 + L - (length lh + 44))%nat with L in Hs by lia. fold payload in Hs. rewrite Hs. f_equal.
  rewrite <- Hh. apply blit_slice_restore. lia.
Qed.

(** The start of an iteration: save the bytes under the headers, write the headers,
    the chunk index and an empty checksum. *)
Lemma overlay_headers {B} (lh mem : list Z) (off : nat) ps o1 o2 h p i (k : list Z -> list Z -> Outcome B) :
  (off + (length lh + 44) <= length mem)%nat -> ps = Z.of_nat (length lh) -> checksum p = 0 ->
  o1 = Z.of_nat (off + (length lh + 20 + 8)) -> o2 = Z.of_nat (off + (length lh + 20 + 12)) ->
  (temp ← mem_read (Z.of_nat off) (ps + 44) mem;
   mem' ← mem_write (Z.of_nat off) (headers lh h p) mem;
   mem' ← mem_write o1 (le_bytes 4 i) mem';
   mem' ← mem_write o2 (repeat 0x00 4) mem';
   k temp mem')
  = k (slice off (length lh + 44) mem) (blit off (headers lh h (with_index i p)) mem).
Proof.
  intros Hfit -> Hsum -> ->. pose proof (length_headers lh h p) as Hh.
  pose proof (length_headers lh h (with_index i p)) as Hh2.
  rewrite mem_read_ok, bind_Ok by lia.
  replace (Z.to_nat (Z.of_nat (length lh) + 44)) with (length lh + 44)%nat by lia.
  rewrite mem_write_ok, bind_Ok by lia. rewrite !Nat2Z.id.
  rewrite overlay_field, bind_Ok, write_chunk_index by (rewrite ?length_le_bytes; lia).
  change (repeat 0x00 4) with (le_bytes 4 0).
  rewrite overlay_field, bind_Ok, write_checksum by (rewrite ?length_le_bytes; lia).
  f_equal. unfold with_checksum. cbn. by rewrite <- Hsum.
Qed.

(** The list of indexes as it lies in [lost_chunks]. *)
Definition index_bytes (is_ : list Z) : list Z := concat (map (le_bytes 4) is_).

Lemma length_index_bytes is_ : length (index_bytes is_) = (4 * length is_)%nat.
Proof.
  unfold index_bytes. induction is_ as [|i is_ IH]; [done|]. cbn [map concat length].
  rewrite length_app, length_le_bytes, IH. lia.
Qed.

Definition send_frames (frames : list (list Z)) (st : SendState) : SendState :=
  mk_send_state (packets_sending st) (sending_store st) (requests_sent st) (requests_store st) (wire st ++ frames).

Section chunks.
Context (nd : SwiftNetNetworkData) (eth : ether_header) (mtu ds : Z) (h : ip) (p : SwiftNetPacketInfo).
Context (mem data : list Z).
Hypothesis Hnd : network_ok nd.
Hypothesis Heth : ether_header_ok eth.
Hypothesis Hmtu : PACKET_HEADER_SIZE < mtu /\ mtu + prepend_size nd < 2 ^ 16.
Hypothesis Hds : prepend_size nd + PACKET_HEADER_SIZE <= ds.
Hypothesis Hlen : 0 < Z.of_nat (length data) <= 2 ^ 32 - 2 ^ 16.
Hypothesis Hmem : ds + Z.of_nat (length data) <= Z.of_nat (length mem).
Hypothesis Hdata : slice (Z.to_nat ds) (length data) mem = data.
Hypothesis Hsum : checksum p = 0.
#[local] Abbreviation stride := (mtu - PACKET_HEADER_SIZE).
#[local] Abbreviation len := (Z.of_nat (length data)).
#[local] Abbreviation lh := (link_header nd eth).

Lemma chunk_geometry i :
  0 <= i < chunk_count stride len ->
  u32 (i * stride) = i * stride /\ 0 <= i * stride < len
  /\ u64 (i * stride + u64 stride) = i * stride + stride
  /\ slice (Z.to_nat (ds + i * stride)) (length (chunk_payload stride data i)) mem = chunk_payload stride data i.
Proof.
  intros Hi. change PACKET_HEADER_SIZE with 44 in *. pose proof (prepend_size_range nd Hnd).
  pose proof (chunk_count_bounds (mtu - 44) len ltac:(lia) ltac:(lia)).
  assert (0 <= i * (mtu - 44) < len) by nia. rewrite u32_id by lia.
  rewrite (u64_id (mtu - 44)), u64_id by lia. split_and!; try done; try lia.
  pose proof (chunk_payload_length (mtu - 44) data i ltac:(lia) ltac:(lia) ltac:(lia)) as Hpl.
  set (L := length (chunk_payload (mtu - 44) data i)) in *.
  transitivity (slice (Z.to_nat (i * (mtu - 44))) L (slice (Z.to_nat ds) (length data) mem)).
  - rewrite slice_slice by lia. f_equal. lia.
  - rewrite Hdata. unfold chunk_payload. f_equal. lia.
Qed.

Lemma send_chunk_spec i :
  0 <= i < chunk_count stride len ->
  send_chunk nd mtu len (headers lh h p) ds i mem
  = Ok (len <=? i * stride + stride, chunk_frame lh h p mtu data i, mem).
Proof.
  intros Hi. destruct (chunk_geometry i Hi) as (Hw & Hb & Hw2 & Hslice).
  pose proof (length_link_header nd eth Hnd Heth) as Hl.
  pose proof (chunk_payload_length stride data i ltac:(lia) ltac:(lia) ltac:(lia)) as Hpl.
  unfold send_chunk, chunk_frame. rewrite Hw, Hw2, <- Hl. change PACKET_HEADER_SIZE with 44 in *.
  set (payload := chunk_payload (mtu - 44) data i) in *.
  set (off := Z.to_nat (ds + i * (mtu - 44) - Z.of_nat (length lh) - 44)).
  assert (ds + i * (mtu - 44) - Z.of_nat (length lh) - 44 = Z.of_nat off) as -> by lia.
  assert (off + (length lh + 44) = Z.to_nat (ds + i * (mtu - 44)))%nat as Hoff by lia.
  pose proof (length_headers lh h (with_index i p)) as Hh. pose proof (prepend_size_range nd Hnd) as Hps.
  assert (off + (length lh + 44) + length payload <= length mem)%nat as Hfit by nia.
  unfold sizeof_ip, offsetof_chunk_index, offsetof_checksum, offsetof_ip_len.
  rewrite (overlay_headers lh mem off) by (done || lia).
  destruct (Z.leb_spec len (i * (mtu - 44) + (mtu - 44))) as [Hlast|Hnot].
  - assert (u16 (len - i * (mtu - 44) + 44 + Z.of_nat (length lh)) = Z.of_nat (length lh + 44 + length payload)) as ->
      by (rewrite u16_id; lia).
    replace (Z.of_nat off + Z.of_nat (length lh) + 2) with (Z.of_nat (off + (length lh + 2))) by lia.
    rewrite overlay_field, bind_Ok, write_ip_len by (rewrite ?length_le_bytes; lia).
    rewrite (seal_and_restore lh mem off (length payload)) by first [lia | rewrite u32_id; lia].
    rewrite Hoff, Hslice. repeat f_equal. lia.
  - assert (u16 (Z.of_nat (length lh) + mtu) = Z.of_nat (length lh + 44 + length payload)) as -> by (rewrite u16_id; lia).
    rewrite (seal_and_restore lh mem off (length payload)) by first [lia | rewrite u32_id; lia].
    by rewrite Hoff, Hslice.
Qed.

(** A chunk sent again: for the last one, the new IP length lands in the link header. *)
Definition resent_frame (i : Z) : list Z :=
  let payload := chunk_payload stride data i in
  if len <=? i * stride + stride
  then sealed_frame (blit 2 (le_bytes 2 (htons (u16 (PACKET_HEADER_SIZE + Z.of_nat (length payload))))) lh) h
         (with_index i p) payload
  else sealed_frame lh h (with_index i p) payload.

Lemma resend_chunk_spec i :
  0 <= i < chunk_count stride len ->
  resend_chunk nd mtu len (headers lh h p) ds i mem = Ok (resent_frame i, mem).
Proof.
  intros Hi. destruct (chunk_geometry i Hi) as (Hw & Hb & _ & Hslice).
  pose proof (length_link_header nd eth Hnd Heth) as Hl.
  pose proof (chunk_payload_length stride data i ltac:(lia) ltac:(lia) ltac:(lia)) as Hpl.
  unfold resend_chunk, resent_frame. rewrite Hw, <- Hl. change PACKET_HEADER_SIZE with 44 in *.
  set (payload := chunk_payload (mtu - 44) data i) in *.
  set (off := Z.to_nat (ds + i * (mtu - 44) - Z.of_nat (length lh) - 44)).
  assert (ds + i * (mtu - 44) - Z.of_nat (length lh) - 44 = Z.of_nat off) as -> by lia.
  assert (off + (length lh + 44) = Z.to_nat (ds + i * (mtu - 44)))%nat as Hoff by lia.
  pose proof (length_headers lh h (with_index i p)) as Hh. pose proof (prepend_size_range nd Hnd) as Hps.
  assert (off + (length lh + 44) + length payload <= length mem)%nat as Hfit by nia.
  unfold sizeof_ip, offsetof_chunk_index, offsetof_checksum, offsetof_ip_len.
  rewrite (overlay_headers lh mem off) by (done || lia).
  rewrite u32_id, u64_id by lia.
  replace (i * (mtu - 44) + mtu - 44) with (i * (mtu - 44) + (mtu - 44)) by lia.
  destruct (Z.leb_spec len (i * (mtu - 44) + (mtu - 44))) as [Hlast|Hnot].
  - assert (u16 (len - i * (mtu - 44)) = Z.of_nat (length payload)) as -> by (rewrite u16_id; lia).
    rewrite (Z.add_comm _ 44).
    replace (Z.of_nat off + 2) with (Z.of_nat (off + 2)) by lia.
    rewrite overlay_field, bind_Ok by (rewrite ?length_le_bytes; lia).
    unfold headers at 1. rewrite blit_app_l by (rewrite ?length_le_bytes; lia).
    set (lh' := blit 2 _ lh). assert (length lh' = length lh) as Hlh
      by (apply length_blit; rewrite ?length_le_bytes; lia).
    fold (headers lh' h (with_index i p)). rewrite <- Hlh.
    rewrite (seal_and_restore lh' mem off (length payload)) by (unfold sizeof_SwiftNetPacketInfo; lia).
    by rewrite Hlh, Hoff, Hslice.
  - rewrite (seal_and_restore lh mem off (length payload)) by lia. by rewrite Hoff, Hslice.
Qed.

Lemma resend_chunks_spec done_ is_ rest st :
  (forall i, i ∈ is_ -> 0 <= i < chunk_count stride len) ->
  resend_chunks nd (length is_) (Z.of_nat (length done_)) mtu len (headers lh h p) ds
    (index_bytes done_ ++ index_bytes is_ ++ rest) mem st
  = Ok (mem, send_frames (map resent_frame is_) st).
Proof.
  revert done_ st. induction is_ as [|i is_ IH]; intros done_ st Hi; cbn [resend_chunks length map].
  { unfold send_frames. rewrite app_nil_r. by destruct st. }
  pose proof (length_index_bytes done_) as Hd. pose proof (Hi i ltac:(left)) as Hri.
  rewrite mem_read_ok, bind_Ok by (rewrite ?length_app, ?length_index_bytes; cbn [length]; lia).
  replace (Z.to_nat (4 * Z.of_nat (length done_))) with (length (index_bytes done_)) by lia.
  rewrite slice_app_r, Nat.sub_diag by lia.
  assert (index_bytes (i :: is_) = le_bytes 4 i ++ index_bytes is_) as -> by done.
  rewrite <- app_assoc, slice_app_l by (by rewrite length_le_bytes).
  change (slice 0 (Z.to_nat 4) (le_bytes 4 i)) with (le_bytes 4 i).
  rewrite le_val_le_bytes, Z.mod_small.
  2:{ change PACKET_HEADER_SIZE with 44 in *. pose proof (chunk_count_bounds (mtu - 44) len ltac:(lia) ltac:(lia)). nia. }
  rewrite resend_chunk_spec, bind_Ok by done.
  replace (Z.of_nat (length done_) + 1) with (Z.of_nat (length (done_ ++ [i]))) by (rewrite length_app; cbn; lia).
  assert (index_bytes done_ ++ le_bytes 4 i ++ index_bytes is_ ++ rest
    = index_bytes (done_ ++ [i]) ++ index_bytes is_ ++ rest) as ->.
  { unfold index_bytes. rewrite map_app, concat_app. cbn [map concat]. by rewrite app_nil_r, <- !app_assoc. }
  rewrite IH by (intros j Hj; apply Hi; by right).
  unfold send_frames, SWIFTNET_SEND_PACKET. cbn. by rewrite <- app_assoc.
Qed.

Lemma send_chunks_spec n fuel i st :
  0 <= i -> i + Z.of_nat (S n) = chunk_count stride len -> (n < fuel)%nat ->
  send_chunks nd fuel mtu len (headers lh h p) ds i mem st
  = Ok (mem, send_frames (map (chunk_frame lh h p mtu data) (seqZ i (Z.of_nat (S n)))) st).
Proof.
  revert fuel i st. induction n as [|n IH]; intros fuel i st Hi Hn Hf; (destruct fuel as [|fuel]; [lia|]).
  - cbn [send_chunks]. rewrite send_chunk_spec, bind_Ok by lia. cbv zeta.
    destruct (Z.leb_spec len (i * stride + stride)) as [_|Hno].
    + unfold seqZ, send_frames, SWIFTNET_SEND_PACKET. cbn. done.
    + pose proof (proj2 (last_chunk_iff stride len i ltac:(lia) ltac:(lia) ltac:(lia)) ltac:(lia)). lia.
  - cbn [send_chunks]. rewrite send_chunk_spec, bind_Ok by lia. cbv zeta.
    destruct (Z.leb_spec len (i * stride + stride)) as [Hl|Hno].
    { pose proof (proj1 (last_chunk_iff stride len i ltac:(lia) ltac:(lia) ltac:(lia)) Hl). lia. }
    destruct (chunk_geometry (i + 1) ltac:(lia)) as (_ & Hb & _). change PACKET_HEADER_SIZE with 44 in *.
    rewrite u32_id by nia. rewrite IH by lia.
    unfold send_frames, SWIFTNET_SEND_PACKET. cbn. rewrite <- app_assoc. do 4 f_equal.
    rewrite (seqZ_cons i) by lia. cbn. do 3 f_equal; lia.
Qed.
End chunks.

(** ** Waiting for the receiver *)

(** The actions of the receiving thread on a packet being sent (the handlers of
    src/src/process_packets.c, shown to be these in ProcessPackets.v). *)
Definition action_lost (block : list Z) (is_ : list Z) (p : SwiftNetPacketSending) : SwiftNetPacketSending :=
  mk_packet_sending (Some (index_bytes is_ ++ block)) UPDATED_LOST_CHUNKS (current_send_delay p)
    (Z.of_nat (length is_)) (sending_packet_id p) (sending_locked p).
Definition action_done : SwiftNetPacketSending -> SwiftNetPacketSending := set_updated SUCCESSFULLY_RECEIVED.

(** A script: in each round the sender polls [n] times in vain, then learns which
    chunks are lost; at the end the receiver confirms the packet. *)
Definition env_script (rounds : list (nat * list Z * list Z)) (final : nat)
    : list (SwiftNetPacketSending -> SwiftNetPacketSending) :=
  concat (map (fun '(n, is_, block) => repeat id n ++ [action_lost block is_]) rounds)
  ++ repeat id final ++ [action_done].

(** The request goes out once, and again after every 255 polls. *)
Definition requests_during (raw : list Z) (n : nat) : list (list Z) := repeat raw (S (n / 255)).

Definition set_obj (l : loc) (p : SwiftNetPacketSending) (st : SendState) : SendState :=
  set_sending (packets_sending st) (<[l := p]> (sending_store st)) st.

Lemma poll_updates_spec raw l n f env t st p :
  sending_store st !! l = Some p -> updated p = NO_UPDATE -> updated (f p) <> NO_UPDATE -> 0 <= t < 255 ->
  poll_updates raw l (repeat id n ++ f :: env) t st
  = Ok (if decide (updated (f p) = UPDATED_LOST_CHUNKS) then REQUEST_LOST_PACKETS_RETURN_UPDATED_BIT_ARRAY
        else REQUEST_LOST_PACKETS_RETURN_COMPLETED_PACKET,
        send_frames (repeat raw (Z.to_nat ((t + Z.of_nat n) / 255))) (set_obj l (set_updated NO_UPDATE (f p)) st), env).
Proof.
  intros Hl Hn Hf. revert t st Hl. induction n as [|n IH]; intros t st Hl Ht; cbn [repeat app poll_updates].
  - rewrite (store_update_ok _ _ _ p), bind_Ok by done. unfold store_get. rewrite lookup_insert_eq.
    cbn [of_option]. rewrite bind_Ok. cbv zeta. rewrite Z.div_small by lia.
    unfold send_frames, set_obj, set_sending. cbn. rewrite app_nil_r, insert_insert_eq.
    destruct (updated (f p)); done.
  - rewrite (store_update_ok _ _ _ p), bind_Ok by done. unfold store_get. rewrite lookup_insert_eq.
    cbn [of_option id]. rewrite bind_Ok. cbv zeta. rewrite Hn, insert_id by done.
    replace (set_sending (packets_sending st) (sending_store st) st) with st by (by destruct st).
    destruct (Z.ltb_spec (t + 1) 0xFF) as [Hlt|Hge].
    + rewrite IH by (done || lia). by replace (t + 1 + Z.of_nat n) with (t + Z.of_nat (S n)) by lia.
    + rewrite IH by (done || lia). do 2 f_equal. unfold send_frames, set_obj, set_sending, SWIFTNET_SEND_PACKET. cbn.
      rewrite <- app_assoc. do 2 f_equal.
      replace (t + Z.of_nat (S n)) with (Z.of_nat n + 1 * 255) by lia. rewrite Z.div_add by lia.
      rewrite Z.add_0_l. pose proof (Z.div_pos (Z.of_nat n) 255).
      replace (Z.to_nat (Z.of_nat n / 255 + 1)) with (S (Z.to_nat (Z.of_nat n / 255))) by lia. done.
Qed.

Lemma request_spec raw l n f env st p :
  sending_store st !! l = Some p -> updated p = NO_UPDATE -> updated (f p) <> NO_UPDATE ->
  request_lost_packets_bitarray raw l (repeat id n ++ f :: env) st
  = Ok (if decide (updated (f p) = UPDATED_LOST_CHUNKS) then REQUEST_LOST_PACKETS_RETURN_UPDATED_BIT_ARRAY
        else REQUEST_LOST_PACKETS_RETURN_COMPLETED_PACKET,
        send_frames (requests_during raw n) (set_obj l (set_updated NO_UPDATE (f p)) st), env).
Proof.
  intros Hl Hn Hf. unfold request_lost_packets_bitarray. rewrite (poll_updates_spec _ _ _ _ _ _ _ p) by (done || lia).
  unfold send_frames, set_obj, set_sending, SWIFTNET_SEND_PACKET, requests_during. cbn. rewrite <- app_assoc. do 5 f_equal.
  rewrite Z.add_0_l. change 255 with (Z.of_nat 255) at 1. by rewrite <- Nat2Z.inj_div, Nat2Z.id.
Qed.

Section lost.
Context (nd : SwiftNetNetworkData) (eth : ether_header) (mtu ds : Z) (h : ip) (p : SwiftNetPacketInfo).
Context (mem data : list Z).
Hypothesis Hnd : network_ok nd.
Hypothesis Heth : ether_header_ok eth.
Hypothesis Hmtu : PACKET_HEADER_SIZE < mtu /\ mtu + prepend_size nd < 2 ^ 16.
Hypothesis Hds : prepend_size nd + PACKET_HEADER_SIZE <= ds.
Hypothesis Hlen : 0 < Z.of_nat (length data) <= 2 ^ 32 - 2 ^ 16.
Hypothesis Hmem : ds + Z.of_nat (length data) <= Z.of_nat (length mem).
Hypothesis Hdata : slice (Z.to_nat ds) (length data) mem = data.
Hypothesis Hsum : checksum p = 0.
#[local] Abbreviation resent := (resent_frame nd eth mtu h p data).

(** The frames of a whole exchange. *)
Definition exchange_wire (raw : list Z) (rounds : list (nat * list Z * list Z)) (final : nat) : list (list Z) :=
  concat (map (fun '(n, is_, _) => requests_during raw n ++ map resent is_) rounds) ++ requests_during raw final.

Lemma handle_lost_loop_spec raw l rounds final fuel st q :
  sending_store st !! l = Some q -> updated q = NO_UPDATE ->
  (forall n is_ block i, (n, is_, block) ∈ rounds -> i ∈ is_ ->
     0 <= i < chunk_count (mtu - PACKET_HEADER_SIZE) (Z.of_nat (length data))) ->
  (length rounds < fuel)%nat ->
  handle_lost_loop nd fuel raw (headers (link_header nd eth) h p) mtu (Z.of_nat (length data)) ds l
    (env_script rounds final) mem st
  = Ok (mem, send_frames (exchange_wire raw rounds final)
              (set_sending (al_remove (sending_packet_id q) (packets_sending st)) (delete l (sending_store st)) st)).
Proof.
  revert fuel st q. induction rounds as [|[[n is_] block] rounds IH]; intros fuel st q Hl Hq Hin Hf;
    (destruct fuel as [|fuel]; [cbn in Hf; lia|]); cbn [handle_lost_loop].
  - unfold env_script. cbn [map concat app].
    rewrite (request_spec _ _ _ _ _ _ q) by done. rewrite bind_Ok. cbn [sending_store set_obj send_frames set_sending].
    rewrite decide_False by done. unfold store_free, store_get. rewrite lookup_insert_eq. cbn [of_option].
    rewrite !bind_Ok. do 2 f_equal. unfold send_frames, set_obj, set_sending, exchange_wire. cbn.
    by rewrite delete_insert_eq.
  - assert (env_script ((n, is_, block) :: rounds) final
      = repeat id n ++ action_lost block is_ :: env_script rounds final) as ->.
    { unfold env_script. cbn [map concat]. by rewrite <- !app_assoc. }
    rewrite (request_spec _ _ _ _ _ _ q) by done. rewrite bind_Ok. rewrite decide_True by done.
    cbn [sending_store set_obj send_frames set_sending]. unfold store_get. rewrite lookup_insert_eq.
    cbn [of_option]. rewrite bind_Ok. cbn [lost_chunks lost_chunks_size set_updated action_lost]. cbv zeta.
    cbn [default from_option id]. rewrite Nat2Z.id.
    pose proof (resend_chunks_spec nd eth mtu ds h p mem data Hnd Heth Hmtu Hds Hlen Hmem Hdata Hsum [] is_ block) as Hr.
    cbn [length index_bytes map concat app] in Hr. change (Z.of_nat 0) with 0 in Hr.
    rewrite Hr by (intros i Hi; by eapply Hin; [left|]). rewrite bind_Ok. clear Hr.
    rewrite (IH _ _ (set_updated NO_UPDATE (action_lost block is_ q))).
    + do 2 f_equal. unfold send_frames, set_obj, set_sending, exchange_wire.
      cbn [packets_sending sending_store requests_sent requests_store wire map concat sending_packet_id set_updated action_lost].
      rewrite delete_insert_eq, <- !app_assoc. done.
    + cbn. apply lookup_insert_eq.
    + done.
    + intros n' is' b' i Hi. eapply Hin. by right.
    + cbn in Hf. lia.
Qed.
End lost.

(** ** Sending a packet *)
Lemma compute_chunk_amount_ok mtu len :
  PACKET_HEADER_SIZE < mtu < 2 ^ 16 -> 0 < len <= 2 ^ 32 - 2 ^ 16 ->
  compute_chunk_amount mtu len = Ok (chunk_count (mtu - PACKET_HEADER_SIZE) len).
Proof.
  intros Hm Hl. unfold compute_chunk_amount. change PACKET_HEADER_SIZE with 44 in *.
  rewrite (u64_id (mtu - 44)) by lia. destruct (Z.eqb_spec (mtu - 44) 0); [lia|].
  rewrite u64_id by lia. fold (chunk_count (mtu - 44) len). f_equal.
  pose proof (chunk_count_bounds (mtu - 44) len ltac:(lia) ltac:(lia)).
  pose proof (chunk_count_pos (mtu - 44) len ltac:(lia) ltac:(lia)). apply u32_id. nia.
Qed.

(** The request for lost chunks, as a frame. *)
Definition lost_request_frame (g : Globals) (nd : SwiftNetNetworkData) (eth : ether_header) (dst id : Z)
    (ports : SwiftNetPortInfo) : list Z :=
  sealed_frame (link_header nd eth) (construct_ip_header g dst PACKET_HEADER_SIZE id)
    (construct_packet_info g 0x00 (packet_type_code SEND_LOST_PACKETS_REQUEST) 1 0 ports) [].

Lemma request_frame_built g nd eth dst id ports :
  network_ok nd -> ether_header_ok eth ->
  (b ← HANDLE_PACKET_CONSTRUCTION g (construct_ip_header g dst PACKET_HEADER_SIZE id)
         (construct_packet_info g 0x00 (packet_type_code SEND_LOST_PACKETS_REQUEST) 1 0 ports) nd eth
         (PACKET_HEADER_SIZE + prepend_size nd);
   HANDLE_CHECKSUM b (prepend_size nd + sizeof_ip) sizeof_SwiftNetPacketInfo)
  = Ok (lost_request_frame g nd eth dst id ports).
Proof. intros Hnd He. by apply header_frame_built. Qed.

Lemma env_script_length rounds final : (length rounds < length (env_script rounds final))%nat.
Proof.
  unfold env_script. rewrite !length_app. cbn [length].
  induction rounds as [|[[m is_] b] rounds IH]; cbn [map concat length]; [lia|].
  rewrite !length_app. cbn [length]. lia.
Qed.

Lemma send_fragmented_spec g nd eth mtu ports packet cap data dst id ty rounds final st :
  network_ok nd -> ether_header_ok eth ->
  PACKET_HEADER_SIZE < mtu -> mtu + prepend_size nd < 2 ^ 16 ->
  buffer_holds cap data packet -> 0 < Z.of_nat (length data) <= 2 ^ 32 - 2 ^ 16 ->
  al_get id (packets_sending st) = None ->
  let n := chunk_count (mtu - PACKET_HEADER_SIZE) (Z.of_nat (length data)) in
  (forall k is_ block i, (k, is_, block) ∈ rounds -> i ∈ is_ -> 0 <= i < n) ->
  let info := construct_packet_info g (Z.of_nat (length data)) ty n 0 ports in
  let hdr := construct_ip_header g dst mtu id in
  send_fragmented g nd eth mtu ports packet (Z.of_nat (length data)) dst id ty n (env_script rounds final) st
  = Ok (packet,
      send_frames
        (map (chunk_frame (link_header nd eth) (with_ip_len (htons (u16 (mtu + prepend_size nd))) hdr) info mtu data) (seqZ 0 n)
         ++ exchange_wire nd eth mtu hdr info data (lost_request_frame g nd eth dst id ports) rounds final) st).
Proof.
  intros Hnd He Hm1 Hm2 Hb Hlen Hget n Hr info hdr. destruct Hb as [Hbl Hbs Hbd Hba Hbr Hbc]. unfold send_fragmented. fold info.
  fold hdr. fold (with_ip_len (htons (u16 (mtu + prepend_size nd))) hdr).
  assert (prepend_size nd + PACKET_HEADER_SIZE <= data_offset)
    by (pose proof (prepend_size_range nd Hnd); change data_offset with 58; change PACKET_HEADER_SIZE with 44; lia).
  assert (0 < n) as Hn by (apply chunk_count_pos; lia).
  cbn [store_alloc]. rewrite construction_headers, bind_Ok by done. rewrite Hbd.
  destruct packet as [mem start dstart app]. cbn [packet_memory packet_data_start packet_buffer_start packet_append_pointer] in *.
  rewrite (send_chunks_spec nd eth mtu data_offset _ info mem data) with (n := Z.to_nat (n - 1)); try done; try lia.
  rewrite bind_Ok. unfold handle_lost_packets. unfold store_get at 1. cbn [sending_store send_frames set_sending].
  rewrite lookup_insert_eq. cbn [of_option]. rewrite bind_Ok. cbn [sending_packet_id].
  replace (mk_port_info (destination_port ports) (source_port ports)) with ports by (by destruct ports).
  pose proof (request_frame_built g nd eth dst id ports Hnd He) as Hreq.
  apply bind_ok in Hreq as (b & -> & Hreq). rewrite bind_Ok, Hreq, bind_Ok.
  rewrite construction_headers, bind_Ok by done. fold info hdr. cbn [packet_memory packet_data_start packet_buffer_start packet_append_pointer].
  rewrite (handle_lost_loop_spec nd eth mtu data_offset hdr info mem data) with
    (q := mk_packet_sending None NO_UPDATE 50 0 id false); try done; try lia.
  - rewrite bind_Ok. f_equal. f_equal; [by rewrite Hbd|]. unfold send_frames, set_sending.
    cbn [packets_sending sending_store requests_sent requests_store wire sending_packet_id].
    rewrite al_remove_insert by done. rewrite delete_insert_id by apply store_next_fresh.
    rewrite <- app_assoc. replace (Z.of_nat (S (Z.to_nat (n - 1)))) with n by lia. by destruct st.
  - cbn. apply lookup_insert_eq.
  - pose proof (env_script_length rounds final). lia.
Qed.

(** The branch for short packets. *)
Lemma write_single_headers (lh mem : list Z) h p (off : nat) :
  (off + length lh = 14)%nat -> (58 <= length mem)%nat ->
  (m ← mem_write (Z.of_nat off) lh mem;
   m ← mem_write 14 (ip_bytes h) m;
   mem_write (14 + 20) (packet_info_bytes p) m) = Ok (blit off (headers lh h p) mem).
Proof.
  intros Hoff Hm. rewrite mem_write_ok, bind_Ok by lia. rewrite Nat2Z.id.
  rewrite mem_write_ok, bind_Ok by (rewrite ?length_blit, ?length_ip_bytes; lia).
  replace (Z.to_nat 14) with (off + length lh)%nat by lia.
  rewrite blit_blit_adjacent by (rewrite length_ip_bytes; lia).
  rewrite mem_write_ok by (rewrite ?length_blit, ?length_packet_info_bytes; rewrite ?length_app, ?length_ip_bytes; lia).
  replace (Z.to_nat (14 + 20)) with (off + length (lh ++ ip_bytes h))%nat by (rewrite length_app, length_ip_bytes; lia).
  rewrite blit_blit_adjacent by (rewrite length_app, length_ip_bytes, length_packet_info_bytes; lia).
  by rewrite <- app_assoc.
Qed.

Lemma send_single_frame_spec (lh : list Z) h p packet cap data st lo size :
  lo + Z.of_nat (length lh) = 14 -> 0 <= lo -> buffer_holds cap data packet ->
  size = Z.of_nat (length lh) + 44 + Z.of_nat (length data) ->
  exists packet',
    send_single_frame packet (Z.of_nat (length data)) lo lh h p size st
    = Ok (packet', send_frames [sealed_frame lh h p data] st) /\ buffer_holds cap data packet'.
Proof.
  intros Hlo Hlo0 [Hbl Hbs Hbd Hba Hbr Hbc] ->. change data_offset with 58 in *.
  assert (exists off, lo = Z.of_nat off /\ (off + length lh = 14)%nat) as (off & -> & Hoff)
    by (exists (Z.to_nat lo); lia).
  unfold send_single_frame. rewrite Hbs, Hbd, !Z.add_0_l. set (mem := packet_memory packet) in *.
  pose proof (write_single_headers lh mem h p off Hoff ltac:(lia)) as Hw.
  apply bind_ok in Hw as (m1 & Hm1 & Hw). apply bind_ok in Hw as (m2 & Hm2 & Hm3).
  unfold sizeof_ether_header, sizeof_ip, sizeof_SwiftNetPacketInfo. change PACKET_HEADER_SIZE with 44.
  rewrite Hm1, bind_Ok, Hm2, bind_Ok, Hm3, bind_Ok.
  pose proof (length_headers lh h p) as Hh.
  set (m := blit off (headers lh h p) mem). assert (length m = length mem) as Hm by (apply length_blit; lia).
  change (Z.to_nat 58) with 58%nat in Hbc.
  assert (slice 58 (length data) m = data) as Hd by (unfold m; rewrite slice_blit_other by lia; done).
  rewrite mem_read_ok, bind_Ok by lia. rewrite Nat2Z.id. change (Z.to_nat 58) with 58%nat. rewrite Hd.
  rewrite mem_write_ok, bind_Ok by lia. change (Z.to_nat (44 + 14)) with 58%nat.
  rewrite blit_id by (done || lia). unfold m.
  replace (58 - 24) with (Z.of_nat (off + length lh) + sizeof_ip) by (unfold sizeof_ip; lia).
  replace (Z.of_nat (length data) + 24) with (Z.of_nat (length lh + 44 + length data - length lh - 20)) by lia.
  rewrite seal_in_place, bind_Ok by lia.
  pose proof (sealed_slice lh h p mem off (length lh + 44 + length data) ltac:(lia) ltac:(lia)) as Hs. cbv zeta in Hs.
  replace (off + (length lh + 44))%nat with 58%nat in * by lia.
  replace (length lh + 44 + length data - (length lh + 44))%nat with (length data) in * by lia. rewrite Hbc in *.
  pose proof (length_headers lh h (sealed_info p data)) as Hh2.
  rewrite mem_read_ok, bind_Ok by (rewrite ?length_blit; lia). rewrite Nat2Z.id.
  replace (Z.to_nat (Z.of_nat (length lh) + 44 + Z.of_nat (length data))) with (length lh + 44 + length data)%nat by lia.
  rewrite Hs. eexists. split; [done|].
  constructor; cbn [packet_memory packet_buffer_start packet_data_start packet_append_pointer]; try done.
  - rewrite length_blit by lia. done.
  - change (Z.to_nat data_offset) with 58%nat. rewrite slice_blit_other by lia. done.
Qed.

Lemma send_single_spec g nd eth ports packet cap data dst id ty st :
  network_ok nd -> ether_header_ok eth ->
  buffer_holds cap data packet -> Z.of_nat (length data) + data_offset < 2 ^ 16 ->
  exists packet',
    send_single g nd eth ports packet (Z.of_nat (length data)) dst id ty st
    = Ok (packet', send_frames [sealed_frame (link_header nd eth)
                      (construct_ip_header g dst (PACKET_HEADER_SIZE + Z.of_nat (length data)) id)
                      (construct_packet_info g (Z.of_nat (length data)) ty 1 0 ports) data] st)
    /\ buffer_holds cap data packet'.
Proof.
  intros Hnd He Hb Hlen. change data_offset with 58 in *.
  pose proof (length_link_header nd eth Hnd He) as Hl. pose proof (prepend_size_range nd Hnd) as Hps.
  unfold send_single. change PACKET_HEADER_SIZE with 44 in *. rewrite u16_id by lia.
  replace (prepend_size nd + 44 + Z.of_nat (length data) - prepend_size nd) with (44 + Z.of_nat (length data)) by lia.
  unfold link_header in *.
  destruct Hnd as [[Ht|Ht] Hp]; rewrite Ht in *; cbn [Z.eqb DLT_NULL DLT_EN10MB] in *;
    apply send_single_frame_spec; try done; unfold sizeof_ether_header; change (PACKET_PREPEND_SIZE DLT_EN10MB) with 14 in *;
    change (PACKET_PREPEND_SIZE DLT_NULL) with 4 in *; lia.
Qed.

(** ** Properties *)

(** The wire of a fragmented send. *)
Lemma fragmented_send g nd eth target_mtu ports packet cap data dst (response : bool) rid rnd rounds final st :
  network_ok nd -> ether_header_ok eth ->
  let mtu := Z.min target_mtu (maximum_transmission_unit g) in
  PACKET_HEADER_SIZE < mtu -> mtu + prepend_size nd < 2 ^ 16 ->
  buffer_holds cap data packet -> mtu < Z.of_nat (length data) <= 2 ^ 32 - 2 ^ 16 ->
  let id := if response then rid else u16 rnd in
  al_get id (packets_sending st) = None ->
  let stride := mtu - PACKET_HEADER_SIZE in
  let n := chunk_count stride (Z.of_nat (length data)) in
  (forall k is_ block i, (k, is_, block) ∈ rounds -> i ∈ is_ -> 0 <= i < n) ->
  let info := construct_packet_info g (Z.of_nat (length data))
                (packet_type_code (if response then RESPONSE else MESSAGE)) n 0 ports in
  let hdr := construct_ip_header g dst mtu id in
  swiftnet_send_packet g nd eth target_mtu ports packet (Z.of_nat (length data)) dst None response rid rnd
    (env_script rounds final) st
  = Ok (packet,
      send_frames
        (map (chunk_frame (link_header nd eth) (with_ip_len (htons (u16 (mtu + prepend_size nd))) hdr) info mtu data) (seqZ 0 n)
         ++ exchange_wire nd eth mtu hdr info data (lost_request_frame g nd eth dst id ports) rounds final) st).
Proof.
  intros Hnd He mtu Hm1 Hm2 Hb Hlen id Hget stride n Hr info hdr.
  assert (PACKET_HEADER_SIZE = 44) as Hp by done.
  unfold swiftnet_send_packet. fold mtu id. rewrite bind_Ok.
  rewrite compute_chunk_amount_ok, bind_Ok by (pose proof (prepend_size_range nd Hnd); lia).
  rewrite (proj2 (Z.ltb_lt _ _)) by lia. fold stride n.
  pose proof (send_fragmented_spec g nd eth mtu ports packet cap data dst id
    (packet_type_code (if response then RESPONSE else MESSAGE)) rounds final st Hnd He Hm1 Hm2 Hb ltac:(lia) Hget Hr) as Hs.
  destruct response; exact Hs.
Qed.

(** C6 Fragmentation: a packet longer than the MTU leaves as [ceil(length / stride)]
    frames, one per chunk in order; frame [i] is the link header, the IP header, the
    packet information with index [i] and a checksum over information and payload,
    and the [i]-th piece of the data, and the pieces put together are the data.
    Then the exchange runs: per round the lost-chunk request (again after every 255
    polls) and the chunks the receiver listed.  When the receiver confirms, the
    function returns with the packet buffer exactly as it was and the table of
    packets being sent as before. *)
Theorem fragmented_send_exact g nd eth target_mtu ports packet cap data dst (response : bool) rid rnd rounds final st :
  network_ok nd -> ether_header_ok eth ->
  let mtu := Z.min target_mtu (maximum_transmission_unit g) in
  PACKET_HEADER_SIZE < mtu -> mtu + prepend_size nd < 2 ^ 16 ->
  buffer_holds cap data packet -> mtu < Z.of_nat (length data) <= 2 ^ 32 - 2 ^ 16 ->
  let id := if response then rid else u16 rnd in
  al_get id (packets_sending st) = None ->
  let stride := mtu - PACKET_HEADER_SIZE in
  let n := chunk_count stride (Z.of_nat (length data)) in
  (forall k is_ block i, (k, is_, block) ∈ rounds -> i ∈ is_ -> 0 <= i < n) ->
  let info := construct_packet_info g (Z.of_nat (length data))
                (packet_type_code (if response then RESPONSE else MESSAGE)) n 0 ports in
  let hdr := construct_ip_header g dst mtu id in
  swiftnet_send_packet g nd eth target_mtu ports packet (Z.of_nat (length data)) dst None response rid rnd
    (env_script rounds final) st
  = Ok (packet,
      send_frames
        (map (chunk_frame (link_header nd eth) (with_ip_len (htons (u16 (mtu + prepend_size nd))) hdr) info mtu data) (seqZ 0 n)
         ++ exchange_wire nd eth mtu hdr info data (lost_request_frame g nd eth dst id ports) rounds final) st)
  /\ concat (map (fun i => chunk_payload stride data (Z.of_nat i)) (seq 0 (Z.to_nat n))) = data.
Proof.
  intros Hnd He mtu Hm1 Hm2 Hb Hlen id Hget stride n Hr info hdr. split; [by apply fragmented_send with (cap := cap)|].
  assert (PACKET_HEADER_SIZE = 44) by done. apply chunks_concat; lia.
Qed.

Definition st0 : SendState := mk_send_state [] ∅ [] ∅ [].

Lemma fragmented_send_exact_witness :
  exists packet frames, append_all true [seqZ 0 60] (create_packet_buffer g0 true 60) = Ok packet
    /\ swiftnet_send_packet g0 nd_ethernet eth0 54 (mk_port_info 8080 4000) packet 60 0x0201A8C0 None false 0 7
         (env_script [(3%nat, [1; 4], []); (0%nat, [5], [])] 300) st0 = Ok (packet, send_frames frames st0)
    /\ length frames = 13%nat.
Proof.
  destruct (append_all_holds true 60 [seqZ 0 60] [] (create_packet_buffer g0 true 60)) as (packet & Hp & Hb).
  { apply create_holds. lia. }
  { vm_compute. discriminate. }
  { intros x Hx. apply list_elem_of_singleton in Hx. by subst. }
  exists packet. eexists. split; [exact Hp|]. split.
  - pose proof (fragmented_send_exact g0 nd_ethernet eth0 54 (mk_port_info 8080 4000) packet 60 (seqZ 0 60)
      0x0201A8C0 false 0 7 [(3%nat, [1; 4], []); (0%nat, [5], [])] 300 st0 nd_ethernet_ok eth0_ok) as H.
    destruct H as [H _]; [done|done|exact Hb|done|done| |exact H].
    intros k is_ block i Hk Hi. rewrite !elem_of_cons, elem_of_nil in Hk.
    destruct Hk as [[= -> -> ->]|[[= -> -> ->]|[]]]; rewrite !elem_of_cons, elem_of_nil in Hi;
      repeat (destruct Hi as [->|Hi]; [vm_compute; split; congruence|]); done.
  - vm_compute. reflexivity.
Defined.

(** The wire of a send that is not fragmented. *)
Lemma short_send g nd eth target_mtu ports packet cap data dst (response : bool) rid rnd env st :
  network_ok nd -> ether_header_ok eth ->
  let mtu := Z.min target_mtu (maximum_transmission_unit g) in
  PACKET_HEADER_SIZE < mtu -> mtu + data_offset < 2 ^ 16 ->
  buffer_holds cap data packet -> 0 < Z.of_nat (length data) <= mtu ->
  let id := if response then rid else u16 rnd in
  exists packet',
    swiftnet_send_packet g nd eth target_mtu ports packet (Z.of_nat (length data)) dst None response rid rnd env st
    = Ok (packet',
        send_frames [sealed_frame (link_header nd eth)
          (construct_ip_header g dst (PACKET_HEADER_SIZE + Z.of_nat (length data)) id)
          (construct_packet_info g (Z.of_nat (length data))
             (packet_type_code (if response then RESPONSE else MESSAGE)) 1 0 ports) data] st)
    /\ buffer_holds cap data packet'.
Proof.
  intros Hnd He mtu Hm1 Hm2 Hb Hlen id. assert (PACKET_HEADER_SIZE = 44) by done.
  assert (data_offset = 58) by done. unfold swiftnet_send_packet. fold mtu id. rewrite bind_Ok.
  rewrite compute_chunk_amount_ok, bind_Ok by lia. rewrite (proj2 (Z.ltb_ge _ _)) by lia.
  pose proof (send_single_spec g nd eth ports packet cap data dst id
    (packet_type_code (if response then RESPONSE else MESSAGE)) st Hnd He Hb ltac:(lia)) as Hs.
  destruct response; exact Hs.
Qed.

(** C29 A packet that fits the MTU leaves as one sealed frame whose payload is the
    data; the buffer still holds the data afterwards, and no entry is made in the
    table of packets being sent. *)
Theorem short_send_exact g nd eth target_mtu ports packet cap data dst (response : bool) rid rnd env st :
  network_ok nd -> ether_header_ok eth ->
  let mtu := Z.min target_mtu (maximum_transmission_unit g) in
  PACKET_HEADER_SIZE < mtu -> mtu + data_offset < 2 ^ 16 ->
  buffer_holds cap data packet -> 0 < Z.of_nat (length data) <= mtu ->
  let id := if response then rid else u16 rnd in
  exists packet',
    swiftnet_send_packet g nd eth target_mtu ports packet (Z.of_nat (length data)) dst None response rid rnd env st
    = Ok (packet',
        send_frames [sealed_frame (link_header nd eth)
          (construct_ip_header g dst (PACKET_HEADER_SIZE + Z.of_nat (length data)) id)
          (construct_packet_info g (Z.of_nat (length data))
             (packet_type_code (if response then RESPONSE else MESSAGE)) 1 0 ports) data] st)
    /\ buffer_holds cap data packet'.
Proof. apply short_send. Qed.

Lemma short_send_exact_witness :
  exists packet packet' frame, append_all true [seqZ 0 60] (create_packet_buffer g0 true 60) = Ok packet
    /\ swiftnet_send_packet g0 nd_loopback eth0 1500 (mk_port_info 8080 4000) packet 60 0x0201A8C0 None true 77 7 [] st0
       = Ok (packet', send_frames [frame] st0)
    /\ buffer_holds 60 (seqZ 0 60) packet'.
Proof.
  destruct (append_all_holds true 60 [seqZ 0 60] [] (create_packet_buffer g0 true 60)) as (packet & Hp & Hb).
  { apply create_holds. lia. }
  { vm_compute. discriminate. }
  { intros x Hx. apply list_elem_of_singleton in Hx. by subst. }
  destruct (short_send_exact g0 nd_loopback eth0 1500 (mk_port_info 8080 4000) packet 60 (seqZ 0 60) 0x0201A8C0
    true 77 7 [] st0 nd_loopback_ok eth0_ok) as (packet' & Hs & Hb'); [done|done|exact Hb|done|].
  exists packet, packet'. eexists. split; [exact Hp|]. split; [exact Hs|exact Hb'].
Defined.

(** The conditions under which a chunk can be sent from the packet buffer [mem]. *)
Definition sendable (nd : SwiftNetNetworkData) (eth : ether_header) (mtu ds : Z) (p : SwiftNetPacketInfo)
    (mem data : list Z) : Prop :=
  network_ok nd /\ ether_header_ok eth /\ (PACKET_HEADER_SIZE < mtu /\ mtu + prepend_size nd < 2 ^ 16)
  /\ prepend_size nd + PACKET_HEADER_SIZE <= ds /\ 0 < Z.of_nat (length data) <= 2 ^ 32 - 2 ^ 16
  /\ ds + Z.of_nat (length data) <= Z.of_nat (length mem) /\ slice (Z.to_nat ds) (length data) mem = data
  /\ checksum p = 0.

Lemma sealed_after_ip lh h p payload :
  drop (length lh + 20) (sealed_frame lh h p payload) = packet_info_bytes (sealed_info p payload) ++ payload.
Proof.
  unfold sealed_frame, headers. rewrite <- !app_assoc, app_assoc, drop_app_ge by (rewrite length_app, length_ip_bytes; lia).
  rewrite length_app, length_ip_bytes, Nat.sub_diag. done.
Qed.

(** Retransmission of a chunk that is not the last: whatever was in the IP headers
    of the two transmissions, the frame sent again has the same packet information
    (index, lengths, ports, checksum) and the same payload as the first one, and
    both leave the packet buffer unchanged. *)
Theorem resent_chunk_equals_sent nd eth mtu ds h1 h2 p mem data i :
  sendable nd eth mtu ds p mem data ->
  0 <= i < chunk_count (mtu - PACKET_HEADER_SIZE) (Z.of_nat (length data)) - 1 ->
  exists f1 f2,
    send_chunk nd mtu (Z.of_nat (length data)) (headers (link_header nd eth) h1 p) ds i mem = Ok (false, f1, mem)
    /\ resend_chunk nd mtu (Z.of_nat (length data)) (headers (link_header nd eth) h2 p) ds i mem = Ok (f2, mem)
    /\ drop (Z.to_nat (prepend_size nd + sizeof_ip)) f1 = drop (Z.to_nat (prepend_size nd + sizeof_ip)) f2
    /\ take (Z.to_nat (prepend_size nd)) f1 = take (Z.to_nat (prepend_size nd)) f2.
Proof.
  intros (Hnd & He & Hmtu & Hds & Hlen & Hmem & Hdata & Hsum) Hi.
  pose proof (send_chunk_spec nd eth mtu ds h1 p mem data Hnd He Hmtu Hds Hlen Hmem Hdata Hsum i ltac:(lia)) as H1.
  pose proof (resend_chunk_spec nd eth mtu ds h2 p mem data Hnd He Hmtu Hds Hlen Hmem Hdata Hsum i ltac:(lia)) as H2.
  unfold chunk_frame in H1. unfold resent_frame in H2.
  destruct (Z.leb_spec (Z.of_nat (length data)) (i * (mtu - PACKET_HEADER_SIZE) + (mtu - PACKET_HEADER_SIZE))) as [Hl|_].
  { pose proof (proj1 (last_chunk_iff (mtu - PACKET_HEADER_SIZE) (Z.of_nat (length data)) i ltac:(lia) ltac:(lia) ltac:(lia)) Hl). lia. }
  do 2 eexists. split; [exact H1|]. split; [exact H2|].
  pose proof (length_link_header nd eth Hnd He) as Hl. unfold sizeof_ip. rewrite <- Hl.
  replace (Z.to_nat (Z.of_nat (length (link_header nd eth)) + 20)) with (length (link_header nd eth) + 20)%nat by lia.
  rewrite !sealed_after_ip, Nat2Z.id. split; [done|].
  unfold sealed_frame, headers. rewrite <- !app_assoc, !take_app_le by lia. done.
Qed.

Lemma resent_chunk_equals_sent_witness :
  exists f1 f2 : list Z, exists mem : list Z,
    send_chunk nd_loopback 54 25 (headers (link_header nd_loopback eth0) (construct_ip_header g0 1 54 9)
      (construct_packet_info g0 25 1 3 0 (mk_port_info 1 2))) 58 1 mem = Ok (false, f1, mem)
    /\ resend_chunk nd_loopback 54 25 (headers (link_header nd_loopback eth0) (construct_ip_header g0 1 50 9)
      (construct_packet_info g0 25 1 3 0 (mk_port_info 1 2))) 58 1 mem = Ok (f2, mem)
    /\ drop (Z.to_nat (prepend_size nd_loopback + sizeof_ip)) f1 = drop (Z.to_nat (prepend_size nd_loopback + sizeof_ip)) f2
    /\ take (Z.to_nat (prepend_size nd_loopback)) f1 = take (Z.to_nat (prepend_size nd_loopback)) f2.
Proof.
  destruct (resent_chunk_equals_sent nd_loopback eth0 54 58 (construct_ip_header g0 1 54 9) (construct_ip_header g0 1 50 9)
    (construct_packet_info g0 25 1 3 0 (mk_port_info 1 2)) (repeat 7 58 ++ seqZ 0 25) (seqZ 0 25) 1) as (f1 & f2 & H).
  - split_and!; try (vm_compute; congruence); [apply nd_loopback_ok|apply eth0_ok].
  - vm_compute. split; congruence.
  - by exists f1, f2, (repeat 7 58 ++ seqZ 0 25).
Defined.

(** Retransmission of the last chunk: [handle_lost_packets] writes the new IP
    length without the prepend offset, so the length lands in the link header (for
    Ethernet, in the destination address) and the IP header keeps the length of a
    full chunk. *)
Theorem resent_last_chunk_damages_link_header nd eth mtu ds h p mem data :
  sendable nd eth mtu ds p mem data ->
  let i := chunk_count (mtu - PACKET_HEADER_SIZE) (Z.of_nat (length data)) - 1 in
  let payload := chunk_payload (mtu - PACKET_HEADER_SIZE) data i in
  let ip_length := htons (u16 (PACKET_HEADER_SIZE + Z.of_nat (length payload))) in
  exists f, resend_chunk nd mtu (Z.of_nat (length data)) (headers (link_header nd eth) h p) ds i mem = Ok (f, mem)
    /\ take (Z.to_nat (prepend_size nd)) f = blit 2 (le_bytes 2 ip_length) (link_header nd eth)
    /\ slice (Z.to_nat (prepend_size nd)) 20 f = ip_bytes h.
Proof.
  intros (Hnd & He & Hmtu & Hds & Hlen & Hmem & Hdata & Hsum) i payload ip_length.
  pose proof (chunk_count_pos (mtu - PACKET_HEADER_SIZE) (Z.of_nat (length data)) ltac:(lia) ltac:(lia)) as Hpos.
  pose proof (resend_chunk_spec nd eth mtu ds h p mem data Hnd He Hmtu Hds Hlen Hmem Hdata Hsum i ltac:(lia)) as H2.
  unfold resent_frame in H2. fold payload in H2. fold ip_length in H2.
  destruct (Z.leb_spec (Z.of_nat (length data)) (i * (mtu - PACKET_HEADER_SIZE) + (mtu - PACKET_HEADER_SIZE))) as [_|Hl].
  2:{ pose proof (proj2 (last_chunk_iff (mtu - PACKET_HEADER_SIZE) (Z.of_nat (length data)) i ltac:(lia) ltac:(lia) ltac:(lia)) eq_refl). lia. }
  eexists. split; [exact H2|]. pose proof (length_link_header nd eth Hnd He) as Hl.
  pose proof (prepend_size_range nd Hnd). rewrite <- Hl, Nat2Z.id. set (lh := link_header nd eth) in *.
  assert (length (blit 2 (le_bytes 2 ip_length) lh) = length lh) as Hlh by (apply length_blit; rewrite length_le_bytes; lia).
  unfold sealed_frame, headers. rewrite <- !app_assoc. split.
  - rewrite take_app_le, take_ge by lia. done.
  - rewrite slice_app_r, Hlh, Nat.sub_diag by lia.
    rewrite (slice_app_l 0 20 (ip_bytes h)) by (by rewrite length_ip_bytes). done.
Qed.

Lemma resent_last_chunk_damages_link_header_witness :
  exists f mem : list Z,
    resend_chunk nd_ethernet 54 25 (headers (link_header nd_ethernet eth0) (construct_ip_header g0 1 54 9)
      (construct_packet_info g0 25 1 3 0 (mk_port_info 1 2))) 58 2 mem = Ok (f, mem)
    /\ take 14 f = blit 2 (le_bytes 2 (htons 49)) (link_header nd_ethernet eth0)
    /\ slice 14 20 f = ip_bytes (construct_ip_header g0 1 54 9).
Proof.
  destruct (resent_last_chunk_damages_link_header nd_ethernet eth0 54 58 (construct_ip_header g0 1 54 9)
    (construct_packet_info g0 25 1 3 0 (mk_port_info 1 2)) (repeat 7 58 ++ seqZ 0 25) (seqZ 0 25)) as (f & H).
  - split_and!; try (vm_compute; congruence); [apply nd_ethernet_ok|apply eth0_ok].
  - by exists f, (repeat 7 58 ++ seqZ 0 25).
Defined.
