(* ===== verification/Receiver.v ===== *)
(** * The state of a receiving endpoint

    A server and a client connection keep the same tables; [Receiver] is that common
    part, with the objects behind pointers in typed stores.  The tables are keyed by
    value; the key objects themselves (PendingMessagesKey, PacketCompletedKey) are
    those values.  Code modelled: the structures of src/src/swift_net.h and
    src/src/internal/internal.h, and the table helpers of src/src/process_packets.c. *)

From S2P Require Import Prelude Store Queue Crc32 Wire Frames Chunks PacketBuffer SendPacket.

Inductive ConnectionType := CONNECTION_TYPE_SERVER | CONNECTION_TYPE_CLIENT.

#[export] Instance connection_type_eq_dec : EqDecision ConnectionType.
Proof. solve_decision. Defined.

(** ** Structures *)

(** [packet_data_start] and [chunks_received] are the blocks the message owns. *)
Record SwiftNetPendingMessage := mk_pending_message {
  pm_packet_info : SwiftNetPacketInfo;
  chunks_received : list Z;
  pm_data : list Z;
  chunks_received_length : Z;
  chunks_received_number : Z;
  last_index_checked : Z;
  last_chunks_received_number : Z;
  pm_source_port : Z;
  pm_packet_id : Z;
  sending_lost_packets : bool
}.

Record SwiftNetPacketCompleted := mk_packet_completed {
  completed_packet_id : Z;
  marked_cleanup : bool
}.

Record SwiftNetClientAddrData := mk_client_addr_data {
  ca_maximum_transmission_unit : Z;
  sender_address : Z;
  ca_port : Z;
  ca_mac_address : list Z
}.

(** Where the data of a delivered packet lives: behind the headers of the packet
    buffer, or in the block of a reassembled message. *)
Inductive DataPointer := InPacketBuffer (buffer : loc) (offset : Z) | InPendingMessage (message : loc).

(** [struct SwiftNetServerPacketData] and [struct SwiftNetClientPacketData]; the
    latter has no sender.  [current_pointer] is relative to [data]. *)
Record PacketData := mk_packet_data {
  internal_pending_message : option loc;
  pd_data : DataPointer;
  current_pointer : Z;
  md_port_info : SwiftNetPortInfo;
  md_sender : option SwiftNetClientAddrData;
  md_data_length : Z;
  md_packet_id : Z;
  md_expecting_response : bool
}.

Record PacketQueueContent := mk_packet_queue_content {
  pq_data : option loc;
  pq_data_read : Z;
  pq_sender_address : Z
}.

Record CallbackQueueContent := mk_callback_queue_content {
  cq_pending_message : option loc;
  cq_packet_data : option loc;
  cq_packet_id : Z
}.

(** Keys are (source port, packet id). *)
Abbreviation message_key := (Z * Z)%type.

Record Receiver := mk_receiver {
  pending_messages : list (message_key * loc);
  pending_store : Store SwiftNetPendingMessage;
  packets_completed : list (message_key * loc);
  completed_store : Store SwiftNetPacketCompleted;
  uint16_store : Store Z;
  packet_callback_queue : PacketQueue;
  callback_nodes : Store (QueueNode CallbackQueueContent);
  packet_data_store : Store PacketData;
  packet_buffers : Store (list Z);
  sender : SendState
}.

Definition set_pending (t : list (message_key * loc)) (s : Store SwiftNetPendingMessage) (r : Receiver) : Receiver :=
  mk_receiver t s (packets_completed r) (completed_store r) (uint16_store r) (packet_callback_queue r)
    (callback_nodes r) (packet_data_store r) (packet_buffers r) (sender r).
Definition set_completed (t : list (message_key * loc)) (s : Store SwiftNetPacketCompleted) (u : Store Z) (r : Receiver) : Receiver :=
  mk_receiver (pending_messages r) (pending_store r) t s u (packet_callback_queue r)
    (callback_nodes r) (packet_data_store r) (packet_buffers r) (sender r).
Definition set_callbacks (q : PacketQueue) (n : Store (QueueNode CallbackQueueContent)) (r : Receiver) : Receiver :=
  mk_receiver (pending_messages r) (pending_store r) (packets_completed r) (completed_store r) (uint16_store r) q
    n (packet_data_store r) (packet_buffers r) (sender r).
Definition set_packet_data (s : Store PacketData) (r : Receiver) : Receiver :=
  mk_receiver (pending_messages r) (pending_store r) (packets_completed r) (completed_store r) (uint16_store r)
    (packet_callback_queue r) (callback_nodes r) s (packet_buffers r) (sender r).
Definition set_buffers (s : Store (list Z)) (r : Receiver) : Receiver :=
  mk_receiver (pending_messages r) (pending_store r) (packets_completed r) (completed_store r) (uint16_store r)
    (packet_callback_queue r) (callback_nodes r) (packet_data_store r) s (sender r).
Definition set_sender (s : SendState) (r : Receiver) : Receiver :=
  mk_receiver (pending_messages r) (pending_store r) (packets_completed r) (completed_store r) (uint16_store r)
    (packet_callback_queue r) (callback_nodes r) (packet_data_store r) (packet_buffers r) s.

(** ** Table helpers of src/src/process_packets.c *)

(** [allocator_free(&packet_buffer_memory_allocator, packet_buffer)] *)
Definition free_packet_buffer (b : loc) (r : Receiver) : Outcome Receiver :=
  s ← store_free b (packet_buffers r); Ok (set_buffers s r).

(** The 16-bit copy of the id is never used or freed. *)
Definition packet_completed (packet_id source_port : Z) (r : Receiver) : Receiver :=
  let '(c, s) := store_alloc (mk_packet_completed packet_id false) (completed_store r) in
  let '(_, u) := store_alloc packet_id (uint16_store r) in
  set_completed (al_insert (source_port, packet_id) c (packets_completed r)) s u r.

Definition check_packet_already_completed (packet_id source_port : Z) (r : Receiver) : bool :=
  match al_get (source_port, packet_id) (packets_completed r) with Some _ => true | None => false end.

Definition get_pending_message (packet_id source_port : Z) (r : Receiver) : option loc :=
  al_get (source_port, packet_id) (pending_messages r).

Definition get_packet_sending (target_id : Z) (r : Receiver) : option loc :=
  al_get target_id (packets_sending (sender r)).

(** [handle_request_response]: the response is handed to the request that waits for
    it; without such a request nothing happens (the packet data stays allocated). *)
Definition handle_request_response (packet_id : Z) (pending_message : option loc) (packet_data : loc)
    (source_port : Z) (r : Receiver) : Outcome Receiver :=
  match al_get packet_id (requests_sent (sender r)) with
  | None => Ok r
  | Some request =>
      let st := sender r in
      requests ← store_update request (fun q => mk_request_sent (Some packet_data) (rs_address q) (rs_packet_id q)) (requests_store st);
      let r := set_sender (mk_send_state (packets_sending st) (sending_store st)
                 (al_remove packet_id (requests_sent st)) requests (wire st)) r in
      match pending_message with
      | Some _ => Ok (set_pending (al_remove (source_port, packet_id) (pending_messages r)) (pending_store r) r)
      | None => Ok r
      end
  end.

(** [pass_callback_execution]; waking the callback thread is in Wakeup.v. *)
Definition pass_callback_execution (packet_data : loc) (pending_message : option loc) (packet_id : Z) (r : Receiver)
    : Outcome Receiver :=
  let '(node, nodes) := store_alloc (mk_queue_node None (mk_callback_queue_content pending_message (Some packet_data) packet_id))
                          (callback_nodes r) in
  '(q, nodes) ← insert_callback_queue_node (Some node) (packet_callback_queue r) nodes;
  Ok (set_callbacks q nodes r).

(** [create_new_pending_message]; a failed [malloc] is not checked and leaves a
    block that cannot be accessed. *)
Definition create_new_pending_message (g : Globals) (malloc_ok : Z -> bool) (packet_info : SwiftNetPacketInfo)
    (packet_id source_port : Z) (r : Receiver) : loc * Receiver :=
  let chunks_received_byte_size := u32 (chunk_amount packet_info + 7) / 8 in
  let allocated_memory := if malloc_ok (packet_length packet_info) then uninitialized g (packet_length packet_info) else [] in
  let bitmap := if malloc_ok chunks_received_byte_size then repeat 0 (Z.to_nat chunks_received_byte_size) else [] in
  let '(m, s) := store_alloc (mk_pending_message packet_info bitmap allocated_memory chunks_received_byte_size
                   0x00 0 0 source_port packet_id false) (pending_store r) in
  (m, set_pending (al_insert (source_port, packet_id) m (pending_messages r)) s r).
