(* ===== verification/Listener.v ===== *)
(** * The listener (src/src/handle_packets.c)

    One thread per interface takes captured frames.  A frame is matched to a client
    connection or to a server by its destination port, copied to a packet buffer and
    queued for the processing thread; a client that is not yet initialized consumes it
    as the server's answer.  The connection records hold the fields the listener and
    the set-up code use; the tables of an endpoint are in Receiver.v. *)

From S2P Require Import Prelude Store Queue Crc32 Wire Frames Chunks PacketBuffer SendPacket Receiver.

Record SwiftNetClientConnection := mk_client {
  cc_network_data : SwiftNetNetworkData;
  cc_packet_queue : PacketQueue;
  cc_port_info : SwiftNetPortInfo;
  cc_eth_header : ether_header;
  cc_maximum_transmission_unit : Z;
  cc_server_addr : Z;
  cc_loopback : bool;
  cc_processing_packets : bool;
  cc_closing : bool;
  cc_initialized : bool
}.

Record SwiftNetServer := mk_server {
  sv_network_data : SwiftNetNetworkData;
  sv_packet_queue : PacketQueue;
  sv_eth_header : ether_header;
  server_port : Z;
  sv_loopback : bool;
  sv_processing_packets : bool;
  sv_closing : bool
}.

Record Listener := mk_listener {
  li_network_data : SwiftNetNetworkData;
  servers : list (Z * loc);
  client_connections : list (Z * loc);
  interface_name : list Z;
  li_addr_type : Z;
  li_loopback : bool
}.

(** The memory the listener threads share with the endpoints; [signals] records the
    calls of [pthread_cond_signal]. *)
Record Shared := mk_shared {
  client_store : Store SwiftNetClientConnection;
  server_store : Store SwiftNetServer;
  queue_nodes : Store (QueueNode PacketQueueContent);
  shared_buffers : Store (list Z);
  signals : list (ConnectionType * loc)
}.

Definition set_client_queue (q : PacketQueue) (c : SwiftNetClientConnection) : SwiftNetClientConnection :=
  mk_client (cc_network_data c) q (cc_port_info c) (cc_eth_header c) (cc_maximum_transmission_unit c) (cc_server_addr c)
    (cc_loopback c) (cc_processing_packets c) (cc_closing c) (cc_initialized c).
Definition set_dhost (mac : list Z) (c : SwiftNetClientConnection) : SwiftNetClientConnection :=
  mk_client (cc_network_data c) (cc_packet_queue c) (cc_port_info c)
    (mk_ether_header mac (ether_shost (cc_eth_header c)) (ether_type (cc_eth_header c))) (cc_maximum_transmission_unit c) (cc_server_addr c)
    (cc_loopback c) (cc_processing_packets c) (cc_closing c) (cc_initialized c).
Definition set_initialized (mtu : Z) (c : SwiftNetClientConnection) : SwiftNetClientConnection :=
  mk_client (cc_network_data c) (cc_packet_queue c) (cc_port_info c) (cc_eth_header c) mtu (cc_server_addr c)
    (cc_loopback c) (cc_processing_packets c) (cc_closing c) true.
Definition set_server_queue (q : PacketQueue) (s : SwiftNetServer) : SwiftNetServer :=
  mk_server (sv_network_data s) q (sv_eth_header s) (server_port s) (sv_loopback s) (sv_processing_packets s) (sv_closing s).

Definition put_client (l : loc) (c : SwiftNetClientConnection) (s : Shared) : Shared :=
  mk_shared (<[l := c]> (client_store s)) (server_store s) (queue_nodes s) (shared_buffers s) (signals s).
Definition put_server (l : loc) (v : SwiftNetServer) (s : Shared) : Shared :=
  mk_shared (client_store s) (<[l := v]> (server_store s)) (queue_nodes s) (shared_buffers s) (signals s).
Definition put_queue (n : Store (QueueNode PacketQueueContent)) (b : Store (list Z)) (s : Shared) : Shared :=
  mk_shared (client_store s) (server_store s) n b (signals s).
Definition signal (wake : bool) (who : ConnectionType * loc) (s : Shared) : Shared :=
  if wake then mk_shared (client_store s) (server_store s) (queue_nodes s) (shared_buffers s) (signals s ++ [who]) else s.

Section listener.
Context (g : Globals).

(** Items of the packet buffer pool. *)
Definition packet_buffer_size : Z := maximum_transmission_unit g + sizeof_ether_header.

Definition construct_node (data_read : Z) (data : option loc) (sender_address : Z) (nodes : Store (QueueNode PacketQueueContent))
    : loc * Store (QueueNode PacketQueueContent) :=
  store_alloc (mk_queue_node None (mk_packet_queue_content data data_read sender_address)) nodes.

(** The sender's address from the IP header; [None] when the frame is not IP. *)
Definition get_sender_addr (addr_type : Z) (packet_buffer : list Z) : Outcome (option Z) :=
  if addr_type =? 0 then Ok (Some 0)
  else
    ty ← mem_read 12 2 packet_buffer;
    if htons (le_val ty) =? ETHERTYPE_IP then
      src ← mem_read (sizeof_ether_header + 12) 4 packet_buffer;
      Ok (Some (le_val src))
    else Ok None.

(** The new queue, whether the processing thread is woken, and the memory. *)
Definition swiftnet_handle_packets (packet_queue : PacketQueue) (processing_packets : bool) (network_data : SwiftNetNetworkData)
    (packet_data : list Z) (s : Shared) : Outcome (PacketQueue * bool * Shared) :=
  if Z.of_nat (length packet_data) =? 0 then Ok (packet_queue, false, s)
  else
    let '(packet_buffer, bufs) := store_alloc (uninitialized g packet_buffer_size) (shared_buffers s) in
    copied ← mem_write 0 packet_data (uninitialized g packet_buffer_size);
    let bufs := <[packet_buffer := copied]> bufs in
    sender_address ← get_sender_addr (addr_type network_data) copied;
    match sender_address with
    | None =>
        bufs ← store_free packet_buffer bufs;
        Ok (packet_queue, false, put_queue (queue_nodes s) bufs s)
    | Some a =>
        let '(node, nodes) := construct_node (Z.of_nat (length packet_data)) (Some packet_buffer) a (queue_nodes s) in
        '(q, nodes) ← insert_queue_node (Some node) packet_queue nodes;
        Ok (q, negb processing_packets, put_queue nodes bufs s)
    end.

(** The server's answer to a connection request.  The hardware address is taken over
    before the ports are compared. *)
Definition handle_client_init (buffer : list Z) (c : SwiftNetClientConnection) : Outcome SwiftNetClientConnection :=
  let prepend := prepend_size (cc_network_data c) in
  if cc_closing c then Ok c
  else if negb (Z.of_nat (length buffer) =? PACKET_HEADER_SIZE + sizeof_SwiftNetServerInformation + prepend) then Ok c
  else
    c ← (if addr_type (cc_network_data c) =? 0 then Ok c else mac ← mem_read 6 6 buffer; Ok (set_dhost mac c));
    info ← mem_read (prepend + sizeof_ip) sizeof_SwiftNetPacketInfo buffer;
    let packet_info := packet_info_of_bytes info in
    if negb (destination_port (port_info packet_info) =? Wire.source_port (cc_port_info c))
       || negb (Wire.source_port (port_info packet_info) =? destination_port (cc_port_info c)) then Ok c
    else if negb (packet_type packet_info =? packet_type_code REQUEST_INFORMATION) then Ok c
    else
      server_information ← mem_read (prepend + sizeof_ip + sizeof_SwiftNetPacketInfo) sizeof_SwiftNetServerInformation buffer;
      Ok (set_initialized (server_information_of_bytes server_information) c).

Definition handle_correct_receiver (connection_type : ConnectionType) (li : Listener) (dport : Z) (packet_data : list Z) (s : Shared)
    : Outcome (bool * Shared) :=
  match connection_type with
  | CONNECTION_TYPE_CLIENT =>
      match al_get dport (client_connections li) with
      | None => Ok (false, s)
      | Some l =>
          c ← store_get l (client_store s);
          if cc_initialized c then
            '(q, wake, s) ← swiftnet_handle_packets (cc_packet_queue c) (cc_processing_packets c) (cc_network_data c) packet_data s;
            Ok (true, signal wake (CONNECTION_TYPE_CLIENT, l) (put_client l (set_client_queue q c) s))
          else
            c ← handle_client_init packet_data c;
            Ok (true, put_client l c s)
      end
  | CONNECTION_TYPE_SERVER =>
      match al_get dport (servers li) with
      | None => Ok (false, s)
      | Some l =>
          v ← store_get l (server_store s);
          '(q, wake, s) ← swiftnet_handle_packets (sv_packet_queue v) (sv_processing_packets v) (sv_network_data v) packet_data s;
          Ok (true, signal wake (CONNECTION_TYPE_SERVER, l) (put_server l (set_server_queue q v) s))
      end
  end.

(** The frame as captured; its port information is read without a length check. *)
Definition pcap_packet_handle (li : Listener) (packet : list Z) (s : Shared) : Outcome Shared :=
  port ← mem_read (PACKET_PREPEND_SIZE (li_addr_type li) + sizeof_ip + offsetof_port_info) 2 packet;
  let dport := le_val port in
  '(handled, s) ← handle_correct_receiver CONNECTION_TYPE_CLIENT li dport packet s;
  if handled : bool then Ok s
  else '(_, s) ← handle_correct_receiver CONNECTION_TYPE_SERVER li dport packet s; Ok s.

(** [pcap_loop]: the frames in the order of capture. *)
Fixpoint interface_start_listening (li : Listener) (packets : list (list Z)) (s : Shared) : Outcome Shared :=
  match packets with
  | [] => Ok s
  | p :: packets => s ← pcap_packet_handle li p s; interface_start_listening li packets s
  end.
End listener.

(** ** Lemmas *)

(** Frames of the wire form: what the listener reads of them. *)
Lemma frame_port lh h p payload :
  in_word 16 (destination_port (port_info p)) ->
  mem_read (Z.of_nat (length lh) + sizeof_ip + offsetof_port_info) 2 (headers lh h p ++ payload)
  = Ok (le_bytes 2 (destination_port (port_info p))).
Proof.
  intros Hd. unfold sizeof_ip, offsetof_port_info. pose proof (length_headers lh h p) as Hl.
  rewrite mem_read_ok by (rewrite ?length_app; lia). f_equal. change (Z.to_nat 2) with 2%nat.
  rewrite slice_app_l by lia. unfold headers. rewrite slice_app_r by lia.
  rewrite slice_app_r by (rewrite length_ip_bytes; lia). rewrite length_ip_bytes.
  replace (Z.to_nat (Z.of_nat (length lh) + 20 + 16) - length lh - 20)%nat with 16%nat by lia. reflexivity.
Qed.

Definition ip_frame (nd : SwiftNetNetworkData) (f : list Z) : Prop :=
  (44 <= length f)%nat /\ (addr_type nd = 0 \/ slice 12 2 f = le_bytes 2 (htons ETHERTYPE_IP)).

(** The source address in the IP header behind an Ethernet header; 0 on the loopback. *)
Definition frame_sender (nd : SwiftNetNetworkData) (f : list Z) : Z := if addr_type nd =? 0 then 0 else le_val (slice 26 4 f).

Lemma get_sender_addr_ok nd f pad : ip_frame nd f -> get_sender_addr (addr_type nd) (f ++ pad) = Ok (Some (frame_sender nd f)).
Proof.
  intros [Hl Hty]. unfold get_sender_addr, frame_sender. destruct (Z.eqb_spec (addr_type nd) 0) as [|Hne]; [done|].
  destruct Hty as [|Hty]; [done|]. rewrite (mem_read_ok 12 2), bind_Ok by (rewrite ?length_app; lia).
  change (Z.to_nat 12) with 12%nat. change (Z.to_nat 2) with 2%nat. rewrite slice_app_l, Hty by lia.
  rewrite le_val_word by apply htons_range. rewrite htons_involutive by done. rewrite Z.eqb_refl.
  unfold sizeof_ether_header. rewrite (mem_read_ok _ 4), bind_Ok by (rewrite ?length_app; lia).
  change (Z.to_nat (14 + 12)) with 26%nat. change (Z.to_nat 4) with 4%nat. by rewrite slice_app_l by lia.
Qed.

Lemma link_ip_frame nd eth h p payload :
  network_ok nd -> ether_header_ok eth -> ether_type eth = htons ETHERTYPE_IP -> ip_frame nd (headers (link_header nd eth) h p ++ payload).
Proof.
  intros [[Ht|Ht] _] He Hty; (split; [rewrite length_app, length_headers; lia|]); [by left|right].
  assert (link_header nd eth = ether_header_bytes eth) as -> by (unfold link_header; by rewrite Ht).
  destruct He as (H1 & H2 & _). unfold headers, ether_header_bytes. rewrite slice_app_l.
  2:{ rewrite !length_app, length_ip_bytes, length_packet_info_bytes. lia. }
  rewrite <- !app_assoc. rewrite slice_app_r, slice_app_r by lia. rewrite H1, H2, Hty. reflexivity.
Qed.

Lemma frame_sender_ok nd eth h p payload :
  network_ok nd -> ether_header_ok eth -> in_word 32 (ip_src h) ->
  frame_sender nd (headers (link_header nd eth) h p ++ payload) = if addr_type nd =? 0 then 0 else ip_src h.
Proof.
  intros [[Ht|Ht] _] He Hs; unfold frame_sender; rewrite Ht; [done|]. change (DLT_EN10MB =? 0) with false. cbv iota.
  assert (link_header nd eth = ether_header_bytes eth) as -> by (unfold link_header; by rewrite Ht).
  pose proof (length_ether_header_bytes eth He) as Hl. unfold headers. rewrite <- !app_assoc.
  rewrite slice_app_r by lia. rewrite Hl. rewrite slice_app_l by (rewrite length_ip_bytes; lia).
  change (slice (26 - 14) 4 (ip_bytes h)) with (le_bytes 4 (ip_src h)). by apply le_val_word.
Qed.

(** The queue [q'] after one more frame, with the sender's address [a], and the block the
    frame was copied to. *)
Definition queued (g : Globals) (a : Z) (f : list Z) (l : list (loc * PacketQueueContent)) (q' : PacketQueue) (s s' : Shared) : Prop :=
  let b := store_next (shared_buffers s) in
  shared_buffers s' = <[b := f ++ drop (length f) (uninitialized g (packet_buffer_size g))]> (shared_buffers s)
  /\ (exists n, queue_nodes s !! n = None /\ queue_rep q' (queue_nodes s') (l ++ [(n, mk_packet_queue_content (Some b) (Z.of_nat (length f)) a)]))
  /\ (forall q2 l2, queue_rep q2 (queue_nodes s) l2 -> (forall x, x ∈ map fst l2 -> x ∉ map fst l) -> queue_rep q2 (queue_nodes s') l2)
  /\ client_store s' = client_store s /\ server_store s' = server_store s /\ signals s' = signals s.

Lemma chain_frame_nodes {A} (nodes nodes' : Store (QueueNode A)) o l :
  (forall x, x ∈ map fst l -> nodes' !! x = nodes !! x) -> chain nodes o l -> chain nodes' o l.
Proof.
  revert o. induction l as [|[p a] l IH]; intros o Hf; cbn; [done|]. intros (-> & next & Hn & Hc). split; [done|].
  exists next. split; [rewrite Hf; [done|left]|]. apply IH; [|done]. intros x Hx. apply Hf. by right.
Qed.

Lemma queue_rep_allocated {A} q (nodes : Store (QueueNode A)) l x : queue_rep q nodes l -> x ∈ map fst l -> is_Some (nodes !! x).
Proof.
  intros (Hc & _) Hx. apply list_elem_of_fmap in Hx as ([p a] & -> & Hin). destruct (chain_elem _ _ _ p a Hc Hin) as [next Hn]. by eexists.
Qed.

Lemma handle_packets_ok g q processing nd f s l :
  ip_frame nd f -> Z.of_nat (length f) <= packet_buffer_size g -> queue_rep q (queue_nodes s) l ->
  exists q' s', swiftnet_handle_packets g q processing nd f s = Ok (q', negb processing, s') /\ queued g (frame_sender nd f) f l q' s s'.
Proof.
  intros Hf Hl Hq. unfold swiftnet_handle_packets. pose proof (proj1 Hf) as H44.
  rewrite (proj2 (Z.eqb_neq _ _)) by lia. cbn [store_alloc].
  set (u := uninitialized g (packet_buffer_size g)).
  assert (Z.of_nat (length u) = packet_buffer_size g) as Hu by (apply length_uninitialized; lia).
  rewrite mem_write_ok, bind_Ok by lia. change (Z.to_nat 0) with 0%nat.
  assert (blit 0 f u = f ++ drop (length f) u) as -> by done.
  rewrite (get_sender_addr_ok nd f (drop (length f) u) Hf), bind_Ok. unfold construct_node. cbn [store_alloc].
  set (b := store_next (shared_buffers s)). set (n := store_next (queue_nodes s)). set (c := mk_packet_queue_content _ _ _).
  pose proof (store_next_fresh (queue_nodes s)) as Hn. fold n in Hn.
  assert (forall l2 q2, queue_rep q2 (queue_nodes s) l2 -> n ∉ map fst l2) as Hfresh.
  { intros l2 q2 H2 Hin. destruct (queue_rep_allocated _ _ _ _ H2 Hin) as [? E]. congruence. }
  assert (forall l2 q2, queue_rep q2 (queue_nodes s) l2 -> queue_rep q2 (<[n := mk_queue_node None c]> (queue_nodes s)) l2) as Hkeep.
  { intros l2 q2 H2. pose proof (Hfresh _ _ H2). destruct H2 as (H2 & H3). split; [|done]. by apply chain_other. }
  destruct (insert_refines q (<[n := mk_queue_node None c]> (queue_nodes s)) l n c (Hkeep _ _ Hq)) as (q' & nodes' & -> & Hrep & Hother).
  { apply lookup_insert_eq. } { by eapply Hfresh. }
  rewrite bind_Ok. eexists q', _. split; [done|]. split_and!; cbn [put_queue shared_buffers queue_nodes client_store server_store signals]; try done.
  - apply insert_insert_eq.
  - by exists n.
  - intros q2 l2 H2 Hdis. pose proof (Hkeep _ _ H2) as (Hc & H3). split; [|done].
    eapply chain_frame_nodes; [|exact Hc]. intros x Hx. apply Hother. by apply Hdis.
Qed.

Lemma frame_dport li nd eth h p payload :
  network_ok nd -> ether_header_ok eth -> li_addr_type li = addr_type nd -> in_word 16 (destination_port (port_info p)) ->
  mem_read (PACKET_PREPEND_SIZE (li_addr_type li) + sizeof_ip + offsetof_port_info) 2 (headers (link_header nd eth) h p ++ payload)
  = Ok (le_bytes 2 (destination_port (port_info p))).
Proof.
  intros Hnd He Hat Hd. rewrite Hat. destruct Hnd as [Ht Hp]. rewrite <- Hp, <- (length_link_header nd eth (conj Ht Hp) He).
  by apply frame_port.
Qed.

(** A frame for a port that only a server owns. *)
Lemma captured_by_server g li f dport s l v ql :
  mem_read (PACKET_PREPEND_SIZE (li_addr_type li) + sizeof_ip + offsetof_port_info) 2 f = Ok (le_bytes 2 dport) -> in_word 16 dport ->
  ip_frame (sv_network_data v) f -> Z.of_nat (length f) <= packet_buffer_size g ->
  al_get dport (client_connections li) = None -> al_get dport (servers li) = Some l ->
  server_store s !! l = Some v -> queue_rep (sv_packet_queue v) (queue_nodes s) ql ->
  exists q' s1, queued g (frame_sender (sv_network_data v) f) f ql q' s s1
    /\ pcap_packet_handle g li f s = Ok (signal (negb (sv_processing_packets v)) (CONNECTION_TYPE_SERVER, l) (put_server l (set_server_queue q' v) s1)).
Proof.
  intros Hport Hd Hip Hl Hc Hs Hv Hq. unfold pcap_packet_handle. rewrite Hport, bind_Ok, le_val_word by done.
  cbn [handle_correct_receiver]. rewrite Hc, Hs, bind_Ok, (proj2 (store_get_ok _ _ _) Hv), bind_Ok.
  destruct (handle_packets_ok g _ (sv_processing_packets v) _ f s ql Hip Hl Hq) as (q' & s1 & -> & Hs1). by exists q', s1.
Qed.

(** A client that waits for the server's answer reads any frame without an undefined
    access. *)
Lemma client_init_ok f c : 0 <= prepend_size (cc_network_data c) -> exists c', handle_client_init f c = Ok c'.
Proof.
  intros Hp. unfold handle_client_init. destruct (cc_closing c); [by eexists|].
  destruct (Z.eqb_spec (Z.of_nat (length f)) (PACKET_HEADER_SIZE + sizeof_SwiftNetServerInformation + prepend_size (cc_network_data c))) as [El|];
    [|by eexists]. cbn [negb]. change (PACKET_HEADER_SIZE + sizeof_SwiftNetServerInformation) with 48 in El.
  assert (exists c1, (if addr_type (cc_network_data c) =? 0 then Ok c else mac ← mem_read 6 6 f; Ok (set_dhost mac c)) = Ok c1) as [c1 ->].
  { destruct (_ =? 0); [by eexists|]. rewrite mem_read_ok by lia. by eexists. }
  rewrite bind_Ok. unfold sizeof_ip, sizeof_SwiftNetPacketInfo, sizeof_SwiftNetServerInformation in *.
  rewrite (mem_read_ok (prepend_size (cc_network_data c) + 20) 24), bind_Ok by lia. cbv zeta.
  do 2 (match goal with |- context [if ?b then Ok c1 else _] => destruct b; [by eexists|] end).
  rewrite mem_read_ok by lia. by eexists.
Qed.

(** C16 Routing: a captured frame of the wire form that fits a packet buffer goes to the
    client connection that owns its destination port, else to the server that owns it, else
    nowhere.  An initialized client or a server gets it copied to a fresh packet buffer, as
    the last element of its queue, together with its length and with the sender's address
    (the source address of the IP header on Ethernet, 0 on the loopback link type); the
    queues of other endpoints and all other connections stay as they are, and the processing
    thread is signalled exactly when it announced that it sleeps.  A client that still waits
    for its server gets it as the possible answer ([handle_client_init]) and queues
    nothing. *)
Theorem listener_routes_frame g li nd eth h p payload s :
  network_ok nd -> ether_header_ok eth -> ether_type eth = htons ETHERTYPE_IP -> li_addr_type li = addr_type nd ->
  in_word 16 (destination_port (port_info p)) -> in_word 32 (ip_src h) ->
  let f := headers (link_header nd eth) h p ++ payload in
  let dport := destination_port (port_info p) in
  let sender := if addr_type nd =? 0 then 0 else ip_src h in
  Z.of_nat (length f) <= packet_buffer_size g ->
  match al_get dport (client_connections li), al_get dport (servers li) with
  | Some l, _ => forall c, client_store s !! l = Some c -> cc_network_data c = nd ->
      if cc_initialized c then
        forall ql, queue_rep (cc_packet_queue c) (queue_nodes s) ql ->
        exists q' s1, queued g sender f ql q' s s1
          /\ pcap_packet_handle g li f s
             = Ok (signal (negb (cc_processing_packets c)) (CONNECTION_TYPE_CLIENT, l) (put_client l (set_client_queue q' c) s1))
      else exists c', handle_client_init f c = Ok c' /\ pcap_packet_handle g li f s = Ok (put_client l c' s)
  | None, Some l => forall v ql, server_store s !! l = Some v -> sv_network_data v = nd ->
      queue_rep (sv_packet_queue v) (queue_nodes s) ql ->
      exists q' s1, queued g sender f ql q' s s1
        /\ pcap_packet_handle g li f s = Ok (signal (negb (sv_processing_packets v)) (CONNECTION_TYPE_SERVER, l) (put_server l (set_server_queue q' v) s1))
  | None, None => pcap_packet_handle g li f s = Ok s
  end.
Proof.
  intros Hnd He Hty Hat Hd Hsrc f dport sender Hl. pose proof (link_ip_frame nd eth h p payload Hnd He Hty) as Hip. fold f in Hip.
  pose proof (frame_dport li nd eth h p payload Hnd He Hat Hd) as Hport. fold f dport in Hport.
  pose proof (frame_sender_ok nd eth h p payload Hnd He Hsrc) as Hsend. fold f sender in Hsend. rewrite <- Hsend.
  destruct (al_get dport (client_connections li)) as [l|] eqn:Ec.
  - intros c Hc Hn. unfold pcap_packet_handle. rewrite Hport, bind_Ok, le_val_word by done. cbn [handle_correct_receiver].
    rewrite Ec, (proj2 (store_get_ok _ _ _) Hc), bind_Ok, Hn. destruct (cc_initialized c).
    + intros ql Hq. destruct (handle_packets_ok g _ (cc_processing_packets c) nd f s ql Hip Hl Hq) as (q' & s1 & -> & Hs). by exists q', s1.
    + destruct (client_init_ok f c) as [c' Hc']; [rewrite Hn; pose proof (prepend_size_range nd Hnd); lia|].
      exists c'. split; [done|]. by rewrite Hc', !bind_Ok.
  - destruct (al_get dport (servers li)) as [l|] eqn:Es.
    + intros v ql Hv Hn Hq. rewrite <- Hn. apply (captured_by_server g li f dport s l v ql); try done. by rewrite Hn.
    + unfold pcap_packet_handle. rewrite Hport, bind_Ok, le_val_word by done. cbn [handle_correct_receiver]. by rewrite Ec, Es.
Qed.

Definition sample_server : SwiftNetServer := mk_server nd_ethernet empty_queue eth0 8080 false false false.
Definition sample_listener : Listener := mk_listener nd_ethernet [(8080, 1%positive)] [] [101; 116; 104; 48] DLT_EN10MB false.
Definition sample_shared : Shared := mk_shared ∅ {[ 1%positive := sample_server ]} ∅ ∅ [].

(** A message for the sleeping server on port 8080. *)
Lemma listener_routes_frame_witness :
  let f := headers (link_header nd_ethernet eth0) (construct_ip_header g0 0x0201A8C0 47 7)
             (construct_packet_info g0 3 1 1 0 (mk_port_info 8080 4242)) ++ [1; 2; 3] in
  exists q' s1, queued g0 (private_ip_address g0) f [] q' sample_shared s1
    /\ pcap_packet_handle g0 sample_listener f sample_shared
       = Ok (signal true (CONNECTION_TYPE_SERVER, 1%positive) (put_server 1%positive (set_server_queue q' sample_server) s1)).
Proof.
  apply (listener_routes_frame g0 sample_listener nd_ethernet eth0 (construct_ip_header g0 0x0201A8C0 47 7)
    (construct_packet_info g0 3 1 1 0 (mk_port_info 8080 4242)) [1; 2; 3] sample_shared nd_ethernet_ok eth0_ok eq_refl eq_refl)
    with (v := sample_server) (ql := []).
  - vm_compute. split; congruence.
  - vm_compute. split; congruence.
  - vm_compute. congruence.
  - reflexivity.
  - reflexivity.
  - split; [done|]. split; [done|]. apply NoDup_nil_2.
Defined.
