(* ===== verification/ProcessPackets.v ===== *)
(** * Processing incoming packets (src/src/process_packets.c)

    [process_packet] is one round of the loop of [swiftnet_process_packets] for a
    packet taken from the queue: the port filter, the checksum gate, the switch over
    the packet type, and the reassembly of chunked messages.  The model is the
    default build (requests and dynamic rate limiting compiled in, debug output
    without effect). *)

From S2P Require Import Prelude Store Queue Crc32 Wire Frames Chunks PacketBuffer SendPacket Receiver Listener.
From Stdlib Require Import SpecFloat.

Inductive SwiftNetPacketDelayUpdateStatus := LOWER_DELAY | INCREASE_DELAY.
Definition delay_status_code (s : SwiftNetPacketDelayUpdateStatus) : Z :=
  match s with LOWER_DELAY => 0 | INCREASE_DELAY => 1 end.

(** [(float)a / (float)b > 0.95f] in IEEE binary32; [0.95f] is 15938355 / 2^24. *)
Definition float_of_u32 (x : Z) : spec_float := binary_normalize 24 128 x 0 false.
Definition ratio_above (a b : Z) : bool :=
  SFltb (S754_finite false 15938355 (-24)) (SFdiv 24 128 (float_of_u32 a) (float_of_u32 b)).

Section operations.
Context (g : Globals) (malloc_ok : Z -> bool) (connection_type : ConnectionType).
Context (network_data : SwiftNetNetworkData) (eth_hdr : ether_header) (source_port : Z).

#[local] Abbreviation ps := (prepend_size network_data).

Definition send_internal (frame : list Z) (r : Receiver) : Receiver :=
  set_sender (SWIFTNET_SEND_PACKET frame (sender r)) r.

(** The answers: headers, payload, checksum. *)
Definition build_reply (ip_header : ip) (packet_info : SwiftNetPacketInfo) (payload : list Z) : Outcome (list Z) :=
  let size := ps + PACKET_HEADER_SIZE + Z.of_nat (length payload) in
  buffer ← HANDLE_PACKET_CONSTRUCTION g ip_header packet_info network_data eth_hdr size;
  buffer ← mem_write (ps + PACKET_HEADER_SIZE) payload buffer;
  HANDLE_CHECKSUM buffer (ps + sizeof_ip) (size - sizeof_ip - ps).

Definition signal_delay_change (status : SwiftNetPacketDelayUpdateStatus) (ip_header : ip) (src_port destination_port : Z)
    (r : Receiver) : Outcome Receiver :=
  let reply_ip := construct_ip_header g (ip_src ip_header) (PACKET_HEADER_SIZE + 1) (ip_id ip_header) in
  let packet_info_new := construct_packet_info g 1 (packet_type_code PACKET_DELAY_UPDATE) 1 0
                           (mk_port_info destination_port src_port) in
  frame ← build_reply reply_ip packet_info_new [delay_status_code status];
  Ok (send_internal frame r).

(** [case REQUEST_INFORMATION]; [rand_value] is the value of [rand()]. *)
Definition case_request_information (rand_value : Z) (ip_header : ip) (packet_info : SwiftNetPacketInfo)
    (packet_buffer : loc) (r : Receiver) : Outcome Receiver :=
  let reply_ip := construct_ip_header g (ip_src ip_header) PACKET_HEADER_SIZE (u16 rand_value) in
  let packet_info_new := construct_packet_info g sizeof_SwiftNetServerInformation (packet_type_code REQUEST_INFORMATION) 1 0
                           (mk_port_info (Wire.source_port (port_info packet_info)) source_port) in
  frame ← build_reply reply_ip packet_info_new (server_information_bytes (maximum_transmission_unit g));
  free_packet_buffer packet_buffer (send_internal frame r).

(** The answer to a lost-packets request for a message still in reassembly. *)
Definition build_lost_chunks_reply (ip_header : ip) (packet_info : SwiftNetPacketInfo) (m : SwiftNetPendingMessage)
    : Outcome (list Z) :=
  let case_mtu := Z.min (pi_maximum_transmission_unit packet_info) (maximum_transmission_unit g) in
  let reply_ip := construct_ip_header g (ip_src ip_header) 0 (ip_id ip_header) in
  let packet_info_new := construct_packet_info g 0 (packet_type_code SEND_LOST_PACKETS_RESPONSE) 1 0
                           (mk_port_info (Wire.source_port (port_info packet_info)) (destination_port (port_info packet_info))) in
  let header_size := PACKET_HEADER_SIZE + ps in
  buffer ← HANDLE_PACKET_CONSTRUCTION g reply_ip packet_info_new network_data eth_hdr (case_mtu + ps);
  lost ← return_lost_chunk_indexes (chunks_received m) (chunk_amount (pm_packet_info m)) (u32 (case_mtu - PACKET_HEADER_SIZE));
  buffer ← mem_write header_size (index_bytes lost) buffer;
  let lost_chunk_indexes := Z.of_nat (length lost) in
  let lost_indexes_size := u32 (lost_chunk_indexes * 4) in
  let packet_length := u32 (PACKET_HEADER_SIZE + lost_chunk_indexes * 4) in
  buffer ← mem_write (ps + offsetof_ip_len) (le_bytes 2 (htons (u16 packet_length))) buffer;
  buffer ← mem_write (ps + sizeof_ip + offsetof_packet_length) (le_bytes 4 lost_indexes_size) buffer;
  buffer ← HANDLE_CHECKSUM buffer (ps + sizeof_ip) (packet_length - sizeof_ip);
  mem_read 0 (packet_length + ps) buffer.

(** [case SEND_LOST_PACKETS_REQUEST] *)
Definition case_send_lost_packets_request (ip_header : ip) (packet_info : SwiftNetPacketInfo)
    (packet_buffer : loc) (r : Receiver) : Outcome Receiver :=
  let src := Wire.source_port (port_info packet_info) in
  match get_pending_message (ip_id ip_header) src r with
  | None =>
      if check_packet_already_completed (ip_id ip_header) src r then
        let reply_ip := construct_ip_header g (ip_src ip_header) PACKET_HEADER_SIZE (ip_id ip_header) in
        let send_packet_info := construct_packet_info g 0x00 (packet_type_code SUCCESSFULLY_RECEIVED_PACKET) 1 0
                                  (mk_port_info src (destination_port (port_info packet_info))) in
        frame ← build_reply reply_ip send_packet_info [];
        free_packet_buffer packet_buffer (send_internal frame r)
      else free_packet_buffer packet_buffer r
  | Some l =>
      m ← store_get l (pending_store r);
      let m := mk_pending_message (pm_packet_info m) (chunks_received m) (pm_data m) (chunks_received_length m)
                 (chunks_received_number m) (last_index_checked m) (last_chunks_received_number m)
                 (pm_source_port m) (pm_packet_id m) true in
      let r := set_pending (pending_messages r) (<[l := m]> (pending_store r)) r in
      frame ← build_lost_chunks_reply ip_header packet_info m;
      free_packet_buffer packet_buffer (send_internal frame r)
  end.

(** [case SEND_LOST_PACKETS_RESPONSE]: the indexes are copied into a block of
    [maximum_transmission_unit - PACKET_HEADER_SIZE] bytes. *)
Definition case_send_lost_packets_response (ip_header : ip) (packet_info : SwiftNetPacketInfo)
    (packet_buffer : loc) (r : Receiver) : Outcome Receiver :=
  match get_packet_sending (ip_id ip_header) r with
  | None => free_packet_buffer packet_buffer r
  | Some l =>
      let st := sender r in
      p ← store_get l (sending_store st);
      b ← store_get packet_buffer (packet_buffers r);
      let size := maximum_transmission_unit g - PACKET_HEADER_SIZE in
      block ← match lost_chunks p with
              | Some block => Ok block
              | None => if malloc_ok size then Ok (uninitialized g size) else Exit
              end;
      indexes ← mem_read (ps + PACKET_HEADER_SIZE) (packet_length packet_info) b;
      block ← mem_write 0 indexes block;
      let p := mk_packet_sending (Some block) UPDATED_LOST_CHUNKS (current_send_delay p)
                 (packet_length packet_info / 4) (sending_packet_id p) (sending_locked p) in
      let r := set_sender (set_sending (packets_sending st) (<[l := p]> (sending_store st)) st) r in
      free_packet_buffer packet_buffer r
  end.

(** [case SUCCESSFULLY_RECEIVED_PACKET] *)
Definition case_successfully_received_packet (ip_header : ip) (packet_buffer : loc) (r : Receiver) : Outcome Receiver :=
  match get_packet_sending (ip_id ip_header) r with
  | None => free_packet_buffer packet_buffer r
  | Some l =>
      let st := sender r in
      s ← store_update l (set_updated SUCCESSFULLY_RECEIVED) (sending_store st);
      free_packet_buffer packet_buffer (set_sender (set_sending (packets_sending st) s st) r)
  end.

(** The new delay between chunks. *)
Definition update_delay (status current_delay : Z) : Z :=
  if status =? delay_status_code INCREASE_DELAY then u32 (current_delay / 6 * 7) else u32 (current_delay / 6 * 5).

(** [case PACKET_DELAY_UPDATE]: the packet being sent is dereferenced unchecked. *)
Definition case_packet_delay_update (ip_header : ip) (packet_buffer : loc) (r : Receiver) : Outcome Receiver :=
  b ← store_get packet_buffer (packet_buffers r);
  l ← of_option (get_packet_sending (ip_id ip_header) r);
  let st := sender r in
  status ← mem_read (ps + PACKET_HEADER_SIZE) 1 b;
  s ← store_update l (fun p => mk_packet_sending (lost_chunks p) (updated p) (update_delay (le_val status) (current_send_delay p))
                                 (lost_chunks_size p) (sending_packet_id p) (sending_locked p)) (sending_store st);
  free_packet_buffer packet_buffer (set_sender (set_sending (packets_sending st) s st) r).

(** The sender's address as stored in the packet's metadata: the IP address is never
    filled in and the hardware address is the endpoint's own. *)
Definition sender_of (packet_info : SwiftNetPacketInfo) : SwiftNetClientAddrData :=
  mk_client_addr_data (pi_maximum_transmission_unit packet_info) 0 (Wire.source_port (port_info packet_info))
    (if addr_type network_data =? 0 then repeat 0 6 else ether_shost eth_hdr).

(** Handing a complete packet on: to the request that waits for it, or to the
    callback thread. *)
Definition deliver (ip_header : ip) (packet_info : SwiftNetPacketInfo) (pending_message : option loc)
    (data : DataPointer) (r : Receiver) : Outcome Receiver :=
  let '(d, s) := store_alloc (mk_packet_data pending_message data 0 (port_info packet_info)
      (if decide (connection_type = CONNECTION_TYPE_SERVER) then Some (sender_of packet_info) else None)
      (packet_length packet_info) (ip_id ip_header)
      (packet_type packet_info =? packet_type_code REQUEST)) (packet_data_store r) in
  let r := set_packet_data s r in
  if packet_type packet_info =? packet_type_code RESPONSE then
    handle_request_response (ip_id ip_header) pending_message d (Wire.source_port (port_info packet_info)) r
  else pass_callback_execution d pending_message (ip_id ip_header) r.

(** A packet for which no message is pending: the first chunk of a new message, or a
    whole packet. *)
Definition case_no_pending (chunk_data_size : Z) (ip_header : ip) (packet_info : SwiftNetPacketInfo)
    (packet_buffer : loc) (r : Receiver) : Outcome Receiver :=
  let src := Wire.source_port (port_info packet_info) in
  if chunk_data_size <? packet_length packet_info then
    let '(l, r) := create_new_pending_message g malloc_ok packet_info (ip_id ip_header) src r in
    m ← store_get l (pending_store r);
    bitmap ← chunk_received (chunks_received m) (chunk_index packet_info);
    b ← store_get packet_buffer (packet_buffers r);
    chunk ← mem_read (ps + PACKET_HEADER_SIZE) chunk_data_size b;
    data ← mem_write 0 chunk (pm_data m);
    let m := mk_pending_message (pm_packet_info m) bitmap data (chunks_received_length m) 1
               (last_index_checked m) (last_chunks_received_number m) (pm_source_port m) (pm_packet_id m)
               (sending_lost_packets m) in
    free_packet_buffer packet_buffer (set_pending (pending_messages r) (<[l := m]> (pending_store r)) r)
  else
    deliver ip_header packet_info None (InPacketBuffer packet_buffer (ps + PACKET_HEADER_SIZE))
      (packet_completed (ip_id ip_header) src r).

(** The rate control of a chunk that does not complete its message: the counters to
    store and whether a delay update is sent. *)
Definition rate_control (packet_info : SwiftNetPacketInfo) (m : SwiftNetPendingMessage)
    : Z * Z * option SwiftNetPacketDelayUpdateStatus :=
  let new_packets := u32 (chunk_index packet_info - last_index_checked m) in
  let new_packets_validated := u32 (chunks_received_number m - last_chunks_received_number m) in
  if negb (sending_lost_packets m) && (50 <? new_packets) then
    (chunk_index packet_info, chunks_received_number m,
     Some (if ratio_above new_packets_validated new_packets then LOWER_DELAY else INCREASE_DELAY))
  else (last_index_checked m, last_chunks_received_number m, None).

(** A chunk of a pending message. *)
Definition case_pending (chunk_data_size : Z) (l : loc) (ip_header : ip) (packet_info : SwiftNetPacketInfo)
    (packet_buffer : loc) (r : Receiver) : Outcome Receiver :=
  let src := Wire.source_port (port_info packet_info) in
  m ← store_get l (pending_store r);
  already ← chunk_already_received (chunks_received m) (chunk_index packet_info);
  if already : bool then free_packet_buffer packet_buffer r
  else
    b ← store_get packet_buffer (packet_buffers r);
    bytes_to_write ← (if chunk_amount packet_info <=? u32 (chunk_index packet_info + 1)
                      then if chunk_data_size =? 0 then Fault else Ok (packet_length packet_info mod chunk_data_size)
                      else Ok chunk_data_size);
    chunk ← mem_read (ps + PACKET_HEADER_SIZE) bytes_to_write b;
    let offset := u32 (chunk_data_size * chunk_index packet_info) in
    if u32 (chunks_received_number m + 1) =? chunk_amount packet_info then
      data ← mem_write offset chunk (pm_data m);
      bitmap ← chunk_received (chunks_received m) (chunk_index packet_info);
      _ ← return_lost_chunk_indexes bitmap (chunk_amount packet_info) chunk_data_size;
      let m := mk_pending_message (pm_packet_info m) bitmap data (chunks_received_length m)
                 (u32 (chunks_received_number m + 1)) (last_index_checked m) (last_chunks_received_number m)
                 (pm_source_port m) (pm_packet_id m) (sending_lost_packets m) in
      let r := set_pending (pending_messages r) (<[l := m]> (pending_store r)) r in
      let r := packet_completed (ip_id ip_header) src r in
      r ← deliver ip_header packet_info (Some l) (InPendingMessage l) r;
      free_packet_buffer packet_buffer r
    else
      let '(last_index, last_number, signal) := rate_control packet_info m in
      r ← match signal with
          | Some status => signal_delay_change status ip_header source_port src r
          | None => Ok r
          end;
      data ← mem_write offset chunk (pm_data m);
      bitmap ← chunk_received (chunks_received m) (chunk_index packet_info);
      let m := mk_pending_message (pm_packet_info m) bitmap data (chunks_received_length m)
                 (u32 (chunks_received_number m + 1)) last_index last_number
                 (pm_source_port m) (pm_packet_id m) (sending_lost_packets m) in
      free_packet_buffer packet_buffer (set_pending (pending_messages r) (<[l := m]> (pending_store r)) r).

(** Everything after the switch: messages, requests and responses. *)
Definition process_data_packet (ip_header : ip) (packet_info : SwiftNetPacketInfo) (packet_buffer : loc) (r : Receiver)
    : Outcome Receiver :=
  let src := Wire.source_port (port_info packet_info) in
  if check_packet_already_completed (ip_id ip_header) src r then free_packet_buffer packet_buffer r
  else
    let mtu := Z.min (pi_maximum_transmission_unit packet_info) (maximum_transmission_unit g) in
    let chunk_data_size := u32 (mtu - PACKET_HEADER_SIZE) in
    match get_pending_message (ip_id ip_header) src r with
    | None => case_no_pending chunk_data_size ip_header packet_info packet_buffer r
    | Some l => case_pending chunk_data_size l ip_header packet_info packet_buffer r
    end.

(** The checksum is only looked at for a packet from outside to a loopback address
    whose IP checksum is set. *)
Definition checksum_gate (data_read checksum_received : Z) (ip_header : ip) (b : list Z) : Outcome bool :=
  if (sizeof_ip + ps <? data_read) && negb (ip_src ip_header =? ip_dst ip_header)
     && negb (is_private_ip (ip_src ip_header)) && is_private_ip (ip_dst ip_header)
     && negb (ip_sum ip_header =? 0)
  then packet_corrupted checksum_received (data_read - sizeof_ip - ps) (drop (Z.to_nat (ps + sizeof_ip)) b)
  else Ok false.

(** The switch over the packet type. *)
Definition dispatch_packet (rand_value : Z) (ip_header : ip) (packet_info : SwiftNetPacketInfo) (packet_buffer : loc)
    (r : Receiver) : Outcome Receiver :=
  match packet_type_of_code (packet_type packet_info) with
  | Some REQUEST_INFORMATION => case_request_information rand_value ip_header packet_info packet_buffer r
  | Some SEND_LOST_PACKETS_REQUEST => case_send_lost_packets_request ip_header packet_info packet_buffer r
  | Some SEND_LOST_PACKETS_RESPONSE => case_send_lost_packets_response ip_header packet_info packet_buffer r
  | Some SUCCESSFULLY_RECEIVED_PACKET => case_successfully_received_packet ip_header packet_buffer r
  | Some PACKET_DELAY_UPDATE => case_packet_delay_update ip_header packet_buffer r
  | _ => process_data_packet ip_header packet_info packet_buffer r
  end.

(** One packet: [node] is the content of its queue node. *)
Definition process_packet (rand_value : Z) (node : PacketQueueContent) (r : Receiver) : Outcome Receiver :=
  match pq_data node with
  | None => Ok r
  | Some packet_buffer =>
      b ← store_get packet_buffer (packet_buffers r);
      ip_header ← read_ip_header ps b;
      packet_info ← read_packet_info ps b;
      if negb (destination_port (port_info packet_info) =? source_port) then free_packet_buffer packet_buffer r
      else
        let checksum_received := checksum packet_info in
        b ← mem_write (ps + sizeof_ip + offsetof_checksum) (repeat 0x00 4) b;
        b ← mem_write (ps + offsetof_ip_len) (le_bytes 2 (pq_data_read node)) b;
        let r := set_buffers (<[packet_buffer := b]> (packet_buffers r)) r in
        corrupted ← checksum_gate (pq_data_read node) checksum_received ip_header b;
        if corrupted : bool then free_packet_buffer packet_buffer r
        else dispatch_packet rand_value ip_header packet_info packet_buffer r
  end.

(** The loop: packets are taken from the queue until it is empty (the thread then
    sleeps) or the endpoint is closing; [rands] are the values of [rand()]. *)
Fixpoint swiftnet_process_packets (fuel : nat) (closing : bool) (rands : nat -> Z) (q : PacketQueue)
    (nodes : Store (QueueNode PacketQueueContent)) (r : Receiver)
    : Outcome (PacketQueue * Store (QueueNode PacketQueueContent) * Receiver) :=
  match fuel with
  | O => Diverge
  | S fuel =>
      if closing then Ok (q, nodes, r)
      else
        '(node, q) ← wait_for_next_packet q nodes;
        match node with
        | None => Ok (q, nodes, r)
        | Some n =>
            content ← store_get n nodes;
            r ← process_packet (rands fuel) (node_content content) r;
            nodes ← store_free n nodes;
            swiftnet_process_packets fuel closing rands q nodes r
        end
  end.
End operations.

(** The entry points of the processing threads: header, port, network data, queue and
    closing flag are those of the endpoint; an initialized client receives under the
    source port of its port information. *)
Definition swiftnet_server_process_packets (g : Globals) (malloc_ok : Z -> bool) (fuel : nat) (rands : nat -> Z)
    (server : SwiftNetServer) (nodes : Store (QueueNode PacketQueueContent)) (r : Receiver)
    : Outcome (SwiftNetServer * Store (QueueNode PacketQueueContent) * Receiver) :=
  '(q, nodes, r) ← swiftnet_process_packets g malloc_ok CONNECTION_TYPE_SERVER (sv_network_data server) (sv_eth_header server)
                     (server_port server) fuel (sv_closing server) rands (sv_packet_queue server) nodes r;
  Ok (set_server_queue q server, nodes, r).

Definition swiftnet_client_process_packets (g : Globals) (malloc_ok : Z -> bool) (fuel : nat) (rands : nat -> Z)
    (client : SwiftNetClientConnection) (nodes : Store (QueueNode PacketQueueContent)) (r : Receiver)
    : Outcome (SwiftNetClientConnection * Store (QueueNode PacketQueueContent) * Receiver) :=
  '(q, nodes, r) ← swiftnet_process_packets g malloc_ok CONNECTION_TYPE_CLIENT (cc_network_data client) (cc_eth_header client)
                     (source_port (cc_port_info client)) fuel (cc_closing client) rands (cc_packet_queue client) nodes r;
  Ok (set_client_queue q client, nodes, r).

(** ** Answers in closed form *)
Lemma build_reply_ok g nd eth h p payload :
  network_ok nd -> ether_header_ok eth ->
  build_reply g nd eth h p payload = Ok (sealed_frame (link_header nd eth) h p payload).
Proof.
  intros Hnd He. unfold build_reply. change PACKET_HEADER_SIZE with 44. unfold sizeof_ip.
  pose proof (length_link_header nd eth Hnd He) as Hl. pose proof (prepend_size_range nd Hnd) as Hps.
  set (lh := link_header nd eth) in *. rewrite <- Hl.
  rewrite construction_exact, bind_Ok by (done || change PACKET_HEADER_SIZE with 44; lia). fold lh.
  set (u := uninitialized g _). pose proof (length_uninitialized g (Z.of_nat (length lh) + 44 + Z.of_nat (length payload)) ltac:(lia)) as Hu.
  fold u in Hu. pose proof (length_headers lh h p) as Hh.
  rewrite mem_write_ok, bind_Ok by (rewrite ?length_app, ?length_drop; lia).
  replace (Z.to_nat (Z.of_nat (length lh) + 44)) with (length (headers lh h p) + 0)%nat by lia.
  rewrite blit_app_r by (rewrite length_drop; lia).
  assert (blit 0 payload (drop (length lh + 44) u) = payload) as ->.
  { unfold blit. rewrite take_0, Nat.add_0_l, drop_ge by (rewrite length_drop; lia). by rewrite app_nil_r. }
  pose proof (seal_in_place lh h p (headers lh h p ++ payload) 0 (length lh + 44 + length payload)
    ltac:(lia) ltac:(rewrite length_app; lia)) as Hs.
  assert (forall x, length x = length (headers lh h p) -> blit 0 x (headers lh h p ++ payload) = x ++ payload) as Hb.
  { intros x Hx. unfold blit. rewrite take_0, Nat.add_0_l, Hx, drop_app_length. done. }
  rewrite !Hb in Hs by (rewrite ?length_headers; done). unfold sizeof_ip in Hs.
  replace (Z.of_nat (length lh) + 44 + Z.of_nat (length payload) - 20 - Z.of_nat (length lh))
    with (Z.of_nat (length lh + 44 + length payload - length lh - 20)) by lia.
  rewrite Nat.add_0_l in Hs. rewrite Hs. unfold sealed_frame. do 3 f_equal. unfold sealed_info. do 3 f_equal.
  rewrite slice_app_r, Hh by lia. rewrite Nat.sub_diag.
  replace (length lh + 44 + length payload - (length lh + 44))%nat with (length payload) by lia. apply slice_full.
Qed.

(** ** From the frame to the switch *)
Section arrival.
Context (g : Globals) (malloc_ok : Z -> bool) (ct : ConnectionType).
Context (nd : SwiftNetNetworkData) (eth : ether_header) (port : Z).
Context (lh : list Z) (h : ip) (p : SwiftNetPacketInfo) (payload pad : list Z).
Hypothesis Hlh : Z.of_nat (length lh) = prepend_size nd.
Hypothesis Hh : ip_ok h.
Hypothesis Hp : packet_info_ok p.
Hypothesis Hsum : ip_sum h = 0.
Hypothesis Hport : destination_port (port_info p) = port.

(** A frame for this endpoint that carries no IP checksum reaches the switch with
    its headers read back, whatever its checksum and its payload, and its payload in
    place. *)
Lemma process_packet_raw rv l dr sa r :
  packet_buffers r !! l = Some (headers lh h p ++ payload ++ pad) ->
  exists b, process_packet g malloc_ok ct nd eth port rv (mk_packet_queue_content (Some l) dr sa) r
      = dispatch_packet g malloc_ok ct nd eth port rv h p l
          (set_buffers (<[l := b]> (packet_buffers r)) r)
    /\ length b = (length lh + 44 + length payload + length pad)%nat
    /\ slice (length lh + 44) (length payload) b = payload.
Proof.
  intros Hl. unfold process_packet. cbn [pq_data pq_data_read]. unfold store_get. rewrite Hl. cbn [of_option].
  rewrite bind_Ok.
  destruct (read_headers lh h p (payload ++ pad) Hh Hp) as [Hr1 Hr2].
  rewrite <- Hlh, Hr1, bind_Ok, Hr2, bind_Ok.
  rewrite Hport, Z.eqb_refl. cbn [negb].
  pose proof (length_headers lh h p) as Hlen. unfold sizeof_ip, offsetof_checksum, offsetof_ip_len.
  assert (length (headers lh h p ++ payload ++ pad) = (length lh + 44 + length payload + length pad)%nat) as Hlb
    by (rewrite !length_app; lia).
  rewrite mem_write_ok, bind_Ok by (rewrite ?repeat_length; lia).
  rewrite mem_write_ok, bind_Ok by (rewrite ?length_le_bytes; rewrite ?length_blit; rewrite ?repeat_length; lia).
  set (b1 := blit _ (repeat 0 4) _). set (b := blit _ _ b1).
  assert (length b1 = (length lh + 44 + length payload + length pad)%nat) as Hb1
    by (unfold b1; rewrite length_blit; rewrite ?repeat_length; lia).
  assert (length b = (length lh + 44 + length payload + length pad)%nat) as Hb
    by (unfold b; rewrite length_blit; rewrite ?length_le_bytes; lia).
  assert (checksum_gate nd dr (checksum p) h b = Ok false) as ->.
  { unfold checksum_gate. rewrite Hsum. cbn [Z.eqb negb]. by rewrite andb_false_r. }
  rewrite bind_Ok. exists b. split; [done|].
  split; [done|].
  unfold b. rewrite slice_blit_other by (rewrite ?length_le_bytes; lia).
  unfold b1. rewrite slice_blit_other by (rewrite ?repeat_length; lia).
  rewrite slice_app_r, Hlen, Nat.sub_diag by lia. by rewrite slice_app_l, slice_full by lia.
Qed.
End arrival.

Lemma process_packet_frame g malloc_ok ct nd eth port lh h p payload pad :
  Z.of_nat (length lh) = prepend_size nd -> ip_ok h -> packet_info_ok p -> is_bytes payload ->
  ip_sum h = 0 -> destination_port (port_info p) = port ->
  forall rv l dr sa r, packet_buffers r !! l = Some (sealed_frame lh h p payload ++ pad) ->
  exists b, process_packet g malloc_ok ct nd eth port rv (mk_packet_queue_content (Some l) dr sa) r
      = dispatch_packet g malloc_ok ct nd eth port rv h (sealed_info p payload) l
          (set_buffers (<[l := b]> (packet_buffers r)) r)
    /\ length b = (length lh + 44 + length payload + length pad)%nat
    /\ slice (length lh + 44) (length payload) b = payload.
Proof.
  intros Hlh Hh Hp Hb Hsum Hport rv l dr sa r Hl. unfold sealed_frame in Hl. rewrite <- app_assoc in Hl.
  apply (process_packet_raw g malloc_ok ct nd eth port lh h (sealed_info p payload) payload pad); try done.
  by apply sealed_info_ok.
Qed.
