(* ===== verification/Reassembly.v ===== *)
(** * Reassembly of chunked messages

    What the receiver does with the frames of one message: the invariant of a message
    in reassembly, and the run over any arrival order that starts with chunk 0, with
    duplicates, to the delivery of the data. *)

From S2P Require Import Prelude Store Queue Crc32 Wire Frames Chunks PacketBuffer SendPacket Receiver ProcessPackets.

(** ** Helper lemmas on the receiver *)
Lemma free_packet_buffer_ok r l b :
  packet_buffers r !! l = Some b -> free_packet_buffer l r = Ok (set_buffers (delete l (packet_buffers r)) r).
Proof. intros H. unfold free_packet_buffer. by rewrite (store_free_ok _ _ _ H), bind_Ok. Qed.

(** Queueing a callback appends one node. *)
Lemma pass_callback_ok d pm id r ql :
  queue_rep (packet_callback_queue r) (callback_nodes r) ql ->
  exists node q nodes, pass_callback_execution d pm id r = Ok (set_callbacks q nodes r)
    /\ queue_rep q nodes (ql ++ [(node, mk_callback_queue_content pm (Some d) id)]).
Proof.
  intros Hq. unfold pass_callback_execution, insert_callback_queue_node. cbn [store_alloc].
  set (c := mk_callback_queue_content pm (Some d) id). set (n := store_next (callback_nodes r)).
  assert (n ∉ map fst ql) as Hn.
  { intros Hin. apply list_elem_of_fmap in Hin as ([n' c'] & Heq & Hin). cbn in Heq. subst n'.
    destruct (chain_elem _ _ _ _ _ (proj1 Hq) Hin) as [next Hx]. unfold n in Hx. by rewrite store_next_fresh in Hx. }
  destruct (insert_refines (packet_callback_queue r) (<[n := mk_queue_node None c]> (callback_nodes r)) ql n c)
    as (q & nodes & Hins & Hrep & _); [|apply lookup_insert_eq|done|].
  { destruct Hq as (Hc & Hl & Hnd). split; [by apply chain_other|done]. }
  rewrite Hins, bind_Ok. by exists n, q, nodes.
Qed.

Lemma signal_delay_change_ok g nd eth status h sp dp r :
  network_ok nd -> ether_header_ok eth ->
  exists frame, signal_delay_change g nd eth status h sp dp r = Ok (send_internal frame r).
Proof. intros Hnd He. unfold signal_delay_change. rewrite build_reply_ok, bind_Ok by done. by eexists. Qed.

(** A frame arrives: the listener copies it to a fresh packet buffer, whose tail
    [pad] it does not fill, and the processing thread takes it up. *)
Definition receive (g : Globals) (malloc_ok : Z -> bool) (ct : ConnectionType) (nd : SwiftNetNetworkData)
    (eth : ether_header) (port : Z) (pad : list Z) (f : list Z) (r : Receiver) : Outcome Receiver :=
  let '(l, bufs) := store_alloc (f ++ pad) (packet_buffers r) in
  process_packet g malloc_ok ct nd eth port 0 (mk_packet_queue_content (Some l) (Z.of_nat (length f)) 0) (set_buffers bufs r).

Fixpoint receive_all (g : Globals) (malloc_ok : Z -> bool) (ct : ConnectionType) (nd : SwiftNetNetworkData)
    (eth : ether_header) (port : Z) (pad : list Z -> list Z) (fs : list (list Z)) (r : Receiver) : Outcome Receiver :=
  match fs with
  | [] => Ok r
  | f :: fs => r ← receive g malloc_ok ct nd eth port (pad f) f r; receive_all g malloc_ok ct nd eth port pad fs r
  end.

Lemma partial_geometry s len c :
  0 < s -> (c - 1) * s < len <= c * s -> len mod s <> 0 ->
  len < c * s /\ len mod s = len - (c - 1) * s.
Proof.
  intros Hs Hb Hm. assert (len <> c * s) as Hne by (intros ->; by rewrite Z.mod_mul in Hm by lia).
  split; [lia|]. symmetry. apply (Z.mod_unique_pos len s (c - 1)); lia.
Qed.

Section message.
Context (g : Globals) (malloc_ok : Z -> bool) (ct : ConnectionType).
Context (nd : SwiftNetNetworkData) (eth : ether_header) (port : Z).
Context (lh : list Z) (hs : Z -> ip) (id : Z) (p : SwiftNetPacketInfo) (data : list Z).

#[local] Abbreviation mtu := (Z.min (pi_maximum_transmission_unit p) (maximum_transmission_unit g)).
#[local] Abbreviation stride := (mtu - PACKET_HEADER_SIZE).
#[local] Abbreviation len := (Z.of_nat (length data)).
#[local] Abbreviation n := (chunk_count stride len).
#[local] Abbreviation key := (Wire.source_port (port_info p), id).
#[local] Abbreviation payload i := (chunk_payload stride data i).

(** The receiver, the message and its frames: [hs i] is the IP header of chunk [i]. *)
Record message_ok : Prop := {
  mo_network : network_ok nd;
  mo_ether : ether_header_ok eth;
  mo_malloc : forall k, malloc_ok k = true;
  mo_link : Z.of_nat (length lh) = prepend_size nd;
  mo_mtu : PACKET_HEADER_SIZE < mtu < 2 ^ 16;
  mo_info : packet_info_ok p;
  mo_port : destination_port (port_info p) = port;
  mo_type : packet_type p = packet_type_code MESSAGE \/ packet_type p = packet_type_code REQUEST;
  mo_length : packet_length p = len;
  mo_amount : chunk_amount p = n;
  mo_ip : forall i, ip_ok (hs i) /\ ip_sum (hs i) = 0 /\ ip_id (hs i) = id;
  mo_bytes : is_bytes data;
  mo_size : stride < len <= 2 ^ 32 - 2 ^ 16
}.

Hypothesis Hok : message_ok.
(** The last chunk is not full. *)
Hypothesis Hpartial : len mod stride <> 0.

Definition frame (i : Z) : list Z := sealed_frame lh (hs i) (with_index i p) (payload i).

(** A message of which the chunks [done_] have arrived. *)
Record message_state (done_ : list Z) (m : SwiftNetPendingMessage) : Prop := {
  ms_range : forall i, i ∈ done_ -> 0 <= i < n;
  ms_nodup : NoDup done_;
  ms_data : Z.of_nat (length (pm_data m)) = len;
  ms_number : chunks_received_number m = Z.of_nat (length done_);
  ms_bitmap : Z.of_nat (length (chunks_received m)) = (n + 7) / 8;
  ms_bytes : is_bytes (chunks_received m);
  ms_bits : forall i, 0 <= i < n -> chunk_bit (chunks_received m) i = bool_decide (i ∈ done_);
  ms_chunks : forall i, i ∈ done_ -> slice (Z.to_nat (i * stride)) (length (payload i)) (pm_data m) = payload i;
  ms_key : (pm_source_port m, pm_packet_id m) = key;
  ms_amount : chunk_amount (pm_packet_info m) = n
}.

Lemma geometry :
  0 < stride < len /\ 1 < n <= 2 ^ 32 - 2 ^ 16 /\ (n - 1) * stride < len < n * stride /\ len mod stride = len - (n - 1) * stride.
Proof.
  destruct Hok. change PACKET_HEADER_SIZE with 44 in *.
  pose proof (chunk_count_bounds (mtu - 44) len ltac:(lia) ltac:(lia)) as Hb.
  destruct (partial_geometry (mtu - 44) len (chunk_count (mtu - 44) len)) as [H1 H2]; [lia|lia|done|].
  split; [lia|]. split; [split; nia|]. split; [lia|done].
Qed.

Lemma payload_length i : 0 <= i < n -> Z.of_nat (length (payload i)) = if decide (i = n - 1) then len mod stride else stride.
Proof.
  intros Hi. destruct geometry as (Hs & Hn & Hb & Hm).
  rewrite (chunk_payload_length stride data i) by lia. case_decide as E; [subst i; lia|].
  assert (i * stride + stride <= (n - 1) * stride) by nia. lia.
Qed.

Lemma is_bytes_payload i : is_bytes (payload i).
Proof. unfold chunk_payload. apply is_bytes_slice. apply Hok. Qed.

(** Storing one more chunk. *)
Lemma chunk_disjoint i j :
  0 <= i < n -> 0 <= j < n -> j <> i ->
  (Z.to_nat (j * stride) + length (payload j) <= Z.to_nat (i * stride)
   \/ Z.to_nat (i * stride) + length (payload i) <= Z.to_nat (j * stride))%nat.
Proof.
  intros Hi Hj Hne. destruct geometry as (Hs & Hn & Hb & Hm).
  pose proof (Z.mod_pos_bound len stride ltac:(lia)).
  assert (forall x, 0 <= x < n -> Z.of_nat (length (payload x)) <= stride) as Hle
    by (intros x Hx; rewrite (payload_length x Hx); case_decide; lia).
  pose proof (Hle i Hi). pose proof (Hle j Hj).
  assert (forall x y, 0 <= x -> x < y -> 0 <= x * stride /\ x * stride + stride <= y * stride) as Hmono by (intros; nia).
  destruct (decide (j < i)); [left|right].
  - specialize (Hmono j i ltac:(lia) ltac:(lia)). lia.
  - specialize (Hmono i j ltac:(lia) ltac:(lia)). lia.
Qed.

Lemma chunk_fits i : 0 <= i < n -> 0 <= i * stride /\ i * stride + Z.of_nat (length (payload i)) <= len.
Proof.
  intros Hi. destruct geometry as (Hs & Hn & Hb & Hm). rewrite (payload_length i Hi).
  assert (0 <= i * stride) by nia.
  case_decide as E; [subst i; lia|]. assert (i * stride + stride <= (n - 1) * stride) by nia. lia.
Qed.

Lemma store_chunk done_ m i :
  message_state done_ m -> 0 <= i < n -> i ∉ done_ ->
  exists d bitmap, mem_write (u32 (stride * i)) (payload i) (pm_data m) = Ok d
    /\ chunk_received (chunks_received m) i = Ok bitmap
    /\ (Z.of_nat (length bitmap) = (n + 7) / 8)
    /\ forall m', pm_data m' = d -> chunks_received m' = bitmap ->
         chunks_received_number m' = chunks_received_number m + 1 ->
         (pm_source_port m', pm_packet_id m', pm_packet_info m') = (pm_source_port m, pm_packet_id m, pm_packet_info m) ->
         message_state (i :: done_) m'.
Proof.
  intros [] Hi Hnew. destruct geometry as (Hs & Hn & Hb & Hm). destruct (chunk_fits i Hi) as [Hf1 Hf2].
  pose proof (mo_size Hok) as Hsize.
  rewrite u32_id by lia. rewrite (Z.mul_comm stride i), mem_write_ok by lia.
  destruct (chunk_received_spec (chunks_received m) i) as (bm & Hbm & Hlbm & Hbbm & Hbits); [lia|rewrite ms_bitmap0; dlia|done|].
  do 2 eexists. split; [done|]. split; [exact Hbm|]. split; [by rewrite Hlbm|].
  intros m' Hd Hc Hnum [= Hh1 Hh2 Hh3]. constructor; rewrite ?Hd, ?Hc, ?Hnum, ?Hh1, ?Hh2, ?Hh3; try done.
  - intros j [->|Hj]%elem_of_cons; [done|]. auto.
  - by apply NoDup_cons.
  - rewrite length_blit by lia. done.
  - rewrite ms_number0. cbn [length]. lia.
  - by rewrite Hlbm.
  - intros j Hj. rewrite Hbits by lia. case_bool_decide as E; symmetry.
    + apply bool_decide_eq_true. subst. left.
    + rewrite ms_bits0 by done. apply bool_decide_ext. rewrite elem_of_cons. split; [by intros [|]|by right].
  - intros j Hj. apply elem_of_cons in Hj as [->|Hj].
    + apply slice_blit. lia.
    + rewrite slice_blit_other; [by apply ms_chunks0|lia|].
      destruct (decide (j = i)) as [->|Hne]; [done|]. destruct (chunk_disjoint i j Hi (ms_range0 j Hj) Hne); lia.
Qed.

(** All chunks together are the data. *)
Lemma message_complete done_ m : message_state done_ m -> Z.of_nat (length done_) = n -> pm_data m = data.
Proof.
  intros [] Hall. destruct geometry as (Hs & Hn & Hb & Hm).
  assert (forall i, 0 <= i < n -> i ∈ done_) as Hin.
  { assert (done_ ≡ₚ seqZ 0 n) as Hperm.
    { apply submseteq_length_Permutation; [|rewrite length_seqZ; lia].
      apply NoDup_submseteq; [done|]. intros i Hi. apply elem_of_seqZ. specialize (ms_range0 i Hi). lia. }
    intros i Hi. rewrite Hperm. apply elem_of_seqZ. lia. }
  apply list_eq. intros k. destruct (decide (k < length data)%nat) as [Hk|Hk]; cycle 1.
  { rewrite !lookup_ge_None_2 by lia. done. }
  pose proof (Z.div_mod (Z.of_nat k) stride ltac:(lia)) as Hdm.
  pose proof (Z.mod_pos_bound (Z.of_nat k) stride ltac:(lia)) as Hmb.
  set (i := Z.of_nat k / stride) in *. assert (0 <= i) by (apply Z.div_pos; lia).
  assert (i < n) by nia. specialize (ms_chunks0 i (Hin i ltac:(lia))).
  pose proof (payload_length i ltac:(lia)) as Hpl.
  assert (k - Z.to_nat (i * stride) < length (payload i))%nat as Hlt.
  { case_decide as E; [|nia]. subst i. rewrite E in *. nia. }
  apply (f_equal (fun l => l !! (k - Z.to_nat (i * stride))%nat)) in ms_chunks0.
  rewrite lookup_slice, decide_True in ms_chunks0 by done.
  unfold chunk_payload in ms_chunks0 at 1. rewrite lookup_slice in ms_chunks0.
  replace (Z.to_nat (i * stride) + (k - Z.to_nat (i * stride)))%nat with k in ms_chunks0 by nia.
  rewrite decide_True in ms_chunks0; [done|]. unfold chunk_payload in Hlt. rewrite length_slice in Hlt; [done|].
  unfold chunk_payload in Hpl.
  destruct (chunk_fits i ltac:(lia)) as [? Hf]. rewrite (chunk_payload_length stride data i) in Hf by lia. lia.
Qed.

(** *** Steps of the receiver *)
Context (pad : list Z -> list Z).
#[local] Abbreviation recv f := (receive g malloc_ok ct nd eth port (pad f) f).
#[local] Abbreviation info i := (sealed_info (with_index i p) (payload i)).

(** What a step leaves alone. *)
Definition same_rest (r0 r : Receiver) : Prop :=
  packets_completed r = packets_completed r0 /\ packet_callback_queue r = packet_callback_queue r0
  /\ callback_nodes r = callback_nodes r0 /\ packet_data_store r = packet_data_store r0
  /\ packet_buffers r = packet_buffers r0.

Lemma receive_frame i r :
  0 <= i < n ->
  exists l b, packet_buffers r !! l = None /\ mem_read (prepend_size nd + PACKET_HEADER_SIZE) (Z.of_nat (length (payload i))) b = Ok (payload i)
    /\ recv (frame i) r
       = process_data_packet g malloc_ok ct nd eth port (hs i) (info i) l (set_buffers (<[l := b]> (packet_buffers r)) r).
Proof.
  intros Hi. unfold receive. cbn [store_alloc]. set (l := store_next (packet_buffers r)).
  pose proof Hok as []. destruct (mo_ip0 i) as (Hip & Hsum & Hid). destruct geometry as (_ & Hn & _).
  destruct (process_packet_frame g malloc_ok ct nd eth port lh (hs i) (with_index i p) (payload i) (pad (frame i))) with
    (rv := 0) (l := l) (dr := Z.of_nat (length (frame i))) (sa := 0)
    (r := set_buffers (<[l := frame i ++ pad (frame i)]> (packet_buffers r)) r) as (b & Hproc & Hlb & Hslice); try done.
  - destruct mo_info0 as (H1 & H2 & _ & H4). split; [exact H1|]. split; [exact H2|]. split; [|exact H4].
    unfold in_word. cbn [with_index chunk_index]. lia.
  - apply is_bytes_payload.
  - apply lookup_insert_eq.
  - exists l, b. split; [apply store_next_fresh|]. split.
    + assert (prepend_size nd + PACKET_HEADER_SIZE = Z.of_nat (length lh + 44)) as ->
        by (rewrite <- mo_link0; change PACKET_HEADER_SIZE with 44; lia).
      rewrite mem_read_ok by lia. by rewrite !Nat2Z.id, Hslice.
    + rewrite Hproc. unfold dispatch_packet. cbn [set_buffers packet_buffers].
      rewrite insert_insert_eq. destruct mo_type0 as [Ht|Ht];
        change (packet_type (info i)) with (packet_type p); rewrite Ht; reflexivity.
Qed.

Lemma chunk_size_ok : u32 (Z.min (pi_maximum_transmission_unit p) (maximum_transmission_unit g) - PACKET_HEADER_SIZE) = stride.
Proof. destruct Hok. change PACKET_HEADER_SIZE with 44 in *. apply u32_id. lia. Qed.

Lemma receive_completed i r c :
  0 <= i < n -> al_get key (packets_completed r) = Some c ->
  recv (frame i) r = Ok r.
Proof.
  intros Hi Hc. destruct (receive_frame i r Hi) as (l & b & Hl & _ & ->).
  unfold process_data_packet, check_packet_already_completed.
  destruct (mo_ip Hok i) as (_ & _ & ->).
  change (Wire.source_port (port_info (info i))) with (Wire.source_port (port_info p)).
  cbn [set_buffers packets_completed]. rewrite Hc.
  rewrite (free_packet_buffer_ok _ _ b) by apply lookup_insert_eq. cbn [set_buffers packet_buffers].
  rewrite delete_insert_id by done. by destruct r.
Qed.

(** The first chunk opens the message. *)
Lemma receive_first r :
  al_get key (packets_completed r) = None -> al_get key (pending_messages r) = None ->
  exists r' lm m, recv (frame 0) r = Ok r' /\ same_rest r r'
    /\ al_get key (pending_messages r') = Some lm /\ pending_store r' !! lm = Some m /\ message_state [0] m
    /\ pending_messages r' = al_insert key lm (pending_messages r).
Proof.
  intros Hc Hp. destruct geometry as (Hs & Hn & Hb & Hm). pose proof (mo_size Hok) as Hsize.
  destruct (receive_frame 0 r ltac:(lia)) as (l & b & Hl & Hread & ->).
  unfold process_data_packet, check_packet_already_completed, get_pending_message.
  destruct (mo_ip Hok 0) as (_ & _ & ->).
  change (Wire.source_port (port_info (info 0))) with (Wire.source_port (port_info p)).
  change (pi_maximum_transmission_unit (info 0)) with (pi_maximum_transmission_unit p).
  cbn [set_buffers packets_completed pending_messages]. rewrite Hc, Hp, chunk_size_ok.
  unfold case_no_pending. change (packet_length (info 0)) with (packet_length p). rewrite (mo_length Hok).
  rewrite (proj2 (Z.ltb_lt _ _)) by lia.
  destruct (mo_ip Hok 0) as (_ & _ & ->). unfold create_new_pending_message.
  change (chunk_amount (info 0)) with (chunk_amount p). change (packet_length (info 0)) with (packet_length p).
  rewrite (mo_amount Hok), (mo_length Hok), !(mo_malloc Hok), u32_id by lia.
  change (Wire.source_port (port_info (info 0))) with (Wire.source_port (port_info p)).
  cbn [store_alloc set_pending set_buffers pending_messages pending_store packet_buffers].
  set (lm := store_next (pending_store r)). unfold store_get. rewrite !lookup_insert_eq. cbn [of_option].
  rewrite !bind_Ok. cbn [chunks_received pm_data]. change (chunk_index (info 0)) with 0.
  destruct (chunk_received_spec (repeat 0 (Z.to_nat ((n + 7) / 8))) 0) as (bm & -> & Hlbm & Hbbm & Hbits);
    [lia|rewrite repeat_length; dlia|apply Forall_forall; intros x Hx; apply list_elem_of_In, repeat_spec in Hx; by subst|].
  rewrite !bind_Ok. pose proof (payload_length 0 ltac:(lia)) as Hpl. rewrite decide_False in Hpl by lia.
  rewrite Hpl in Hread. rewrite Hread, bind_Ok.
  rewrite mem_write_ok, bind_Ok by (rewrite ?length_uninitialized; lia).
  rewrite (free_packet_buffer_ok _ _ b) by apply lookup_insert_eq.
  eexists _, lm, _. split; [done|].
  cbn [set_buffers set_pending packet_buffers pending_messages pending_store packets_completed packet_callback_queue callback_nodes packet_data_store].
  split; [split_and!; try done; cbn; by rewrite delete_insert_id|].
  rewrite al_get_insert, Hp, decide_True by done. split; [done|]. split; [apply lookup_insert_eq|].
  split; [|done]. pose proof (length_uninitialized g len ltac:(lia)) as Hu.
  constructor; cbn [pm_data chunks_received chunks_received_number].
  - intros i ->%list_elem_of_singleton. lia.
  - apply NoDup_singleton.
  - rewrite length_blit by lia. done.
  - done.
  - rewrite Hlbm, repeat_length. dlia.
  - done.
  - intros i Hi. rewrite Hbits by lia. case_bool_decide as E; symmetry.
    + apply bool_decide_eq_true. subst. left.
    + unfold chunk_bit, bitmap_bit. destruct (repeat 0 _ !! _) as [x|] eqn:Ex; cbn [from_option Datatypes.id].
      * apply list_elem_of_lookup_2, list_elem_of_In, repeat_spec in Ex. subst. rewrite Z.testbit_0_l.
        apply bool_decide_eq_false. by rewrite list_elem_of_singleton.
      * rewrite Z.testbit_0_l. apply bool_decide_eq_false. by rewrite list_elem_of_singleton.
  - intros i ->%list_elem_of_singleton. apply (slice_blit 0). lia.
  - done.
  - apply Hok.
Qed.

(** A message in reassembly, as the receiver stores it. *)
Definition reassembling (r0 : Receiver) (done_ : list Z) (r : Receiver) : Prop :=
  same_rest r0 r /\ exists lm m, al_get key (pending_messages r) = Some lm /\ pending_store r !! lm = Some m
    /\ message_state done_ m /\ pending_messages r = al_insert key lm (pending_messages r0).

Lemma same_rest_trans r0 r1 r2 : same_rest r0 r1 -> same_rest r1 r2 -> same_rest r0 r2.
Proof. intros (A1 & A2 & A3 & A4 & A5) (B1 & B2 & B3 & B4 & B5). split_and!; congruence. Qed.

(** The way into [case_pending]. *)
Lemma receive_pending i r lm :
  0 <= i < n -> al_get key (packets_completed r) = None -> al_get key (pending_messages r) = Some lm ->
  exists l b, packet_buffers r !! l = None
    /\ mem_read (prepend_size nd + PACKET_HEADER_SIZE) (Z.of_nat (length (payload i))) b = Ok (payload i)
    /\ recv (frame i) r
       = case_pending g ct nd eth port stride lm (hs i) (info i) l (set_buffers (<[l := b]> (packet_buffers r)) r).
Proof.
  intros Hi Hc Hp. destruct (receive_frame i r Hi) as (l & b & Hl & Hread & ->). exists l, b. split; [done|]. split; [done|].
  unfold process_data_packet, check_packet_already_completed, get_pending_message.
  destruct (mo_ip Hok i) as (_ & _ & ->).
  change (Wire.source_port (port_info (info i))) with (Wire.source_port (port_info p)).
  change (pi_maximum_transmission_unit (info i)) with (pi_maximum_transmission_unit p).
  cbn [set_buffers packets_completed pending_messages]. by rewrite Hc, Hp, chunk_size_ok.
Qed.

Lemma bytes_to_write_ok i :
  0 <= i < n ->
  (if n <=? u32 (i + 1) then if stride =? 0 then Fault else Ok (len mod stride) else Ok stride)
  = Ok (Z.of_nat (length (payload i))).
Proof.
  intros Hi. destruct geometry as (Hs & Hn & Hb & Hm). rewrite (payload_length i Hi), u32_id by lia.
  destruct (Z.leb_spec n (i + 1)); case_decide; try lia; [|done].
  by rewrite (proj2 (Z.eqb_neq stride 0)) by lia.
Qed.

Lemma receive_duplicate r0 done_ i r :
  al_get key (packets_completed r0) = None -> reassembling r0 done_ r -> i ∈ done_ -> recv (frame i) r = Ok r.
Proof.
  intros Hc (Hrest & lm & m & Hp & Hm & Hst & Htab) Hi. pose proof Hrest as (Hrc & _ & _ & _ & Hrb).
  pose proof (ms_range _ _ Hst i Hi) as Hri. destruct geometry as (Hs & Hn & _).
  destruct (receive_pending i r lm Hri) as (l & b & Hl & Hread & ->); [by rewrite Hrc|done|].
  unfold case_pending, store_get. cbn [set_buffers pending_store]. rewrite Hm. cbn [of_option]. rewrite bind_Ok.
  change (chunk_index (info i)) with i.
  rewrite chunk_already_received_spec by (try rewrite (ms_bitmap _ _ Hst); dlia).
  rewrite bind_Ok, (ms_bits _ _ Hst) by done. rewrite bool_decide_true by done.
  rewrite (free_packet_buffer_ok _ _ b) by apply lookup_insert_eq. cbn [set_buffers packet_buffers].
  rewrite delete_insert_id by done. by destruct r.
Qed.

(** A new chunk that does not complete the message. *)
Lemma receive_next r0 done_ i r :
  al_get key (packets_completed r0) = None -> reassembling r0 done_ r -> 0 <= i < n -> i ∉ done_ ->
  Z.of_nat (length done_) + 1 < n ->
  exists r', recv (frame i) r = Ok r' /\ reassembling r0 (i :: done_) r'.
Proof.
  intros Hc (Hrest & lm & m & Hp & Hm & Hst & Htab) Hri Hi Hcount. pose proof Hrest as (Hrc & _ & _ & _ & Hrb).
  destruct geometry as (Hs & Hn & _).
  destruct (receive_pending i r lm Hri) as (l & b & Hl & Hread & ->); [by rewrite Hrc|done|].
  destruct (store_chunk done_ m i Hst Hri Hi) as (d & bm & Hd & Hbm & Hlbm & Hst').
  unfold case_pending. unfold store_get. cbn [set_buffers pending_store packet_buffers]. rewrite Hm, lookup_insert_eq.
  cbn [of_option]. rewrite !bind_Ok. change (chunk_index (info i)) with i.
  rewrite chunk_already_received_spec by (try rewrite (ms_bitmap _ _ Hst); dlia).
  rewrite bind_Ok, (ms_bits _ _ Hst) by done. rewrite bool_decide_false by done.
  change (chunk_amount (info i)) with (chunk_amount p). change (packet_length (info i)) with (packet_length p).
  rewrite (mo_amount Hok), (mo_length Hok), bytes_to_write_ok, bind_Ok, Hread, bind_Ok by done.
  rewrite (ms_number _ _ Hst), u32_id by lia.
  rewrite (proj2 (Z.eqb_neq _ _)) by lia.
  destruct (rate_control (info i) m) as [[li ln] sig].
  set (r1 := set_buffers (<[l := b]> (packet_buffers r)) r).
  assert (exists r2, match sig with
          | Some status => signal_delay_change g nd eth status (hs i) port (Wire.source_port (port_info (info i))) r1
          | None => Ok r1 end = Ok r2 /\ packet_buffers r2 !! l = Some b /\ pending_messages r2 = pending_messages r
          /\ pending_store r2 = pending_store r /\ same_rest (set_buffers (<[l := b]> (packet_buffers r)) r) r2)
    as (r2 & -> & Hb2 & Hp2 & Hs2 & Hr2).
  { destruct sig as [status|].
    - destruct (signal_delay_change_ok g nd eth status (hs i) port (Wire.source_port (port_info (info i))) r1) as [f ->];
        [apply Hok|apply Hok|]. eexists. split; [done|]. split; [apply lookup_insert_eq|]. done.
    - exists r1. split; [done|]. split; [apply lookup_insert_eq|]. done. }
  rewrite bind_Ok, Hd, bind_Ok, Hbm, bind_Ok.
  rewrite (free_packet_buffer_ok _ _ b) by done. eexists. split; [done|].
  destruct Hr2 as (E1 & E2 & E3 & E4 & E5). destruct Hrest as (F1 & F2 & F3 & F4 & F5).
  split.
  - split_and!; cbn; [by rewrite E1, <- F1|by rewrite E2, <- F2|by rewrite E3, <- F3|by rewrite E4, <- F4|].
    rewrite E5. cbn. by rewrite delete_insert_id.
  - exists lm. eexists. cbn [set_buffers set_pending pending_messages pending_store]. rewrite Hp2.
    split; [done|]. split; [apply lookup_insert_eq|]. split; [|exact Htab].
    apply Hst'; cbn; [done|done| |done]. by rewrite (ms_number _ _ Hst).
Qed.

(** The message handed to the callback thread: one node behind the queue [ql], with
    the reassembled data. *)
Definition delivered (r0 : Receiver) (ql : list (loc * CallbackQueueContent)) (r : Receiver) : Prop :=
  exists lm m d node c,
    al_get key (packets_completed r) = Some c
    /\ pending_store r !! lm = Some m /\ pm_data m = data
    /\ packet_data_store r !! d = Some (mk_packet_data (Some lm) (InPendingMessage lm) 0 (port_info p)
         (if decide (ct = CONNECTION_TYPE_SERVER) then Some (sender_of nd eth p) else None) len id
         (packet_type p =? packet_type_code REQUEST))
    /\ queue_rep (packet_callback_queue r) (callback_nodes r)
         (ql ++ [(node, mk_callback_queue_content (Some lm) (Some d) id)])
    /\ packet_buffers r = packet_buffers r0
    /\ al_get key (pending_messages r) = Some lm /\ pending_messages r = al_insert key lm (pending_messages r0)
    /\ exists done_, message_state done_ m /\ Z.of_nat (length done_) = n.

Lemma receive_last r0 ql done_ i r :
  al_get key (packets_completed r0) = None ->
  queue_rep (packet_callback_queue r0) (callback_nodes r0) ql ->
  reassembling r0 done_ r -> 0 <= i < n -> i ∉ done_ -> Z.of_nat (length done_) + 1 = n ->
  exists r', recv (frame i) r = Ok r' /\ delivered r0 ql r'.
Proof.
  intros Hc Hq (Hrest & lm & m & Hp & Hm & Hst & Htab) Hri Hi Hcount.
  pose proof Hrest as (Hrc & Hrq & Hrn & Hrd & Hrb). destruct geometry as (Hs & Hn & _). pose proof (mo_mtu Hok) as Hmtu.
  destruct (receive_pending i r lm Hri) as (l & b & Hl & Hread & ->); [by rewrite Hrc|done|].
  destruct (store_chunk done_ m i Hst Hri Hi) as (d & bm & Hd & Hbm & Hlbm & Hst').
  unfold case_pending. unfold store_get. cbn [set_buffers pending_store packet_buffers]. rewrite Hm, lookup_insert_eq.
  cbn [of_option]. rewrite !bind_Ok. change (chunk_index (info i)) with i.
  rewrite chunk_already_received_spec by (try rewrite (ms_bitmap _ _ Hst); dlia).
  rewrite bind_Ok, (ms_bits _ _ Hst) by done. rewrite bool_decide_false by done.
  change (chunk_amount (info i)) with (chunk_amount p). change (packet_length (info i)) with (packet_length p).
  rewrite (mo_amount Hok), (mo_length Hok), bytes_to_write_ok, bind_Ok, Hread, bind_Ok by done.
  rewrite (ms_number _ _ Hst), u32_id by lia. rewrite (proj2 (Z.eqb_eq _ _)) by lia.
  rewrite Hd, bind_Ok, Hbm, bind_Ok.
  assert (PACKET_HEADER_SIZE = 44) by done.
  rewrite lost_indexes_spec, bind_Ok by first [lia | rewrite Hlbm; dlia].
  set (m' := mk_pending_message _ _ _ _ _ _ _ _ _ _). cbv zeta. unfold deliver.
  change (packet_type (info i)) with (packet_type p). change (packet_length (info i)) with (packet_length p).
  change (port_info (info i)) with (port_info p). change (sender_of nd eth (info i)) with (sender_of nd eth p).
  destruct (mo_ip Hok i) as (_ & _ & ->). rewrite (mo_length Hok). unfold packet_completed. cbn [store_alloc].
  assert ((packet_type p =? packet_type_code RESPONSE) = false) as ->
    by (by destruct (mo_type Hok) as [->| ->]).
  set (r1 := set_packet_data _ _).
  destruct (pass_callback_ok (store_next (packet_data_store r)) (Some lm) id r1 ql) as (node & q & nodes & Hpass & Hrep).
  { cbn. by rewrite Hrq, Hrn. }
  match goal with |- context [pass_callback_execution ?x _ _ r1] => change x with (store_next (packet_data_store r)) end.
  rewrite Hpass, bind_Ok. rewrite (free_packet_buffer_ok _ _ b) by apply lookup_insert_eq.
  eexists. split; [done|].
  exists lm, m', (store_next (packet_data_store r)), node. eexists.
  cbn [set_buffers set_callbacks set_packet_data set_completed set_pending packets_completed pending_store packet_data_store packet_callback_queue callback_nodes packet_buffers r1].
  split; [rewrite al_get_insert, Hrc, Hc, decide_True by done; done|].
  split; [apply lookup_insert_eq|].
  assert (message_state (i :: done_) m') as Hst2 by (apply Hst'; [done|done|cbn; by rewrite (ms_number _ _ Hst)|done]).
  split; [apply (message_complete (i :: done_)); [done|cbn [length]; lia]|].
  split; [apply lookup_insert_eq|]. split; [exact Hrep|]. split; [by rewrite delete_insert_id|].
  split; [exact Hp|]. split; [exact Htab|]. exists (i :: done_). split; [exact Hst2|]. cbn [length]. lia.
Qed.

(** ** Runs *)
Lemma receive_completed_all is_ r c :
  (forall i, i ∈ is_ -> 0 <= i < n) -> al_get key (packets_completed r) = Some c ->
  receive_all g malloc_ok ct nd eth port pad (map frame is_) r = Ok r.
Proof.
  intros Hi Hc. induction is_ as [|i is_ IH]; [done|]. cbn [map receive_all].
  rewrite (receive_completed i r c) by (done || (apply Hi; left)). rewrite bind_Ok. apply IH.
  intros j Hj. apply Hi. by right.
Qed.

Lemma receive_rest r0 ql done_ is_ r :
  al_get key (packets_completed r0) = None ->
  queue_rep (packet_callback_queue r0) (callback_nodes r0) ql ->
  reassembling r0 done_ r -> Z.of_nat (length done_) < n ->
  (forall i, i ∈ is_ -> 0 <= i < n) -> (forall i, 0 <= i < n -> i ∈ done_ \/ i ∈ is_) ->
  exists r', receive_all g malloc_ok ct nd eth port pad (map frame is_) r = Ok r' /\ delivered r0 ql r'.
Proof.
  intros Hc Hq. revert done_ r. induction is_ as [|i is_ IH]; intros done_ r Hre Hlt Hin Hall; cbn [map receive_all].
  - exfalso. pose proof Hre as (_ & lm & m & _ & _ & Hst & _).
    assert (length (seqZ 0 n) <= length done_)%nat as Hle.
    { apply submseteq_length. apply NoDup_submseteq; [apply NoDup_seqZ|].
      intros i Hi. apply elem_of_seqZ in Hi. destruct (Hall i ltac:(lia)) as [|Hx]; [done|by apply not_elem_of_nil in Hx]. }
    rewrite length_seqZ in Hle. lia.
  - pose proof (Hin i ltac:(left)) as Hri. destruct (decide (i ∈ done_)) as [Hd|Hd].
    + rewrite (receive_duplicate r0 done_) by done. rewrite bind_Ok. apply (IH done_); try done.
      * intros j Hj. apply Hin. by right.
      * intros j Hj. destruct (Hall j Hj) as [|[->|]%elem_of_cons]; auto.
    + destruct (decide (Z.of_nat (length done_) + 1 = n)) as [Hlast|Hmore].
      * destruct (receive_last r0 ql done_ i r Hc Hq Hre Hri Hd Hlast) as (r' & -> & Hdel). rewrite bind_Ok.
        pose proof Hdel as (_ & _ & _ & _ & c & Hcomp & _).
        rewrite (receive_completed_all is_ r' c); [by exists r'|intros j Hj; apply Hin; by right|done].
      * destruct (receive_next r0 done_ i r Hc Hre Hri Hd ltac:(lia)) as (r' & -> & Hre'). rewrite bind_Ok.
        apply (IH (i :: done_)); [done|cbn [length]; lia|intros j Hj; apply Hin; by right|].
        intros j Hj. rewrite elem_of_cons. destruct (Hall j Hj) as [|[->|]%elem_of_cons]; auto.
Qed.
End message.

(** ** Sender and receiver together *)
Section end_to_end.
Context (gs gr : Globals) (malloc_ok : Z -> bool) (ct : ConnectionType) (nd : SwiftNetNetworkData).
Context (eth_s eth_r : ether_header) (ports : SwiftNetPortInfo) (dst id ty : Z) (data : list Z).

(** The path MTU the sender uses: the receiver's, learned in the handshake, or its
    own. *)
Definition path_mtu : Z := Z.min (maximum_transmission_unit gr) (maximum_transmission_unit gs).
Definition path_stride : Z := path_mtu - PACKET_HEADER_SIZE.
Definition message_chunks : Z := chunk_count path_stride (Z.of_nat (length data)).

(** The frames of the message as [swiftnet_send_packet] sends them. *)
Definition message_info : SwiftNetPacketInfo :=
  construct_packet_info gs (Z.of_nat (length data)) ty message_chunks 0 ports.
Definition message_frame (i : Z) : list Z :=
  chunk_frame (link_header nd eth_s)
    (with_ip_len (htons (u16 (path_mtu + prepend_size nd))) (construct_ip_header gs dst path_mtu id))
    message_info path_mtu data i.

(** The conditions on the two ends and the message. *)
Record transfer_ok : Prop := {
  to_network : network_ok nd;
  to_eth_s : ether_header_ok eth_s;
  to_eth_r : ether_header_ok eth_r;
  to_globals : globals_ok gs;
  to_malloc : forall k, malloc_ok k = true;
  to_ports : port_info_ok ports;
  to_dst : in_word 32 dst;
  to_type : ty = packet_type_code MESSAGE \/ ty = packet_type_code REQUEST;
  to_bytes : is_bytes data;
  to_mtu : PACKET_HEADER_SIZE < path_mtu < 2 ^ 16;
  to_size : path_stride < Z.of_nat (length data) <= 2 ^ 32 - 2 ^ 16
}.

Definition chunk_ip (i : Z) : ip :=
  let h := with_ip_len (htons (u16 (path_mtu + prepend_size nd))) (construct_ip_header gs dst path_mtu id) in
  if Z.of_nat (length data) <=? i * path_stride + path_stride
  then with_ip_len (htons (u16 (PACKET_HEADER_SIZE + Z.of_nat (length (chunk_payload path_stride data i))))) h else h.

Lemma chunk_ip_ok i : globals_ok gs -> in_word 32 dst ->
  ip_ok (chunk_ip i) /\ ip_sum (chunk_ip i) = 0 /\ ip_id (chunk_ip i) = htons (u16 id).
Proof.
  intros Hg Hd. pose proof (construct_ip_header_ok gs dst path_mtu id Hg Hd) as (? & ? & ? & _ & Hrest).
  assert (forall x, ip_ok (with_ip_len (htons x) (construct_ip_header gs dst path_mtu id))) as Hw.
  { intros x. split; [done|]. split; [done|]. split; [done|]. split; [apply htons_range|]. exact Hrest. }
  unfold chunk_ip. cbv zeta. destruct (_ <=? _); (split; [|done]); [|apply Hw]. apply Hw.
Qed.

Lemma message_chunks_range : transfer_ok -> 0 < message_chunks < 2 ^ 32.
Proof.
  intros []. unfold message_chunks, path_stride in *. assert (PACKET_HEADER_SIZE = 44) by done.
  pose proof (chunk_count_bounds (path_mtu - PACKET_HEADER_SIZE) (Z.of_nat (length data)) ltac:(lia) ltac:(lia)).
  pose proof (chunk_count_pos (path_mtu - PACKET_HEADER_SIZE) (Z.of_nat (length data)) ltac:(lia) ltac:(lia)). nia.
Qed.

Lemma path_mtu_receiver : Z.min (pi_maximum_transmission_unit message_info) (maximum_transmission_unit gr) = path_mtu.
Proof. apply Z.min_comm. Qed.

Lemma transfer_message_ok :
  transfer_ok ->
  message_ok gr malloc_ok nd eth_r (destination_port ports) (link_header nd eth_s) chunk_ip (htons (u16 id)) message_info data.
Proof.
  intros Ht. pose proof (message_chunks_range Ht) as Hn. destruct Ht.
  assert (PACKET_HEADER_SIZE = 44) by done.
  constructor; rewrite ?path_mtu_receiver; try done.
  - by apply length_link_header.
  - apply construct_packet_info_ok; try done; unfold in_word; try lia. destruct to_type0 as [->| ->]; vm_compute; split; congruence.
  - intros i. by apply chunk_ip_ok.
Qed.

Lemma message_frame_eq i :
  message_frame i = frame gr (link_header nd eth_s) chunk_ip message_info data i.
Proof. unfold message_frame, frame, chunk_frame, chunk_ip. by rewrite path_mtu_receiver. Qed.
End end_to_end.

(** The frames of a message, chunk 0 first. *)
Lemma message_reassembled gs gr malloc_ok ct nd eth_s eth_r ports dst id ty data pad arrivals r ql :
  transfer_ok gs gr malloc_ok nd eth_s eth_r ports dst ty data ->
  Z.of_nat (length data) mod path_stride gs gr <> 0 ->
  let n := message_chunks gs gr data in
  (forall i, i ∈ arrivals -> 0 <= i < n) -> (forall i, 0 <= i < n -> i ∈ 0 :: arrivals) ->
  let key := (Wire.source_port ports, htons (u16 id)) in
  al_get key (packets_completed r) = None -> al_get key (pending_messages r) = None ->
  queue_rep (packet_callback_queue r) (callback_nodes r) ql ->
  exists r', receive_all gr malloc_ok ct nd eth_r (destination_port ports) pad
               (map (message_frame gs gr nd eth_s ports dst id ty data) (0 :: arrivals)) r = Ok r'
    /\ delivered gr ct nd eth_r (htons (u16 id)) (message_info gs gr ports ty data) data r ql r'.
Proof.
  intros Ht Hpartial n Hin Hall key Hc Hp Hq. pose proof (transfer_message_ok gs gr malloc_ok nd eth_s eth_r ports dst id ty data Ht) as Hok.
  rewrite (map_ext _ _ (message_frame_eq gs gr nd eth_s ports dst id ty data)).
  pose proof (path_mtu_receiver gs gr ports ty data) as Hpm.
  assert (chunk_count (Z.min (pi_maximum_transmission_unit (message_info gs gr ports ty data)) (maximum_transmission_unit gr)
            - PACKET_HEADER_SIZE) (Z.of_nat (length data)) = n) as Hn by (by rewrite Hpm).
  assert (Z.of_nat (length data) mod (Z.min (pi_maximum_transmission_unit (message_info gs gr ports ty data))
            (maximum_transmission_unit gr) - PACKET_HEADER_SIZE) <> 0) as Hpartial' by (by rewrite Hpm).
  pose proof (message_chunks_range gs gr malloc_ok nd eth_s eth_r ports dst ty data Ht) as Hnr.
  cbn [map receive_all].
  destruct (receive_first gr malloc_ok ct nd eth_r (destination_port ports) (link_header nd eth_s)
    (chunk_ip gs gr nd dst id data) (htons (u16 id)) (message_info gs gr ports ty data) data Hok Hpartial' pad r Hc Hp)
    as (r1 & lm & m & -> & Hrest & Hl & Hm & Hst & Htab). rewrite bind_Ok.
  destruct (geometry gr malloc_ok nd eth_r (destination_port ports) (link_header nd eth_s)
    (chunk_ip gs gr nd dst id data) (htons (u16 id)) (message_info gs gr ports ty data) data Hok Hpartial') as (_ & Hn1 & _).
  apply (receive_rest gr malloc_ok ct nd eth_r (destination_port ports) (link_header nd eth_s)
    (chunk_ip gs gr nd dst id data) (htons (u16 id)) (message_info gs gr ports ty data) data Hok Hpartial' pad r ql [0]); try done.
  - split; [exact Hrest|]. by exists lm, m.
  - cbn [length]. lia.
  - intros i Hi. rewrite Hn. by apply Hin.
  - intros i Hi. rewrite Hn in Hi. destruct (proj1 (elem_of_cons _ _ _) (Hall i Hi)) as [->|]; [left; left|by right].
Qed.

(** C3 End-to-end reassembly: the frames [swiftnet_send_packet] produces for a message
    whose last chunk is not full, arriving in any order that starts with chunk 0,
    each any number of times, are processed without error; once all have arrived,
    exactly one callback is queued, with the sender's port, the packet id and the
    length, and the message's block holds exactly the data sent.  Every packet
    buffer used on the way is free again. *)
Theorem reassembly_delivers gs gr malloc_ok ct nd eth_s eth_r ports dst id ty data pad arrivals r ql :
  transfer_ok gs gr malloc_ok nd eth_s eth_r ports dst ty data ->
  Z.of_nat (length data) mod path_stride gs gr <> 0 ->
  let n := message_chunks gs gr data in
  (forall i, i ∈ arrivals -> 0 <= i < n) -> (forall i, 0 <= i < n -> i ∈ 0 :: arrivals) ->
  let key := (Wire.source_port ports, htons (u16 id)) in
  al_get key (packets_completed r) = None -> al_get key (pending_messages r) = None ->
  queue_rep (packet_callback_queue r) (callback_nodes r) ql ->
  exists r', receive_all gr malloc_ok ct nd eth_r (destination_port ports) pad
               (map (message_frame gs gr nd eth_s ports dst id ty data) (0 :: arrivals)) r = Ok r'
    /\ delivered gr ct nd eth_r (htons (u16 id)) (message_info gs gr ports ty data) data r ql r'.
Proof. apply message_reassembled. Qed.

Definition r_empty : Receiver := mk_receiver [] ∅ [] ∅ ∅ empty_queue ∅ ∅ ∅ st0.
Definition g54 : Globals := mk_globals 54 0x0101A8C0 [2; 0; 0; 0; 0; 1] (fun _ => 0xAA).

Lemma transfer_54_ok :
  transfer_ok g54 g54 (fun _ => true) nd_ethernet eth0 eth0 (mk_port_info 8080 4000) 0x0201A8C0
    (packet_type_code MESSAGE) (seqZ 0 25).
Proof.
  constructor; try done; try (vm_compute; split; congruence).
  - apply nd_ethernet_ok.
  - apply eth0_ok.
  - apply eth0_ok.
  - destruct g0_ok as (_ & H). split; [split; vm_compute; congruence|exact H].
  - by left.
  - apply Forall_forall. intros x Hx. apply elem_of_seqZ in Hx. unfold is_byte. lia.
Qed.

Lemma reassembly_delivers_witness :
  exists r', receive_all g54 (fun _ => true) CONNECTION_TYPE_SERVER nd_ethernet eth0 8080 (fun _ => [])
      (map (message_frame g54 g54 nd_ethernet eth0 (mk_port_info 8080 4000) 0x0201A8C0 7 (packet_type_code MESSAGE) (seqZ 0 25))
         [0; 2; 0; 2; 1]) r_empty = Ok r'
    /\ delivered g54 CONNECTION_TYPE_SERVER nd_ethernet eth0 (htons (u16 7))
         (message_info g54 g54 (mk_port_info 8080 4000) (packet_type_code MESSAGE) (seqZ 0 25)) (seqZ 0 25) r_empty [] r'.
Proof.
  apply (reassembly_delivers g54 g54 (fun _ => true) CONNECTION_TYPE_SERVER nd_ethernet eth0 eth0 (mk_port_info 8080 4000)
    0x0201A8C0 7 (packet_type_code MESSAGE) (seqZ 0 25) (fun _ => []) [2; 0; 2; 1] r_empty []).
  - apply transfer_54_ok.
  - vm_compute. congruence.
  - change (message_chunks g54 g54 (seqZ 0 25)) with 3.
    intros i Hi. rewrite !elem_of_cons, elem_of_nil in Hi. lia.
  - change (message_chunks g54 g54 (seqZ 0 25)) with 3. intros i Hi. rewrite !elem_of_cons. lia.
  - done.
  - done.
  - split; [done|]. split; [done|]. apply NoDup_nil_2.
Defined.
