(* ===== verification/Protocol.v ===== *)
(** * The exchange about lost chunks, and the other packet types

    Theorems on the handlers of src/src/process_packets.c that are not reassembly:
    the answer to a lost-packets request and what it does to the packet being sent,
    the delay control, the checksum gate, the use of packet buffers, and the corner
    cases of reassembly. *)

From S2P Require Import Prelude Store Queue Crc32 Wire Frames Chunks PacketBuffer SendPacket Receiver ProcessPackets Reassembly.

(** ** The answer to a lost-packets request *)
Lemma is_bytes_index_bytes l : is_bytes (index_bytes l).
Proof.
  unfold index_bytes. induction l as [|i l IH]; [constructor|]. cbn [map concat]. apply Forall_app. split; [|done].
  apply is_bytes_le_bytes.
Qed.

Lemma blit_prefix (x h t : list Z) : length x = length h -> blit 0 x (h ++ t) = x ++ t.
Proof. intros Hx. unfold blit. by rewrite take_0, Nat.add_0_l, Hx, drop_app_length. Qed.

Definition lost_reply_mtu (g : Globals) (packet_info : SwiftNetPacketInfo) : Z :=
  Z.min (pi_maximum_transmission_unit packet_info) (maximum_transmission_unit g).

(** The indexes that fit one answer. *)
Definition lost_reported (g : Globals) (packet_info : SwiftNetPacketInfo) (m : SwiftNetPendingMessage) : list Z :=
  take (Z.to_nat ((lost_reply_mtu g packet_info - PACKET_HEADER_SIZE) / 4))
    (missing_chunks (chunks_received m) (chunk_amount (pm_packet_info m))).

Definition lost_reply_frame (g : Globals) (nd : SwiftNetNetworkData) (eth : ether_header) (h : ip)
    (packet_info : SwiftNetPacketInfo) (lost : list Z) : list Z :=
  sealed_frame (link_header nd eth)
    (construct_ip_header g (ip_src h) (PACKET_HEADER_SIZE + 4 * Z.of_nat (length lost)) (ip_id h))
    (construct_packet_info g (4 * Z.of_nat (length lost)) (packet_type_code SEND_LOST_PACKETS_RESPONSE) 1 0
       (mk_port_info (Wire.source_port (port_info packet_info)) (destination_port (port_info packet_info))))
    (index_bytes lost).

Lemma lost_reported_fits g info m :
  PACKET_HEADER_SIZE <= lost_reply_mtu g info ->
  4 * Z.of_nat (length (lost_reported g info m)) <= lost_reply_mtu g info - PACKET_HEADER_SIZE.
Proof.
  intros Hm. unfold lost_reported. rewrite length_take.
  pose proof (Z.mul_div_le (lost_reply_mtu g info - PACKET_HEADER_SIZE) 4 ltac:(lia)).
  pose proof (Z.div_pos (lost_reply_mtu g info - PACKET_HEADER_SIZE) 4 ltac:(lia) ltac:(lia)). lia.
Qed.

(** Headers with a payload behind them, sealed in place and read back as a frame. *)
Lemma seal_behind_headers lh h p payload t off n len :
  (length payload <= length t)%nat -> take (length payload) t = payload ->
  off = Z.of_nat (length lh) + 20 -> n = 44 + Z.of_nat (length payload) - 20 -> len = 44 + Z.of_nat (length payload) + Z.of_nat (length lh) ->
  (b ← HANDLE_CHECKSUM (headers lh h p ++ t) off n; mem_read 0 len b) = Ok (sealed_frame lh h p payload).
Proof.
  intros Hlen Ht -> -> ->. pose proof (length_headers lh h p) as Hh. change PACKET_HEADER_SIZE with 44 in *.
  pose proof (seal_in_place lh h p (headers lh h p ++ t) 0 (length lh + 44 + length payload) ltac:(lia) ltac:(rewrite length_app; lia)) as Hs.
  rewrite !blit_prefix, Nat.add_0_l in Hs by (by rewrite ?length_headers). unfold sizeof_ip in Hs.
  replace (Z.of_nat (length lh + 44 + length payload - length lh - 20)) with (44 + Z.of_nat (length payload) - 20) in Hs by lia.
  rewrite Hs, bind_Ok. clear Hs.
  assert (slice (0 + (length lh + 44)) (length lh + 44 + length payload - (length lh + 44)) (headers lh h p ++ t) = payload) as ->.
  { rewrite slice_app_r by lia. replace (0 + (length lh + 44) - length (headers lh h p))%nat with 0%nat by lia.
    replace (length lh + 44 + length payload - (length lh + 44))%nat with (length payload) by lia. exact Ht. }
  pose proof (length_headers lh h (sealed_info p payload)) as Hh3.
  rewrite mem_read_ok by (rewrite ?length_app; lia). unfold sealed_frame. do 2 f_equal.
  unfold slice. rewrite drop_0. replace (Z.to_nat (44 + Z.of_nat (length payload) + Z.of_nat (length lh)))
    with (length (headers lh h (sealed_info p payload)) + length payload)%nat by lia.
  rewrite take_app_add'. 2:done. by rewrite Ht.
Qed.

Lemma build_lost_chunks_reply_ok g nd eth h info m :
  network_ok nd -> ether_header_ok eth ->
  PACKET_HEADER_SIZE <= lost_reply_mtu g info < 2 ^ 16 ->
  0 <= chunk_amount (pm_packet_info m) <= 2 ^ 32 - 8 ->
  chunk_amount (pm_packet_info m) <= 8 * Z.of_nat (length (chunks_received m)) ->
  build_lost_chunks_reply g nd eth h info m = Ok (lost_reply_frame g nd eth h info (lost_reported g info m)).
Proof.
  intros Hnd He Hmtu Ham Hbm. unfold build_lost_chunks_reply. fold (lost_reply_mtu g info).
  pose proof (lost_reported_fits g info m ltac:(lia)) as Hfit.
  set (lost := lost_reported g info m) in *.
  pose proof (length_link_header nd eth Hnd He) as Hl. pose proof (prepend_size_range nd Hnd) as Hps.
  change PACKET_HEADER_SIZE with 44 in *. set (mtu := lost_reply_mtu g info) in *.
  rewrite construction_exact, bind_Ok by (done || change PACKET_HEADER_SIZE with 44; lia).
  unfold lost_reply_frame. set (lh := link_header nd eth) in *. rewrite <- Hl.
  rewrite u32_id by lia. rewrite lost_indexes_spec by lia.
  replace (take _ (missing_chunks _ _)) with lost by done. rewrite bind_Ok.
  set (h0 := construct_ip_header g (ip_src h) 0 (ip_id h)). set (p0 := construct_packet_info g 0 _ 1 0 _).
  pose proof (length_uninitialized g (mtu + Z.of_nat (length lh)) ltac:(lia)) as Hu.
  set (u := drop (length lh + 44) (uninitialized g (mtu + Z.of_nat (length lh)))).
  assert (Z.of_nat (length u) = mtu - 44) as Hlu by (unfold u; rewrite length_drop; lia).
  pose proof (length_index_bytes lost) as Hib. pose proof (length_headers lh h0 p0) as Hh.
  rewrite mem_write_ok, bind_Ok by (rewrite ?length_app; lia).
  replace (Z.to_nat (44 + Z.of_nat (length lh))) with (length (headers lh h0 p0) + 0)%nat by lia.
  rewrite blit_app_r by lia. set (t := blit 0 (index_bytes lost) u).
  assert (length t = length u) as Hlt by (apply length_blit; lia).
  rewrite !u32_id by lia. replace (Z.of_nat (length lost) * 4) with (4 * Z.of_nat (length lost)) by lia.
  unfold offsetof_ip_len, offsetof_packet_length, sizeof_ip.
  rewrite mem_write_ok, bind_Ok by (rewrite ?length_app, ?length_le_bytes; lia).
  replace (Z.to_nat (Z.of_nat (length lh) + 2)) with (length lh + 2)%nat by lia.
  rewrite blit_app_l, write_ip_len by (rewrite ?length_le_bytes; lia).
  set (h1 := with_ip_len _ h0). pose proof (length_headers lh h1 p0) as Hh1.
  rewrite mem_write_ok, bind_Ok by (rewrite ?length_app, ?length_le_bytes; lia).
  replace (Z.to_nat (Z.of_nat (length lh) + 20 + 0)) with (length lh + 20 + 0)%nat by lia.
  rewrite blit_app_l, write_packet_length by (rewrite ?length_le_bytes; lia).
  set (p1 := with_length _ p0). pose proof (length_headers lh h1 p1) as Hh2.
  rewrite (seal_behind_headers _ _ _ (index_bytes lost)); [|lia|apply (slice_blit 0 (index_bytes lost) u); lia|lia..]. done.
Qed.

(** ** Frames between two endpoints *)
Lemma receive_raw g malloc_ok ct nd eth port pad lh h p payload r :
  Z.of_nat (length lh) = prepend_size nd -> ip_ok h -> packet_info_ok p ->
  ip_sum h = 0 -> destination_port (port_info p) = port ->
  exists l b, packet_buffers r !! l = None
    /\ mem_read (prepend_size nd + PACKET_HEADER_SIZE) (Z.of_nat (length payload)) b = Ok payload
    /\ receive g malloc_ok ct nd eth port pad (headers lh h p ++ payload) r
       = dispatch_packet g malloc_ok ct nd eth port 0 h p l (set_buffers (<[l := b]> (packet_buffers r)) r).
Proof.
  intros Hlh Hh Hp Hsum Hport. unfold receive. cbn [store_alloc]. set (l := store_next (packet_buffers r)).
  destruct (process_packet_raw g malloc_ok ct nd eth port lh h p payload pad Hlh Hh Hp Hsum Hport 0 l
    (Z.of_nat (length (headers lh h p ++ payload))) 0
    (set_buffers (<[l := (headers lh h p ++ payload) ++ pad]> (packet_buffers r)) r)) as (b & Hproc & Hlb & Hslice).
  { cbn. rewrite <- app_assoc. apply lookup_insert_eq. }
  exists l, b. split; [apply store_next_fresh|]. split.
  - assert (prepend_size nd + PACKET_HEADER_SIZE = Z.of_nat (length lh + 44)) as ->
      by (rewrite <- Hlh; change PACKET_HEADER_SIZE with 44; lia).
    rewrite mem_read_ok by lia. by rewrite !Nat2Z.id, Hslice.
  - rewrite Hproc. cbn [set_buffers packet_buffers]. by rewrite insert_insert_eq.
Qed.

Lemma receive_sealed g malloc_ok ct nd eth port pad lh h p payload r :
  Z.of_nat (length lh) = prepend_size nd -> ip_ok h -> packet_info_ok p -> is_bytes payload ->
  ip_sum h = 0 -> destination_port (port_info p) = port ->
  exists l b, packet_buffers r !! l = None
    /\ mem_read (prepend_size nd + PACKET_HEADER_SIZE) (Z.of_nat (length payload)) b = Ok payload
    /\ receive g malloc_ok ct nd eth port pad (sealed_frame lh h p payload) r
       = dispatch_packet g malloc_ok ct nd eth port 0 h (sealed_info p payload) l
           (set_buffers (<[l := b]> (packet_buffers r)) r).
Proof. intros Hlh Hh Hp Hb Hsum Hport. apply receive_raw; try done. by apply sealed_info_ok. Qed.

(** What [free_packet_buffer] leaves when the buffer was fresh. *)
Lemma free_fresh l b r :
  packet_buffers r !! l = None ->
  free_packet_buffer l (set_buffers (<[l := b]> (packet_buffers r)) r) = Ok r.
Proof.
  intros Hl. rewrite (free_packet_buffer_ok _ _ b) by apply lookup_insert_eq. cbn [set_buffers packet_buffers].
  rewrite delete_insert_id by done. by destruct r.
Qed.

Section exchange.
Context (ga gb : Globals) (malloc_ok : Z -> bool) (nd : SwiftNetNetworkData) (etha ethb : ether_header).
Context (ports : SwiftNetPortInfo) (dst id : Z) (pad : list Z).

(** Two endpoints [a] and [b] and the packet [id] that [a] sends to [b]. *)
Record exchange_ok : Prop := {
  ex_network : network_ok nd;
  ex_ether_a : ether_header_ok etha;
  ex_ether_b : ether_header_ok ethb;
  ex_globals_a : globals_ok ga;
  ex_globals_b : globals_ok gb;
  ex_ports : port_info_ok ports;
  ex_dst : in_word 32 dst;
  ex_id : in_word 16 id;
  ex_mtu : PACKET_HEADER_SIZE <= Z.min (maximum_transmission_unit ga) (maximum_transmission_unit gb)
}.
Hypothesis Hex : exchange_ok.

#[local] Abbreviation request := (lost_request_frame ga nd etha dst id ports).
#[local] Abbreviation key := (Wire.source_port ports, htons id).
#[local] Abbreviation request_ip := (construct_ip_header ga dst PACKET_HEADER_SIZE id).
#[local] Abbreviation request_info :=
  (construct_packet_info ga 0x00 (packet_type_code SEND_LOST_PACKETS_REQUEST) 1 0 ports).

Lemma request_ip_id : ip_id request_ip = htons id.
Proof. cbn [construct_ip_header ip_id]. by rewrite u16_id by apply Hex. Qed.

Lemma receive_request ctb rb :
  exists l b, packet_buffers rb !! l = None
    /\ receive gb malloc_ok ctb nd ethb (destination_port ports) pad request rb
       = case_send_lost_packets_request gb nd ethb request_ip (sealed_info request_info []) l
           (set_buffers (<[l := b]> (packet_buffers rb)) rb).
Proof.
  destruct Hex. destruct (receive_sealed gb malloc_ok ctb nd ethb (destination_port ports) pad (link_header nd etha) request_ip request_info [] rb)
    as (l & b & Hl & _ & Hr); try done.
  - by apply length_link_header.
  - by apply construct_ip_header_ok.
  - apply construct_packet_info_ok; try done; by split.
  - constructor.
  - exists l, b. split; [done|]. exact Hr.
Qed.

#[local] Abbreviation reply_ip size := (construct_ip_header gb (ip_src request_ip) size (htons id)).
#[local] Abbreviation reply_info len ty :=
  (construct_packet_info gb len ty 1 0 (mk_port_info (Wire.source_port ports) (destination_port ports))).

Lemma reply_ip_id size : ip_id (reply_ip size) = id.
Proof.
  cbn [construct_ip_header ip_id]. rewrite (u16_id (htons id)) by apply htons_range. apply htons_involutive, Hex.
Qed.

(** A reply to the request is accepted by the endpoint that asked. *)
Lemma receive_reply cta pad' ty len size payload ra :
  in_word 8 ty -> in_word 32 len -> is_bytes payload ->
  exists l b, packet_buffers ra !! l = None
    /\ mem_read (prepend_size nd + PACKET_HEADER_SIZE) (Z.of_nat (length payload)) b = Ok payload
    /\ receive ga malloc_ok cta nd etha (Wire.source_port ports) pad'
         (sealed_frame (link_header nd ethb) (reply_ip size) (reply_info len ty) payload) ra
       = dispatch_packet ga malloc_ok cta nd etha (Wire.source_port ports) 0
           (reply_ip size) (sealed_info (reply_info len ty) payload) l
           (set_buffers (<[l := b]> (packet_buffers ra)) ra).
Proof.
  intros Hty Hlen Hb. destruct Hex. apply receive_sealed; try done.
  - by apply length_link_header.
  - apply construct_ip_header_ok; [done|]. apply ex_globals_a0.
  - apply construct_packet_info_ok; try done. destruct ex_ports0. by split.
Qed.

(** The completed case: the sender learns it is done. *)
Lemma exchange_completed ctb cta rb ra c ls p :
  al_get key (pending_messages rb) = None -> al_get key (packets_completed rb) = Some c ->
  al_get id (packets_sending (sender ra)) = Some ls -> sending_store (sender ra) !! ls = Some p ->
  exists f, receive gb malloc_ok ctb nd ethb (destination_port ports) pad request rb = Ok (send_internal f rb)
    /\ forall pad', receive ga malloc_ok cta nd etha (Wire.source_port ports) pad' f ra
       = Ok (set_sender (set_obj ls (action_done p) (sender ra)) ra).
Proof.
  intros Hp Hc Hs Hls. destruct (receive_request ctb rb) as (l & b & Hl & ->).
  unfold case_send_lost_packets_request, get_pending_message, check_packet_already_completed.
  rewrite request_ip_id. change (port_info (sealed_info request_info [])) with ports.
  cbn [set_buffers pending_messages packets_completed]. rewrite Hp, Hc, build_reply_ok, bind_Ok by apply Hex.
  eexists. split.
  { unfold send_internal. rewrite (free_packet_buffer_ok _ _ b) by apply lookup_insert_eq.
    cbn [set_sender set_buffers packet_buffers]. rewrite delete_insert_id by done. reflexivity. }
  intros pad'. destruct (receive_reply cta pad' (packet_type_code SUCCESSFULLY_RECEIVED_PACKET) 0 PACKET_HEADER_SIZE [] ra) as (l2 & b2 & Hl2 & _ & ->);
    [by split|by split|constructor|].
  unfold dispatch_packet. cbn [sealed_info with_checksum packet_type construct_packet_info].
  change (packet_type_of_code (packet_type_code SUCCESSFULLY_RECEIVED_PACKET)) with (Some SUCCESSFULLY_RECEIVED_PACKET). cbv iota.
  unfold case_successfully_received_packet, get_packet_sending. rewrite reply_ip_id. cbn [set_buffers sender]. rewrite Hs.
  rewrite (store_update_ok _ _ _ p), bind_Ok by done.
  rewrite (free_packet_buffer_ok _ _ b2) by apply lookup_insert_eq. cbn. rewrite delete_insert_id by done. done.
Qed.

(** The receiver notes that lost chunks are being resent. *)
Definition mark_resending (m : SwiftNetPendingMessage) : SwiftNetPendingMessage :=
  mk_pending_message (pm_packet_info m) (chunks_received m) (pm_data m) (chunks_received_length m)
    (chunks_received_number m) (last_index_checked m) (last_chunks_received_number m)
    (pm_source_port m) (pm_packet_id m) true.

(** The pending case: the sender gets the list of missing chunks. *)
Lemma exchange_lost ctb cta rb ra lm m ls p :
  al_get key (pending_messages rb) = Some lm -> pending_store rb !! lm = Some m ->
  0 <= chunk_amount (pm_packet_info m) <= 2 ^ 32 - 8 ->
  chunk_amount (pm_packet_info m) <= 8 * Z.of_nat (length (chunks_received m)) ->
  al_get id (packets_sending (sender ra)) = Some ls -> sending_store (sender ra) !! ls = Some p ->
  (forall k, malloc_ok k = true) ->
  (forall block, lost_chunks p = Some block -> Z.of_nat (length block) = maximum_transmission_unit ga - PACKET_HEADER_SIZE) ->
  let lost := lost_reported gb request_info m in
  exists f block, receive gb malloc_ok ctb nd ethb (destination_port ports) pad request rb
      = Ok (send_internal f (set_pending (pending_messages rb) (<[lm := mark_resending m]> (pending_store rb)) rb))
    /\ (forall pad', receive ga malloc_ok cta nd etha (Wire.source_port ports) pad' f ra
          = Ok (set_sender (set_obj ls (action_lost block lost p) (sender ra)) ra))
    /\ Z.of_nat (length (index_bytes lost ++ block)) = maximum_transmission_unit ga - PACKET_HEADER_SIZE.
Proof.
  intros Hp Hm Ham Hbm Hs Hls Hmal Hblk lost. destruct (receive_request ctb rb) as (l & b & Hl & ->).
  assert (lost_reply_mtu gb (sealed_info request_info []) = Z.min (maximum_transmission_unit ga) (maximum_transmission_unit gb)) as Hlm by done.
  pose proof Hex as []. destruct ex_globals_a0 as [Hwa _]. destruct ex_globals_b0 as [Hwb _]. unfold in_word in Hwa, Hwb.
  assert (exists block, match lost_chunks p with Some block => Ok block
            | None => Ok (uninitialized ga (maximum_transmission_unit ga - PACKET_HEADER_SIZE)) end = Ok block
          /\ Z.of_nat (length block) = maximum_transmission_unit ga - PACKET_HEADER_SIZE) as (block & Hblock & Hlb).
  { destruct (lost_chunks p) as [block|]; [exists block; auto|]. eexists. split; [done|]. apply length_uninitialized. lia. }
  unfold case_send_lost_packets_request, get_pending_message.
  rewrite request_ip_id. change (port_info (sealed_info request_info [])) with ports.
  cbn [set_buffers pending_messages pending_store]. rewrite Hp. unfold store_get at 1. rewrite Hm. cbn [of_option]. rewrite bind_Ok.
  rewrite build_lost_chunks_reply_ok, bind_Ok by (done || lia).
  match goal with |- context [lost_reported gb ?i ?x] => change (lost_reported gb i x) with lost end.
  match goal with |- context [lost_reply_frame ?a1 ?a2 ?a3 ?a4 ?a5 ?a6] => exists (lost_reply_frame a1 a2 a3 a4 a5 a6) end.
  exists (drop (Z.to_nat 0 + length (index_bytes lost)) block). pose proof (length_index_bytes lost) as Hib. split.
  { rewrite (free_packet_buffer_ok _ _ b) by apply lookup_insert_eq. destruct rb. cbn in Hl |- *. by rewrite delete_insert_id. }
  unfold lost_reply_frame. rewrite request_ip_id.
  pose proof (lost_reported_fits gb request_info m ltac:(change (lost_reply_mtu gb request_info) with (lost_reply_mtu gb (sealed_info request_info [])); lia)) as Hfit.
  fold lost in Hfit. change (lost_reply_mtu gb request_info) with (lost_reply_mtu gb (sealed_info request_info [])) in Hfit.
  assert (PACKET_HEADER_SIZE = 44) as Hphs by done.
  split; [|rewrite length_app, length_drop; change (Z.to_nat 0) with 0%nat; lia]. intros pad'.
  destruct (receive_reply cta pad' (packet_type_code SEND_LOST_PACKETS_RESPONSE) (4 * Z.of_nat (length lost))
    (PACKET_HEADER_SIZE + 4 * Z.of_nat (length lost)) (index_bytes lost) ra) as (l2 & b2 & Hl2 & Hread & Hrecv);
    [by split|unfold in_word; lia|apply is_bytes_index_bytes|].
  change (port_info (sealed_info request_info [])) with ports. rewrite Hrecv.
  unfold dispatch_packet. cbn [sealed_info with_checksum packet_type construct_packet_info].
  change (packet_type_of_code (packet_type_code SEND_LOST_PACKETS_RESPONSE)) with (Some SEND_LOST_PACKETS_RESPONSE). cbv iota.
  unfold case_send_lost_packets_response, get_packet_sending. rewrite reply_ip_id. cbn [set_buffers sender packet_buffers]. rewrite Hs.
  unfold store_get. rewrite Hls, lookup_insert_eq. cbn [of_option]. rewrite !bind_Ok, Hmal.
  rewrite Hblock. rewrite bind_Ok. cbn [packet_length].
  assert (Z.of_nat (length (index_bytes lost)) = 4 * Z.of_nat (length lost)) as Hib' by lia. rewrite Hib' in Hread.
  change (packet_length (sealed_info (reply_info ?n ?t) ?d)) with n. rewrite Hread, bind_Ok.
  rewrite mem_write_ok, bind_Ok by lia. rewrite (free_packet_buffer_ok _ _ b2) by apply lookup_insert_eq.
  cbn [set_buffers set_sender packet_buffers]. rewrite delete_insert_id by done.
  rewrite (Z.mul_comm 4), Z.div_mul by lia. unfold action_lost. reflexivity.
Qed.

(** The request is dropped when the packet is unknown. *)
Lemma exchange_unknown ctb rb :
  al_get key (pending_messages rb) = None -> al_get key (packets_completed rb) = None ->
  receive gb malloc_ok ctb nd ethb (destination_port ports) pad request rb = Ok rb.
Proof.
  intros Hp Hc. destruct (receive_request ctb rb) as (l & b & Hl & ->).
  unfold case_send_lost_packets_request, get_pending_message, check_packet_already_completed.
  rewrite request_ip_id. change (port_info (sealed_info request_info [])) with ports.
  cbn [set_buffers pending_messages packets_completed]. rewrite Hp, Hc. by apply free_fresh.
Qed.
End exchange.

(** C7 A lost-packets request that arrives for a message in reassembly is answered with
    one frame, and that frame, received by the sender, records exactly the missing
    chunks in increasing order (as many as fit the path's transmission unit) in the
    packet being sent and marks it as having lost chunks; the receiver notes that
    resending has begun.  Nothing else changes on either side, and both packet
    buffers are free again. *)
Theorem lost_request_reports_missing ga gb malloc_ok nd etha ethb ports dst id pad ctb cta rb ra lm m ls p :
  exchange_ok ga gb nd etha ethb ports dst id ->
  al_get (Wire.source_port ports, htons id) (pending_messages rb) = Some lm -> pending_store rb !! lm = Some m ->
  0 <= chunk_amount (pm_packet_info m) <= 2 ^ 32 - 8 ->
  chunk_amount (pm_packet_info m) <= 8 * Z.of_nat (length (chunks_received m)) ->
  al_get id (packets_sending (sender ra)) = Some ls -> sending_store (sender ra) !! ls = Some p ->
  (forall k, malloc_ok k = true) ->
  (forall block, lost_chunks p = Some block -> Z.of_nat (length block) = maximum_transmission_unit ga - PACKET_HEADER_SIZE) ->
  let capacity := (Z.min (maximum_transmission_unit ga) (maximum_transmission_unit gb) - PACKET_HEADER_SIZE) / 4 in
  let lost := take (Z.to_nat capacity) (missing_chunks (chunks_received m) (chunk_amount (pm_packet_info m))) in
  exists f block,
    receive gb malloc_ok ctb nd ethb (destination_port ports) pad (lost_request_frame ga nd etha dst id ports) rb
      = Ok (send_internal f (set_pending (pending_messages rb) (<[lm := mark_resending m]> (pending_store rb)) rb))
    /\ receive ga malloc_ok cta nd etha (Wire.source_port ports) pad f ra
      = Ok (set_sender (set_obj ls (action_lost block lost p) (sender ra)) ra).
Proof.
  intros Hex Hlm Hm Ham Hbm Hs Hls Hmal Hblk.
  destruct (exchange_lost ga gb malloc_ok nd etha ethb ports dst id pad Hex ctb cta rb ra lm m ls p Hlm Hm Ham Hbm Hs Hls Hmal Hblk)
    as (f & block & H1 & H2 & _). by exists f, block.
Qed.

(** A lost-packets request for a packet the receiver has completed is answered with one
    frame, and that frame makes the sender's record of the packet
    SUCCESSFULLY_RECEIVED; neither endpoint changes in any other way. *)
Theorem lost_request_confirms_completed ga gb malloc_ok nd etha ethb ports dst id pad ctb cta rb ra c ls p :
  exchange_ok ga gb nd etha ethb ports dst id ->
  al_get (Wire.source_port ports, htons id) (pending_messages rb) = None ->
  al_get (Wire.source_port ports, htons id) (packets_completed rb) = Some c ->
  al_get id (packets_sending (sender ra)) = Some ls -> sending_store (sender ra) !! ls = Some p ->
  exists f,
    receive gb malloc_ok ctb nd ethb (destination_port ports) pad (lost_request_frame ga nd etha dst id ports) rb
      = Ok (send_internal f rb)
    /\ receive ga malloc_ok cta nd etha (Wire.source_port ports) pad f ra
      = Ok (set_sender (set_obj ls (action_done p) (sender ra)) ra).
Proof.
  intros Hex Hp Hc Hs Hls.
  destruct (exchange_completed ga gb malloc_ok nd etha ethb ports dst id pad Hex ctb cta rb ra c ls p Hp Hc Hs Hls) as (f & H1 & H2).
  by exists f.
Qed.

(** A lost-packets request for a packet the receiver neither has in reassembly nor
    completed is dropped without an answer, so a sender all of whose chunks were lost
    only ever polls. *)
Theorem lost_request_unknown_silent ga gb malloc_ok nd etha ethb ports dst id pad ctb rb :
  exchange_ok ga gb nd etha ethb ports dst id ->
  al_get (Wire.source_port ports, htons id) (pending_messages rb) = None ->
  al_get (Wire.source_port ports, htons id) (packets_completed rb) = None ->
  receive gb malloc_ok ctb nd ethb (destination_port ports) pad (lost_request_frame ga nd etha dst id ports) rb = Ok rb.
Proof. intros Hex. by apply exchange_unknown. Qed.

(** A sender with packet 7 in flight, and a receiver that holds chunk 0 of its 3 chunks. *)
Definition ports_ex : SwiftNetPortInfo := mk_port_info 8080 4000.
Definition sending7 : SwiftNetPacketSending := mk_packet_sending None NO_UPDATE 100 0 7 false.
Definition ra_ex : Receiver := set_sender (mk_send_state [(7, 2%positive)] {[2%positive := sending7]} [] ∅ []) r_empty.
Definition message7 : SwiftNetPendingMessage :=
  mk_pending_message (message_info g54 g54 ports_ex (packet_type_code MESSAGE) (seqZ 0 25)) [1]
    (repeat 0 25) 1 1 0 0 4000 (htons 7) false.
Definition rb_ex : Receiver := set_pending [((4000, htons 7), 1%positive)] {[1%positive := message7]} r_empty.

Lemma exchange_ex_ok : exchange_ok g54 g54 nd_ethernet eth0 eth0 ports_ex 0x0201A8C0 7.
Proof. destruct transfer_54_ok. constructor; try done; vm_compute; split; congruence. Qed.

Lemma lost_request_reports_missing_witness :
  exists f block,
    receive g54 (fun _ => true) CONNECTION_TYPE_SERVER nd_ethernet eth0 8080 [] (lost_request_frame g54 nd_ethernet eth0 0x0201A8C0 7 ports_ex) rb_ex
      = Ok (send_internal f (set_pending (pending_messages rb_ex) (<[1%positive := mark_resending message7]> (pending_store rb_ex)) rb_ex))
    /\ receive g54 (fun _ => true) CONNECTION_TYPE_CLIENT nd_ethernet eth0 4000 [] f ra_ex
      = Ok (set_sender (set_obj 2%positive (action_lost block [1; 2] sending7) (sender ra_ex)) ra_ex).
Proof.
  apply (lost_request_reports_missing g54 g54 (fun _ => true) nd_ethernet eth0 eth0 ports_ex 0x0201A8C0 7 []
    CONNECTION_TYPE_SERVER CONNECTION_TYPE_CLIENT rb_ex ra_ex 1%positive message7 2%positive sending7);
    first [apply exchange_ex_ok | reflexivity | vm_compute; split; congruence | vm_compute; congruence | done].
Defined.

Lemma lost_request_confirms_completed_witness :
  exists f,
    receive g54 (fun _ => true) CONNECTION_TYPE_SERVER nd_ethernet eth0 8080 [] (lost_request_frame g54 nd_ethernet eth0 0x0201A8C0 7 ports_ex)
      (packet_completed (htons 7) 4000 r_empty) = Ok (send_internal f (packet_completed (htons 7) 4000 r_empty))
    /\ receive g54 (fun _ => true) CONNECTION_TYPE_CLIENT nd_ethernet eth0 4000 [] f ra_ex
      = Ok (set_sender (set_obj 2%positive (action_done sending7) (sender ra_ex)) ra_ex).
Proof.
  apply (lost_request_confirms_completed g54 g54 (fun _ => true) nd_ethernet eth0 eth0 ports_ex 0x0201A8C0 7 []
    CONNECTION_TYPE_SERVER CONNECTION_TYPE_CLIENT (packet_completed (htons 7) 4000 r_empty) ra_ex 1%positive 2%positive sending7);
    first [apply exchange_ex_ok | reflexivity].
Defined.

Lemma lost_request_unknown_silent_witness :
  receive g54 (fun _ => true) CONNECTION_TYPE_SERVER nd_ethernet eth0 8080 [] (lost_request_frame g54 nd_ethernet eth0 0x0201A8C0 7 ports_ex)
    r_empty = Ok r_empty.
Proof.
  apply (lost_request_unknown_silent g54 g54 (fun _ => true) nd_ethernet eth0 eth0 ports_ex 0x0201A8C0 7 []
    CONNECTION_TYPE_SERVER r_empty); first [apply exchange_ex_ok | reflexivity].
Defined.
