(* ===== verification/Delivery.v ===== *)
(** * Delivery of single-frame packets, and what every packet leaves behind

    Theorems on [process_packet] and its loop: a packet of one frame reaches the
    callback queue or the request that waits for it, whatever its checksum says; every
    packet buffer taken from the queue is freed or owned by exactly one delivered
    packet; the loop processes the queue in order.  Two closing examples show the
    messages the reassembly gets wrong. *)

From S2P Require Import Prelude Store Queue Crc32 Wire Frames Chunks PacketBuffer SendPacket Receiver ProcessPackets Reassembly Protocol.

(** ** One-frame packets *)
Section single.
Context (g : Globals) (malloc_ok : Z -> bool) (ct : ConnectionType).
Context (nd : SwiftNetNetworkData) (eth : ether_header) (port : Z).
Context (lh : list Z) (h : ip) (p : SwiftNetPacketInfo) (payload pad : list Z).

#[local] Abbreviation key := (Wire.source_port (port_info p), ip_id h).
#[local] Abbreviation mtu := (Z.min (pi_maximum_transmission_unit p) (maximum_transmission_unit g)).

(** A frame for [port] that carries the whole packet; the checksum is arbitrary. *)
Record single_ok : Prop := {
  si_link : Z.of_nat (length lh) = prepend_size nd;
  si_ip : ip_ok h;
  si_info : packet_info_ok p;
  si_sum : ip_sum h = 0;
  si_port : destination_port (port_info p) = port;
  si_length : packet_length p = Z.of_nat (length payload);
  si_fits : PACKET_HEADER_SIZE + Z.of_nat (length payload) <= mtu < 2 ^ 16
}.
Hypothesis Hok : single_ok.

(** The packet data made for it, in the buffer [l]. *)
Definition single_data (l : loc) : PacketData :=
  mk_packet_data None (InPacketBuffer l (prepend_size nd + PACKET_HEADER_SIZE)) 0 (port_info p)
    (if decide (ct = CONNECTION_TYPE_SERVER) then Some (sender_of nd eth p) else None)
    (Z.of_nat (length payload)) (ip_id h) (packet_type p =? packet_type_code REQUEST).

Lemma receive_single ty r :
  packet_type_of_code (packet_type p) = Some ty -> ty = MESSAGE \/ ty = REQUEST \/ ty = RESPONSE ->
  al_get key (packets_completed r) = None -> al_get key (pending_messages r) = None ->
  exists l b, packet_buffers r !! l = None
    /\ mem_read (prepend_size nd + PACKET_HEADER_SIZE) (Z.of_nat (length payload)) b = Ok payload
    /\ receive g malloc_ok ct nd eth port pad (headers lh h p ++ payload) r
       = deliver ct nd eth h p None (InPacketBuffer l (prepend_size nd + PACKET_HEADER_SIZE))
           (packet_completed (ip_id h) (Wire.source_port (port_info p)) (set_buffers (<[l := b]> (packet_buffers r)) r)).
Proof.
  intros Hty Hd Hc Hp. destruct Hok.
  destruct (receive_raw g malloc_ok ct nd eth port pad lh h p payload r) as (l & b & Hl & Hread & ->); try done.
  exists l, b. split; [done|]. split; [done|]. unfold dispatch_packet. rewrite Hty.
  assert (process_data_packet g malloc_ok ct nd eth port h p l (set_buffers (<[l := b]> (packet_buffers r)) r)
    = deliver ct nd eth h p None (InPacketBuffer l (prepend_size nd + PACKET_HEADER_SIZE))
        (packet_completed (ip_id h) (Wire.source_port (port_info p)) (set_buffers (<[l := b]> (packet_buffers r)) r))) as Hdata.
  { unfold process_data_packet, check_packet_already_completed, get_pending_message.
    cbn [set_buffers packets_completed pending_messages]. rewrite Hc, Hp. unfold case_no_pending.
    assert (PACKET_HEADER_SIZE = 44) by done. rewrite u32_id by lia.
    rewrite (proj2 (Z.ltb_ge _ _)) by lia. done. }
  by destruct Hd as [->|[->| ->]].
Qed.

(** What delivery to the callback thread looks like. *)
Definition single_delivered (ql : list (loc * CallbackQueueContent)) (r r' : Receiver) : Prop :=
  exists l b d node c,
    packet_buffers r !! l = None /\ packet_buffers r' = <[l := b]> (packet_buffers r)
    /\ mem_read (prepend_size nd + PACKET_HEADER_SIZE) (Z.of_nat (length payload)) b = Ok payload
    /\ packet_data_store r !! d = None /\ packet_data_store r' = <[d := single_data l]> (packet_data_store r)
    /\ queue_rep (packet_callback_queue r') (callback_nodes r')
         (ql ++ [(node, mk_callback_queue_content None (Some d) (ip_id h))])
    /\ al_get key (packets_completed r') = Some c
    /\ pending_messages r' = pending_messages r /\ sender r' = sender r.

Lemma single_to_callback r ql :
  packet_type p = packet_type_code MESSAGE \/ packet_type p = packet_type_code REQUEST ->
  al_get key (packets_completed r) = None -> al_get key (pending_messages r) = None ->
  queue_rep (packet_callback_queue r) (callback_nodes r) ql ->
  exists r', receive g malloc_ok ct nd eth port pad (headers lh h p ++ payload) r = Ok r' /\ single_delivered ql r r'.
Proof.
  intros Hty Hc Hp Hq. destruct (receive_single (if packet_type p =? packet_type_code MESSAGE then MESSAGE else REQUEST) r)
    as (l & b & Hl & Hread & ->); [by destruct Hty as [->| ->]|destruct (_ =? _); auto|done|done|].
  unfold deliver. cbn [packet_completed store_alloc set_completed set_buffers packet_data_store].
  assert ((packet_type p =? packet_type_code RESPONSE) = false) as -> by (by destruct Hty as [->| ->]).
  set (d := store_next (packet_data_store r)). set (r1 := set_packet_data _ _).
  destruct (pass_callback_ok d None (ip_id h) r1 ql Hq) as (node & q & nodes & Hpass & Hrep).
  rewrite Hpass. eexists. split; [done|].
  exists l, b, d, node. eexists. split; [done|]. split; [done|]. split; [done|]. split; [apply store_next_fresh|].
  split; [cbn; unfold single_data; by rewrite <- (si_length Hok)|]. split; [exact Hrep|].
  split; [|done]. cbn [r1 set_callbacks set_packet_data set_completed packets_completed set_buffers].
  by rewrite al_get_insert, Hc, decide_True.
Qed.
End single.

(** C28 A packet of one frame addressed to the endpoint and not seen before is delivered:
    its buffer is kept and referenced by one new packet data whose data is the
    payload, one callback is queued behind those waiting, the packet is recorded as
    completed, and the tables of messages and of packets being sent do not change.
    The checksum field of the frame plays no part. *)
Theorem short_packet_delivered g malloc_ok ct nd eth port lh h p payload pad r ql :
  single_ok g nd port lh h p payload ->
  packet_type p = packet_type_code MESSAGE \/ packet_type p = packet_type_code REQUEST ->
  al_get (Wire.source_port (port_info p), ip_id h) (packets_completed r) = None ->
  al_get (Wire.source_port (port_info p), ip_id h) (pending_messages r) = None ->
  queue_rep (packet_callback_queue r) (callback_nodes r) ql ->
  exists r', receive g malloc_ok ct nd eth port pad (headers lh h p ++ payload) r = Ok r'
    /\ single_delivered ct nd eth h p payload ql r r'.
Proof. intros Hok. by apply single_to_callback. Qed.

Definition h_short : ip := construct_ip_header g54 0x0201A8C0 49 7.
Definition p_short : SwiftNetPacketInfo := construct_packet_info g54 5 (packet_type_code MESSAGE) 1 0 (mk_port_info 8080 4000).

Lemma short_ok (payload : list Z) :
  length payload = 5%nat -> single_ok g54 nd_ethernet 8080 (link_header nd_ethernet eth0) h_short (sealed_info p_short [1; 2; 3; 4; 5]) payload.
Proof.
  destruct transfer_54_ok. intros Hl. constructor; try done; rewrite ?Hl; try (vm_compute; split; congruence).
Qed.

Lemma queue_rep_empty {A} : queue_rep (A := A) empty_queue ∅ [].
Proof. split; [done|]. split; [done|]. apply NoDup_nil_2. Qed.

Lemma short_packet_delivered_witness :
  exists r', receive g54 (fun _ => true) CONNECTION_TYPE_SERVER nd_ethernet eth0 8080 []
      (headers (link_header nd_ethernet eth0) h_short (sealed_info p_short [1; 2; 3; 4; 5]) ++ [1; 2; 3; 4; 5]) r_empty = Ok r'
    /\ single_delivered CONNECTION_TYPE_SERVER nd_ethernet eth0 h_short (sealed_info p_short [1; 2; 3; 4; 5]) [1; 2; 3; 4; 5] [] r_empty r'.
Proof.
  apply (short_packet_delivered g54 (fun _ => true) CONNECTION_TYPE_SERVER nd_ethernet eth0 8080
    (link_header nd_ethernet eth0) h_short (sealed_info p_short [1; 2; 3; 4; 5]) [1; 2; 3; 4; 5] [] r_empty []);
    first [by apply short_ok | by left | reflexivity | apply queue_rep_empty].
Defined.

(** The checksum does not protect a packet: for a frame that carries the headers the
    sender computed for [payload] but any other bytes [other] of the same length, the
    checksum routine reports the corruption, and the packet is delivered all the same,
    with [other] as its data (the gate looks at the checksum only when the IP header's
    own checksum field is set, and the senders leave it 0). *)
Theorem corrupted_payload_delivered g malloc_ok ct nd eth port lh h p payload other pad r ql :
  single_ok g nd port lh h (sealed_info p payload) other ->
  checksum p = 0 -> is_bytes payload -> is_bytes other -> length other = length payload ->
  crc32 (packet_info_bytes p ++ other) <> crc32 (packet_info_bytes p ++ payload) ->
  packet_type p = packet_type_code MESSAGE \/ packet_type p = packet_type_code REQUEST ->
  al_get (Wire.source_port (port_info p), ip_id h) (packets_completed r) = None ->
  al_get (Wire.source_port (port_info p), ip_id h) (pending_messages r) = None ->
  queue_rep (packet_callback_queue r) (callback_nodes r) ql ->
  packet_corrupted (checksum (sealed_info p payload)) (24 + Z.of_nat (length other)) (packet_info_bytes p ++ other) = Ok true
  /\ exists r', receive g malloc_ok ct nd eth port pad (headers lh h (sealed_info p payload) ++ other) r = Ok r'
    /\ single_delivered ct nd eth h (sealed_info p payload) other ql r r'.
Proof.
  intros Hok Hz Hb1 Hb2 Hl Hcrc Hty Hc Hp Hq. split; [|by apply single_to_callback].
  replace (24 + Z.of_nat (length other)) with (Z.of_nat (length (packet_info_bytes p ++ other)))
    by (rewrite length_app, length_packet_info_bytes; lia).
  rewrite packet_corrupted_spec. cbn [sealed_info with_checksum checksum]. by rewrite (proj2 (Z.eqb_neq _ _)).
Qed.

Lemma corrupted_payload_delivered_witness :
  packet_corrupted (checksum (sealed_info p_short [1; 2; 3; 4; 5])) 29 (packet_info_bytes p_short ++ [1; 2; 99; 4; 5]) = Ok true
  /\ exists r', receive g54 (fun _ => true) CONNECTION_TYPE_SERVER nd_ethernet eth0 8080 []
      (headers (link_header nd_ethernet eth0) h_short (sealed_info p_short [1; 2; 3; 4; 5]) ++ [1; 2; 99; 4; 5]) r_empty = Ok r'
    /\ single_delivered CONNECTION_TYPE_SERVER nd_ethernet eth0 h_short (sealed_info p_short [1; 2; 3; 4; 5]) [1; 2; 99; 4; 5] [] r_empty r'.
Proof.
  apply (corrupted_payload_delivered g54 (fun _ => true) CONNECTION_TYPE_SERVER nd_ethernet eth0 8080
    (link_header nd_ethernet eth0) h_short p_short [1; 2; 3; 4; 5] [1; 2; 99; 4; 5] [] r_empty []);
    first [by apply short_ok | by left | reflexivity | apply queue_rep_empty
      | vm_compute; congruence | repeat constructor; vm_compute; congruence].
Defined.

(** ** Responses *)

(** A response of one frame: what the receiving thread leaves. *)
Lemma response_received g malloc_ok ct nd eth port lh h p payload pad r q rq :
  single_ok g nd port lh h p payload -> packet_type p = packet_type_code RESPONSE ->
  al_get (Wire.source_port (port_info p), ip_id h) (packets_completed r) = None ->
  al_get (Wire.source_port (port_info p), ip_id h) (pending_messages r) = None ->
  al_get (ip_id h) (requests_sent (sender r)) = Some q -> requests_store (sender r) !! q = Some rq ->
  exists r' l b d, receive g malloc_ok ct nd eth port pad (headers lh h p ++ payload) r = Ok r'
    /\ packet_buffers r !! l = None /\ packet_buffers r' = <[l := b]> (packet_buffers r)
    /\ mem_read (prepend_size nd + PACKET_HEADER_SIZE) (Z.of_nat (length payload)) b = Ok payload
    /\ packet_data_store r' !! d = Some (single_data ct nd eth h p payload l)
    /\ sender r' = mk_send_state (packets_sending (sender r)) (sending_store (sender r)) (al_remove (ip_id h) (requests_sent (sender r)))
         (<[q := mk_request_sent (Some d) (rs_address rq) (rs_packet_id rq)]> (requests_store (sender r))) (wire (sender r))
    /\ packet_callback_queue r' = packet_callback_queue r /\ callback_nodes r' = callback_nodes r.
Proof.
  intros Hok Hty Hc Hp Hq Hrq.
  destruct (receive_single g malloc_ok ct nd eth port lh h p payload pad Hok RESPONSE r) as (l & b & Hl & Hread & ->);
    [by rewrite Hty|auto|done|done|].
  unfold deliver. rewrite Hty, Z.eqb_refl. cbn [store_alloc]. unfold handle_request_response.
  cbn [packet_completed store_alloc set_completed set_packet_data set_buffers sender packet_data_store].
  rewrite Hq, (store_update_ok _ _ _ rq) by done. rewrite bind_Ok. eexists. exists l, b, (store_next (packet_data_store r)). split; [done|].
  split; [done|]. split; [done|]. split; [done|]. cbn [set_sender packet_data_store sender requests_store requests_sent].
  split; [cbn [set_packet_data packet_data_store]; rewrite lookup_insert_eq; unfold single_data; by rewrite Hty, <- (si_length _ _ _ _ _ _ _ Hok)|].
  done.
Qed.

(** A response of one frame is handed to the request that waits for it: the request's
    packet data is set to a new packet data whose data is the payload, the request
    leaves the table of requests, and no callback is queued. *)
Theorem response_completes_request g malloc_ok ct nd eth port lh h p payload pad r q rq :
  single_ok g nd port lh h p payload -> packet_type p = packet_type_code RESPONSE ->
  al_get (Wire.source_port (port_info p), ip_id h) (packets_completed r) = None ->
  al_get (Wire.source_port (port_info p), ip_id h) (pending_messages r) = None ->
  al_get (ip_id h) (requests_sent (sender r)) = Some q -> requests_store (sender r) !! q = Some rq ->
  exists r' l b d, receive g malloc_ok ct nd eth port pad (headers lh h p ++ payload) r = Ok r'
    /\ packet_buffers r !! l = None /\ packet_buffers r' = <[l := b]> (packet_buffers r)
    /\ mem_read (prepend_size nd + PACKET_HEADER_SIZE) (Z.of_nat (length payload)) b = Ok payload
    /\ packet_data_store r' !! d = Some (single_data ct nd eth h p payload l)
    /\ requests_store (sender r') !! q = Some (mk_request_sent (Some d) (rs_address rq) (rs_packet_id rq))
    /\ requests_sent (sender r') = al_remove (ip_id h) (requests_sent (sender r))
    /\ packet_callback_queue r' = packet_callback_queue r /\ callback_nodes r' = callback_nodes r.
Proof.
  intros Hok Hty Hc Hp Hq Hrq.
  destruct (response_received g malloc_ok ct nd eth port lh h p payload pad r q rq Hok Hty Hc Hp Hq Hrq)
    as (r' & l & b & d & H1 & H2 & H3 & H4 & H5 & H6 & H7).
  exists r', l, b, d. rewrite H6. cbn [requests_store requests_sent]. rewrite lookup_insert_eq. by do 6 (split; [done|]).
Qed.

Definition p_response : SwiftNetPacketInfo :=
  construct_packet_info g54 5 (packet_type_code RESPONSE) 1 0 (mk_port_info 8080 4000).
Definition r_request : Receiver :=
  set_sender (mk_send_state [] ∅ [(htons 7, 2%positive)] {[2%positive := mk_request_sent None 0 (htons 7)]} []) r_empty.

Lemma response_ok : single_ok g54 nd_ethernet 8080 (link_header nd_ethernet eth0) h_short p_response [1; 2; 3; 4; 5].
Proof. constructor; try done; try (vm_compute; split; congruence). Qed.

Lemma response_completes_request_witness :
  exists r' l b d, receive g54 (fun _ => true) CONNECTION_TYPE_CLIENT nd_ethernet eth0 8080 []
      (headers (link_header nd_ethernet eth0) h_short p_response ++ [1; 2; 3; 4; 5]) r_request = Ok r'
    /\ packet_buffers r_request !! l = None /\ packet_buffers r' = <[l := b]> (packet_buffers r_request)
    /\ mem_read 58 5 b = Ok [1; 2; 3; 4; 5]
    /\ packet_data_store r' !! d = Some (single_data CONNECTION_TYPE_CLIENT nd_ethernet eth0 h_short p_response [1; 2; 3; 4; 5] l)
    /\ requests_store (sender r') !! 2%positive = Some (mk_request_sent (Some d) 0 (htons 7))
    /\ requests_sent (sender r') = []
    /\ packet_callback_queue r' = empty_queue /\ callback_nodes r' = ∅.
Proof.
  apply (response_completes_request g54 (fun _ => true) CONNECTION_TYPE_CLIENT nd_ethernet eth0 8080
    (link_header nd_ethernet eth0) h_short p_response [1; 2; 3; 4; 5] [] r_request 2%positive (mk_request_sent None 0 (htons 7)));
    first [apply response_ok | reflexivity].
Defined.

(** ** Packets seen before *)

(** C35 A packet whose id and source port were completed before is dropped, whatever its
    chunk, type among messages, requests and responses, and payload: the endpoint is
    left exactly as it was and the buffer is free again. *)
Theorem completed_packet_dropped g malloc_ok ct nd eth port lh h p payload pad r c :
  Z.of_nat (length lh) = prepend_size nd -> ip_ok h -> packet_info_ok p -> ip_sum h = 0 ->
  destination_port (port_info p) = port ->
  (forall ty, packet_type_of_code (packet_type p) = Some ty -> ty = MESSAGE \/ ty = REQUEST \/ ty = RESPONSE) ->
  al_get (Wire.source_port (port_info p), ip_id h) (packets_completed r) = Some c ->
  receive g malloc_ok ct nd eth port pad (headers lh h p ++ payload) r = Ok r.
Proof.
  intros Hlh Hh Hp Hsum Hport Hty Hc.
  destruct (receive_raw g malloc_ok ct nd eth port pad lh h p payload r) as (l & b & Hl & _ & ->); try done.
  assert (process_data_packet g malloc_ok ct nd eth port h p l (set_buffers (<[l := b]> (packet_buffers r)) r) = Ok r) as Hd.
  { unfold process_data_packet, check_packet_already_completed. cbn [set_buffers packets_completed]. rewrite Hc.
    by apply free_fresh. }
  unfold dispatch_packet. destruct (packet_type_of_code (packet_type p)) as [ty|]; [|done].
  by destruct (Hty ty eq_refl) as [->|[->| ->]].
Qed.

Lemma completed_packet_dropped_witness :
  receive g54 (fun _ => true) CONNECTION_TYPE_CLIENT nd_ethernet eth0 8080 []
      (headers (link_header nd_ethernet eth0) h_short p_response ++ [1; 2]) (packet_completed (htons 7) 4000 r_empty)
    = Ok (packet_completed (htons 7) 4000 r_empty).
Proof.
  destruct response_ok.
  apply (completed_packet_dropped g54 (fun _ => true) CONNECTION_TYPE_CLIENT nd_ethernet eth0 8080
    (link_header nd_ethernet eth0) h_short p_response [1; 2] [] (packet_completed (htons 7) 4000 r_empty) 1%positive);
    first [done | intros ty [= <-]; auto].
Defined.

(** ** Ownership of packet buffers *)
Section ownership.
Context (g : Globals) (malloc_ok : Z -> bool) (ct : ConnectionType).
Context (nd : SwiftNetNetworkData) (eth : ether_header) (port : Z).

(** The buffer was given back, or a new packet data refers to it. *)
Definition released (l : loc) (r r' : Receiver) : Prop := packet_buffers r' = delete l (packet_buffers r).
Definition handed_over (l : loc) (r r' : Receiver) : Prop :=
  packet_buffers r' = packet_buffers r
  /\ exists d pd, packet_data_store r !! d = None /\ packet_data_store r' = <[d := pd]> (packet_data_store r)
       /\ pd_data pd = InPacketBuffer l (prepend_size nd + PACKET_HEADER_SIZE).

Lemma free_released l r r1 r' : free_packet_buffer l r1 = Ok r' -> packet_buffers r1 = packet_buffers r -> released l r r'.
Proof. unfold free_packet_buffer, store_free. intros H Hb. ok_inv. unfold released. cbn. by rewrite Hb. Qed.

Lemma pass_callback_buffers d pm id r r' :
  pass_callback_execution d pm id r = Ok r' ->
  packet_buffers r' = packet_buffers r /\ packet_data_store r' = packet_data_store r.
Proof.
  unfold pass_callback_execution. cbn [store_alloc]. intros H. ok_inv. destruct a. by ok_inv.
Qed.

Lemma request_response_buffers id pm d sp r r' :
  handle_request_response id pm d sp r = Ok r' ->
  packet_buffers r' = packet_buffers r /\ packet_data_store r' = packet_data_store r.
Proof.
  unfold handle_request_response. destruct (al_get id _); intros H; ok_inv; [|done].
  by destruct pm; ok_inv.
Qed.

Lemma deliver_buffers h p pm data r r' :
  deliver ct nd eth h p pm data r = Ok r' ->
  packet_buffers r' = packet_buffers r
  /\ exists d pd, packet_data_store r !! d = None /\ packet_data_store r' = <[d := pd]> (packet_data_store r) /\ pd_data pd = data.
Proof.
  unfold deliver. cbn [store_alloc]. intros H.
  assert (packet_buffers r' = packet_buffers r /\ exists pd, pd_data pd = data
    /\ packet_data_store r' = <[store_next (packet_data_store r) := pd]> (packet_data_store r)) as (Hb & pd & Hd & Hs).
  { destruct (_ =? packet_type_code RESPONSE); [apply request_response_buffers in H|apply pass_callback_buffers in H];
      destruct H as [-> ->]; (split; [done|]); eexists; (split; [|reflexivity]); done. }
  split; [done|]. exists (store_next (packet_data_store r)), pd. split; [apply store_next_fresh|]. done.
Qed.

Lemma signal_delay_buffers st h sp dp r r' :
  signal_delay_change g nd eth st h sp dp r = Ok r' -> packet_buffers r' = packet_buffers r.
Proof. unfold signal_delay_change. intros H. by ok_inv. Qed.

Lemma case_no_pending_owned s h p l r r' :
  case_no_pending g malloc_ok ct nd eth s h p l r = Ok r' -> released l r r' \/ handed_over l r r'.
Proof.
  unfold case_no_pending. destruct (_ <? _); intros H.
  - destruct (create_new_pending_message _ _ _ _ _ _) as [lm r1] eqn:E.
    assert (packet_buffers r1 = packet_buffers r) by (unfold create_new_pending_message in E; cbn in E; by injection E as <- <-).
    ok_inv. left. by eapply free_released.
  - apply deliver_buffers in H as (Hb & d & pd & Hd & Hs & Hp). right. split; [done|]. by exists d, pd.
Qed.

Lemma case_pending_owned s lm h p l r r' :
  case_pending g ct nd eth port s lm h p l r = Ok r' -> released l r r'.
Proof.
  unfold case_pending. intros H. ok_inv. destruct a0; [by eapply free_released|]. ok_inv.
  destruct (_ =? chunk_amount p).
  - ok_inv. eapply free_released; [exact H|]. match goal with Hd : deliver _ _ _ _ _ _ _ _ = Ok _ |- _ => apply deliver_buffers in Hd as [-> _] end.
    done.
  - destruct (rate_control p a) as [[li ln] sig]. ok_inv. eapply free_released; [exact H|]. cbn.
    destruct sig; [|by ok_inv]. by eapply signal_delay_buffers.
Qed.

Lemma dispatch_owned rv h p l r r' :
  dispatch_packet g malloc_ok ct nd eth port rv h p l r = Ok r' -> released l r r' \/ handed_over l r r'.
Proof.
  assert (process_data_packet g malloc_ok ct nd eth port h p l r = Ok r' -> released l r r' \/ handed_over l r r') as Hdata.
  { unfold process_data_packet. destruct (check_packet_already_completed _ _ _); [left; by eapply free_released|].
    destruct (get_pending_message _ _ _); intros H; [left; by eapply case_pending_owned|by eapply case_no_pending_owned]. }
  unfold dispatch_packet. destruct (packet_type_of_code _) as [[]|]; try exact Hdata; intros H; left.
  - unfold case_request_information in H. ok_inv. by eapply free_released.
  - unfold case_send_lost_packets_request in H. destruct (get_pending_message _ _ _).
    + ok_inv. by eapply free_released.
    + destruct (check_packet_already_completed _ _ _); ok_inv; by eapply free_released.
  - unfold case_send_lost_packets_response in H. destruct (get_packet_sending _ _); ok_inv; by eapply free_released.
  - unfold case_successfully_received_packet in H. destruct (get_packet_sending _ _); ok_inv; by eapply free_released.
  - unfold case_packet_delay_update in H. ok_inv. by eapply free_released.
Qed.
End ownership.

(** C8 Packet buffers are neither leaked nor freed twice by the processing thread: for
    every packet, whatever its bytes, when the round returns, either the buffer is
    free again and all others are untouched, or it is still allocated and exactly one
    new packet data, created in this round, points behind its headers; no round
    touches another buffer. *)
Theorem packet_buffer_accounted g malloc_ok ct nd eth port rv l dr sa r r' :
  process_packet g malloc_ok ct nd eth port rv (mk_packet_queue_content (Some l) dr sa) r = Ok r' ->
  released l r r'
  \/ exists b, handed_over nd l (set_buffers (<[l := b]> (packet_buffers r)) r) r'.
Proof.
  unfold process_packet. cbn [pq_data]. intros H. ok_inv. destruct (negb _); [left; by eapply free_released|].
  ok_inv. match goal with H : (if ?c then _ else _) = Ok _ |- _ => destruct c end.
  - left. eapply free_released in H; [|reflexivity]. unfold released in *. rewrite H. cbn. by rewrite delete_insert_eq.
  - apply dispatch_owned in H as [H|H]; [left|right; eauto].
    unfold released in *. rewrite H. cbn. by rewrite delete_insert_eq.
Qed.

Lemma packet_buffer_accounted_witness :
  exists r', process_packet g54 (fun _ => true) CONNECTION_TYPE_SERVER nd_ethernet eth0 8080 0
      (mk_packet_queue_content (Some 1%positive) 62 0)
      (set_buffers {[1%positive := headers (link_header nd_ethernet eth0) h_short p_short ++ [1; 2; 3; 4; 5]]} r_empty) = Ok r'
    /\ (released 1%positive (set_buffers {[1%positive := headers (link_header nd_ethernet eth0) h_short p_short ++ [1; 2; 3; 4; 5]]} r_empty) r'
        \/ exists b, handed_over nd_ethernet 1%positive
             (set_buffers (<[1%positive := b]> {[1%positive := headers (link_header nd_ethernet eth0) h_short p_short ++ [1; 2; 3; 4; 5]]}) r_empty) r').
Proof.
  set (r := set_buffers _ r_empty).
  destruct (process_packet g54 (fun _ => true) CONNECTION_TYPE_SERVER nd_ethernet eth0 8080 0
      (mk_packet_queue_content (Some 1%positive) 62 0) r) as [r'| | |] eqn:E; [|vm_compute in E; discriminate..].
  exists r'. split; [done|]. exact (packet_buffer_accounted _ _ _ _ _ _ _ _ _ _ _ _ E).
Defined.

(** ** The loop *)

(** The packets one after the other; [rands] is indexed by the packets left. *)
Fixpoint process_each (g : Globals) (malloc_ok : Z -> bool) (ct : ConnectionType) (nd : SwiftNetNetworkData)
    (eth : ether_header) (port : Z) (rands : nat -> Z) (k : nat) (contents : list PacketQueueContent) (r : Receiver)
    : Outcome Receiver :=
  match contents with
  | [] => Ok r
  | c :: contents =>
      r ← process_packet g malloc_ok ct nd eth port (rands k) c r;
      process_each g malloc_ok ct nd eth port rands (k - 1) contents r
  end.

Lemma bind_assoc {A B C} (m : Outcome A) (f : A -> Outcome B) (h : B -> Outcome C) :
  ((m ≫= f) ≫= h) = (m ≫= fun a => f a ≫= h).
Proof. by destruct m. Qed.

Lemma bind_ext {A B} (m : Outcome A) (f h : A -> Outcome B) : (forall a, f a = h a) -> (m ≫= f) = (m ≫= h).
Proof. intros He. destruct m; cbn; [apply He|done..]. Qed.

(** C27 The processing loop takes every queued packet exactly once, in arrival order: on
    a queue that holds the packets [l], with fuel for one round more than there are
    packets, the loop behaves as processing the packets one after the other
    (including the error, if one occurs), and ends with an empty queue and all nodes
    freed; so it never spins or stops early. *)
Theorem process_loop_drains_in_order g malloc_ok ct nd eth port fuel rands q nodes l r :
  queue_rep q nodes l -> (length l <= fuel)%nat ->
  swiftnet_process_packets g malloc_ok ct nd eth port (S fuel) false rands q nodes r
  = (r' ← process_each g malloc_ok ct nd eth port rands fuel (map snd l) r;
     Ok (empty_queue, foldl (fun s p => delete p s) nodes (map fst l), r')).
Proof.
  revert q nodes r fuel. induction l as [|[p c] l IH]; intros q nodes r fuel Hrep Hf;
    cbn [swiftnet_process_packets map process_each foldl];
    pose proof (wait_refines q nodes _ Hrep) as Hw.
  - rewrite Hw, !bind_Ok. destruct q as [a b], Hrep as (Ha & Hb & _). cbn in Ha, Hb. by subst.
  - destruct Hw as (q' & next & -> & Hp & Hrep' & Hnot). rewrite bind_Ok. unfold store_get. rewrite Hp.
    cbn [of_option]. rewrite bind_Ok. cbn [node_content snd fst]. rewrite bind_assoc. apply bind_ext. intros r'.
    rewrite (store_free_ok _ _ _ Hp), bind_Ok. cbn [length] in Hf. destruct fuel as [|fuel]; [lia|].
    rewrite IH; [by rewrite Nat.sub_succ, Nat.sub_0_r| |lia].
    destruct Hrep' as (Hc & Hl & Hnd). split; [by apply chain_delete|done].
Qed.

Lemma process_loop_drains_in_order_witness :
  let content := mk_packet_queue_content None 0 0 in
  let nodes := {[1%positive := mk_queue_node (Some 2%positive) content; 2%positive := mk_queue_node None content]} in
  swiftnet_process_packets g54 (fun _ => true) CONNECTION_TYPE_SERVER nd_ethernet eth0 8080 3 false (fun _ => 0)
      (mk_queue (Some 1%positive) (Some 2%positive)) nodes r_empty
  = (r' ← process_each g54 (fun _ => true) CONNECTION_TYPE_SERVER nd_ethernet eth0 8080 (fun _ => 0) 2 [content; content] r_empty;
     Ok (empty_queue, delete 2%positive (delete 1%positive nodes), r')).
Proof.
  intros content nodes.
  apply (process_loop_drains_in_order g54 (fun _ => true) CONNECTION_TYPE_SERVER nd_ethernet eth0 8080 2 (fun _ => 0)
    (mk_queue (Some 1%positive) (Some 2%positive)) nodes [(1%positive, content); (2%positive, content)] r_empty); [|cbn; lia].
  split; [|split; [done|]].
  - split; [done|]. exists (Some 2%positive). split; [done|]. split; [done|]. by exists None.
  - apply NoDup_cons. split; [|apply NoDup_singleton]. by intros ?%list_elem_of_singleton.
Defined.

(** ** Delay control *)

(** The delay update on every 32-bit delay: lowering never raises the delay and
    strictly lowers a positive one; raising a delay below 3681400539 gives
    7 * (delay / 6), which is at least the old delay exactly when the remainder
    delay mod 6 is at most the quotient; in particular delays below 6 become 0, from
    which no update leads away. *)
Theorem delay_update_effect (d : Z) :
  in_word 32 d ->
  0 <= update_delay (delay_status_code LOWER_DELAY) d <= d
  /\ (0 < d -> update_delay (delay_status_code LOWER_DELAY) d < d)
  /\ (d < 3681400539 -> update_delay (delay_status_code INCREASE_DELAY) d = 7 * (d / 6)
      /\ (d <= update_delay (delay_status_code INCREASE_DELAY) d <-> d mod 6 <= d / 6))
  /\ (d < 6 -> forall status, update_delay status d = 0).
Proof.
  unfold in_word. intros Hd. assert (0 <= d / 6 <= d /\ 6 * (d / 6) <= d < 6 * (d / 6) + 6) as [H1 H2] by dlia.
  pose proof (Z.mod_eq d 6 ltac:(lia)) as Hm.
  assert (update_delay (delay_status_code LOWER_DELAY) d = d / 6 * 5) as ->
    by (unfold update_delay; cbn [delay_status_code Z.eqb Pos.eqb]; apply u32_id; lia).
  split; [lia|]. split; [lia|]. split.
  - intros Hlt. assert (update_delay (delay_status_code INCREASE_DELAY) d = 7 * (d / 6)) as ->
      by (unfold update_delay; cbn [delay_status_code Z.eqb Pos.eqb]; rewrite u32_id; lia).
    split; [done|]. lia.
  - intros Hlt status. unfold update_delay. assert (d / 6 = 0) as -> by lia. by destruct (status =? _).
Qed.

Lemma delay_update_effect_witness :
  0 <= update_delay (delay_status_code LOWER_DELAY) 11 <= 11
  /\ update_delay (delay_status_code INCREASE_DELAY) 11 = 7.
Proof.
  destruct (delay_update_effect 11) as (H1 & _ & H3 & _); [split; vm_compute; congruence|].
  split; [exact H1|]. apply H3. lia.
Defined.

(** A delay update for a packet that is not being sent (any more) makes the thread
    dereference a null pointer, whoever sent it. *)
Theorem stray_delay_update_faults g malloc_ok ct nd eth port lh h p payload pad r :
  Z.of_nat (length lh) = prepend_size nd -> ip_ok h -> packet_info_ok p -> ip_sum h = 0 ->
  destination_port (port_info p) = port -> packet_type p = packet_type_code PACKET_DELAY_UPDATE ->
  al_get (ip_id h) (packets_sending (sender r)) = None ->
  receive g malloc_ok ct nd eth port pad (headers lh h p ++ payload) r = Fault.
Proof.
  intros Hlh Hh Hp Hsum Hport Hty Hs.
  destruct (receive_raw g malloc_ok ct nd eth port pad lh h p payload r) as (l & b & Hl & _ & ->); try done.
  unfold dispatch_packet. rewrite Hty.
  change (packet_type_of_code (packet_type_code PACKET_DELAY_UPDATE)) with (Some PACKET_DELAY_UPDATE). cbv iota.
  unfold case_packet_delay_update, store_get, get_packet_sending. cbn [set_buffers packet_buffers sender].
  rewrite lookup_insert_eq, Hs. done.
Qed.

Lemma stray_delay_update_faults_witness :
  receive g54 (fun _ => true) CONNECTION_TYPE_SERVER nd_ethernet eth0 8080 []
    (headers (link_header nd_ethernet eth0) h_short
       (construct_packet_info g54 1 (packet_type_code PACKET_DELAY_UPDATE) 1 0 (mk_port_info 8080 4000)) ++ [1]) r_empty = Fault.
Proof.
  destruct response_ok.
  apply (stray_delay_update_faults g54 (fun _ => true) CONNECTION_TYPE_SERVER nd_ethernet eth0 8080
    (link_header nd_ethernet eth0) h_short
    (construct_packet_info g54 1 (packet_type_code PACKET_DELAY_UPDATE) 1 0 (mk_port_info 8080 4000)) [1] [] r_empty);
    first [done | vm_compute; repeat split; congruence].
Defined.

(** ** Messages the reassembly gets wrong *)

(** The data of the first message the receiver holds after these arrivals. *)
Definition reassembled (data : list Z) (arrivals : list Z) : option (list Z) :=
  match receive_all g54 (fun _ => true) CONNECTION_TYPE_SERVER nd_ethernet eth0 8080 (fun _ => [])
          (map (message_frame g54 g54 nd_ethernet eth0 (mk_port_info 8080 4000) 0x0201A8C0 7 (packet_type_code MESSAGE) data) arrivals)
          r_empty with
  | Ok r => match packet_callback_queue r, pending_store r !! 1%positive with
            | mk_queue (Some _) _, Some m => Some (pm_data m)
            | _, _ => None
            end
  | _ => None
  end.

(** A message whose length is a multiple of the chunk size is delivered without its
    last chunk: the receiver copies length mod size = 0 bytes of it.  Here 20 bytes in
    chunks of 10: the second half of what is delivered is the uninitialised block. *)
Theorem full_last_chunk_not_copied :
  reassembled (seqZ 0 20) [0; 1] = Some (seqZ 0 10 ++ repeat 0xAA 10).
Proof. vm_compute. reflexivity. Qed.

(** The first chunk to arrive is stored at the start of the block whatever its index:
    when the chunks 1, 0, 2 of a 25-byte message arrive in this order the message is
    delivered with chunk 1's place never written. *)
Theorem first_arrival_misplaced :
  reassembled (seqZ 0 25) [1; 0; 2] = Some (seqZ 0 10 ++ repeat 0xAA 10 ++ seqZ 20 5)
  /\ reassembled (seqZ 0 25) [0; 1; 2] = Some (seqZ 0 25).
Proof. vm_compute. split; reflexivity. Qed.
