(* ===== verification/Connections.v ===== *)
(** * Setting up and tearing down connections

    Models src/src/internal/check_existing_listener.c, the connection part of
    src/src/initialize_client_connection.c, src/src/initialize_server.c and
    src/src/cleanup_connection.c, and [swiftnet_initialize_networking] of
    src/src/internal/networking.h.  Threads are not created here: what the listener
    thread does while [swiftnet_create_client] waits is an explicit script of captured
    frames. *)

From S2P Require Import Prelude Store Queue Crc32 Wire Frames Chunks PacketBuffer SendPacket Receiver Listener.

(** [pcap_open] holds the open capture handles, each with its interface (one interface can
    be opened several times), [request_wire] the frames sent by
    [request_server_information]. *)
Record World := mk_world {
  listeners : list (list Z * loc);
  listener_store : Store Listener;
  shared : Shared;
  pcap_open : Store (list Z);
  request_wire : list (list Z)
}.

Definition set_listeners (t : list (list Z * loc)) (s : Store Listener) (w : World) : World :=
  mk_world t s (shared w) (pcap_open w) (request_wire w).
Definition set_shared (s : Shared) (w : World) : World :=
  mk_world (listeners w) (listener_store w) s (pcap_open w) (request_wire w).
Definition set_handles (h : Store (list Z)) (w : World) : World :=
  mk_world (listeners w) (listener_store w) (shared w) h (request_wire w).
Definition send_request (f : list Z) (w : World) : World :=
  mk_world (listeners w) (listener_store w) (shared w) (pcap_open w) (request_wire w ++ [f]).

Definition set_clients (s : Store SwiftNetClientConnection) (h : Shared) : Shared :=
  mk_shared s (server_store h) (queue_nodes h) (shared_buffers h) (signals h).
Definition set_servers (s : Store SwiftNetServer) (h : Shared) : Shared :=
  mk_shared (client_store h) s (queue_nodes h) (shared_buffers h) (signals h).

Definition set_client_closing (c : SwiftNetClientConnection) : SwiftNetClientConnection :=
  mk_client (cc_network_data c) (cc_packet_queue c) (cc_port_info c) (cc_eth_header c) (cc_maximum_transmission_unit c)
    (cc_server_addr c) (cc_loopback c) (cc_processing_packets c) true (cc_initialized c).

Definition IFNAMSIZ : Z := 16.

(** [SWIFTNET_CLOSE_CONNECTION]: [pcap_close] of the handle in [network_data]; closing a
    handle that is not open is undefined. *)
Definition SWIFTNET_CLOSE_CONNECTION (network_data : SwiftNetNetworkData) (w : World) : Outcome World :=
  handle ← of_option (pcap network_data);
  s ← store_free handle (pcap_open w);
  Ok (set_handles s w).

Section connections.
Context (g : Globals) (pcap_datalink : list Z -> option Z).

(** [pcap_datalink interface] is the link type of the opened interface, [None] when
    it cannot be opened. *)
Definition swiftnet_initialize_networking (interface : list Z) (w : World) : SwiftNetNetworkData * World :=
  match pcap_datalink interface with
  | None => (mk_network_data None 0 0, w)
  | Some dlt =>
      let addr_type := u8 dlt in
      let '(handle, s) := store_alloc interface (pcap_open w) in
      (mk_network_data (Some handle) addr_type (PACKET_PREPEND_SIZE addr_type), set_handles s w)
  end.

(** Registration of a connection with its port. *)
Definition add_connection (connection_type : ConnectionType) (port : Z) (connection : loc) (li : Listener) : Listener :=
  match connection_type with
  | CONNECTION_TYPE_CLIENT =>
      mk_listener (li_network_data li) (servers li) (al_insert port connection (client_connections li)) (interface_name li)
        (li_addr_type li) (li_loopback li)
  | CONNECTION_TYPE_SERVER =>
      mk_listener (li_network_data li) (al_insert port connection (servers li)) (client_connections li) (interface_name li)
        (li_addr_type li) (li_loopback li)
  end.

Definition drop_connection (connection_type : ConnectionType) (port : Z) (li : Listener) : Listener :=
  match connection_type with
  | CONNECTION_TYPE_CLIENT =>
      mk_listener (li_network_data li) (servers li) (al_remove port (client_connections li)) (interface_name li)
        (li_addr_type li) (li_loopback li)
  | CONNECTION_TYPE_SERVER =>
      mk_listener (li_network_data li) (al_remove port (servers li)) (client_connections li) (interface_name li)
        (li_addr_type li) (li_loopback li)
  end.

(** The port of a connection: a client's source port, a server's port. *)
Definition connection_port (connection_type : ConnectionType) (connection : loc) (w : World) : Outcome Z :=
  match connection_type with
  | CONNECTION_TYPE_CLIENT => c ← store_get connection (client_store (shared w)); Ok (Wire.source_port (cc_port_info c))
  | CONNECTION_TYPE_SERVER => v ← store_get connection (server_store (shared w)); Ok (server_port v)
  end.

Definition check_existing_listener (interface : list Z) (connection : loc) (connection_type : ConnectionType) (loopback : bool)
    (w : World) : Outcome (loc * World) :=
  match al_get interface (listeners w) with
  | Some existing =>
      li ← store_get existing (listener_store w);
      port ← connection_port connection_type connection w;
      Ok (existing, set_listeners (listeners w) (<[existing := add_connection connection_type port connection li]> (listener_store w)) w)
  | None =>
      let '(network_data, w) := swiftnet_initialize_networking interface w in
      if IFNAMSIZ <? Z.of_nat (length interface) + 1 then Fault
      else
        port ← connection_port connection_type connection w;
        let li := add_connection connection_type port connection
                    (mk_listener network_data [] [] interface (addr_type network_data) loopback) in
        let '(new_listener, s) := store_alloc li (listener_store w) in
        Ok (new_listener, set_listeners (al_insert interface new_listener (listeners w)) s w)
  end.

(** *** Servers *)
Definition broadcast_header : ether_header := mk_ether_header (repeat 0xFF 6) (mac_address g) (htons ETHERTYPE_IP).

Definition construct_server (loopback : bool) (port : Z) : SwiftNetServer :=
  mk_server (mk_network_data None 0 0) empty_queue broadcast_header port loopback true false.

Definition get_interface_name (default_network_interface : list Z) (loopback : bool) : list Z :=
  if loopback then [108; 111] else default_network_interface.

Definition swiftnet_create_server (default_network_interface : list Z) (port : Z) (loopback : bool) (w : World) : Outcome (loc * World) :=
  let '(new_server, s) := store_alloc (construct_server loopback port) (server_store (shared w)) in
  let w := set_shared (set_servers s (shared w)) w in
  '(l, w) ← check_existing_listener (get_interface_name default_network_interface loopback) new_server CONNECTION_TYPE_SERVER loopback w;
  li ← store_get l (listener_store w);
  s ← store_update new_server (fun v => mk_server (li_network_data li) (sv_packet_queue v) (sv_eth_header v) (server_port v)
                                          (sv_loopback v) (sv_processing_packets v) (sv_closing v)) (server_store (shared w));
  Ok (new_server, set_shared (set_servers s (shared w)) w).

(** *** Clients *)
Definition construct_client_connection (rnd : Z) (loopback : bool) (destination_port server_address : Z) : SwiftNetClientConnection :=
  mk_client (mk_network_data None 0 0) empty_queue (mk_port_info destination_port (u16 rnd)) broadcast_header 0 server_address loopback
    true false false.

(** The request frame of a client. *)
Definition build_request (c : SwiftNetClientConnection) (net_data : SwiftNetNetworkData) (rnd : Z) : Outcome (list Z) :=
  let packet_info := construct_packet_info g 0x00 (packet_type_code REQUEST_INFORMATION) 1 0 (cc_port_info c) in
  let ip_header := construct_ip_header g (cc_server_addr c) PACKET_HEADER_SIZE (u16 rnd) in
  let size := PACKET_HEADER_SIZE + prepend_size net_data in
  buffer ← HANDLE_PACKET_CONSTRUCTION g ip_header packet_info net_data (cc_eth_header c) size;
  HANDLE_CHECKSUM buffer (sizeof_ip + prepend_size net_data) (size - prepend_size net_data - sizeof_ip).

(** One round per element of the script: the time in milliseconds, and the frames the
    listener thread captured before.  [Diverge] when the script ends first. *)
Fixpoint request_server_information (start timeout_ms : Z) (data : list Z) (connection listener : loc)
    (script : list (Z * list (list Z))) (w : World) : Outcome World :=
  match script with
  | [] => Diverge
  | (now, frames) :: script =>
      li ← store_get listener (listener_store w);
      s ← interface_start_listening g li frames (shared w);
      let w := set_shared s w in
      if u32 (start + timeout_ms) <? u32 now then Ok w
      else
        c ← store_get connection (client_store (shared w));
        if cc_initialized c then Ok w
        else request_server_information start timeout_ms data connection listener script (send_request data w)
  end.

Definition remove_con_from_listener (con listener : loc) (w : World) : Outcome World :=
  port ← connection_port CONNECTION_TYPE_CLIENT con w;
  s ← store_update listener (drop_connection CONNECTION_TYPE_CLIENT port) (listener_store w);
  Ok (set_listeners (listeners w) s w).

(** [addr] is the address [inet_aton] makes of the argument.  On a timeout the handle
    is closed and the connection freed before it is taken from the listener. *)
Definition swiftnet_create_client (default_network_interface : list Z) (addr port timeout_ms : Z) (rnd_port rnd_id start : Z)
    (script : list (Z * list (list Z))) (w : World) : Outcome (option loc * World) :=
  let loopback := Z.shiftr (htonl addr) 24 =? 127 in
  let interface := get_interface_name default_network_interface loopback in
  let '(new_connection, s) := store_alloc (construct_client_connection rnd_port loopback port addr) (client_store (shared w)) in
  let w := set_shared (set_clients s (shared w)) w in
  '(listener, w) ← check_existing_listener interface new_connection CONNECTION_TYPE_CLIENT loopback w;
  li ← store_get listener (listener_store w);
  let net_data := li_network_data li in
  c ← store_get new_connection (client_store (shared w));
  let c := mk_client net_data (cc_packet_queue c) (cc_port_info c) (cc_eth_header c) (cc_maximum_transmission_unit c)
             (cc_server_addr c) (cc_loopback c) (cc_processing_packets c) (cc_closing c) (cc_initialized c) in
  let w := set_shared (put_client new_connection c (shared w)) w in
  request ← build_request c net_data rnd_id;
  w ← request_server_information (u32 start) timeout_ms request new_connection listener script w;
  c ← store_get new_connection (client_store (shared w));
  if cc_initialized c then Ok (Some new_connection, w)
  else
    let w := set_shared (put_client new_connection (set_client_closing c) (shared w)) w in
    w ← SWIFTNET_CLOSE_CONNECTION (cc_network_data c) w;
    s ← store_free new_connection (client_store (shared w));
    let w := set_shared (set_clients s (shared w)) w in
    w ← remove_con_from_listener new_connection listener w;
    Ok (None, w).

(** *** Tear-down *)

(** The tables of the endpoint; the blocks of messages still in reassembly are not
    freed. *)
Definition cleanup_connection_resources (r : Receiver) : Receiver :=
  set_pending [] ∅ (set_completed [] ∅ (uint16_store r)
    (set_sender (mk_send_state [] ∅ (requests_sent (sender r)) (requests_store (sender r)) (wire (sender r))) r)).

Definition remove_listener (connection_type : ConnectionType) (interface : list Z) (connection : loc) (w : World) : Outcome World :=
  match al_get interface (listeners w) with
  | None => Ok w
  | Some l =>
      li ← store_get l (listener_store w);
      port ← connection_port connection_type connection w;
      let li := drop_connection connection_type port li in
      let w := set_listeners (listeners w) (<[l := li]> (listener_store w)) w in
      if u32 (Z.of_nat (length (servers li)) + Z.of_nat (length (client_connections li))) =? 0 then
        w ← SWIFTNET_CLOSE_CONNECTION (li_network_data li) w;
        s ← store_free l (listener_store w);
        Ok (set_listeners (al_remove interface (listeners w)) s w)
      else Ok w
  end.

(** [closing] is set and the processing thread signalled; both threads are joined.
    Wakeup.v has the steps of the threads. *)
Definition close_threads (connection_type : ConnectionType) (connection : loc) (w : World) : Outcome World :=
  match connection_type with
  | CONNECTION_TYPE_CLIENT =>
      s ← store_update connection set_client_closing (client_store (shared w));
      Ok (set_shared (signal true (connection_type, connection) (set_clients s (shared w))) w)
  | CONNECTION_TYPE_SERVER =>
      s ← store_update connection (fun v => mk_server (sv_network_data v) (sv_packet_queue v) (sv_eth_header v) (server_port v)
            (sv_loopback v) (sv_processing_packets v) true) (server_store (shared w));
      Ok (set_shared (signal true (connection_type, connection) (set_servers s (shared w))) w)
  end.

Definition swiftnet_client_cleanup (default_network_interface : list Z) (client : loc) (r : Receiver) (w : World)
    : Outcome (Receiver * World) :=
  let r := cleanup_connection_resources r in
  c ← store_get client (client_store (shared w));
  w ← remove_listener CONNECTION_TYPE_CLIENT (get_interface_name default_network_interface (cc_loopback c)) client w;
  w ← close_threads CONNECTION_TYPE_CLIENT client w;
  s ← store_free client (client_store (shared w));
  Ok (r, set_shared (set_clients s (shared w)) w).

Definition swiftnet_server_cleanup (default_network_interface : list Z) (server : loc) (r : Receiver) (w : World)
    : Outcome (Receiver * World) :=
  let r := cleanup_connection_resources r in
  v ← store_get server (server_store (shared w));
  w ← remove_listener CONNECTION_TYPE_SERVER (get_interface_name default_network_interface (sv_loopback v)) server w;
  w ← close_threads CONNECTION_TYPE_SERVER server w;
  s ← store_free server (server_store (shared w));
  Ok (r, set_shared (set_servers s (shared w)) w).
End connections.
