(* ===== verification/Registry.v ===== *)
(** * The table of listeners refines a registry

    What [check_existing_listener] and [remove_listener] promise together: connections
    are registered under (interface, kind, port); an interface has one listener, and one
    open capture handle, exactly while something is registered on it. *)

From S2P Require Import Prelude Store Queue Wire Receiver Listener Connections.

Abbreviation reg_key := (list Z * ConnectionType * Z)%type.

(** The registry: a keyed table. *)
Definition part (name : list Z) (ct : ConnectionType) (t : list (reg_key * loc)) : list (Z * loc) :=
  map (fun x => (x.1.2, x.2)) (filter (fun x => x.1.1 = (name, ct)) t).

Definition used (name : list Z) (t : list (reg_key * loc)) : Prop := exists ct, part name ct t <> [].

Definition conns (ct : ConnectionType) (li : Listener) : list (Z * loc) :=
  match ct with CONNECTION_TYPE_SERVER => servers li | CONNECTION_TYPE_CLIENT => client_connections li end.

Inductive reg_op :=
| Register (ct : ConnectionType) (name : list Z) (connection : loc) (loopback : bool)
| Unregister (ct : ConnectionType) (name : list Z) (connection : loc).

Definition reg_step (pcap_datalink : list Z -> option Z) (w : World) (o : reg_op) : Outcome World :=
  match o with
  | Register ct name c lb => '(_, w) ← check_existing_listener pcap_datalink name c ct lb w; Ok w
  | Unregister ct name c => remove_listener ct name c w
  end.

Fixpoint reg_run (pcap_datalink : list Z -> option Z) (w : World) (os : list reg_op) : Outcome World :=
  match os with
  | [] => Ok w
  | o :: os => w ← reg_step pcap_datalink w o; reg_run pcap_datalink w os
  end.

(** [ports ct c] is the port of connection [c]. *)
Fixpoint spec_run (ports : ConnectionType -> loc -> Z) (t : list (reg_key * loc)) (os : list reg_op) : list (reg_key * loc) :=
  match os with
  | [] => t
  | Register ct name c _ :: os => spec_run ports (al_insert (name, ct, ports ct c) c t) os
  | Unregister ct name c :: os => spec_run ports (al_remove (name, ct, ports ct c) t) os
  end.

(** Only connections that are registered are taken out; interfaces can be opened. *)
Fixpoint reg_clean (pcap_datalink : list Z -> option Z) (ports : ConnectionType -> loc -> Z) (w : World)
    (t : list (reg_key * loc)) (os : list reg_op) : Prop :=
  match os with
  | [] => True
  | Register ct name c _ :: os =>
      connection_port ct c w = Ok (ports ct c) /\ is_Some (pcap_datalink name) /\ Z.of_nat (length name) < IFNAMSIZ
      /\ reg_clean pcap_datalink ports w (al_insert (name, ct, ports ct c) c t) os
  | Unregister ct name c :: os =>
      connection_port ct c w = Ok (ports ct c) /\ is_Some (al_get (name, ct, ports ct c) t)
      /\ reg_clean pcap_datalink ports w (al_remove (name, ct, ports ct c) t) os
  end.

Record reg_ok (w : World) (t : list (reg_key * loc)) : Prop := {
  rg_names : NoDup (al_keys (listeners w));
  rg_live : forall name l, al_get name (listeners w) = Some l ->
    exists li, listener_store w !! l = Some li /\ interface_name li = name /\ forall ct, conns ct li = part name ct t;
  rg_only : forall l li, listener_store w !! l = Some li -> al_get (interface_name li) (listeners w) = Some l;
  rg_used : forall name, is_Some (al_get name (listeners w)) <-> used name t;
  rg_handle : forall l li, listener_store w !! l = Some li ->
    exists h, pcap (li_network_data li) = Some h /\ pcap_open w !! h = Some (interface_name li);
  rg_open : forall h name, pcap_open w !! h = Some name ->
    exists l li, al_get name (listeners w) = Some l /\ listener_store w !! l = Some li /\ pcap (li_network_data li) = Some h
}.

Lemma part_insert n c p x t name ct :
  part name ct (al_insert (n, c, p) x t) = part name ct t ++ (if decide ((n, c) = (name, ct)) then [(p, x)] else []).
Proof. unfold part, al_insert. rewrite filter_app, map_app. f_equal. rewrite filter_cons. cbn [fst]. by case_decide. Qed.

Lemma part_remove n c p t name ct :
  part name ct (al_remove (n, c, p) t) = if decide ((n, c) = (name, ct)) then al_remove p (part name ct t) else part name ct t.
Proof.
  unfold part. induction t as [|[[k p'] x] t IH]; cbn [al_remove]; [by case_decide|].
  rewrite (filter_cons _ ((k, p'), x)). cbn [fst]. destruct (decide ((n, c, p) = (k, p'))) as [E|E].
  - injection E as <- <-. destruct (decide ((n, c) = (name, ct))) as [->|]; [|done]. cbn. by rewrite decide_True.
  - rewrite filter_cons. cbn [fst]. destruct (decide (k = (name, ct))) as [->|Hk]; [|exact IH]. cbn [map fst snd].
    rewrite IH. destruct (decide ((n, c) = (name, ct))) as [Heq|]; [|done]. injection Heq as -> ->. cbn.
    rewrite decide_False by congruence. done.
Qed.

Lemma part_get name ct p t : al_get (name, ct, p) t = al_get p (part name ct t).
Proof.
  unfold part. induction t as [|[[k p'] x] t IH]; [done|]. cbn [al_get]. rewrite filter_cons. cbn [fst].
  destruct (decide (k = (name, ct))) as [->|Hk]; cbn [map fst snd al_get].
  - destruct (decide (p = p')) as [->|]; [by rewrite decide_True|]. by rewrite decide_False by congruence.
  - rewrite decide_False by congruence. done.
Qed.

Lemma length_part name t :
  (length (part name CONNECTION_TYPE_SERVER t) + length (part name CONNECTION_TYPE_CLIENT t) <= length t)%nat.
Proof.
  unfold part. rewrite !length_map. induction t as [|[k x] t IH]; [done|]. rewrite !filter_cons.
  destruct (decide (_ = (name, CONNECTION_TYPE_SERVER))) as [E1|], (decide (_ = (name, CONNECTION_TYPE_CLIENT))) as [E2|]; cbn in *; try lia.
  congruence.
Qed.

(** An update at one interface leaves the parts of the others. *)
Lemma used_other n name c p x t : name <> n ->
  (used name (al_insert (n, c, p) x t) <-> used name t) /\ (used name (al_remove (n, c, p) t) <-> used name t).
Proof.
  intros Hne. unfold used. split; split; intros [ct H]; exists ct.
  - rewrite part_insert, decide_False, app_nil_r in H by congruence. done.
  - rewrite part_insert, decide_False, app_nil_r by congruence. done.
  - rewrite part_remove, decide_False in H by congruence. done.
  - rewrite part_remove, decide_False by congruence. done.
Qed.

Lemma used_insert name ct p x t : used name (al_insert (name, ct, p) x t).
Proof. exists ct. rewrite part_insert, decide_True by done. intros H. by apply app_nil in H as [_ H]. Qed.

Lemma conns_add ct' ct p x li : conns ct (add_connection ct' p x li) = conns ct li ++ (if decide (ct' = ct) then [(p, x)] else []).
Proof. destruct ct', ct; cbn; try done; by rewrite app_nil_r. Qed.

Lemma conns_drop ct' ct p li : conns ct (drop_connection ct' p li) = if decide (ct' = ct) then al_remove p (conns ct li) else conns ct li.
Proof. by destruct ct', ct. Qed.

Lemma decide_kind {B} (name : list Z) (ct ct' : ConnectionType) (a b : B) :
  (if decide ((name, ct) = (name, ct')) then a else b) = if decide (ct = ct') then a else b.
Proof. destruct (decide (ct = ct')) as [->|]; [by rewrite decide_True|]. by rewrite decide_False by congruence. Qed.

Lemma names_add ct p x li : interface_name (add_connection ct p x li) = interface_name li.
Proof. by destruct ct. Qed.
Lemma names_drop ct p li : interface_name (drop_connection ct p li) = interface_name li.
Proof. by destruct ct. Qed.
Lemma data_add ct p x li : li_network_data (add_connection ct p x li) = li_network_data li.
Proof. by destruct ct. Qed.
Lemma data_drop ct p li : li_network_data (drop_connection ct p li) = li_network_data li.
Proof. by destruct ct. Qed.

Section steps.
Context (pcap_datalink : list Z -> option Z).

(** Replacing the listener of [name] by one with the connections of the new registry. *)
Lemma update_listener w t t' name l li li' :
  reg_ok w t -> al_get name (listeners w) = Some l -> listener_store w !! l = Some li -> interface_name li' = interface_name li ->
  li_network_data li' = li_network_data li ->
  (forall ct, conns ct li' = part name ct t') -> (forall n ct, n <> name -> part n ct t' = part n ct t) -> used name t' ->
  reg_ok (set_listeners (listeners w) (<[l := li']> (listener_store w)) w) t'.
Proof.
  intros Hok Hl Hli Hname Hdata Hconns Hother Hused.
  assert (interface_name li = name) as Hn.
  { destruct (rg_live _ _ Hok _ _ Hl) as (li2 & Hli2 & Hn & _). congruence. }
  constructor; cbn [set_listeners listeners listener_store pcap_open].
  - apply Hok.
  - intros n' l' Hl'. destruct (decide (l' = l)) as [->|Hne].
    + exists li'. rewrite lookup_insert_eq. destruct (rg_live _ _ Hok _ _ Hl') as (li2 & Hli2 & Hn2 & _).
      assert (n' = name) as -> by congruence. split; [done|]. split; [congruence|exact Hconns].
    + destruct (rg_live _ _ Hok _ _ Hl') as (li2 & Hli2 & Hn2 & Hc2). exists li2. rewrite lookup_insert_ne by done.
      split; [done|]. split; [done|]. intros ct. rewrite Hother; [apply Hc2|]. intros ->. congruence.
  - intros l' li2 H2. destruct (decide (l' = l)) as [->|Hne].
    + rewrite lookup_insert_eq in H2. injection H2 as <-. by rewrite Hname, Hn.
    + rewrite lookup_insert_ne in H2 by done. by apply (rg_only _ _ Hok).
  - intros n'. destruct (decide (n' = name)) as [->|Hne]; [rewrite Hl; split; [done|by eexists]|].
    rewrite (rg_used _ _ Hok). unfold used. split; intros [ct H]; exists ct; [by rewrite Hother|by rewrite Hother in H].
  - intros l' li2 H2. destruct (decide (l' = l)) as [->|Hne]; [|rewrite lookup_insert_ne in H2 by done; by apply (rg_handle _ _ Hok l')].
    rewrite lookup_insert_eq in H2. injection H2 as <-. rewrite Hname, Hdata. by apply (rg_handle _ _ Hok l).
  - intros h n' Hh. destruct (rg_open _ _ Hok _ _ Hh) as (l' & li2 & H1 & H2 & H3).
    destruct (decide (l' = l)) as [->|Hne]; [exists l, li'|exists l', li2].
    + rewrite lookup_insert_eq, Hdata. split; [done|]. split; [done|congruence].
    + by rewrite lookup_insert_ne.
Qed.

Lemma register_ok w t ct name c lb port :
  reg_ok w t -> connection_port ct c w = Ok port -> is_Some (pcap_datalink name) -> Z.of_nat (length name) < IFNAMSIZ ->
  exists w', reg_step pcap_datalink w (Register ct name c lb) = Ok w' /\ reg_ok w' (al_insert (name, ct, port) c t) /\ shared w' = shared w.
Proof.
  intros Hok Hport [dlt Hdlt] Hlen. cbn [reg_step]. unfold check_existing_listener.
  assert (forall n ct', n <> name -> part n ct' (al_insert (name, ct, port) c t) = part n ct' t) as Hother.
  { intros n ct' Hne. rewrite part_insert, decide_False, app_nil_r by congruence. done. }
  destruct (al_get name (listeners w)) as [l|] eqn:Hl.
  - destruct (rg_live _ _ Hok _ _ Hl) as (li & Hli & Hn & Hc). rewrite (proj2 (store_get_ok _ _ _) Hli), bind_Ok, Hport, !bind_Ok.
    eexists. split; [done|]. split; [|done]. eapply update_listener; try done.
    + apply names_add.
    + apply data_add.
    + intros ct'. by rewrite conns_add, part_insert, Hc, decide_kind.
    + apply used_insert.
  - unfold swiftnet_initialize_networking. rewrite Hdlt. rewrite (proj2 (Z.ltb_ge _ _)) by lia.
    cbn [store_alloc]. set (h := store_next (pcap_open w)). pose proof (store_next_fresh (pcap_open w)) as Hhf. fold h in Hhf.
    change (connection_port ct c (set_handles (<[h := name]> (pcap_open w)) w)) with (connection_port ct c w). rewrite Hport, bind_Ok.
    cbn [store_alloc]. rewrite bind_Ok. eexists. split; [done|]. split; [|done].
    cbn [set_handles listener_store listeners]. set (l := store_next (listener_store w)).
    pose proof (store_next_fresh (listener_store w)) as Hfr. fold l in Hfr.
    assert (forall ct', part name ct' t = []) as Hnone.
    { intros ct'. destruct (part name ct' t) eqn:E; [done|]. assert (is_Some (al_get name (listeners w))) as [? Hs]; [|congruence].
      apply (rg_used _ _ Hok). exists ct'. by rewrite E. }
    constructor; cbn [set_listeners set_handles listeners listener_store pcap_open].
    + apply al_insert_NoDup; [apply Hok|done].
    + intros n' l'. rewrite al_get_insert. destruct (al_get n' (listeners w)) as [l2|] eqn:E2.
      * intros [= <-]. destruct (rg_live _ _ Hok _ _ E2) as (li2 & Hli2 & Hn2 & Hc2). exists li2.
        rewrite lookup_insert_ne by congruence. split; [done|]. split; [done|]. intros ct'. rewrite Hother by congruence. apply Hc2.
      * case_decide as Heq; [|done]. intros [= <-]. subst n'. eexists. rewrite lookup_insert_eq. split; [done|].
        split; [by rewrite names_add|]. intros ct'. rewrite conns_add, part_insert, Hnone, decide_kind. by destruct ct'.
    + intros l' li2. destruct (decide (l' = l)) as [->|Hne].
      * rewrite lookup_insert_eq. intros [= <-]. rewrite names_add. cbn [interface_name]. rewrite al_get_insert, Hl. by rewrite decide_True.
      * rewrite lookup_insert_ne by done. intros H2%(rg_only _ _ Hok). by rewrite al_get_insert, H2.
    + intros n'. rewrite al_get_insert. destruct (decide (n' = name)) as [->|Hne].
      * rewrite Hl. split; [intros _; apply used_insert|by eexists].
      * destruct (used_other name n' ct port c t Hne) as [-> _]. rewrite <- (rg_used _ _ Hok). by destruct (al_get n' (listeners w)).
    + intros l' li2. destruct (decide (l' = l)) as [->|Hne].
      * rewrite lookup_insert_eq. intros [= <-]. rewrite names_add, data_add. exists h. split; [done|]. apply lookup_insert_eq.
      * rewrite lookup_insert_ne by done. intros H2. destruct (rg_handle _ _ Hok _ _ H2) as (h2 & H3 & H4). exists h2. split; [done|].
        rewrite lookup_insert_ne; [done|]. intros <-. congruence.
    + intros h2 n'. destruct (decide (h2 = h)) as [->|Hne].
      * rewrite lookup_insert_eq. intros [= <-]. eexists l, _. rewrite al_get_insert, Hl, decide_True by done. split; [done|].
        rewrite lookup_insert_eq. split; [done|]. by rewrite data_add.
      * rewrite lookup_insert_ne by done. intros H2. destruct (rg_open _ _ Hok _ _ H2) as (l2 & li2 & H3 & H4 & H5). exists l2, li2.
        rewrite al_get_insert, H3. split; [done|]. rewrite lookup_insert_ne by congruence. done.
Qed.

Lemma unregister_ok w t ct name c port :
  reg_ok w t -> connection_port ct c w = Ok port -> is_Some (al_get (name, ct, port) t) -> Z.of_nat (length t) < 2 ^ 32 ->
  exists w', reg_step pcap_datalink w (Unregister ct name c) = Ok w' /\ reg_ok w' (al_remove (name, ct, port) t) /\ shared w' = shared w.
Proof.
  intros Hok Hport Hin Hlen. cbn [reg_step]. unfold remove_listener.
  assert (used name t) as Hused. { exists ct. rewrite part_get in Hin. intros E. rewrite E in Hin. by destruct Hin. }
  pose proof Hused as [l Hl]%(rg_used _ _ Hok). rewrite Hl. destruct (rg_live _ _ Hok _ _ Hl) as (li & Hli & Hn & Hc).
  rewrite (proj2 (store_get_ok _ _ _) Hli), bind_Ok, Hport, bind_Ok.
  assert (forall n ct', n <> name -> part n ct' (al_remove (name, ct, port) t) = part n ct' t) as Hother.
  { intros n ct' Hne. by rewrite part_remove, decide_False by congruence. }
  assert (forall ct', conns ct' (drop_connection ct port li) = part name ct' (al_remove (name, ct, port) t)) as Hc'.
  { intros ct'. by rewrite conns_drop, part_remove, Hc, decide_kind. }
  change (servers (drop_connection ct port li)) with (conns CONNECTION_TYPE_SERVER (drop_connection ct port li)).
  change (client_connections (drop_connection ct port li)) with (conns CONNECTION_TYPE_CLIENT (drop_connection ct port li)).
  rewrite !Hc'. pose proof (length_part name (al_remove (name, ct, port) t)) as Hlp.
  assert (length (al_remove (name, ct, port) t) <= length t)%nat as Hlr.
  { clear. induction t as [|[k x] t IH]; cbn; [lia|]. case_decide; cbn; lia. }
  rewrite u32_id by lia.
  destruct (Z.eqb_spec (Z.of_nat (length (part name CONNECTION_TYPE_SERVER (al_remove (name, ct, port) t)))
    + Z.of_nat (length (part name CONNECTION_TYPE_CLIENT (al_remove (name, ct, port) t)))) 0) as [E|E].
  - destruct (rg_handle _ _ Hok _ _ Hli) as (h & Hh & Hopen).
    unfold SWIFTNET_CLOSE_CONNECTION. rewrite data_drop, Hh. cbn [of_option]. rewrite bind_Ok. cbn [set_listeners pcap_open].
    rewrite (store_free_ok _ _ _ Hopen), !bind_Ok. cbn [set_handles listener_store listeners].
    rewrite (store_free_ok _ _ (drop_connection ct port li)) by apply lookup_insert_eq. rewrite bind_Ok.
    eexists. split; [done|]. split; [|done]. cbn [set_handles set_listeners listener_store listeners pcap_open]. rewrite delete_insert_eq.
    assert (~ used name (al_remove (name, ct, port) t)) as Hno.
    { intros [ct' H]. apply H. apply length_zero_iff_nil. destruct ct'; lia. }
    pose proof (al_get_remove_eq name _ (rg_names _ _ Hok)) as Hgone.
    constructor; cbn [set_listeners set_handles listeners listener_store pcap_open].
    + apply al_remove_NoDup, Hok.
    + intros n' l' Hl'. destruct (decide (n' = name)) as [->|Hne]; [congruence|]. rewrite al_get_remove_ne in Hl' by done.
      destruct (rg_live _ _ Hok _ _ Hl') as (li2 & Hli2 & Hn2 & Hc2). exists li2.
      assert (l' <> l) by congruence. rewrite lookup_delete_ne by done. split; [done|]. split; [done|]. intros ct'. by rewrite Hother.
    + intros l' li2 H2. destruct (decide (l' = l)) as [->|Hne]; [by rewrite lookup_delete_eq in H2|].
      rewrite lookup_delete_ne in H2 by done. pose proof (rg_only _ _ Hok _ _ H2) as H3. rewrite al_get_remove_ne; [done|]. congruence.
    + intros n'. destruct (decide (n' = name)) as [->|Hne]; [rewrite Hgone; split; [by intros [? ?]|done]|].
      rewrite al_get_remove_ne by done. destruct (used_other name n' ct port c t Hne) as [_ ->]. apply Hok.
    + intros l' li2 H2. destruct (decide (l' = l)) as [->|Hne]; [by rewrite lookup_delete_eq in H2|].
      rewrite lookup_delete_ne in H2 by done. destruct (rg_handle _ _ Hok _ _ H2) as (h2 & H3 & H4). exists h2. split; [done|].
      rewrite lookup_delete_ne; [done|]. intros <-. rewrite Hopen in H4. injection H4 as H4.
      pose proof (rg_only _ _ Hok _ _ H2) as H5. rewrite <- H4, Hn in H5. congruence.
    + intros h2 n' H2. destruct (decide (h2 = h)) as [->|Hne]; [by rewrite lookup_delete_eq in H2|]. rewrite lookup_delete_ne in H2 by done.
      destruct (rg_open _ _ Hok _ _ H2) as (l2 & li2 & H3 & H4 & H5). exists l2, li2.
      assert (l2 <> l) as Hl2 by (intros ->; rewrite Hli in H4; congruence).
      assert (n' <> name) by congruence. by rewrite al_get_remove_ne, lookup_delete_ne by done.
  - eexists. split; [done|]. split; [|done]. eapply update_listener; try done; [apply names_drop|apply data_drop|].
    destruct (part name CONNECTION_TYPE_SERVER (al_remove (name, ct, port) t)) eqn:E1; [|exists CONNECTION_TYPE_SERVER; by rewrite E1].
    exists CONNECTION_TYPE_CLIENT. intros E2. rewrite E2 in E. cbn in E. lia.
Qed.
End steps.

Lemma connection_port_shared ct c w w' : shared w' = shared w -> connection_port ct c w' = connection_port ct c w.
Proof. intros E. unfold connection_port. by rewrite E. Qed.

Lemma reg_clean_shared dl ports w w' os : shared w' = shared w -> forall t, reg_clean dl ports w t os -> reg_clean dl ports w' t os.
Proof.
  intros E. induction os as [|o os IH]; intros t; [done|].
  destruct o; cbn [reg_clean]; rewrite (connection_port_shared _ _ _ _ E); intuition auto.
Qed.

Lemma reg_run_ok dl ports os : forall w t,
  reg_ok w t -> reg_clean dl ports w t os -> Z.of_nat (length t) + Z.of_nat (length os) < 2 ^ 32 ->
  exists w', reg_run dl w os = Ok w' /\ reg_ok w' (spec_run ports t os) /\ shared w' = shared w.
Proof.
  induction os as [|o os IH]; intros w t Hok Hcl Hlen; [by exists w|]. cbn [length] in Hlen. cbn [reg_run spec_run].
  destruct o as [ct name c lb|ct name c]; cbn [reg_clean] in Hcl.
  - destruct Hcl as (Hp & Hd & Hl & Hcl). destruct (register_ok dl w t ct name c lb _ Hok Hp Hd Hl) as (w1 & -> & Hok1 & E).
    rewrite bind_Ok. destruct (IH w1 _ Hok1) as (w' & -> & Hok' & E'); [by eapply reg_clean_shared|unfold al_insert; rewrite length_app; cbn; lia|].
    exists w'. split; [done|]. split; [done|congruence].
  - destruct Hcl as (Hp & Hin & Hcl). destruct (unregister_ok dl w t ct name c _ Hok Hp Hin ltac:(lia)) as (w1 & -> & Hok1 & E).
    rewrite bind_Ok. destruct (IH w1 _ Hok1) as (w' & -> & Hok' & E'); [by eapply reg_clean_shared| |].
    + assert (length (al_remove (name, ct, ports ct c) t) <= length t)%nat; [|lia].
      clear. induction t as [|[k x] t IH]; cbn; [lia|]. case_decide; cbn; lia.
    + exists w'. split; [done|]. split; [done|congruence].
Qed.

(** ** What is registered, from the history alone

    [joined key os] are the connections registered under [key], in order, [left_ key os] how
    many deregistrations there were: a deregistration takes out the oldest. *)
Section history.
Context (ports : ConnectionType -> loc -> Z).

Definition op_key (o : reg_op) : reg_key :=
  match o with Register ct name c _ | Unregister ct name c => (name, ct, ports ct c) end.
Fixpoint joined (key : reg_key) (os : list reg_op) : list loc :=
  match os with
  | [] => []
  | Register ct name c lb :: os => (if decide (op_key (Register ct name c lb) = key) then [c] else []) ++ joined key os
  | Unregister _ _ _ :: os => joined key os
  end.
Fixpoint left_ (key : reg_key) (os : list reg_op) : nat :=
  match os with
  | [] => 0
  | Register _ _ _ _ :: os => left_ key os
  | Unregister ct name c :: os => (if decide (op_key (Unregister ct name c) = key) then 1 else 0) + left_ key os
  end.
Definition holders (key : reg_key) (os : list reg_op) : list loc := drop (left_ key os) (joined key os).

Definition values_at {K} `{EqDecision K} (k : K) (t : list (K * loc)) : list loc := map snd (filter (fun x => x.1 = k) t).

Lemma values_insert {K} `{EqDecision K} (k k' : K) c t : values_at k (al_insert k' c t) = values_at k t ++ (if decide (k' = k) then [c] else []).
Proof. unfold values_at, al_insert. rewrite filter_app, map_app. f_equal. rewrite filter_cons. cbn [fst]. by case_decide. Qed.

Lemma values_remove {K} `{EqDecision K} (k k' : K) t :
  values_at k (al_remove k' t) = if decide (k' = k) then tail (values_at k t) else values_at k t.
Proof.
  unfold values_at. induction t as [|[k2 c] t IH]; cbn [al_remove]; [by case_decide|]. rewrite !filter_cons. cbn [fst].
  destruct (decide (k' = k2)) as [->|Hne].
  - by destruct (decide (k2 = k)).
  - rewrite filter_cons. cbn [fst]. destruct (decide (k2 = k)) as [->|]; [|done].
    rewrite (decide_False (P := k' = k)) in * by done. cbn. by rewrite IH.
Qed.

Lemma values_get {K} `{EqDecision K} (k : K) t : al_get k t = head (values_at k t).
Proof.
  unfold values_at. induction t as [|[k2 c] t IH]; [done|]. rewrite filter_cons. cbn [al_get fst].
  destruct (decide (k = k2)) as [->|]; [by rewrite decide_True|]. by rewrite decide_False.
Qed.

Lemma spec_run_holders key dl w os : forall t,
  reg_clean dl ports w t os -> values_at key (spec_run ports t os) = drop (left_ key os) (values_at key t ++ joined key os).
Proof.
  induction os as [|o os IH]; intros t Hcl; cbn [spec_run joined left_]; [by rewrite drop_0, app_nil_r|].
  destruct o as [ct name c lb|ct name c]; cbn [reg_clean op_key] in *.
  - destruct Hcl as (_ & _ & _ & Hcl). rewrite (IH _ Hcl), values_insert. by rewrite app_assoc.
  - destruct Hcl as (_ & Hin & Hcl). rewrite (IH _ Hcl), values_remove. case_decide as E; [|done]. subst key.
    rewrite values_get in Hin. destruct (values_at _ t) as [|x l]; [by destruct Hin|]. done.
Qed.

Lemma part_values name ct port t : values_at port (part name ct t) = values_at (name, ct, port) t.
Proof.
  unfold values_at, part. induction t as [|[[[n c] p] x] t IH]; [done|]. rewrite !filter_cons. cbn [fst].
  destruct (decide ((n, c) = (name, ct))) as [E|E].
  - injection E as -> ->. cbn [map]. rewrite filter_cons. cbn [fst snd]. destruct (decide (p = port)) as [->|Hp].
    + rewrite decide_True by done. cbn. by rewrite IH.
    + by rewrite decide_False by congruence.
  - by rewrite decide_False by congruence.
Qed.

Lemma used_values name t : used name t <-> exists ct port, values_at (name, ct, port) t <> [].
Proof.
  unfold used. split.
  - intros [ct H]. destruct (part name ct t) as [|[p x] l] eqn:E; [done|]. exists ct, p. rewrite <- part_values, E.
    unfold values_at. rewrite filter_cons. cbn [fst]. by rewrite decide_True.
  - intros (ct & port & H). exists ct. rewrite <- part_values in H. intros E. by rewrite E in H.
Qed.
End history.

(** C14 Take any sequence of registrations and deregistrations on an empty table of
    listeners in which only registered ports are deregistered and the interfaces can be
    opened.  It succeeds, and at the end: the connections under (interface, kind, port) are
    those registered there in order of registration, less as many of the oldest as were
    deregistered, so a frame finds the oldest one left; an interface with a connection left
    has exactly one listener, in the table under its name, and exactly one open capture
    handle, the one in the listener's network data; there is no other listener in memory
    and no other open handle; the connections themselves are not touched.  (With two
    connections on one port, deregistering the younger takes out the older.) *)
Theorem registry_refines dl ports sh wires os :
  let w := mk_world [] ∅ sh ∅ wires in
  let in_use name := exists ct port, holders ports (name, ct, port) os <> [] in
  reg_clean dl ports w [] os -> Z.of_nat (length os) < 2 ^ 32 ->
  exists w', reg_run dl w os = Ok w' /\ shared w' = sh
    /\ NoDup (al_keys (listeners w'))
    /\ (forall name, in_use name -> exists l li h, al_get name (listeners w') = Some l
          /\ listener_store w' !! l = Some li /\ interface_name li = name
          /\ (forall ct port, values_at port (conns ct li) = holders ports (name, ct, port) os)
          /\ pcap (li_network_data li) = Some h /\ pcap_open w' !! h = Some name
          /\ (forall l' li', listener_store w' !! l' = Some li' -> interface_name li' = name -> l' = l)
          /\ (forall h', pcap_open w' !! h' = Some name -> h' = h))
    /\ (forall name l, al_get name (listeners w') = Some l -> in_use name)
    /\ (forall l li, listener_store w' !! l = Some li -> in_use (interface_name li))
    /\ (forall h name, pcap_open w' !! h = Some name -> in_use name).
Proof.
  intros w in_use Hcl Hlen. destruct (reg_run_ok dl ports os w []) as (w' & -> & Hok & E); [|done|cbn; lia|].
  { constructor; cbn; try done; [apply NoDup_nil_2|]. intros name. split; [by intros [? ?]|by intros [? ?]]. }
  assert (forall key, values_at key (spec_run ports [] os) = holders ports key os) as Hval
    by (intros key; by rewrite (spec_run_holders ports key dl w os [] Hcl)).
  assert (forall name, is_Some (al_get name (listeners w')) <-> in_use name) as Huse.
  { intros name. rewrite (rg_used _ _ Hok), used_values. unfold in_use. by setoid_rewrite Hval. }
  exists w'. split; [done|]. split; [done|]. split; [apply Hok|]. split; [|split; [|split]].
  - intros name [l Hl]%Huse. destruct (rg_live _ _ Hok _ _ Hl) as (li & Hli & Hn & Hc). destruct (rg_handle _ _ Hok _ _ Hli) as (h & Hh & Ho).
    exists l, li, h. split; [done|]. split; [done|]. split; [done|]. split; [intros ct port; by rewrite Hc, part_values, Hval|].
    split; [done|]. split; [congruence|]. split.
    + intros l' li' Hl' Hn'. pose proof (rg_only _ _ Hok _ _ Hl') as H. congruence.
    + intros h' Hh'. destruct (rg_open _ _ Hok _ _ Hh') as (l2 & li2 & H1 & H2 & H3). congruence.
  - intros name l Hl. apply Huse. by exists l.
  - intros l li Hli. apply Huse. exists l. by apply (rg_only _ _ Hok).
  - intros h name Hh. destruct (rg_open _ _ Hok _ _ Hh) as (l2 & li2 & H1 & _). apply Huse. by exists l2.
Qed.

(** Two servers on one interface, one on another; two leave, one of them and its
    interface altogether. *)
Definition sample_world_shared : Shared :=
  mk_shared ∅ {[ 1%positive := construct_server g0 false 80; 2%positive := construct_server g0 false 81; 3%positive := construct_server g0 true 80 ]} ∅ ∅ [].
Definition sample_ports (_ : ConnectionType) (c : loc) : Z := if decide (c = 2%positive) then 81 else 80.
Definition sample_reg_ops : list reg_op :=
  [Register CONNECTION_TYPE_SERVER [101] 1%positive false; Register CONNECTION_TYPE_SERVER [101] 2%positive false;
   Register CONNECTION_TYPE_SERVER [108] 3%positive true; Unregister CONNECTION_TYPE_SERVER [108] 3%positive;
   Unregister CONNECTION_TYPE_SERVER [101] 1%positive].

Lemma registry_refines_witness :
  let w := mk_world [] ∅ sample_world_shared ∅ [] in
  reg_clean (fun _ => Some 1) sample_ports w [] sample_reg_ops
  /\ exists w' l li h, reg_run (fun _ => Some 1) w sample_reg_ops = Ok w' /\ shared w' = sample_world_shared
       /\ al_get [101] (listeners w') = Some l /\ listener_store w' !! l = Some li
       /\ values_at 81 (conns CONNECTION_TYPE_SERVER li) = [2%positive]
       /\ pcap_open w' !! h = Some [101] /\ (forall h', pcap_open w' !! h' = Some [101] -> h' = h).
Proof.
  intros w. assert (reg_clean (fun _ => Some 1) sample_ports w [] sample_reg_ops) as Hcl.
  { vm_compute. repeat split; try (by eexists). }
  split; [exact Hcl|].
  destruct (registry_refines (fun _ => Some 1) sample_ports sample_world_shared [] sample_reg_ops Hcl ltac:(vm_compute; reflexivity))
    as (w' & Hr & Hs & _ & Hu & _). destruct (Hu [101]) as (l & li & h & H1 & H2 & _ & H3 & _ & H4 & _ & H5).
  { exists CONNECTION_TYPE_SERVER, 81. vm_compute. discriminate. }
  exists w', l, li, h. split; [exact Hr|]. split; [exact Hs|]. split; [exact H1|]. split; [exact H2|].
  split; [exact (H3 CONNECTION_TYPE_SERVER 81)|]. split; [exact H4|exact H5].
Defined.
