(* ===== verification/Handshake.v ===== *)
(** * The connection handshake

    Client and server together: the request built by [swiftnet_create_client], its
    processing by the server ([case_request_information]), the server's answer taken
    by the client's listener ([handle_client_init]).  And the path the client takes
    when no answer arrives in time. *)

From S2P Require Import Prelude Store Queue Crc32 Wire Frames Chunks PacketBuffer SendPacket Receiver Listener ProcessPackets.
From S2P Require Import Reassembly Protocol Connections.

Section handshake.
Context (gc gs : Globals) (malloc_ok : Z -> bool) (dl : list Z -> option Z) (di : list Z) (nd_s : SwiftNetNetworkData).
Context (eth_s : ether_header) (addr port timeout rnd_port rnd_id start : Z) (w : World).

#[local] Abbreviation lb := (Z.shiftr (htonl addr) 24 =? 127).
#[local] Abbreviation name := (get_interface_name di lb).
#[local] Abbreviation ports := (mk_port_info port (u16 rnd_port)).

(** The network data the client gets: that of the interface's listener, or of the handle
    that is opened. *)
Definition interface_data : SwiftNetNetworkData :=
  match al_get name (listeners w) with
  | Some l => match listener_store w !! l with Some li => li_network_data li | None => mk_network_data None 0 0 end
  | None => fst (swiftnet_initialize_networking dl name w)
  end.
#[local] Abbreviation nd := interface_data.

(** Its listener with the new connection. *)
Definition client_listener (client : loc) : Listener :=
  add_connection CONNECTION_TYPE_CLIENT (u16 rnd_port) client
    (default (mk_listener interface_data [] [] name (addr_type interface_data) lb)
       (l ← al_get name (listeners w); listener_store w !! l)).

(** The interface is of a supported link type; it has no listener yet and its name fits, or
    it has one, on which no client owns the random port. *)
Record client_ok : Prop := {
  hs_network : network_ok nd;
  hs_listener : match al_get name (listeners w) with
    | None => Z.of_nat (length name) < IFNAMSIZ
    | Some l => exists li, listener_store w !! l = Some li /\ li_addr_type li = addr_type (li_network_data li)
                  /\ al_get (u16 rnd_port) (client_connections li) = None
    end;
  hs_client : globals_ok gc;
  hs_addr : in_word 32 addr;
  hs_port : in_word 16 port
}.
Hypothesis Hok : client_ok.

Definition request_info : SwiftNetPacketInfo := construct_packet_info gc 0x00 (packet_type_code REQUEST_INFORMATION) 1 0 ports.
Definition request_ip : ip := construct_ip_header gc addr PACKET_HEADER_SIZE (u16 rnd_id).
Definition connection_request : list Z := sealed_frame (link_header nd (broadcast_header gc)) request_ip request_info [].

Definition answer_info : SwiftNetPacketInfo :=
  construct_packet_info gs sizeof_SwiftNetServerInformation (packet_type_code REQUEST_INFORMATION) 1 0 (mk_port_info (u16 rnd_port) port).
Definition answer_ip : ip := construct_ip_header gs (private_ip_address gc) PACKET_HEADER_SIZE (u16 0).
Definition connection_answer : list Z :=
  sealed_frame (link_header nd eth_s) answer_ip answer_info (server_information_bytes (maximum_transmission_unit gs)).

Definition new_client : SwiftNetClientConnection := mk_client nd empty_queue ports (broadcast_header gc) 0 addr lb true false false.

Lemma broadcast_ok : ether_header_ok (broadcast_header gc).
Proof.
  destruct Hok, hs_client0 as (_ & _ & Hm & Hb & _). split_and!; try done. repeat constructor; done.
Qed.

Lemma request_built : build_request gc new_client nd rnd_id = Ok connection_request.
Proof.
  destruct Hok. unfold build_request. rewrite (Z.add_comm sizeof_ip).
  replace (PACKET_HEADER_SIZE + prepend_size nd - prepend_size nd - sizeof_ip) with sizeof_SwiftNetPacketInfo
    by (unfold PACKET_HEADER_SIZE, sizeof_ip; lia).
  apply header_frame_built; [done|apply broadcast_ok].
Qed.

Lemma same_link eth : addr_type nd_s = addr_type nd -> link_header nd_s eth = link_header nd eth.
Proof. intros E. unfold link_header. by rewrite E. Qed.

(** The server answers a request with one frame and keeps nothing. *)
Lemma server_answers ct pad r :
  network_ok nd_s -> addr_type nd_s = addr_type nd -> ether_header_ok eth_s ->
  receive gs malloc_ok ct nd_s eth_s port pad connection_request r = Ok (send_internal connection_answer r).
Proof.
  intros Hnd E He. destruct Hok. unfold connection_request, connection_answer. rewrite <- !same_link by done.
  destruct (receive_sealed gs malloc_ok ct nd_s eth_s port pad (link_header nd_s (broadcast_header gc)) request_ip request_info [] r)
    as (l & b & Hl & _ & Hr); try done.
  - apply length_link_header; [done|apply broadcast_ok].
  - by apply construct_ip_header_ok.
  - apply construct_packet_info_ok; try done. split; [done|]. apply Z.mod_pos_bound. lia.
  - constructor.
  - rewrite Hr. unfold dispatch_packet. cbn [sealed_info with_checksum packet_type request_info construct_packet_info].
    change (packet_type_of_code (packet_type_code REQUEST_INFORMATION)) with (Some REQUEST_INFORMATION). cbn match.
    unfold case_request_information. rewrite build_reply_ok, bind_Ok by done.
    cbn [with_checksum port_info construct_packet_info Wire.source_port].
    unfold answer_ip, answer_info. cbn [request_ip construct_ip_header ip_src].
    exact (free_fresh l b (send_internal _ r) Hl).
Qed.

Lemma length_answer : network_ok nd -> ether_header_ok eth_s ->
  Z.of_nat (length connection_answer) = PACKET_HEADER_SIZE + sizeof_SwiftNetServerInformation + prepend_size nd.
Proof.
  intros Hnd He. unfold connection_answer. rewrite length_sealed_frame. pose proof (length_link_header nd eth_s Hnd He).
  unfold PACKET_HEADER_SIZE, sizeof_ip, sizeof_SwiftNetPacketInfo, sizeof_SwiftNetServerInformation. cbn [length server_information_bytes].
  change (length (server_information_bytes (maximum_transmission_unit gs))) with 4%nat. lia.
Qed.

(** The client after a valid answer: the server's hardware address, where the link has
    any, and its MTU. *)
Definition answered (c : SwiftNetClientConnection) : SwiftNetClientConnection :=
  set_initialized (maximum_transmission_unit gs) (if addr_type nd =? 0 then c else set_dhost (ether_shost eth_s) c).
Definition connected_client : SwiftNetClientConnection :=
  mk_client nd empty_queue ports
    (mk_ether_header (if addr_type nd =? 0 then repeat 0xFF 6 else ether_shost eth_s) (mac_address gc) (htons ETHERTYPE_IP))
    (maximum_transmission_unit gs) addr lb true false true.

Lemma answered_eq : answered new_client = connected_client.
Proof. unfold answered, connected_client. by destruct (addr_type nd =? 0). Qed.

Record server_ok : Prop := {
  hs_server : globals_ok gs;
  hs_ether : ether_header_ok eth_s
}.
Hypothesis Hserver : server_ok.

Lemma answer_info_ok : packet_info_ok (sealed_info answer_info (server_information_bytes (maximum_transmission_unit gs))).
Proof.
  destruct Hok, Hserver. apply sealed_info_ok.
  - apply construct_packet_info_ok; try done. split; [apply Z.mod_pos_bound; lia|done].
  - unfold server_information_bytes. apply is_bytes_app. split; [auto with bytes|repeat constructor; done].
Qed.

Lemma answer_accepted : handle_client_init connection_answer new_client = Ok (answered new_client).
Proof.
  destruct Hok as [Hnd]. destruct Hserver as [Hgs He]. pose proof (length_link_header nd eth_s Hnd He) as Hl.
  unfold handle_client_init. cbn [cc_closing new_client cc_network_data]. rewrite length_answer, Z.eqb_refl by done. cbn [negb].
  assert (forall c, (if addr_type nd =? 0 then Ok c else mac ← mem_read 6 6 connection_answer; Ok (set_dhost mac c))
    = Ok (if addr_type nd =? 0 then c else set_dhost (ether_shost eth_s) c)) as ->.
  { intros c. destruct (Z.eqb_spec (addr_type nd) 0) as [|Hne]; [done|].
    assert (link_header nd eth_s = ether_header_bytes eth_s) as E.
    { unfold link_header. by rewrite (proj2 (Z.eqb_neq _ _)). }
    unfold connection_answer, sealed_frame, headers. rewrite E. destruct He as (H1 & H2 & _).
    rewrite mem_read_ok by (rewrite ?length_app; unfold ether_header_bytes; rewrite ?length_app, ?H1, ?H2, ?length_ip_bytes; lia).
    rewrite bind_Ok. do 2 f_equal. unfold ether_header_bytes. rewrite <- !app_assoc.
    change (Z.to_nat 6) with 6%nat. rewrite slice_app_r by lia. rewrite H1. rewrite slice_app_l by (rewrite H2; lia).
    rewrite Nat.sub_diag. rewrite <- H2 at 1. apply slice_full. }
  rewrite bind_Ok. pose proof answer_info_ok as Hinfo. pose proof (construct_ip_header_ok gs (private_ip_address gc) PACKET_HEADER_SIZE (u16 0) Hgs) as Hip.
  destruct (read_headers (link_header nd eth_s) answer_ip _ (server_information_bytes (maximum_transmission_unit gs)) (Hip ltac:(apply hs_client0)) Hinfo)
    as [_ Hr]. unfold read_packet_info in Hr. apply bind_ok in Hr as (bytes & Hread & Hbytes). apply Ok_inj in Hbytes.
  rewrite Hl in Hread. unfold connection_answer, sealed_frame. rewrite Hread, bind_Ok, Hbytes.
  assert (forall c, cc_port_info (if addr_type nd =? 0 then c else set_dhost (ether_shost eth_s) c) = cc_port_info c) as Hpi
    by (intros c; by destruct (addr_type nd =? 0)).
  rewrite Hpi. cbn [new_client cc_port_info sealed_info with_checksum port_info answer_info construct_packet_info destination_port Wire.source_port packet_type].
  rewrite !Z.eqb_refl. cbn [negb orb].
  rewrite mem_read_ok.
  2:{ pose proof (prepend_size_range nd Hnd). unfold sizeof_ip, sizeof_SwiftNetPacketInfo. lia. }
  2:{ done. }
  2:{ rewrite length_app, length_headers. change (length (server_information_bytes _)) with 4%nat.
      unfold sizeof_ip, sizeof_SwiftNetPacketInfo, sizeof_SwiftNetServerInformation. lia. }
  rewrite bind_Ok. unfold sizeof_ip, sizeof_SwiftNetPacketInfo, sizeof_SwiftNetServerInformation.
  rewrite slice_app_r by (rewrite length_headers; lia). rewrite length_headers.
  replace (Z.to_nat (prepend_size nd + 20 + 24) - (length (link_header nd eth_s) + 44))%nat with 0%nat by lia.
  unfold answered. do 2 f_equal. unfold server_information_of_bytes.
  change (slice 0 2 (slice 0 (Z.to_nat 4) (server_information_bytes (maximum_transmission_unit gs)))) with (le_bytes 2 (maximum_transmission_unit gs)).
  apply le_val_word. apply Hgs.
Qed.

(** *** Registration *)
Definition client_loc : loc := store_next (client_store (shared w)).
#[local] Abbreviation w0 :=
  (set_shared (set_clients (<[client_loc := construct_client_connection gc rnd_port lb port addr]> (client_store (shared w))) (shared w)) w).

(** The connection is registered with a listener of the interface, old or new. *)
Record registered (ll : loc) (li : Listener) (w1 : World) : Prop := {
  rd_table : al_get name (listeners w1) = Some ll;
  rd_listener : listener_store w1 !! ll = Some li;
  rd_li : li = client_listener client_loc;
  rd_data : li_network_data li = nd;
  rd_type : li_addr_type li = addr_type nd;
  rd_client : al_get (u16 rnd_port) (client_connections li) = Some client_loc;
  rd_shared : shared w1 = shared w0;
  rd_wire : request_wire w1 = request_wire w
}.

Lemma register_client : exists ll li w1,
  check_existing_listener dl name client_loc CONNECTION_TYPE_CLIENT lb w0 = Ok (ll, w1) /\ registered ll li w1.
Proof.
  pose proof Hok as [Hnet Hli _ _ _]. unfold check_existing_listener. cbn [set_shared listeners].
  assert (forall w', shared w' = shared w0 -> connection_port CONNECTION_TYPE_CLIENT client_loc w' = Ok (u16 rnd_port)) as Hport.
  { intros w' E. cbn [connection_port]. rewrite E. cbn [set_shared shared set_clients client_store].
    by rewrite (proj2 (store_get_ok _ _ _) (lookup_insert_eq _ _ _)), bind_Ok. }
  destruct (al_get name (listeners w)) as [l|] eqn:El.
  - destruct Hli as (li & Hl & Hat & Hfree). cbn [set_shared listener_store]. rewrite (proj2 (store_get_ok _ _ _) Hl), bind_Ok, Hport, bind_Ok by done.
    eexists l, (add_connection CONNECTION_TYPE_CLIENT (u16 rnd_port) client_loc li), _. split; [reflexivity|].
    assert (nd = li_network_data li) as End by (unfold interface_data; by rewrite El, Hl).
    split; cbn [set_listeners set_shared listeners listener_store shared request_wire add_connection li_network_data li_addr_type client_connections]; try done.
    + apply lookup_insert_eq.
    + unfold client_listener. rewrite El. cbn. by rewrite Hl.
    + congruence.
    + by rewrite al_get_insert, Hfree, decide_True.
  - assert (nd = fst (swiftnet_initialize_networking dl name w)) as End by (unfold interface_data; by rewrite El).
    unfold swiftnet_initialize_networking in *. destruct (dl name) as [dlt|].
    2:{ exfalso. rewrite End in Hnet. destruct Hnet as [_ Hp]. discriminate. }
    cbn [store_alloc fst] in *. cbn [set_shared pcap_open] in *. rewrite (proj2 (Z.ltb_ge _ _)) by lia. rewrite Hport, bind_Ok by done.
    eexists _, (add_connection CONNECTION_TYPE_CLIENT (u16 rnd_port) client_loc (mk_listener
      (mk_network_data (Some (store_next (pcap_open w))) (u8 dlt) (PACKET_PREPEND_SIZE (u8 dlt))) [] [] name (u8 dlt) lb)), _. split; [reflexivity|].
    split; cbn [set_listeners set_handles set_shared listeners listener_store shared request_wire add_connection li_network_data li_addr_type client_connections]; try done.
    + by rewrite al_get_insert, El, decide_True.
    + apply lookup_insert_eq.
    + unfold client_listener. rewrite El, End. done.
    + by rewrite End.
    + cbn. by rewrite decide_True.
Qed.

(** What happens up to the wait for the answer. *)
Lemma create_client_start : exists ll li w1,
  registered ll li w1 /\ forall script,
  swiftnet_create_client gc dl di addr port timeout rnd_port rnd_id start script w
  = (w2 ← request_server_information gc (u32 start) timeout connection_request client_loc ll script
            (set_shared (put_client client_loc new_client (shared w)) w1);
     c ← store_get client_loc (client_store (shared w2));
     if cc_initialized c then Ok (Some client_loc, w2)
     else
       w3 ← SWIFTNET_CLOSE_CONNECTION (cc_network_data c) (set_shared (put_client client_loc (set_client_closing c) (shared w2)) w2);
       s ← store_free client_loc (client_store (shared w3));
       w4 ← remove_con_from_listener client_loc ll (set_shared (set_clients s (shared w3)) w3);
       Ok (None, w4)).
Proof.
  destruct register_client as (ll & li & w1 & Hreg & Hr). exists ll, li, w1. split; [done|]. intros script.
  pose proof Hr as [_ Hl _ Hd _ _ Hs _]. unfold swiftnet_create_client. cbn [store_alloc]. fold client_loc. rewrite Hreg, bind_Ok.
  rewrite (proj2 (store_get_ok _ _ _) Hl), bind_Ok, Hs. cbn [set_shared shared set_clients client_store].
  rewrite (proj2 (store_get_ok _ _ _) (lookup_insert_eq _ _ _)), bind_Ok.
  cbn [construct_client_connection cc_packet_queue cc_port_info cc_eth_header cc_maximum_transmission_unit cc_server_addr cc_loopback
    cc_processing_packets cc_closing cc_initialized]. rewrite Hd. fold new_client. rewrite request_built, bind_Ok.
  assert (put_client client_loc new_client (set_clients (<[client_loc := construct_client_connection gc rnd_port lb port addr]>
    (client_store (shared w))) (shared w)) = put_client client_loc new_client (shared w)) as E
    by (unfold put_client; cbn [set_clients client_store server_store queue_nodes shared_buffers signals]; by rewrite insert_insert_eq).
  rewrite <- E. reflexivity.
Qed.

(** *** The wait for the answer *)
Section wait.
Context (ll : loc) (li : Listener) (w1 : World) (Hr : registered ll li w1).

Lemma answer_captured s :
  client_store s !! client_loc = Some new_client ->
  pcap_packet_handle gc li connection_answer s = Ok (put_client client_loc connected_client s).
Proof.
  intros Hc. pose proof Hr as [_ _ _ _ Hat Hcl _ _]. destruct Hok as [Hnd]. destruct Hserver as [Hgs He].
  unfold pcap_packet_handle. destruct Hnd as [Ht Hp]. rewrite Hat, <- Hp, <- (length_link_header nd eth_s (conj Ht Hp) He).
  assert (in_word 16 (u16 rnd_port)) as Hw by (apply Z.mod_pos_bound; lia).
  unfold connection_answer, sealed_frame. rewrite frame_port by exact Hw. rewrite bind_Ok.
  cbn [sealed_info with_checksum port_info answer_info construct_packet_info destination_port]. rewrite le_val_word by done.
  cbn [handle_correct_receiver]. rewrite Hcl, (proj2 (store_get_ok _ _ _) Hc), bind_Ok. cbn [cc_initialized new_client].
  pose proof answer_accepted as Ha. rewrite answered_eq in Ha. unfold connection_answer, sealed_frame in Ha. cbn [new_client] in Ha |- *.
  by rewrite Ha, !bind_Ok.
Qed.

Lemma listening_app fs fs' s : interface_start_listening gc li (fs ++ fs') s = (s ← interface_start_listening gc li fs s; interface_start_listening gc li fs' s).
Proof.
  revert s. induction fs as [|x fs IH]; intros s; [done|]. cbn [app interface_start_listening].
  destruct (pcap_packet_handle gc li x s); [|done..]. rewrite !bind_Ok. apply IH.
Qed.

#[local] Abbreviation rsi := (request_server_information gc (u32 start) timeout connection_request client_loc ll).

(** One round of the wait. *)
Lemma round t frames script w2 s c :
  listener_store w2 !! ll = Some li -> interface_start_listening gc li frames (shared w2) = Ok s ->
  client_store s !! client_loc = Some c ->
  rsi ((t, frames) :: script) w2
  = if u32 (u32 start + timeout) <? u32 t then Ok (set_shared s w2)
    else if cc_initialized c then Ok (set_shared s w2) else rsi script (send_request connection_request (set_shared s w2)).
Proof.
  intros Hl Hs Hc. cbn [request_server_information]. rewrite (proj2 (store_get_ok _ _ _) Hl), bind_Ok, Hs, bind_Ok. cbn [set_shared shared].
  by rewrite (proj2 (store_get_ok _ _ _) Hc), bind_Ok.
Qed.

(** Rounds before the time is up, with any traffic that leaves the waiting client alone. *)
Fixpoint quiet_rounds (pre : list (Z * list (list Z))) (s s' : Shared) : Prop :=
  match pre with
  | [] => s' = s
  | (t, frames) :: pre => u32 t <= u32 (u32 start + timeout) /\
      exists s1, interface_start_listening gc li frames s = Ok s1 /\ client_store s1 !! client_loc = Some new_client
        /\ quiet_rounds pre s1 s'
  end.

Lemma quiet_run pre : forall script w2 s,
  listener_store w2 !! ll = Some li -> quiet_rounds pre (shared w2) s ->
  exists w3, rsi (pre ++ script) w2 = rsi script w3 /\ shared w3 = s /\ listener_store w3 = listener_store w2
    /\ listeners w3 = listeners w2 /\ request_wire w3 = request_wire w2 ++ repeat connection_request (length pre).
Proof.
  induction pre as [|[t frames] pre IH]; intros script w2 s Hl Hq; cbn [quiet_rounds app length repeat] in *.
  { subst s. exists w2. rewrite app_nil_r. done. }
  destruct Hq as (Ht & s1 & Hs & Hc & Hq). rewrite (round t frames _ w2 s1 new_client Hl Hs Hc).
  rewrite (proj2 (Z.ltb_ge _ _) Ht). cbn [cc_initialized new_client].
  destruct (IH script (send_request connection_request (set_shared s1 w2)) s) as (w3 & -> & H1 & H2 & H3 & H4); [done|done|].
  exists w3. split; [done|]. split; [done|]. split; [done|]. split; [done|]. rewrite H4. cbn [send_request set_shared request_wire].
  by rewrite <- app_assoc.
Qed.
End wait.

Lemma create_client_ok : exists ll li w1, registered ll li w1 /\
  forall pre t before script s1 s2,
    quiet_rounds li pre (put_client client_loc new_client (shared w)) s1 ->
    u32 t <= u32 (u32 start + timeout) -> interface_start_listening gc li before s1 = Ok s2 -> client_store s2 !! client_loc = Some new_client ->
  exists w', swiftnet_create_client gc dl di addr port timeout rnd_port rnd_id start (pre ++ (t, before ++ [connection_answer]) :: script) w
      = Ok (Some client_loc, w')
    /\ shared w' = put_client client_loc connected_client s2 /\ listener_store w' !! ll = Some li /\ al_get name (listeners w') = Some ll
    /\ request_wire w' = request_wire w ++ repeat connection_request (length pre).
Proof.
  destruct create_client_start as (ll & li & w1 & Hr & Hstart). exists ll, li, w1. split; [done|].
  intros pre t before script s1 s2 Hq Ht Hb Hc. rewrite Hstart. pose proof Hr as [Htab Hl _ _ _ _ _ Hwire].
  destruct (quiet_run ll li pre ((t, before ++ [connection_answer]) :: script)
    (set_shared (put_client client_loc new_client (shared w)) w1) s1) as (w3 & -> & H1 & H2 & H3 & H4); [done|done|].
  rewrite (round ll li t (before ++ [connection_answer]) _ w3 (put_client client_loc connected_client s2) connected_client).
  - rewrite (proj2 (Z.ltb_ge _ _) Ht). cbn [cc_initialized connected_client]. rewrite bind_Ok. cbn [set_shared shared put_client client_store].
    rewrite (proj2 (store_get_ok _ _ _) (lookup_insert_eq _ _ _)), bind_Ok. cbn [cc_initialized connected_client].
    eexists. split; [reflexivity|]. cbn [set_shared shared listener_store listeners request_wire]. split; [done|].
    split; [by rewrite H2|]. split; [by rewrite H3|]. rewrite H4. cbn [set_shared request_wire]. by rewrite Hwire.
  - by rewrite H2.
  - rewrite listening_app, H1, Hb, bind_Ok. cbn [interface_start_listening]. by rewrite (answer_captured ll li w1 Hr s2 Hc), bind_Ok.
  - apply lookup_insert_eq.
Qed.

Lemma quiet_silent li ts : (forall t, t ∈ ts -> u32 t <= u32 (u32 start + timeout)) ->
  quiet_rounds li (map (fun t => (t, [])) ts) (put_client client_loc new_client (shared w)) (put_client client_loc new_client (shared w)).
Proof.
  induction ts as [|t ts IH]; intros Hts; cbn [map quiet_rounds]; [done|]. split; [apply Hts; left|].
  eexists. split; [reflexivity|]. split; [apply lookup_insert_eq|]. apply IH. intros t' Ht'. apply Hts. by right.
Qed.

Lemma create_client_timeout ts late script :
  (forall t, t ∈ ts -> u32 t <= u32 (u32 start + timeout)) -> u32 (u32 start + timeout) < u32 late ->
  swiftnet_create_client gc dl di addr port timeout rnd_port rnd_id start (map (fun t => (t, [])) ts ++ (late, []) :: script) w = Fault.
Proof.
  intros Hts Hlate. destruct create_client_start as (ll & li & w1 & Hr & ->). pose proof Hr as [_ Hl _ _ _ _ _ _].
  destruct (quiet_run ll li (map (fun t => (t, [])) ts) ((late, []) :: script) (set_shared (put_client client_loc new_client (shared w)) w1) _ Hl
    (quiet_silent li ts Hts)) as (w3 & -> & H1 & H2 & _).
  assert (client_store (shared w3) !! client_loc = Some new_client) as Hc by (rewrite H1; apply lookup_insert_eq).
  assert (listener_store w3 !! ll = Some li) as Hl3 by (rewrite H2; exact Hl).
  rewrite (round ll li late [] _ w3 (shared w3) new_client Hl3 eq_refl Hc).
  rewrite (proj2 (Z.ltb_lt _ _) Hlate), bind_Ok. cbn [set_shared shared].
  rewrite (proj2 (store_get_ok _ _ _) Hc), bind_Ok. cbn [cc_initialized new_client].
  unfold SWIFTNET_CLOSE_CONNECTION. destruct (pcap _) as [h|]; [|done]. cbn [of_option]. rewrite bind_Ok.
  cbn [set_shared pcap_open]. destruct (pcap_open w3 !! h) as [x|] eqn:Eh;
    [rewrite (store_free_ok _ _ _ Eh), !bind_Ok|unfold store_free, store_get; by rewrite Eh].
  cbn [set_handles set_shared shared put_client client_store]. rewrite (store_free_ok _ _ _ (lookup_insert_eq _ _ _)), bind_Ok.
  unfold remove_con_from_listener, connection_port. cbn [set_shared shared set_clients client_store].
  unfold store_get at 1. rewrite lookup_delete_eq. done.
Qed.
End handshake.

(** ** Properties *)

(** C15 The handshake.  Let a client be created for a server on a link of the same type,
    on an interface that has no listener yet or one on which no client owns the port the
    client drew.  The server answers the client's request with one frame and keeps nothing
    of it.  Let the client wait any number of rounds (a request goes out in each; requests
    and answers may be lost, and the listener may capture any other traffic that leaves the
    waiting client alone), and let its listener capture the answer, as the last frame before
    the client looks, while the time is not up.  Then [swiftnet_create_client] returns the
    new connection, registered under its port with the interface's listener, whose network
    data it carries: initialized, with the server's MTU, address and port and, where the
    link has hardware addresses, the server's hardware address; the rest of the memory is
    what the traffic made of it, and exactly one request per round was sent. *)
Theorem handshake_completes gc gs malloc_ok dl di nd_s eth_s addr port timeout rnd_port rnd_id start w ct pad r :
  client_ok gc dl di addr port rnd_port w -> server_ok gs eth_s ->
  network_ok nd_s -> addr_type nd_s = addr_type (interface_data dl di addr w) ->
  let name := get_interface_name di (Z.shiftr (htonl addr) 24 =? 127) in
  let waiting := new_client gc dl di addr port rnd_port w in
  let l := client_loc w in let li := client_listener dl di addr rnd_port w l in
  exists request answer ll,
    receive gs malloc_ok ct nd_s eth_s port pad request r = Ok (send_internal answer r)
    /\ client_store (shared w) !! l = None
    /\ li_network_data li = interface_data dl di addr w /\ al_get (u16 rnd_port) (client_connections li) = Some l
    /\ forall pre t before script s1 s2,
         quiet_rounds gc dl di addr port timeout rnd_port start w li pre (put_client l waiting (shared w)) s1 ->
         u32 t <= u32 (u32 start + timeout) -> interface_start_listening gc li before s1 = Ok s2 -> client_store s2 !! l = Some waiting ->
         exists w', swiftnet_create_client gc dl di addr port timeout rnd_port rnd_id start (pre ++ (t, before ++ [answer]) :: script) w = Ok (Some l, w')
           /\ request_wire w' = request_wire w ++ repeat request (length pre)
           /\ al_get name (listeners w') = Some ll /\ listener_store w' !! ll = Some li
           /\ shared w' = put_client l (mk_client (li_network_data li) empty_queue (mk_port_info port (u16 rnd_port))
                (mk_ether_header (if addr_type nd_s =? 0 then repeat 0xFF 6 else ether_shost eth_s) (mac_address gc) (htons ETHERTYPE_IP))
                (maximum_transmission_unit gs) addr (Z.shiftr (htonl addr) 24 =? 127) true false true) s2.
Proof.
  intros Hc Hs Hnd E name waiting l li.
  destruct (create_client_ok gc gs dl di eth_s addr port timeout rnd_port rnd_id start w Hc Hs) as (ll & li' & w1 & Hr & Hrun).
  pose proof (rd_li _ _ _ _ _ _ _ _ _ _ Hr) as Hli. fold l li in Hli. subst li'.
  exists (connection_request gc dl di addr port rnd_port rnd_id w), (connection_answer gc gs dl di eth_s addr port rnd_port w), ll.
  split; [apply server_answers; [exact Hc|done|done|apply Hs]|]. split; [apply store_next_fresh|].
  split; [apply (rd_data _ _ _ _ _ _ _ _ _ _ Hr)|]. split; [apply (rd_client _ _ _ _ _ _ _ _ _ _ Hr)|].
  intros pre t before script s1 s2 Hq Ht Hb Hcl. destruct (Hrun pre t before script s1 s2 Hq Ht Hb Hcl) as (w' & Hw & H1 & H2 & H3 & H4).
  exists w'. split; [exact Hw|]. split; [exact H4|]. split; [exact H3|]. split; [exact H2|]. rewrite H1. unfold connected_client.
  by rewrite E, (rd_data _ _ _ _ _ _ _ _ _ _ Hr).
Qed.

(** A server already listens on the interface; traffic for it arrives while the client
    waits. *)
Definition w_server : World :=
  mk_world [([101; 116; 104; 48], 1%positive)] {[ 1%positive := sample_listener ]} sample_shared {[ 1%positive := [101; 116; 104; 48] ]} [].
Definition other_frame : list Z :=
  headers (link_header nd_ethernet eth0) (construct_ip_header g0 0x0201A8C0 47 7) (construct_packet_info g0 3 1 1 0 (mk_port_info 8080 4242)) ++ [1; 2; 3].

Lemma sample_client_ok : client_ok g0 (fun _ => Some 1) [101; 116; 104; 48] 0x0201A8C0 8080 4711 w_server.
Proof. constructor; try done. - apply nd_ethernet_ok. - exists sample_listener. done. - apply g0_ok. Qed.

(** The memory after the frames [fs] arrived at the waiting client's listener. *)
Definition after_traffic (fs : list (list Z)) : Shared :=
  let l := client_loc w_server in
  let waiting := put_client l (new_client g0 (fun _ => Some 1) [101; 116; 104; 48] 0x0201A8C0 8080 4711 w_server) (shared w_server) in
  match interface_start_listening g0 (client_listener (fun _ => Some 1) [101; 116; 104; 48] 0x0201A8C0 4711 w_server l) fs waiting with
  | Ok s => s
  | _ => waiting
  end.

Lemma handshake_completes_witness :
  exists request answer l w',
    receive g0 (fun _ => true) CONNECTION_TYPE_SERVER nd_ethernet eth0 8080 [] request r_empty = Ok (send_internal answer r_empty)
    /\ swiftnet_create_client g0 (fun _ => Some 1) [101; 116; 104; 48] 0x0201A8C0 8080 1000 4711 99 5000
         [(5000, []); (5250, [other_frame]); (5500, [other_frame; answer])] w_server = Ok (Some l, w')
    /\ request_wire w' = [request; request] /\ client_store (shared w_server) !! l = None
    /\ exists c, client_store (shared w') !! l = Some c /\ cc_initialized c = true /\ cc_maximum_transmission_unit c = maximum_transmission_unit g0
         /\ ether_dhost (cc_eth_header c) = ether_shost eth0.
Proof.
  destruct (handshake_completes g0 g0 (fun _ => true) (fun _ => Some 1) [101; 116; 104; 48] nd_ethernet eth0 0x0201A8C0 8080 1000 4711 99 5000
    w_server CONNECTION_TYPE_SERVER [] r_empty sample_client_ok) as (request & answer & ll & H1 & H2 & _ & _ & Hrun);
    [split; [apply g0_ok|apply eth0_ok]|apply nd_ethernet_ok|reflexivity|].
  destruct (Hrun [(5000, []); (5250, [other_frame])] 5500 [other_frame] []
    (after_traffic [other_frame]) (after_traffic [other_frame; other_frame])) as (w' & Hw & H3 & _ & _ & H4).
  - cbn [quiet_rounds]. split; [vm_compute; discriminate|]. eexists. split; [reflexivity|]. split; [reflexivity|]. split; [vm_compute; discriminate|].
    exists (after_traffic [other_frame]). split; [vm_compute; reflexivity|]. split; [vm_compute; reflexivity|reflexivity].
  - vm_compute. discriminate.
  - vm_compute. reflexivity.
  - vm_compute. reflexivity.
  - exists request, answer, (client_loc w_server), w'. split; [exact H1|]. split; [exact Hw|]. split; [exact H3|]. split; [exact H2|].
    eexists. rewrite H4. split; [apply lookup_insert_eq|]. done.
Defined.

(** A client whose requests stay unanswered until the time is up frees its connection
    and then reads its port to take it from the listener: the connection is used after it
    was returned to the pool.  The time is up at once when the start time plus the timeout
    passes 2^32 milliseconds. *)
Theorem client_timeout_uses_freed gc dl di addr port timeout rnd_port rnd_id start w ts late script :
  client_ok gc dl di addr port rnd_port w ->
  (forall t, t ∈ ts -> u32 t <= u32 (u32 start + timeout)) -> u32 (u32 start + timeout) < u32 late ->
  swiftnet_create_client gc dl di addr port timeout rnd_port rnd_id start (map (fun t => (t, [])) ts ++ (late, []) :: script) w = Fault.
Proof. intros Hc. by apply create_client_timeout. Qed.

Lemma client_timeout_uses_freed_witness :
  swiftnet_create_client g0 (fun _ => Some 1) [101; 116; 104; 48] 0x0201A8C0 8080 1000 4711 99 (2 ^ 32 - 500) [(2 ^ 32 - 500, [])] w_server = Fault.
Proof.
  apply (client_timeout_uses_freed g0 (fun _ => Some 1) [101; 116; 104; 48] 0x0201A8C0 8080 1000 4711 99 (2 ^ 32 - 500) w_server
    [] (2 ^ 32 - 500) [] sample_client_ok).
  - intros t Ht. by apply not_elem_of_nil in Ht.
  - vm_compute. reflexivity.
Defined.
