(* ===== verification/EndToEnd.v ===== *)
(** * From the sender's buffer to the receiver's callback queue

    The components composed: [swiftnet_send_packet] puts frames on the wire, the
    listener of the server captures each ([pcap_packet_handle]), the processing thread
    drains the queue ([swiftnet_process_packets]), and the message arrives as it was
    sent.  [serve] is the listener and the processing thread taking turns. *)

From S2P Require Import Prelude Store Queue Crc32 Wire Frames Chunks PacketBuffer SendPacket Receiver Listener ProcessPackets.
From S2P Require Import Reassembly Protocol Delivery.

Section serve.
Context (g : Globals) (malloc_ok : Z -> bool) (li : Listener) (l : loc) (rands : nat -> Z).

(** A frame is captured, then the processing thread runs until its queue is empty. *)
Definition serve (f : list Z) (st : Shared * Receiver) : Outcome (Shared * Receiver) :=
  s ← pcap_packet_handle g li f st.1;
  v ← store_get l (server_store s);
  '(v, nodes, r) ← swiftnet_server_process_packets g malloc_ok 2 rands v (queue_nodes s) (set_buffers (shared_buffers s) st.2);
  Ok (put_queue nodes (packet_buffers r) (put_server l v s), r).

Fixpoint serve_all (fs : list (list Z)) (st : Shared * Receiver) : Outcome (Shared * Receiver) :=
  match fs with
  | [] => Ok st
  | f :: fs => st ← serve f st; serve_all fs st
  end.

(** The server at [l] is idle. *)
Definition idle (nd : SwiftNetNetworkData) (eth : ether_header) (port : Z) (s : Shared) (r : Receiver) : Prop :=
  packet_buffers r = shared_buffers s
  /\ exists v, server_store s !! l = Some v /\ sv_network_data v = nd /\ sv_eth_header v = eth /\ server_port v = port /\ sv_closing v = false
       /\ queue_rep (sv_packet_queue v) (queue_nodes s) [].

(** The rest of the pool item a frame is copied to. *)
Definition item_tail (f : list Z) : list Z := drop (length f) (uninitialized g (packet_buffer_size g)).

(** A data frame for the server: its type is not one of the protocol's own. *)
Definition data_frame (nd : SwiftNetNetworkData) (port : Z) (f : list Z) : Prop :=
  ip_frame nd f /\ Z.of_nat (length f) <= packet_buffer_size g
  /\ mem_read (PACKET_PREPEND_SIZE (li_addr_type li) + sizeof_ip + offsetof_port_info) 2 f = Ok (le_bytes 2 port)
  /\ exists p ty, read_packet_info (prepend_size nd) (f ++ item_tail f) = Ok p /\ packet_type_of_code (packet_type p) = Some ty
       /\ (ty = MESSAGE \/ ty = REQUEST \/ ty = RESPONSE).

(** For data frames neither the random number nor the sender's address matters. *)
Lemma process_data_frame nd eth port rv b len a r f :
  packet_buffers r !! b = Some (f ++ item_tail f) -> data_frame nd port f ->
  process_packet g malloc_ok CONNECTION_TYPE_SERVER nd eth port rv (mk_packet_queue_content (Some b) len a) r
  = process_packet g malloc_ok CONNECTION_TYPE_SERVER nd eth port 0 (mk_packet_queue_content (Some b) len 0) r.
Proof.
  intros Hb (_ & _ & _ & p & ty & Hp & Hty & Hd). unfold process_packet. cbn [pq_data pq_data_read].
  rewrite (proj2 (store_get_ok _ _ _) Hb), !bind_Ok. destruct (read_ip_header _ _) as [h| | |]; [|done..]. rewrite !bind_Ok.
  rewrite Hp, !bind_Ok. destruct (negb _); [done|].
  destruct (mem_write _ _ (f ++ item_tail f)) as [b1| | |]; [|done..]. rewrite !bind_Ok.
  destruct (mem_write _ _ b1) as [b2| | |]; [|done..]. rewrite !bind_Ok.
  destruct (checksum_gate _ _ _ _ _) as [[]| | |]; [done| |done..]. rewrite !bind_Ok. unfold dispatch_packet. rewrite Hty.
  by destruct Hd as [->|[->| ->]].
Qed.

Lemma serve_receive nd eth port s r f r' :
  idle nd eth port s r -> in_word 16 port -> data_frame nd port f ->
  al_get port (client_connections li) = None -> al_get port (servers li) = Some l ->
  receive g malloc_ok CONNECTION_TYPE_SERVER nd eth port (item_tail f) f r = Ok r' ->
  exists s', serve f (s, r) = Ok (s', r') /\ idle nd eth port s' r'.
Proof.
  intros (Hbuf & v & Hv & <- & <- & <- & Hcl & Hq) Hw Hf Hc Hs Hr. pose proof Hf as (Hip & Hlen & Hport & _).
  destruct (captured_by_server g li f _ s l v [] Hport Hw Hip Hlen Hc Hs Hv Hq) as (q' & s1 & (Hb1 & (n & Hn & Hq1) & _ & _ & Hs1 & _) & Hcap).
  unfold serve. cbn [fst snd]. rewrite Hcap, bind_Ok.
  set (s2 := signal _ _ _). assert (server_store s2 = <[l := set_server_queue q' v]> (server_store s1)) as Hs2
    by (unfold s2, signal; by destruct (negb _)).
  assert (queue_nodes s2 = queue_nodes s1 /\ shared_buffers s2 = shared_buffers s1) as [Hn2 Hb2] by (unfold s2, signal; by destruct (negb _)).
  assert (server_store s2 !! l = Some (set_server_queue q' v)) as Hv2 by (rewrite Hs2; apply lookup_insert_eq).
  rewrite (proj2 (store_get_ok _ _ _) Hv2), bind_Ok. rewrite Hn2, Hb2. unfold swiftnet_server_process_packets.
  cbn [set_server_queue sv_network_data sv_eth_header server_port sv_packet_queue sv_closing]. rewrite Hcl.
  cbn [swiftnet_process_packets]. destruct (wait_refines _ _ _ Hq1) as (q2 & next & -> & Hnode & Hq2 & _). rewrite bind_Ok.
  rewrite (proj2 (store_get_ok _ _ _) Hnode), bind_Ok. cbn [node_content].
  rewrite (process_data_frame _ _ _ (rands 1%nat) _ _ _ _ f); [|cbn [set_buffers packet_buffers]; rewrite Hb1; apply lookup_insert_eq|done].
  unfold receive in Hr. cbn [store_alloc] in Hr. rewrite Hbuf in Hr. rewrite Hb1. unfold item_tail in Hr. rewrite Hr, bind_Ok.
  rewrite (store_free_ok _ _ _ Hnode), bind_Ok.
  assert (wait_for_next_packet q2 (delete n (queue_nodes s1)) = Ok (None, q2)) as ->.
  { unfold wait_for_next_packet. destruct Hq2 as [Hf2 _]. cbn in Hf2. by rewrite Hf2. }
  rewrite !bind_Ok. eexists. split; [done|]. split; [done|]. exists (set_server_queue q2 (set_server_queue q' v)).
  cbn [put_queue put_server server_store queue_nodes]. split; [apply lookup_insert_eq|]. split; [done|]. split; [done|]. split; [done|].
  split; [exact Hcl|]. destruct Hq2 as (H1 & H2 & H3). split; [exact H1|]. split; [exact H2|exact H3].
Qed.

Lemma serve_receive_all nd eth port fs : forall s r r',
  idle nd eth port s r -> in_word 16 port -> (forall f, f ∈ fs -> data_frame nd port f) ->
  al_get port (client_connections li) = None -> al_get port (servers li) = Some l ->
  receive_all g malloc_ok CONNECTION_TYPE_SERVER nd eth port item_tail fs r = Ok r' ->
  exists s', serve_all fs (s, r) = Ok (s', r') /\ idle nd eth port s' r'.
Proof.
  induction fs as [|f fs IH]; intros s r r' Hi Hw Hf Hc Hs Hr; cbn [receive_all serve_all] in *.
  { injection Hr as <-. by exists s. }
  apply bind_ok in Hr as (r1 & Hr1 & Hr).
  destruct (serve_receive nd eth port s r f r1 Hi Hw) as (s1 & -> & Hi1); [by apply Hf; left|done|done|done|].
  rewrite bind_Ok. apply (IH s1 r1 r' Hi1); try done. intros f' Hf'. apply Hf. by right.
Qed.
End serve.

(** ** Frames of a message *)
Lemma message_data_frame gs gr malloc_ok nd eth_s eth_r ports dst id ty data li i :
  transfer_ok gs gr malloc_ok nd eth_s eth_r ports dst ty data -> ether_type eth_s = htons ETHERTYPE_IP ->
  li_addr_type li = addr_type nd -> 0 <= i < message_chunks gs gr data ->
  data_frame gr li nd (destination_port ports) (message_frame gs gr nd eth_s ports dst id ty data i).
Proof.
  intros Ht Hty Hat Hi. pose proof (message_chunks_range gs gr malloc_ok nd eth_s eth_r ports dst ty data Ht) as Hn.
  destruct Ht as [Hnet Hes Her Hg Hm [Hd Hsrc] Hdst Htype Hdata Hmtu Hsize].
  set (payload := chunk_payload (path_stride gs gr) data i).
  assert (message_frame gs gr nd eth_s ports dst id ty data i
    = headers (link_header nd eth_s) (chunk_ip gs gr nd dst id data i)
        (sealed_info (with_index i (message_info gs gr ports ty data)) payload) ++ payload) as -> by done.
  assert (is_bytes payload) as Hbytes by (unfold payload, chunk_payload; auto with bytes).
  assert (packet_info_ok (sealed_info (with_index i (message_info gs gr ports ty data)) payload)) as Hinfo.
  { apply sealed_info_ok; [|done].
    assert (packet_info_ok (message_info gs gr ports ty data)) as (H1 & H2 & _ & H4).
    { apply construct_packet_info_ok; try done; unfold in_word; try lia. destruct Htype as [->| ->]; vm_compute; split; congruence. }
    split; [exact H1|]. split; [exact H2|]. split; [|exact H4]. unfold in_word. cbn [with_index chunk_index]. lia. }
  split; [by apply link_ip_frame|]. split; [|split].
  - rewrite length_app, length_headers. pose proof (length_link_header nd eth_s Hnet Hes). pose proof (prepend_size_range nd Hnet).
    assert (Z.of_nat (length payload) <= path_stride gs gr) as Hp.
    { unfold payload, chunk_payload, slice. rewrite length_take. assert (PACKET_HEADER_SIZE = 44) by done. unfold path_stride in *. lia. }
    unfold packet_buffer_size, sizeof_ether_header, path_stride, path_mtu in *. assert (PACKET_HEADER_SIZE = 44) by done. lia.
  - by apply frame_dport.
  - rewrite <- app_assoc. rewrite <- (length_link_header nd eth_s Hnet Hes).
    destruct (chunk_ip_ok gs gr nd dst id data i Hg Hdst) as [Hip _].
    destruct (read_headers (link_header nd eth_s) (chunk_ip gs gr nd dst id data i) _ (payload ++ item_tail gr
      (headers (link_header nd eth_s) (chunk_ip gs gr nd dst id data i)
         (sealed_info (with_index i (message_info gs gr ports ty data)) payload) ++ payload)) Hip Hinfo) as [_ Hr].
    destruct Htype as [E|E]; eexists _, _; (split; [exact Hr|]);
      change (packet_type (sealed_info (with_index i (message_info gs gr ports ty data)) payload)) with ty; rewrite E.
    + split; [reflexivity|by left].
    + split; [reflexivity|right; by left].
Qed.

(** C1 End to end, for a message longer than the path's transmission unit whose last chunk
    is not full (its length is not a multiple of the data per frame; a full last chunk is
    not copied, see [full_last_chunk_not_copied]): the sender's [swiftnet_send_packet] puts
    one frame per chunk on the wire; captured by the listener of the server that owns the
    destination port, chunk 0 before the others (see [first_arrival_misplaced]), the others
    in any order and with duplicates, none missing, each processed by the server's
    processing thread before the next, they deliver to the callback queue one packet whose
    data is the data in the sender's buffer.  Afterwards the server is idle again. *)
Theorem message_end_to_end gs gr malloc_ok nd eth_s eth_r ports dst rnd rid packet cap data rounds final st li l rands arrivals s r ql :
  transfer_ok gs gr malloc_ok nd eth_s eth_r ports dst (packet_type_code MESSAGE) data ->
  ether_type eth_s = htons ETHERTYPE_IP -> path_mtu gs gr + prepend_size nd < 2 ^ 16 ->
  path_mtu gs gr < Z.of_nat (length data) -> Z.of_nat (length data) mod path_stride gs gr <> 0 ->
  buffer_holds cap data packet -> al_get (u16 rnd) (packets_sending st) = None ->
  let n := message_chunks gs gr data in
  (forall k is_ block i, (k, is_, block) ∈ rounds -> i ∈ is_ -> 0 <= i < n) ->
  li_addr_type li = addr_type nd -> al_get (destination_port ports) (client_connections li) = None ->
  al_get (destination_port ports) (servers li) = Some l -> idle l nd eth_r (destination_port ports) s r ->
  (forall i, i ∈ arrivals -> 0 <= i < n) -> (forall i, 0 <= i < n -> i ∈ 0 :: arrivals) ->
  let key := (Wire.source_port ports, htons (u16 (u16 rnd))) in
  al_get key (packets_completed r) = None -> al_get key (pending_messages r) = None ->
  queue_rep (packet_callback_queue r) (callback_nodes r) ql ->
  exists st' frame s' r',
    swiftnet_send_packet gs nd eth_s (maximum_transmission_unit gr) ports packet (Z.of_nat (length data)) dst None false rid rnd
      (env_script rounds final) st = Ok (packet, st')
    /\ (forall i, 0 <= i < n -> wire st' !! (length (wire st) + Z.to_nat i)%nat = Some (frame i))
    /\ serve_all gr malloc_ok li l rands (map frame (0 :: arrivals)) (s, r) = Ok (s', r')
    /\ delivered gr CONNECTION_TYPE_SERVER nd eth_r (htons (u16 (u16 rnd))) (message_info gs gr ports (packet_type_code MESSAGE) data) data r ql r'
    /\ idle l nd eth_r (destination_port ports) s' r'.
Proof.
  intros Ht Hty Hmtu Hlong Hpart Hb Hget n Hr Hat Hc Hs Hi Hin Hall key Hk1 Hk2 Hq.
  pose proof (message_chunks_range gs gr malloc_ok nd eth_s eth_r ports dst _ data Ht) as Hn.
  destruct (message_reassembled gs gr malloc_ok CONNECTION_TYPE_SERVER nd eth_s eth_r ports dst (u16 rnd) (packet_type_code MESSAGE) data
    (item_tail gr) arrivals r ql Ht Hpart Hin Hall Hk1 Hk2 Hq) as (r' & Hrecv & Hdel).
  destruct (serve_receive_all gr malloc_ok li l rands nd eth_r (destination_port ports)
    (map (message_frame gs gr nd eth_s ports dst (u16 rnd) (packet_type_code MESSAGE) data) (0 :: arrivals)) s r r' Hi) as (s' & Hserve & Hi'); try done.
  { apply Ht. }
  { intros f (i & -> & Hx)%list_elem_of_fmap. eapply message_data_frame; try done.
    apply elem_of_cons in Hx as [->|Hx]; [unfold n in Hn; lia|by apply Hin]. }
  pose proof Ht as []. assert (PACKET_HEADER_SIZE = 44) as H44 by done. unfold path_mtu in Hmtu, Hlong, to_mtu.
  pose proof (fragmented_send gs nd eth_s (maximum_transmission_unit gr) ports packet cap data dst false rid rnd rounds final st to_network to_eth_s
    ltac:(lia) Hmtu Hb ltac:(lia) Hget Hr) as Hsend. cbv zeta in Hsend. cbn match in Hsend.
  eexists _, (message_frame gs gr nd eth_s ports dst (u16 rnd) (packet_type_code MESSAGE) data), s', r'.
  split; [exact Hsend|]. split; [|done]. intros i Hii. cbn [send_frames wire]. rewrite lookup_app_r by lia.
  replace (length (wire st) + Z.to_nat i - length (wire st))%nat with (Z.to_nat i) by lia.
  assert ((Z.to_nat i < Z.to_nat n)%nat) by lia.
  fold (path_mtu gs gr). fold (path_stride gs gr). fold (message_chunks gs gr data). fold n.
  rewrite lookup_app_l by (rewrite length_map, length_seqZ; lia). rewrite list_lookup_fmap, lookup_seqZ_lt by lia. cbn.
  rewrite Z.add_0_l, Z2Nat.id by lia. done.
Qed.

Lemma transfer_65_ok :
  transfer_ok g54 g54 (fun _ => true) nd_ethernet eth0 eth0 (mk_port_info 8080 4000) 0x0201A8C0 (packet_type_code MESSAGE) (seqZ 0 65).
Proof.
  destruct transfer_54_ok. constructor; try done.
  apply Forall_forall. intros x Hx. apply elem_of_seqZ in Hx. unfold is_byte. lia.
Qed.

(** 65 bytes in seven chunks of ten; they arrive reordered and with a duplicate. *)
Lemma message_end_to_end_witness :
  exists packet st' frame s' r',
    append_all true [seqZ 0 65] (create_packet_buffer g54 true 65) = Ok packet
    /\ swiftnet_send_packet g54 nd_ethernet eth0 54 (mk_port_info 8080 4000) packet 65 0x0201A8C0 None false 0 7 (env_script [] 0) st0 = Ok (packet, st')
    /\ (forall i, 0 <= i < 7 -> wire st' !! (0 + Z.to_nat i)%nat = Some (frame i))
    /\ serve_all g54 (fun _ => true) sample_listener 1%positive (fun _ => 5) (map frame [0; 3; 1; 2; 6; 3; 5; 4]) (sample_shared, r_empty) = Ok (s', r')
    /\ delivered g54 CONNECTION_TYPE_SERVER nd_ethernet eth0 (htons (u16 (u16 7)))
         (message_info g54 g54 (mk_port_info 8080 4000) (packet_type_code MESSAGE) (seqZ 0 65)) (seqZ 0 65) r_empty [] r'.
Proof.
  destruct (append_all_holds true 65 [seqZ 0 65] [] (create_packet_buffer g54 true 65)) as (packet & Hp & Hb).
  { apply create_holds. lia. }
  { vm_compute. discriminate. }
  { intros x Hx. apply list_elem_of_singleton in Hx. by subst. }
  exists packet.
  destruct (message_end_to_end g54 g54 (fun _ => true) nd_ethernet eth0 eth0 (mk_port_info 8080 4000) 0x0201A8C0 7 0 packet 65 (seqZ 0 65)
    [] 0 st0 sample_listener 1%positive (fun _ => 5) [3; 1; 2; 6; 3; 5; 4] sample_shared r_empty [] transfer_65_ok)
    as (st' & frame & s' & r' & H1 & H2 & H3 & H4 & _); try done.
  - intros k is_ block i Hk. by apply not_elem_of_nil in Hk.
  - split; [done|]. exists sample_server. do 5 (split; [done|]). apply queue_rep_empty.
  - change (message_chunks g54 g54 (seqZ 0 65)) with 7. intros i Hi. rewrite !elem_of_cons, elem_of_nil in Hi. lia.
  - change (message_chunks g54 g54 (seqZ 0 65)) with 7. intros i Hi. rewrite !elem_of_cons. lia.
  - split; [done|]. split; [done|]. apply NoDup_nil_2.
  - exists st', frame, s', r'. split; [exact Hp|]. split; [exact H1|]. split; [exact H2|]. split; [exact H3|exact H4].
Defined.

(** C38 Messages longer than a chunk but not longer than the MTU are not fragmented: they
    leave as one frame whose IP packet exceeds the MTU, and on Ethernet that frame does not
    fit the receiver's packet buffer; the listener copies it all the same, past the end of
    the pool item. *)
Theorem gap_message_overruns_buffer gs gr nd eth_s ports dst rnd rid packet cap data env st li l v s :
  network_ok nd -> addr_type nd = DLT_EN10MB -> ether_header_ok eth_s -> ether_type eth_s = htons ETHERTYPE_IP ->
  in_word 16 (destination_port ports) -> maximum_transmission_unit gr <= maximum_transmission_unit gs ->
  PACKET_HEADER_SIZE < maximum_transmission_unit gr -> maximum_transmission_unit gr + data_offset < 2 ^ 16 ->
  buffer_holds cap data packet ->
  maximum_transmission_unit gr - PACKET_HEADER_SIZE < Z.of_nat (length data) <= maximum_transmission_unit gr ->
  li_addr_type li = addr_type nd -> al_get (destination_port ports) (client_connections li) = None ->
  al_get (destination_port ports) (servers li) = Some l -> server_store s !! l = Some v ->
  exists packet' st' f,
    swiftnet_send_packet gs nd eth_s (maximum_transmission_unit gr) ports packet (Z.of_nat (length data)) dst None false rid rnd env st = Ok (packet', st')
    /\ wire st' = wire st ++ [f] /\ maximum_transmission_unit gr < Z.of_nat (length f) - prepend_size nd
    /\ pcap_packet_handle gr li f s = Fault.
Proof.
  intros Hnd Hen He Hty Hd Hmin Hm1 Hm2 Hb Hlen Hat Hc Hs Hv. assert (PACKET_HEADER_SIZE = 44) as H44 by done.
  assert (Z.min (maximum_transmission_unit gr) (maximum_transmission_unit gs) = maximum_transmission_unit gr) as Hm by lia.
  destruct (short_send gs nd eth_s (maximum_transmission_unit gr) ports packet cap data dst false rid rnd env st Hnd He) as (packet' & Hsend & _);
    rewrite ?Hm; try done; [lia|]. cbv zeta in Hsend. cbn match in Hsend.
  eexists packet', _, _. split; [exact Hsend|]. split; [done|]. rewrite length_sealed_frame, Nat2Z.inj_add.
  pose proof (length_link_header nd eth_s Hnd He) as Hl.
  assert (prepend_size nd = 14) as Hp by (destruct Hnd as [_ ->]; by rewrite Hen).
  split; [lia|]. unfold sealed_frame, pcap_packet_handle. set (h := construct_ip_header _ _ _ _). set (p := sealed_info _ _).
  change (destination_port ports) with (destination_port (port_info p)) in Hd, Hc, Hs.
  rewrite (frame_dport li nd eth_s h p data Hnd He Hat Hd), bind_Ok, le_val_word by done.
  cbn [handle_correct_receiver]. rewrite Hc, bind_Ok, Hs, (proj2 (store_get_ok _ _ _) Hv), bind_Ok.
  unfold swiftnet_handle_packets. rewrite length_app, length_headers, (proj2 (Z.eqb_neq _ _)) by lia. cbn [store_alloc].
  unfold mem_write. rewrite bool_decide_false; [done|]. rewrite length_uninitialized.
  - rewrite length_app, length_headers. unfold packet_buffer_size, sizeof_ether_header. lia.
  - unfold packet_buffer_size, sizeof_ether_header. lia.
Qed.

Lemma gap_message_overruns_buffer_witness :
  exists packet packet' st' f,
    append_all true [seqZ 0 50] (create_packet_buffer g54 true 50) = Ok packet
    /\ swiftnet_send_packet g54 nd_ethernet eth0 54 (mk_port_info 8080 4000) packet 50 0x0201A8C0 None false 0 7 [] st0 = Ok (packet', st')
    /\ wire st' = [f] /\ 54 < Z.of_nat (length f) - 14 /\ pcap_packet_handle g54 sample_listener f sample_shared = Fault.
Proof.
  destruct (append_all_holds true 50 [seqZ 0 50] [] (create_packet_buffer g54 true 50)) as (packet & Hp & Hb).
  { apply create_holds. lia. }
  { vm_compute. discriminate. }
  { intros x Hx. apply list_elem_of_singleton in Hx. by subst. }
  exists packet.
  destruct (gap_message_overruns_buffer g54 g54 nd_ethernet eth0 (mk_port_info 8080 4000) 0x0201A8C0 7 0 packet 50 (seqZ 0 50) [] st0 sample_listener
    1%positive sample_server sample_shared nd_ethernet_ok eq_refl eth0_ok eq_refl) as (packet' & st' & f & H1 & H2 & H3 & H4); try done.
  exists packet', st', f. split; [exact Hp|]. split; [exact H1|]. split; [exact H2|]. split; [exact H3|exact H4].
Defined.
