(* ===== verification/Callback.v ===== *)
(** * The callback thread and the application's access to packets

    Models src/src/execute_packet_callback.c and src/src/generic_functions.c: taking
    callbacks from the queue, running the application's handler, reading a packet
    piece by piece, releasing it.  The client and server variants differ in types
    only. *)

From S2P Require Import Prelude Store Queue Crc32 Wire Frames Chunks PacketBuffer SendPacket Receiver Listener ProcessPackets.
From S2P Require Import Reassembly Protocol Delivery.

(** [swiftnet_validate_new_handler] and the two setters; the error check is compiled
    in by default. *)
Definition swiftnet_validate_new_handler {H} (new_handler : option H) : Outcome unit :=
  match new_handler with None => Exit | Some _ => Ok tt end.

Definition swiftnet_set_message_handler {H U} (new_handler : option H) (user_arg : U) (current : option H * U) : Outcome (option H * U) :=
  _ ← swiftnet_validate_new_handler new_handler; Ok (new_handler, user_arg).

Definition set_current_pointer (c : Z) (d : PacketData) : PacketData :=
  mk_packet_data (internal_pending_message d) (pd_data d) c (md_port_info d) (md_sender d) (md_data_length d) (md_packet_id d)
    (md_expecting_response d).

(** [swiftnet_client_read_packet] and [swiftnet_server_read_packet]: the offset of the
    piece in the data, or [None]. *)
Definition swiftnet_read_packet (data_size : Z) (d : PacketData) : option Z * PacketData :=
  let data_already_read := u32 (u32 (current_pointer d) + data_size) in
  if md_data_length d <? data_already_read then (None, d)
  else (Some (current_pointer d), set_current_pointer (current_pointer d + data_size) d).

Section callback.
Context (nd : SwiftNetNetworkData).

(** [swiftnet_client_destroy_packet_data] and [swiftnet_server_destroy_packet_data]:
    the packet data itself is freed only in the second branch. *)
Definition swiftnet_destroy_packet_data (packet_data : loc) (r : Receiver) : Outcome Receiver :=
  d ← store_get packet_data (packet_data_store r);
  match internal_pending_message d with
  | Some m =>
      _ ← store_get m (pending_store r);
      s ← store_free m (pending_store r);
      let r := set_pending (pending_messages r) s r in
      match pd_data d with
      | InPendingMessage m' => if decide (m' = m) then Ok r else Fault
      | InPacketBuffer _ _ => Fault
      end
  | None =>
      match pd_data d with
      | InPacketBuffer b off =>
          if off =? PACKET_HEADER_SIZE + prepend_size nd then
            r ← free_packet_buffer b r;
            s ← store_free packet_data (packet_data_store r);
            Ok (set_packet_data s r)
          else Fault
      | InPendingMessage _ => Fault
      end
  end.

Definition remove_pending_message_from_hashmap (pending_message : loc) (r : Receiver) : Outcome Receiver :=
  m ← store_get pending_message (pending_store r);
  Ok (set_pending (al_remove (pm_source_port m, pm_packet_id m) (pending_messages r)) (pending_store r) r).

Context (packet_handler : option (loc -> Receiver -> Outcome Receiver)).

(** One callback: the body of the loop for the content of a node. *)
Definition execute_callback (node : CallbackQueueContent) (r : Receiver) : Outcome Receiver :=
  match cq_packet_data node with
  | None => Ok r
  | Some d =>
      r ← match cq_pending_message node with
          | None => Ok r
          | Some m => remove_pending_message_from_hashmap m r
          end;
      match packet_handler with
      | None => swiftnet_destroy_packet_data d r
      | Some h => h d r
      end
  end.

(** The loop, until the queue is empty (the thread then sleeps) or the connection is
    closing. *)
Fixpoint execute_packet_callback (fuel : nat) (closing : bool) (r : Receiver) : Outcome Receiver :=
  match fuel with
  | O => Diverge
  | S fuel =>
      if closing then Ok r
      else
        '(node, q) ← wait_for_next_packet_callback (packet_callback_queue r) (callback_nodes r);
        match node with
        | None => Ok (set_callbacks q (callback_nodes r) r)
        | Some n =>
            content ← store_get n (callback_nodes r);
            r ← execute_callback (node_content content) (set_callbacks q (callback_nodes r) r);
            nodes ← store_free n (callback_nodes r);
            execute_packet_callback fuel closing (set_callbacks (packet_callback_queue r) nodes r)
        end
  end.
End callback.

(** The entry points of the callback threads: queue, closing flag and network data are
    those of the connection. *)
Definition execute_packet_callback_client (packet_handler : option (loc -> Receiver -> Outcome Receiver)) (fuel : nat)
    (client : SwiftNetClientConnection) (r : Receiver) : Outcome Receiver :=
  execute_packet_callback (cc_network_data client) packet_handler fuel (cc_closing client) r.

Definition execute_packet_callback_server (packet_handler : option (loc -> Receiver -> Outcome Receiver)) (fuel : nat)
    (server : SwiftNetServer) (r : Receiver) : Outcome Receiver :=
  execute_packet_callback (sv_network_data server) packet_handler fuel (sv_closing server) r.

(** ** What queued callbacks hold *)
Inductive held := HeldSingle (d b : loc) | HeldMessage (d m : loc) (key : message_key).

Definition content_of (h : held) (id : Z) : CallbackQueueContent :=
  match h with
  | HeldSingle d _ => mk_callback_queue_content None (Some d) id
  | HeldMessage d m _ => mk_callback_queue_content (Some m) (Some d) id
  end.

Definition data_of (h : held) : loc := match h with HeldSingle d _ => d | HeldMessage d _ _ => d end.
Definition single_of (h : held) : list loc := match h with HeldSingle d _ => [d] | HeldMessage _ _ _ => [] end.
Definition buffer_of (h : held) : list loc := match h with HeldSingle _ b => [b] | HeldMessage _ _ _ => [] end.
Definition message_of (h : held) : list loc := match h with HeldSingle _ _ => [] | HeldMessage _ m _ => [m] end.
Definition key_of (h : held) : list message_key := match h with HeldSingle _ _ => [] | HeldMessage _ _ k => [k] end.

Definition held_in (nd : SwiftNetNetworkData) (r : Receiver) (h : held) : Prop :=
  match h with
  | HeldSingle d b => exists pd, packet_data_store r !! d = Some pd /\ internal_pending_message pd = None
      /\ pd_data pd = InPacketBuffer b (PACKET_HEADER_SIZE + prepend_size nd) /\ is_Some (packet_buffers r !! b)
  | HeldMessage d m key => exists pd pm, packet_data_store r !! d = Some pd /\ internal_pending_message pd = Some m
      /\ pd_data pd = InPendingMessage m /\ pending_store r !! m = Some pm /\ (pm_source_port pm, pm_packet_id pm) = key
  end.

(** Every packet of the queue is held once. *)
Definition all_held (nd : SwiftNetNetworkData) (r : Receiver) (hs : list held) : Prop :=
  (forall h, h ∈ hs -> held_in nd r h) /\ NoDup (map data_of hs)
  /\ NoDup (concat (map buffer_of hs)) /\ NoDup (concat (map message_of hs)).

Definition release (h : held) (r : Receiver) : Receiver :=
  match h with
  | HeldSingle d b => set_packet_data (delete d (packet_data_store r)) (set_buffers (delete b (packet_buffers r)) r)
  | HeldMessage d m key => set_pending (al_remove key (pending_messages r)) (delete m (pending_store r)) r
  end.

Lemma execute_held nd h id r : held_in nd r h -> execute_callback nd None (content_of h id) r = Ok (release h r).
Proof.
  destruct h as [d b|d m key]; cbn [held_in content_of release]; unfold execute_callback; cbn [cq_packet_data cq_pending_message].
  - intros (pd & Hd & Hi & Hp & [bytes Hb]). rewrite bind_Ok. unfold swiftnet_destroy_packet_data.
    rewrite (proj2 (store_get_ok _ _ _) Hd), bind_Ok, Hi, Hp, Z.eqb_refl. unfold free_packet_buffer.
    rewrite (store_free_ok _ _ _ Hb), !bind_Ok. cbn [set_buffers packet_data_store].
    rewrite (store_free_ok _ _ _ Hd), bind_Ok. done.
  - intros (pd & pm & Hd & Hi & Hp & Hm & <-). unfold remove_pending_message_from_hashmap.
    rewrite (proj2 (store_get_ok _ _ _) Hm), !bind_Ok. unfold swiftnet_destroy_packet_data.
    cbn [set_pending packet_data_store pending_store pending_messages].
    rewrite (proj2 (store_get_ok _ _ _) Hd), bind_Ok, Hi, (proj2 (store_get_ok _ _ _) Hm), bind_Ok, (store_free_ok _ _ _ Hm), bind_Ok, Hp.
    by rewrite decide_True.
Qed.

Lemma release_other nd h hs r : all_held nd r (h :: hs) -> all_held nd (release h r) hs.
Proof.
  intros (Hin & Hd & Hb & Hm). cbn [map concat] in Hd, Hb, Hm. apply NoDup_cons in Hd as [Hd Hdn].
  apply NoDup_app in Hb as (_ & Hb & Hbn), Hm as (_ & Hm & Hmn). split_and!; [|done..].
  intros h' Hh'. pose proof (Hin h' ltac:(by right)) as Hheld.
  assert (data_of h' ∈ map data_of hs) as Hd' by (apply list_elem_of_fmap; by exists h').
  destruct h as [d b|d m key], h' as [d' b'|d' m' key']; cbn [held_in release set_packet_data set_buffers set_pending packet_data_store packet_buffers pending_store data_of] in *.
  - destruct Hheld as (pd & H1 & H2 & H3 & H4). exists pd. rewrite lookup_delete_ne by congruence. split; [done|]. split; [done|]. split; [done|].
    rewrite lookup_delete_ne; [done|]. intros ->. apply (Hb b' ltac:(left)). rewrite list_elem_of_In, in_concat. exists [b'].
    rewrite <- !list_elem_of_In. split; [|left]. apply list_elem_of_fmap. by exists (HeldSingle d' b').
  - destruct Hheld as (pd & pm & H1 & H2). exists pd, pm. rewrite lookup_delete_ne by congruence. done.
  - exact Hheld.
  - destruct Hheld as (pd & pm & H1 & H2 & H3 & H4 & H5). exists pd, pm. split; [done|]. split; [done|]. split; [done|]. split; [|done].
    rewrite lookup_delete_ne; [done|]. intros ->. apply (Hm m' ltac:(left)). rewrite list_elem_of_In, in_concat. exists [m'].
    rewrite <- !list_elem_of_In. split; [|left]. apply list_elem_of_fmap. by exists (HeldMessage d' m' key').
Qed.

Lemma release_callbacks h r q n : release h (set_callbacks q n r) = set_callbacks q n (release h r).
Proof. by destruct h. Qed.

Lemma all_held_callbacks nd r hs q n : all_held nd r hs -> all_held nd (set_callbacks q n r) hs.
Proof. done. Qed.

Definition delete_all {A} (s : Store A) (ls : list loc) : Store A := foldl (fun s l => delete l s) s ls.

Lemma release_all_callbacks hs r q n :
  foldl (fun r h => release h r) (set_callbacks q n r) hs = set_callbacks q n (foldl (fun r h => release h r) r hs).
Proof. revert r. induction hs as [|h hs IH]; intros r; [done|]. cbn [foldl]. by rewrite release_callbacks, IH. Qed.

Lemma set_callbacks_twice q n q' n' r : set_callbacks q n (set_callbacks q' n' r) = set_callbacks q n r.
Proof. done. Qed.

Lemma release_queue h r : packet_callback_queue (release h r) = packet_callback_queue r /\ callback_nodes (release h r) = callback_nodes r.
Proof. by destruct h. Qed.

Lemma drain_held nd ql : forall fuel r,
  queue_rep (packet_callback_queue r) (callback_nodes r) (map (fun x => (x.1, content_of x.2.1 x.2.2)) ql) ->
  all_held nd r (map (fun x => x.2.1) ql) -> (length ql <= fuel)%nat ->
  execute_packet_callback nd None (S fuel) false r
  = Ok (set_callbacks empty_queue (delete_all (callback_nodes r) (map fst ql)) (foldl (fun r h => release h r) r (map (fun x => x.2.1) ql))).
Proof.
  induction ql as [|[n [h id]] ql IH]; intros fuel r Hq Hh Hf; cbn [execute_packet_callback map foldl]; unfold wait_for_next_packet_callback;
    pose proof (wait_refines _ _ _ Hq) as Hw; cbn [map fst snd] in Hw.
  - rewrite Hw, bind_Ok. destruct (packet_callback_queue r) as [a b]. destruct Hq as (H1 & H2 & _). cbn in H1, H2. by subst.
  - destruct Hw as (q' & next & -> & Hn & Hq' & Hnot). rewrite bind_Ok, (proj2 (store_get_ok _ _ _) Hn), bind_Ok.
    cbn [node_content]. cbn [map fst snd] in Hh. rewrite (execute_held nd h id) by (apply (proj1 Hh); left). rewrite bind_Ok.
    rewrite release_callbacks. cbn [set_callbacks callback_nodes packet_callback_queue].
    rewrite (store_free_ok _ _ _ Hn), bind_Ok. destruct fuel as [|fuel]; [cbn in Hf; lia|].
    change (mk_receiver _ _ _ _ _ q' (callback_nodes r) _ _ _) with (set_callbacks q' (callback_nodes r) (release h r)).
    rewrite IH.
    + cbn [set_callbacks callback_nodes]. by rewrite !release_all_callbacks.
    + cbn [set_callbacks callback_nodes packet_callback_queue]. destruct Hq' as (Hc & Hl & Hnd). split; [by apply chain_delete|done].
    + apply all_held_callbacks, all_held_callbacks. by apply release_other.
    + cbn in Hf. lia.
Qed.

(** The stores after releasing a list of packets. *)
Lemma released_stores hs : forall r,
  let r' := foldl (fun r h => release h r) r hs in
  packet_buffers r' = delete_all (packet_buffers r) (concat (map buffer_of hs))
  /\ packet_data_store r' = delete_all (packet_data_store r) (concat (map single_of hs))
  /\ pending_store r' = delete_all (pending_store r) (concat (map message_of hs))
  /\ pending_messages r' = foldl (fun t k => al_remove k t) (pending_messages r) (concat (map key_of hs))
  /\ packets_completed r' = packets_completed r /\ sender r' = sender r.
Proof.
  induction hs as [|h hs IH]; intros r; [done|]. cbn [foldl map concat]. destruct (IH (release h r)) as (H1 & H2 & H3 & H4 & H5 & H6).
  cbn zeta. rewrite H1, H2, H3, H4, H5, H6. unfold delete_all. by destruct h.
Qed.

(** C17 Without a handler the callback thread releases what is queued: on any queue of
    received packets it terminates with an empty queue and all nodes freed, and frees each
    one-frame packet's buffer and packet data, and each reassembled message's record, block
    and table entry, exactly once and nothing else.  The packet data of a reassembled
    message stays allocated. *)
Theorem callbacks_release_packets nd ql fuel r :
  queue_rep (packet_callback_queue r) (callback_nodes r) (map (fun x => (x.1, content_of x.2.1 x.2.2)) ql) ->
  let hs := map (fun x => x.2.1) ql in
  all_held nd r hs -> (length ql <= fuel)%nat ->
  exists r', execute_packet_callback nd None (S fuel) false r = Ok r'
    /\ packet_callback_queue r' = empty_queue /\ callback_nodes r' = delete_all (callback_nodes r) (map fst ql)
    /\ packet_buffers r' = delete_all (packet_buffers r) (concat (map buffer_of hs))
    /\ packet_data_store r' = delete_all (packet_data_store r) (concat (map single_of hs))
    /\ pending_store r' = delete_all (pending_store r) (concat (map message_of hs))
    /\ pending_messages r' = foldl (fun t k => al_remove k t) (pending_messages r) (concat (map key_of hs))
    /\ packets_completed r' = packets_completed r /\ sender r' = sender r.
Proof.
  intros Hq hs Hh Hf. eexists. split; [by apply drain_held|]. split; [done|]. split; [done|].
  exact (released_stores hs r).
Qed.

(** ** Reading a packet *)
Fixpoint read_pieces (sizes : list Z) (d : PacketData) : list (option Z) :=
  match sizes with
  | [] => []
  | n :: sizes => let '(o, d) := swiftnet_read_packet n d in o :: read_pieces sizes d
  end.

Lemma read_piece d n :
  0 <= current_pointer d -> 0 <= n -> current_pointer d + n <= md_data_length d < 2 ^ 32 ->
  swiftnet_read_packet n d = (Some (current_pointer d), set_current_pointer (current_pointer d + n) d).
Proof.
  intros Hc Hn Hl. unfold swiftnet_read_packet. rewrite (u32_id (current_pointer d)), u32_id by lia. by rewrite (proj2 (Z.ltb_ge _ _)) by lia.
Qed.

Lemma read_pieces_ok (pieces : list (list Z)) : forall block d pre,
  block = pre ++ concat pieces -> current_pointer d = Z.of_nat (length pre) -> Z.of_nat (length block) <= md_data_length d < 2 ^ 32 ->
  Forall2 (fun o x => exists off, o = Some off /\ slice (Z.to_nat off) (length x) block = x) (read_pieces (map (fun x => Z.of_nat (length x)) pieces) d) pieces.
Proof.
  induction pieces as [|x pieces IH]; intros block d pre Hb Hc Hl; [constructor|]. cbn [map read_pieces concat] in *.
  assert (length block = length pre + length x + length (concat pieces))%nat as Hlen by (subst; rewrite !length_app; lia).
  rewrite read_piece by lia. constructor.
  - exists (current_pointer d). split; [done|]. rewrite Hc, Nat2Z.id, Hb. rewrite slice_app_r, Nat.sub_diag, slice_app_l by lia. apply slice_full.
  - apply (IH block _ (pre ++ x)); cbn [set_current_pointer current_pointer md_data_length]; [by rewrite <- app_assoc|rewrite length_app; lia|done].
Qed.

(** C18 The application reads a delivered packet piece by piece: with the sizes of the
    pieces it was put together from, every call returns the offset of its piece, in order,
    and a call past the end returns NULL and leaves the packet as it is, unless offset plus
    size reaches 2^32, when the check always passes. *)
Theorem read_packet_returns_pieces (pieces : list (list Z)) (block : list Z) d :
  block = concat pieces -> current_pointer d = 0 -> md_data_length d = Z.of_nat (length block) -> Z.of_nat (length block) < 2 ^ 32 ->
  Forall2 (fun o x => exists off, o = Some off /\ slice (Z.to_nat off) (length x) block = x)
    (read_pieces (map (fun x => Z.of_nat (length x)) pieces) d) pieces
  /\ forall c n, 0 <= c <= md_data_length d -> in_word 32 n ->
       swiftnet_read_packet n (set_current_pointer c d)
       = if bool_decide (md_data_length d < c + n < 2 ^ 32) then (None, set_current_pointer c d)
         else (Some c, set_current_pointer (c + n) d).
Proof.
  intros Hb Hc Hl Hlen. split; [apply (read_pieces_ok pieces block d []); [done|done|lia]|]. unfold in_word. intros c n Hcr Hn.
  unfold swiftnet_read_packet. cbn [set_current_pointer current_pointer md_data_length]. rewrite (u32_id c) by lia.
  destruct (decide (c + n < 2 ^ 32)) as [Hlt|Hge].
  - rewrite u32_id by lia. destruct (Z.ltb_spec (md_data_length d) (c + n)); [rewrite bool_decide_true by lia|rewrite bool_decide_false by lia]; done.
  - rewrite bool_decide_false by lia. assert (u32 (c + n) = c + n - 2 ^ 32) as ->.
    { unfold wrap. symmetry. apply (Z.mod_unique_pos _ _ 1); lia. }
    rewrite (proj2 (Z.ltb_ge _ _)) by lia. done.
Qed.

Definition sample_packet (len : Z) : PacketData := mk_packet_data None (InPacketBuffer 1%positive 58) 0 (mk_port_info 8080 4000) None len 7 false.

Lemma read_packet_returns_pieces_witness :
  Forall2 (fun o x => exists off, o = Some off /\ slice (Z.to_nat off) (length x) [1; 2; 3; 4; 5] = x)
    (read_pieces [2; 3] (sample_packet 5)) [[1; 2]; [3; 4; 5]]
  /\ swiftnet_read_packet 4294967292 (set_current_pointer 4 (sample_packet 5)) = (Some 4, set_current_pointer 4294967296 (sample_packet 5)).
Proof.
  destruct (read_packet_returns_pieces [[1; 2]; [3; 4; 5]] [1; 2; 3; 4; 5] (sample_packet 5)) as [H1 H2]; [done..|]. split; [exact H1|].
  rewrite H2; [done|cbn; lia|vm_compute; split; congruence].
Defined.

(** One packet of each kind in the queue. *)
Definition sample_message : SwiftNetPendingMessage :=
  mk_pending_message (construct_packet_info g54 25 1 3 0 (mk_port_info 8080 4000)) [7] (seqZ 0 25) 1 3 0 0 4000 9 false.
Definition sample_callbacks : Receiver :=
  mk_receiver [((4000, 9), 1%positive)] {[ 1%positive := sample_message ]} [] ∅ ∅ (mk_queue (Some 1%positive) (Some 2%positive))
    {[ 1%positive := mk_queue_node (Some 2%positive) (content_of (HeldSingle 1 1) 7);
       2%positive := mk_queue_node None (content_of (HeldMessage 2 1 (4000, 9)) 9) ]}
    {[ 1%positive := sample_packet 5;
       2%positive := mk_packet_data (Some 1%positive) (InPendingMessage 1) 0 (mk_port_info 8080 4000) None 25 9 false ]}
    {[ 1%positive := repeat 0 68 ]} st0.

Lemma callbacks_release_packets_witness :
  exists r', execute_packet_callback nd_ethernet None 3 false sample_callbacks = Ok r'
    /\ packet_callback_queue r' = empty_queue /\ packet_buffers r' = ∅ /\ pending_messages r' = []
    /\ packet_data_store r' = delete_all (packet_data_store sample_callbacks) [1%positive].
Proof.
  destruct (callbacks_release_packets nd_ethernet [(1%positive, (HeldSingle 1 1, 7)); (2%positive, (HeldMessage 2 1 (4000, 9), 9))] 2 sample_callbacks)
    as (r' & H1 & H2 & _ & H3 & H4 & _ & H5 & _).
  - split; [|split; [done|]].
    + split; [done|]. exists (Some 2%positive). split; [done|]. split; [done|]. by exists None.
    + apply NoDup_cons. split; [|apply NoDup_singleton]. by intros ?%list_elem_of_singleton.
  - split_and!.
    + intros h Hh. cbn [map fst snd] in Hh. rewrite !elem_of_cons, elem_of_nil in Hh. destruct Hh as [->|[->|[]]].
      * eexists. split; [done|]. split; [done|]. split; [done|]. by eexists.
      * eexists _, _. split; [done|]. split; [done|]. split; [done|]. split; done.
    + apply NoDup_cons. split; [|apply NoDup_singleton]. by intros ?%list_elem_of_singleton.
    + apply NoDup_singleton.
    + apply NoDup_singleton.
  - done.
  - exists r'. split; [exact H1|]. split; [exact H2|]. split; [rewrite H3; reflexivity|]. split; [rewrite H5; reflexivity|exact H4].
Defined.
