(* ===== verification/LossRecovery.v ===== *)
(** * Recovery from lost frames

    The sender of a fragmented packet and its receiver put together over a network that
    loses frames: after the first transmission the sender asks for the lost chunks
    ([request_lost_packets_bitarray]), the receiver answers with the chunks that are
    missing ([case SEND_LOST_PACKETS_REQUEST]), the sender's processing thread stores the
    list ([case SEND_LOST_PACKETS_RESPONSE]), the sender sends those chunks again
    ([handle_lost_packets]), and some of them arrive.  The network decides which; a round
    in which it loses all of them changes nothing.  It also loses requests and answers: the
    sender repeats a request that stays without an answer. *)

From S2P Require Import Prelude Store Queue Crc32 Wire Frames Chunks PacketBuffer SendPacket Receiver Listener ProcessPackets.
From S2P Require Import Reassembly Protocol Delivery EndToEnd Callback.

(** The indexes in a block of lost chunks, as the resend loop reads them. *)
Fixpoint read_indexes (n : nat) (block : list Z) : list Z :=
  match n with
  | O => []
  | S n => le_val (take 4 block) :: read_indexes n (drop 4 block)
  end.

Lemma read_index_bytes is_ block : (forall i, i ∈ is_ -> in_word 32 i) -> read_indexes (length is_) (index_bytes is_ ++ block) = is_.
Proof.
  induction is_ as [|i is_ IH]; intros Hw; [done|]. cbn [length read_indexes].
  change (index_bytes (i :: is_)) with (le_bytes 4 i ++ index_bytes is_). rewrite <- app_assoc.
  rewrite take_app_length', drop_app_length' by (by rewrite length_le_bytes).
  rewrite IH by (intros j Hj; apply Hw; by right). f_equal. apply le_val_word. apply Hw. left.
Qed.

(** What the network does to an exchange that fails. *)
Inductive Failure := REQUEST_LOST | ANSWER_LOST.

(** What it does in a round: the requests that fail before one is answered, the polls of
    the sender between the last request and its answer, and the chunks it delivers of those
    sent again. *)
Record NetRound := mk_net_round { failures : list Failure; delay : nat; arriving : list Z -> list Z }.

(** The polls of the sender, which asks again after every 255 of them. *)
Definition polls (fs : list Failure) (d : nat) : nat := (255 * length fs + d)%nat.

Lemma polls_requests fs d : (d < 255)%nat -> (polls fs d / 255 = length fs)%nat.
Proof. intros Hd. unfold polls. rewrite Nat.mul_comm, Nat.div_add_l, Nat.div_small by lia. lia. Qed.

(** The requests the sender repeats are those that failed. *)
Lemma repeated_requests (rounds : list (nat * list Z * list Z)) net :
  map (fun x => x.1.1) rounds = map (fun a => polls (failures a) (delay a)) net -> (forall a, a ∈ net -> (delay a < 255)%nat) ->
  map (fun x => (x.1.1 / 255)%nat) rounds = map (fun a => length (failures a)) net.
Proof.
  revert net. induction rounds as [|x rounds IH]; intros [|a net]; try done. cbn [map]. intros [= Hx Hr] Hd.
  rewrite Hx, polls_requests by (apply Hd; left). f_equal. apply IH; [done|]. intros b Hb. apply Hd. by right.
Qed.

Section recovery.
Context (gs gr : Globals) (malloc_ok : Z -> bool) (cta ctb : ConnectionType) (nd : SwiftNetNetworkData).
Context (eth_s eth_r : ether_header) (ports : SwiftNetPortInfo) (dst id ty : Z) (data : list Z) (pad : list Z -> list Z).

#[local] Abbreviation mtu := (path_mtu gs gr).
#[local] Abbreviation info := (message_info gs gr ports ty data).
#[local] Abbreviation n := (message_chunks gs gr data).
#[local] Abbreviation key := (Wire.source_port ports, htons id).
#[local] Abbreviation request := (lost_request_frame gs nd eth_s dst id ports).
#[local] Abbreviation recv_b f := (receive gr malloc_ok ctb nd eth_r (destination_port ports) (pad f) f).
#[local] Abbreviation recv_a f := (receive gs malloc_ok cta nd eth_s (Wire.source_port ports) (pad f) f).

(** The frame of a chunk sent again. *)
Definition resent (i : Z) : list Z := resent_frame nd eth_s mtu (construct_ip_header gs dst mtu id) info data i.

(** A request that fails: the receiver sees it unless it is the request that is lost. *)
Definition unanswered (f : Failure) (rb : Receiver) : Outcome Receiver :=
  match f with
  | REQUEST_LOST => Ok rb
  | ANSWER_LOST => recv_b request rb
  end.

Fixpoint all_unanswered (fs : list Failure) (rb : Receiver) : Outcome Receiver :=
  match fs with
  | [] => Ok rb
  | f :: fs => rb ← unanswered f rb; all_unanswered fs rb
  end.

(** One round of the exchange between the receiver [rb] and the endpoint [ra] of the
    sender: after the failures a request arrives, its answer (the frame the receiver sent
    last) arrives, the sender takes the list and sends its chunks again, and the network
    delivers [arriving lost] of them.  The result records the polls, the list and the rest of
    its block. *)
Definition round (net : NetRound) (rb ra : Receiver) : Outcome (nat * list Z * list Z * Receiver * Receiver) :=
  rb ← all_unanswered (failures net) rb;
  rb ← recv_b request rb;
  reply ← of_option (last (wire (sender rb)));
  ra ← recv_a reply ra;
  ls ← of_option (al_get id (packets_sending (sender ra)));
  p ← store_get ls (sending_store (sender ra));
  match updated p with
  | UPDATED_LOST_CHUNKS =>
      let block := default [] (lost_chunks p) in
      let lost := read_indexes (Z.to_nat (lost_chunks_size p)) block in
      rb ← receive_all gr malloc_ok ctb nd eth_r (destination_port ports) pad (map resent (arriving net lost)) rb;
      Ok (polls (failures net) (delay net), lost, drop (4 * length lost) block, rb, set_sender (set_obj ls (set_updated NO_UPDATE p) (sender ra)) ra)
  | _ => Fault
  end.

Fixpoint rounds_run (net : list NetRound) (rb ra : Receiver)
    : Outcome (list (nat * list Z * list Z) * Receiver * Receiver) :=
  match net with
  | [] => Ok ([], rb, ra)
  | a :: net =>
      '(k, lost, block, rb, ra) ← round a rb ra;
      '(rounds, rb, ra) ← rounds_run net rb ra;
      Ok ((k, lost, block) :: rounds, rb, ra)
  end.

Hypothesis Ht : transfer_ok gs gr malloc_ok nd eth_s eth_r ports dst ty data.
Hypothesis Hpartial : Z.of_nat (length data) mod path_stride gs gr <> 0.
Hypothesis Hid : in_word 16 id.

Lemma word_id : u16 id = id.
Proof. apply u16_id. exact Hid. Qed.

#[local] Abbreviation stride' := (Z.min (pi_maximum_transmission_unit info) (maximum_transmission_unit gr) - PACKET_HEADER_SIZE).
#[local] Abbreviation mok lh hs := (message_ok gr malloc_ok nd eth_r (destination_port ports) lh hs (htons id) info data).

Lemma stride_eq : stride' = path_stride gs gr.
Proof. unfold path_stride. by rewrite path_mtu_receiver. Qed.

Lemma amount_eq : chunk_count stride' (Z.of_nat (length data)) = n.
Proof. by rewrite stride_eq. Qed.

Lemma partial_eq : Z.of_nat (length data) mod stride' <> 0.
Proof. by rewrite stride_eq. Qed.

Lemma sent_ok : mok (link_header nd eth_s) (chunk_ip gs gr nd dst id data).
Proof. pose proof (transfer_message_ok gs gr malloc_ok nd eth_s eth_r ports dst id ty data Ht) as H. by rewrite word_id in H. Qed.

(** The receiver looks neither at the link header nor at the IP length. *)
Lemma other_headers_ok lh hs lh' hs' :
  mok lh hs -> Z.of_nat (length lh') = prepend_size nd ->
  (forall i, ip_ok (hs' i) /\ ip_sum (hs' i) = 0 /\ ip_id (hs' i) = htons id) -> mok lh' hs'.
Proof. intros [] H1 H2. by constructor. Qed.

(** A frame that carries chunk [i], from the first transmission or a later one. *)
Definition chunk_copy (i : Z) (f : list Z) : Prop := exists lh hs, mok lh hs /\ f = frame gr lh hs info data i.

Lemma sent_copy i : chunk_copy i (message_frame gs gr nd eth_s ports dst id ty data i).
Proof. eexists _, _. split; [apply sent_ok|apply message_frame_eq]. Qed.

Lemma resent_copy i : chunk_copy i (resent i).
Proof.
  pose proof sent_ok as Hs. pose proof Ht as []. pose proof (length_link_header nd eth_s to_network to_eth_s) as Hl.
  pose proof (prepend_size_range nd to_network) as Hps.
  assert (forall x : Z, ip_ok (construct_ip_header gs dst mtu id) /\ ip_sum (construct_ip_header gs dst mtu id) = 0
    /\ ip_id (construct_ip_header gs dst mtu id) = htons id) as Hip.
  { intros _. split; [by apply construct_ip_header_ok|]. split; [done|]. cbn. by rewrite word_id. }
  unfold chunk_copy, resent, resent_frame. fold (path_stride gs gr).
  destruct (_ <=? _).
  - exists (blit 2 (le_bytes 2 (htons (u16 (PACKET_HEADER_SIZE + Z.of_nat (length (chunk_payload (path_stride gs gr) data i)))))) (link_header nd eth_s)).
    exists (fun _ => construct_ip_header gs dst mtu id). split.
    + apply (other_headers_ok _ _ _ _ Hs); [|done]. rewrite length_blit; [done|]. rewrite length_le_bytes. lia.
    + unfold frame. by rewrite stride_eq.
  - exists (link_header nd eth_s), (fun _ => construct_ip_header gs dst mtu id). split.
    + by apply (other_headers_ok _ _ _ _ Hs).
    + unfold frame. by rewrite stride_eq.
Qed.

Lemma chunk_numbers : 1 < n <= 2 ^ 32 - 2 ^ 16.
Proof. destruct (geometry _ _ _ _ _ _ _ _ _ _ sent_ok partial_eq) as (_ & H & _). by rewrite amount_eq in H. Qed.

(** ** Progress of the receiver *)
#[local] Abbreviation reassembling' := (reassembling gr (htons id) info data).
#[local] Abbreviation delivered' := (delivered gr ctb nd eth_r (htons id) info data).
#[local] Abbreviation state' := (message_state gr (htons id) info data).

(** The chunks [done_] have arrived since [r0]; the message is handed over when they are
    all there. *)
Definition progress (r0 : Receiver) (done_ : list Z) (r : Receiver) : Prop :=
  (Z.of_nat (length done_) < n /\ reassembling' r0 done_ r) \/ (Z.of_nat (length done_) = n /\ delivered' r0 [] r).

Lemma progress_pending r0 done_ r :
  progress r0 done_ r ->
  exists lm m done', al_get key (pending_messages r) = Some lm /\ pending_store r !! lm = Some m
    /\ state' done' m /\ length done' = length done_ /\ (Z.of_nat (length done_) < n -> done' = done_).
Proof.
  intros [(Hlt & _ & lm & m & H1 & H2 & H3 & _)|(Heq & lm & m & d & node & c & _ & H2 & _ & _ & _ & _ & H1 & _ & done' & H3 & H4)].
  - by exists lm, m, done_.
  - exists lm, m, done'. split; [done|]. split; [done|]. split; [done|]. rewrite amount_eq in H4. split; [lia|]. intros; lia.
Qed.

Section steps.
Context (r0 : Receiver).
Hypothesis Hfresh : al_get key (packets_completed r0) = None.
Hypothesis Hqueue : queue_rep (packet_callback_queue r0) (callback_nodes r0) [].

(** One more frame. *)
Lemma progress_copy i f done_ r :
  progress r0 done_ r -> chunk_copy i f -> 0 <= i < n ->
  exists r' done', recv_b f r = Ok r' /\ progress r0 done' r'
    /\ ((done' = done_ /\ (Z.of_nat (length done_) < n -> i ∈ done_)) \/ done' = i :: done_).
Proof.
  intros [[Hlt Hre]|[Heq Hdel]] (lh & hs & Hok & ->) Hi; pose proof Hi as Hi'; rewrite <- amount_eq in Hi'.
  - destruct (decide (i ∈ done_)) as [Hin|Hin].
    { exists r, done_. rewrite (receive_duplicate gr malloc_ok ctb nd eth_r _ lh hs _ _ _ Hok partial_eq pad r0 done_ i r Hfresh Hre Hin).
      split; [done|]. split; [by left|]. by left. }
    destruct (decide (Z.of_nat (length done_) + 1 = n)) as [Hlast|Hmore].
    + destruct (receive_last gr malloc_ok ctb nd eth_r _ lh hs _ _ _ Hok partial_eq pad r0 [] done_ i r Hfresh Hqueue Hre Hi' Hin) as (r' & -> & Hd).
      { by rewrite amount_eq. }
      exists r', (i :: done_). split; [done|]. split; [right; split; [cbn [length]; lia|done]|]. by right.
    + destruct (receive_next gr malloc_ok ctb nd eth_r _ lh hs _ _ _ Hok partial_eq pad r0 done_ i r Hfresh Hre Hi' Hin) as (r' & -> & Hd).
      { rewrite amount_eq. lia. }
      exists r', (i :: done_). split; [done|]. split; [left; split; [cbn [length]; lia|done]|]. by right.
  - pose proof Hdel as (_ & _ & _ & _ & c & Hc & _). exists r, done_.
    rewrite (receive_completed gr malloc_ok ctb nd eth_r _ lh hs _ _ _ Hok partial_eq pad i r c Hi' Hc).
    split; [done|]. split; [by right|]. left. split; [done|lia].
Qed.

Lemma progress_copies (mk : Z -> list Z) is_ : (forall i, chunk_copy i (mk i)) -> forall done_ r,
  progress r0 done_ r -> (forall i, i ∈ is_ -> 0 <= i < n) ->
  exists r' done', receive_all gr malloc_ok ctb nd eth_r (destination_port ports) pad (map mk is_) r = Ok r'
    /\ progress r0 done' r' /\ (length done_ <= length done')%nat
    /\ (Z.of_nat (length done_) < n -> (exists i, i ∈ is_ /\ i ∉ done_) -> (length done_ < length done')%nat).
Proof.
  intros Hmk. induction is_ as [|i is_ IH]; intros done_ r Hp Hin; cbn [map receive_all].
  { exists r, done_. split; [done|]. split; [done|]. split; [lia|]. intros _ (i & Hi & _). by apply not_elem_of_nil in Hi. }
  destruct (progress_copy i (mk i) done_ r Hp (Hmk i) (Hin i ltac:(left))) as (r1 & done1 & -> & Hp1 & Hd1).
  rewrite bind_Ok. destruct (IH done1 r1 Hp1) as (r2 & done2 & -> & Hp2 & Hle2 & Hlt2); [intros j Hj; apply Hin; by right|].
  exists r2, done2. split; [done|]. split; [done|]. destruct Hd1 as [[-> Hi]| ->]; cbn [length] in Hle2; (split; [lia|]); intros Hlt; [|lia].
  intros (j & [->|Hj]%elem_of_cons & Hnj); [by specialize (Hi Hlt)|]. apply Hlt2; [done|]. by exists j.
Qed.

Lemma marked_state done_ m : state' done_ m -> state' done_ (mark_resending m).
Proof. intros []. by constructor. Qed.

(** Answering a request keeps the message. *)
Lemma progress_marked f done_ r lm m :
  progress r0 done_ r -> al_get key (pending_messages r) = Some lm -> pending_store r !! lm = Some m ->
  progress r0 done_ (send_internal f (set_pending (pending_messages r) (<[lm := mark_resending m]> (pending_store r)) r)).
Proof.
  intros [[Hlt (Hrest & lm' & m' & H1 & H2 & H3 & Htab)]|[Heq (lm' & m' & d & node & c & Hc & H2 & Hd & Hpd & Hq & Hb & H1 & Htab & done' & H3 & H4)]] Hlm Hm.
  - left. split; [done|]. split; [exact Hrest|]. change (Wire.source_port (port_info info)) with (Wire.source_port ports) in H1.
    rewrite Hlm in H1. injection H1 as <-. rewrite Hm in H2. injection H2 as <-. exists lm, (mark_resending m). split; [done|].
    split; [apply lookup_insert_eq|]. split; [by apply marked_state|exact Htab].
  - right. split; [done|]. change (Wire.source_port (port_info info)) with (Wire.source_port ports) in H1.
    rewrite Hlm in H1. injection H1 as <-. rewrite Hm in H2. injection H2 as <-. exists lm, (mark_resending m), d, node, c. split; [done|].
    split; [apply lookup_insert_eq|]. split; [done|]. split; [done|]. split; [done|]. split; [done|]. split; [done|]. split; [exact Htab|].
    exists done'. split; [by apply marked_state|done].
Qed.

Hypothesis Hgr : globals_ok gr.
Hypothesis Hstride : 4 <= path_stride gs gr.

Lemma recovery_exchange_ok : exchange_ok gs gr nd eth_s eth_r ports dst id.
Proof.
  destruct Ht. constructor; try done. unfold path_mtu in to_mtu. rewrite Z.min_comm. lia.
Qed.

(** The chunks reported for a message: missing ones, and at least one while any is. *)
Lemma reported_missing done_ m :
  state' done_ m ->
  let lost := lost_reported gr (construct_packet_info gs 0x00 (packet_type_code SEND_LOST_PACKETS_REQUEST) 1 0 ports) m in
  (forall i, i ∈ lost -> 0 <= i < n /\ i ∉ done_) /\ (Z.of_nat (length done_) < n -> lost <> []).
Proof.
  intros Hst lost. pose proof (ms_bits _ _ _ _ _ _ Hst) as Hbits. pose proof (ms_amount _ _ _ _ _ _ Hst) as Ham. rewrite amount_eq in Ham, Hbits.
  unfold lost, lost_reported. rewrite Ham. split.
  - intros i Hi. apply elem_of_take in Hi as (k & Hk & _). apply list_elem_of_lookup_2 in Hk. unfold missing_chunks in Hk.
    apply list_elem_of_filter in Hk as [Hb Hi]. apply elem_of_seqZ in Hi. split; [lia|]. rewrite Hbits in Hb by lia.
    by apply bool_decide_eq_false in Hb.
  - intros Hlt E. assert (missing_chunks (chunks_received m) n = []) as Hnil.
    { destruct (missing_chunks (chunks_received m) n) as [|x l]; [done|]. exfalso. revert E.
      assert (1 <= (lost_reply_mtu gr (construct_packet_info gs 0 (packet_type_code SEND_LOST_PACKETS_REQUEST) 1 0 ports) - PACKET_HEADER_SIZE) / 4) as Hcap.
      { apply Z.div_le_lower_bound; [lia|]. unfold lost_reply_mtu. cbn [construct_packet_info pi_maximum_transmission_unit].
        unfold path_stride, path_mtu in Hstride. lia. }
      destruct (Z.to_nat _) eqn:En; [lia|]. done. }
    rewrite missing_chunks_nil in Hnil.
    assert (length (seqZ 0 n) <= length done_)%nat as Hle.
    { apply submseteq_length. apply NoDup_submseteq; [apply NoDup_seqZ|]. intros i Hi. apply elem_of_seqZ in Hi.
      specialize (Hnil i ltac:(lia)). rewrite Hbits in Hnil by lia. by apply bool_decide_eq_true in Hnil. }
    rewrite length_seqZ in Hle. lia.
Qed.

(** The endpoint of the sender, waiting in [handle_lost_packets]. *)
Definition waiting (ls : loc) (ra : Receiver) : Prop :=
  exists q, al_get id (packets_sending (sender ra)) = Some ls /\ sending_store (sender ra) !! ls = Some q
    /\ forall block, lost_chunks q = Some block -> Z.of_nat (length block) = maximum_transmission_unit gs - PACKET_HEADER_SIZE.

(** The network delivers nothing that was not sent; in a lucky round it delivers something. *)
Definition honest (a : NetRound) : Prop := forall lost, arriving a lost ⊆ lost.
Definition lucky (a : NetRound) : Prop := forall lost, lost <> [] -> arriving a lost <> [].

(** A request is answered from the state it finds, and keeps the progress. *)
Lemma request_progress done_ rb ra ls :
  progress r0 done_ rb -> waiting ls ra ->
  exists dm q f lost block rb1, recv_b request rb = Ok rb1 /\ wire (sender rb1) = wire (sender rb) ++ [f] /\ progress r0 done_ rb1
    /\ (Z.of_nat (length done_) < n -> dm = done_)
    /\ (forall i, i ∈ lost -> 0 <= i < n /\ i ∉ dm) /\ (Z.of_nat (length done_) < n -> lost <> [])
    /\ al_get id (packets_sending (sender ra)) = Some ls
    /\ recv_a f ra = Ok (set_sender (set_obj ls (action_lost block lost q) (sender ra)) ra)
    /\ Z.of_nat (length (index_bytes lost ++ block)) = maximum_transmission_unit gs - PACKET_HEADER_SIZE.
Proof.
  intros Hp (q & Hls & Hq & Hblk). destruct (progress_pending r0 done_ rb Hp) as (lm & m & dm & Hlm & Hm & Hst & Hldm & Hdm).
  destruct (reported_missing dm m Hst) as [Hmiss Hsome]. pose proof chunk_numbers as Hn. pose proof (ms_amount _ _ _ _ _ _ Hst) as Ham.
  pose proof (ms_bitmap _ _ _ _ _ _ Hst) as Hbm. rewrite amount_eq in Ham, Hbm.
  destruct (exchange_lost gs gr malloc_ok nd eth_s eth_r ports dst id (pad request) recovery_exchange_ok ctb cta rb ra lm m ls q)
    as (f & block & Hreq & Hrep & Hlen); try done; [rewrite Ham; lia|rewrite Ham, Hbm; dlia|apply Ht|].
  eexists dm, q, f, _, block, _. split; [exact Hreq|]. split; [done|]. split; [by apply progress_marked|]. split; [done|].
  split; [exact Hmiss|]. split; [intros Hl; apply Hsome; lia|]. split; [done|]. split; [apply Hrep|exact Hlen].
Qed.

Lemma unanswered_progress fs : forall done_ rb ra ls,
  progress r0 done_ rb -> waiting ls ra -> exists rb', all_unanswered fs rb = Ok rb' /\ progress r0 done_ rb'.
Proof.
  induction fs as [|[] fs IH]; intros done_ rb ra ls Hp Hw; cbn [all_unanswered unanswered]; [by exists rb|rewrite bind_Ok; by eapply IH|].
  destruct (request_progress done_ rb ra ls Hp Hw) as (dm & q & f & lost & block & rb1 & -> & _ & Hp1 & _). rewrite bind_Ok. by eapply IH.
Qed.

Lemma round_progress a ls done_ rb ra :
  honest a -> progress r0 done_ rb -> waiting ls ra ->
  exists lost block rb' ra' done', round a rb ra = Ok (polls (failures a) (delay a), lost, block, rb', ra')
    /\ (forall i, i ∈ lost -> 0 <= i < n) /\ progress r0 done' rb' /\ waiting ls ra'
    /\ (lucky a -> Z.of_nat (length done_) < n -> (length done_ < length done')%nat) /\ (length done_ <= length done')%nat.
Proof.
  intros Hsub Hp Hw. destruct (unanswered_progress (failures a) done_ rb ra ls Hp Hw) as (rb0 & Hun & Hp0).
  destruct (request_progress done_ rb0 ra ls Hp0 Hw) as (dm & q & f & lost & block & rb1 & Hreq & Hwire & Hp1 & Hdm & Hmiss & Hsome & Hls & Hrep & Hlen).
  pose proof chunk_numbers as Hn.
  assert (read_indexes (length lost) (index_bytes lost ++ block) = lost) as Hread.
  { apply read_index_bytes. intros i Hi. destruct (Hmiss i Hi). unfold in_word. lia. }
  destruct (progress_copies resent (arriving a lost) resent_copy done_ rb1 Hp1) as (rb2 & done2 & Hall & Hp2 & Hle & Hlt).
  { intros i Hi. apply Hmiss. by apply (Hsub lost). }
  eexists lost, block, rb2, _, done2. split.
  - unfold round. rewrite Hun, bind_Ok, Hreq, bind_Ok, Hwire.
    rewrite last_snoc. cbn [of_option]. rewrite bind_Ok, Hrep, bind_Ok. cbn [set_sender sender set_obj set_sending packets_sending sending_store].
    rewrite Hls. cbn [of_option]. rewrite bind_Ok. unfold store_get. rewrite lookup_insert_eq. cbn [of_option]. rewrite bind_Ok.
    cbn [action_lost updated lost_chunks lost_chunks_size default from_option]. cbv zeta. rewrite Nat2Z.id.
    change (Datatypes.id (index_bytes lost ++ block)) with (index_bytes lost ++ block). rewrite Hread, Hall, bind_Ok.
    rewrite <- length_index_bytes, drop_app_length. reflexivity.
  - split; [intros i Hi; apply Hmiss; done|]. split; [done|]. split.
    + eexists. cbn. split; [exact Hls|]. split; [apply lookup_insert_eq|]. cbn. by intros ? [= <-].
    + split; [|done]. intros Hne Hl. apply Hlt; [done|]. destruct (arriving a lost) as [|i l] eqn:Ea.
      { exfalso. by apply (Hne lost); [apply Hsome|]. }
      exists i. split; [left|]. rewrite <- (Hdm Hl). apply Hmiss. apply (Hsub lost). rewrite Ea. left.
Qed.

Lemma progress_bound done_ r : progress r0 done_ r -> Z.of_nat (length done_) <= n.
Proof. intros [[H _]|[H _]]; lia. Qed.

(** [good] are the lucky rounds among those of [net]. *)
Lemma rounds_progress good net : good `sublist_of` net -> (forall a, a ∈ good -> lucky a) -> (forall a, a ∈ net -> honest a) ->
  forall ls done_ rb ra, progress r0 done_ rb -> waiting ls ra ->
  exists rounds rb' ra' done', rounds_run net rb ra = Ok (rounds, rb', ra')
    /\ (forall k is_ block i, (k, is_, block) ∈ rounds -> i ∈ is_ -> 0 <= i < n) /\ progress r0 done' rb' /\ waiting ls ra'
    /\ map (fun x => x.1.1) rounds = map (fun a => polls (failures a) (delay a)) net
    /\ Z.min n (Z.of_nat (length done_ + length good)) <= Z.of_nat (length done').
Proof.
  induction 1 as [|a good net Hs IH|a good net Hs IH]; intros Hg Hh ls done_ rb ra Hp Hw; cbn [rounds_run].
  - exists [], rb, ra, done_. split; [done|]. split; [|split; [done|split; [done|split; [done|cbn; lia]]]].
    intros k is_ block i Hk. by apply not_elem_of_nil in Hk.
  - destruct (round_progress a ls done_ rb ra (Hh a ltac:(left)) Hp Hw) as (lost & block & rb1 & ra1 & done1 & -> & Hr & Hp1 & Hw1 & Hlt & Hle).
    rewrite bind_Ok. destruct (IH ltac:(intros x Hx; apply Hg; by right) ltac:(intros x Hx; apply Hh; by right) ls done1 rb1 ra1 Hp1 Hw1)
      as (rounds & rb2 & ra2 & done2 & -> & Hr2 & Hp2 & Hw2 & Hk2 & Hm).
    rewrite bind_Ok. eexists _, rb2, ra2, done2. split; [reflexivity|]. split; [|split; [done|split; [done|split; [cbn; by f_equal|]]]].
    + intros k is_ b i [[= -> -> ->]|Hk]%elem_of_cons Hi; [by apply Hr|by eapply Hr2].
    + specialize (Hlt (Hg a ltac:(left))). cbn [length]. destruct (decide (Z.of_nat (length done_) < n)); [specialize (Hlt ltac:(lia))|]; lia.
  - destruct (round_progress a ls done_ rb ra (Hh a ltac:(left)) Hp Hw) as (lost & block & rb1 & ra1 & done1 & -> & Hr & Hp1 & Hw1 & _ & Hle).
    rewrite bind_Ok. destruct (IH Hg ltac:(intros x Hx; apply Hh; by right) ls done1 rb1 ra1 Hp1 Hw1)
      as (rounds & rb2 & ra2 & done2 & -> & Hr2 & Hp2 & Hw2 & Hk2 & Hm).
    rewrite bind_Ok. eexists _, rb2, ra2, done2. split; [reflexivity|]. split; [|split; [done|split; [done|split; [cbn; by f_equal|lia]]]].
    intros k is_ b i [[= -> -> ->]|Hk]%elem_of_cons Hi; [by apply Hr|by eapply Hr2].
Qed.

(** ** The end of the exchange *)

(** Chunk 0 opens the message. *)
Lemma progress_first :
  al_get key (pending_messages r0) = None ->
  exists r', recv_b (message_frame gs gr nd eth_s ports dst id ty data 0) r0 = Ok r' /\ progress r0 [0] r'.
Proof.
  intros Hpend. rewrite message_frame_eq.
  destruct (receive_first gr malloc_ok ctb nd eth_r _ _ _ _ _ _ sent_ok partial_eq pad r0 Hfresh Hpend)
    as (r' & lm & m & Hr & Hrest & H1 & H2 & H3 & H4).
  exists r'. split; [exact Hr|]. left. pose proof chunk_numbers. split; [cbn [length]; lia|]. split; [exact Hrest|]. by exists lm, m.
Qed.

(** The callback thread takes the message out of the table, whatever the application
    does with it later. *)
Lemma callback_takes_message r :
  al_get key (pending_messages r0) = None -> delivered' r0 [] r ->
  exists r', execute_packet_callback nd (Some (fun _ r => Ok r)) 2 false r = Ok r'
    /\ pending_messages r' = pending_messages r0 /\ packets_completed r' = packets_completed r.
Proof.
  intros Hpend (lm & m & d & node & c & Hc & Hm & _ & _ & Hq & _ & Hlm & Htab & done' & Hst & _).
  pose proof (wait_refines _ _ _ Hq) as Hw. cbn [app] in Hw. destruct Hw as (q' & next & Hw & Hn & Hq' & _).
  cbn [execute_packet_callback]. unfold wait_for_next_packet_callback. rewrite Hw, bind_Ok, (proj2 (store_get_ok _ _ _) Hn), bind_Ok.
  unfold execute_callback. cbn [node_content cq_packet_data cq_pending_message]. unfold remove_pending_message_from_hashmap.
  cbn [set_callbacks pending_store pending_messages]. rewrite (proj2 (store_get_ok _ _ _) Hm), !bind_Ok.
  cbn [set_pending set_callbacks callback_nodes packet_callback_queue]. rewrite (store_free_ok _ _ _ Hn), bind_Ok.
  assert (wait_for_next_packet q' (delete node (callback_nodes r)) = Ok (None, q')) as ->.
  { unfold wait_for_next_packet. destruct Hq' as [Hf _]. cbn in Hf. by rewrite Hf. }
  rewrite bind_Ok. eexists. split; [reflexivity|]. cbn. split; [|done].
  rewrite (ms_key _ _ _ _ _ _ Hst), Htab. by apply al_remove_insert.
Qed.
End steps.

(** After the end of the exchange: further requests are answered, and nothing changes. *)
Lemma unanswered_completed fs c :
  exchange_ok gs gr nd eth_s eth_r ports dst id -> forall rb ra ls q,
  al_get key (pending_messages rb) = None -> al_get key (packets_completed rb) = Some c ->
  al_get id (packets_sending (sender ra)) = Some ls -> sending_store (sender ra) !! ls = Some q ->
  exists rb', all_unanswered fs rb = Ok rb' /\ pending_messages rb' = pending_messages rb /\ packets_completed rb' = packets_completed rb.
Proof.
  intros Hex. induction fs as [|[] fs IH]; intros rb ra ls q Hp Hc Hls Hq; cbn [all_unanswered unanswered]; [by exists rb|rewrite bind_Ok; by eapply IH|].
  destruct (exchange_completed gs gr malloc_ok nd eth_s eth_r ports dst id (pad request) Hex ctb cta rb ra c ls q Hp Hc Hls Hq) as (f & -> & _).
  rewrite bind_Ok. by eapply (IH (send_internal f rb)).
Qed.
End recovery.

(** C2 Transfer over a network that loses frames.  The message is longer than the path's
    transmission unit and its length is not a multiple of the data per frame, so that the
    last chunk is not full (a full one is not copied: [full_last_chunk_not_copied]).  The
    sender transmits all chunks once, of which chunk 0 arrives, before the others
    ([first_arrival_misplaced]), and any of the others in any order; then the sender and the
    receiver go through the rounds of the exchange about lost chunks.  In each round the
    network loses any number of requests or of their answers before the answer to one
    arrives (within 255 polls of that request), and it loses, repeats and reorders the chunks
    that are sent again as it likes.  If in at least as many rounds as the message has
    further chunks it delivers at least one of them, the rounds run without error, with as
    many repeated requests as failed, and the receiver hands over exactly the data sent.
    Once its callback thread has taken the message, the next request whose answer arrives,
    after any number of failures, is confirmed to the sender; and [swiftnet_send_packet], run
    against exactly these answers, returns with the packet buffer and the table of packets
    being sent as before, having sent the chunks, the requests and the resent chunks. *)
Theorem lossy_transfer_completes gs gr malloc_ok cta ctb nd eth_s eth_r ports dst rnd rid packet cap data pad first good net fails wait st r ra :
  transfer_ok gs gr malloc_ok nd eth_s eth_r ports dst (packet_type_code MESSAGE) data -> globals_ok gr ->
  path_mtu gs gr + prepend_size nd < 2 ^ 16 -> path_mtu gs gr < Z.of_nat (length data) ->
  Z.of_nat (length data) mod path_stride gs gr <> 0 -> 4 <= path_stride gs gr ->
  buffer_holds cap data packet ->
  let id := u16 rnd in
  let n := message_chunks gs gr data in
  let sent := message_frame gs gr nd eth_s ports dst id (packet_type_code MESSAGE) data in
  let info := message_info gs gr ports (packet_type_code MESSAGE) data in
  let request := lost_request_frame gs nd eth_s dst id ports in
  al_get id (packets_sending st) = None ->
  (forall i, i ∈ first -> 0 <= i < n) ->
  good `sublist_of` net -> (forall a, a ∈ good -> lucky a) -> (forall a, a ∈ net -> honest a) -> n <= Z.of_nat (length good) + 1 ->
  (forall a, a ∈ net -> (delay a < 255)%nat) -> (wait < 255)%nat ->
  let key := (Wire.source_port ports, htons id) in
  al_get key (packets_completed r) = None -> al_get key (pending_messages r) = None ->
  queue_rep (packet_callback_queue r) (callback_nodes r) [] ->
  let ls := store_next (sending_store st) in
  let waiting_st := set_sending (al_insert id ls (packets_sending st))
                      (<[ls := mk_packet_sending None NO_UPDATE 50 0 id false]> (sending_store st)) st in
  exists r1 rounds rb ra' r2 r3 f ra2 q,
    receive_all gr malloc_ok ctb nd eth_r (destination_port ports) pad (map sent (0 :: first)) r = Ok r1
    /\ rounds_run gs gr malloc_ok cta ctb nd eth_s eth_r ports dst id (packet_type_code MESSAGE) data pad net r1 (set_sender waiting_st ra)
       = Ok (rounds, rb, ra')
    /\ map (fun x => (x.1.1 / 255)%nat) rounds = map (fun a => length (failures a)) net
    /\ delivered gr ctb nd eth_r (htons id) info data r [] rb
    /\ execute_packet_callback nd (Some (fun _ r => Ok r)) 2 false rb = Ok r2
    /\ all_unanswered gs gr malloc_ok ctb nd eth_s eth_r ports dst id pad fails r2 = Ok r3
    /\ receive gr malloc_ok ctb nd eth_r (destination_port ports) (pad request) request r3 = Ok (send_internal f r3)
    /\ receive gs malloc_ok cta nd eth_s (Wire.source_port ports) (pad f) f ra' = Ok ra2
    /\ sending_store (sender ra2) !! ls = Some q /\ updated q = SUCCESSFULLY_RECEIVED
    /\ (polls fails wait / 255 = length fails)%nat
    /\ swiftnet_send_packet gs nd eth_s (maximum_transmission_unit gr) ports packet (Z.of_nat (length data)) dst None false rid rnd
         (env_script rounds (polls fails wait)) st
       = Ok (packet, send_frames (map sent (seqZ 0 n)
               ++ exchange_wire nd eth_s (path_mtu gs gr) (construct_ip_header gs dst (path_mtu gs gr) id) info data request rounds
                    (polls fails wait)) st).
Proof.
  intros Ht Hgr Hmtu Hlong Hpart Hstride Hb id n sent info request Hget Hin Hsub Hlucky Hhonest Hgood Hdelay Hwait key Hc Hp Hq ls waiting_st.
  assert (in_word 16 id) as Hid by apply u16_spec.
  destruct (progress_first gs gr malloc_ok ctb nd eth_s eth_r ports dst id (packet_type_code MESSAGE) data pad Ht Hpart Hid r Hc Hp) as (r0 & Hr0 & Hp0).
  destruct (progress_copies gs gr malloc_ok ctb nd eth_r ports id (packet_type_code MESSAGE) data pad Hpart r Hc Hq sent first
    (sent_copy gs gr malloc_ok nd eth_s eth_r ports dst id (packet_type_code MESSAGE) data Ht Hid) [0] r0 Hp0 Hin) as (r1 & done1 & Hr1 & Hp1 & Hle1 & _).
  destruct (rounds_progress gs gr malloc_ok cta ctb nd eth_s eth_r ports dst id (packet_type_code MESSAGE) data pad Ht Hpart Hid r Hc Hq Hgr Hstride
    good net Hsub Hlucky Hhonest ls done1 r1 (set_sender waiting_st ra) Hp1)
    as (rounds & rb & ra' & done2 & Hrun & Hrounds & Hp2 & (q & Hls & Hsq & _) & Hpolls & Hall).
  { exists (mk_packet_sending None NO_UPDATE 50 0 id false). cbn [set_sender sender waiting_st set_sending packets_sending sending_store].
    rewrite al_get_insert, Hget, decide_True by done. split; [done|]. split; [apply lookup_insert_eq|done]. }
  assert (delivered gr ctb nd eth_r (htons id) info data r [] rb) as Hdel.
  { cbn [length] in Hle1. destruct Hp2 as [[Hlt _]|[_ Hd]]; [|exact Hd]. fold n in Hlt, Hall. lia. }
  destruct (callback_takes_message gs gr ctb nd eth_r ports id (packet_type_code MESSAGE) data r rb Hp Hdel) as (r2 & Hcb & Hpm & Hpc).
  pose proof Hdel as (_ & _ & _ & _ & c & Hcomp & _).
  pose proof (recovery_exchange_ok gs gr malloc_ok nd eth_s eth_r ports dst id (packet_type_code MESSAGE) data Ht Hid Hgr) as Hex.
  destruct (unanswered_completed gs gr malloc_ok cta ctb nd eth_s eth_r ports dst id pad fails c Hex r2 ra' ls q) as (r3 & Hun & Hpm3 & Hpc3);
    [by rewrite Hpm|by rewrite Hpc|done|done|].
  destruct (exchange_completed gs gr malloc_ok nd eth_s eth_r ports dst id (pad request) Hex ctb cta r3 ra' c ls q) as (f & Hreq & Hrep);
    [by rewrite Hpm3, Hpm|by rewrite Hpc3, Hpc|done|done|].
  exists r1, rounds, rb, ra', r2, r3, f. eexists _, (action_done q). split; [cbn [map receive_all]; fold sent in Hr0; rewrite Hr0, bind_Ok; exact Hr1|].
  split; [exact Hrun|]. split; [by eapply repeated_requests|].
  split; [exact Hdel|]. split; [exact Hcb|]. split; [exact Hun|]. split; [exact Hreq|]. split; [apply Hrep|].
  split; [apply lookup_insert_eq|]. split; [done|]. split; [by apply polls_requests|].
  pose proof Ht as []. assert (PACKET_HEADER_SIZE = 44) as H44 by done.
  unfold path_mtu in Hmtu, Hlong, to_mtu.
  exact (fragmented_send gs nd eth_s (maximum_transmission_unit gr) ports packet cap data dst false rid rnd rounds (polls fails wait) st to_network to_eth_s
    ltac:(lia) Hmtu Hb ltac:(lia) Hget Hrounds).
Qed.

(** The network of the example: a round in which every chunk is lost, then rounds that
    deliver one chunk, all of them in reverse, and all of them; in some a request or an
    answer is lost first. *)
Definition lucky_rounds : list NetRound :=
  [mk_net_round [ANSWER_LOST; REQUEST_LOST] 3 (take 1); mk_net_round [] 0 reverse; mk_net_round [ANSWER_LOST] 0 id;
   mk_net_round [] 254 id; mk_net_round [] 0 id; mk_net_round [] 0 id].
Definition sample_net : list NetRound := mk_net_round [REQUEST_LOST] 0 (fun _ => []) :: lucky_rounds.

Lemma lucky_rounds_ok a : a ∈ lucky_rounds -> lucky a /\ honest a.
Proof.
  unfold lucky_rounds. rewrite !elem_of_cons, elem_of_nil. intros [->|[->|[->|[->|[->|[->|[]]]]]]]; (split; [intros lost Hl|intros lost x]); cbn; try done.
  - by destruct lost.
  - intros Hx. apply elem_of_take in Hx as (k & Hk & _). by eapply list_elem_of_lookup_2.
  - intros E. apply Hl. by apply (f_equal reverse) in E; rewrite reverse_involutive in E.
  - by rewrite elem_of_reverse.
Qed.

Definition sample_sender : SendState :=
  mk_send_state [(7, 1%positive)] {[1%positive := mk_packet_sending None NO_UPDATE 50 0 7 false]} [] ∅ [].

(** 65 bytes in seven chunks; chunks 0, 5 and 3 arrive at first. *)
Lemma lossy_transfer_completes_witness :
  exists packet r1 rounds rb ra' frames,
    append_all true [seqZ 0 65] (create_packet_buffer g54 true 65) = Ok packet
    /\ receive_all g54 (fun _ => true) CONNECTION_TYPE_SERVER nd_ethernet eth0 8080 (fun _ => [])
         (map (message_frame g54 g54 nd_ethernet eth0 (mk_port_info 8080 4000) 0x0201A8C0 7 (packet_type_code MESSAGE) (seqZ 0 65)) [0; 5; 3; 5]) r_empty = Ok r1
    /\ rounds_run g54 g54 (fun _ => true) CONNECTION_TYPE_CLIENT CONNECTION_TYPE_SERVER nd_ethernet eth0 eth0 (mk_port_info 8080 4000) 0x0201A8C0 7
         (packet_type_code MESSAGE) (seqZ 0 65) (fun _ => []) sample_net r1 (set_sender sample_sender r_empty) = Ok (rounds, rb, ra')
    /\ delivered g54 CONNECTION_TYPE_SERVER nd_ethernet eth0 (htons 7)
         (message_info g54 g54 (mk_port_info 8080 4000) (packet_type_code MESSAGE) (seqZ 0 65)) (seqZ 0 65) r_empty [] rb
    /\ swiftnet_send_packet g54 nd_ethernet eth0 54 (mk_port_info 8080 4000) packet 65 0x0201A8C0 None false 0 7 (env_script rounds (polls [REQUEST_LOST; ANSWER_LOST] 9)) st0
       = Ok (packet, send_frames frames st0)
    /\ map (fun x => (x.1.1 / 255)%nat) rounds = [1; 2; 0; 1; 0; 0; 0]%nat.
Proof.
  destruct (append_all_holds true 65 [seqZ 0 65] [] (create_packet_buffer g54 true 65)) as (packet & Hp & Hb).
  { apply create_holds. lia. }
  { vm_compute. discriminate. }
  { intros x Hx. apply list_elem_of_singleton in Hx. by subst. }
  destruct (lossy_transfer_completes g54 g54 (fun _ => true) CONNECTION_TYPE_CLIENT CONNECTION_TYPE_SERVER nd_ethernet eth0 eth0 (mk_port_info 8080 4000)
    0x0201A8C0 7 0 packet 65 (seqZ 0 65) (fun _ => []) [5; 3; 5] lucky_rounds sample_net
    [REQUEST_LOST; ANSWER_LOST] 9 st0 r_empty r_empty transfer_65_ok)
    as (r1 & rounds & rb & ra' & r2 & r3 & f & ra2 & q & H1 & H2 & H5 & H3 & _ & _ & _ & _ & _ & _ & _ & H4).
  - apply transfer_54_ok.
  - vm_compute. reflexivity.
  - vm_compute. reflexivity.
  - vm_compute. discriminate.
  - vm_compute. discriminate.
  - exact Hb.
  - reflexivity.
  - change (message_chunks g54 g54 (seqZ 0 65)) with 7. intros i Hi. rewrite !elem_of_cons, elem_of_nil in Hi. lia.
  - apply sublist_cons. reflexivity.
  - intros a Ha. by apply lucky_rounds_ok.
  - intros a [->|Ha]%elem_of_cons; [intros lost x Hx; by apply not_elem_of_nil in Hx|by apply lucky_rounds_ok].
  - vm_compute. discriminate.
  - unfold sample_net, lucky_rounds. intros a Ha. rewrite !elem_of_cons, elem_of_nil in Ha.
    destruct Ha as [->|[->|[->|[->|[->|[->|[->|[]]]]]]]]; cbn; lia.
  - lia.
  - reflexivity.
  - reflexivity.
  - split; [reflexivity|]. split; [reflexivity|]. apply NoDup_nil_2.
  - exists packet, r1, rounds, rb, ra'. eexists. split; [exact Hp|]. split; [exact H1|]. split; [exact H2|]. split; [exact H3|]. split; [exact H4|exact H5].
Defined.
