(* ===== verification/Typing.v ===== *)
(** * Well-typed endpoints

    The model keeps machine integers as [Z] and memory as lists of [Z].  This file shows
    that the processing thread respects the widths of the structures in
    src/src/swift_net.h and src/src/internal/internal.h whatever bytes arrive: blocks hold
    bytes, fields stay in their words, everything sent consists of bytes, and the tables
    refer to live records that carry their key. *)

From S2P Require Import Prelude Store Queue Crc32 Wire Frames Chunks PacketBuffer SendPacket Receiver Listener ProcessPackets.
From S2P Require Import Reassembly Protocol Delivery.

(** ** Types of the structures *)
Class Typed (X : Type) := typed : X -> Prop.

#[export] Instance typed_bytes : Typed (list Z) := is_bytes.
#[export] Instance typed_store {X} `{Typed X} : Typed (Store X) := map_Forall (fun _ => typed).

#[export] Instance typed_pending : Typed SwiftNetPendingMessage := fun m =>
  packet_info_ok (pm_packet_info m) /\ is_bytes (chunks_received m) /\ is_bytes (pm_data m)
  /\ in_word 32 (chunks_received_length m) /\ in_word 32 (chunks_received_number m)
  /\ in_word 32 (last_index_checked m) /\ in_word 32 (last_chunks_received_number m)
  /\ in_word 16 (pm_source_port m) /\ in_word 16 (pm_packet_id m).

#[export] Instance typed_completed : Typed SwiftNetPacketCompleted := fun c => in_word 16 (completed_packet_id c).

#[export] Instance typed_addr_data : Typed SwiftNetClientAddrData := fun a =>
  in_word 16 (ca_maximum_transmission_unit a) /\ in_word 32 (sender_address a) /\ in_word 16 (ca_port a)
  /\ is_bytes (ca_mac_address a) /\ length (ca_mac_address a) = 6%nat.

#[export] Instance typed_packet_data : Typed PacketData := fun d =>
  port_info_ok (md_port_info d) /\ in_word 32 (md_data_length d) /\ in_word 16 (md_packet_id d)
  /\ in_word 32 (current_pointer d) /\ forall a, md_sender d = Some a -> typed a.

#[export] Instance typed_callback : Typed (QueueNode CallbackQueueContent) := fun x => in_word 16 (cq_packet_id (node_content x)).

#[export] Instance typed_sending : Typed SwiftNetPacketSending := fun p =>
  (forall block, lost_chunks p = Some block -> is_bytes block) /\ in_word 32 (current_send_delay p)
  /\ in_word 32 (lost_chunks_size p) /\ in_word 16 (sending_packet_id p).

#[export] Instance typed_request : Typed RequestSent := fun q => in_word 32 (rs_address q) /\ in_word 16 (rs_packet_id q).

(** A table whose keys are distinct and whose entries are live records that carry their
    key. *)
Definition table_ok {K X} (carries : K -> X -> Prop) (t : list (K * loc)) (s : Store X) : Prop :=
  NoDup (al_keys t) /\ forall k l, (k, l) ∈ t -> exists x, s !! l = Some x /\ carries k x.

Definition message_carries (k : message_key) (m : SwiftNetPendingMessage) : Prop := (pm_source_port m, pm_packet_id m) = k.
Definition completed_carries (k : message_key) (c : SwiftNetPacketCompleted) : Prop := completed_packet_id c = k.2.
Definition sending_carries (k : Z) (p : SwiftNetPacketSending) : Prop := sending_packet_id p = k.

Record well_typed (r : Receiver) : Prop := {
  wt_buffers : typed (packet_buffers r);
  wt_pending : typed (pending_store r);
  wt_completed : typed (completed_store r);
  wt_uint16 : map_Forall (fun _ => in_word 16) (uint16_store r);
  wt_callbacks : typed (callback_nodes r);
  wt_packet_data : typed (packet_data_store r);
  wt_sending : typed (sending_store (sender r));
  wt_requests : typed (requests_store (sender r));
  wt_wire : Forall is_bytes (wire (sender r));
  wt_pending_table : table_ok message_carries (pending_messages r) (pending_store r);
  wt_completed_table : table_ok completed_carries (packets_completed r) (completed_store r);
  wt_sending_table : table_ok sending_carries (packets_sending (sender r)) (sending_store (sender r))
}.

(** ** Stores and tables *)
Section stores.
Context {X : Type} `{Typed X}.

Lemma typed_insert l (x : X) s : typed x -> typed s -> typed (<[l := x]> s).
Proof. intros Hx Hs. by apply map_Forall_insert_2. Qed.

Lemma typed_delete l (s : Store X) : typed s -> typed (delete l s).
Proof. apply map_Forall_delete. Qed.

Lemma typed_get l (x : X) s : typed s -> s !! l = Some x -> typed x.
Proof. intros Hs Hl. exact (Hs l x Hl). Qed.

Lemma typed_update l f (s s' : Store X) : store_update l f s = Ok s' -> typed s -> (forall x, typed x -> typed (f x)) -> typed s'.
Proof.
  unfold store_update, store_get. intros Hu Hs Hf. ok_inv. apply typed_insert; [|done]. eapply Hf, typed_get; done.
Qed.
End stores.

Section tables.
Context {K X : Type} `{EqDecision K} (carries : K -> X -> Prop).

Lemma table_update t s l x y :
  table_ok carries t s -> s !! l = Some x -> (forall k, carries k x -> carries k y) -> table_ok carries t (<[l := y]> s).
Proof.
  intros [Hnd Ht] Hl Hc. split; [done|]. intros k l' Hin. destruct (Ht k l' Hin) as (x' & Hx' & Hk).
  destruct (decide (l' = l)) as [->|Hne].
  - rewrite Hl in Hx'. injection Hx' as <-. exists y. rewrite lookup_insert_eq. auto.
  - exists x'. by rewrite lookup_insert_ne.
Qed.

Lemma table_new t s l x k :
  table_ok carries t s -> al_get k t = None -> s !! l = None -> carries k x -> table_ok carries (al_insert k l t) (<[l := x]> s).
Proof.
  intros [Hnd Ht] Hk Hl Hc. split; [by apply al_insert_NoDup|]. intros k' l' Hin. unfold al_insert in Hin.
  apply elem_of_app in Hin as [Hin|Hin].
  - destruct (Ht k' l' Hin) as (x' & Hx' & Hk'). exists x'. rewrite lookup_insert_ne; [done|]. intros ->. by rewrite Hl in Hx'.
  - apply list_elem_of_singleton in Hin as [= -> ->]. exists x. by rewrite lookup_insert_eq.
Qed.

Lemma table_remove t s k : table_ok carries t s -> table_ok carries (al_remove k t) s.
Proof.
  intros [Hnd Ht]. split; [by apply al_remove_NoDup|]. intros k' l Hin. apply Ht. clear -Hin.
  induction t as [|[k2 l2] t IH]; cbn in Hin; [done|]. destruct (decide (k = k2)); [by right|].
  apply elem_of_cons in Hin as [->|Hin]; [left|right; auto].
Qed.
End tables.

(** ** Bytes in memory *)
Lemma mem_read_bytes off n l l' : mem_read off n l = Ok l' -> is_bytes l -> is_bytes l'.
Proof. unfold mem_read. case_bool_decide; [|done]. intros [= <-]. apply is_bytes_slice. Qed.

Lemma mem_read_length off n (l l' : list Z) : mem_read off n l = Ok l' -> Z.of_nat (length l') = n.
Proof. unfold mem_read. case_bool_decide as E; [|done]. intros [= <-]. rewrite length_slice; lia. Qed.

Lemma mem_write_bytes off src dst l : mem_write off src dst = Ok l -> is_bytes src -> is_bytes dst -> is_bytes l.
Proof. unfold mem_write. case_bool_decide; [|done]. intros [= <-]. apply is_bytes_blit. Qed.

Lemma checksum_bytes b off n b' : HANDLE_CHECKSUM b off n = Ok b' -> is_bytes b -> is_bytes b'.
Proof. unfold HANDLE_CHECKSUM. intros H Hb. ok_inv. eapply mem_write_bytes; [done|apply is_bytes_le_bytes|done]. Qed.

Lemma uninitialized_bytes g n : globals_ok g -> is_bytes (uninitialized g n).
Proof.
  intros (_ & _ & _ & _ & Hg). apply Forall_forall. intros x (i & -> & _)%list_elem_of_fmap. apply Hg.
Qed.

Lemma chunk_received_bytes cr i cr' : chunk_received cr i = Ok cr' -> is_bytes cr -> is_bytes cr'.
Proof.
  unfold chunk_received. intros H Hb. ok_inv.
  match goal with E : cr !! _ = Some ?b |- _ => pose proof (Forall_lookup_1 _ _ _ _ Hb E) as Hbyte end.
  apply Forall_insert; [done|]. unfold is_byte in *. pose proof (u8_spec (Z.shiftl 1 (i mod 8))) as Hu.
  split; [apply Z.lor_nonneg; lia|]. change 256 with (2 ^ 8). apply Z.log2_lt_cancel.
  destruct (Z.eq_dec (Z.lor a (u8 (Z.shiftl 1 (i mod 8)))) 0) as [->|Hne]; [by cbn|].
  rewrite Z.log2_lor by lia. rewrite Z.log2_pow2 by lia.
  assert (forall x, 0 <= x < 256 -> Z.log2 x < 8) as Hlog.
  { intros x Hx. destruct (Z.eq_dec x 0) as [->|]; [by cbn|]. apply Z.log2_lt_pow2; lia. }
  apply Z.max_lub_lt; apply Hlog; lia.
Qed.

Lemma word_of_bytes l i (n : nat) : is_bytes l -> in_word (8 * Z.of_nat n) (le_val (slice i n l)).
Proof.
  intros Hl. pose proof (le_val_bound (slice i n l) (is_bytes_slice i n l Hl)) as Hb. unfold in_word.
  assert (2 ^ (8 * Z.of_nat (length (slice i n l))) <= 2 ^ (8 * Z.of_nat n)).
  { apply Z.pow_le_mono_r; [lia|]. unfold slice. rewrite length_take. lia. }
  lia.
Qed.

Lemma read_ip_typed ps b h : read_ip_header ps b = Ok h -> is_bytes b -> ip_ok h.
Proof.
  unfold read_ip_header. intros H Hb. ok_inv. assert (is_bytes a) as Ha by (by eapply mem_read_bytes).
  unfold ip_of_bytes, ip_ok. cbn [ip_hl ip_v ip_tos ip_len ip_id ip_off ip_ttl ip_p ip_sum ip_src ip_dst].
  pose proof (word_of_bytes a 0 1 Ha) as Hw. unfold in_word in Hw at 1. change (2 ^ (8 * Z.of_nat 1)) with 256 in Hw.
  split; [apply Z.mod_pos_bound; lia|]. split; [split; [apply Z.div_pos; lia|apply Z.div_lt_upper_bound; lia]|].
  split; [apply (word_of_bytes a 1 1 Ha)|]. repeat split; first [apply (word_of_bytes _ _ 2 Ha)|apply (word_of_bytes _ _ 1 Ha)|apply (word_of_bytes _ _ 4 Ha)].
Qed.

Lemma read_info_typed ps b p : read_packet_info ps b = Ok p -> is_bytes b -> packet_info_ok p.
Proof.
  unfold read_packet_info. intros H Hb. ok_inv. assert (is_bytes a) as Ha by (by eapply mem_read_bytes).
  repeat split; first [apply (word_of_bytes _ _ 4 Ha)|apply (word_of_bytes _ _ 2 Ha)|apply (word_of_bytes _ _ 1 Ha)].
Qed.

Lemma ip_bytes_typed h : ip_ok h -> is_bytes (ip_bytes h).
Proof.
  intros (Hhl & Hv & Htos & _ & _ & _ & Httl & Hp & _). unfold ip_bytes, in_word in *.
  repeat (apply Forall_app; split); try apply is_bytes_le_bytes; repeat constructor; unfold is_byte; lia.
Qed.

Lemma packet_info_bytes_typed p : packet_info_ok p -> is_bytes (packet_info_bytes p).
Proof.
  intros (_ & _ & _ & _ & _ & _ & Hty). unfold packet_info_bytes, in_word in *.
  repeat (apply Forall_app; split); try apply is_bytes_le_bytes. repeat constructor; unfold is_byte; lia.
Qed.

Lemma ether_header_bytes_typed h : ether_header_ok h -> is_bytes (ether_header_bytes h).
Proof. intros (_ & _ & Hd & Hs & _). unfold ether_header_bytes. repeat (apply Forall_app; split); try done; apply is_bytes_le_bytes. Qed.

Create HintDb typing.
#[export] Hint Resolve is_bytes_le_bytes uninitialized_bytes ip_bytes_typed packet_info_bytes_typed ether_header_bytes_typed : typing.
#[export] Hint Resolve mem_read_bytes mem_write_bytes checksum_bytes typed_insert typed_delete : typing.

Lemma construction_bytes g h p nd eth n b :
  HANDLE_PACKET_CONSTRUCTION g h p nd eth n = Ok b -> globals_ok g -> ip_ok h -> packet_info_ok p -> ether_header_ok eth -> is_bytes b.
Proof.
  unfold HANDLE_PACKET_CONSTRUCTION. intros H Hg Hh Hp He.
  destruct (addr_type nd =? DLT_NULL); [|destruct (addr_type nd =? DLT_EN10MB)]; ok_inv; eauto 10 with typing.
Qed.
#[export] Hint Resolve construction_bytes : typing.

(** ** Replies *)
Section replies.
Context (g : Globals) (nd : SwiftNetNetworkData) (eth : ether_header).
Hypothesis Hg : globals_ok g.
Hypothesis He : ether_header_ok eth.

Lemma build_reply_bytes h p payload f :
  build_reply g nd eth h p payload = Ok f -> ip_ok h -> packet_info_ok p -> is_bytes payload -> is_bytes f.
Proof. unfold build_reply. intros H Hh Hp Hb. ok_inv. eauto 10 with typing. Qed.

Lemma lost_reply_bytes h p m f :
  build_lost_chunks_reply g nd eth h p m = Ok f -> ip_ok h -> packet_info_ok p -> is_bytes f.
Proof.
  unfold build_lost_chunks_reply. intros H Hh Hp. ok_inv. destruct Hh as (_ & _ & _ & _ & _ & _ & _ & _ & _ & Hsrc & _).
  destruct Hp as (_ & _ & _ & _ & [Hd Hs] & _).
  match goal with E : HANDLE_PACKET_CONSTRUCTION _ _ _ _ _ _ = Ok _ |- _ => apply construction_bytes in E; try done end.
  - eauto 10 using is_bytes_index_bytes with typing.
  - by apply construct_ip_header_ok.
  - apply construct_packet_info_ok; try done.
Qed.
End replies.

(** ** Updates of an endpoint *)
Lemma wt_set_buffers s r : well_typed r -> typed s -> well_typed (set_buffers s r).
Proof. intros [] Hs. by constructor. Qed.

Lemma wt_free l r r' : free_packet_buffer l r = Ok r' -> well_typed r -> well_typed r'.
Proof.
  unfold free_packet_buffer, store_free. intros H Hr. ok_inv. apply wt_set_buffers; [done|]. apply typed_delete, Hr.
Qed.

Lemma wt_send f r : well_typed r -> is_bytes f -> well_typed (send_internal f r).
Proof. intros [] Hf. constructor; try done. cbn. apply Forall_app. split; [done|]. by constructor. Qed.

Lemma wt_set_message l m m' r :
  well_typed r -> pending_store r !! l = Some m -> typed m' -> (pm_source_port m', pm_packet_id m') = (pm_source_port m, pm_packet_id m) ->
  well_typed (set_pending (pending_messages r) (<[l := m']> (pending_store r)) r).
Proof.
  intros [] Hl Hm' Hk. constructor; try done; cbn.
  - by apply typed_insert.
  - eapply table_update; [done|exact Hl|]. unfold message_carries. intros k <-. done.
Qed.

Lemma wt_set_sending l p p' r :
  well_typed r -> sending_store (sender r) !! l = Some p -> typed p' -> sending_packet_id p' = sending_packet_id p ->
  well_typed (set_sender (set_sending (packets_sending (sender r)) (<[l := p']> (sending_store (sender r))) (sender r)) r).
Proof.
  intros [] Hl Hp' Hk. constructor; try done; cbn.
  - by apply typed_insert.
  - eapply table_update; [done|exact Hl|]. unfold sending_carries. intros k <-. done.
Qed.

Lemma wt_packet_completed id port r :
  well_typed r -> in_word 16 id -> al_get (port, id) (packets_completed r) = None -> well_typed (packet_completed id port r).
Proof.
  intros [] Hid Hk. unfold packet_completed. cbn [store_alloc]. constructor; try done; cbn.
  - by apply typed_insert.
  - by apply map_Forall_insert_2.
  - apply table_new; [done|done|apply store_next_fresh|done].
Qed.

Lemma wt_packet_new d r : well_typed r -> typed d -> well_typed (set_packet_data (<[store_next (packet_data_store r) := d]> (packet_data_store r)) r).
Proof. intros [] Hd. constructor; try done. by apply typed_insert. Qed.

Lemma wt_pass_callback d pm id r r' : pass_callback_execution d pm id r = Ok r' -> well_typed r -> in_word 16 id -> well_typed r'.
Proof.
  unfold pass_callback_execution, insert_callback_queue_node, insert_queue_node. cbn [store_alloc]. intros H [] Hid. ok_inv. destruct a as [q nodes].
  ok_inv. constructor; try done. cbn. assert (typed (<[store_next (callback_nodes r) := mk_queue_node None (mk_callback_queue_content pm (Some d) id)]> (callback_nodes r)))
    as Hn by (by apply typed_insert).
  destruct (last_node (packet_callback_queue r)); ok_inv; cbn in *; [|done].
  eapply typed_update; [done|exact Hn|]. done.
Qed.

Lemma wt_request_response id pm d port r r' : handle_request_response id pm d port r = Ok r' -> well_typed r -> well_typed r'.
Proof.
  unfold handle_request_response. destruct (al_get id (requests_sent (sender r))); intros H Hr; [|by ok_inv]. ok_inv.
  match goal with E : store_update _ _ _ = Ok ?s |- _ => eapply typed_update in E; [|apply Hr|by intros x []] end.
  destruct Hr. destruct pm; ok_inv; constructor; try done. by apply table_remove.
Qed.

(** ** The handlers *)
Section handlers.
Context (g : Globals) (malloc_ok : Z -> bool) (ct : ConnectionType) (nd : SwiftNetNetworkData) (eth : ether_header) (port : Z).
Hypothesis Hg : globals_ok g.
Hypothesis He : ether_header_ok eth.
Hypothesis Hport : in_word 16 port.
Context (h : ip) (p : SwiftNetPacketInfo).
Hypothesis Hh : ip_ok h.
Hypothesis Hp : packet_info_ok p.

Lemma id_word : in_word 16 (ip_id h).
Proof. apply Hh. Qed.

Lemma source_word : in_word 16 (Wire.source_port (port_info p)).
Proof. apply Hp. Qed.

Lemma reply_ip_typed size id : ip_ok (construct_ip_header g (ip_src h) size id).
Proof. apply construct_ip_header_ok; [done|]. apply Hh. Qed.

Lemma reply_info_typed len ty d s : in_word 32 len -> in_word 8 ty -> in_word 16 d -> in_word 16 s ->
  packet_info_ok (construct_packet_info g len ty 1 0 (mk_port_info d s)).
Proof. intros. by apply construct_packet_info_ok. Qed.

Lemma wt_signal_delay st sp dp r r' :
  signal_delay_change g nd eth st h sp dp r = Ok r' -> in_word 16 sp -> in_word 16 dp -> well_typed r -> well_typed r'.
Proof.
  unfold signal_delay_change. intros H Hs Hd Hr. ok_inv. apply wt_send; [done|]. eapply build_reply_bytes; try done.
  - apply reply_ip_typed.
  - by apply reply_info_typed.
  - by destruct st; repeat constructor.
Qed.

Lemma wt_request_information rv l r r' :
  case_request_information g nd eth port rv h p l r = Ok r' -> well_typed r -> well_typed r'.
Proof.
  unfold case_request_information. intros H Hr. ok_inv. eapply wt_free; [done|]. apply wt_send; [done|]. eapply build_reply_bytes; try done.
  - apply reply_ip_typed.
  - apply reply_info_typed; [done|done|apply source_word|done].
  - unfold server_information_bytes. apply Forall_app. split; [apply is_bytes_le_bytes|by repeat constructor].
Qed.

Lemma wt_lost_request l r r' :
  case_send_lost_packets_request g nd eth h p l r = Ok r' -> well_typed r -> well_typed r'.
Proof.
  unfold case_send_lost_packets_request. intros H Hr. destruct (get_pending_message _ _ _).
  - ok_inv. eapply wt_free; [done|]. apply wt_send; [|by eapply lost_reply_bytes].
    match goal with E : store_get _ _ = Ok _ |- _ => apply store_get_ok in E; pose proof (typed_get _ _ _ (wt_pending _ Hr) E) as Hm end.
    eapply wt_set_message; [done|done|exact Hm|done].
  - destruct (check_packet_already_completed _ _ _); [|by eapply wt_free]. ok_inv. eapply wt_free; [done|]. apply wt_send; [done|].
    eapply build_reply_bytes; try done; [apply reply_ip_typed|apply reply_info_typed; [done|done|apply Hp|apply Hp]|constructor].
Qed.

Lemma wt_lost_response l r r' :
  case_send_lost_packets_response g malloc_ok nd h p l r = Ok r' -> well_typed r -> well_typed r'.
Proof.
  unfold case_send_lost_packets_response. intros H Hr. destruct (get_packet_sending _ _) as [ls|]; [|by eapply wt_free]. ok_inv.
  eapply wt_free; [done|]. repeat match goal with E : store_get _ _ = Ok _ |- _ => apply store_get_ok in E end.
  match goal with E : sending_store _ !! _ = Some _ |- _ => pose proof (typed_get _ _ _ (wt_sending _ Hr) E) as (Hb & Hd & _ & Hi) end.
  match goal with E : packet_buffers _ !! _ = Some _ |- _ => pose proof (typed_get _ _ _ (wt_buffers _ Hr) E) as Hbuf end.
  eapply wt_set_sending; [done|done| |done]. split; cbn; [|split; [done|split; [|done]]].
  - intros block [= <-]. eapply mem_write_bytes; [done|by eapply mem_read_bytes|].
    destruct (lost_chunks a) as [b|]; [ok_inv; by apply Hb|]. destruct (malloc_ok _); [|done]. ok_inv. by apply uninitialized_bytes.
  - destruct Hp as [[? ?] _]. split; [apply Z.div_pos; lia|]. apply Z.div_lt_upper_bound; lia.
Qed.

Lemma wt_received l r r' : case_successfully_received_packet h l r = Ok r' -> well_typed r -> well_typed r'.
Proof.
  unfold case_successfully_received_packet, store_update. intros H Hr. destruct (get_packet_sending _ _) as [ls|]; [|by eapply wt_free]. ok_inv.
  eapply wt_free; [done|]. repeat match goal with E : store_get _ _ = Ok _ |- _ => apply store_get_ok in E end.
  match goal with E : sending_store _ !! _ = Some _ |- _ => pose proof (typed_get _ _ _ (wt_sending _ Hr) E) as Hs end.
  eapply wt_set_sending; [done|done|exact Hs|done].
Qed.

Lemma wt_delay_update l r r' : case_packet_delay_update nd h l r = Ok r' -> well_typed r -> well_typed r'.
Proof.
  unfold case_packet_delay_update, store_update. intros H Hr. ok_inv. eapply wt_free; [done|].
  repeat match goal with E : store_get _ _ = Ok _ |- _ => apply store_get_ok in E end.
  match goal with E : sending_store _ !! _ = Some _ |- _ => pose proof (typed_get _ _ _ (wt_sending _ Hr) E) as (Hb & _ & Hl & Hi) end.
  eapply wt_set_sending; [done|done| |done]. split; [done|]. split; [|done]. cbn. unfold update_delay. destruct (_ =? _); apply u32_spec.
Qed.

Lemma wt_deliver pm data r r' : deliver ct nd eth h p pm data r = Ok r' -> well_typed r -> well_typed r'.
Proof.
  unfold deliver. cbn [store_alloc]. intros H Hr. set (d := mk_packet_data _ _ _ _ _ _ _ _) in H.
  assert (typed d) as Hd.
  { split; [apply Hp|]. split; [apply Hp|]. split; [apply Hh|]. split; [done|]. cbn. intros a Ha. destruct (decide _); [|done].
    injection Ha as <-. split; [apply Hp|]. split; [done|]. split; [apply Hp|]. cbn. destruct He as (_ & Hl & _ & Hs & _).
    destruct (_ =? 0); [|done]. split; [by repeat constructor|done]. }
  pose proof (wt_packet_new d r Hr Hd) as Hn.
  destruct (_ =? packet_type_code RESPONSE); [by eapply wt_request_response|]. eapply wt_pass_callback; [done|done|apply Hh].
Qed.

Lemma wt_no_pending s l r r' :
  case_no_pending g malloc_ok ct nd eth s h p l r = Ok r' -> well_typed r ->
  al_get (Wire.source_port (port_info p), ip_id h) (packets_completed r) = None ->
  al_get (Wire.source_port (port_info p), ip_id h) (pending_messages r) = None -> well_typed r'.
Proof.
  unfold case_no_pending. intros H Hr Hc Hpend. destruct (_ <? _).
  - unfold create_new_pending_message in H. cbn [store_alloc] in H. ok_inv.
    repeat match goal with E : store_get _ _ = Ok _ |- _ => apply store_get_ok in E end. cbn in *.
    rewrite lookup_insert_eq in *. repeat match goal with E : Some _ = Some _ |- _ => injection E as <- end. cbn in *.
    match goal with E : packet_buffers _ !! _ = Some _ |- _ => pose proof (typed_get _ _ _ (wt_buffers _ Hr) E) as Hbuf end.
    eapply wt_free; [done|]. rewrite insert_insert_eq. destruct Hr. constructor; try done; cbn.
    + apply typed_insert; [|done]. split; [done|]. split.
      { eapply chunk_received_bytes; [done|]. destruct (malloc_ok _); [|constructor]. apply Forall_forall. intros x Hx.
        apply list_elem_of_In, repeat_spec in Hx. by subst. }
      split.
      { eapply mem_write_bytes; [done|by eapply mem_read_bytes|]. destruct (malloc_ok (packet_length p)); [by apply uninitialized_bytes|constructor]. }
      split.
      { pose proof (u32_spec (chunk_amount p + 7)). cbn. unfold in_word. split; [apply Z.div_pos; lia|apply Z.div_lt_upper_bound; lia]. }
      do 3 (split; [done|]). split; [apply source_word|apply id_word].
    + apply table_new; [done|done|apply store_next_fresh|done].
  - eapply wt_deliver; [done|]. apply wt_packet_completed; [done|apply id_word|done].
Qed.

(** The record of a message after one more chunk. *)
Lemma chunk_stored_typed m data cr li ln flag :
  typed m -> is_bytes data -> is_bytes cr -> in_word 32 li -> in_word 32 ln ->
  typed (mk_pending_message (pm_packet_info m) cr data (chunks_received_length m) (u32 (chunks_received_number m + 1)) li ln
           (pm_source_port m) (pm_packet_id m) flag).
Proof.
  intros (H1 & _ & _ & H4 & _ & _ & _ & H8 & H9) Hd Hc Hli Hln. pose proof (u32_spec (chunks_received_number m + 1)).
  do 6 (split; [done|]). done.
Qed.

Lemma wt_pending_chunk s lm l r r' :
  case_pending g ct nd eth port s lm h p l r = Ok r' -> well_typed r ->
  al_get (Wire.source_port (port_info p), ip_id h) (packets_completed r) = None -> well_typed r'.
Proof.
  unfold case_pending. intros H Hr Hc. ok_inv. destruct a0; [by eapply wt_free|]. ok_inv.
  repeat match goal with E : store_get _ _ = Ok _ |- _ => apply store_get_ok in E end.
  match goal with E : pending_store _ !! _ = Some _ |- _ => pose proof (typed_get _ _ _ (wt_pending _ Hr) E) as Hm; rename E into Elm end.
  match goal with E : packet_buffers _ !! _ = Some _ |- _ => pose proof (typed_get _ _ _ (wt_buffers _ Hr) E) as Hbuf end.
  pose proof Hm as (_ & Hcr & Hda & _ & Hnum & Hli & Hln & _).
  destruct (_ =? chunk_amount p).
  - ok_inv. eapply wt_free; [done|]. eapply wt_deliver; [done|]. apply wt_packet_completed; [|apply id_word|done].
    eapply wt_set_message; [done|exact Elm| |done]. apply chunk_stored_typed; try done.
    + eapply mem_write_bytes; [done|by eapply mem_read_bytes|done].
    + by eapply chunk_received_bytes.
  - destruct (rate_control p a) as [[li ln] sig] eqn:Erc.
    assert (in_word 32 li /\ in_word 32 ln) as [Hli' Hln'].
    { unfold rate_control in Erc. destruct (_ && _); injection Erc as <- <- _; [|done]. split; [apply Hp|done]. }
    ok_inv. eapply wt_free; [done|].
    match goal with E : (match sig with Some _ => _ | None => _ end) = Ok ?r2 |- _ =>
      assert (well_typed r2 /\ pending_store r2 = pending_store r) as [Hr2 Hps] by
        (destruct sig; [split; [eapply wt_signal_delay; [exact E|done|apply source_word|done]|unfold signal_delay_change in E; by ok_inv]|by ok_inv]) end.
    eapply wt_set_message; [done|by rewrite Hps| |done]. apply chunk_stored_typed; try done.
    + eapply mem_write_bytes; [done|by eapply mem_read_bytes|done].
    + by eapply chunk_received_bytes.
Qed.

Lemma wt_data l r r' : process_data_packet g malloc_ok ct nd eth port h p l r = Ok r' -> well_typed r -> well_typed r'.
Proof.
  unfold process_data_packet, check_packet_already_completed, get_pending_message. intros H Hr.
  destruct (al_get _ (packets_completed r)) eqn:Ec; [by eapply wt_free|].
  destruct (al_get _ (pending_messages r)) eqn:Ep; [by eapply wt_pending_chunk|by eapply wt_no_pending].
Qed.

Lemma wt_dispatch rv l r r' : dispatch_packet g malloc_ok ct nd eth port rv h p l r = Ok r' -> well_typed r -> well_typed r'.
Proof.
  unfold dispatch_packet. destruct (packet_type_of_code _) as [[]|];
    eauto using wt_data, wt_request_information, wt_lost_request, wt_lost_response, wt_received, wt_delay_update.
Qed.
End handlers.

Lemma process_packet_typed g malloc_ok ct nd eth port rv node r r' :
  globals_ok g -> ether_header_ok eth -> in_word 16 port -> well_typed r ->
  process_packet g malloc_ok ct nd eth port rv node r = Ok r' -> well_typed r'.
Proof.
  intros Hg He Hport Hr. unfold process_packet. destruct (pq_data node) as [l|]; intros H; [|by ok_inv]. ok_inv.
  repeat match goal with E : store_get _ _ = Ok _ |- _ => apply store_get_ok in E end.
  match goal with E : packet_buffers _ !! _ = Some _ |- _ => pose proof (typed_get _ _ _ (wt_buffers _ Hr) E) as Hbuf end.
  match goal with E : read_ip_header _ _ = Ok _ |- _ => apply read_ip_typed in E; [|done] end.
  match goal with E : read_packet_info _ _ = Ok _ |- _ => apply read_info_typed in E; [|done] end.
  destruct (negb _); [by eapply wt_free|]. ok_inv.
  assert (is_bytes a3) as Hb.
  { eapply mem_write_bytes; [done|apply is_bytes_le_bytes|]. eapply mem_write_bytes; [done|by repeat constructor|done]. }
  assert (well_typed (set_buffers (<[l := a3]> (packet_buffers r)) r)) as Hr2.
  { apply wt_set_buffers; [done|]. apply typed_insert; [done|]. apply Hr. }
  destruct a4; [by eapply wt_free|]. by eapply wt_dispatch.
Qed.

(** C9 Type safety of the processing thread: on a well-typed endpoint, whatever packets are
    queued and however often the loop runs, everything the thread leaves behind is well
    typed: packet buffers, reassembly blocks, chunk bitmaps and the frames it sent are
    bytes; lengths, counters, delays, ports and ids are in the words of their C types; and
    the tables of messages, completed packets and packets being sent have distinct keys
    and refer to live records that carry their key. *)
Theorem processing_preserves_types g malloc_ok ct nd eth port fuel closing rands q nodes r q' nodes' r' :
  globals_ok g -> ether_header_ok eth -> in_word 16 port -> well_typed r ->
  swiftnet_process_packets g malloc_ok ct nd eth port fuel closing rands q nodes r = Ok (q', nodes', r') -> well_typed r'.
Proof.
  intros Hg He Hport. revert q nodes r. induction fuel as [|fuel IH]; intros q nodes r Hr H; [done|]. cbn [swiftnet_process_packets] in H.
  destruct closing; [by injection H as <- <- <-|]. ok_inv. destruct a as [[n|] q1]; ok_inv; [|done].
  eapply IH; [|done]. by eapply process_packet_typed.
Qed.

(** A queued packet of one frame on an endpoint without any other state. *)
Definition typed_start : Receiver :=
  set_buffers {[1%positive := headers (link_header nd_ethernet eth0) h_short p_short ++ [1; 2; 3; 4; 5]]} r_empty.

Lemma typed_start_ok : well_typed typed_start.
Proof.
  assert (is_bytes (headers (link_header nd_ethernet eth0) h_short p_short ++ [1; 2; 3; 4; 5])) as Hb.
  { apply list.Forall_forall. intros x Hx. unfold is_byte.
    assert (forallb (fun x => (0 <=? x) && (x <? 256)) (headers (link_header nd_ethernet eth0) h_short p_short ++ [1; 2; 3; 4; 5]) = true) as Hall
      by (vm_compute; reflexivity).
    rewrite forallb_forall in Hall. specialize (Hall x (proj1 (list_elem_of_In _ _) Hx)). lia. }
  assert (forall X (P : X -> Prop), map_Forall (fun _ => P) (∅ : Store X)) as Hempty by (intros; apply map_Forall_empty).
  assert (forall K X (c : K -> X -> Prop), table_ok c [] ∅) as Htable.
  { intros. split; [apply NoDup_nil_2|]. intros k l Hk. by apply not_elem_of_nil in Hk. }
  constructor; try apply Hempty; try apply Htable; [|constructor]. by apply typed_insert.
Qed.

Lemma processing_preserves_types_witness :
  exists q nodes r', swiftnet_process_packets g54 (fun _ => true) CONNECTION_TYPE_SERVER nd_ethernet eth0 8080 3 false (fun _ => 0)
      (mk_queue (Some 9%positive) (Some 9%positive))
      {[9%positive := mk_queue_node None (mk_packet_queue_content (Some 1%positive) 63 0)]} typed_start = Ok (q, nodes, r')
    /\ packet_data_store r' !! 1%positive <> None /\ well_typed r'.
Proof.
  destruct (swiftnet_process_packets g54 (fun _ => true) CONNECTION_TYPE_SERVER nd_ethernet eth0 8080 3 false (fun _ => 0)
      (mk_queue (Some 9%positive) (Some 9%positive))
      {[9%positive := mk_queue_node None (mk_packet_queue_content (Some 1%positive) 63 0)]} typed_start) as [[[q nodes] r']| | |] eqn:E;
    [|vm_compute in E; discriminate..].
  exists q, nodes, r'. split; [reflexivity|]. split.
  - vm_compute in E. apply Ok_inj in E. injection E as <- <- <-. discriminate.
  - refine (processing_preserves_types g54 (fun _ => true) CONNECTION_TYPE_SERVER nd_ethernet eth0 8080 _ _ _ _ _ _ _ _ _ _ _ _ typed_start_ok E).
    + apply transfer_54_ok.
    + apply eth0_ok.
    + vm_compute. split; congruence.
Defined.
