(* ===== verification/Requests.v ===== *)
(** * Requests and responses, and the send entry points

    Models src/src/make_request.c, src/src/make_response.c and the public send
    functions at the end of src/src/send_packet.c.  What the processing thread does
    while a request waits for its response is an explicit script; the client and
    server variants share the wait. *)

From S2P Require Import Prelude Store Queue Crc32 Wire Frames Chunks PacketBuffer SendPacket Receiver Listener ProcessPackets.
From S2P Require Import Reassembly Protocol Delivery.

Section requests.
Context (g : Globals).

(** [packet->packet_append_pointer - packet->packet_data_start] *)
Definition appended_length (packet : SwiftNetPacketBuffer) : Z := u32 (packet_append_pointer packet - packet_data_start packet).

Definition construct_request_sent (address : Z) (st : SendState) : loc * SendState :=
  let '(l, s) := store_alloc (mk_request_sent None address 0) (requests_store st) in
  (l, mk_send_state (packets_sending st) (sending_store st) (requests_sent st) s (wire st)).

Definition delete_request_sent (request_sent : loc) (st : SendState) : Outcome SendState :=
  q ← store_get request_sent (requests_store st);
  s ← store_free request_sent (requests_store st);
  Ok (mk_send_state (packets_sending st) (sending_store st) (al_remove (rs_packet_id q) (requests_sent st)) s (wire st)).

(** The wait: one element of the script per round, the time and what the processing
    thread did before; [Diverge] when the script ends first. *)
Fixpoint check_response (start timeout_ms : Z) (request_sent : loc) (script : list (Z * (Receiver -> Outcome Receiver))) (r : Receiver)
    : Outcome (option loc * Receiver) :=
  match script with
  | [] => Diverge
  | (now, step) :: script =>
      r ← step r;
      if u32 (start + timeout_ms) <? u32 now then
        st ← delete_request_sent request_sent (sender r);
        Ok (None, set_sender st r)
      else
        q ← store_get request_sent (requests_store (sender r));
        match rs_packet_data q with
        | Some d =>
            s ← store_free request_sent (requests_store (sender r));
            let st := sender r in
            Ok (Some d, set_sender (mk_send_state (packets_sending st) (sending_store st) (requests_sent st) s (wire st)) r)
        | None => check_response start timeout_ms request_sent script r
        end
  end.

Definition swiftnet_client_make_request (client : SwiftNetClientConnection) (packet : SwiftNetPacketBuffer) (timeout_ms rnd start : Z)
    (env : list (SwiftNetPacketSending -> SwiftNetPacketSending)) (script : list (Z * (Receiver -> Outcome Receiver))) (r : Receiver)
    : Outcome (option loc * SwiftNetPacketBuffer * Receiver) :=
  let '(request_sent, st) := construct_request_sent (cc_server_addr client) (sender r) in
  let packet_length := appended_length packet in
  '(packet, st) ← swiftnet_send_packet g (cc_network_data client) (cc_eth_header client) (cc_maximum_transmission_unit client)
                    (cc_port_info client) packet packet_length (cc_server_addr client) (Some request_sent) false 0 rnd env st;
  '(res, r) ← check_response (u32 start) timeout_ms request_sent script (set_sender st r);
  Ok (res, packet, r).

Definition swiftnet_server_make_request (server : SwiftNetServer) (packet : SwiftNetPacketBuffer) (addr_data : SwiftNetClientAddrData)
    (timeout_ms rnd start : Z) (env : list (SwiftNetPacketSending -> SwiftNetPacketSending))
    (script : list (Z * (Receiver -> Outcome Receiver))) (r : Receiver) : Outcome (option loc * SwiftNetPacketBuffer * Receiver) :=
  let '(request_sent, st) := construct_request_sent (sender_address addr_data) (sender r) in
  let packet_length := appended_length packet in
  let port_info := mk_port_info (ca_port addr_data) (server_port server) in
  '(packet, st) ← swiftnet_send_packet g (sv_network_data server) (sv_eth_header server) (ca_maximum_transmission_unit addr_data)
                    port_info packet packet_length (sender_address addr_data) (Some request_sent) false 0 rnd env st;
  '(res, r) ← check_response (u32 start) timeout_ms request_sent script (set_sender st r);
  Ok (res, packet, r).

Definition swiftnet_client_make_response (client : SwiftNetClientConnection) (packet_data : PacketData) (buffer : SwiftNetPacketBuffer)
    (rnd : Z) (env : list (SwiftNetPacketSending -> SwiftNetPacketSending)) (st : SendState) : Outcome (SwiftNetPacketBuffer * SendState) :=
  swiftnet_send_packet g (cc_network_data client) (cc_eth_header client) (cc_maximum_transmission_unit client) (cc_port_info client) buffer
    (appended_length buffer) (cc_server_addr client) None true (md_packet_id packet_data) rnd env st.

(** The metadata of a server's packet has a sender. *)
Definition swiftnet_server_make_response (server : SwiftNetServer) (packet_data : PacketData) (buffer : SwiftNetPacketBuffer)
    (rnd : Z) (env : list (SwiftNetPacketSending -> SwiftNetPacketSending)) (st : SendState) : Outcome (SwiftNetPacketBuffer * SendState) :=
  sender ← of_option (md_sender packet_data);
  let port_info := mk_port_info (Wire.source_port (md_port_info packet_data)) (server_port server) in
  swiftnet_send_packet g (sv_network_data server) (sv_eth_header server) (ca_maximum_transmission_unit sender) port_info buffer
    (appended_length buffer) (sender_address sender) None true (md_packet_id packet_data) rnd env st.

Definition swiftnet_client_send_packet (client : SwiftNetClientConnection) (packet : SwiftNetPacketBuffer) (bytes_to_send rnd : Z)
    (env : list (SwiftNetPacketSending -> SwiftNetPacketSending)) (st : SendState) : Outcome (SwiftNetPacketBuffer * SendState) :=
  swiftnet_send_packet g (cc_network_data client) (cc_eth_header client) (cc_maximum_transmission_unit client) (cc_port_info client) packet
    bytes_to_send (cc_server_addr client) None false 0 rnd env st.

Definition swiftnet_server_send_packet (server : SwiftNetServer) (packet : SwiftNetPacketBuffer) (target : SwiftNetClientAddrData)
    (bytes_to_send rnd : Z) (env : list (SwiftNetPacketSending -> SwiftNetPacketSending)) (st : SendState)
    : Outcome (SwiftNetPacketBuffer * SendState) :=
  let port_info := mk_port_info (ca_port target) (server_port server) in
  let eth_hdr := mk_ether_header (ca_mac_address target) (ether_shost (sv_eth_header server)) (ether_type (sv_eth_header server)) in
  swiftnet_send_packet g (sv_network_data server) eth_hdr (ca_maximum_transmission_unit target) port_info packet
    bytes_to_send (sender_address target) None false 0 rnd env st.
End requests.

(** ** A request and its response *)
Lemma appended_ok cap data packet : buffer_holds cap data packet -> Z.of_nat (length data) < 2 ^ 32 -> appended_length packet = Z.of_nat (length data).
Proof. intros [_ _ Hd Ha _ _] Hl. unfold appended_length. rewrite Ha, Hd, u32_id by lia. lia. Qed.

(** A request of one frame is entered in the table of requests and sent. *)
Lemma short_request g nd eth target_mtu ports packet cap data dst q rq rnd env st :
  network_ok nd -> ether_header_ok eth -> PACKET_HEADER_SIZE < Z.min target_mtu (maximum_transmission_unit g) ->
  Z.min target_mtu (maximum_transmission_unit g) + data_offset < 2 ^ 16 -> buffer_holds cap data packet ->
  0 < Z.of_nat (length data) <= Z.min target_mtu (maximum_transmission_unit g) -> requests_store st !! q = Some rq ->
  exists packet', swiftnet_send_packet g nd eth target_mtu ports packet (Z.of_nat (length data)) dst (Some q) false 0 rnd env st
    = Ok (packet', mk_send_state (packets_sending st) (sending_store st) (al_insert (u16 rnd) q (requests_sent st))
        (<[q := mk_request_sent (rs_packet_data rq) (rs_address rq) (u16 rnd)]> (requests_store st))
        (wire st ++ [sealed_frame (link_header nd eth) (construct_ip_header g dst (PACKET_HEADER_SIZE + Z.of_nat (length data)) (u16 rnd))
           (construct_packet_info g (Z.of_nat (length data)) (packet_type_code REQUEST) 1 0 ports) data])).
Proof.
  intros Hnd He Hm1 Hm2 Hb Hlen Hq. assert (PACKET_HEADER_SIZE = 44) by done. assert (data_offset = 58) by done.
  unfold swiftnet_send_packet. rewrite (store_update_ok _ _ _ rq) by done. rewrite !bind_Ok.
  rewrite compute_chunk_amount_ok, bind_Ok by lia. rewrite (proj2 (Z.ltb_ge _ _)) by lia.
  destruct (send_single_spec g nd eth ports packet cap data dst (u16 rnd) (packet_type_code REQUEST)
    (mk_send_state (packets_sending st) (sending_store st) (al_insert (u16 rnd) q (requests_sent st))
        (<[q := mk_request_sent (rs_packet_data rq) (rs_address rq) (u16 rnd)]> (requests_store st)) (wire st)) Hnd He Hb ltac:(lia))
    as (packet' & Hs & _). exists packet'. exact Hs.
Qed.

(** A client and a server on one network. *)
Record pair_ok (ga gb : Globals) (nd : SwiftNetNetworkData) (c : SwiftNetClientConnection) (v : SwiftNetServer) : Prop := {
  pr_network : network_ok nd;
  pr_client_network : cc_network_data c = nd;
  pr_server_network : sv_network_data v = nd;
  pr_client_eth : ether_header_ok (cc_eth_header c);
  pr_server_eth : ether_header_ok (sv_eth_header v);
  pr_globals_a : globals_ok ga;
  pr_globals_b : globals_ok gb;
  pr_ports : port_info_ok (cc_port_info c);
  pr_port : destination_port (cc_port_info c) = server_port v;
  pr_addr : in_word 32 (cc_server_addr c);
  pr_client_mtu : cc_maximum_transmission_unit c = maximum_transmission_unit gb;
  pr_mtu : PACKET_HEADER_SIZE < Z.min (maximum_transmission_unit gb) (maximum_transmission_unit ga);
  pr_mtu_max : Z.min (maximum_transmission_unit gb) (maximum_transmission_unit ga) + data_offset < 2 ^ 16
}.

Section pair.
Context (ga gb : Globals) (malloc_ok : Z -> bool) (nd : SwiftNetNetworkData) (c : SwiftNetClientConnection) (v : SwiftNetServer).
Hypothesis Hpair : pair_ok ga gb nd c v.
Context (rnd : Z).

#[local] Abbreviation mtu := (Z.min (maximum_transmission_unit gb) (maximum_transmission_unit ga)).
#[local] Abbreviation id := (u16 rnd).

Definition one_frame (data : list Z) : Prop := is_bytes data /\ 0 < Z.of_nat (length data) /\ PACKET_HEADER_SIZE + Z.of_nat (length data) <= mtu.

Definition request_ip (data : list Z) : ip := construct_ip_header ga (cc_server_addr c) (PACKET_HEADER_SIZE + Z.of_nat (length data)) id.
Definition request_info (data : list Z) : SwiftNetPacketInfo :=
  construct_packet_info ga (Z.of_nat (length data)) (packet_type_code REQUEST) 1 0 (cc_port_info c).
Definition request_frame (data : list Z) : list Z := sealed_frame (link_header nd (cc_eth_header c)) (request_ip data) (request_info data) data.

Definition response_ip (data : list Z) : ip := construct_ip_header gb 0 (PACKET_HEADER_SIZE + Z.of_nat (length data)) (htons id).
Definition response_info (data : list Z) : SwiftNetPacketInfo :=
  construct_packet_info gb (Z.of_nat (length data)) (packet_type_code RESPONSE) 1 0 (mk_port_info (Wire.source_port (cc_port_info c)) (server_port v)).
Definition response_frame (data : list Z) : list Z := sealed_frame (link_header nd (sv_eth_header v)) (response_ip data) (response_info data) data.

Lemma id_range : in_word 16 id.
Proof. apply Z.mod_pos_bound. lia. Qed.

Lemma request_single data : one_frame data ->
  single_ok gb nd (server_port v) (link_header nd (cc_eth_header c)) (request_ip data) (sealed_info (request_info data) data) data.
Proof.
  intros (Hb & Hl & Hf). destruct Hpair. assert (PACKET_HEADER_SIZE = 44) by done. assert (data_offset = 58) by done. constructor; try done.
  - by apply length_link_header.
  - by apply construct_ip_header_ok.
  - apply sealed_info_ok; [|done]. apply construct_packet_info_ok; try done. unfold in_word. lia.
  - cbn [sealed_info with_checksum pi_maximum_transmission_unit request_info construct_packet_info]. lia.
Qed.

Lemma response_single data : one_frame data ->
  single_ok ga nd (Wire.source_port (cc_port_info c)) (link_header nd (sv_eth_header v)) (response_ip data) (sealed_info (response_info data) data) data.
Proof.
  intros (Hb & Hl & Hf). destruct Hpair. assert (PACKET_HEADER_SIZE = 44) by done. assert (data_offset = 58) by done. constructor; try done.
  - by apply length_link_header.
  - by apply construct_ip_header_ok.
  - apply sealed_info_ok; [|done]. destruct pr_ports0 as [Hd Hs]. rewrite pr_port0 in Hd.
    apply construct_packet_info_ok; try done. unfold in_word. lia.
  - cbn [sealed_info with_checksum pi_maximum_transmission_unit response_info construct_packet_info]. lia.
Qed.

(** The id survives: the response carries the id the request was entered under. *)
Lemma response_id data : ip_id (response_ip data) = id.
Proof.
  cbn [response_ip construct_ip_header ip_id]. rewrite (u16_id (htons id)) by apply htons_range. apply htons_involutive, id_range.
Qed.

(** The server's answer to the delivered request. *)
Lemma server_responds data packet cap d rnd2 env st :
  one_frame data -> buffer_holds cap data packet ->
  md_packet_id d = htons id -> md_port_info d = cc_port_info c ->
  (exists s, md_sender d = Some s /\ sender_address s = 0 /\ ca_maximum_transmission_unit s = maximum_transmission_unit ga) ->
  exists packet', swiftnet_server_make_response gb v d packet rnd2 env st = Ok (packet', send_frames [response_frame data] st).
Proof.
  intros (Hby & Hl & Hf) Hb Hid Hport (s & Hs & Ha & Hm). destruct Hpair. assert (PACKET_HEADER_SIZE = 44) by done. assert (data_offset = 58) by done.
  unfold swiftnet_server_make_response. rewrite Hs. cbn [of_option]. rewrite bind_Ok, Hid, Hport, Ha, Hm, pr_server_network0.
  rewrite (appended_ok cap data packet Hb) by lia.
  destruct (short_send gb nd (sv_eth_header v) (maximum_transmission_unit ga) (mk_port_info (Wire.source_port (cc_port_info c)) (server_port v))
    packet cap data 0 true (htons id) rnd2 env st) as (packet' & Hsend & _); try done; [lia..|].
  exists packet'. exact Hsend.
Qed.
End pair.

(** A request whose response arrives in the second round of the wait. *)
Lemma request_answered ga gb malloc_ok nd c v rnd data1 data2 packet1 cap1 timeout start env t0 t1 script pad r :
  pair_ok ga gb nd c v -> one_frame ga gb data1 -> one_frame ga gb data2 -> buffer_holds cap1 data1 packet1 ->
  u32 t0 <= u32 (u32 start + timeout) -> u32 t1 <= u32 (u32 start + timeout) ->
  al_get (u16 rnd) (requests_sent (sender r)) = None ->
  al_get (server_port v, u16 rnd) (packets_completed r) = None -> al_get (server_port v, u16 rnd) (pending_messages r) = None ->
  exists packet1' r' d pd l b,
    swiftnet_client_make_request ga c packet1 timeout rnd start env
      ((t0, fun r => Ok r) :: (t1, receive ga malloc_ok CONNECTION_TYPE_CLIENT nd (cc_eth_header c) (Wire.source_port (cc_port_info c)) pad
                                    (response_frame gb nd c v rnd data2)) :: script) r
    = Ok (Some d, packet1', r')
    /\ wire (sender r') = wire (sender r) ++ [request_frame ga nd c rnd data1]
    /\ requests_sent (sender r') = requests_sent (sender r) /\ requests_store (sender r') = requests_store (sender r)
    /\ packet_data_store r' !! d = Some pd /\ pd_data pd = InPacketBuffer l (prepend_size nd + PACKET_HEADER_SIZE)
    /\ md_data_length pd = Z.of_nat (length data2)
    /\ packet_buffers r' !! l = Some b /\ mem_read (prepend_size nd + PACKET_HEADER_SIZE) (Z.of_nat (length data2)) b = Ok data2.
Proof.
  intros Hpair Hd1 Hd2 Hb Ht0 Ht1 Hfree Hc Hp. pose proof Hpair as []. pose proof Hd1 as (Hb1 & Hl1 & Hf1).
  assert (PACKET_HEADER_SIZE = 44) by done. assert (data_offset = 58) by done.
  unfold swiftnet_client_make_request, construct_request_sent. cbn [store_alloc]. set (q := store_next (requests_store (sender r))).
  rewrite (appended_ok cap1 data1 packet1 Hb) by lia. rewrite pr_client_network0, pr_client_mtu0. set (st := mk_send_state _ _ _ _ _).
  destruct (short_request ga nd (cc_eth_header c) (maximum_transmission_unit gb) (cc_port_info c) packet1 cap1 data1 (cc_server_addr c) q
    (mk_request_sent None (cc_server_addr c) 0) rnd env st) as (packet1' & Hsend); try done; [lia|apply lookup_insert_eq|].
  rewrite Hsend, bind_Ok. cbn [requests_store requests_sent packets_sending sending_store wire st rs_packet_data rs_address].
  set (st1 := mk_send_state _ _ _ _ _). set (r1 := set_sender st1 r). cbn [check_response]. rewrite bind_Ok.
  rewrite (proj2 (Z.ltb_ge _ _) Ht0).
  assert (requests_store (sender r1) !! q = Some (mk_request_sent None (cc_server_addr c) (u16 rnd))) as Hq1 by apply lookup_insert_eq.
  rewrite (proj2 (store_get_ok _ _ _) Hq1), bind_Ok. cbn [rs_packet_data].
  destruct (response_received ga malloc_ok CONNECTION_TYPE_CLIENT nd (cc_eth_header c) (Wire.source_port (cc_port_info c))
    (link_header nd (sv_eth_header v)) (response_ip gb rnd data2) (sealed_info (response_info gb c v data2) data2) data2 pad r1 q
    (mk_request_sent None (cc_server_addr c) (u16 rnd))) as (r2 & l & b & d & Hr2 & Hl & Hbuf & Hread & Hpd & Hsnd & _).
  { by apply (response_single ga gb nd c v). }
  { done. }
  { rewrite response_id. exact Hc. }
  { rewrite response_id. exact Hp. }
  { rewrite response_id. cbn [r1 set_sender sender st1 requests_sent]. by rewrite al_get_insert, Hfree, decide_True. }
  { exact Hq1. }
  unfold response_frame, sealed_frame. rewrite Hr2, bind_Ok, (proj2 (Z.ltb_ge _ _) Ht1), Hsnd. cbn [requests_store].
  rewrite (proj2 (store_get_ok _ _ _) (lookup_insert_eq _ _ _)), bind_Ok. cbn [rs_packet_data].
  rewrite (store_free_ok _ _ _ (lookup_insert_eq _ _ _)), !bind_Ok. exists packet1'. eexists. exists d. eexists. exists l, b.
  split; [done|]. cbn [set_sender sender wire requests_sent requests_store packet_data_store packet_buffers packets_sending sending_store].
  split; [done|]. split; [rewrite response_id; by apply al_remove_insert|].
  split; [rewrite delete_insert_eq; cbn [r1 set_sender sender st1 requests_store]; rewrite !delete_insert_eq; apply delete_id, store_next_fresh|].
  split; [exact Hpd|]. split; [done|]. split; [done|]. split; [rewrite Hbuf; apply lookup_insert_eq|done].
Qed.

(** C4 Request and response: the request of a client arrives at the server as a packet that
    expects a response and carries the data; the server's response to that packet, captured
    by the client while it waits, is what [swiftnet_client_make_request] returns, with the
    server's data; the ids match although each side converts the byte order once, and the
    table of requests is as before. *)
Theorem request_response_roundtrip ga gb malloc_ok nd c v rnd data1 data2 packet1 cap1 packet2 cap2 timeout start env1 env2 rnd2
    t0 t1 script padA padB rA rB ql :
  pair_ok ga gb nd c v -> one_frame ga gb data1 -> one_frame ga gb data2 -> buffer_holds cap1 data1 packet1 -> buffer_holds cap2 data2 packet2 ->
  u32 t0 <= u32 (u32 start + timeout) -> u32 t1 <= u32 (u32 start + timeout) ->
  al_get (u16 rnd) (requests_sent (sender rA)) = None ->
  al_get (server_port v, u16 rnd) (packets_completed rA) = None -> al_get (server_port v, u16 rnd) (pending_messages rA) = None ->
  let keyB := (Wire.source_port (cc_port_info c), htons (u16 rnd)) in
  al_get keyB (packets_completed rB) = None -> al_get keyB (pending_messages rB) = None ->
  queue_rep (packet_callback_queue rB) (callback_nodes rB) ql ->
  exists f1 f2 rB' dB pdB packet2' stB packet1' rA' dA pdA l b,
    receive gb malloc_ok CONNECTION_TYPE_SERVER nd (sv_eth_header v) (server_port v) padB f1 rB = Ok rB'
    /\ single_delivered CONNECTION_TYPE_SERVER nd (sv_eth_header v) (request_ip ga c rnd data1) (sealed_info (request_info ga c data1) data1) data1 ql rB rB'
    /\ packet_data_store rB' !! dB = Some pdB /\ md_expecting_response pdB = true
    /\ swiftnet_server_make_response gb v pdB packet2 rnd2 env2 (sender rB') = Ok (packet2', stB) /\ wire stB = wire (sender rB') ++ [f2]
    /\ swiftnet_client_make_request ga c packet1 timeout rnd start env1
         ((t0, fun r => Ok r) :: (t1, receive ga malloc_ok CONNECTION_TYPE_CLIENT nd (cc_eth_header c) (Wire.source_port (cc_port_info c)) padA f2) :: script) rA
       = Ok (Some dA, packet1', rA')
    /\ wire (sender rA') = wire (sender rA) ++ [f1]
    /\ requests_sent (sender rA') = requests_sent (sender rA) /\ requests_store (sender rA') = requests_store (sender rA)
    /\ packet_data_store rA' !! dA = Some pdA /\ pd_data pdA = InPacketBuffer l (prepend_size nd + PACKET_HEADER_SIZE)
    /\ md_data_length pdA = Z.of_nat (length data2)
    /\ packet_buffers rA' !! l = Some b /\ mem_read (prepend_size nd + PACKET_HEADER_SIZE) (Z.of_nat (length data2)) b = Ok data2.
Proof.
  intros Hpair Hd1 Hd2 Hb1 Hb2 Ht0 Ht1 Hfree Hc Hp keyB HcB HpB Hq.
  assert (ip_id (request_ip ga c rnd data1) = htons (u16 rnd)) as Hid.
  { cbn [request_ip construct_ip_header ip_id]. f_equal. apply u16_id, id_range. }
  destruct (single_to_callback gb malloc_ok CONNECTION_TYPE_SERVER nd (sv_eth_header v) (server_port v) (link_header nd (cc_eth_header c))
    (request_ip ga c rnd data1) (sealed_info (request_info ga c data1) data1) data1 padB (request_single ga gb nd c v Hpair rnd data1 Hd1) rB ql)
    as (rB' & HrB & Hdel); [by right|by rewrite Hid|by rewrite Hid|done|].
  pose proof Hdel as (lB & bB & dB & nodeB & cB & _ & _ & _ & _ & HpdB & _).
  destruct (server_responds ga gb nd c v Hpair rnd data2 packet2 cap2 (single_data CONNECTION_TYPE_SERVER nd (sv_eth_header v)
    (request_ip ga c rnd data1) (sealed_info (request_info ga c data1) data1) data1 lB) rnd2 env2 (sender rB') Hd2 Hb2) as (packet2' & Hresp);
    [exact Hid|done|eexists; split; [done|]; done|].
  destruct (request_answered ga gb malloc_ok nd c v rnd data1 data2 packet1 cap1 timeout start env1 t0 t1 script padA rA Hpair Hd1 Hd2 Hb1 Ht0 Ht1 Hfree Hc Hp)
    as (packet1' & rA' & dA & pdA & l & b & HA).
  exists (request_frame ga nd c rnd data1), (response_frame gb nd c v rnd data2), rB', dB. eexists. exists packet2'. eexists.
  exists packet1', rA', dA, pdA, l, b. split; [exact HrB|]. split; [exact Hdel|].
  split; [rewrite HpdB; apply lookup_insert_eq|]. split; [done|]. split; [exact Hresp|]. split; [done|]. exact HA.
Qed.

Definition c_sample : SwiftNetClientConnection :=
  mk_client nd_ethernet empty_queue (mk_port_info 8080 4000) eth0 54 0x0201A8C0 false true false true.

Lemma sample_pair : pair_ok g54 g54 nd_ethernet c_sample sample_server.
Proof.
  constructor; try done; try (vm_compute; split; congruence).
  - apply nd_ethernet_ok.
  - apply eth0_ok.
  - apply eth0_ok.
  - apply transfer_54_ok.
  - apply transfer_54_ok.
Qed.

Lemma sample_buffer data : 0 < Z.of_nat (length data) < 1000 -> exists packet, append_all true [data] (create_packet_buffer g54 true (Z.of_nat (length data))) = Ok packet
  /\ buffer_holds (Z.of_nat (length data)) data packet.
Proof.
  intros Hl. destruct (append_all_holds true (Z.of_nat (length data)) [data] [] (create_packet_buffer g54 true (Z.of_nat (length data)))) as (packet & Hp & Hb).
  - apply create_holds. lia.
  - cbn. rewrite app_nil_r. lia.
  - intros x Hx. apply list_elem_of_singleton in Hx. subst x. intros ->. cbn in Hl. lia.
  - exists packet. split; [done|]. cbn [app concat] in Hb. by rewrite app_nil_r in Hb.
Qed.

(** [1 2 3] is asked, [9 8] answered. *)
Lemma request_response_roundtrip_witness :
  exists packet1 packet2 f2 rB' pdB packet2' stB packet1' rA' dA l b,
    append_all true [[1; 2; 3]] (create_packet_buffer g54 true 3) = Ok packet1
    /\ swiftnet_server_make_response g54 sample_server pdB packet2 0 [] (sender rB') = Ok (packet2', stB) /\ wire stB = wire (sender rB') ++ [f2]
    /\ swiftnet_client_make_request g54 c_sample packet1 100 7 0 []
         [(10, fun r => Ok r); (15, receive g54 (fun _ => true) CONNECTION_TYPE_CLIENT nd_ethernet eth0 4000 [] f2)] r_empty = Ok (Some dA, packet1', rA')
    /\ packet_buffers rA' !! l = Some b /\ mem_read 58 2 b = Ok [9; 8].
Proof.
  destruct (sample_buffer [1; 2; 3] ltac:(cbn; lia)) as (packet1 & Hp1 & Hb1). destruct (sample_buffer [9; 8] ltac:(cbn; lia)) as (packet2 & Hp2 & Hb2).
  assert (one_frame g54 g54 [1; 2; 3]) as Hd1 by (split; [repeat constructor; done|]; vm_compute; split; congruence).
  assert (one_frame g54 g54 [9; 8]) as Hd2 by (split; [repeat constructor; done|]; vm_compute; split; congruence).
  destruct (request_response_roundtrip g54 g54 (fun _ => true) nd_ethernet c_sample sample_server 7 [1; 2; 3] [9; 8] packet1 3 packet2 2 100 0 [] [] 0
    10 15 [] [] [] r_empty r_empty [] sample_pair Hd1 Hd2 Hb1 Hb2) as (f1 & f2 & rB' & dB & pdB & packet2' & stB & packet1' & rA' & dA & pdA & l & b & H);
    [by vm_compute|by vm_compute|done|done|done|done|done|apply queue_rep_empty|].
  destruct H as (_ & _ & _ & _ & H5 & H6 & H7 & _ & _ & _ & _ & _ & _ & H14 & H15).
  exists packet1, packet2, f2, rB', pdB, packet2', stB, packet1', rA', dA, l, b.
  split; [exact Hp1|]. split; [exact H5|]. split; [exact H6|]. split; [exact H7|]. split; [exact H14|exact H15].
Defined.
