(* ===== verification/Wakeup.v ===== *)
(** * Sleeping and waking of the endpoint's threads

    The processing thread (src/src/process_packets.c) polls its queue; after 255 empty
    rounds it clears [processing_packets] and sleeps on a condition variable.  The
    listener (src/src/handle_packets.c) inserts a packet and, when it sees the flag
    cleared, signals the variable; [close_threads] (src/src/cleanup_connection.c) sets
    [closing], signals once and joins.  The callback thread and its producer
    [pass_callback_execution] run the same code over the callback queue.

    Each thread is a program counter with one step per access to shared state, so
    every interleaving of the code is a sequence of steps.  The mutex is the thread
    that holds it; [pthread_cond_wait] releases it and blocks in one step, as POSIX
    specifies, and may wake without a signal ([Spurious]). *)

From S2P Require Import Prelude Store Queue.

Section wakeup.
Context {A : Type}.

Inductive thread := TConsumer | TListener | TCloser.

(** The consumer stands before: the test of [closing], taking a node, the end of the
    packet's processing, clearing the flag, locking, waiting; it sleeps; it has to lock
    again, unlock, set the flag; it has returned. *)
Inductive ConsumerPc := PCheck | PTake | PProcess (node : loc) | PFlag | PLock | PWait | PBlocked | PWoken | PUnlock | PRestore | PDone.

(** The listener waits for a frame, or stands before: the load of the flag, locking,
    signalling, unlocking. *)
Inductive ListenerPc := LIdle | LLoad | LLock | LSignal | LUnlock.

(** [close_threads] was not called, or stands before: locking, signalling, unlocking,
    joining; it has joined the consumer. *)
Inductive CloserPc := CIdle | CLock | CSignal | CUnlock | CJoin | CJoined.

#[global] Instance closer_eq_dec : EqDecision CloserPc.
Proof. solve_decision. Defined.

Record Waiting := mk_waiting {
  w_queue : PacketQueue;
  w_nodes : Store (QueueNode A);
  processing_packets : bool;
  w_closing : bool;
  w_mutex : option thread;
  consumer : ConsumerPc;
  idle_stage : Z;
  listener : ListenerPc;
  closer : CloserPc;
  arrived : list A;
  taken : list A
}.

Definition set_consumer (pc : ConsumerPc) (s : Waiting) : Waiting :=
  mk_waiting (w_queue s) (w_nodes s) (processing_packets s) (w_closing s) (w_mutex s) pc (idle_stage s) (listener s) (closer s) (arrived s) (taken s).
Definition set_idle (i : Z) (s : Waiting) : Waiting :=
  mk_waiting (w_queue s) (w_nodes s) (processing_packets s) (w_closing s) (w_mutex s) (consumer s) i (listener s) (closer s) (arrived s) (taken s).
Definition set_flag (b : bool) (s : Waiting) : Waiting :=
  mk_waiting (w_queue s) (w_nodes s) b (w_closing s) (w_mutex s) (consumer s) (idle_stage s) (listener s) (closer s) (arrived s) (taken s).
Definition set_closing (s : Waiting) : Waiting :=
  mk_waiting (w_queue s) (w_nodes s) (processing_packets s) true (w_mutex s) (consumer s) (idle_stage s) (listener s) (closer s) (arrived s) (taken s).
Definition set_mutex (m : option thread) (s : Waiting) : Waiting :=
  mk_waiting (w_queue s) (w_nodes s) (processing_packets s) (w_closing s) m (consumer s) (idle_stage s) (listener s) (closer s) (arrived s) (taken s).
Definition set_listener (pc : ListenerPc) (s : Waiting) : Waiting :=
  mk_waiting (w_queue s) (w_nodes s) (processing_packets s) (w_closing s) (w_mutex s) (consumer s) (idle_stage s) pc (closer s) (arrived s) (taken s).
Definition set_closer (pc : CloserPc) (s : Waiting) : Waiting :=
  mk_waiting (w_queue s) (w_nodes s) (processing_packets s) (w_closing s) (w_mutex s) (consumer s) (idle_stage s) (listener s) pc (arrived s) (taken s).
Definition set_queue (q : PacketQueue) (n : Store (QueueNode A)) (arr tak : list A) (s : Waiting) : Waiting :=
  mk_waiting q n (processing_packets s) (w_closing s) (w_mutex s) (consumer s) (idle_stage s) (listener s) (closer s) arr tak.

(** A step that the thread cannot take now is [Ok None]. *)
Definition lock (t : thread) (next : Waiting) : Outcome (option Waiting) :=
  match w_mutex next with None => Ok (Some (set_mutex (Some t) next)) | Some _ => Ok None end.

(** [pthread_cond_signal]: the consumer is the only thread that waits. *)
Definition signal_cond (s : Waiting) : Waiting :=
  match consumer s with PBlocked => set_consumer PWoken s | _ => s end.

(** One step of [swiftnet_process_packets], or of [execute_packet_callback], with the
    work on a packet as one step. *)
Definition consumer_step (s : Waiting) : Outcome (option Waiting) :=
  match consumer s with
  | PCheck => Ok (Some (set_consumer (if w_closing s then PDone else PTake) s))
  | PTake =>
      '(node, q) ← wait_for_next_packet (w_queue s) (w_nodes s);
      match node with
      | None => if idle_stage s =? 255 then Ok (Some (set_consumer PFlag s))
                else Ok (Some (set_consumer PCheck (set_idle (u8 (idle_stage s + 1)) s)))
      | Some p =>
          n ← store_get p (w_nodes s);
          Ok (Some (set_consumer (PProcess p) (set_idle 0 (set_queue q (w_nodes s) (arrived s) (taken s ++ [node_content n]) s))))
      end
  | PProcess p =>
      nodes ← store_free p (w_nodes s);
      Ok (Some (set_consumer PCheck (set_queue (w_queue s) nodes (arrived s) (taken s) s)))
  | PFlag => Ok (Some (set_consumer PLock (set_flag false s)))
  | PLock => lock TConsumer (set_consumer PWait s)
  | PWait => Ok (Some (set_consumer PBlocked (set_mutex None s)))
  | PBlocked => Ok None
  | PWoken => lock TConsumer (set_consumer PUnlock s)
  | PUnlock => Ok (Some (set_consumer PRestore (set_mutex None s)))
  | PRestore => Ok (Some (set_consumer PCheck (set_idle 0 (set_flag true s))))
  | PDone => Ok None
  end.

(** A frame arrives: the listener queues its node. *)
Definition arrive (a : A) (s : Waiting) : Outcome (option Waiting) :=
  match listener s with
  | LIdle =>
      let '(n, nodes) := store_alloc (mk_queue_node None a) (w_nodes s) in
      '(q, nodes) ← insert_queue_node (Some n) (w_queue s) nodes;
      Ok (Some (set_listener LLoad (set_queue q nodes (arrived s ++ [a]) (taken s) s)))
  | _ => Ok None
  end.

(** The rest of [swiftnet_handle_packets], from [unlock_processing_thread]. *)
Definition listener_step (s : Waiting) : Outcome (option Waiting) :=
  match listener s with
  | LIdle => Ok None
  | LLoad => Ok (Some (set_listener (if processing_packets s then LIdle else LLock) s))
  | LLock => lock TListener (set_listener LSignal s)
  | LSignal => Ok (Some (set_listener LUnlock (signal_cond s)))
  | LUnlock => Ok (Some (set_listener LIdle (set_mutex None s)))
  end.

(** [close_threads], for one of the two threads it stops. *)
Definition closer_step (s : Waiting) : Outcome (option Waiting) :=
  match closer s with
  | CIdle => Ok (Some (set_closer CLock (set_closing s)))
  | CLock => lock TCloser (set_closer CSignal s)
  | CSignal => Ok (Some (set_closer CUnlock (signal_cond s)))
  | CUnlock => Ok (Some (set_closer CJoin (set_mutex None s)))
  | CJoin => match consumer s with PDone => Ok (Some (set_closer CJoined s)) | _ => Ok None end
  | CJoined => Ok None
  end.

Inductive actor := Consumer | Arrive (a : A) | Listener | Closer | Spurious.

Definition step (x : actor) (s : Waiting) : Outcome (option Waiting) :=
  match x with
  | Consumer => consumer_step s
  | Arrive a => arrive a s
  | Listener => listener_step s
  | Closer => closer_step s
  | Spurious => match consumer s with PBlocked => Ok (Some (set_consumer PWoken s)) | _ => Ok None end
  end.

(** A schedule runs when each of its steps can be taken. *)
Fixpoint run (xs : list actor) (s : Waiting) : Outcome (option Waiting) :=
  match xs with
  | [] => Ok (Some s)
  | x :: xs => o ← step x s; match o with Some s => run xs s | None => Ok None end
  end.

Definition start : Waiting := mk_waiting empty_queue ∅ true false None PCheck 0 LIdle CIdle [] [].

Inductive reachable : Waiting -> Prop :=
| reach_start : reachable start
| reach_step x s s' : reachable s -> step x s = Ok (Some s') -> reachable s'.

(** ** The invariant *)
Definition owners (s : Waiting) : list thread :=
  match consumer s with PWait | PUnlock => [TConsumer] | _ => [] end ++
  match listener s with LSignal | LUnlock => [TListener] | _ => [] end ++
  match closer s with CSignal | CUnlock => [TCloser] | _ => [] end.

Definition asleep (pc : ConsumerPc) : bool :=
  match pc with PLock | PWait | PBlocked | PWoken | PUnlock | PRestore => true | _ => false end.

(** The flag, the mutex and [closing] say where the threads are. *)
Record control (s : Waiting) : Prop := {
  ctl_flag : processing_packets s = negb (asleep (consumer s));
  ctl_owner : owners s = match w_mutex s with Some t => [t] | None => [] end;
  ctl_closing : w_closing s = match closer s with CIdle => false | _ => true end;
  ctl_done : consumer s = PDone -> w_closing s = true;
  ctl_idle : 0 <= idle_stage s <= 255
}.

(** [l] are the queued nodes; what arrived was taken or is queued, in order; a node
    in hand is live and out of the queue. *)
Record queued_nodes (s : Waiting) (l : list (loc * A)) : Prop := {
  qn_rep : queue_rep (w_queue s) (w_nodes s) l;
  qn_arrived : arrived s = taken s ++ map snd l;
  qn_held : forall p, consumer s = PProcess p -> is_Some (w_nodes s !! p) /\ p ∉ map fst l
}.

(** Steps other than taking, freeing and arriving leave the queue alone. *)
Lemma queued_nodes_same s s' l :
  queued_nodes s l -> w_queue s' = w_queue s -> w_nodes s' = w_nodes s -> arrived s' = arrived s -> taken s' = taken s ->
  (forall p, consumer s' = PProcess p -> consumer s = PProcess p) -> queued_nodes s' l.
Proof. intros [? ? Hh] Hq Hn Ha Ht Hp. split; [by rewrite Hq, Hn|by rewrite Ha, Ht|]. intros p ?%Hp. rewrite Hn. by apply Hh. Qed.

Lemma take_nodes s l :
  queued_nodes s l -> consumer s = PTake ->
  match l with
  | [] => consumer_step s = Ok (Some (if idle_stage s =? 255 then set_consumer PFlag s
                                      else set_consumer PCheck (set_idle (u8 (idle_stage s + 1)) s)))
  | (p, a) :: l' => exists q, consumer_step s = Ok (Some (set_consumer (PProcess p)
        (set_idle 0 (set_queue q (w_nodes s) (arrived s) (taken s ++ [a]) s)))) /\
      queued_nodes (set_consumer (PProcess p) (set_idle 0 (set_queue q (w_nodes s) (arrived s) (taken s ++ [a]) s))) l'
  end.
Proof.
  intros [Hr Ha Hh] Hpc. pose proof (wait_refines _ _ _ Hr) as Hw. unfold consumer_step. rewrite Hpc. destruct l as [|[p a] l].
  - rewrite Hw, bind_Ok. by destruct (_ =? _).
  - destruct Hw as (q & next & -> & Hp & Hr' & Hnot). rewrite bind_Ok. rewrite (proj2 (store_get_ok _ _ _) Hp), bind_Ok.
    eexists. split; [done|]. split; cbn; [done| |].
    + rewrite Ha. cbn. by rewrite <- app_assoc.
    + intros p' [= <-]. split; [by eexists|done].
Qed.

Lemma process_nodes s l p :
  queued_nodes s l -> consumer s = PProcess p ->
  exists nodes, consumer_step s = Ok (Some (set_consumer PCheck (set_queue (w_queue s) nodes (arrived s) (taken s) s))) /\
    queued_nodes (set_consumer PCheck (set_queue (w_queue s) nodes (arrived s) (taken s) s)) l.
Proof.
  intros [(Hc & Hl & Hnd) Ha Hh] Hpc. destruct (Hh p Hpc) as [[x Hx] Hnot]. unfold consumer_step. rewrite Hpc.
  rewrite (store_free_ok _ _ _ Hx), bind_Ok. eexists. split; [done|]. split; cbn; [|done|done].
  split; [by apply chain_delete|done].
Qed.

Lemma arrive_nodes s l a :
  queued_nodes s l -> listener s = LIdle ->
  exists q nodes n, arrive a s = Ok (Some (set_listener LLoad (set_queue q nodes (arrived s ++ [a]) (taken s) s))) /\
    queued_nodes (set_listener LLoad (set_queue q nodes (arrived s ++ [a]) (taken s) s)) (l ++ [(n, a)]).
Proof.
  intros [(Hc & Hl & Hnd) Ha Hh] Hpc. unfold arrive. rewrite Hpc. cbn [store_alloc].
  set (n := store_next (w_nodes s)). assert (w_nodes s !! n = None) as Hfresh by apply store_next_fresh.
  assert (n ∉ map fst l) as Hn.
  { intros Hin. apply list_elem_of_fmap in Hin as ([p b] & Hp & Hin). cbn in Hp.
    destruct (chain_elem _ _ _ _ _ Hc Hin) as [next Hx]. congruence. }
  destruct (insert_refines (w_queue s) (<[n := mk_queue_node None a]> (w_nodes s)) l n a) as (q & nodes & Hi & Hr & Ho).
  { split; [by apply chain_other|done]. }
  { apply lookup_insert_eq. }
  { done. }
  rewrite Hi, bind_Ok. exists q, nodes, n. split; [done|]. split; cbn; [done| |].
  - by rewrite Ha, map_app, app_assoc.
  - intros p Hp. destruct (Hh p Hp) as [[x Hx] Hnot]. assert (p <> n) by congruence. split.
    + exists x. rewrite Ho by done. by rewrite lookup_insert_ne.
    + rewrite map_app. intros [?|Hin]%elem_of_app; [done|]. apply list_elem_of_singleton in Hin. done.
Qed.

(** Control fields after a step, by cases on the program counters. *)
Lemma control_start : control start.
Proof. by split. Qed.

Lemma idle_next i : 0 <= i <= 255 -> 0 <= u8 (i + 1) <= 255.
Proof. intros H. unfold wrap. pose proof (Z.mod_pos_bound (i + 1) (2 ^ 8)). lia. Qed.

Lemma consumer_control s s' : control s -> consumer_step s = Ok (Some s') -> control s'.
Proof.
  destruct s as [q n f cl mx pc i li co arr tak]. unfold consumer_step, lock. intros [Hf Ho Hc Hd Hi]. cbn in *. subst f cl.
  destruct pc; cbn in *; intros H; try discriminate.
  - apply Ok_inj in H as [= <-]. split; cbn; try done; destruct co; done.
  - apply bind_ok in H as ([nd q'] & _ & H). destruct nd as [p|].
    + apply bind_ok in H as (x & _ & H). apply Ok_inj in H as [= <-]. by split.
    + destruct (_ =? _); apply Ok_inj in H as [= <-]; split; cbn; try done. by apply idle_next.
  - apply bind_ok in H as (x & _ & H). apply Ok_inj in H as [= <-]. by split.
  - apply Ok_inj in H as [= <-]. by split.
  - destruct mx; [discriminate|]. apply Ok_inj in H as [= <-]. split; unfold owners in *; cbn in *; try done. by rewrite Ho.
  - apply Ok_inj in H as [= <-]. split; unfold owners in *; cbn in *; try done. by destruct mx, li, co.
  - destruct mx; [discriminate|]. apply Ok_inj in H as [= <-]. split; unfold owners in *; cbn in *; try done. by rewrite Ho.
  - apply Ok_inj in H as [= <-]. split; unfold owners in *; cbn in *; try done. by destruct mx, li, co.
  - apply Ok_inj in H as [= <-]. by split.
Qed.

Lemma listener_control s s' : control s -> listener_step s = Ok (Some s') -> control s'.
Proof.
  destruct s as [q n f cl mx pc i li co arr tak]. unfold listener_step, lock, signal_cond. intros [Hf Ho Hc Hd Hi].
  unfold owners in Ho. cbn in *. subst f cl. destruct li; cbn in *; intros H; try discriminate.
  - apply Ok_inj in H as [= <-]. split; cbn; try done. by destruct pc.
  - destruct mx; [discriminate|]. apply Ok_inj in H as [= <-]. split; unfold owners; cbn; try done.
    by destruct pc, co; cbn in Ho |- *.
  - apply Ok_inj in H as [= <-]. by destruct pc; split.
  - apply Ok_inj in H as [= <-]. split; unfold owners; cbn; try done. destruct mx, pc, co; cbn in Ho |- *; try done.
Qed.

Lemma closer_control s s' : control s -> closer_step s = Ok (Some s') -> control s'.
Proof.
  destruct s as [q n f cl mx pc i li co arr tak]. unfold closer_step, lock, signal_cond. intros [Hf Ho Hc Hd Hi].
  unfold owners in Ho. cbn in *. subst f cl. destruct co; cbn in *; intros H; try discriminate.
  - apply Ok_inj in H as [= <-]. by split.
  - destruct mx; [discriminate|]. apply Ok_inj in H as [= <-]. split; unfold owners; cbn; try done.
    by destruct pc, li; cbn in Ho |- *.
  - apply Ok_inj in H as [= <-]. by destruct pc; split.
  - apply Ok_inj in H as [= <-]. split; unfold owners; cbn; try done. destruct mx, pc, li; cbn in Ho |- *; try done.
  - destruct pc; try discriminate. apply Ok_inj in H as [= <-]. by split.
Qed.

Lemma step_control x s s' : control s -> step x s = Ok (Some s') -> control s'.
Proof.
  destruct x; cbn [step]; eauto using consumer_control, listener_control, closer_control.
  - destruct s as [q n f cl mx pc i li co arr tak]. unfold arrive. intros [Hf Ho Hc Hd Hi]. cbn in *.
    destruct li; try done. intros ([q' n'] & _ & H)%bind_ok. apply Ok_inj in H as [= <-]. by split.
  - destruct s as [q n f cl mx pc i li co arr tak]. intros [Hf Ho Hc Hd Hi]. cbn in *. destruct pc; try done.
    intros H. apply Ok_inj in H as [= <-]. by split.
Qed.

(** No step faults, and every step keeps the queue in order. *)
Lemma step_nodes x s l :
  queued_nodes s l ->
  exists o, step x s = Ok o /\ match o with Some s' => exists l', queued_nodes s' l' | None => True end.
Proof.
  intros H. assert (forall s', w_queue s' = w_queue s -> w_nodes s' = w_nodes s -> arrived s' = arrived s -> taken s' = taken s ->
    (forall p, consumer s' = PProcess p -> consumer s = PProcess p) -> exists l', queued_nodes s' l') as Hsame
    by (intros; exists l; by eapply queued_nodes_same).
  destruct x; cbn [step].
  - destruct (consumer s) eqn:E.
    3:{ destruct (process_nodes s l node H E) as (nodes & Hs & Hq). eexists. split; [exact Hs|]. by eexists. }
    2:{ pose proof (take_nodes s l H E) as Ht. destruct l as [|[p a] l].
        - eexists. split; [exact Ht|]. destruct (_ =? _); by apply Hsame.
        - destruct Ht as (q & Hs & Hq). eexists. split; [exact Hs|]. by eexists. }
    all: unfold consumer_step, lock; rewrite E; cbn.
    all: try (destruct (w_mutex s)); try (destruct (w_closing s)); eexists; (split; [done|]); try done; by apply Hsame.
  - destruct (listener s) eqn:E; [|eexists; split; [unfold arrive; rewrite E; done|done]..].
    destruct (arrive_nodes s l a H E) as (q & nodes & n & Hs & Hq). eexists. split; [exact Hs|]. by eexists.
  - unfold listener_step, lock, signal_cond. destruct (listener s) eqn:E; cbn; try (destruct (w_mutex s)); try (destruct (consumer s) eqn:E');
      eexists; (split; [done|]); try done; apply Hsame; cbn; try done; congruence.
  - unfold closer_step, lock, signal_cond. destruct (closer s) eqn:E; cbn; try (destruct (w_mutex s)); try (destruct (consumer s) eqn:E');
      eexists; (split; [done|]); try done; apply Hsame; cbn; try done; congruence.
  - destruct (consumer s) eqn:E; eexists; (split; [done|]); try done. by apply Hsame.
Qed.

Lemma reachable_inv s : reachable s -> control s /\ exists l, queued_nodes s l.
Proof.
  induction 1 as [|x s s' _ [Hc [l Hq]] Hs].
  - split; [apply control_start|]. exists []. split; [|done|done]. split; [done|]. split; [done|]. apply NoDup_nil_2.
  - split; [by eapply step_control|]. destruct (step_nodes x s l Hq) as (o & Ho & Hl). rewrite Hs in Ho.
    apply Ok_inj in Ho as <-. done.
Qed.

Lemma run_reachable xs s s' : reachable s -> run xs s = Ok (Some s') -> reachable s'.
Proof.
  revert s. induction xs as [|x xs IH]; intros s Hr; cbn; [intros [= ->]%Ok_inj; done|].
  intros (o & Ho & H)%bind_ok. destruct o as [s1|]; [|done]. eapply IH, H. by eapply reach_step.
Qed.

(** ** Schedules

    A schedule is a list of steps, frames that arrive included; those can come at any
    moment the listener is idle, and each gives the listener four more steps. *)
Definition new_frame (x : actor) : bool := match x with Arrive _ => true | _ => false end.
Definition new_frames (xs : list actor) : nat := length (List.filter new_frame xs).

(** A rank that every allowed step lowers, except for the arrival of a frame: a schedule
    that does not reach [P] is no longer than the rank and its frames allow. *)
Lemma run_rank (allowed : actor -> Prop) (P good : Waiting -> Prop) (rank : Waiting -> nat) :
  (forall x s s', P s -> step x s = Ok (Some s') -> P s') ->
  (forall x s s', good s -> allowed x -> step x s = Ok (Some s') ->
     P s' \/ good s' /\ (rank s' < rank s + (if new_frame x then 5 else 0))%nat) ->
  forall xs s s', good s -> (forall x, x ∈ xs -> allowed x) -> run xs s = Ok (Some s') ->
  P s' \/ good s' /\ (length xs + rank s' <= rank s + 5 * new_frames xs)%nat.
Proof.
  intros Hstable Hstep.
  assert (forall xs s s', P s -> run xs s = Ok (Some s') -> P s') as HP.
  { induction xs as [|x xs IH]; intros s s' Hp; cbn [run]; [by intros [= ->]%Ok_inj|].
    intros (o & Ho & H)%bind_ok. destruct o as [s1|]; [|discriminate]. eapply IH; [|exact H]. by eapply Hstable. }
  induction xs as [|x xs IH]; intros s s' Hg Hall; cbn [run]; [intros [= ->]%Ok_inj; right; split; [done|cbn; lia]|].
  intros (o & Ho & H)%bind_ok. destruct o as [s1|]; [|discriminate].
  destruct (Hstep x s s1 Hg) as [Hp|[Hg1 Hr]]; [apply Hall; left|done|left; by eapply HP|].
  destruct (IH s1 s' Hg1) as [?|[? Hl]]; [intros y Hy; apply Hall; by right|done|by left|].
  right. split; [done|]. unfold new_frames in *. cbn [List.filter length]. destruct (new_frame x); cbn [length]; lia.
Qed.

Definition will_signal (s : Waiting) : bool := match listener s with LLoad | LLock | LSignal => true | _ => false end.

(** Between the test that found the queue empty and the wait, the consumer takes
    notice of nothing. *)
Definition in_window (s : Waiting) : bool := match consumer s with PFlag | PLock | PWait => true | _ => false end.

Definition consumer_distance (pc : ConsumerPc) : nat :=
  match pc with PDone => 0 | PTake => 1 | PCheck => 2 | PProcess _ => 3 | PRestore => 3 | PUnlock => 4 | PWoken => 5 | PBlocked => 6 | _ => 9 end.
Definition listener_distance (pc : ListenerPc) : nat :=
  match pc with LIdle => 0 | LUnlock => 1 | LSignal => 2 | LLock => 3 | LLoad => 4 end.

(** The packets [target], the first that arrived, are not all taken yet, and the consumer
    has noticed that the queue is not empty, or will be signalled. *)
Record attended (target : list A) (s : Waiting) : Prop := {
  att_control : control s;
  att_nodes : exists l, queued_nodes s l;
  att_target : target `prefix_of` arrived s;
  att_taken : (length (taken s) < length target)%nat;
  att_open : w_closing s = false;
  att_window : in_window s = false;
  att_signal : consumer s = PBlocked -> will_signal s = true
}.

Lemma outstanding_nodes target s l :
  queued_nodes s l -> target `prefix_of` arrived s -> (length (taken s) < length target)%nat ->
  exists p a l', l = (p, a) :: l' /\ taken s ++ [a] `prefix_of` target.
Proof.
  intros [_ Ha _] [k Hk] Hl. destruct l as [|[p a] l'].
  { exfalso. rewrite app_nil_r in Ha. apply (f_equal length) in Hk. rewrite Ha, length_app in Hk. lia. }
  exists p, a, l'. split; [done|]. rewrite Ha in Hk. cbn in Hk.
  assert (taken s ++ [a] `prefix_of` target ++ k) as Hp by (rewrite <- Hk; apply prefix_app, prefix_cons, prefix_nil).
  destruct (prefix_weak_total (taken s ++ [a]) target (target ++ k)) as [?|Hle]; [done|by apply prefix_app_r|done|].
  pose proof (prefix_length _ _ Hle) as Hlen. rewrite length_app in Hlen. cbn in Hlen.
  destruct Hle as [[|x k'] Hk']; [rewrite Hk', app_nil_r; done|]. apply (f_equal length) in Hk'. rewrite !length_app in Hk'. cbn in Hk'. lia.
Qed.

Lemma attended_enabled target s : attended target s -> exists x s', (x = Consumer \/ x = Listener) /\ step x s = Ok (Some s').
Proof.
  intros [[Hf Ho Hc Hd Hi] (l & Hq) Ht1 Ht2 Hop Hw Hs]. destruct (outstanding_nodes _ _ _ Hq Ht1 Ht2) as (p & a & l' & -> & _).
  assert (closer s = CIdle) as Hcl by (rewrite Hc in Hop; by destruct (closer s)).
  unfold owners in Ho. rewrite Hcl in Ho. unfold in_window in Hw. unfold will_signal in Hs.
  destruct (consumer s) eqn:E; try discriminate.
  - exists Consumer. cbn. unfold consumer_step. rewrite E. eauto.
  - exists Consumer. destruct (take_nodes s _ Hq E) as (q & H & _). eauto.
  - exists Consumer. destruct (process_nodes s _ _ Hq E) as (q & H & _). eauto.
  - specialize (Hs eq_refl). exists Listener. cbn. unfold listener_step, lock. destruct (listener s); try discriminate; eauto.
    destruct (w_mutex s) eqn:Em; cbn in Ho |- *; [discriminate|]. rewrite Em. eauto.
  - destruct (w_mutex s) eqn:Em.
    + exists Listener. cbn. unfold listener_step. destruct (listener s); cbn in Ho; try discriminate; eauto.
    + exists Consumer. cbn. unfold consumer_step, lock. rewrite E. cbn. rewrite Em. eauto.
  - exists Consumer. cbn. unfold consumer_step. rewrite E. eauto.
  - exists Consumer. cbn. unfold consumer_step. rewrite E. eauto.
  - rewrite Hd in Hop by done. discriminate.
Qed.

(** Three steps for each packet still to take, and what consumer and listener have before
    them. *)
Definition attention_rank (target : list A) (s : Waiting) : nat :=
  consumer_distance (consumer s) + listener_distance (listener s) + 3 * (length target - length (taken s)).

(** A control step of the consumer or the listener. *)
Lemma attended_same target s s' :
  attended target s -> control s' -> w_queue s' = w_queue s -> w_nodes s' = w_nodes s -> arrived s' = arrived s ->
  taken s' = taken s -> w_closing s' = w_closing s -> (forall p, consumer s' = PProcess p -> consumer s = PProcess p) ->
  in_window s' = false -> (consumer s' = PBlocked -> will_signal s' = true) -> attended target s'.
Proof.
  intros [Hc (l & Hq) Ht1 Ht2 Hop Hw Hs] Hc' Hq' Hn Ha Ht' Hcl Hp Hw' Hs'.
  split; [done| |by rewrite Ha|by rewrite Ht'|congruence|done|done]. exists l. by eapply queued_nodes_same.
Qed.

(** The consumer takes the next packet. *)
Lemma attended_take target s s' :
  attended target s -> control s' -> consumer s = PTake -> consumer_step s = Ok (Some s') ->
  target `prefix_of` taken s' \/ attended target s' /\ (attention_rank target s' < attention_rank target s)%nat.
Proof.
  intros [Hc (l & Hq) Ht1 Ht2 Hop Hw Hs] Hc' E Hstep. destruct (outstanding_nodes _ _ _ Hq Ht1 Ht2) as (p & a & l' & -> & Hpre).
  destruct (take_nodes s _ Hq E) as (q & H & Hq'). rewrite H in Hstep. apply Ok_inj in Hstep as [= <-].
  destruct (decide (length target = length (taken s ++ [a]))) as [Hl|Hl].
  - left. cbn. destruct Hpre as [k Hk]. pose proof (f_equal length Hk) as Hlen. rewrite length_app in Hlen. destruct k; [|cbn in Hlen; lia].
    by rewrite Hk, app_nil_r.
  - right. apply prefix_length in Hpre. rewrite length_app in Hl, Hpre. cbn in Hl, Hpre. split.
    + split; cbn; try done; [by exists l'|rewrite length_app; cbn; lia].
    + unfold attention_rank. rewrite E. cbn. rewrite length_app. cbn. lia.
Qed.

Lemma attended_step target x s s' :
  attended target s -> x <> Closer -> step x s = Ok (Some s') ->
  target `prefix_of` taken s' \/ attended target s' /\ (attention_rank target s' < attention_rank target s + (if new_frame x then 5 else 0))%nat.
Proof.
  intros Hatt Hx Hstep. pose proof (step_control _ _ _ (att_control _ _ Hatt) Hstep) as Hc'.
  pose proof (attended_same target s s' Hatt Hc') as Hsame. pose proof (attended_take target s s' Hatt Hc') as Htake.
  pose proof Hatt as [Hc (l & Hq) Ht1 Ht2 Hop Hw Hs].
  unfold attention_rank in *. unfold in_window, will_signal in *. destruct x; cbn [step new_frame] in *; try done.
  - rewrite Nat.add_0_r. destruct (consumer s) eqn:E; try discriminate.
    2:{ by apply Htake. }
    2:{ right. destruct (process_nodes s _ _ Hq E) as (q & H & Hq'). rewrite H in Hstep. apply Ok_inj in Hstep as [= <-].
        split; [|cbn; lia]. split; cbn; try done. by exists l. }
    all: right; unfold consumer_step, lock in Hstep; rewrite E in Hstep; try discriminate; rewrite ?Hop in Hstep;
      try (destruct (w_mutex _); [discriminate|]); apply Ok_inj in Hstep as [= <-]; (split; [by apply Hsame|cbn; lia]).
  - right. destruct (listener s) eqn:El; [|unfold arrive in Hstep; by rewrite El in Hstep..].
    destruct (arrive_nodes s l a Hq El) as (q & nodes & n & H & Hq'). rewrite H in Hstep. apply Ok_inj in Hstep as [= <-].
    split; [|cbn; lia]. split; cbn; try done; [by eexists|by apply prefix_app_r].
  - right. rewrite Nat.add_0_r. unfold listener_step, lock, signal_cond in Hstep. pose proof (ctl_flag _ Hc) as Hf.
    destruct (listener s) eqn:El; try discriminate.
    + apply Ok_inj in Hstep as [= <-]. cbn in *. rewrite Hf in *. destruct (consumer s) eqn:E; cbn in *; try discriminate;
        (split; [apply Hsame; cbn; rewrite ?E; try done; congruence|lia]).
    + destruct (w_mutex _); [discriminate|]. apply Ok_inj in Hstep as [= <-]. split; [by apply Hsame|cbn; lia].
    + apply Ok_inj in Hstep as [= <-]. destruct (consumer s) eqn:E; cbn in *; try discriminate; rewrite ?E in *;
        (split; [apply Hsame; cbn; rewrite ?E; try done; congruence|cbn; lia]).
    + apply Ok_inj in Hstep as [= <-]. split; [apply Hsame; try done; intros H%Hs; discriminate|cbn; lia].
  - right. rewrite Nat.add_0_r. destruct (consumer s) eqn:E; try discriminate. apply Ok_inj in Hstep as [= <-].
    split; [by apply Hsame|cbn; lia].
Qed.

(** Packets taken stay taken. *)
Lemma step_taken x s s' : step x s = Ok (Some s') -> taken s `prefix_of` taken s'.
Proof.
  destruct x; cbn [step]; unfold consumer_step, arrive, listener_step, closer_step, lock, signal_cond.
  - destruct (consumer s); try discriminate; cbn; try (destruct (w_mutex s); [discriminate|]); try (intros [= <-]%Ok_inj; done).
    + intros ([o q] & _ & H)%bind_ok. destruct o; [apply bind_ok in H as (n & _ & H)|destruct (_ =? _)]; apply Ok_inj in H as [= <-]; cbn;
        [by apply prefix_app_r|done..].
    + by intros (n & _ & [= <-]%Ok_inj)%bind_ok.
  - destruct (listener s); try discriminate. cbn. by intros ([q n] & _ & [= <-]%Ok_inj)%bind_ok.
  - destruct (listener s); try discriminate; cbn; try (destruct (w_mutex s); [discriminate|]); intros [= <-]%Ok_inj; try done.
    by destruct (consumer s).
  - destruct (closer s); try discriminate; cbn; try (destruct (w_mutex s); [discriminate|]); try (intros [= <-]%Ok_inj; try done; by destruct (consumer s)).
    destruct (consumer s); try discriminate. by intros [= <-]%Ok_inj.
  - destruct (consumer s); try discriminate. by intros [= <-]%Ok_inj.
Qed.

(** ** Closing *)
Definition closing_distance (pc : ConsumerPc) : nat :=
  match pc with PDone => 0 | PCheck => 1 | PProcess _ => 2 | PRestore => 2 | PTake => 3 | PUnlock => 3 | PWoken => 4 | PBlocked => 5 | _ => 9 end.
Definition closer_distance (pc : CloserPc) : nat :=
  match pc with CJoined => 0 | CJoin => 1 | CUnlock => 2 | CSignal => 3 | CLock => 4 | CIdle => 5 end.
Definition closing_rank (s : Waiting) : nat :=
  closing_distance (consumer s) + listener_distance (listener s) + closer_distance (closer s).

Definition close_will_signal (s : Waiting) : bool := match closer s with CLock | CSignal => true | _ => false end.

(** The consumer is about to find the queue empty for the 256th time. *)
Definition enters_window (s : Waiting) : Prop := consumer s = PTake /\ idle_stage s = 255 /\ arrived s = taken s.

Record stopping (s : Waiting) : Prop := {
  stp_control : control s;
  stp_nodes : exists l, queued_nodes s l;
  stp_closing : w_closing s = true;
  stp_window : in_window s = false;
  stp_enters : ~ enters_window s;
  stp_signal : consumer s = PBlocked -> will_signal s || close_will_signal s = true
}.

(** One of the three threads can go on by itself. *)
Definition can_go_on (s : Waiting) : Prop := exists x s', (x = Consumer \/ x = Listener \/ x = Closer) /\ step x s = Ok (Some s').

Lemma stopping_enabled s : stopping s -> closer s = CJoined \/ can_go_on s.
Proof.
  intros [[Hf Ho Hc Hd Hi] (l & Hq) Hcl Hw _ Hs]. unfold owners in Ho. unfold in_window, will_signal, close_will_signal in *.
  assert (forall s', consumer_step s = Ok (Some s') -> can_go_on s) as Hcons
    by (intros s' H; exists Consumer, s'; split; [tauto|done]).
  assert (forall s', listener_step s = Ok (Some s') -> can_go_on s) as Hlist
    by (intros s' H; exists Listener, s'; split; [tauto|done]).
  assert (forall s', closer_step s = Ok (Some s') -> can_go_on s) as Hclose
    by (intros s' H; exists Closer, s'; split; [tauto|done]).
  unfold listener_step, closer_step, lock in *. destruct (consumer s) eqn:E; try discriminate.
  - right. eapply Hcons. unfold consumer_step. by rewrite E.
  - right. pose proof (take_nodes s _ Hq E) as Ht. destruct l as [|[p a] l]; [by eapply Hcons|]. destruct Ht as (q & Ht & _). by eapply Hcons.
  - right. destruct (process_nodes s _ _ Hq E) as (n & Ht & _). by eapply Hcons.
  - right. specialize (Hs eq_refl). cbn [w_mutex set_listener set_closer] in *.
    destruct (w_mutex s) eqn:Em, (listener s) eqn:El, (closer s) eqn:Ek; cbn in *; try discriminate; eauto.
  - right. destruct (w_mutex s) eqn:Em.
    + destruct (listener s) eqn:El, (closer s) eqn:Ek; cbn in *; try discriminate; eauto.
    + eapply Hcons. unfold consumer_step, lock. rewrite E. cbn. by rewrite Em.
  - right. eapply Hcons. unfold consumer_step. by rewrite E.
  - right. eapply Hcons. unfold consumer_step. by rewrite E.
  - cbn [w_mutex set_listener set_closer] in *. destruct (closer s) eqn:Ek; [congruence| | | |..]; try (right; eauto; fail); [|by left].
    right. destruct (w_mutex s) eqn:Em; [|eauto]. destruct (listener s) eqn:El; cbn in *; try discriminate; eauto.
Qed.

Lemma stopping_same s s' :
  stopping s -> control s' -> w_queue s' = w_queue s -> w_nodes s' = w_nodes s -> arrived s' = arrived s ->
  taken s' = taken s -> w_closing s' = true -> (forall p, consumer s' = PProcess p -> consumer s = PProcess p) ->
  in_window s' = false -> (consumer s' = PTake -> consumer s = PTake /\ idle_stage s' = idle_stage s) ->
  (consumer s' = PBlocked -> will_signal s' || close_will_signal s' = true) -> stopping s'.
Proof.
  intros [Hc (l & Hq) Hcl Hw He Hs] Hc' Hq' Hn Ha Ht Hcl' Hp Hw' He' Hs'.
  split; [done| |done|done| |done]; [exists l; by eapply queued_nodes_same|].
  intros (H1 & H2 & H3). apply He. destruct (He' H1) as [? ?]. split; [done|]. split; congruence.
Qed.

Lemma stopping_consumer s s' :
  stopping s -> control s' -> consumer_step s = Ok (Some s') -> stopping s' /\ (closing_rank s' < closing_rank s)%nat.
Proof.
  intros Hst Hc' Hstep. pose proof (stopping_same s s' Hst Hc') as Hsame. destruct Hst as [Hc (l & Hq) Hcl Hw He Hs].
  unfold closing_rank. unfold in_window in *. destruct (consumer s) eqn:E; try discriminate.
  2:{ pose proof (take_nodes s l Hq E) as Ht. destruct l as [|[p a] l].
      - assert (idle_stage s <> 255) as Hi.
        { intros H. apply He. split; [done|]. split; [done|]. rewrite (qn_arrived _ _ Hq). by rewrite app_nil_r. }
        rewrite (proj2 (Z.eqb_neq _ _) Hi) in Ht. rewrite Ht in Hstep. apply Ok_inj in Hstep as [= <-].
        split; [by apply Hsame|cbn; lia].
      - destruct Ht as (q & Ht & Hq'). rewrite Ht in Hstep. apply Ok_inj in Hstep as [= <-]. split; [|cbn; lia].
        split; try done; [by exists l|]. by intros (? & _). }
  2:{ destruct (process_nodes s _ _ Hq E) as (n & Ht & Hq'). rewrite Ht in Hstep. apply Ok_inj in Hstep as [= <-].
      split; [|cbn; lia]. split; try done; [by exists l|]. by intros (? & _). }
  all: unfold consumer_step, lock in Hstep; rewrite E, ?Hcl in Hstep; try discriminate; try destruct (w_mutex _); try discriminate;
    apply Ok_inj in Hstep as [= <-]; (split; [by apply Hsame|cbn; lia]).
Qed.

Lemma stopping_step x s s' :
  stopping s -> step x s = Ok (Some s') -> stopping s' /\ (closing_rank s' < closing_rank s + (if new_frame x then 5 else 0))%nat.
Proof.
  intros Hst Hstep. pose proof (step_control _ _ _ (stp_control _ Hst) Hstep) as Hc'.
  destruct x; cbn [step new_frame] in *; rewrite ?Nat.add_0_r; [by eapply stopping_consumer|..].
  all: pose proof (stopping_same s s' Hst Hc') as Hsame; destruct Hst as [Hc (l & Hq) Hcl Hw He Hs].
  all: pose proof (ctl_closing _ Hc) as Hk; pose proof (ctl_flag _ Hc) as Hf.
  all: unfold closing_rank; unfold in_window, will_signal, close_will_signal in *.
  - destruct (listener s) eqn:El; [|unfold arrive in Hstep; by rewrite El in Hstep..].
    destruct (arrive_nodes s l a Hq El) as (q & nodes & n & H & Hq'). rewrite H in Hstep. apply Ok_inj in Hstep as [= <-].
    split; [|cbn; lia]. split; cbn; try done; [by eexists|]. intros (_ & _ & Ha). cbn in Ha.
    apply (f_equal length) in Ha. rewrite (qn_arrived _ _ Hq), !length_app in Ha. cbn in Ha. lia.
  - unfold listener_step, lock, signal_cond in Hstep. destruct (listener s) eqn:El; try discriminate; try destruct (w_mutex _); try discriminate;
      apply Ok_inj in Hstep as [= <-]; try rewrite Hf in *;
      destruct (consumer s) eqn:E; cbn in *; try discriminate; rewrite ?E in *; (split; [apply Hsame; cbn; rewrite ?E; naive_solver|cbn; lia]).
  - unfold closer_step, lock, signal_cond in Hstep. destruct (closer s) eqn:El; try congruence; try destruct (w_mutex _); try discriminate;
      try (apply Ok_inj in Hstep as [= <-]);
      destruct (consumer s) eqn:E; cbn in *; try discriminate; try (apply Ok_inj in Hstep as [= <-]); rewrite ?E in *; cbn in *;
      (split; [apply Hsame; cbn; rewrite ?E; try done; naive_solver|cbn; rewrite ?E; cbn; lia]).
  - destruct (consumer s) eqn:E; try discriminate. apply Ok_inj in Hstep as [= <-]. split; [by apply Hsame|cbn; lia].
Qed.

(** No state of the threads is lost: the packets that arrived are the packets taken
    and the packets queued, in order, and no step of any thread faults. *)
Lemma wakeup_queue_sound s : reachable s -> (exists rest, arrived s = taken s ++ rest) /\ forall x, is_ok (step x s) = true.
Proof.
  intros [_ [l Hq]]%reachable_inv. split; [exists (map snd l); apply Hq|]. intros x.
  by destruct (step_nodes x s l Hq) as (o & -> & _).
Qed.

(** The closer joins only a consumer that has returned, and then neither moves. *)
Lemma joined_stays x s s' : closer s = CJoined -> consumer s = PDone -> step x s = Ok (Some s') -> closer s' = CJoined /\ consumer s' = PDone.
Proof.
  intros H1 H2. destruct x; cbn [step]; unfold consumer_step, arrive, listener_step, closer_step, lock, signal_cond; rewrite ?H1, ?H2; try discriminate.
  - destruct (listener s); try discriminate. cbn. by intros ([q n] & _ & [= <-]%Ok_inj)%bind_ok.
  - destruct (listener s); try discriminate; cbn; try (destruct (w_mutex s); [discriminate|]); intros [= <-]%Ok_inj; by rewrite ?H2.
Qed.

Lemma reachable_joined s : reachable s -> closer s = CJoined -> consumer s = PDone.
Proof.
  induction 1 as [|x s s' Hr IH Hs]; [done|]. destruct (decide (closer s = CJoined)) as [Hj|Hj].
  { intros _. by eapply joined_stays; [| |exact Hs]; auto. }
  destruct x; cbn [step] in Hs; unfold consumer_step, arrive, listener_step, closer_step, lock, signal_cond in Hs.
  - destruct (consumer s); try discriminate; cbn in Hs; try (destruct (w_mutex s); [discriminate|]);
      try (apply Ok_inj in Hs as [= <-]; done).
    + apply bind_ok in Hs as ([o q] & _ & H). destruct o; [apply bind_ok in H as (n & _ & H)|destruct (_ =? _)]; apply Ok_inj in H as [= <-]; done.
    + by apply bind_ok in Hs as (n & _ & [= <-]%Ok_inj).
  - destruct (listener s); try discriminate. cbn in Hs. by apply bind_ok in Hs as ([q n] & _ & [= <-]%Ok_inj).
  - destruct (listener s); try discriminate; cbn in Hs; try (destruct (w_mutex s); [discriminate|]); apply Ok_inj in Hs as [= <-]; try done.
    by destruct (consumer s).
  - destruct (closer s); try discriminate; cbn in Hs; try (destruct (w_mutex s); [discriminate|]);
      try (apply Ok_inj in Hs as [= <-]; try done; by destruct (consumer s)).
    destruct (consumer s) eqn:E; try discriminate. by apply Ok_inj in Hs as [= <-].
  - destruct (consumer s); try discriminate. by apply Ok_inj in Hs as [= <-].
Qed.

End wakeup.
Arguments Waiting : clear implicits.
Arguments actor : clear implicits.

(** C12 An arriving packet is taken.  Let a packet arrive in any reachable state in which
    the endpoint is not being closed and the consumer does not stand between a look at the
    empty queue that made it decide to sleep and the wait ([in_window]); it may be asleep,
    even with older packets queued.  Then under every schedule of consumer and listener,
    further frames and spurious wake-ups included but not a close, either the packet and all
    older ones were taken, in the order of arrival, or the schedule is still shorter than 11
    steps, 3 more for each packet waiting and 5 for each further frame, and the consumer or the
    listener can go on.  No step of any thread faults.  (For an arrival inside the window
    see [wakeup_can_be_lost].) *)
Theorem queued_packet_is_taken {A} (s s1 s2 : Waiting A) (a : A) (xs : list (actor A)) :
  reachable s -> w_closing s = false -> in_window s = false -> step (Arrive a) s = Ok (Some s1) ->
  (forall x, x ∈ xs -> x <> Closer) -> run xs s1 = Ok (Some s2) ->
  (arrived s ++ [a] `prefix_of` taken s2
   \/ (length xs < 11 + 3 * (length (arrived s ++ [a]) - length (taken s)) + 5 * new_frames xs)%nat
      /\ exists x s3, (x = Consumer \/ x = Listener) /\ step x s2 = Ok (Some s3))
  /\ forall x, is_ok (step x s2) = true.
Proof.
  intros Hr Hcl Hw Harr Hxs Hrun.
  assert (reachable s1) as Hr1 by (by eapply reach_step). split; [|eapply wakeup_queue_sound, run_reachable; [exact Hr1|exact Hrun]].
  destruct (reachable_inv s Hr) as [Hc [l Hq]]. pose proof (step_control _ _ _ Hc Harr) as Hc1. cbn [step] in Harr.
  destruct (listener s) eqn:El; [|unfold arrive in Harr; by rewrite El in Harr..].
  destruct (arrive_nodes s l a Hq El) as (q & nodes & n & H & Hq1). rewrite H in Harr. apply Ok_inj in Harr as [= <-].
  pose proof (qn_arrived _ _ Hq) as Ha. pose proof (f_equal length Ha) as Hla. rewrite length_app in Hla.
  assert (attended (arrived s ++ [a]) (set_listener LLoad (set_queue q nodes (arrived s ++ [a]) (taken s) s))) as Hatt.
  { split; cbn; try done; [by eexists|rewrite length_app; cbn; lia]. }
  destruct (run_rank (fun x => x <> Closer) (fun s' => arrived s ++ [a] `prefix_of` taken s') (attended (arrived s ++ [a]))
    (attention_rank (arrived s ++ [a]))) with (xs := xs) (s := set_listener LLoad (set_queue q nodes (arrived s ++ [a]) (taken s) s)) (s' := s2)
    as [?|[Hg Hlen]]; try done.
  - intros x s' s'' Hp Hs. etransitivity; [exact Hp|by eapply step_taken].
  - intros x s' s'' Hg Hx Hs. by apply attended_step.
  - by left.
  - right. split; [|by apply (attended_enabled _ _ Hg)].
    pose proof (att_taken _ _ Hg). unfold attention_rank in Hlen at 2. cbn in Hlen.
    unfold in_window in Hw. destruct (consumer s); cbn in Hw, Hlen; try discriminate; lia.
Qed.

(** C13 A closed endpoint's thread ends.  Let [close_threads] be called in any reachable
    state in which the consumer does not stand between the look at the empty queue that
    made it decide to sleep and the wait ([in_window]), nor right before such a look
    ([enters_window]); it may be asleep.  Then under every schedule of consumer, listener
    and closer, new frames and spurious wake-ups included, either the consumer has returned
    and [close_threads] has joined it, or the schedule is still shorter than 15 steps and 5
    more for each new frame, and one of the threads can go on.  (For a close inside the
    window see [wakeup_can_be_lost].) *)
Theorem closed_thread_is_joined {A} (s s1 s2 : Waiting A) (xs : list (actor A)) :
  reachable s -> closer s = CIdle -> in_window s = false -> ~ enters_window s -> step Closer s = Ok (Some s1) ->
  run xs s1 = Ok (Some s2) ->
  (closer s2 = CJoined /\ consumer s2 = PDone) \/ (length xs < 15 + 5 * new_frames xs)%nat /\ can_go_on s2.
Proof.
  intros Hr Hk Hw He Hclose Hrun. destruct (reachable_inv s Hr) as [Hc [l Hq]]. pose proof (step_control _ _ _ Hc Hclose) as Hc1.
  assert (reachable s2) as Hr2 by (eapply run_reachable; [|exact Hrun]; by eapply reach_step).
  cbn [step] in Hclose. unfold closer_step in Hclose. rewrite Hk in Hclose. apply Ok_inj in Hclose as [= <-].
  assert (stopping (set_closer CLock (set_closing s))) as Hst.
  { split; try done; [exists l; by eapply queued_nodes_same|]. intros _. cbn. by rewrite orb_true_r. }
  destruct (run_rank (fun _ => True) (fun s' : Waiting A => closer s' = CJoined /\ consumer s' = PDone) stopping closing_rank) with (xs := xs)
    (s := set_closer CLock (set_closing s)) (s' := s2) as [?|[Hg Hlen]]; try done.
  - intros x s' s'' [H1 H2] Hs. by eapply joined_stays.
  - intros x s' s'' Hg _ Hs. right. by apply stopping_step.
  - by left.
  - destruct (stopping_enabled s2 Hg) as [Hj|Hgo]; [left; split; [done|by apply reachable_joined]|].
    right. split; [|done]. unfold closing_rank in Hlen at 2. cbn in Hlen. unfold in_window in Hw.
    assert (0 < closing_rank s2)%nat.
    { destruct Hgo as (x & s3 & Hx & Hs). pose proof (stopping_step x s2 s3 Hg Hs) as [_ Hlt]. destruct Hx as [->|[->| ->]]; cbn in Hlt; lia. }
    destruct (consumer s), (listener s); cbn in Hw, Hlen; try discriminate; lia.
Qed.

(** Polls that find the queue empty, up to the decision to sleep. *)
Definition falling_asleep {A} : list (actor A) := concat (repeat [Consumer; Consumer] 256).

Definition after {A} (xs : list (actor A)) : Waiting A :=
  match run xs start with Ok (Some s) => s | _ => start end.

Lemma after_reachable {A} (xs : list (actor A)) : reachable (after xs).
Proof.
  unfold after. destruct (run xs start) as [[s|]| | |] eqn:E; try apply reach_start. eapply run_reachable; [apply reach_start|exact E].
Qed.

Lemma scheduled {A} (xs : list (actor A)) (P : Waiting A -> Prop) :
  match run xs start with Ok (Some s) => P s | _ => False end ->
  exists s, run xs start = Ok (Some s) /\ reachable s /\ P s.
Proof.
  destruct (run xs start) as [[s|]| | |] eqn:E; try done. intros HP. exists s. split; [done|]. split; [|done].
  eapply run_reachable; [apply reach_start|exact E].
Qed.

(** The consumer is asleep when the packet arrives; after the listener's four steps and
    five of its own it has taken it. *)
Definition waking : list (actor Z) := [Listener; Listener; Listener; Listener; Consumer; Consumer; Consumer; Consumer].

Lemma queued_packet_is_taken_witness :
  exists s1 s2 : Waiting Z, let s := after (falling_asleep ++ [Consumer; Consumer; Consumer]) in
  consumer s = PBlocked /\ step (Arrive 7) s = Ok (Some s1) /\ run waking s1 = Ok (Some s2) /\
  ([7] `prefix_of` taken s2
   \/ (length waking < 11 + 3 * 1 + 5 * new_frames waking)%nat
      /\ exists x s3, (x = Consumer \/ x = Listener) /\ step x s2 = Ok (Some s3))
  /\ forall x, is_ok (step x s2) = true.
Proof.
  eexists _, _. split; [vm_compute; reflexivity|]. split; [vm_compute; reflexivity|]. split; [vm_compute; reflexivity|].
  eapply (queued_packet_is_taken (after (falling_asleep ++ [Consumer; Consumer; Consumer])) _ _ 7 waking);
    [apply after_reachable|vm_compute; reflexivity..| |vm_compute; reflexivity].
  intros x. unfold waking. rewrite !elem_of_cons, elem_of_nil. intuition congruence.
Defined.

(** The consumer is asleep when [close_threads] is called. *)
Definition closing_run : list (actor Z) := [Closer; Closer; Closer; Consumer; Consumer; Consumer; Consumer; Closer].

Lemma closed_thread_is_joined_witness :
  exists s1 s2 : Waiting Z, let s := after (falling_asleep ++ [Consumer; Consumer; Consumer]) in
  consumer s = PBlocked /\ step Closer s = Ok (Some s1) /\ run closing_run s1 = Ok (Some s2) /\
  ((closer s2 = CJoined /\ consumer s2 = PDone) \/ (length closing_run < 15 + 5 * new_frames closing_run)%nat /\ can_go_on s2).
Proof.
  eexists _, _. split; [vm_compute; reflexivity|]. split; [vm_compute; reflexivity|]. split; [vm_compute; reflexivity|].
  eapply (closed_thread_is_joined (after (falling_asleep ++ [Consumer; Consumer; Consumer])) _ _ closing_run);
    [apply after_reachable|vm_compute; reflexivity..| |vm_compute; reflexivity|vm_compute; reflexivity].
  intros [H _]. vm_compute in H. discriminate.
Defined.

(** C36 The lost wake-up.  A packet that arrives after the consumer found its queue
    empty for the 256th time and before it sleeps is not taken: the listener still
    sees [processing_packets] set, or its signal finds nobody waiting.  The reachable
    state has the packet queued, the consumer asleep and the listener idle, and no
    step of consumer or listener is possible; only another frame, a spurious wake-up
    or a close gets the packet processed or dropped.  In the same way a call of [close_threads] in that
    window leaves the consumer asleep and the join waiting for ever. *)
Theorem wakeup_can_be_lost {A} (a b : A) :
  (exists s : Waiting A, run (falling_asleep ++ [Arrive a; Listener; Consumer; Consumer; Consumer]) start = Ok (Some s)
     /\ reachable s /\ arrived s = [a] /\ taken s = [] /\ consumer s = PBlocked
     /\ step Consumer s = Ok None /\ step Listener s = Ok None
     /\ exists s', run [Arrive b; Listener; Listener; Listener; Listener; Consumer; Consumer; Consumer; Consumer; Consumer] s = Ok (Some s')
          /\ taken s' = [a])
  /\ (exists s : Waiting A, run (falling_asleep ++ [Consumer; Arrive a; Listener; Listener; Listener; Listener; Consumer; Consumer]) start = Ok (Some s)
     /\ reachable s /\ arrived s = [a] /\ taken s = [] /\ consumer s = PBlocked
     /\ step Consumer s = Ok None /\ step Listener s = Ok None)
  /\ (exists s : Waiting A, run (falling_asleep ++ [Closer; Closer; Closer; Closer; Consumer; Consumer; Consumer]) start = Ok (Some s)
     /\ reachable s /\ closer s = CJoin /\ consumer s = PBlocked
     /\ step Consumer s = Ok None /\ step Listener s = Ok None /\ step Closer s = Ok None).
Proof.
  split; [|split]; (apply scheduled; vm_compute); repeat (split; [reflexivity|]); [|reflexivity..].
  eexists. split; reflexivity.
Qed.
