(* ===== verification/Service.v ===== *)
(** * The background service and the closing of the listeners

    src/src/memory_cleanup_background_service.c walks, every five seconds, over the
    listeners, their connections and the completed packets of each, marks the packets
    it sees and drops those marked a round before; [close_listeners] of
    src/src/cleanup_swiftnet.c walks over the listeners when the library is closed.
    Both walk with [LOOP_HASHMAP].  The tables here are the hash maps of Hashmap.v
    themselves, not the association lists that stand for them elsewhere. *)

From S2P Require Import Prelude Store Hashmap HashmapSpec HashmapLoop Receiver.

(** The two tables of a listener. *)
Record ListenerTables := mk_listener_tables {
  lt_network : list Z;
  lt_servers : SwiftNetHashMap;
  lt_clients : SwiftNetHashMap
}.

(** What the service reaches: the pools behind the maps, the records of completed
    packets, the [packets_completed] tables of clients and servers, the listeners. *)
Record Service := mk_service {
  svc_heap : MapHeap;
  svc_completed : Store SwiftNetPacketCompleted;
  svc_clients : Store SwiftNetHashMap;
  svc_servers : Store SwiftNetHashMap;
  svc_tables : Store ListenerTables;
  svc_listeners : SwiftNetHashMap
}.

Definition set_client_history (l : loc) (m : SwiftNetHashMap) (h : MapHeap) (c : Store SwiftNetPacketCompleted) (s : Service) : Service :=
  mk_service h c (<[l := m]> (svc_clients s)) (svc_servers s) (svc_tables s) (svc_listeners s).
Definition set_server_history (l : loc) (m : SwiftNetHashMap) (h : MapHeap) (c : Store SwiftNetPacketCompleted) (s : Service) : Service :=
  mk_service h c (svc_clients s) (<[l := m]> (svc_servers s)) (svc_tables s) (svc_listeners s).

Section service.
Context (seed : Z) (fuel : nat).

(** One visited entry of a table of completed packets. *)
Definition cleanup_visit (p : item_ptr) (st : SwiftNetHashMap * MapHeap * Store SwiftNetPacketCompleted)
    : Outcome (SwiftNetHashMap * MapHeap * Store SwiftNetPacketCompleted) :=
  let '(m, h, c) := st in
  x ← read_item p m h;
  hashmap_data ← of_option (item_value x);
  d ← store_get hashmap_data c;
  if marked_cleanup d then
    k ← of_option (key_original_data x);
    stored ← store_get k (map_keys h);
    key ← mem_read 0 (key_original_data_size x) stored;
    '(m, h) ← hashmap_remove seed key m h;
    c ← store_free hashmap_data c;
    Ok (m, h, c)
  else
    c ← store_set hashmap_data (mk_packet_completed (completed_packet_id d) true) c;
    Ok (m, h, c).

Definition history_next (p : item_ptr) (st : SwiftNetHashMap * MapHeap * Store SwiftNetPacketCompleted) : Outcome (option loc) :=
  let '(m, h, _) := st in x ← read_item p m h; Ok (item_next x).

Definition cleanup_packets_completed (m : SwiftNetHashMap) (h : MapHeap) (c : Store SwiftNetPacketCompleted)
    : Outcome (SwiftNetHashMap * MapHeap * Store SwiftNetPacketCompleted) :=
  LOOP_HASHMAP cleanup_visit history_next fuel m (m, h, c).

(** The next item of a table that the loop's body does not change. *)
Definition table_next (m : SwiftNetHashMap) (heap_of : Service -> MapHeap) (p : item_ptr) (s : Service) : Outcome (option loc) :=
  x ← read_item p m (heap_of s); Ok (item_next x).

Definition cleanup_client (table : SwiftNetHashMap) (p : item_ptr) (s : Service) : Outcome Service :=
  x ← read_item p table (svc_heap s);
  client_connection ← of_option (item_value x);
  m ← store_get client_connection (svc_clients s);
  '(m, h, c) ← cleanup_packets_completed m (svc_heap s) (svc_completed s);
  Ok (set_client_history client_connection m h c s).

Definition cleanup_server (table : SwiftNetHashMap) (p : item_ptr) (s : Service) : Outcome Service :=
  x ← read_item p table (svc_heap s);
  server ← of_option (item_value x);
  m ← store_get server (svc_servers s);
  '(m, h, c) ← cleanup_packets_completed m (svc_heap s) (svc_completed s);
  Ok (set_server_history server m h c s).

Definition handle_listener (current_listener : ListenerTables) (s : Service) : Outcome Service :=
  let client_connections := lt_clients current_listener in
  let servers := lt_servers current_listener in
  s ← LOOP_HASHMAP (cleanup_client client_connections) (table_next client_connections svc_heap) fuel client_connections s;
  LOOP_HASHMAP (cleanup_server servers) (table_next servers svc_heap) fuel servers s.

Definition visit_listener (p : item_ptr) (s : Service) : Outcome Service :=
  x ← read_item p (svc_listeners s) (svc_heap s);
  l ← of_option (item_value x);
  li ← store_get l (svc_tables s);
  handle_listener li s.

(** The loop of the service; [closing] is what each load of [swiftnet_closing] gives,
    the time between two rounds does not matter to the tables. *)
Fixpoint memory_cleanup_background_service (closing : list bool) (s : Service) : Outcome Service :=
  match closing with
  | [] => Ok s
  | true :: _ => Ok s
  | false :: closing =>
      s ← LOOP_HASHMAP visit_listener (table_next (svc_listeners s) svc_heap) fuel (svc_listeners s) s;
      memory_cleanup_background_service closing s
  end.

(** [close_listeners]: the state is the pools and the capture handles closed so far. *)
Definition close_listener (listeners : SwiftNetHashMap) (tables : Store ListenerTables) (p : item_ptr) (st : MapHeap * list (list Z))
    : Outcome (MapHeap * list (list Z)) :=
  let '(h, closed) := st in
  x ← read_item p listeners h;
  l ← of_option (item_value x);
  current_listener ← store_get l tables;
  let closed := closed ++ [lt_network current_listener] in
  h ← hashmap_destroy (lt_clients current_listener) h;
  h ← hashmap_destroy (lt_servers current_listener) h;
  Ok (h, closed).

Definition close_listeners (s : Service) : Outcome (MapHeap * list (list Z)) :=
  '(h, closed) ← LOOP_HASHMAP (close_listener (svc_listeners s) (svc_tables s))
                   (fun p st => x ← read_item p (svc_listeners s) st.1; Ok (item_next x)) fuel (svc_listeners s) (svc_heap s, []);
  h ← hashmap_destroy (svc_listeners s) h;
  Ok (h, closed).
End service.

(** ** Maps that were never resized

    A map made by insertions that stay below its capacity, and removals, on whatever
    state of the pools it shares with the other maps. *)
Inductive unresized (seed : Z) (calloc_ok : Z -> bool) : SwiftNetHashMap -> Prop :=
| unresized_create : unresized seed calloc_ok (hashmap_create calloc_ok)
| unresized_insert m h k n v m' h' :
    unresized seed calloc_ok m -> u32 (hm_size m + 1) < hm_capacity m ->
    hashmap_insert seed calloc_ok k n v m h = Ok (m', h') -> unresized seed calloc_ok m'
| unresized_remove m h key m' h' :
    unresized seed calloc_ok m -> hashmap_remove seed key m h = Ok (m', h') -> unresized seed calloc_ok m'.

Lemma unresized_words seed calloc_ok m :
  calloc_ok 10 = true -> unresized seed calloc_ok m ->
  words_zero m /\ hm_capacity m = 320 /\ length (item_occupation m) = 10%nat.
Proof.
  intros Hcal. induction 1 as [|m h k n v m' h' _ (Hz & Hc & Hl) Hlt Hi|m h key m' h' _ (Hz & Hc & Hl) Hr].
  - unfold words_zero, hashmap_create, calloc_words. cbn [item_occupation hm_capacity].
    change ((0x40 * SWIFT_NET_MEMORY_USAGE + 31) / 32) with 10. rewrite Hcal. by repeat constructor.
  - pose proof (hashmap_insert_length _ _ _ _ _ _ _ _ _ Hi Hlt) as Hl'.
    destruct (hashmap_insert_words _ _ _ _ _ _ _ _ _ Hi Hz Hlt) as [? ?]. split; [done|]. split; congruence.
  - pose proof (hashmap_remove_length _ _ _ _ _ _ Hr) as Hl'.
    destruct (hashmap_remove_words _ _ _ _ _ _ Hr Hz) as [? ?]. split; [done|]. split; congruence.
Qed.

Lemma loop_unresized {S} (body : item_ptr -> S -> Outcome S) next_of seed calloc_ok fuel m s :
  calloc_ok 10 = true -> unresized seed calloc_ok m -> LOOP_HASHMAP body next_of fuel m s = Ok s.
Proof.
  intros Hcal (Hz & Hc & Hl)%unresized_words; [|done]. unfold LOOP_HASHMAP. rewrite Hc.
  change (Z.to_nat (u32 (320 + 31) / 32)) with 10%nat.
  apply loop_words_ok; [lia|by eapply Forall_impl; [exact Hz|]; cbn; lia|]. split; [done|].
  intros j Hj. destruct (lookup_lt_is_Some_2 (item_occupation m) (Z.to_nat j)) as [w Hw]; [lia|].
  rewrite Hw. f_equal. by eapply Forall_lookup_1 in Hz.
Qed.

(** ** What a visit does, and that none is made *)

(** The first visit to a completed packet marks it, the second takes it out of the
    table and frees its record. *)
Lemma cleanup_visit_marks seed p m h c e next id :
  read_item p m h = Ok (item_of e next) -> c !! e_value e = Some (mk_packet_completed id false) ->
  cleanup_visit seed p (m, h, c) = Ok (m, h, <[e_value e := mk_packet_completed id true]> c).
Proof.
  intros Hx Hc. unfold cleanup_visit. rewrite Hx, bind_Ok. cbn [item_of item_value of_option]. rewrite bind_Ok.
  rewrite (proj2 (store_get_ok _ _ _) Hc), bind_Ok. cbn [marked_cleanup]. by rewrite (store_set_ok _ _ _ _ Hc), bind_Ok.
Qed.

Lemma cleanup_visit_drops seed p m h c bs e next id :
  map_ok seed m h bs -> e ∈ all_entries bs -> read_item p m h = Ok (item_of e next) ->
  c !! e_value e = Some (mk_packet_completed id true) ->
  exists m' h' bs', cleanup_visit seed p (m, h, c) = Ok (m', h', delete (e_value e) c) /\ map_ok seed m' h' bs'
    /\ forall k, under k (all_entries bs') = if decide (k = e_key e) then tail (under k (all_entries bs)) else under k (all_entries bs).
Proof.
  intros Hok He Hx Hc. unfold cleanup_visit. rewrite Hx, bind_Ok. cbn [item_of item_value of_option]. rewrite bind_Ok.
  rewrite (proj2 (store_get_ok _ _ _) Hc), bind_Ok. cbn [marked_cleanup item_of key_original_data key_original_data_size of_option].
  rewrite bind_Ok. pose proof (proj1 (all_live Hok) e He) as Hk. rewrite (proj2 (store_get_ok _ _ _) Hk), bind_Ok.
  rewrite mem_read_ok, bind_Ok by lia. rewrite Nat2Z.id. change (Z.to_nat 0) with 0%nat. rewrite slice_full.
  destruct (hashmap_remove_ok seed (e_key e) m h bs Hok) as (m' & h' & bs' & -> & Hok' & Hu & _).
  { intros Hn. assert (e ∈ under (e_key e) (all_entries bs)) as Hin by (apply list_elem_of_filter; by split).
    rewrite Hn in Hin. by apply not_elem_of_nil in Hin. }
  rewrite bind_Ok, (store_free_ok _ _ _ Hc), bind_Ok. exists m', h', bs'. split; [done|]. split; [done|].
  intros k. rewrite Hu. by case_decide; subst.
Qed.

(** C37 The history of completed packets is never cleaned.  As long as the tables did
    not outgrow their first 320 slots, the service leaves every table, record and pool
    as it is, however many rounds it runs: the walk over the listeners visits no
    listener, and neither would the walks over a listener's connections or over a
    table of completed packets visit an entry.  For the same reason closing the
    library closes no listener's capture handle; only the table itself is destroyed. *)
Theorem history_is_never_cleaned seed calloc_ok fuel s bs rounds :
  calloc_ok 10 = true -> unresized seed calloc_ok (svc_listeners s) -> map_ok seed (svc_listeners s) (svc_heap s) bs ->
  memory_cleanup_background_service seed fuel rounds s = Ok s
  /\ (forall li, unresized seed calloc_ok (lt_clients li) -> unresized seed calloc_ok (lt_servers li) ->
        handle_listener seed fuel li s = Ok s)
  /\ (forall m, unresized seed calloc_ok m ->
        cleanup_packets_completed seed fuel m (svc_heap s) (svc_completed s) = Ok (m, svc_heap s, svc_completed s))
  /\ exists h', close_listeners fuel s = Ok (h', []).
Proof.
  intros Hcal Hl Hok. split; [|split; [|split]].
  - induction rounds as [|[] rounds IH]; [done|done|]. cbn [memory_cleanup_background_service].
    by rewrite (loop_unresized _ _ seed calloc_ok), bind_Ok by done.
  - intros li Hc Hs. unfold handle_listener. cbv zeta. rewrite (loop_unresized _ _ seed calloc_ok _ _ _ Hcal Hc), bind_Ok.
    apply (loop_unresized _ _ seed calloc_ok _ _ _ Hcal Hs).
  - intros m Hm. apply (loop_unresized _ _ seed calloc_ok _ _ _ Hcal Hm).
  - unfold close_listeners. rewrite (loop_unresized _ _ seed calloc_ok _ _ _ Hcal Hl), bind_Ok.
    destruct (hashmap_destroy_ok seed _ _ _ Hok) as (h' & -> & _). by exists h'.
Qed.

(** One listener, under the name of its interface, and a completed packet due to be
    dropped. *)
Definition sample_service : Service :=
  match map_step 7 (fun _ => true) (hashmap_create (fun _ => true), mk_heap ∅ ∅) (MapInsert [101; 116; 104; 48] 1%positive) with
  | Ok (_, (m, h)) => mk_service h {[ 1%positive := mk_packet_completed 9 true ]} ∅ ∅ ∅ m
  | _ => mk_service (mk_heap ∅ ∅) ∅ ∅ ∅ ∅ (hashmap_create (fun _ => true))
  end.

Lemma history_is_never_cleaned_witness :
  hm_size (svc_listeners sample_service) = 1 /\
  memory_cleanup_background_service 7 50 [false; false; false] sample_service = Ok sample_service.
Proof.
  split; [vm_compute; reflexivity|]. pose proof (create_in_step 7 (fun _ => true) (fun _ => eq_refl) (mk_heap ∅ ∅)) as H0.
  destruct (insert_in_step 7 (fun _ => true) (fun _ => eq_refl) [] [] _ _ [101; 116; 104; 48] 1%positive H0) as ([m h] & E & (bs & Hok & _));
    [split; [done|]; split; [by repeat constructor|done]|done|].
  unfold sample_service. rewrite E. cbn [fst snd] in Hok. cbn [map_step store_alloc] in E. apply bind_ok in E as ([m1 h1] & E & [= -> ->]).
  apply (history_is_never_cleaned 7 (fun _ => true) 50 (mk_service h _ ∅ ∅ ∅ m) bs [false; false; false]); [done| |exact Hok].
  cbn [svc_listeners]. eapply unresized_insert; [apply unresized_create| |exact E]. done.
Defined.
