(* ===== verification/Library.v ===== *)
(** * The life of the library

    [swiftnet_initialize] (src/src/initialize_swiftnet.c) asks the system for address,
    interface and transmission unit, creates the thirteen pools and the two global
    tables; [swiftnet_cleanup] (src/src/cleanup_swiftnet.c) destroys them and, in the
    testing build, reports what was never given back.  The answers of the system are
    an [Environment]; the sizes of the structures are those of the platform.  The chained
    items and the keys of the hash maps are items of the pools: destroying a map frees them
    there. *)

From S2P Require Import Prelude Store Hashmap HashmapSpec HashmapLoop Wire Allocator Receiver Service.

Inductive PoolName :=
| packet_queue_node_memory_allocator | packet_callback_queue_node_memory_allocator
| server_packet_data_memory_allocator | client_packet_data_memory_allocator
| packet_buffer_memory_allocator | server_memory_allocator | client_connection_memory_allocator
| listener_memory_allocator | hashmap_item_memory_allocator | uint16_memory_allocator
| pending_message_key_allocator | packet_completed_key_allocator | requests_sent_memory_allocator.

#[export] Instance pool_name_eq_dec : EqDecision PoolName.
Proof. solve_decision. Defined.

Abbreviation Pools := (list (PoolName * SwiftNetMemoryAllocator)).

(** What the system calls answer. *)
Record Environment := mk_environment {
  env_socket : bool;
  env_connect : bool;
  env_sockname : option Z;
  env_interface : option (list Z * list Z);
  env_mtu : Z;
  env_seed : Z
}.

Record Library := mk_library {
  lib_private_ip_address : Z;
  lib_default_network_interface : list Z;
  lib_mac_address : list Z;
  lib_maximum_transmission_unit : Z;
  lib_seed : Z;
  lib_closing : bool;
  lib_pools : Pools;
  lib_requests_sent : SwiftNetHashMap;
  lib_listeners : SwiftNetHashMap
}.

Section library.
Context (internal_testing : bool) (calloc_ok : Z -> bool) (sizeof : PoolName -> Z).

(** The arguments of [allocator_create] in [initialize_allocators]. *)
Definition pool_item_size (mtu : Z) (n : PoolName) : Z :=
  match n with
  | packet_buffer_memory_allocator => mtu + sizeof_ether_header
  | uint16_memory_allocator => 2
  | pending_message_key_allocator | packet_completed_key_allocator => 4
  | _ => sizeof n
  end.

Definition pool_item_amount (n : PoolName) : Z :=
  match n with
  | server_memory_allocator | client_connection_memory_allocator => 10
  | hashmap_item_memory_allocator | uint16_memory_allocator | pending_message_key_allocator
  | packet_completed_key_allocator => 0xFF * SWIFT_NET_MEMORY_USAGE
  | _ => 40 * SWIFT_NET_MEMORY_USAGE
  end.

Definition pool_order : list PoolName :=
  [packet_queue_node_memory_allocator; packet_callback_queue_node_memory_allocator; server_packet_data_memory_allocator;
   client_packet_data_memory_allocator; packet_buffer_memory_allocator; server_memory_allocator;
   client_connection_memory_allocator; listener_memory_allocator; hashmap_item_memory_allocator; uint16_memory_allocator;
   pending_message_key_allocator; packet_completed_key_allocator; requests_sent_memory_allocator].

Fixpoint create_pools (mtu : Z) (names : list PoolName) (sys : System) : Outcome (Pools * System) :=
  match names with
  | [] => Ok ([], sys)
  | n :: names =>
      '(a, sys) ← allocator_create internal_testing sys (pool_item_size mtu n) (pool_item_amount n);
      '(ps, sys) ← create_pools mtu names sys;
      Ok ((n, a) :: ps, sys)
  end.

Definition initialize_allocators (mtu : Z) (sys : System) : Outcome (Pools * System) := create_pools mtu pool_order sys.

(** [initialize_vectors] *)
Definition initialize_vectors : SwiftNetHashMap * SwiftNetHashMap := (hashmap_create calloc_ok, hashmap_create calloc_ok).

Definition swiftnet_initialize (env : Environment) (sys : System) : Outcome (Library * System) :=
  if negb (env_socket env) then Exit
  else if negb (env_connect env) then Exit
  else match env_sockname env with
  | None => Exit
  | Some private_ip =>
      match env_interface env with
      | None => Exit
      | Some (interface, mac) =>
          if env_mtu env =? 0 then Exit
          else
            '(pools, sys) ← initialize_allocators (env_mtu env) sys;
            let '(requests_sent, listeners) := initialize_vectors in
            Ok (mk_library private_ip interface mac (env_mtu env) (env_seed env) false pools requests_sent listeners, sys)
      end
  end.



(** *** Maps in the pools

    [node_at] and [key_at] are the addresses of the chained items and of the keys. *)
Context (node_at key_at : loc -> ptr).









End library.

(** ** Debug flags (src/src/manipulate_debug_flags.c, [check_debug_flag]) *)
Definition swiftnet_add_debug_flags (flags debugger_flags : Z) : Z := Z.lor debugger_flags flags.
Definition swiftnet_remove_debug_flags (flags debugger_flags : Z) : Z := Z.land debugger_flags (Z.lnot flags).
Definition check_debug_flag (flag debugger_flags : Z) : bool := negb (Z.land debugger_flags flag =? 0).


(** A pool stays sound when the system hands out further blocks. *)
Lemma allocator_ok_later it sys sys' a ss live :
  (next_block sys <= next_block sys')%positive -> allocator_ok it sys a ss live -> allocator_ok it sys' a ss live.
Proof.
  intros Hle ([] & Ho & Hs). split; [|by split]. constructor; try done. intros s Hin. specialize (ok_fresh s Hin). lia.
Qed.

Lemma create_later it sys isz n a sys' : allocator_create it sys isz n = Ok (a, sys') -> (next_block sys <= next_block sys')%positive.
Proof.
  unfold allocator_create, calloc_status, malloc. cbn. intros H. repeat (case_match; try done); simplify_eq; cbn; lia.
Qed.

Definition sizes_ok (sizeof : PoolName -> Z) : Prop := forall n, 0 < sizeof n <= 65536.

Lemma pool_sizes sizeof mtu n : sizes_ok sizeof -> 0 < mtu < 65536 ->
  0 < pool_item_size sizeof mtu n /\ 0 < pool_item_amount n /\ pool_item_size sizeof mtu n * pool_item_amount n < 2 ^ 32.
Proof.
  intros Hs Hm. pose proof (Hs n). unfold pool_item_amount, sizeof_ether_header, SWIFT_NET_MEMORY_USAGE.
  destruct n; cbn [pool_item_size]; unfold sizeof_ether_header; lia.
Qed.

Lemma create_pools_ok it sizeof mtu names : sizes_ok sizeof -> 0 < mtu < 65536 -> forall sys, malloc_never_fails sys ->
  exists ps sys', create_pools it sizeof mtu names sys = Ok (ps, sys') /\ malloc_never_fails sys' /\ (next_block sys <= next_block sys')%positive
    /\ forall n, n ∈ names -> exists a ss, al_get n ps = Some a /\ allocator_ok it sys' a ss []
         /\ item_size a = pool_item_size sizeof mtu n /\ chunk_item_amount a = pool_item_amount n.
Proof.
  intros Hs Hmtu. induction names as [|n names IH]; intros sys Hm; cbn [create_pools].
  { exists [], sys. split; [done|]. split; [done|]. split; [lia|]. intros n Hn. by apply not_elem_of_nil in Hn. }
  destruct (pool_sizes sizeof mtu n Hs Hmtu) as (H1 & H2 & H3).
  destruct (create_spec it sys _ _ H1 H2 H3 Hm) as (a & sys1 & s & Hc & Hm1 & Ei & Ea & Hok). rewrite Hc, bind_Ok.
  destruct (IH sys1 Hm1) as (ps & sys2 & -> & Hm2 & Hle & Hps). rewrite bind_Ok. do 2 eexists. split; [done|]. split; [done|].
  split; [apply create_later in Hc; lia|]. intros k Hk. cbn [al_get]. case_decide as E; [subst k|].
  - exists a, [s]. split; [done|]. split; [by eapply allocator_ok_later|done].
  - apply Hps. apply elem_of_cons in Hk. tauto.
Qed.

Lemma pool_order_complete n : n ∈ pool_order.
Proof. apply (bool_decide_unpack _). by destruct n; vm_compute. Qed.

(** The answers with which initialization succeeds. *)
Definition usable (env : Environment) : Prop :=
  env_socket env = true /\ env_connect env = true /\ is_Some (env_sockname env) /\ is_Some (env_interface env) /\ 0 < env_mtu env < 65536.

(** C25 Initialization makes the library that the rest of the code expects, or ends the
    process.  With usable answers of the system and memory available it returns with
    the answers recorded, thirteen pools that are sound, have no item in use and the
    item sizes and amounts of the table, and two empty, sound hash maps; with any
    unusable answer it exits. *)
Theorem initialize_makes_pools it calloc_ok sizeof env sys :
  sizes_ok sizeof -> malloc_never_fails sys -> (forall n, calloc_ok n = true) -> 0 <= env_mtu env < 65536 ->
  if decide (usable env) then
    exists lib sys', swiftnet_initialize it calloc_ok sizeof env sys = Ok (lib, sys')
      /\ Some (lib_private_ip_address lib) = env_sockname env
      /\ Some (lib_default_network_interface lib, lib_mac_address lib) = env_interface env
      /\ lib_maximum_transmission_unit lib = env_mtu env /\ lib_closing lib = false
      /\ (forall n, exists a sys ss, al_get n (lib_pools lib) = Some a /\ allocator_ok it sys a ss []
            /\ item_size a = pool_item_size sizeof (env_mtu env) n /\ chunk_item_amount a = pool_item_amount n)
      /\ forall h, in_step (env_seed env) [] [] (lib_requests_sent lib, h) /\ in_step (env_seed env) [] [] (lib_listeners lib, h)
  else swiftnet_initialize it calloc_ok sizeof env sys = Exit.
Proof.
  intros Hs Hm Hcal Hmtu. unfold swiftnet_initialize, usable. destruct (env_socket env); cbn [negb]; [|by rewrite decide_False by (intros [? _]; done)].
  destruct (env_connect env); cbn [negb]; [|by rewrite decide_False by (intros (_ & ? & _); done)].
  destruct (env_sockname env) as [ip|]; [|rewrite decide_False; [done|]; intros (_ & _ & [? ?] & _); done].
  destruct (env_interface env) as [[i mac]|]; [|rewrite decide_False; [done|]; intros (_ & _ & _ & [? ?] & _); done].
  destruct (Z.eqb_spec (env_mtu env) 0) as [E|E]; [rewrite decide_False; [done|]; lia|].
  rewrite decide_True by (split_and!; try done; lia).
  destruct (create_pools_ok it sizeof (env_mtu env) pool_order Hs ltac:(lia) sys Hm) as (ps & sys' & Hc & _ & _ & Hps).
  unfold initialize_allocators. rewrite Hc, bind_Ok. cbn [initialize_vectors]. do 2 eexists. split; [done|].
  cbn [lib_private_ip_address lib_default_network_interface lib_mac_address lib_maximum_transmission_unit lib_closing lib_pools
    lib_requests_sent lib_listeners]. do 4 (split; [done|]). split; [intros n; destruct (Hps n (pool_order_complete n)) as (a & ss & Ha); by exists a, sys', ss|].
  intros h. by split; apply create_in_step.
Qed.

Definition sample_env : Environment := mk_environment true true (Some 16777343) (Some ([101; 116; 104; 48], [2; 0; 0; 0; 0; 1])) 1500 7.

Lemma initialize_makes_pools_witness :
  exists lib sys', swiftnet_initialize true (fun _ => true) (fun _ => 24) sample_env (mk_system 1 (fun _ => true)) = Ok (lib, sys')
    /\ lib_maximum_transmission_unit lib = 1500 /\ lib_closing lib = false.
Proof.
  pose proof (initialize_makes_pools true (fun _ => true) (fun _ => 24) sample_env (mk_system 1 (fun _ => true))) as H.
  rewrite decide_True in H by (split_and!; try done; by eexists).
  destruct H as (lib & sys' & H & _ & _ & Hm & Hc & _); [intros n; lia|by intros b|done|done|].
  exists lib, sys'. split; [exact H|]. split; [exact Hm|exact Hc].
Defined.








(** *** Destroying a map *)
#[local] Abbreviation chained_nodes bs := (concat (map nodes_of bs)).
#[local] Abbreviation chained_keys bs := (concat (map chain_keys bs)).
#[local] Abbreviation map_key_locs bs := (map fst (concat (map keys_of bs))).














(** Two requests that are still open, the second one chained to the first. *)
Definition open_heap : MapHeap :=
  mk_heap {[1%positive := mk_item None (Some 2%positive) 2 (Some 8%positive)]} {[1%positive := [1; 0]; 2%positive := [2; 0]]}.
Definition open_requests : SwiftNetHashMap :=
  mk_hashmap (mk_item (Some 1%positive) (Some 1%positive) 2 (Some 9%positive) :: repeat blank_item 319) (repeat 0 10) 320 2.

Example open_requests_inserted :
  map_run 7 (fun _ => true) (hashmap_create (fun _ => true), mk_heap ∅ ∅) [MapInsert [1; 0] 9%positive; MapInsert [2; 0] 8%positive]
  = Ok ([], (open_requests, open_heap)).
Proof. vm_compute. reflexivity. Qed.



(** ** Debug flags *)

(** Adding flags switches exactly them on, removing switches exactly them off. *)
Lemma debug_flags_bits f g k d :
  0 <= k -> Z.testbit (swiftnet_remove_debug_flags g (swiftnet_add_debug_flags f d)) k
  = (Z.testbit d k || Z.testbit f k) && negb (Z.testbit g k).
Proof. intros Hk. unfold swiftnet_remove_debug_flags, swiftnet_add_debug_flags. by rewrite Z.land_spec, Z.lor_spec, Z.lnot_spec. Qed.

Lemma check_debug_flag_bit k d : 0 <= k -> check_debug_flag (2 ^ k) d = Z.testbit d k.
Proof.
  intros Hk. unfold check_debug_flag. destruct (Z.testbit d k) eqn:E.
  - destruct (Z.eqb_spec (Z.land d (2 ^ k)) 0) as [H|]; [|done]. apply (f_equal (fun x => Z.testbit x k)) in H.
    by rewrite Z.land_spec, Z.pow2_bits_true, E, Z.bits_0 in H.
  - replace (Z.land d (2 ^ k)) with 0; [done|]. symmetry. apply Z.bits_inj'. intros i Hi.
    rewrite Z.land_spec, Z.bits_0, Z.pow2_bits_eqb by done. destruct (Z.eqb_spec k i) as [<-|]; [by rewrite E|by rewrite andb_false_r].
Qed.
