(* ===== verification/Interface.v ===== *)
(** * Interface queries and raw input and output
    (src/src/internal/get_default_interface_and_mac.c, src/src/internal/get_mtu.c,
    src/src/internal/pcap/pcap_open.c, src/src/internal/pcap/pcap_send.c)

    At start-up the library looks for the interface that carries the local address of a
    connected socket, its hardware address and its transmission unit.  What the
    operating system and libpcap answer are parameters; C strings are lists of their
    bytes without the terminating zero. *)

From S2P Require Import Prelude Store Wire Hashmap Allocator Library.

(** ** Addresses as text *)

(** The decimal digits of a byte, as [inet_ntop] writes them. *)
Definition byte_digits (b : Z) : list Z :=
  if b <? 10 then [48 + b]
  else if b <? 100 then [48 + b / 10; 48 + b mod 10]
  else [48 + b / 100; 48 + b / 10 mod 10; 48 + b mod 10].

(** [inet_ntop(AF_INET, ...)]: the four bytes of the address in memory order. *)
Definition inet_ntop (addr : Z) : list Z :=
  match le_bytes 4 addr with
  | [a; b; c; d] => byte_digits a ++ [46] ++ byte_digits b ++ [46] ++ byte_digits c ++ [46] ++ byte_digits d
  | _ => []
  end.

Definition strcmp_eq (a b : list Z) : bool := bool_decide (a = b).

(** ** The list of interfaces ([getifaddrs]) *)

(** A socket address: IPv4, link layer with the length of the hardware address, or of
    another family. *)
Inductive sockaddr :=
| AF_INET (sin_addr : Z)
| AF_PACKET (sll_halen : Z) (sll_addr : list Z)
| AF_OTHER.

#[export] Instance sockaddr_eq_dec : EqDecision sockaddr.
Proof. solve_decision. Defined.

Record ifaddrs := mk_ifaddrs {
  ifa_name : list Z;
  ifa_addr : option sockaddr
}.

(** The first loop: the first entry with the local address. *)
Fixpoint find_interface (local_ip : list Z) (ifs : list ifaddrs) : option ifaddrs :=
  match ifs with
  | [] => None
  | ifa :: ifs =>
      match ifa_addr ifa with
      | Some (AF_INET sin_addr) =>
          if strcmp_eq local_ip (inet_ntop sin_addr) then Some ifa else find_interface local_ip ifs
      | _ => find_interface local_ip ifs
      end
  end.

(** The second loop: the first hardware address of six bytes under that name. *)
Fixpoint find_mac (interface_name : list Z) (ifs : list ifaddrs) : option (list Z) :=
  match ifs with
  | [] => None
  | ifa :: ifs =>
      match ifa_addr ifa with
      | Some (AF_PACKET sll_halen sll_addr) =>
          if strcmp_eq (ifa_name ifa) interface_name && (sll_halen =? 6) then Some (take 6 sll_addr)
          else find_mac interface_name ifs
      | _ => find_mac interface_name ifs
      end
  end.

(** [strncpy] of at most [n - 1] bytes and a terminating zero. *)
Definition copy_name (n : Z) (name : list Z) : list Z := take (Z.to_nat (n - 1)) name.

(** The result code, and what was written to [interface_name] and [mac_out]; the local
    address and the list of interfaces are [None] when the call fails. *)
Definition get_default_interface_and_mac (interface_name_length : Z) (sockname : option Z) (ifaddr : option (list ifaddrs))
    : Z * option (list Z) * option (list Z) :=
  match sockname, ifaddr with
  | Some local_addr, Some ifs =>
      match find_interface (inet_ntop local_addr) ifs with
      | None => (-1, None, None)
      | Some found =>
          let interface_name := copy_name interface_name_length (ifa_name found) in
          match find_mac interface_name ifs with
          | None => (-1, Some interface_name, None)
          | Some mac => (0, Some interface_name, Some mac)
          end
      end
  | _, _ => (-1, None, None)
  end.

(** [ioctl(SIOCGIFMTU)] answers an [int]. *)
Definition get_mtu (ifr_mtu : option Z) : Outcome Z :=
  match ifr_mtu with
  | None => Exit
  | Some mtu => Ok (u16 mtu)
  end.

(** ** libpcap *)

(** What libpcap answers: the handle, and whether the filter was compiled and set. *)
Record PcapAnswers := mk_pcap_answers {
  open_live : bool;
  filter_compiled : bool;
  filter_set : bool
}.

(** The handle, with the filter on it or not; a filter that cannot be set is reported
    and the handle is used without it. *)
Definition swiftnet_pcap_open (a : PcapAnswers) : Outcome (option bool) :=
  if negb (open_live a) then Ok None
  else if negb (filter_compiled a) then Exit
  else Ok (Some (filter_set a)).

(** [pcap_inject]: taken, no buffer space, or another error. *)
Inductive inject := Injected | NoBuffers | InjectError.

#[export] Instance inject_eq_dec : EqDecision inject.
Proof. solve_decision. Defined.

Definition swiftnet_pcap_send (ret : inject) : Z :=
  match ret with
  | Injected => 0
  | NoBuffers => -2
  | InjectError => -1
  end.

(** [SWIFTNET_SEND_PACKET]: the loop repeats while there is no buffer space.  The result
    is whether the frame is on the wire, with the answers that are left. *)
Fixpoint send_packet_loop (answers : list inject) : Outcome (bool * list inject) :=
  match answers with
  | [] => Diverge
  | a :: answers =>
      if swiftnet_pcap_send a =? -2 then send_packet_loop answers
      else Ok (match a with Injected => true | _ => false end, answers)
  end.

(** ** Start-up: the answers of the operating system put together *)
Record OsAnswers := mk_os {
  os_socket : bool;
  os_connect : bool;
  os_sockname : option Z;
  os_ifaddrs : option (list ifaddrs);
  os_mtu : option Z;
  os_rand : Z
}.

Definition IFNAMSIZ : Z := 16.

(** What [swiftnet_initialize] gets from its queries. *)
Definition query_environment (os : OsAnswers) : Outcome Environment :=
  match get_default_interface_and_mac IFNAMSIZ (os_sockname os) (os_ifaddrs os) with
  | (0, Some name, Some mac) =>
      mtu ← get_mtu (os_mtu os);
      Ok (mk_environment (os_socket os) (os_connect os) (os_sockname os) (Some (name, mac)) mtu (os_rand os))
  | _ => Ok (mk_environment (os_socket os) (os_connect os) (os_sockname os) None 0 (os_rand os))
  end.

(** ** Lemmas *)







(** ** Properties *)






Definition lo : ifaddrs := mk_ifaddrs [108; 111] (Some (AF_INET 0x0100007F)).
Definition sample_os (mtu : Z) : OsAnswers :=
  mk_os true true (Some 0x0501A8C0)
    (Some [lo; mk_ifaddrs [101; 116; 104; 48] (Some (AF_PACKET 6 [2; 0; 0; 0; 0; 5; 0; 0]));
           mk_ifaddrs [116; 117; 110] None; mk_ifaddrs [101; 116; 104; 48] (Some (AF_INET 0x0501A8C0))])
    (Some mtu) 99.


Definition sample_sys : System := mk_system 1 (fun _ => true).


(** The transmission unit is cut to 16 bits: on an interface whose unit is a multiple
    of 2^16 (the Linux loopback interface has 65536) [get_mtu] answers 0 and
    initialization ends the process, although every query succeeded. *)
Theorem mtu_multiple_of_65536_refused it calloc_ok sizeof os sys k :
  os_mtu os = Some (65536 * k) ->
  get_mtu (os_mtu os) = Ok 0 /\ (env ← query_environment os; swiftnet_initialize it calloc_ok sizeof env sys) = Exit.
Proof.
  intros Hm. assert (get_mtu (os_mtu os) = Ok 0) as Hg.
  { rewrite Hm. cbn. f_equal. unfold wrap. rewrite Z.mul_comm. by apply Z_mod_mult. }
  split; [done|]. unfold query_environment.
  assert (forall s c i x, (env ← Ok (mk_environment s c (os_sockname os) i 0 x); swiftnet_initialize it calloc_ok sizeof env sys) = Exit) as Hno.
  { intros s c i x. rewrite bind_Ok. unfold swiftnet_initialize. cbn. by destruct s, c, (os_sockname os), i as [[]|]. }
  destruct (get_default_interface_and_mac _ _ _) as [[ret [name|]] [mac|]]; destruct ret; try apply Hno.
  rewrite Hg, bind_Ok. apply Hno.
Qed.

Lemma mtu_multiple_of_65536_refused_witness :
  get_mtu (Some 65536) = Ok 0
  /\ (env ← query_environment (sample_os 65536); swiftnet_initialize false (fun _ => true) (fun _ => 64) env sample_sys) = Exit.
Proof. apply (mtu_multiple_of_65536_refused false (fun _ => true) (fun _ => 64) (sample_os 65536) sample_sys 1). reflexivity. Defined.

(** A name that does not fit the buffer is cut, and the second search, for the cut name,
    then finds nothing unless another interface has that name. *)
Lemma long_name_not_found n local ifs found :
  0 < n -> find_interface (inet_ntop local) ifs = Some found ->
  (forall ifa, ifa ∈ ifs -> ifa_name ifa <> copy_name n (ifa_name found)) ->
  get_default_interface_and_mac n (Some local) (Some ifs) = (-1, Some (copy_name n (ifa_name found)), None).
Proof.
  intros Hn Hf Hno. unfold get_default_interface_and_mac. rewrite Hf.
  assert (forall ifs', (forall ifa, ifa ∈ ifs' -> ifa_name ifa <> copy_name n (ifa_name found)) ->
    find_mac (copy_name n (ifa_name found)) ifs' = None) as ->; [|done|done].
  induction ifs' as [|ifa ifs' IH]; intros Hno'; [done|]. cbn [find_mac]. unfold strcmp_eq.
  rewrite bool_decide_false by (apply Hno'; left). cbn [andb].
  destruct (ifa_addr ifa) as [[]|]; (apply IH; intros x Hx; apply Hno'; by right).
Qed.

(** Handing a frame to libpcap: however often there is no buffer space, the frame is
    offered again, and it is put on the wire once; the loop ends at the first other
    answer, and after an error the frame is dropped although the caller is not told. *)
Theorem send_loop_injects_once k a rest :
  a <> NoBuffers ->
  send_packet_loop (repeat NoBuffers k ++ a :: rest) = Ok (bool_decide (a = Injected), rest)
  /\ (forall n, send_packet_loop (repeat NoBuffers n) = Diverge).
Proof.
  intros Ha. split.
  - induction k as [|k IH]; [|exact IH]. cbn. destruct a; done.
  - induction n as [|n IH]; [done|exact IH].
Qed.
