(* ===== verification/DpdkBuffer.v ===== *)
(** * Packet buffers of the DPDK backend (src/src/internal/dpdk/dpdk_buffer.c)

    With DPDK a packet buffer is an array of message buffers ([struct rte_mbuf]), one
    per chunk: each has room for the headers and for [data_len_per_packet] bytes of
    data.  Buffers are created, written, appended to, grown, shrunk and destroyed.

    The functions of DPDK's mbuf library are not part of the repository: the class
    [MbufLib] holds them as operations on the live message buffers, the class
    [MbufLaws] what their documentation promises, and [pool_lib] is a pool that keeps
    the promises.  The structure itself is modelled by the fields the code reads and
    writes. *)

From S2P Require Import Prelude Store Crc32 Wire.

(** ** Message buffers *)

(** [buf_addr] is the memory of the buffer, [data_off] where its data starts in it. *)
Record rte_mbuf := mk_mbuf {
  buf_addr : list Z;
  data_off : Z;
  data_len : Z;
  pkt_len : Z
}.

(** The operations of the library; the message buffers of the pool that are in use
    are the store.  [mempool_available] is how many the pool can have in use at once
    (its size less what the caches of other cores hold back), [data_room] the room of
    a buffer behind its headroom. *)
Class MbufLib := {
  rte_pktmbuf_alloc : Store rte_mbuf -> option (loc * Store rte_mbuf);
  rte_pktmbuf_alloc_bulk : nat -> Store rte_mbuf -> option (list loc * Store rte_mbuf);
  rte_pktmbuf_append : loc -> Z -> Store rte_mbuf -> option Z * Store rte_mbuf;
  rte_pktmbuf_free : loc -> Store rte_mbuf -> Store rte_mbuf;
  rte_pktmbuf_free_bulk : list loc -> Store rte_mbuf -> Store rte_mbuf;
  mempool_available : Z;
  RTE_PKTMBUF_HEADROOM : Z;
  data_room : Z
}.

(** A message buffer as the pool hands it out: empty, the data behind the headroom. *)
Definition fresh_mbuf `{MbufLib} (m : rte_mbuf) : Prop :=
  data_len m = 0 /\ pkt_len m = 0 /\ data_off m = RTE_PKTMBUF_HEADROOM
  /\ Z.of_nat (length (buf_addr m)) = RTE_PKTMBUF_HEADROOM + data_room.

Definition mbuf_with_len (n : Z) (m : rte_mbuf) : rte_mbuf := mk_mbuf (buf_addr m) (data_off m) n n.

(** What is documented: allocation hands out a buffer that is not in use while the
    pool has some; in bulk it hands out all or none; append extends the data if the
    room behind it suffices and otherwise leaves the buffer alone; free gives buffers
    back. *)
Class MbufLaws `(L : MbufLib) : Prop := {
  headroom_nonneg : 0 <= RTE_PKTMBUF_HEADROOM;
  alloc_law s : Z.of_nat (size s) < mempool_available ->
    exists l m, rte_pktmbuf_alloc s = Some (l, <[l := m]> s) /\ s !! l = None /\ fresh_mbuf m;
  alloc_bulk_law n s : Z.of_nat (size s + n) <= mempool_available ->
    exists ls s', rte_pktmbuf_alloc_bulk n s = Some (ls, s') /\ length ls = n /\ NoDup ls
      /\ (forall l, l ∈ ls -> s !! l = None /\ exists m, s' !! l = Some m /\ fresh_mbuf m)
      /\ (forall l, l ∉ ls -> s' !! l = s !! l);
  append_law l m len s : s !! l = Some m -> 0 <= len ->
    rte_pktmbuf_append l len s
    = if bool_decide (len <= Z.of_nat (length (buf_addr m)) - data_off m - data_len m)
      then (Some (data_off m + data_len m), <[l := mk_mbuf (buf_addr m) (data_off m) (data_len m + len) (pkt_len m + len)]> s)
      else (None, s);
  free_law l m s : s !! l = Some m -> rte_pktmbuf_free l s = delete l s;
  free_bulk_law ls s : NoDup ls -> (forall l, l ∈ ls -> is_Some (s !! l)) ->
    rte_pktmbuf_free_bulk ls s = foldr delete s ls
}.

(** [struct SwiftNetPacketBuffer] of this backend; the array has [length] slots. *)
Record SwiftNetPacketBuffer := mk_packet_buffer {
  dpdk_buffers : list loc;
  total_data_size : Z;
  buf_amount : Z;
  data_len_per_packet : Z;
  append_offset : Z
}.

(** ** Operations *)
Definition mbuf_size_for_data (data_size prepend_size : Z) : Z := u16 (data_size + PACKET_HEADER_SIZE + prepend_size).
Definition mbuf_size_for_full_chunk (g : Globals) (prepend_size : Z) : Z := u16 (maximum_transmission_unit g + prepend_size).

(** [dpdk_buffers[i]], an access outside the array being undefined. *)
Definition slot_get (ls : list loc) (i : Z) : Outcome loc :=
  if i <? 0 then Fault else of_option (ls !! Z.to_nat i).

Definition slot_set (ls : list loc) (i : Z) (l : loc) : Outcome (list loc) :=
  _ ← slot_get ls i; Ok (<[Z.to_nat i := l]> ls).

Section operations.
Context `{MbufLib} (g : Globals).

(** Appending through a pointer; the result is not looked at, [NULL] is dereferenced. *)
Definition mbuf_append (l : loc) (len : Z) (s : Store rte_mbuf) : Outcome (Store rte_mbuf) :=
  _ ← store_get l s; Ok (rte_pktmbuf_append l len s).2.

Definition mbuf_free (l : loc) (s : Store rte_mbuf) : Outcome (Store rte_mbuf) :=
  _ ← store_get l s; Ok (rte_pktmbuf_free l s).

(** [memcpy] to an address relative to the start of the data. *)
Definition mbuf_write (l : loc) (off : Z) (bytes : list Z) (s : Store rte_mbuf) : Outcome (Store rte_mbuf) :=
  m ← store_get l s;
  mem ← mem_write (data_off m + off) bytes (buf_addr m);
  Ok (<[l := mk_mbuf mem (data_off m) (data_len m) (pkt_len m)]> s).

(** Allocation; the callers use the pointer without a check, so [NULL] (or, in bulk,
    the slots that were not filled) is dereferenced by the append that follows. *)
Definition alloc_appended (size : Z) (s : Store rte_mbuf) : Outcome (loc * Store rte_mbuf) :=
  '(l, s) ← of_option (rte_pktmbuf_alloc s);
  s ← mbuf_append l size s;
  Ok (l, s).

Fixpoint append_each (ls : list loc) (size : Z) (s : Store rte_mbuf) : Outcome (Store rte_mbuf) :=
  match ls with
  | [] => Ok s
  | l :: ls => s ← mbuf_append l size s; append_each ls size s
  end.

Definition alloc_bulk_appended (n size : Z) (s : Store rte_mbuf) : Outcome (list loc * Store rte_mbuf) :=
  if 0 <? n then
    '(ls, s) ← of_option (rte_pktmbuf_alloc_bulk (Z.to_nat n) s);
    s ← append_each ls size s;
    Ok (ls, s)
  else Ok ([], s).

(** [malloc] is not checked either. *)
Definition create_packet_buffer (malloc_ok : bool) (buffer_size : Z) (network_data : SwiftNetNetworkData)
    (s : Store rte_mbuf) : Outcome (SwiftNetPacketBuffer * Store rte_mbuf) :=
  let data_len_per_packet := u16 (maximum_transmission_unit g - PACKET_HEADER_SIZE) in
  if data_len_per_packet =? 0 then Fault else
  let remaining_data := u16 (buffer_size mod data_len_per_packet) in
  let chunk_amount := buffer_size / data_len_per_packet in
  if negb malloc_ok then Fault else
  '(full, s) ← alloc_bulk_appended chunk_amount (mbuf_size_for_full_chunk g (prepend_size network_data)) s;
  '(last, s) ← alloc_appended (mbuf_size_for_data remaining_data (prepend_size network_data)) s;
  Ok (mk_packet_buffer (full ++ [last]) buffer_size (u32 (chunk_amount + 1)) data_len_per_packet 0, s).

(** The data bytes of a message buffer, from its length. *)
Definition data_size_of (m : rte_mbuf) (prepend_size : Z) : Z := u16 (data_len m - PACKET_HEADER_SIZE - prepend_size).

(** The branch of [resize_packet_buffer] for a larger size. *)
Definition grow_packet_buffer (realloc_ok : bool) (new_buffer_size : Z) (b : SwiftNetPacketBuffer)
    (prepend_size : Z) (last_packet : loc) (last_packet_data_size : Z) (s : Store rte_mbuf)
    : Outcome (SwiftNetPacketBuffer * Store rte_mbuf) :=
  let D := data_len_per_packet b in
  let data_size_change := new_buffer_size - total_data_size b in
  if u32 (data_size_change + last_packet_data_size) <=? D then
    s ← mbuf_append last_packet (u16 data_size_change) s;
    Ok (mk_packet_buffer (dpdk_buffers b) new_buffer_size (buf_amount b) D (append_offset b), s)
  else
    s ← mbuf_append last_packet (u16 (D - last_packet_data_size)) s;
    let data_size_change := u32 (data_size_change - (D - last_packet_data_size)) in
    if D =? 0 then Fault else
    let chunk_amount := data_size_change / D in
    let remainder := u16 (data_size_change mod D) in
    if negb realloc_ok then Exit else
    '(full, s) ← alloc_bulk_appended chunk_amount (mbuf_size_for_full_chunk g prepend_size) s;
    '(rest, s) ← (if negb (remainder =? 0) then
                    '(l, s) ← alloc_appended (mbuf_size_for_data remainder prepend_size) s; Ok ([l], s)
                  else Ok ([], s));
    Ok (mk_packet_buffer (take (Z.to_nat (buf_amount b)) (dpdk_buffers b) ++ full ++ rest) new_buffer_size
          (u32 (buf_amount b + chunk_amount + Z.of_nat (length rest))) D (append_offset b), s).

(** The loop that frees the buffers behind the new end. *)
Fixpoint free_behind (fuel : nat) (D : Z) (buffers : list loc) (data_size_change amount : Z) (s : Store rte_mbuf)
    : Outcome (Z * Z * Store rte_mbuf) :=
  if (D <=? data_size_change) && (1 <? amount) then
    match fuel with
    | O => Diverge
    | S fuel =>
        l ← slot_get buffers (amount - 1);
        s ← mbuf_free l s;
        free_behind fuel D buffers (data_size_change - D) (amount - 1) s
    end
  else Ok (data_size_change, amount, s).

(** What follows the loop: the message buffer that holds the new end is cut.
    [realloc] to fewer slots keeps the first ones; a failure stores [NULL]. *)
Definition shrink_end (realloc_ok : bool) (new_buffer_size : Z) (b : SwiftNetPacketBuffer) (prepend_size : Z)
    (data_size_change amount : Z) (s : Store rte_mbuf) : Outcome (SwiftNetPacketBuffer * Store rte_mbuf) :=
  last_packet ← slot_get (dpdk_buffers b) (amount - 1);
  m ← store_get last_packet s;
  let last_packet_data_size := data_size_of m prepend_size in
  '(buffers, s) ←
    (if last_packet_data_size <=? data_size_change then
       s ← mbuf_free last_packet s;
       '(l, s) ← alloc_appended (mbuf_size_for_data 0 prepend_size) s;
       buffers ← slot_set (dpdk_buffers b) (amount - 1) l;
       Ok (buffers, s)
     else
       let data_size := mbuf_size_for_data (u16 (last_packet_data_size - data_size_change)) prepend_size in
       s ← store_update last_packet (mbuf_with_len data_size) s;
       Ok (dpdk_buffers b, s));
  Ok (mk_packet_buffer (if realloc_ok then take (Z.to_nat amount) buffers else []) new_buffer_size amount
        (data_len_per_packet b) (append_offset b), s).

(** The branch for a smaller size. *)
Definition shrink_packet_buffer (realloc_ok : bool) (new_buffer_size : Z) (b : SwiftNetPacketBuffer)
    (prepend_size : Z) (last_packet : loc) (last_packet_data_size : Z) (s : Store rte_mbuf)
    : Outcome (SwiftNetPacketBuffer * Store rte_mbuf) :=
  let D := data_len_per_packet b in
  let data_size_change := total_data_size b - new_buffer_size in
  if data_size_change <=? last_packet_data_size then
    let new_size := mbuf_size_for_data (u16 (last_packet_data_size - data_size_change)) prepend_size in
    s ← store_update last_packet (mbuf_with_len new_size) s;
    Ok (mk_packet_buffer (dpdk_buffers b) new_buffer_size (buf_amount b) D (append_offset b), s)
  else
    let data_size_change := data_size_change - last_packet_data_size in
    s ← mbuf_free last_packet s;
    '(data_size_change, amount, s) ←
      free_behind (Z.to_nat (buf_amount b)) D (dpdk_buffers b) data_size_change (u32 (buf_amount b - 1)) s;
    shrink_end realloc_ok new_buffer_size b prepend_size data_size_change amount s.

Definition resize_packet_buffer (realloc_ok : bool) (new_buffer_size : Z) (b : SwiftNetPacketBuffer)
    (network_data : SwiftNetNetworkData) (s : Store rte_mbuf) : Outcome (SwiftNetPacketBuffer * Store rte_mbuf) :=
  let prepend_size := prepend_size network_data in
  if new_buffer_size =? total_data_size b then Ok (b, s) else
  last_packet ← slot_get (dpdk_buffers b) (u32 (buf_amount b - 1));
  m ← store_get last_packet s;
  let last_packet_data_size := data_size_of m prepend_size in
  if total_data_size b <? new_buffer_size then
    grow_packet_buffer realloc_ok new_buffer_size b prepend_size last_packet last_packet_data_size s
  else shrink_packet_buffer realloc_ok new_buffer_size b prepend_size last_packet last_packet_data_size s.

(** The loop of [write_packet_buffer]: one message buffer per round. *)
Fixpoint write_chunks (fuel : nat) (b : SwiftNetPacketBuffer) (chunk_num current_offset : Z) (data : list Z)
    (position bytes_remaining : Z) (s : Store rte_mbuf) : Outcome (Store rte_mbuf) :=
  if 0 <? bytes_remaining then
    match fuel with
    | O => Diverge
    | S fuel =>
        l ← slot_get (dpdk_buffers b) chunk_num;
        let reserved_header := u32 (maximum_transmission_unit g - data_len_per_packet b + sizeof_ether_header) in
        let bytes_this_chunk := Z.min (u32 (data_len_per_packet b - current_offset)) bytes_remaining in
        bytes ← mem_read position bytes_this_chunk data;
        s ← mbuf_write l (u32 (reserved_header + current_offset)) bytes s;
        write_chunks fuel b (u32 (chunk_num + 1)) 0 data (position + bytes_this_chunk)
          (bytes_remaining - bytes_this_chunk) s
    end
  else Ok s.

Definition write_packet_buffer (byte_offset : Z) (b : SwiftNetPacketBuffer) (data : list Z) (data_size : Z)
    (s : Store rte_mbuf) : Outcome (Store rte_mbuf) :=
  let D := data_len_per_packet b in
  if D =? 0 then Fault else
  write_chunks (Z.to_nat data_size) b (byte_offset / D) (byte_offset mod D) data 0 data_size s.

Definition validate_append_to_packet_args (data : option (list Z)) (data_size : Z) : Outcome unit :=
  match data with
  | Some _ => if data_size =? 0 then Exit else Ok tt
  | None => Exit
  end.

(** [error_checking] is off under [SWIFT_NET_DISABLE_ERROR_CHECKING]; then a [NULL]
    source is dereferenced. *)
Definition swiftnet_append_to_buffer (error_checking : bool) (data : option (list Z)) (data_size : Z)
    (b : SwiftNetPacketBuffer) (s : Store rte_mbuf) : Outcome (SwiftNetPacketBuffer * Store rte_mbuf) :=
  _ ← (if error_checking then validate_append_to_packet_args data data_size else Ok tt);
  s ← match data with
      | Some data => write_packet_buffer (append_offset b) b data data_size s
      | None => if data_size =? 0 then Ok s else Fault
      end;
  Ok (mk_packet_buffer (dpdk_buffers b) (total_data_size b) (buf_amount b) (data_len_per_packet b)
        (u32 (append_offset b + data_size)), s).

Definition destroy_packet_buffer (b : SwiftNetPacketBuffer) (s : Store rte_mbuf) : Outcome (Store rte_mbuf) :=
  if bool_decide (buf_amount b <= Z.of_nat (length (dpdk_buffers b)))
  then Ok (rte_pktmbuf_free_bulk (take (Z.to_nat (buf_amount b)) (dpdk_buffers b)) s) else Fault.
End operations.

(** ** The data a packet buffer holds *)

(** The bytes before the data of a message buffer: link header, IP header and packet
    information. *)
Definition mbuf_headers : Z := sizeof_ether_header + PACKET_HEADER_SIZE.

Definition mbuf_data (m : rte_mbuf) : list Z :=
  slice (Z.to_nat (data_off m + mbuf_headers)) (Z.to_nat (data_len m - mbuf_headers)) (buf_addr m).

Definition mbuf_payload (s : Store rte_mbuf) (l : loc) : list Z := from_option mbuf_data [] (s !! l).

Definition buffer_data (s : Store rte_mbuf) (b : SwiftNetPacketBuffer) : list Z :=
  concat (map (mbuf_payload s) (dpdk_buffers b)).

(** Every message buffer but the last is full. *)
Definition chunk_shape (D : Z) (ps : list (list Z)) : Prop :=
  exists full last, ps = full ++ [last] /\ (forall p, p ∈ full -> Z.of_nat (length p) = D)
    /\ Z.of_nat (length last) <= D.

Lemma length_concat_full D (ps : list (list Z)) :
  (forall p, p ∈ ps -> Z.of_nat (length p) = D) -> Z.of_nat (length (concat ps)) = Z.of_nat (length ps) * D.
Proof.
  induction ps as [|p ps IH]; intros Hp; [done|]. cbn [concat length]. rewrite length_app.
  rewrite Nat2Z.inj_add, IH by (intros q Hq; apply Hp; by right). rewrite (Hp p) by left. lia.
Qed.

Lemma shape_length D ps :
  0 < D -> chunk_shape D ps ->
  exists full last, ps = full ++ [last] /\ (forall p, p ∈ full -> Z.of_nat (length p) = D)
    /\ Z.of_nat (length last) <= D
    /\ Z.of_nat (length (concat ps)) = Z.of_nat (length full) * D + Z.of_nat (length last)
    /\ Z.of_nat (length ps) = Z.of_nat (length full) + 1.
Proof.
  intros HD (full & last & -> & Hf & Hl). exists full, last.
  rewrite concat_app, !length_app, Nat2Z.inj_add, (length_concat_full D) by done. cbn. rewrite app_nil_r.
  repeat split; try done; lia.
Qed.

(** Where a byte of the data lies. *)
Lemma shape_lookup D ps off :
  0 < D -> chunk_shape D ps -> 0 <= off < Z.of_nat (length (concat ps)) ->
  exists before p behind, ps = before ++ p :: behind /\ Z.of_nat (length before) = off / D
    /\ (forall q, q ∈ before -> Z.of_nat (length q) = D) /\ off mod D < Z.of_nat (length p)
    /\ Z.of_nat (length p) <= D /\ (Z.of_nat (length p) = D \/ behind = []).
Proof.
  intros HD Hs Hoff. destruct (shape_length D ps HD Hs) as (full & last & -> & Hf & Hl & Hlen & _).
  rewrite Hlen in Hoff. pose proof (Z.div_mod off D ltac:(lia)) as Hdm.
  pose proof (Z.mod_pos_bound off D HD) as Hm. pose proof (Z.div_pos off D ltac:(lia) HD).
  destruct (decide (off / D < Z.of_nat (length full))) as [Hc|Hc].
  - destruct (lookup_lt_is_Some_2 full (Z.to_nat (off / D)) ltac:(lia)) as [p Hp].
    exists (take (Z.to_nat (off / D)) full), p, (drop (S (Z.to_nat (off / D))) full ++ [last]).
    assert (Z.of_nat (length p) = D) by (apply Hf; by eapply list_elem_of_lookup_2).
    split; [by rewrite app_comm_cons, app_assoc, take_drop_middle|].
    split; [rewrite length_take; lia|]. split; [|split; [lia|split; [lia|by left]]].
    intros q Hq. apply Hf. by eapply elem_of_take in Hq as (i & ? & _); eapply list_elem_of_lookup_2.
  - assert (off / D = Z.of_nat (length full)) by nia.
    exists full, last, []. repeat split; auto; nia.
Qed.

Lemma concat_blit D before (p : list Z) behind o x :
  (forall q, q ∈ before -> Z.of_nat (length q) = D) -> 0 <= o -> o + Z.of_nat (length x) <= Z.of_nat (length p) ->
  concat (before ++ blit (Z.to_nat o) x p :: behind)
  = blit (Z.to_nat (Z.of_nat (length before) * D + o)) x (concat (before ++ p :: behind)).
Proof.
  intros Hb Ho Hx. rewrite !concat_app. cbn [concat].
  pose proof (length_concat_full D before Hb) as Hl.
  replace (Z.to_nat (Z.of_nat (length before) * D + o)) with (length (concat before) + Z.to_nat o)%nat by lia.
  rewrite blit_app_r by (rewrite length_app; lia). by rewrite blit_app_l by lia.
Qed.

Lemma slice_0 {A} o (l : list A) : slice o 0 l = [].
Proof. apply take_0. Qed.

Lemma blit_nil {A} o (l : list A) : blit o [] l = l.
Proof. unfold blit. cbn. by rewrite Nat.add_0_r, take_drop. Qed.

(** The shape depends on the lengths of the chunks only. *)
Lemma length_concat_map (ps ps' : list (list Z)) :
  map length ps = map length ps' -> length (concat ps) = length (concat ps').
Proof.
  revert ps'. induction ps as [|p ps IH]; intros [|p' ps'] He; try done.
  cbn in *. injection He as Hp He. rewrite !length_app, Hp. f_equal. by apply IH.
Qed.

Lemma chunk_shape_lengths D ps ps' : map length ps = map length ps' -> chunk_shape D ps -> chunk_shape D ps'.
Proof.
  intros He (full & last & -> & Hf & Hl). rewrite map_app in He. symmetry in He.
  apply fmap_app_inv in He as (f' & l' & Hf' & Hl' & ->).
  destruct l' as [|x [|y l']]; [done| |done]. cbn in Hl'. injection Hl' as Hx.
  exists f', x. split; [done|]. split; [|lia]. intros p Hp.
  apply list_elem_of_lookup in Hp as [i Hi].
  assert (map length full !! i = Some (length p)) as Hq by (by rewrite Hf'; apply list_lookup_fmap_Some; eauto).
  apply list_lookup_fmap_Some in Hq as (q & -> & Hq). apply Hf. by eapply list_elem_of_lookup_2.
Qed.

(** ** The library: what the operations do to the store *)
Section library.
Context `{HL : MbufLaws}.

(** A message buffer of the pool with [n] bytes of data. *)
Definition sized_mbuf (n : Z) (m : rte_mbuf) : Prop :=
  data_len m = n /\ pkt_len m = n /\ data_off m = RTE_PKTMBUF_HEADROOM
  /\ Z.of_nat (length (buf_addr m)) = RTE_PKTMBUF_HEADROOM + data_room.

Lemma mbuf_append_ok l m n k s :
  s !! l = Some m -> sized_mbuf n m -> 0 <= k -> n + k <= data_room ->
  mbuf_append l k s = Ok (<[l := mbuf_with_len (n + k) m]> s) /\ sized_mbuf (n + k) (mbuf_with_len (n + k) m).
Proof.
  intros Hm (Hdl & Hpl & Hoff & Hlen) Hk Hroom. unfold mbuf_append.
  rewrite (proj2 (store_get_ok _ _ _) Hm), bind_Ok, (append_law l m k s Hm Hk).
  rewrite bool_decide_true by lia. cbn. rewrite Hdl, Hpl. done.
Qed.

Lemma alloc_appended_ok n s :
  Z.of_nat (size s) < mempool_available -> 0 <= n <= data_room ->
  exists l m, alloc_appended n s = Ok (l, <[l := m]> s) /\ s !! l = None /\ sized_mbuf n m.
Proof.
  intros Hs Hn. destruct (alloc_law s Hs) as (l & m & Ha & Hl & Hf).
  unfold alloc_appended. rewrite Ha. cbn [of_option]. rewrite bind_Ok.
  destruct (mbuf_append_ok l m 0 n (<[l := m]> s)) as [He Hz];
    [apply lookup_insert_eq|exact Hf|lia|lia|].
  rewrite He, bind_Ok, Z.add_0_l in *. rewrite insert_insert_eq. by exists l, (mbuf_with_len n m).
Qed.

Lemma append_each_ok ls n s :
  NoDup ls -> (forall l, l ∈ ls -> exists m, s !! l = Some m /\ sized_mbuf 0 m) -> 0 <= n <= data_room ->
  exists s', append_each ls n s = Ok s'
    /\ (forall l, l ∈ ls -> exists m, s' !! l = Some m /\ sized_mbuf n m)
    /\ (forall l, l ∉ ls -> s' !! l = s !! l).
Proof.
  revert s. induction ls as [|l ls IH]; intros s Hnd Hl Hn.
  { exists s. split; [done|]. split; [|done]. intros l Hin. by apply not_elem_of_nil in Hin. }
  apply NoDup_cons in Hnd as [Hni Hnd]. destruct (Hl l ltac:(left)) as (m & Hm & Hz).
  destruct (mbuf_append_ok l m 0 n s Hm Hz ltac:(lia) ltac:(lia)) as [He Hz']. cbn [append_each].
  rewrite He, bind_Ok, Z.add_0_l in *.
  destruct (IH (<[l := mbuf_with_len n m]> s) Hnd) as (s' & Hs' & Hin & Hout); [|done|].
  { intros l' Hl'. rewrite lookup_insert_ne by (by intros ->). apply Hl. by right. }
  exists s'. split; [done|]. split.
  - intros l' [->|Hl']%elem_of_cons; [|by apply Hin]. rewrite Hout by done. rewrite lookup_insert_eq. eauto.
  - intros l' [Hne Hni']%not_elem_of_cons. rewrite Hout by done. by rewrite lookup_insert_ne by done.
Qed.

Lemma alloc_bulk_ok k n s :
  0 <= k -> Z.of_nat (size s) + k <= mempool_available -> 0 <= n <= data_room ->
  exists ls s', alloc_bulk_appended k n s = Ok (ls, s') /\ Z.of_nat (length ls) = k /\ NoDup ls
    /\ (forall l, l ∈ ls -> s !! l = None /\ exists m, s' !! l = Some m /\ sized_mbuf n m)
    /\ (forall l, l ∉ ls -> s' !! l = s !! l).
Proof.
  intros Hk Hs Hn. unfold alloc_bulk_appended. destruct (Z.ltb_spec 0 k) as [Hpos|Hz].
  - destruct (alloc_bulk_law (Z.to_nat k) s ltac:(lia)) as (ls & s1 & Ha & Hlen & Hnd & Hin & Hout).
    rewrite Ha. cbn [of_option]. rewrite bind_Ok.
    destruct (append_each_ok ls n s1 Hnd) as (s2 & H2 & Hin2 & Hout2); [|done|].
    { intros l Hl. by apply Hin. }
    rewrite H2, bind_Ok. exists ls, s2. split; [done|]. split; [lia|]. split; [done|]. split.
    + intros l Hl. split; [by apply Hin|by apply Hin2].
    + intros l Hl. by rewrite Hout2, Hout.
  - exists [], s. split; [done|]. split; [cbn; lia|]. split; [apply NoDup_nil_2|]. split; [|done].
    intros l Hl. by apply not_elem_of_nil in Hl.
Qed.
End library.

Lemma lookup_foldr_delete {X} (ls : list loc) (s : Store X) l :
  foldr delete s ls !! l = if decide (l ∈ ls) then None else s !! l.
Proof.
  induction ls as [|k ls IH]; cbn; [by rewrite decide_False by apply not_elem_of_nil|].
  destruct (decide (l = k)) as [->|Hne].
  - rewrite lookup_delete_eq. rewrite decide_True by left. done.
  - rewrite lookup_delete_ne by done. rewrite IH.
    destruct (decide (l ∈ ls)); [rewrite decide_True by (by right)|rewrite decide_False]; try done.
    rewrite elem_of_cons. tauto.
Qed.

(** Stores that differ by a set of live addresses. *)
Lemma store_extension_size {X} (s0 s : Store X) (ls : list loc) :
  NoDup ls -> (forall l, l ∈ ls -> s0 !! l = None /\ is_Some (s !! l)) -> (forall l, l ∉ ls -> s !! l = s0 !! l) ->
  size s = (size s0 + length ls)%nat.
Proof.
  intros Hnd Hin Hout. rewrite <- !size_dom.
  assert (dom s = dom s0 ∪ list_to_set ls) as ->.
  { apply set_eq. intros l. rewrite elem_of_union, elem_of_list_to_set, !elem_of_dom.
    destruct (decide (l ∈ ls)) as [Hl|Hl]; [destruct (Hin l Hl); tauto|]. rewrite Hout by done. tauto. }
  rewrite size_union; [by rewrite (size_list_to_set (C := gset loc))|].
  intros l Hl Hls. rewrite elem_of_list_to_set in Hls. apply elem_of_dom in Hl as [x Hx].
  destruct (Hin l Hls). congruence.
Qed.

(** ** The invariant *)
Section invariant.
Context `{HL : MbufLaws}.

(** [holds_data p m]: a message buffer of the pool with the data [p]. *)
Definition holds_data (p : list Z) (m : rte_mbuf) : Prop :=
  sized_mbuf (mbuf_headers + Z.of_nat (length p)) m /\ mbuf_data m = p.

Definition mbuf_holds (s : Store rte_mbuf) (l : loc) (p : list Z) : Prop :=
  exists m, s !! l = Some m /\ holds_data p m.

(** [b] owns its message buffers, all in use and none of them in [s0], the rest of
    the pool; they hold the chunks [ps]. *)
Record buffer_inv (D : Z) (s0 : Store rte_mbuf) (b : SwiftNetPacketBuffer) (ps : list (list Z)) (s : Store rte_mbuf)
    : Prop := {
  bi_amount : buf_amount b = Z.of_nat (length (dpdk_buffers b));
  bi_chunk : data_len_per_packet b = D;
  bi_total : total_data_size b = Z.of_nat (length (concat ps));
  bi_bound : total_data_size b <= 2 ^ 32 - 2 ^ 16;
  bi_nodup : NoDup (dpdk_buffers b);
  bi_mbufs : Forall2 (mbuf_holds s) (dpdk_buffers b) ps;
  bi_shape : chunk_shape D ps;
  bi_fresh : forall l, l ∈ dpdk_buffers b -> s0 !! l = None;
  bi_rest : forall l, l ∉ dpdk_buffers b -> s !! l = s0 !! l
}.

Lemma holds_payload s l m p : s !! l = Some m -> holds_data p m -> mbuf_payload s l = p.
Proof. intros Hm [_ Hp]. unfold mbuf_payload. by rewrite Hm. Qed.

Lemma inv_data D s0 b ps s : buffer_inv D s0 b ps s -> buffer_data s b = concat ps.
Proof.
  intros Hi. unfold buffer_data. f_equal. destruct Hi as [_ _ _ _ _ Hm _ _ _].
  induction Hm as [|l p ls ps (m & Hl & Hp) _ IH]; [done|]. cbn. by rewrite IH, (holds_payload s l m p).
Qed.

Lemma inv_live D s0 b ps s l : buffer_inv D s0 b ps s -> l ∈ dpdk_buffers b -> is_Some (s !! l).
Proof.
  intros Hi Hl. apply list_elem_of_lookup in Hl as [i Hl].
  destruct (Forall2_lookup_l _ _ _ _ _ (bi_mbufs _ _ _ _ _ Hi) Hl) as (p & _ & m & Hm & _). eauto.
Qed.

Lemma inv_size D s0 b ps s : buffer_inv D s0 b ps s -> size s = (size s0 + length (dpdk_buffers b))%nat.
Proof.
  intros Hi. apply store_extension_size; [apply Hi| |apply Hi].
  intros l Hl. split; [by apply Hi|by eapply inv_live].
Qed.

(** Releasing the buffers leaves the pool as it was. *)
Lemma destroy_ok D s0 b ps s : buffer_inv D s0 b ps s -> destroy_packet_buffer b s = Ok s0.
Proof.
  intros Hi. unfold destroy_packet_buffer. rewrite (bi_amount _ _ _ _ _ Hi), bool_decide_true by lia.
  rewrite Nat2Z.id, take_ge by lia. rewrite free_bulk_law; [|apply Hi|intros l; by eapply inv_live].
  f_equal. apply map_eq. intros l. rewrite lookup_foldr_delete. case_decide.
  - symmetry. by apply Hi.
  - by apply Hi.
Qed.

(** A fresh message buffer holds the unspecified bytes behind its headers. *)
Lemma sized_holds n m : 0 <= n -> mbuf_headers + n <= data_room -> sized_mbuf (mbuf_headers + n) m ->
  exists p, holds_data p m /\ Z.of_nat (length p) = n.
Proof.
  intros Hn Hroom Hz. exists (mbuf_data m). pose proof headroom_nonneg.
  assert (mbuf_headers = 58) as Hh by done.
  assert (Z.of_nat (length (mbuf_data m)) = n) as Hl.
  { unfold mbuf_data. destruct Hz as (-> & _ & -> & Hlen). rewrite length_slice; lia. }
  split; [|done]. split; [by rewrite Hl|done].
Qed.

(** Writing data bytes. *)
Lemma mbuf_write_ok l m p s o x :
  s !! l = Some m -> holds_data p m -> 0 <= o -> o + Z.of_nat (length x) <= Z.of_nat (length p) ->
  mbuf_headers + Z.of_nat (length p) <= data_room ->
  exists m', mbuf_write l (mbuf_headers + o) x s = Ok (<[l := m']> s) /\ holds_data (blit (Z.to_nat o) x p) m'.
Proof.
  intros Hm [(Hdl & Hpl & Hoff & Hlen) Hp] Ho Hx Hroom. pose proof headroom_nonneg.
  assert (mbuf_headers = 58) as Hh by done. unfold mbuf_write.
  rewrite (proj2 (store_get_ok _ _ _) Hm), bind_Ok, mem_write_ok, bind_Ok by lia.
  eexists. split; [reflexivity|]. unfold holds_data, sized_mbuf, mbuf_data in *. cbn.
  rewrite !length_blit by lia. split; [done|]. rewrite Hdl in *.
  rewrite slice_blit_inner by lia. f_equal; [lia|done].
Qed.

Lemma mbufs_mono s s' ls ps :
  (forall l, l ∈ ls -> s' !! l = s !! l) -> Forall2 (mbuf_holds s) ls ps -> Forall2 (mbuf_holds s') ls ps.
Proof.
  intros Heq Hf. induction Hf as [|l p ls ps (m & Hm & Hp) Hf IH]; constructor.
  - exists m. by rewrite Heq by left.
  - apply IH. intros l' Hl'. apply Heq. by right.
Qed.

(** Replacing the content of one message buffer keeps the others. *)
Lemma mbufs_update s lb l la pb p pa m p' :
  NoDup (lb ++ l :: la) -> length lb = length pb -> Forall2 (mbuf_holds s) (lb ++ l :: la) (pb ++ p :: pa) ->
  holds_data p' m -> Forall2 (mbuf_holds (<[l := m]> s)) (lb ++ l :: la) (pb ++ p' :: pa).
Proof.
  intros Hnd Hlen Hf Hp. apply Forall2_app_inv in Hf as [Hb Ha]; [|done].
  apply NoDup_app in Hnd as (_ & Hnb & [Hla _]%NoDup_cons).
  apply Forall2_cons in Ha as [_ Ha]. apply Forall2_app; [|constructor].
  - eapply mbufs_mono, Hb. intros l' Hl'. apply lookup_insert_ne. intros ->. apply (Hnb l' Hl'). left.
  - exists m. by rewrite lookup_insert_eq.
  - eapply mbufs_mono, Ha. intros l' Hl'. apply lookup_insert_ne. by intros ->.
Qed.

(** The message buffer at a position. *)
Lemma mbufs_at s ls pb p pa :
  Forall2 (mbuf_holds s) ls (pb ++ p :: pa) ->
  exists lb l la m, ls = lb ++ l :: la /\ length lb = length pb /\ s !! l = Some m /\ holds_data p m
    /\ ls !! length pb = Some l.
Proof.
  intros Hf. apply Forall2_app_inv_r in Hf as (lb & l2 & Hb & Ha & ->).
  apply Forall2_cons_inv_r in Ha as (l & la & (m & Hm & Hp) & Ha & ->).
  exists lb, l, la, m. pose proof (Forall2_length _ _ _ Hb) as Hlen. do 4 (split; [done|]).
  rewrite <- Hlen. by apply list_lookup_middle.
Qed.

Lemma slot_get_ok ls i l : ls !! i = Some l -> slot_get ls (Z.of_nat i) = Ok l.
Proof. intros Hl. unfold slot_get. rewrite (proj2 (Z.ltb_ge _ 0)) by lia. by rewrite Nat2Z.id, Hl. Qed.
End invariant.

(** ** The operations keep the invariant *)
Section operations_ok.
Context `{HL : MbufLaws} (g : Globals) (nd : SwiftNetNetworkData) (D : Z).
Hypothesis HD : 0 < D.
Hypothesis Hmtu : maximum_transmission_unit g = D + PACKET_HEADER_SIZE.
Hypothesis Hroom : mbuf_headers + D <= data_room.
Hypothesis Hword : mbuf_headers + D < 2 ^ 16.
Hypothesis Hprepend : prepend_size nd = sizeof_ether_header.

Lemma sizes_ok n : 0 <= n <= D ->
  mbuf_size_for_data n (prepend_size nd) = mbuf_headers + n
  /\ mbuf_size_for_full_chunk g (prepend_size nd) = mbuf_headers + D.
Proof.
  intros Hn. unfold mbuf_size_for_data, mbuf_size_for_full_chunk. rewrite Hprepend, Hmtu.
  unfold mbuf_headers, PACKET_HEADER_SIZE, sizeof_ether_header, sizeof_ip, sizeof_SwiftNetPacketInfo in *.
  rewrite !u16_id by lia. lia.
Qed.

(** New message buffers behind the ones a buffer has. *)
Lemma bulk_holds k s : 0 <= k -> Z.of_nat (size s) + k <= mempool_available ->
  exists ls ps s', alloc_bulk_appended k (mbuf_headers + D) s = Ok (ls, s') /\ Z.of_nat (length ls) = k /\ NoDup ls
    /\ Forall2 (mbuf_holds s') ls ps /\ (forall p, p ∈ ps -> Z.of_nat (length p) = D)
    /\ (forall l, l ∈ ls -> s !! l = None) /\ (forall l, l ∉ ls -> s' !! l = s !! l).
Proof.
  intros Hk Hs. assert (mbuf_headers = 58) as Hh by done.
  destruct (alloc_bulk_ok k (mbuf_headers + D) s Hk Hs) as (ls & s' & He & Hlen & Hnd & Hin & Hout); [lia|].
  exists ls, (map (mbuf_payload s') ls), s'. split; [done|]. split; [done|]. split; [done|].
  assert (forall l, l ∈ ls -> mbuf_holds s' l (mbuf_payload s' l) /\ Z.of_nat (length (mbuf_payload s' l)) = D) as Hall.
  { intros l Hl. destruct (Hin l Hl) as (_ & m & Hm & Hz).
    destruct (sized_holds D m ltac:(lia) Hroom Hz) as (p & Hp & Hl'). rewrite (holds_payload s' l m p) by done.
    split; [by exists m|done]. }
  split; [|split; [|split; [|done]]].
  - apply Forall2_fmap_r. apply Forall_Forall2_diag, Forall_forall. intros l Hl. by apply Hall.
  - intros p Hp. apply list_elem_of_fmap in Hp as (l & -> & Hl). by apply Hall.
  - intros l Hl. by apply Hin.
Qed.

Lemma one_holds n s : 0 <= n <= D -> Z.of_nat (size s) < mempool_available ->
  exists l m p, alloc_appended (mbuf_headers + n) s = Ok (l, <[l := m]> s) /\ s !! l = None
    /\ holds_data p m /\ Z.of_nat (length p) = n.
Proof.
  intros Hn Hs. assert (mbuf_headers = 58) as Hh by done.
  destruct (alloc_appended_ok (mbuf_headers + n) s Hs) as (l & m & He & Hl & Hz); [lia|].
  destruct (sized_holds n m) as (p & Hp & Hlen); [lia|lia|exact Hz|]. by exists l, m, p.
Qed.

Lemma create_inv n s0 :
  0 <= n <= 2 ^ 32 - 2 ^ 16 -> Z.of_nat (size s0) + n / D + 1 <= mempool_available ->
  exists b ps s, create_packet_buffer g true n nd s0 = Ok (b, s) /\ buffer_inv D s0 b ps s
    /\ total_data_size b = n /\ append_offset b = 0.
Proof.
  intros Hn Hs. assert (mbuf_headers = 58) as Hh by done. unfold create_packet_buffer.
  replace (maximum_transmission_unit g - PACKET_HEADER_SIZE) with D by lia. rewrite u16_id by lia.
  rewrite (proj2 (Z.eqb_neq D 0)) by lia. cbn [negb].
  pose proof (Z.mod_pos_bound n D HD) as Hm. pose proof (Z.div_pos n D ltac:(lia) HD) as Hq.
  pose proof (Z.div_mod n D ltac:(lia)) as Hdm. rewrite u16_id by lia.
  destruct (sizes_ok (n mod D) ltac:(lia)) as [-> ->].
  destruct (bulk_holds (n / D) s0 Hq ltac:(lia)) as (ls & ps & s1 & He & Hlen & Hnd & Hps & HpD & Hnew & Hout).
  rewrite He, bind_Ok.
  assert (size s1 = size s0 + length ls)%nat as Hsz.
  { apply store_extension_size; [done| |done]. intros l Hl. split; [by apply Hnew|].
    apply list_elem_of_lookup in Hl as [i Hl].
    destruct (Forall2_lookup_l _ _ _ _ _ Hps Hl) as (p & _ & m & Hm' & _). eauto. }
  destruct (one_holds (n mod D) s1) as (l & m & p & He1 & Hl & Hp & Hpl); [lia|lia|].
  rewrite He1, bind_Ok.
  assert (l ∉ ls) as Hni.
  { intros Hin. apply list_elem_of_lookup in Hin as [i Hi].
    destruct (Forall2_lookup_l _ _ _ _ _ Hps Hi) as (q & _ & m' & Hm' & _). congruence. }
  assert (n / D + 1 < 2 ^ 32) as Hu.
  { assert (n / D <= n) by (apply Z.div_le_upper_bound; nia). lia. }
  rewrite u32_id by lia.
  pose proof (Forall2_length _ _ _ Hps) as Hl2.
  exists (mk_packet_buffer (ls ++ [l]) n (n / D + 1) D 0), (ps ++ [p]), (<[l := m]> s1).
  split; [done|]. split; [|done]. constructor; cbn [dpdk_buffers buf_amount data_len_per_packet total_data_size].
  - rewrite length_app. cbn. lia.
  - done.
  - rewrite concat_app, length_app. cbn. rewrite app_nil_r, Nat2Z.inj_add, (length_concat_full D) by done. nia.
  - lia.
  - apply NoDup_app. split; [done|]. split; [|apply NoDup_singleton].
    intros x Hx ->%list_elem_of_singleton. done.
  - apply Forall2_app; [|constructor; [|constructor]].
    + eapply mbufs_mono, Hps. intros x Hx. apply lookup_insert_ne. by intros ->.
    + exists m. by rewrite lookup_insert_eq.
  - exists ps, p. split; [done|]. split; [done|lia].
  - intros x [Hx| ->%list_elem_of_singleton]%elem_of_app; [by apply Hnew|]. by rewrite <- Hout.
  - intros x [Hx Hx']%not_elem_of_app. rewrite lookup_insert_ne by (intros ->; apply Hx'; left). by apply Hout.
Qed.

(** New content of the same length in one message buffer. *)
Lemma inv_update_chunk s0 b pb p pa s lb l la m p' :
  buffer_inv D s0 b (pb ++ p :: pa) s -> dpdk_buffers b = lb ++ l :: la -> length lb = length pb ->
  holds_data p' m -> length p' = length p -> buffer_inv D s0 b (pb ++ p' :: pa) (<[l := m]> s).
Proof.
  intros Hi Hls Hlen Hp Hl. destruct Hi as [Ham HDb Htot Hb Hnd Hm Hsh Hf Hr].
  assert (map length (pb ++ p :: pa) = map length (pb ++ p' :: pa)) as Hml by (rewrite !map_app; cbn; by rewrite Hl).
  constructor; try done.
  - rewrite Htot. f_equal. by apply length_concat_map.
  - rewrite Hls in *. by eapply mbufs_update.
  - by eapply chunk_shape_lengths.
  - intros x Hx. rewrite lookup_insert_ne; [by apply Hr|]. intros ->. apply Hx. rewrite Hls. apply elem_of_app. right. left.
Qed.

Lemma write_chunks_ok fuel s0 b ps s c o data pos rem :
  buffer_inv D s0 b ps s -> 0 <= rem <= Z.of_nat fuel -> 0 <= o < D -> 0 <= c ->
  (0 < rem -> c * D + o + rem <= total_data_size b) -> 0 <= pos -> pos + rem <= Z.of_nat (length data) ->
  exists s' ps', write_chunks g fuel b c o data pos rem s = Ok s' /\ buffer_inv D s0 b ps' s'
    /\ concat ps' = blit (Z.to_nat (c * D + o)) (slice (Z.to_nat pos) (Z.to_nat rem) data) (concat ps).
Proof.
  revert ps s c o pos rem. induction fuel as [|fuel IH]; intros ps s c o pos rem Hi Hrem Ho Hc Hfit Hpos Hdata.
  { assert (rem = 0) as -> by lia. exists s, ps. split; [done|]. split; [done|].
    by rewrite Z2Nat.inj_0, slice_0, blit_nil. }
  destruct (decide (rem = 0)) as [->|Hne].
  { exists s, ps. split; [done|]. split; [done|]. by rewrite Z2Nat.inj_0, slice_0, blit_nil. }
  specialize (Hfit ltac:(lia)).
  cbn [write_chunks]. rewrite (proj2 (Z.ltb_lt 0 rem)) by lia.
  pose proof (bi_total _ _ _ _ _ Hi) as Htot. pose proof (bi_bound _ _ _ _ _ Hi) as Hb.
  destruct (shape_lookup D ps (c * D + o) HD (bi_shape _ _ _ _ _ Hi) ltac:(nia))
    as (pb & p & pa & -> & Hlb & HbD & Hop & HpD & Hlast).
  rewrite Z.div_add_l, Z.div_small, Z.add_0_r in Hlb by lia.
  rewrite Z.add_comm, Z.mod_add, Z.mod_small in Hop by lia.
  destruct (mbufs_at _ _ _ _ _ (bi_mbufs _ _ _ _ _ Hi)) as (lb & l & la & m & Hls & Hll & Hm & Hp & Hat).
  assert (slot_get (dpdk_buffers b) c = Ok l) as -> by (rewrite <- Hlb; by apply slot_get_ok).
  rewrite bind_Ok, (bi_chunk _ _ _ _ _ Hi), Hmtu.
  assert (mbuf_headers = 58) as Hh by done. assert (PACKET_HEADER_SIZE = 44) as Hps by done.
  assert (sizeof_ether_header = 14) as Hse by done.
  rewrite (u32_id (_ - _ + _)) by lia. rewrite !u32_id by nia. set (n := Z.min (D - o) rem).
  assert (o + n <= Z.of_nat (length p)) as Hn.
  { destruct Hlast as [Hpd| ->]; [subst n; lia|].
    rewrite concat_app, length_app, Nat2Z.inj_add, (length_concat_full D) in Htot by done.
    cbn in Htot. rewrite app_nil_r in Htot. subst n. nia. }
  assert (1 <= n <= rem) as Hn1 by (unfold n; lia). rewrite mem_read_ok, bind_Ok by lia.
  assert (length (slice (Z.to_nat pos) (Z.to_nat n) data) = Z.to_nat n) as Hsl by (apply length_slice; lia).
  replace (D + PACKET_HEADER_SIZE - D + sizeof_ether_header + o) with (mbuf_headers + o) by lia.
  destruct (mbuf_write_ok l m p s o (slice (Z.to_nat pos) (Z.to_nat n) data) Hm Hp) as (m' & Hw & Hp'); [lia|lia|lia|].
  rewrite Hw, bind_Ok.
  assert (length (blit (Z.to_nat o) (slice (Z.to_nat pos) (Z.to_nat n) data) p) = length p) as Hbl
    by (apply length_blit; lia).
  pose proof (inv_update_chunk s0 b pb p pa s lb l la m' _ Hi Hls Hll Hp' Hbl) as Hi'.
  destruct (IH _ _ (c + 1) 0 (pos + n) (rem - n) Hi') as (s' & ps' & Hw' & Hi2 & Hc'); try lia.
  exists s', ps'. split; [done|]. split; [done|]. rewrite Hc', (concat_blit D) by (done || lia). rewrite Hlb.
  destruct (decide (rem <= D - o)) as [Hsmall|Hbig].
  { replace n with rem by (unfold n; lia). by rewrite Z.sub_diag, slice_0, blit_nil. }
  replace n with (D - o) in * by (unfold n; lia).
  replace (Z.to_nat ((c + 1) * D + 0))
    with (Z.to_nat (c * D + o) + length (slice (Z.to_nat pos) (Z.to_nat (D - o)) data))%nat by nia.
  rewrite blit_blit_adjacent.
  - replace (Z.to_nat rem) with (Z.to_nat (D - o) + Z.to_nat (rem - (D - o)))%nat by lia.
    rewrite slice_split by lia. do 2 f_equal. f_equal. lia.
  - rewrite Hsl, length_slice by lia. lia.
Qed.

Lemma write_inv s0 b ps s off data :
  buffer_inv D s0 b ps s -> 0 <= off -> off + Z.of_nat (length data) <= total_data_size b ->
  exists s' ps', write_packet_buffer g off b data (Z.of_nat (length data)) s = Ok s' /\ buffer_inv D s0 b ps' s'
    /\ concat ps' = blit (Z.to_nat off) data (concat ps).
Proof.
  intros Hi Hoff Hfit. unfold write_packet_buffer. rewrite (bi_chunk _ _ _ _ _ Hi), (proj2 (Z.eqb_neq D 0)) by lia.
  pose proof (Z.div_mod off D ltac:(lia)). pose proof (Z.mod_pos_bound off D HD). pose proof (Z.div_pos off D Hoff HD).
  destruct (write_chunks_ok (Z.to_nat (Z.of_nat (length data))) s0 b ps s (off / D) (off mod D) data 0
    (Z.of_nat (length data)) Hi) as (s' & ps' & Hw & Hi' & Hc); try lia.
  exists s', ps'. split; [done|]. split; [done|]. rewrite Hc. f_equal; [f_equal; lia|].
  rewrite Nat2Z.id. apply slice_full.
Qed.

(** *** Resizing *)

(** The data after a change of the length of a message buffer. *)
Lemma with_len_holds p m k :
  holds_data p m -> 0 <= k <= D ->
  exists p', holds_data p' (mbuf_with_len (mbuf_headers + k) m) /\ Z.of_nat (length p') = k
    /\ (k <= Z.of_nat (length p) -> p' `prefix_of` p) /\ (Z.of_nat (length p) <= k -> p `prefix_of` p').
Proof.
  intros [(Hdl & Hpl & Hoff & Hlen) Hp] Hk. assert (mbuf_headers = 58) as Hh by done. pose proof headroom_nonneg.
  destruct (sized_holds k (mbuf_with_len (mbuf_headers + k) m)) as (p' & Hp' & Hl); [lia|lia| |].
  { split; [done|]. split; [done|]. split; [done|]. cbn. lia. }
  exists p'. split; [done|]. split; [done|].
  assert (p' = slice (Z.to_nat (data_off m + mbuf_headers)) (Z.to_nat k) (buf_addr m)) as Hs'.
  { destruct Hp' as [_ <-]. unfold mbuf_data. cbn [data_len mbuf_with_len data_off buf_addr]. f_equal. lia. }
  assert (p = slice (Z.to_nat (data_off m + mbuf_headers)) (length p) (buf_addr m)) as Hs.
  { rewrite <- Hp at 1. unfold mbuf_data. f_equal. lia. }
  assert (forall i j, (i <= j)%nat -> slice (Z.to_nat (data_off m + mbuf_headers)) i (buf_addr m)
    `prefix_of` slice (Z.to_nat (data_off m + mbuf_headers)) j (buf_addr m)) as Hpre.
  { intros i j Hij. unfold slice. replace i with (i `min` j)%nat by lia. rewrite <- take_take. apply prefix_take. }
  split; intros Hle; rewrite Hs, Hs'; apply Hpre; lia.
Qed.

Lemma data_size_holds p m :
  holds_data p m -> Z.of_nat (length p) <= D -> data_size_of m (prepend_size nd) = Z.of_nat (length p).
Proof.
  intros [(Hdl & _) _] Hp. unfold data_size_of. rewrite Hprepend, Hdl.
  replace (mbuf_headers + Z.of_nat (length p) - PACKET_HEADER_SIZE - sizeof_ether_header) with (Z.of_nat (length p))
    by (unfold mbuf_headers; lia).
  assert (mbuf_headers = 58) by done. apply u16_id. lia.
Qed.

(** Another length for the last message buffer. *)
Lemma inv_set_last s0 b full p s lb l m p' n :
  buffer_inv D s0 b (full ++ [p]) s -> (forall q, q ∈ full -> Z.of_nat (length q) = D) ->
  dpdk_buffers b = lb ++ [l] -> holds_data p' m ->
  Z.of_nat (length p') <= D -> n = Z.of_nat (length (concat (full ++ [p']))) -> n <= 2 ^ 32 - 2 ^ 16 ->
  buffer_inv D s0 (mk_packet_buffer (dpdk_buffers b) n (buf_amount b) D (append_offset b)) (full ++ [p']) (<[l := m]> s).
Proof.
  intros Hi Hfull Hls Hp Hl -> Hb. destruct Hi as [Ham HDb Htot _ Hnd Hm Hsh Hf Hr].
  assert (length lb = length full) as Hlen.
  { pose proof (Forall2_length _ _ _ Hm) as Hl2. rewrite Hls, !length_app in Hl2. cbn in Hl2. lia. }
  constructor; cbn; try done.
  - rewrite Hls in *. by eapply mbufs_update.
  - by exists full, p'.
  - intros x Hx. rewrite lookup_insert_ne; [by apply Hr|]. intros ->. apply Hx. rewrite Hls. apply elem_of_app. right. left.
Qed.

(** More message buffers behind full ones. *)
Lemma inv_push s0 b ps s ls' ps' s' n :
  buffer_inv D s0 b ps s -> (forall q, q ∈ ps -> Z.of_nat (length q) = D) ->
  NoDup ls' -> Forall2 (mbuf_holds s') ls' ps' -> chunk_shape D ps' ->
  (forall l, l ∈ ls' -> s !! l = None) -> (forall l, l ∉ ls' -> s' !! l = s !! l) ->
  n = Z.of_nat (length (concat (ps ++ ps'))) -> n <= 2 ^ 32 - 2 ^ 16 ->
  buffer_inv D s0 (mk_packet_buffer (dpdk_buffers b ++ ls') n (Z.of_nat (length (dpdk_buffers b ++ ls'))) D (append_offset b))
    (ps ++ ps') s'.
Proof.
  intros Hi Hfull Hnd' Hm' Hsh' Hnew Hout -> Hb. pose proof (fun l => inv_live D s0 b ps s l Hi) as Hlive.
  destruct Hi as [Ham HDb Htot _ Hnd Hm Hsh Hf Hr].
  assert (forall l, l ∈ dpdk_buffers b -> l ∉ ls') as Hdis.
  { intros l Hl Hl'. destruct (Hlive l Hl) as [m Hm2]. rewrite Hnew in Hm2 by done. done. }
  constructor; cbn [dpdk_buffers total_data_size buf_amount data_len_per_packet]; try done.
  - by apply NoDup_app.
  - apply Forall2_app; [|done]. eapply mbufs_mono, Hm. intros l Hl. apply Hout. by apply Hdis.
  - destruct Hsh' as (full & last & -> & Hf' & Hl'). exists (ps ++ full), last. rewrite app_assoc.
    split; [done|]. split; [|done]. intros q [Hq|Hq]%elem_of_app; auto.
  - intros l [Hl|Hl]%elem_of_app; [by apply Hf|]. rewrite <- Hr; [by apply Hnew|]. intros Hl'. by eapply Hdis.
  - intros l [Hl Hl']%not_elem_of_app. rewrite Hout by done. by apply Hr.
Qed.

(** The new message buffers of a growing buffer: [k] full ones and one for a remainder. *)
Lemma new_chunks k r s :
  0 <= k -> 0 <= r < D -> 0 < k + r -> Z.of_nat (size s) + k + (if r =? 0 then 0 else 1) <= mempool_available ->
  exists full rest ps s2 s3, alloc_bulk_appended k (mbuf_headers + D) s = Ok (full, s2)
    /\ (if negb (r =? 0) then
          '(l, s) ← alloc_appended (mbuf_headers + r) s2; Ok ([l], s)
        else Ok ([], s2)) = Ok (rest, s3)
    /\ Z.of_nat (length full) = k /\ Z.of_nat (length rest) = (if r =? 0 then 0 else 1)
    /\ NoDup (full ++ rest) /\ Forall2 (mbuf_holds s3) (full ++ rest) ps /\ chunk_shape D ps
    /\ (forall l, l ∈ full ++ rest -> s !! l = None) /\ (forall l, l ∉ full ++ rest -> s3 !! l = s !! l)
    /\ Z.of_nat (length (concat ps)) = k * D + r.
Proof.
  intros Hk Hr Hpos Hs.
  destruct (bulk_holds k s Hk) as (ls & ps & s2 & He & Hlen & Hnd & Hps & HpD & Hnew & Hout);
    [destruct (r =? 0); lia|].
  pose proof (Forall2_length _ _ _ Hps) as Hlp. pose proof (length_concat_full D ps HpD) as Hcl.
  destruct (Z.eqb_spec r 0) as [->|Hne]; cbn [negb].
  - exists ls, [], ps, s2, s2. rewrite app_nil_r. do 6 (split; [done|]). split; [|repeat split; try done; lia].
    destruct ps as [|p ps _] using rev_ind; [cbn in *; lia|].
    exists ps, p. split; [done|]. split; [intros q Hq; apply HpD, elem_of_app; by left|].
    rewrite (HpD p); [lia|]. apply elem_of_app. right. left.
  - assert (forall l, l ∈ ls -> is_Some (s2 !! l)) as Hlive.
    { intros l Hl. apply list_elem_of_lookup in Hl as [i Hl].
      destruct (Forall2_lookup_l _ _ _ _ _ Hps Hl) as (p & _ & m & Hm & _). eauto. }
    assert (size s2 = size s + length ls)%nat as Hsz.
    { apply store_extension_size; [done| |done]. intros l Hl. auto. }
    destruct (one_holds r s2) as (l & m & p & He1 & Hl & Hp & Hpl); [lia|lia|].
    assert (l ∉ ls) as Hni by (intros Hin; destruct (Hlive l Hin); congruence).
    exists ls, [l], (ps ++ [p]), s2, (<[l := m]> s2).
    split; [done|]. split; [by rewrite He1|]. split; [done|]. split; [done|]. split; [|split; [|split; [|split; [|split]]]].
    + apply NoDup_app. split; [done|]. split; [|apply NoDup_singleton]. by intros x Hx ->%list_elem_of_singleton.
    + apply Forall2_app; [|constructor; [|constructor]].
      * eapply mbufs_mono, Hps. intros x Hx. apply lookup_insert_ne. by intros ->.
      * exists m. by rewrite lookup_insert_eq.
    + exists ps, p. split; [done|]. split; [done|lia].
    + intros x [Hx| ->%list_elem_of_singleton]%elem_of_app; [by apply Hnew|]. by rewrite <- Hout.
    + intros x [Hx Hx']%not_elem_of_app. rewrite lookup_insert_ne by (intros ->; apply Hx'; left). by apply Hout.
    + rewrite concat_app, length_app. cbn. rewrite app_nil_r. lia.
Qed.

(** The data before and after a resize: one is a prefix of the other. *)
Definition resized (n : Z) (d d' : list Z) : Prop :=
  Z.of_nat (length d') = n /\ (d `prefix_of` d' \/ d' `prefix_of` d).

Lemma inv_last s0 b ps s :
  buffer_inv D s0 b ps s ->
  exists full p lb l m, ps = full ++ [p] /\ (forall q, q ∈ full -> Z.of_nat (length q) = D) /\ Z.of_nat (length p) <= D
    /\ dpdk_buffers b = lb ++ [l] /\ length lb = length full /\ s !! l = Some m /\ holds_data p m
    /\ slot_get (dpdk_buffers b) (u32 (buf_amount b - 1)) = Ok l
    /\ total_data_size b = Z.of_nat (length full) * D + Z.of_nat (length p)
    /\ buf_amount b = Z.of_nat (length full) + 1.
Proof.
  intros Hi. destruct (shape_length D ps HD (bi_shape _ _ _ _ _ Hi)) as (full & p & -> & Hf & Hp & Hlen & Hlp).
  destruct (mbufs_at _ _ _ _ _ (bi_mbufs _ _ _ _ _ Hi)) as (lb & l & la & m & Hls & Hll & Hm & Hh & Hat).
  pose proof (Forall2_length _ _ _ (bi_mbufs _ _ _ _ _ Hi)) as Hl2.
  pose proof (bi_amount _ _ _ _ _ Hi) as Ham. pose proof (bi_total _ _ _ _ _ Hi) as Ht.
  pose proof (bi_bound _ _ _ _ _ Hi) as Hb.
  assert (la = []) as ->.
  { rewrite Hls, !length_app in Hl2. cbn in Hl2. apply nil_length_inv. lia. }
  exists full, p, lb, l, m. do 7 (split; [done|]). split; [|lia].
  rewrite u32_id by nia. replace (buf_amount b - 1) with (Z.of_nat (length full)) by lia. by apply slot_get_ok.
Qed.

(** Growing inside the last message buffer. *)
Lemma grow_in_place s0 b full p s lb l m n :
  buffer_inv D s0 b (full ++ [p]) s -> (forall q, q ∈ full -> Z.of_nat (length q) = D) ->
  dpdk_buffers b = lb ++ [l] -> s !! l = Some m -> holds_data p m -> Z.of_nat (length p) <= D ->
  let k := n - Z.of_nat (length full) * D in
  Z.of_nat (length p) <= k <= D -> n <= 2 ^ 32 - 2 ^ 16 ->
  exists p', mbuf_append l (u16 (k - Z.of_nat (length p))) s = Ok (<[l := mbuf_with_len (mbuf_headers + k) m]> s)
    /\ buffer_inv D s0 (mk_packet_buffer (dpdk_buffers b) n (buf_amount b) D (append_offset b)) (full ++ [p'])
         (<[l := mbuf_with_len (mbuf_headers + k) m]> s)
    /\ n = Z.of_nat (length (concat (full ++ [p']))) /\ concat (full ++ [p]) `prefix_of` concat (full ++ [p']).
Proof.
  intros Hi Hf Hls Hm Hhold Hp k Hk Hb. assert (mbuf_headers = 58) as Hh by done. rewrite u16_id by lia.
  destruct (mbuf_append_ok l m _ (k - Z.of_nat (length p)) s Hm (proj1 Hhold)) as [-> _]; [lia|lia|].
  rewrite <- Z.add_assoc. replace (Z.of_nat (length p) + (k - Z.of_nat (length p))) with k by lia.
  destruct (with_len_holds p m k Hhold ltac:(lia)) as (p' & Hp' & Hlp' & _ & Hpre).
  assert (n = Z.of_nat (length (concat (full ++ [p'])))) as Hn'.
  { pose proof (length_concat_full D full Hf). rewrite concat_app, length_app. cbn. rewrite app_nil_r. unfold k in *. lia. }
  exists p'. split; [done|]. split; [eapply inv_set_last; try done; lia|].
  split; [done|]. rewrite !concat_app. apply prefix_app. cbn. rewrite !app_nil_r. apply Hpre. lia.
Qed.

(** Growing by message buffers, [b] being full. *)
Lemma grow_by_chunks s0 b ps s c :
  buffer_inv D s0 b ps s -> (forall q, q ∈ ps -> Z.of_nat (length q) = D) -> 0 < c ->
  let n := total_data_size b + c in
  n <= 2 ^ 32 - 2 ^ 16 -> Z.of_nat (size s0) + n / D + 1 <= mempool_available ->
  exists fs s2 rest s3 ps',
    alloc_bulk_appended (c / D) (mbuf_size_for_full_chunk g (prepend_size nd)) s = Ok (fs, s2)
    /\ (if negb (u16 (c mod D) =? 0) then
          '(l, s) ← alloc_appended (mbuf_size_for_data (u16 (c mod D)) (prepend_size nd)) s2; Ok ([l], s)
        else Ok ([], s2)) = Ok (rest, s3)
    /\ buffer_inv D s0 (mk_packet_buffer (take (Z.to_nat (buf_amount b)) (dpdk_buffers b) ++ fs ++ rest) n
         (u32 (buf_amount b + c / D + Z.of_nat (length rest))) D (append_offset b)) ps' s3
    /\ n = Z.of_nat (length (concat ps')) /\ concat ps `prefix_of` concat ps'.
Proof.
  intros Hi Hfull Hc n Hb Hs. pose proof (inv_size _ _ _ _ _ Hi) as Hsz. pose proof (bi_amount _ _ _ _ _ Hi) as Ham.
  pose proof (Forall2_length _ _ _ (bi_mbufs _ _ _ _ _ Hi)) as Hl2. pose proof (length_concat_full D ps Hfull) as Hcl.
  pose proof (bi_total _ _ _ _ _ Hi) as Htot. assert (mbuf_headers = 58) as Hh by done.
  pose proof (Z.div_mod c D ltac:(lia)) as Hdm. pose proof (Z.mod_pos_bound c D HD) as Hmb.
  pose proof (Z.div_pos c D ltac:(lia) HD) as Hcd.
  assert (n / D = Z.of_nat (length ps) + c / D) as Hnd.
  { replace n with ((Z.of_nat (length ps) + c / D) * D + c mod D) by (unfold n; nia).
    rewrite Z.div_add_l, (Z.div_small (c mod D)) by lia. lia. }
  rewrite (u16_id (c mod D)) by lia. destruct (sizes_ok (c mod D) ltac:(lia)) as [-> ->].
  destruct (new_chunks (c / D) (c mod D) s) as (fs & rest & qs & s2 & s3 & Hbulk & Hrest & Hlf & Hlr & Hnd' & Hqs & Hsh & Hnew & Hout & Hlq);
    [lia|lia|nia|destruct (c mod D =? 0); lia|].
  assert (Z.of_nat (length rest) <= 1) as Hr1 by (rewrite Hlr; destruct (c mod D =? 0); lia).
  assert (n = Z.of_nat (length (concat (ps ++ qs)))) as Hn by (rewrite concat_app, length_app; unfold n; lia).
  exists fs, s2, rest, s3, (ps ++ qs). split; [done|]. split; [done|]. split; [|split; [done|]].
  - rewrite u32_id by nia. rewrite Ham at 1. rewrite Nat2Z.id, take_ge by lia.
    replace (buf_amount b + c / D + Z.of_nat (length rest)) with (Z.of_nat (length (dpdk_buffers b ++ fs ++ rest)))
      by (rewrite !length_app; lia).
    by apply (inv_push s0 b ps s (fs ++ rest) qs s3 n).
  - rewrite concat_app. by eexists.
Qed.

Lemma grow_inv s0 b ps s n :
  buffer_inv D s0 b ps s -> total_data_size b < n <= 2 ^ 32 - 2 ^ 16 ->
  Z.of_nat (size s0) + n / D + 1 <= mempool_available ->
  exists b' ps' s', resize_packet_buffer g true n b nd s = Ok (b', s') /\ buffer_inv D s0 b' ps' s'
    /\ total_data_size b' = n /\ append_offset b' = append_offset b /\ resized n (concat ps) (concat ps').
Proof.
  intros Hi Hn Hs. pose proof (Forall2_length _ _ _ (bi_mbufs _ _ _ _ _ Hi)) as Hl2.
  assert (mbuf_headers = 58) as Hh by done.
  destruct (inv_last s0 b ps s Hi) as (full & p & lb & l & m & -> & Hf & Hp & Hls & Hll & Hm & Hhold & Hslot & Htot & Ham).
  unfold resize_packet_buffer. rewrite (proj2 (Z.eqb_neq n _)) by lia.
  rewrite Hslot, bind_Ok, (proj2 (store_get_ok _ _ _) Hm), bind_Ok, (data_size_holds p m Hhold Hp).
  rewrite (proj2 (Z.ltb_lt _ n)) by lia. unfold grow_packet_buffer. rewrite (bi_chunk _ _ _ _ _ Hi).
  rewrite (u32_id (_ + Z.of_nat _)) by lia.
  destruct (Z.leb_spec (n - total_data_size b + Z.of_nat (length p)) D) as [Hfit|Hover].
  - destruct (grow_in_place s0 b full p s lb l m n Hi Hf Hls Hm Hhold Hp) as (p' & Ha & Hi' & Hlen & Hpre); [lia|lia|].
    replace (n - total_data_size b) with (n - Z.of_nat (length full) * D - Z.of_nat (length p)) by lia.
    rewrite Ha, bind_Ok. eexists _, (full ++ [p']), _. split; [reflexivity|]. split; [exact Hi'|].
    split; [done|]. split; [done|]. split; [done|by left].
  - set (n1 := Z.of_nat (length full) * D + D).
    destruct (grow_in_place s0 b full p s lb l m n1 Hi Hf Hls Hm Hhold Hp) as (p' & Ha & Hi' & Hlen & Hpre);
      [unfold n1; lia|unfold n1; lia|].
    replace (n1 - Z.of_nat (length full) * D) with D in * by (unfold n1; lia).
    rewrite Ha, bind_Ok, (u32_id (_ - _ - _)) by lia. set (c := n - total_data_size b - (D - Z.of_nat (length p))).
    rewrite (proj2 (Z.eqb_neq D 0)) by lia. cbn [negb].
    destruct (grow_by_chunks s0 _ _ _ c Hi') as (fs & s2 & rest & s3 & ps' & Hbulk & Hrest & Hi3 & Hl3 & Hp3);
      cbn [total_data_size buf_amount dpdk_buffers append_offset] in *; try (unfold c, n1; lia).
    { intros q [Hq| ->%list_elem_of_singleton]%elem_of_app; [by apply Hf|].
      pose proof (length_concat_full D full Hf). rewrite concat_app, length_app in Hlen. cbn in Hlen.
      rewrite app_nil_r in Hlen. unfold n1 in *. lia. }
    { replace (n1 + c) with n by (unfold c, n1; lia). done. }
    replace (n1 + c) with n in * by (unfold c, n1; lia).
    rewrite Hbulk, bind_Ok, Hrest, bind_Ok. eexists _, ps', s3. split; [reflexivity|].
    split; [exact Hi3|]. split; [done|]. split; [done|]. split; [done|]. left. by trans (concat (full ++ [p'])).
Qed.

(** Freeing the last message buffer. *)
Lemma inv_pop s0 b full p s lb l n :
  buffer_inv D s0 b (full ++ [p]) s -> (forall q, q ∈ full -> Z.of_nat (length q) = D) -> full <> [] ->
  dpdk_buffers b = lb ++ [l] -> n = Z.of_nat (length (concat full)) ->
  mbuf_free l s = Ok (delete l s)
  /\ buffer_inv D s0 (mk_packet_buffer lb n (Z.of_nat (length lb)) D (append_offset b)) full (delete l s).
Proof.
  intros Hi Hfull Hne Hls ->. pose proof (fun x => inv_live D s0 b _ s x Hi) as Hlive.
  destruct Hi as [Ham HDb Htot Hb Hnd Hm Hsh Hf Hr]. rewrite Hls in *.
  destruct (Hlive l ltac:(apply elem_of_app; right; left)) as [m Hl].
  split. { unfold mbuf_free. rewrite (proj2 (store_get_ok _ _ _) Hl), bind_Ok. by erewrite free_law. }
  apply NoDup_app in Hnd as (Hnd & Hni & _).
  pose proof (Forall2_length _ _ _ Hm) as Hl2. rewrite !length_app in Hl2. cbn in Hl2.
  apply Forall2_app_inv in Hm as [Hm _]; [|lia].
  rewrite concat_app, length_app in Htot.
  constructor; cbn [dpdk_buffers buf_amount data_len_per_packet total_data_size]; try done.
  - lia.
  - eapply mbufs_mono, Hm. intros x Hx. apply lookup_delete_ne. intros ->. apply (Hni x Hx). left.
  - destruct full as [|q full _] using rev_ind; [done|]. exists full, q. split; [done|].
    split; [intros r Hr'; apply Hfull, elem_of_app; by left|]. rewrite (Hfull q); [lia|]. apply elem_of_app. right. left.
  - intros x Hx. apply Hf, elem_of_app. by left.
  - intros x Hx. destruct (decide (x = l)) as [->|Hxl].
    + rewrite lookup_delete_eq. symmetry. apply Hf, elem_of_app. right. left.
    + rewrite lookup_delete_ne by done. apply Hr. rewrite elem_of_app, list_elem_of_singleton. tauto.
Qed.

Definition first_buffers (buffers : list loc) (n amount a : Z) : SwiftNetPacketBuffer :=
  mk_packet_buffer (take (Z.to_nat amount) buffers) n amount D a.

(** The loop that frees whole message buffers: it stops at the one that holds the new
    end, or at the first. *)
Lemma free_behind_ok fuel s0 buffers n a ps s c :
  buffer_inv D s0 (first_buffers buffers n (Z.of_nat (length ps)) a) ps s ->
  (forall q, q ∈ ps -> Z.of_nat (length q) = D) -> (0 < length ps <= fuel)%nat ->
  0 <= c <= Z.of_nat (length ps) * D ->
  exists ps' s' c', free_behind fuel D buffers c (Z.of_nat (length ps)) s = Ok (c', Z.of_nat (length ps'), s')
    /\ buffer_inv D s0 (first_buffers buffers (Z.of_nat (length (concat ps'))) (Z.of_nat (length ps')) a) ps' s'
    /\ ps' `prefix_of` ps /\ (0 < length ps')%nat /\ 0 <= c' /\ (c' < D \/ length ps' = 1%nat)
    /\ Z.of_nat (length ps') * D - c' = Z.of_nat (length ps) * D - c.
Proof.
  revert n ps s c. induction fuel as [|fuel IH]; intros n ps s c Hi Hfull Hlen Hc; [lia|].
  cbn [free_behind]. destruct ((D <=? c) && (1 <? Z.of_nat (length ps))) eqn:E; bool_prop.
  - destruct (inv_last s0 _ ps s Hi) as (full & p & lb & l & m & -> & Hf & Hp & Hls & Hll & _ & _ & Hslot & Htot & Ham).
    cbn [first_buffers dpdk_buffers buf_amount total_data_size] in *.
    rewrite length_app in *. cbn [length] in *.
    assert (full <> []) as Hne by (intros ->; cbn in *; lia).
    destruct (inv_pop s0 _ full p s lb l _ Hi Hf Hne Hls eq_refl) as [Hfree Hi'].
    assert (buffers !! length full = Some l) as Hat.
    { rewrite <- (lookup_take_lt buffers (Z.to_nat (Z.of_nat (length full + 1)))) by lia.
      rewrite Hls, <- Hll. by apply list_lookup_middle. }
    replace (Z.of_nat (length full + 1) - 1) with (Z.of_nat (length full)) by lia.
    rewrite (slot_get_ok _ _ _ Hat), bind_Ok, Hfree, bind_Ok.
    assert (lb = take (Z.to_nat (Z.of_nat (length full))) buffers) as Hlb.
    { rewrite Nat2Z.id. rewrite <- (take_app_length' lb [l] (length full)) by done. rewrite <- Hls, take_take. f_equal. lia. }
    destruct (IH (Z.of_nat (length (concat full))) full (delete l s) (c - D)) as (ps' & s' & c' & He & Hi2 & Hpre & Hpos & Hc' & Hstop & Heq).
    + unfold first_buffers. rewrite <- Hlb. cbn [append_offset] in Hi'. rewrite Hll in Hi'. exact Hi'.
    + done.
    + destruct full; [done|]. cbn in *. lia.
    + nia.
    + exists ps', s', c'. split; [done|]. split; [done|]. split; [by apply prefix_app_r|]. do 3 (split; [done|]). lia.
  - exists ps, s, c. split; [done|]. rewrite <- (bi_total _ _ _ _ _ Hi). cbn [first_buffers total_data_size].
    split; [done|]. split; [done|]. split; [lia|]. split; [lia|]. split; [|lia].
    apply andb_false_iff in E as [E|E]; bool_prop; [by left|right; lia].
Qed.

(** A buffer of one message buffer, exchanged for an empty one. *)
Lemma replace_by_empty s0 b p s l :
  buffer_inv D s0 b [p] s -> dpdk_buffers b = [l] -> Z.of_nat (size s0) < mempool_available ->
  exists l' m, mbuf_free l s = Ok s0 /\ alloc_appended mbuf_headers s0 = Ok (l', <[l' := m]> s0)
    /\ forall a, buffer_inv D s0 (mk_packet_buffer [l'] 0 1 D a) [[]] (<[l' := m]> s0).
Proof.
  intros Hi Hls Hs. assert (is_Some (s !! l)) as [m0 Hm0] by (eapply inv_live; [done|rewrite Hls; left]).
  destruct Hi as [_ _ _ _ _ _ _ Hf Hr]. rewrite Hls in *.
  destruct (one_holds 0 s0) as (l' & m & p' & He & Hl' & Hp' & Hlen); [lia|done|]. rewrite Z.add_0_r in He.
  assert (p' = []) as -> by (apply nil_length_inv; lia).
  exists l', m. split; [|split; [done|]].
  - unfold mbuf_free. rewrite (proj2 (store_get_ok _ _ _) Hm0), bind_Ok, (free_law l m0) by done. f_equal.
    apply map_eq. intros x. destruct (decide (x = l)) as [->|Hx].
    + rewrite lookup_delete_eq. symmetry. apply Hf. left.
    + rewrite lookup_delete_ne by done. apply Hr. by rewrite list_elem_of_singleton.
  - intros a. constructor; cbn; try done.
    + apply NoDup_singleton.
    + constructor; [|constructor]. exists m. by rewrite lookup_insert_eq.
    + exists [], []. split; [done|]. split; [intros q Hq; by apply not_elem_of_nil in Hq|cbn; lia].
    + by intros x ->%list_elem_of_singleton.
    + intros x Hx. apply lookup_insert_ne. intros ->. apply Hx. left.
Qed.

(** Cutting inside the last message buffer. *)
Lemma cut_last s0 b full p s lb l m n :
  buffer_inv D s0 b (full ++ [p]) s -> (forall q, q ∈ full -> Z.of_nat (length q) = D) ->
  dpdk_buffers b = lb ++ [l] -> s !! l = Some m -> holds_data p m -> Z.of_nat (length p) <= D ->
  Z.of_nat (length full) * D <= n <= Z.of_nat (length full) * D + Z.of_nat (length p) -> n <= 2 ^ 32 - 2 ^ 16 ->
  exists p', store_update l (mbuf_with_len (mbuf_size_for_data (u16 (n - Z.of_nat (length full) * D)) (prepend_size nd))) s
      = Ok (<[l := mbuf_with_len (mbuf_headers + (n - Z.of_nat (length full) * D)) m]> s)
    /\ buffer_inv D s0 (mk_packet_buffer (dpdk_buffers b) n (buf_amount b) D (append_offset b)) (full ++ [p'])
         (<[l := mbuf_with_len (mbuf_headers + (n - Z.of_nat (length full) * D)) m]> s)
    /\ n = Z.of_nat (length (concat (full ++ [p']))) /\ concat (full ++ [p']) `prefix_of` concat (full ++ [p]).
Proof.
  intros Hi Hf Hls Hm Hhold Hp Hn Hb. assert (mbuf_headers = 58) as Hh by done. rewrite u16_id by lia.
  destruct (sizes_ok (n - Z.of_nat (length full) * D) ltac:(lia)) as [-> _].
  destruct (with_len_holds p m (n - Z.of_nat (length full) * D) Hhold ltac:(lia)) as (p' & Hp' & Hlp' & Hpre & _).
  assert (n = Z.of_nat (length (concat (full ++ [p'])))) as Hn'.
  { pose proof (length_concat_full D full Hf). rewrite concat_app, length_app. cbn. rewrite app_nil_r. lia. }
  exists p'. split; [by apply store_update_ok|]. split; [eapply inv_set_last; try done; lia|].
  split; [done|]. rewrite !concat_app. apply prefix_app. cbn. rewrite !app_nil_r. apply Hpre. lia.
Qed.

Lemma shrink_end_inv s0 b ps s c n :
  buffer_inv D s0 (first_buffers (dpdk_buffers b) (Z.of_nat (length (concat ps))) (Z.of_nat (length ps)) (append_offset b)) ps s ->
  data_len_per_packet b = D -> (forall q, q ∈ ps -> Z.of_nat (length q) = D) ->
  0 <= c -> (c < D \/ length ps = 1%nat) -> n = Z.of_nat (length ps) * D - c -> 0 <= n <= 2 ^ 32 - 2 ^ 16 ->
  Z.of_nat (size s0) < mempool_available ->
  exists b' ps' s', shrink_end true n b (prepend_size nd) c (Z.of_nat (length ps)) s = Ok (b', s')
    /\ buffer_inv D s0 b' ps' s' /\ total_data_size b' = n /\ append_offset b' = append_offset b
    /\ n = Z.of_nat (length (concat ps')) /\ concat ps' `prefix_of` concat ps.
Proof.
  intros Hi HbD Hf Hc Hstop Hn Hn0 Hs. unfold shrink_end. rewrite HbD.
  destruct (inv_last s0 _ ps s Hi) as (full & p & lb & l & m & -> & Hfull & Hp & Hls & Hll & Hm & Hhold & _ & Htot & Ham).
  cbn [first_buffers dpdk_buffers buf_amount total_data_size] in *. rewrite length_app in *. cbn [length] in *.
  assert (Z.of_nat (length p) = D) as HpD by (apply Hf, elem_of_app; right; left).
  assert (dpdk_buffers b !! length full = Some l) as Hat.
  { rewrite <- (lookup_take_lt _ (Z.to_nat (Z.of_nat (length full + 1)))) by lia.
    rewrite Hls, <- Hll. by apply list_lookup_middle. }
  replace (Z.of_nat (length full + 1) - 1) with (Z.of_nat (length full)) by lia.
  rewrite (slot_get_ok _ _ _ Hat), bind_Ok, (proj2 (store_get_ok _ _ _) Hm), bind_Ok.
  rewrite (data_size_holds p m Hhold Hp), HpD. destruct (Z.leb_spec D c) as [Hge|Hlt].
  - assert (full = []) as -> by (apply nil_length_inv; lia). assert (lb = []) as -> by (by apply nil_length_inv).
    cbn [length app] in *.
    destruct (replace_by_empty s0 _ p s l Hi Hls Hs) as (l' & m' & Hfree & Halloc & Hi').
    destruct (sizes_ok 0 ltac:(lia)) as [-> _]. rewrite Z.add_0_r, Hfree, bind_Ok, Halloc, bind_Ok.
    unfold slot_set. change 0 with (Z.of_nat 0). rewrite (slot_get_ok _ _ _ Hat), !bind_Ok.
    assert (n = 0) as -> by lia. eexists _, [[]], _. split; [reflexivity|]. cbn [total_data_size append_offset].
    split; [|repeat split; try done; apply prefix_nil].
    destruct (dpdk_buffers b) as [|x bs]; [done|]. cbn. apply Hi'.
  - destruct (cut_last s0 _ full p s lb l m n Hi Hfull Hls Hm Hhold Hp) as (p' & Hu & Hi' & Hlen & Hpre); [lia|lia|].
    replace (D - c) with (n - Z.of_nat (length full) * D) by lia.
    rewrite Hu, !bind_Ok. eexists _, _, _. split; [reflexivity|].
    split; [exact Hi'|]. split; [done|]. split; [done|]. by split.
Qed.

Lemma shrink_inv s0 b ps s n :
  buffer_inv D s0 b ps s -> 0 <= n < total_data_size b -> Z.of_nat (size s0) < mempool_available ->
  exists b' ps' s', resize_packet_buffer g true n b nd s = Ok (b', s') /\ buffer_inv D s0 b' ps' s'
    /\ total_data_size b' = n /\ append_offset b' = append_offset b /\ resized n (concat ps) (concat ps').
Proof.
  intros Hi Hn Hs. pose proof (bi_bound _ _ _ _ _ Hi) as Hb. assert (mbuf_headers = 58) as Hh by done.
  destruct (inv_last s0 b ps s Hi) as (full & p & lb & l & m & -> & Hf & Hp & Hls & Hll & Hm & Hhold & Hslot & Htot & Ham).
  unfold resize_packet_buffer. rewrite (proj2 (Z.eqb_neq n _)) by lia.
  rewrite Hslot, bind_Ok, (proj2 (store_get_ok _ _ _) Hm), bind_Ok, (data_size_holds p m Hhold Hp).
  rewrite (proj2 (Z.ltb_ge _ n)) by lia. unfold shrink_packet_buffer. rewrite (bi_chunk _ _ _ _ _ Hi).
  destruct (Z.leb_spec (total_data_size b - n) (Z.of_nat (length p))) as [Hin|Hover].
  - destruct (cut_last s0 b full p s lb l m n Hi Hf Hls Hm Hhold Hp) as (p' & Hu & Hi' & Hlen & Hpre); [lia|lia|].
    replace (Z.of_nat (length p) - (total_data_size b - n)) with (n - Z.of_nat (length full) * D) by lia.
    rewrite Hu, bind_Ok. eexists _, _, _. split; [reflexivity|].
    split; [done|]. split; [done|]. split; [done|]. split; [done|by right].
  - assert (full <> []) as Hne by (intros ->; cbn in *; lia).
    destruct (inv_pop s0 b full p s lb l _ Hi Hf Hne Hls eq_refl) as [Hfree Hi1]. rewrite Hfree, bind_Ok.
    assert (lb = take (Z.to_nat (Z.of_nat (length full))) (dpdk_buffers b)) as Hlb.
    { rewrite Nat2Z.id, Hls. symmetry. by apply take_app_length'. }
    rewrite Hll, Hlb in Hi1.
    destruct (free_behind_ok (Z.to_nat (buf_amount b)) s0 (dpdk_buffers b) _ (append_offset b) full (delete l s)
      (total_data_size b - n - Z.of_nat (length p)) Hi1 Hf) as (ps' & s' & c' & He & Hi2 & Hpre & Hpos & Hc' & Hstop & Heq).
    { destruct full; [done|]. cbn in *. lia. }
    { lia. }
    rewrite (u32_id (buf_amount b - 1)) by nia. replace (buf_amount b - 1) with (Z.of_nat (length full)) by lia.
    rewrite He, bind_Ok.
    destruct (shrink_end_inv s0 b ps' s' c' n) as (b' & ps2 & s2 & Hend & Hi3 & Ht & Ha & Hl & Hp2); try done; try lia.
    { apply (bi_chunk _ _ _ _ _ Hi). }
    { intros q Hq. apply Hf. destruct Hpre as [k ->]. apply elem_of_app. by left. }
    exists b', ps2, s2. split; [done|]. split; [done|]. split; [done|]. split; [done|]. split; [done|]. right.
    trans (concat ps'); [done|]. destruct Hpre as [k ->]. rewrite !concat_app, <- app_assoc. by eexists.
Qed.
End operations_ok.

(** ** The contract of a packet buffer *)

(** What an application does with a buffer between its creation and its release. *)
Inductive buffer_op :=
| BufAppend (data : list Z)
| BufWrite (byte_offset : Z) (data : list Z)
| BufResize (new_buffer_size : Z).

Definition apply_op `{MbufLib} (g : Globals) (nd : SwiftNetNetworkData) (ec : bool) (op : buffer_op)
    (b : SwiftNetPacketBuffer) (s : Store rte_mbuf) : Outcome (SwiftNetPacketBuffer * Store rte_mbuf) :=
  match op with
  | BufAppend data => swiftnet_append_to_buffer g ec (Some data) (Z.of_nat (length data)) b s
  | BufWrite byte_offset data => s ← write_packet_buffer g byte_offset b data (Z.of_nat (length data)) s; Ok (b, s)
  | BufResize n => resize_packet_buffer g true n b nd s
  end.

Fixpoint run_ops `{MbufLib} (g : Globals) (nd : SwiftNetNetworkData) (ec : bool) (ops : list buffer_op)
    (b : SwiftNetPacketBuffer) (s : Store rte_mbuf) : Outcome (SwiftNetPacketBuffer * Store rte_mbuf) :=
  match ops with
  | [] => Ok (b, s)
  | op :: ops => '(b, s) ← apply_op g nd ec op b s; run_ops g nd ec ops b s
  end.

(** The abstract buffer: a sequence of bytes and the append position.  New bytes are
    unspecified. *)
Inductive buffer_spec : buffer_op -> list Z * Z -> list Z * Z -> Prop :=
| spec_append x d a : buffer_spec (BufAppend x) (d, a) (blit (Z.to_nat a) x d, a + Z.of_nat (length x))
| spec_write off x d a : buffer_spec (BufWrite off x) (d, a) (blit (Z.to_nat off) x d, a)
| spec_resize n d d' a : resized n d d' -> buffer_spec (BufResize n) (d, a) (d', a).

Inductive buffer_spec_run : list buffer_op -> list Z * Z -> list Z * Z -> Prop :=
| spec_run_nil x : buffer_spec_run [] x x
| spec_run_cons op ops x y z : buffer_spec op x y -> buffer_spec_run ops y z -> buffer_spec_run (op :: ops) x z.

(** Every write stays inside the size the buffer has by then, every size below [N]. *)
Fixpoint ops_fit (N total a : Z) (ops : list buffer_op) : Prop :=
  match ops with
  | [] => True
  | BufAppend x :: ops => x <> [] /\ a + Z.of_nat (length x) <= total /\ ops_fit N total (a + Z.of_nat (length x)) ops
  | BufWrite off x :: ops => 0 <= off /\ off + Z.of_nat (length x) <= total /\ ops_fit N total a ops
  | BufResize n :: ops => 0 <= n <= N /\ ops_fit N n a ops
  end.

Section contract.
Context `{HL : MbufLaws} (g : Globals) (nd : SwiftNetNetworkData) (D N : Z) (s0 : Store rte_mbuf) (ec : bool).
Hypothesis HD : 0 < D.
Hypothesis Hmtu : maximum_transmission_unit g = D + PACKET_HEADER_SIZE.
Hypothesis Hroom : mbuf_headers + D <= data_room.
Hypothesis Hword : mbuf_headers + D < 2 ^ 16.
Hypothesis Hprepend : prepend_size nd = sizeof_ether_header.
Hypothesis HN : N <= 2 ^ 32 - 2 ^ 16.
Hypothesis Hpool : Z.of_nat (size s0) + N / D + 1 <= mempool_available.

Lemma resize_inv b ps s n :
  buffer_inv D s0 b ps s -> 0 <= n <= N ->
  exists b' ps' s', resize_packet_buffer g true n b nd s = Ok (b', s') /\ buffer_inv D s0 b' ps' s'
    /\ total_data_size b' = n /\ append_offset b' = append_offset b /\ resized n (concat ps) (concat ps').
Proof.
  intros Hi Hn. assert (n / D <= N / D) by (apply Z.div_le_mono; lia). pose proof (Z.div_pos n D ltac:(lia) HD).
  destruct (Z.lt_trichotomy n (total_data_size b)) as [Hlt|[->|Hgt]].
  - eapply (shrink_inv g); try done; lia.
  - unfold resize_packet_buffer. rewrite Z.eqb_refl. exists b, ps, s. split; [done|]. split; [done|].
    split; [done|]. split; [done|]. split; [by rewrite (bi_total _ _ _ _ _ Hi)|by left].
  - eapply (grow_inv g); try done; lia.
Qed.

(** The append position is a 32-bit word. *)
Lemma apply_op_inv op ops b ps s :
  buffer_inv D s0 b ps s -> 0 <= append_offset b -> ops_fit N (total_data_size b) (append_offset b) (op :: ops) ->
  exists b' ps' s', apply_op g nd ec op b s = Ok (b', s') /\ buffer_inv D s0 b' ps' s'
    /\ buffer_spec op (concat ps, append_offset b) (concat ps', append_offset b')
    /\ 0 <= append_offset b' /\ ops_fit N (total_data_size b') (append_offset b') ops.
Proof.
  intros Hi Ha Hfit. pose proof (bi_bound _ _ _ _ _ Hi) as Hb. destruct op as [x|off x|n]; cbn [ops_fit apply_op] in *.
  - destruct Hfit as (Hx & Hle & Hfit). assert (length x <> 0)%nat by (intros E; by apply nil_length_inv in E).
    destruct (write_inv g D HD Hmtu Hroom Hword s0 b ps s (append_offset b) x Hi Ha Hle) as (s' & ps' & Hw & Hi' & Hc).
    unfold swiftnet_append_to_buffer, validate_append_to_packet_args. rewrite (proj2 (Z.eqb_neq (Z.of_nat (length x)) 0)) by lia.
    replace (if ec then Ok tt else Ok tt) with (Ok tt) by (by destruct ec). rewrite bind_Ok, Hw, bind_Ok, u32_id by lia.
    eexists _, ps', s'. split; [reflexivity|]. cbn [append_offset total_data_size]. split; [by destruct Hi'; constructor|].
    split; [rewrite Hc; constructor|]. split; [lia|done].
  - destruct Hfit as (Hoff & Hle & Hfit).
    destruct (write_inv g D HD Hmtu Hroom Hword s0 b ps s off x Hi Hoff Hle) as (s' & ps' & Hw & Hi' & Hc).
    rewrite Hw, bind_Ok. exists b, ps', s'. split; [done|]. split; [done|]. split; [rewrite Hc; constructor|done].
  - destruct Hfit as (Hn & Hfit). destruct (resize_inv b ps s n Hi Hn) as (b' & ps' & s' & Hr & Hi' & Ht & Hap & Hres).
    exists b', ps', s'. rewrite Hap, Ht. split; [done|]. split; [done|]. split; [by constructor|done].
Qed.

Lemma run_ops_inv ops b ps s :
  buffer_inv D s0 b ps s -> 0 <= append_offset b -> ops_fit N (total_data_size b) (append_offset b) ops ->
  exists b' ps' s', run_ops g nd ec ops b s = Ok (b', s') /\ buffer_inv D s0 b' ps' s'
    /\ buffer_spec_run ops (concat ps, append_offset b) (concat ps', append_offset b').
Proof.
  revert b ps s. induction ops as [|op ops IH]; intros b ps s Hi Ha Hfit.
  { exists b, ps, s. split; [done|]. split; [done|constructor]. }
  destruct (apply_op_inv op ops b ps s Hi Ha Hfit) as (b1 & ps1 & s1 & He & Hi1 & Hspec & Ha1 & Hfit1).
  cbn [run_ops]. rewrite He, bind_Ok. destruct (IH b1 ps1 s1 Hi1 Ha1 Hfit1) as (b2 & ps2 & s2 & He2 & Hi2 & Hspec2).
  exists b2, ps2, s2. split; [done|]. split; [done|]. by econstructor.
Qed.
End contract.

(** C20 The packet buffers of the DPDK backend refine a sequence of bytes with an append
    position: a buffer of [n] bytes, created and then appended to, written at any
    offset, grown and shrunk across message buffers in any order, performs every
    operation without an access outside a message buffer or the array; reading its
    message buffers in order gives exactly the bytes of the abstract buffer, a resize
    keeps the common prefix; no message buffer of another owner changes, and
    destroying the buffer gives the pool back exactly what it took. *)
Theorem dpdk_buffer_refines_bytes `{HL : MbufLaws} (g : Globals) (nd : SwiftNetNetworkData) (ec : bool) (n N : Z)
    (ops : list buffer_op) (s0 : Store rte_mbuf) :
  let mtu := maximum_transmission_unit g in
  let D := mtu - PACKET_HEADER_SIZE in
  0 < D -> mtu + sizeof_ether_header <= data_room -> mtu + sizeof_ether_header < 2 ^ 16 ->
  prepend_size nd = sizeof_ether_header ->
  0 <= n <= N -> N <= 2 ^ 32 - 2 ^ 16 -> Z.of_nat (size s0) + N / D + 1 <= mempool_available -> ops_fit N n 0 ops ->
  exists b s d0 d,
    ('(b, s) ← create_packet_buffer g true n nd s0; run_ops g nd ec ops b s) = Ok (b, s)
    /\ Z.of_nat (length d0) = n /\ buffer_spec_run ops (d0, 0) (d, append_offset b)
    /\ buffer_data s b = d /\ total_data_size b = Z.of_nat (length d)
    /\ (forall l, l ∉ dpdk_buffers b -> s !! l = s0 !! l)
    /\ destroy_packet_buffer b s = Ok s0.
Proof.
  intros mtu D HD Hroom Hword Hpre Hn HN Hpool Hfit.
  assert (mbuf_headers + D = mtu + sizeof_ether_header) as Hh by (unfold D, mbuf_headers; lia).
  assert (n / D <= N / D) by (apply Z.div_le_mono; lia).
  assert (maximum_transmission_unit g = D + PACKET_HEADER_SIZE) as Hmtu by (unfold D, mtu; lia).
  rewrite <- Hh in Hroom, Hword.
  destruct (create_inv g nd D HD Hmtu Hroom Hword Hpre n s0)
    as (b & ps & s & Hc & Hi & Ht & Ha); [lia|lia|].
  destruct (run_ops_inv g nd D N s0 ec HD Hmtu Hroom Hword Hpre HN Hpool ops b ps s Hi)
    as (b' & ps' & s' & Hr & Hi' & Hspec); [lia|by rewrite Ht, Ha|].
  exists b', s', (concat ps), (concat ps'). rewrite Hc, bind_Ok. split; [done|].
  split; [by rewrite <- Ht, (bi_total _ _ _ _ _ Hi)|]. split; [by rewrite <- Ha|].
  split; [by eapply inv_data|]. split; [apply Hi'|]. split; [apply Hi'|by eapply destroy_ok].
Qed.

(** ** A pool that keeps the promises *)
Section pool.
Context (capacity : nat) (headroom room : nat).

Definition pool_mbuf : rte_mbuf := mk_mbuf (repeat 0 (headroom + room)) (Z.of_nat headroom) 0 0.

Fixpoint pool_take (n : nat) (s : Store rte_mbuf) : list loc * Store rte_mbuf :=
  match n with
  | O => ([], s)
  | S n => let l := store_next s in
           let '(ls, s) := pool_take n (<[l := pool_mbuf]> s) in (l :: ls, s)
  end.

Definition pool_append (l : loc) (len : Z) (s : Store rte_mbuf) : option Z * Store rte_mbuf :=
  match s !! l with
  | Some m =>
      if bool_decide (len <= Z.of_nat (length (buf_addr m)) - data_off m - data_len m)
      then (Some (data_off m + data_len m), <[l := mk_mbuf (buf_addr m) (data_off m) (data_len m + len) (pkt_len m + len)]> s)
      else (None, s)
  | None => (None, s)
  end.

#[local] Instance pool_lib : MbufLib := {|
  rte_pktmbuf_alloc s :=
    if bool_decide (size s < capacity)%nat then Some (store_next s, <[store_next s := pool_mbuf]> s) else None;
  rte_pktmbuf_alloc_bulk n s := if bool_decide (size s + n <= capacity)%nat then Some (pool_take n s) else None;
  rte_pktmbuf_append := pool_append;
  rte_pktmbuf_free l s := delete l s;
  rte_pktmbuf_free_bulk ls s := foldr delete s ls;
  mempool_available := Z.of_nat capacity;
  RTE_PKTMBUF_HEADROOM := Z.of_nat headroom;
  data_room := Z.of_nat room
|}.

Lemma pool_mbuf_fresh : fresh_mbuf pool_mbuf.
Proof. repeat split. cbn. rewrite repeat_length. lia. Qed.

Lemma pool_take_ok n s :
  exists ls s', pool_take n s = (ls, s') /\ length ls = n /\ NoDup ls
    /\ (forall l, l ∈ ls -> s !! l = None /\ exists m, s' !! l = Some m /\ fresh_mbuf m)
    /\ (forall l, l ∉ ls -> s' !! l = s !! l).
Proof.
  revert s. induction n as [|n IH]; intros s.
  { exists [], s. split; [done|]. split; [done|]. split; [apply NoDup_nil_2|]. split; [|done].
    intros l Hl. by apply not_elem_of_nil in Hl. }
  cbn [pool_take]. destruct (IH (<[store_next s := pool_mbuf]> s)) as (ls & s' & -> & Hlen & Hnd & Hin & Hout).
  assert (store_next s ∉ ls) as Hni by (intros Hl; destruct (Hin _ Hl) as [Hx _]; by rewrite lookup_insert_eq in Hx).
  exists (store_next s :: ls), s'. split; [done|]. split; [cbn; lia|]. split; [by apply NoDup_cons|]. split.
  - intros l [->|Hl]%elem_of_cons.
    + split; [apply store_next_fresh|]. exists pool_mbuf. rewrite Hout by done. split; [apply lookup_insert_eq|apply pool_mbuf_fresh].
    + destruct (Hin l Hl) as [Hx Hm]. split; [|done]. rewrite lookup_insert_ne in Hx; [done|]. by intros <-.
  - intros l [Hne Hl]%not_elem_of_cons. rewrite Hout by done. by apply lookup_insert_ne.
Qed.

#[local] Instance pool_laws : MbufLaws pool_lib.
Proof.
  constructor; cbn.
  - lia.
  - intros s Hs. rewrite bool_decide_true by lia. exists (store_next s), pool_mbuf.
    split; [done|]. split; [apply store_next_fresh|apply pool_mbuf_fresh].
  - intros n s Hs. rewrite bool_decide_true by lia.
    destruct (pool_take_ok n s) as (ls & s' & -> & H). by exists ls, s'.
  - intros l m len s Hm _. unfold pool_append. by rewrite Hm.
  - done.
  - done.
Qed.
End pool.

(** A transmission unit of 50 bytes: six data bytes per message buffer. *)
Definition g_small : Globals := mk_globals 50 0 [] (fun _ => 0).

Definition small_ops : list buffer_op :=
  [BufAppend [1; 2; 3; 4; 5; 6; 7; 8]; BufResize 20; BufAppend [9; 10; 11; 12]; BufWrite 5 [66; 67]; BufResize 7].

Lemma dpdk_buffer_refines_bytes_witness :
  exists b s d0 d,
    ('(b, s) ← create_packet_buffer (H := pool_lib 8 128 2048) g_small true 8 nd_ethernet ∅;
     run_ops (H := pool_lib 8 128 2048) g_small nd_ethernet true small_ops b s) = Ok (b, s)
    /\ Z.of_nat (length d0) = 8 /\ buffer_spec_run small_ops (d0, 0) (d, append_offset b)
    /\ buffer_data s b = d /\ total_data_size b = Z.of_nat (length d)
    /\ (forall l, l ∉ dpdk_buffers b -> s !! l = (∅ : Store rte_mbuf) !! l)
    /\ destroy_packet_buffer (H := pool_lib 8 128 2048) b s = Ok ∅.
Proof.
  apply (dpdk_buffer_refines_bytes (HL := pool_laws 8 128 2048) g_small nd_ethernet true 8 20 small_ops ∅);
    try done; try lia.
Defined.

(** The same run, evaluated. *)
Example small_ops_data :
  match ('(b, s) ← create_packet_buffer (H := pool_lib 8 128 2048) g_small true 8 nd_ethernet ∅;
         run_ops (H := pool_lib 8 128 2048) g_small nd_ethernet true small_ops b s) with
  | Ok (b, s) => buffer_data s b = [1; 2; 3; 4; 5; 66; 67] /\ buf_amount b = 2 /\ append_offset b = 12
  | _ => False
  end.
Proof. vm_compute. repeat split. Qed.
