(* ===== verification/DpdkSend.v ===== *)
(** * Sending with the DPDK backend (src/src/send_packet.c, src/src/internal/networking.h,
    src/src/internal/dpdk/dpdk_send.c)

    The branches of [swiftnet_send_packet] and [handle_lost_packets] for message
    buffers: every message buffer of the packet carries one chunk and its headers, and
    is handed to the network card as a clone.  Cloning and transmitting are operations
    of DPDK: the class [EthDev] holds them, [EthLaws] what is documented of them. *)

From S2P Require Import Prelude Store Crc32 Wire Frames SendPacket DpdkBuffer.

(** ** The network card *)

(** The bytes of a message buffer that are transmitted. *)
Definition mbuf_frame (m : rte_mbuf) : list Z := slice (Z.to_nat (data_off m)) (Z.to_nat (data_len m)) (buf_addr m).

(** [rte_eth_tx_burst] with one buffer: how many were taken. *)
Class EthDev := {
  rte_pktmbuf_clone : loc -> Store rte_mbuf -> option (loc * Store rte_mbuf);
  rte_eth_tx_burst : loc -> Store rte_mbuf -> Z * Store rte_mbuf
}.

(** A clone is a message buffer of the pool with the same data; the card takes over
    and releases what it transmits, and leaves alone what it does not take. *)
Class EthLaws `(L : MbufLib) `(E : EthDev) : Prop := {
  clone_law l m s : s !! l = Some m -> Z.of_nat (size s) < mempool_available ->
    exists c m', rte_pktmbuf_clone l s = Some (c, <[c := m']> s) /\ s !! c = None
      /\ mbuf_frame m' = mbuf_frame m;
  tx_law c m s : s !! c = Some m ->
    rte_eth_tx_burst c s = (1, delete c s) \/ rte_eth_tx_burst c s = (0, s)
}.

(** ** Operations *)
Section operations.
Context `{MbufLib} `{EthDev} (g : Globals) (network_data : SwiftNetNetworkData) (eth_hdr : ether_header).

(** [NULL] for a failed clone reaches the driver.  A frame the card does not take is
    dropped without a trace. *)
Definition swiftnet_dpdk_send (buf : loc) (st : SendState) (s : Store rte_mbuf) : Outcome (SendState * Store rte_mbuf) :=
  _ ← store_get buf s;
  '(buf_clone, s) ← of_option (rte_pktmbuf_clone buf s);
  m ← store_get buf_clone s;
  let '(taken, s) := rte_eth_tx_burst buf_clone s in
  if negb (taken =? 1) then s ← mbuf_free buf_clone s; Ok (st, s)
  else Ok (SWIFTNET_SEND_PACKET (mbuf_frame m) st, s).

(** [HANDLE_PACKET_CONSTRUCTION]: a message buffer with the headers at its start. *)
Definition dpdk_packet_construction (ip_header : ip) (packet_info : SwiftNetPacketInfo) (buffer_size : Z)
    (s : Store rte_mbuf) : Outcome (loc * Store rte_mbuf) :=
  match rte_pktmbuf_alloc s with
  | None => Exit
  | Some (l, s) =>
      let '(start, s) := rte_pktmbuf_append l (u16 buffer_size) s in
      _ ← of_option start;
      s ← store_update l (mbuf_with_len (u16 buffer_size)) s;
      s ← (if addr_type network_data =? 0 then
             s ← mbuf_write l 0 (ip_bytes ip_header) s;
             mbuf_write l sizeof_ip (packet_info_bytes packet_info) s
           else
             s ← mbuf_write l 0 (ether_header_bytes eth_hdr) s;
             s ← mbuf_write l sizeof_ether_header (ip_bytes ip_header) s;
             mbuf_write l (sizeof_ether_header + sizeof_ip) (packet_info_bytes packet_info) s);
      Ok (l, s)
  end.

(** [HANDLE_CHECKSUM] at an address relative to [buf_addr]. *)
Definition mbuf_checksum (l : loc) (off size : Z) (s : Store rte_mbuf) : Outcome (Store rte_mbuf) :=
  m ← store_get l s;
  mem ← HANDLE_CHECKSUM (buf_addr m) off size;
  Ok (<[l := mk_mbuf mem (data_off m) (data_len m) (pkt_len m)]> s).

(** A write at an address relative to [buf_addr]. *)
Definition mbuf_raw_write (l : loc) (off : Z) (bytes : list Z) (s : Store rte_mbuf) : Outcome (Store rte_mbuf) :=
  m ← store_get l s;
  mem ← mem_write off bytes (buf_addr m);
  Ok (<[l := mk_mbuf mem (data_off m) (data_len m) (pkt_len m)]> s).

Definition write_mbuf_headers (l : loc) (ip_header : ip) (packet_info : SwiftNetPacketInfo) (s : Store rte_mbuf)
    : Outcome (Store rte_mbuf) :=
  s ← mbuf_write l 0 (ether_header_bytes eth_hdr) s;
  s ← mbuf_write l sizeof_ether_header (ip_bytes ip_header) s;
  mbuf_write l (sizeof_ether_header + sizeof_ip) (packet_info_bytes packet_info) s.

(** *** Lost chunks *)

(** The polling loop of [request_lost_packets_bitarray]. *)
Fixpoint dpdk_poll_updates (raw_data : loc) (packet_sending : loc)
    (env : list (SwiftNetPacketSending -> SwiftNetPacketSending)) (times_checked : Z) (st : SendState) (s : Store rte_mbuf)
    : Outcome (RequestLostPacketsReturnType * SendState * Store rte_mbuf * list (SwiftNetPacketSending -> SwiftNetPacketSending)) :=
  match env with
  | [] => Diverge
  | action :: env =>
      store ← store_update packet_sending action (sending_store st);
      p ← store_get packet_sending store;
      let st' := set_sending (packets_sending st) store st in
      let reset := set_sending (packets_sending st) (<[packet_sending := set_updated NO_UPDATE p]> store) st in
      match updated p with
      | NO_UPDATE =>
          if times_checked + 1 <? 0xFF then dpdk_poll_updates raw_data packet_sending env (times_checked + 1) st' s
          else '(st', s) ← swiftnet_dpdk_send raw_data st' s; dpdk_poll_updates raw_data packet_sending env 0 st' s
      | UPDATED_LOST_CHUNKS => Ok (REQUEST_LOST_PACKETS_RETURN_UPDATED_BIT_ARRAY, reset, s, env)
      | SUCCESSFULLY_RECEIVED => Ok (REQUEST_LOST_PACKETS_RETURN_COMPLETED_PACKET, reset, s, env)
      end
  end.

Definition dpdk_request_lost_packets (raw_data : loc) (packet_sending : loc)
    (env : list (SwiftNetPacketSending -> SwiftNetPacketSending)) (st : SendState) (s : Store rte_mbuf) :=
  '(st, s) ← swiftnet_dpdk_send raw_data st s;
  dpdk_poll_updates raw_data packet_sending env 0 st s.

(** One iteration of the resend loop.  The message buffer is the one at the position
    [i] of the list of lost chunks, and the writes go to the start of its memory. *)
Definition dpdk_resend_chunk (packet : SwiftNetPacketBuffer) (packet_length i lost_chunk_index : Z) (st : SendState)
    (s : Store rte_mbuf) : Outcome (SendState * Store rte_mbuf) :=
  let ps := prepend_size network_data in
  let D := data_len_per_packet packet in
  current_buf ← slot_get (dpdk_buffers packet) i;
  let current_offset := u32 (lost_chunk_index * D) in
  s ← mbuf_raw_write current_buf (sizeof_ether_header + sizeof_ip + offsetof_checksum) (repeat 0x00 4) s;
  m ← store_get current_buf s;
  if (u32 (current_offset + D) <? D) && negb (u32 (current_offset + data_len m) =? packet_length) then
    let bytes_to_complete := u16 (packet_length - current_offset + PACKET_HEADER_SIZE + sizeof_ether_header) in
    let old_len := data_len m in
    s ← store_update current_buf (mbuf_with_len bytes_to_complete) s;
    s ← mbuf_raw_write current_buf (sizeof_ether_header + offsetof_ip_len) (le_bytes 2 (htons bytes_to_complete)) s;
    s ← mbuf_checksum current_buf (ps + sizeof_ip) (u32 (bytes_to_complete - ps - sizeof_ip)) s;
    '(st, s) ← swiftnet_dpdk_send current_buf st s;
    s ← store_update current_buf (mbuf_with_len old_len) s;
    Ok (st, s)
  else
    s ← mbuf_checksum current_buf (ps + sizeof_ip) (u32 (data_len m - sizeof_ip - ps)) s;
    swiftnet_dpdk_send current_buf st s.

Fixpoint dpdk_resend_chunks (n : nat) (i : Z) (packet : SwiftNetPacketBuffer) (packet_length : Z) (lost : list Z)
    (st : SendState) (s : Store rte_mbuf) : Outcome (SendState * Store rte_mbuf) :=
  match n with
  | O => Ok (st, s)
  | S n =>
      b ← mem_read (4 * i) 4 lost;
      '(st, s) ← dpdk_resend_chunk packet packet_length i (le_val b) st s;
      dpdk_resend_chunks n (i + 1) packet packet_length lost st s
  end.

Fixpoint dpdk_handle_lost_loop (fuel : nat) (request_buffer : loc) (packet : SwiftNetPacketBuffer) (packet_length : Z)
    (packet_sending : loc) (env : list (SwiftNetPacketSending -> SwiftNetPacketSending)) (st : SendState)
    (s : Store rte_mbuf) : Outcome (SendState * Store rte_mbuf) :=
  match fuel with
  | O => Diverge
  | S fuel =>
      '(response, st, s, env) ← dpdk_request_lost_packets request_buffer packet_sending env st s;
      p ← store_get packet_sending (sending_store st);
      match response with
      | REQUEST_LOST_PACKETS_RETURN_COMPLETED_PACKET =>
          store ← store_free packet_sending (sending_store st);
          Ok (set_sending (al_remove (sending_packet_id p) (packets_sending st)) store st, s)
      | REQUEST_LOST_PACKETS_RETURN_UPDATED_BIT_ARRAY =>
          let lost := default [] (lost_chunks p) in
          '(st, s) ← dpdk_resend_chunks (Z.to_nat (lost_chunks_size p)) 0 packet packet_length lost st s;
          dpdk_handle_lost_loop fuel request_buffer packet packet_length packet_sending env st s
      end
  end.

(** The message buffer of the request is not released. *)
Definition dpdk_handle_lost_packets (packet_sending : loc) (packet : SwiftNetPacketBuffer)
    (destination_address source_port destination_port packet_length : Z)
    (env : list (SwiftNetPacketSending -> SwiftNetPacketSending)) (st : SendState) (s : Store rte_mbuf)
    : Outcome (SendState * Store rte_mbuf) :=
  let ps := prepend_size network_data in
  let port_info := mk_port_info destination_port source_port in
  p ← store_get packet_sending (sending_store st);
  let request_ip := construct_ip_header g destination_address PACKET_HEADER_SIZE (sending_packet_id p) in
  let request_info := construct_packet_info g 0x00 (packet_type_code SEND_LOST_PACKETS_REQUEST) 1 0 port_info in
  '(request_buffer, s) ← dpdk_packet_construction request_ip request_info (PACKET_HEADER_SIZE + ps) s;
  m ← store_get request_buffer s;
  s ← mbuf_checksum request_buffer (data_off m + ps + sizeof_ip) sizeof_SwiftNetPacketInfo s;
  dpdk_handle_lost_loop (S (length env)) request_buffer packet packet_length packet_sending env st s.

(** *** Chunks *)

(** One iteration of the loop over the message buffers: was it the last chunk. *)
Definition dpdk_send_chunk (packet : SwiftNetPacketBuffer) (packet_length : Z) (ip_header : ip)
    (packet_info : SwiftNetPacketInfo) (i : Z) (st : SendState) (s : Store rte_mbuf)
    : Outcome (bool * SendState * Store rte_mbuf) :=
  let ps := prepend_size network_data in
  let D := data_len_per_packet packet in
  let current_offset := u32 (i * D) in
  current_buffer ← slot_get (dpdk_buffers packet) i;
  s ← write_mbuf_headers current_buffer ip_header (with_checksum 0 (with_index i packet_info)) s;
  m ← store_get current_buffer s;
  if packet_length <? u32 (current_offset + D) then
    let bytes_to_send := u16 (packet_length - current_offset + PACKET_HEADER_SIZE) in
    let old_len := data_len m in
    s ← mbuf_raw_write current_buffer (sizeof_ether_header + offsetof_ip_len) (le_bytes 2 (htons bytes_to_send)) s;
    let new_len := u16 (bytes_to_send + ps) in
    s ← store_update current_buffer (mbuf_with_len new_len) s;
    s ← mbuf_checksum current_buffer (data_off m + ps + sizeof_ip) (u32 (new_len - ps - sizeof_ip)) s;
    '(st, s) ← swiftnet_dpdk_send current_buffer st s;
    s ← store_update current_buffer (mbuf_with_len old_len) s;
    Ok (true, st, s)
  else
    s ← mbuf_checksum current_buffer (data_off m + ps + sizeof_ip) (u32 (data_len m - ps - sizeof_ip)) s;
    '(st, s) ← swiftnet_dpdk_send current_buffer st s;
    Ok (false, st, s).

(** The loop ends at the last chunk, or behind the last message buffer. *)
Fixpoint dpdk_send_chunks (n : nat) (packet : SwiftNetPacketBuffer) (packet_length : Z) (ip_header : ip)
    (packet_info : SwiftNetPacketInfo) (i : Z) (st : SendState) (s : Store rte_mbuf)
    : Outcome (bool * SendState * Store rte_mbuf) :=
  match n with
  | O => Ok (false, st, s)
  | S n =>
      '(last, st, s) ← dpdk_send_chunk packet packet_length ip_header packet_info i st s;
      if last : bool then Ok (true, st, s)
      else dpdk_send_chunks n packet packet_length ip_header packet_info (i + 1) st s
  end.

(** The branch for packets longer than the MTU: lost chunks are only asked for when
    the loop met the last chunk. *)
Definition dpdk_send_fragmented (mtu : Z) (port_info : SwiftNetPortInfo) (packet : SwiftNetPacketBuffer)
    (packet_length target_addr packet_id packet_type chunk_amount : Z)
    (env : list (SwiftNetPacketSending -> SwiftNetPacketSending)) (st : SendState) (s : Store rte_mbuf)
    : Outcome (SendState * Store rte_mbuf) :=
  let ps := prepend_size network_data in
  let packet_info := construct_packet_info g packet_length packet_type chunk_amount 0 port_info in
  let ip_header := with_ip_len (htons (u16 (mtu + ps))) (construct_ip_header g target_addr mtu packet_id) in
  let '(new_packet_sending, store) :=
    store_alloc (mk_packet_sending None NO_UPDATE 50 0 packet_id false) (sending_store st) in
  let st := set_sending (al_insert packet_id new_packet_sending (packets_sending st)) store st in
  '(last, st, s) ← dpdk_send_chunks (Z.to_nat (buf_amount packet)) packet packet_length ip_header packet_info 0 st s;
  if last : bool then
    dpdk_handle_lost_packets new_packet_sending packet target_addr (source_port port_info) (destination_port port_info)
      packet_length env st s
  else Ok (st, s).

(** The branch for packets that fit the MTU: one message buffer. *)
Definition dpdk_send_single (port_info : SwiftNetPortInfo) (packet : SwiftNetPacketBuffer)
    (packet_length target_addr packet_id packet_type : Z) (st : SendState) (s : Store rte_mbuf)
    : Outcome (SendState * Store rte_mbuf) :=
  let ps := prepend_size network_data in
  let final_packet_size := u16 (ps + PACKET_HEADER_SIZE + packet_length) in
  let packet_info := construct_packet_info g packet_length packet_type 1 0 port_info in
  let ip_header := construct_ip_header g target_addr (final_packet_size - ps) packet_id in
  buffer ← slot_get (dpdk_buffers packet) 0;
  s ← write_mbuf_headers buffer ip_header packet_info s;
  m ← store_get buffer s;
  s ← mbuf_checksum buffer (data_off m + sizeof_ether_header + sizeof_ip) (packet_length + sizeof_SwiftNetPacketInfo) s;
  if negb (final_packet_size =? data_len m) then
    s ← store_update buffer (mbuf_with_len final_packet_size) s;
    '(st, s) ← swiftnet_dpdk_send buffer st s;
    s ← store_update buffer (mbuf_with_len (data_len m)) s;
    Ok (st, s)
  else swiftnet_dpdk_send buffer st s.

Definition dpdk_swiftnet_send_packet (target_maximum_transmission_unit : Z) (port_info : SwiftNetPortInfo)
    (packet : SwiftNetPacketBuffer) (packet_length target_addr : Z) (request_sent : option loc) (response : bool)
    (request_packet_id rand_value : Z) (env : list (SwiftNetPacketSending -> SwiftNetPacketSending)) (st : SendState)
    (s : Store rte_mbuf) : Outcome (SendState * Store rte_mbuf) :=
  let mtu := Z.min target_maximum_transmission_unit (maximum_transmission_unit g) in
  let packet_id := if response then request_packet_id else u16 rand_value in
  st ← match request_sent with
       | Some r =>
           requests ← store_update r (fun q => mk_request_sent (rs_packet_data q) (rs_address q) packet_id) (requests_store st);
           Ok (mk_send_state (packets_sending st) (sending_store st) (al_insert packet_id r (requests_sent st)) requests (wire st))
       | None => Ok st
       end;
  let packet_type := packet_type_code (if response then RESPONSE else match request_sent with None => MESSAGE | Some _ => REQUEST end) in
  chunk_amount ← compute_chunk_amount mtu packet_length;
  if mtu <? packet_length then
    dpdk_send_fragmented mtu port_info packet packet_length target_addr packet_id packet_type chunk_amount env st s
  else dpdk_send_single port_info packet packet_length target_addr packet_id packet_type st s.
End operations.

(** ** The card *)
Section card.
Context `{L : MbufLib} `{E : EthDev} `{HL : !MbufLaws L} `{HE : !EthLaws L E}.

(** A card that takes every frame. *)
Definition card_takes : Prop :=
  forall c m s, s !! c = Some m -> rte_eth_tx_burst c s = (1, delete c s).

Lemma dpdk_send_taken l m st s :
  card_takes -> s !! l = Some m -> Z.of_nat (size s) < mempool_available ->
  swiftnet_dpdk_send l st s = Ok (SWIFTNET_SEND_PACKET (mbuf_frame m) st, s).
Proof.
  intros Ht Hm Hs. unfold swiftnet_dpdk_send. rewrite (proj2 (store_get_ok _ _ _) Hm), bind_Ok.
  destruct (clone_law l m s Hm Hs) as (c & m' & -> & Hc & Hf). cbn [of_option]. rewrite bind_Ok.
  unfold store_get. rewrite lookup_insert_eq. cbn [of_option]. rewrite bind_Ok.
  rewrite (Ht c m') by apply lookup_insert_eq. cbn. by rewrite delete_insert_id, Hf.
Qed.

(** A frame the card refuses is dropped: the caller cannot tell. *)
Lemma dpdk_send_any l m st s :
  s !! l = Some m -> Z.of_nat (size s) < mempool_available ->
  swiftnet_dpdk_send l st s = Ok (SWIFTNET_SEND_PACKET (mbuf_frame m) st, s) \/ swiftnet_dpdk_send l st s = Ok (st, s).
Proof.
  intros Hm Hs. unfold swiftnet_dpdk_send. rewrite (proj2 (store_get_ok _ _ _) Hm), bind_Ok.
  destruct (clone_law l m s Hm Hs) as (c & m' & -> & Hc & Hf). cbn [of_option]. rewrite bind_Ok.
  unfold store_get. rewrite lookup_insert_eq. cbn [of_option]. rewrite bind_Ok.
  destruct (tx_law c m' (<[c := m']> s)) as [-> | ->]; [apply lookup_insert_eq|left|right]; cbn.
  - by rewrite delete_insert_id, Hf.
  - unfold mbuf_free, store_get. rewrite lookup_insert_eq. cbn.
    rewrite (free_law c m') by apply lookup_insert_eq. by rewrite delete_insert_id.
Qed.

(** *** Message buffers with headers *)

Definition with_memory (mem : list Z) (m : rte_mbuf) : rte_mbuf := mk_mbuf mem (data_off m) (data_len m) (pkt_len m).

Lemma mbuf_write_mem l m off x s :
  s !! l = Some m -> 0 <= data_off m + off -> data_off m + off + Z.of_nat (length x) <= Z.of_nat (length (buf_addr m)) ->
  mbuf_write l off x s = Ok (<[l := with_memory (blit (Z.to_nat (data_off m + off)) x (buf_addr m)) m]> s).
Proof.
  intros Hm H1 H2. unfold mbuf_write. by rewrite (proj2 (store_get_ok _ _ _) Hm), bind_Ok, mem_write_ok, bind_Ok by lia.
Qed.

Lemma write_mbuf_headers_ok eth h p l m s n :
  ether_header_ok eth -> s !! l = Some m -> sized_mbuf n m -> mbuf_headers <= data_room ->
  write_mbuf_headers eth l h p s
  = Ok (<[l := with_memory (blit (Z.to_nat RTE_PKTMBUF_HEADROOM) (headers (ether_header_bytes eth) h p) (buf_addr m)) m]> s).
Proof.
  intros He Hm (_ & _ & Hoff & Hlen) Hroom. pose proof headroom_nonneg. assert (mbuf_headers = 58) as Hh by done.
  pose proof (length_ether_header_bytes eth He) as Hle. pose proof (length_ip_bytes h) as Hli.
  pose proof (length_packet_info_bytes p) as Hlp.
  unfold write_mbuf_headers, sizeof_ether_header, sizeof_ip.
  rewrite (mbuf_write_mem l m), bind_Ok by (done || lia).
  assert (forall o x, (o + length x <= length (buf_addr m))%nat -> length (blit o x (buf_addr m)) = length (buf_addr m)) as Hb
    by (intros; by apply length_blit).
  erewrite mbuf_write_mem; [|apply lookup_insert_eq| |]; cbn [with_memory data_off buf_addr];
    [|lia|rewrite Hb; lia]. rewrite bind_Ok.
  erewrite mbuf_write_mem; [|apply lookup_insert_eq| |]; cbn [with_memory data_off buf_addr];
    [|lia|rewrite length_blit, Hb; rewrite ?Hb; lia].
  rewrite !insert_insert_eq. do 2 f_equal. unfold with_memory. cbn [data_off data_len pkt_len buf_addr]. f_equal. rewrite Hoff.
  replace (Z.to_nat (RTE_PKTMBUF_HEADROOM + 14)) with (Z.to_nat RTE_PKTMBUF_HEADROOM + length (ether_header_bytes eth))%nat by lia.
  rewrite Z.add_0_r, blit_blit_adjacent by lia.
  replace (Z.to_nat (RTE_PKTMBUF_HEADROOM + (14 + 20)))
    with (Z.to_nat RTE_PKTMBUF_HEADROOM + length (ether_header_bytes eth ++ ip_bytes h))%nat by (rewrite length_app; lia).
  rewrite blit_blit_adjacent by (rewrite length_app; lia). unfold headers. by rewrite <- app_assoc.
Qed.

(** Sealing the frame of a message buffer with a payload of [k] bytes. *)
Lemma mbuf_checksum_ok eth h p l m s mem k :
  ether_header_ok eth -> s !! l = Some (with_memory (blit (Z.to_nat RTE_PKTMBUF_HEADROOM) (headers (ether_header_bytes eth) h p) mem) m) ->
  0 <= k -> RTE_PKTMBUF_HEADROOM + mbuf_headers + k <= Z.of_nat (length mem) ->
  mbuf_checksum l (RTE_PKTMBUF_HEADROOM + sizeof_ether_header + sizeof_ip) (k + sizeof_SwiftNetPacketInfo) s
  = Ok (<[l := with_memory (blit (Z.to_nat RTE_PKTMBUF_HEADROOM) (headers (ether_header_bytes eth) h
           (sealed_info p (slice (Z.to_nat (RTE_PKTMBUF_HEADROOM + mbuf_headers)) (Z.to_nat k) mem))) mem) m]> s).
Proof.
  intros He Hm Hk Hlen. pose proof headroom_nonneg. assert (mbuf_headers = 58) as Hh by done.
  pose proof (length_ether_header_bytes eth He) as Hle. unfold mbuf_checksum.
  rewrite (proj2 (store_get_ok _ _ _) Hm), bind_Ok. cbn [with_memory buf_addr data_off data_len pkt_len].
  pose proof (seal_in_place (ether_header_bytes eth) h p mem (Z.to_nat RTE_PKTMBUF_HEADROOM) (58 + Z.to_nat k)) as Hs.
  rewrite Hle in Hs. specialize (Hs ltac:(lia) ltac:(lia)).
  replace (Z.of_nat (Z.to_nat RTE_PKTMBUF_HEADROOM + 14) + sizeof_ip)
    with (RTE_PKTMBUF_HEADROOM + sizeof_ether_header + sizeof_ip) in Hs by (unfold sizeof_ether_header; lia).
  replace (Z.of_nat (58 + Z.to_nat k - 14 - 20)) with (k + sizeof_SwiftNetPacketInfo) in Hs by (unfold sizeof_SwiftNetPacketInfo; lia).
  replace (Z.to_nat RTE_PKTMBUF_HEADROOM + (14 + 44))%nat with (Z.to_nat (RTE_PKTMBUF_HEADROOM + mbuf_headers)) in Hs by lia.
  replace (58 + Z.to_nat k - (14 + 44))%nat with (Z.to_nat k) in Hs by lia.
  rewrite Hs, bind_Ok. done.
Qed.

(** The frame it then transmits. *)
Lemma sealed_mbuf_frame eth h p (mem : list Z) k n :
  ether_header_ok eth -> 0 <= k -> RTE_PKTMBUF_HEADROOM + mbuf_headers + k <= Z.of_nat (length mem) -> n = mbuf_headers + k ->
  let payload := slice (Z.to_nat (RTE_PKTMBUF_HEADROOM + mbuf_headers)) (Z.to_nat k) mem in
  slice (Z.to_nat RTE_PKTMBUF_HEADROOM) (Z.to_nat n)
    (blit (Z.to_nat RTE_PKTMBUF_HEADROOM) (headers (ether_header_bytes eth) h (sealed_info p payload)) mem)
  = sealed_frame (ether_header_bytes eth) h p payload.
Proof.
  intros He Hk Hlen -> payload. pose proof headroom_nonneg. assert (mbuf_headers = 58) as Hh by done.
  pose proof (length_ether_header_bytes eth He) as Hle.
  pose proof (sealed_slice (ether_header_bytes eth) h p mem (Z.to_nat RTE_PKTMBUF_HEADROOM) (58 + Z.to_nat k)) as Hs.
  rewrite Hle in Hs. specialize (Hs ltac:(lia) ltac:(lia)). cbv zeta in Hs.
  replace (Z.to_nat RTE_PKTMBUF_HEADROOM + (14 + 44))%nat with (Z.to_nat (RTE_PKTMBUF_HEADROOM + mbuf_headers)) in Hs by lia.
  replace (58 + Z.to_nat k - (14 + 44))%nat with (Z.to_nat k) in Hs by lia.
  replace (Z.to_nat (mbuf_headers + k)) with (58 + Z.to_nat k)%nat by lia. exact Hs.
Qed.

(** Changes in front of the data keep the data. *)
Lemma holds_data_prefix p m mem :
  holds_data p m -> length mem = length (buf_addr m) ->
  (forall k, slice (Z.to_nat (RTE_PKTMBUF_HEADROOM + mbuf_headers)) k mem
           = slice (Z.to_nat (RTE_PKTMBUF_HEADROOM + mbuf_headers)) k (buf_addr m)) ->
  holds_data p (with_memory mem m).
Proof.
  intros [(Hdl & Hpl & Hoff & Hlen) Hp] Hl Hs. split; [by repeat split; cbn; rewrite ?Hl|].
  rewrite <- Hp. unfold mbuf_data. cbn. rewrite Hoff. apply Hs.
Qed.

Lemma blit_headers_keeps eth h p (mem : list Z) k :
  ether_header_ok eth -> RTE_PKTMBUF_HEADROOM + mbuf_headers <= Z.of_nat (length mem) ->
  slice (Z.to_nat (RTE_PKTMBUF_HEADROOM + mbuf_headers)) k
    (blit (Z.to_nat RTE_PKTMBUF_HEADROOM) (headers (ether_header_bytes eth) h p) mem)
  = slice (Z.to_nat (RTE_PKTMBUF_HEADROOM + mbuf_headers)) k mem.
Proof.
  intros He Hlen. pose proof headroom_nonneg. assert (mbuf_headers = 58) as Hh by done.
  apply slice_blit_other; rewrite length_headers, (length_ether_header_bytes eth He); lia.
Qed.
End card.

Lemma blit_comm {A} a (x : list A) b y l :
  (a + length x <= b)%nat -> (b + length y <= length l)%nat -> blit a x (blit b y l) = blit b y (blit a x l).
Proof.
  intros H1 H2. apply list_eq. intros i. rewrite !lookup_blit; rewrite ?length_blit; try lia.
  repeat case_decide; try lia; done.
Qed.

Lemma with_memory_twice x y m : with_memory x (with_memory y m) = with_memory x m.
Proof. done. Qed.

Lemma mbuf_with_len_id n m : data_len m = n -> pkt_len m = n -> mbuf_with_len n m = m.
Proof. destruct m as [a o d q]. cbn. by intros -> ->. Qed.

(** ** Sending the chunks *)
Section chunks.
Context `{L : MbufLib} `{E : EthDev} `{HL : !MbufLaws L} `{HE : !EthLaws L E}.
Context (nd : SwiftNetNetworkData) (eth : ether_header) (D : Z) (s0 : Store rte_mbuf).
Hypothesis HD : 0 < D.
Hypothesis Hroom : mbuf_headers + D <= data_room.
Hypothesis Hword : mbuf_headers + D < 2 ^ 16.
Hypothesis Hprepend : prepend_size nd = sizeof_ether_header.
Hypothesis Heth : ether_header_ok eth.
Hypothesis Hhead : mbuf_headers <= RTE_PKTMBUF_HEADROOM.
Hypothesis Htakes : card_takes.

(** The frame of a chunk. *)
Definition dpdk_chunk_frame (h : ip) (p : SwiftNetPacketInfo) (i : Z) (payload : list Z) : list Z :=
  sealed_frame (ether_header_bytes eth) h (with_checksum 0 (with_index i p)) payload.

(** A message buffer of [n] bytes: seal, transmit. *)
Lemma seal_and_send h p l m s n k mem st :
  s !! l = Some (with_memory (blit (Z.to_nat RTE_PKTMBUF_HEADROOM) (headers (ether_header_bytes eth) h p) mem) m) ->
  sized_mbuf n m -> length mem = length (buf_addr m) -> n = mbuf_headers + k -> 0 <= k <= D -> Z.of_nat (size s) < mempool_available ->
  let payload := slice (Z.to_nat (RTE_PKTMBUF_HEADROOM + mbuf_headers)) (Z.to_nat k) mem in
  let m' := with_memory (blit (Z.to_nat RTE_PKTMBUF_HEADROOM) (headers (ether_header_bytes eth) h (sealed_info p payload)) mem) m in
  mbuf_checksum l (RTE_PKTMBUF_HEADROOM + sizeof_ether_header + sizeof_ip) (k + sizeof_SwiftNetPacketInfo) s = Ok (<[l := m']> s)
  /\ swiftnet_dpdk_send l st (<[l := m']> s)
     = Ok (SWIFTNET_SEND_PACKET (sealed_frame (ether_header_bytes eth) h p payload) st, <[l := m']> s)
  /\ mbuf_frame m' = sealed_frame (ether_header_bytes eth) h p payload.
Proof.
  intros Hm (Hdl & Hpl & Hoff & Hlen) Hmem -> Hk Hs payload m'.
  assert (mbuf_frame m' = sealed_frame (ether_header_bytes eth) h p payload) as Hf.
  { unfold mbuf_frame, m'. cbn [with_memory buf_addr data_off data_len]. rewrite Hoff, Hdl.
    apply sealed_mbuf_frame; try done; lia. }
  split; [apply (mbuf_checksum_ok eth h p l m s mem k); try done; lia|]. split; [|done].
  rewrite (dpdk_send_taken l m'); [by rewrite Hf|done|apply lookup_insert_eq|].
  rewrite map_size_insert_Some; [done|]. by rewrite Hm.
Qed.

(** Headers over a memory that differs from the buffer's in front of the headers only. *)
Lemma chunk_kept h p q m mem :
  holds_data q m -> length mem = length (buf_addr m) ->
  (forall k, slice (Z.to_nat (RTE_PKTMBUF_HEADROOM + mbuf_headers)) k mem
           = slice (Z.to_nat (RTE_PKTMBUF_HEADROOM + mbuf_headers)) k (buf_addr m)) ->
  holds_data q (with_memory (blit (Z.to_nat RTE_PKTMBUF_HEADROOM) (headers (ether_header_bytes eth) h p) mem) m)
  /\ slice (Z.to_nat (RTE_PKTMBUF_HEADROOM + mbuf_headers)) (Z.to_nat (Z.of_nat (length q))) mem = q.
Proof.
  intros Hq Hl Hk. assert (mbuf_headers = 58) as Hh by done. pose proof headroom_nonneg.
  pose proof Hq as [(Hdl & _ & Hoff & Hlen) Hdata]. split.
  - apply holds_data_prefix; [done| |].
    + rewrite length_blit; [done|]. rewrite length_headers, (length_ether_header_bytes eth Heth). lia.
    + intros k. rewrite blit_headers_keeps by (done || lia). apply Hk.
  - rewrite Hk. rewrite <- Hdata at 2. unfold mbuf_data. rewrite Hoff, Hdl. f_equal. lia.
Qed.

(** A write to the headroom. *)
Lemma raw_write_front l m s o x :
  s !! l = Some m -> data_off m = RTE_PKTMBUF_HEADROOM -> 0 <= o -> o + Z.of_nat (length x) <= RTE_PKTMBUF_HEADROOM ->
  RTE_PKTMBUF_HEADROOM <= Z.of_nat (length (buf_addr m)) ->
  let mem := blit (Z.to_nat o) x (buf_addr m) in
  mbuf_raw_write l o x s = Ok (<[l := with_memory mem m]> s) /\ length mem = length (buf_addr m)
  /\ (forall off k, RTE_PKTMBUF_HEADROOM <= Z.of_nat off -> slice off k mem = slice off k (buf_addr m)).
Proof.
  intros Hm Hoff Ho Hx Hlen mem. unfold mbuf_raw_write. rewrite (proj2 (store_get_ok _ _ _) Hm), bind_Ok, mem_write_ok, bind_Ok by lia.
  split; [done|]. split; [apply length_blit; lia|]. intros off k Hk. apply slice_blit_other; lia.
Qed.

(** The end of an iteration, the headers being written. *)
Lemma seal_chunk b pb q pa s lb l la m h p i st mem :
  buffer_inv D s0 b (pb ++ q :: pa) s -> dpdk_buffers b = lb ++ l :: la -> length lb = length pb ->
  s !! l = Some m -> holds_data q m -> Z.of_nat (length q) <= D -> Z.of_nat (size s) < mempool_available ->
  length mem = length (buf_addr m) ->
  (forall k, slice (Z.to_nat (RTE_PKTMBUF_HEADROOM + mbuf_headers)) k mem
           = slice (Z.to_nat (RTE_PKTMBUF_HEADROOM + mbuf_headers)) k (buf_addr m)) ->
  let info := with_checksum 0 (with_index i p) in
  exists m', mbuf_checksum l (RTE_PKTMBUF_HEADROOM + sizeof_ether_header + sizeof_ip) (Z.of_nat (length q) + sizeof_SwiftNetPacketInfo)
      (<[l := with_memory (blit (Z.to_nat RTE_PKTMBUF_HEADROOM) (headers (ether_header_bytes eth) h info) mem) m]> s)
      = Ok (<[l := m']> s)
    /\ swiftnet_dpdk_send l st (<[l := m']> s) = Ok (SWIFTNET_SEND_PACKET (dpdk_chunk_frame h p i q) st, <[l := m']> s)
    /\ mbuf_frame m' = dpdk_chunk_frame h p i q /\ holds_data q m'
    /\ buffer_inv D s0 b (pb ++ q :: pa) (<[l := m']> s).
Proof.
  intros Hi Hls Hll Hm Hhold Hq Hs Hml Hk info. destruct (chunk_kept h info q m mem Hhold Hml Hk) as [_ Hpay].
  destruct (seal_and_send h info l m
    (<[l := with_memory (blit (Z.to_nat RTE_PKTMBUF_HEADROOM) (headers (ether_header_bytes eth) h info) mem) m]> s)
    (mbuf_headers + Z.of_nat (length q)) (Z.of_nat (length q)) mem st) as (Hc & Hsend & Hframe);
    [apply lookup_insert_eq|apply Hhold|done|done|lia|by rewrite map_size_insert_Some; [|rewrite Hm]|].
  rewrite Hpay in Hc, Hsend, Hframe. rewrite !insert_insert_eq in Hc, Hsend.
  eexists. split; [exact Hc|]. split; [exact Hsend|]. split; [exact Hframe|].
  destruct (chunk_kept h (sealed_info info q) q m mem Hhold Hml Hk) as [Hh' _].
  split; [done|]. by eapply (inv_update_chunk D s0 b pb q pa s lb l la).
Qed.

Lemma dpdk_send_chunk_ok b pb q pa s h p st :
  buffer_inv D s0 b (pb ++ q :: pa) s -> (forall r, r ∈ pb -> Z.of_nat (length r) = D) ->
  Z.of_nat (length q) <= D -> (Z.of_nat (length q) = D \/ pa = []) -> Z.of_nat (size s) < mempool_available ->
  let i := Z.of_nat (length pb) in
  exists l m', dpdk_send_chunk nd eth b (total_data_size b) h p i st s
      = Ok (bool_decide (Z.of_nat (length q) < D), SWIFTNET_SEND_PACKET (dpdk_chunk_frame h p i q) st, <[l := m']> s)
    /\ dpdk_buffers b !! length pb = Some l /\ mbuf_frame m' = dpdk_chunk_frame h p i q
    /\ buffer_inv D s0 b (pb ++ q :: pa) (<[l := m']> s).
Proof.
  intros Hi Hf Hq Hlast Hs i. assert (mbuf_headers = 58) as Hh by done. pose proof headroom_nonneg as Hh0.
  destruct (mbufs_at _ _ _ _ _ (bi_mbufs _ _ _ _ _ Hi)) as (lb & l & la & m & Hls & Hll & Hm & Hhold & Hat).
  pose proof (bi_bound _ _ _ _ _ Hi) as Hb. pose proof (bi_total _ _ _ _ _ Hi) as Htot.
  rewrite concat_app, length_app, Nat2Z.inj_add, (length_concat_full D) in Htot by done.
  cbn [concat] in Htot. rewrite length_app in Htot. fold i in Htot.
  pose proof Hhold as [Hsz _]. pose proof Hsz as (Hdl & Hpl & Hoff & Hlen).
  exists l. unfold dpdk_send_chunk. rewrite (bi_chunk _ _ _ _ _ Hi), (u32_id (i * D)) by nia.
  assert (slot_get (dpdk_buffers b) i = Ok l) as -> by (by apply slot_get_ok).
  rewrite bind_Ok, (write_mbuf_headers_ok eth _ _ l m s _ Heth Hm Hsz), bind_Ok by lia.
  unfold store_get at 1. rewrite lookup_insert_eq. cbn [of_option]. rewrite bind_Ok. cbn [with_memory data_len data_off].
  rewrite Hprepend, Hdl, Hoff, (u32_id (i * D + D)) by nia.
  set (hdrs := headers (ether_header_bytes eth) h (with_checksum 0 (with_index i p))).
  assert (length hdrs = 58%nat) as Hhl by (unfold hdrs; by rewrite length_headers, (length_ether_header_bytes eth Heth)).
  assert (u32 (mbuf_headers + Z.of_nat (length q) - sizeof_ether_header - sizeof_ip) = Z.of_nat (length q) + sizeof_SwiftNetPacketInfo) as Hsize
    by (unfold sizeof_ether_header, sizeof_ip, sizeof_SwiftNetPacketInfo; rewrite u32_id; lia).
  destruct (Z.ltb_spec (total_data_size b) (i * D + D)) as [Hlt|Hge].
  - assert (pa = []) as -> by (destruct Hlast as [HqD|]; [exfalso; cbn in *; lia|done]). cbn in Htot.
    rewrite (bool_decide_true (_ < D)) by lia.
    replace (total_data_size b - i * D + PACKET_HEADER_SIZE) with (Z.of_nat (length q) + 44)
      by (change PACKET_HEADER_SIZE with 44; lia).
    rewrite (u16_id (Z.of_nat (length q) + 44)) by lia.
    set (x := le_bytes 2 (htons (Z.of_nat (length q) + 44))). assert (length x = 2%nat) as Hx by apply length_le_bytes.
    destruct (raw_write_front l (with_memory (blit (Z.to_nat RTE_PKTMBUF_HEADROOM) hdrs (buf_addr m)) m)
      (<[l := with_memory (blit (Z.to_nat RTE_PKTMBUF_HEADROOM) hdrs (buf_addr m)) m]> s) (sizeof_ether_header + offsetof_ip_len) x)
      as (-> & _ & _); cbn [with_memory data_off buf_addr];
      [apply lookup_insert_eq|done|done|change (sizeof_ether_header + offsetof_ip_len) with 16; lia
      |rewrite length_blit by lia; lia|].
    destruct (raw_write_front l m s (sizeof_ether_header + offsetof_ip_len) x) as (_ & Hml & Hk);
      [done|done|done|change (sizeof_ether_header + offsetof_ip_len) with 16; lia|lia|].
    rewrite bind_Ok, blit_comm, insert_insert_eq by (change (sizeof_ether_header + offsetof_ip_len) with 16; lia).
    replace (Z.of_nat (length q) + 44 + sizeof_ether_header) with (mbuf_headers + Z.of_nat (length q))
      by (unfold sizeof_ether_header; lia). rewrite (u16_id (mbuf_headers + _)), Hsize by lia.
    erewrite store_update_ok by apply lookup_insert_eq. rewrite bind_Ok, mbuf_with_len_id, insert_insert_eq by done.
    destruct (seal_chunk b pb q [] s lb l la m h p i st _ Hi Hls Hll Hm Hhold Hq Hs Hml) as (m' & Hc & Hsend & Hfr & Hh' & Hi').
    { intros k. apply Hk. lia. }
    fold hdrs in Hc. rewrite with_memory_twice, Hc, bind_Ok, Hsend, bind_Ok. erewrite store_update_ok by apply lookup_insert_eq.
    destruct Hh' as [(Hdl' & Hpl' & _) Hd']. rewrite bind_Ok, mbuf_with_len_id, insert_insert_eq by done.
    exists m'. split; [done|]. split; [done|]. by split.
  - rewrite (bool_decide_false (_ < D)) by (destruct Hlast as [|Hpa]; [lia|subst pa; cbn in *; lia]). rewrite Hsize.
    destruct (seal_chunk b pb q pa s lb l la m h p i st _ Hi Hls Hll Hm Hhold Hq Hs eq_refl) as (m' & Hc & Hsend & Hfr & Hh' & Hi').
    { done. }
    fold hdrs in Hc. rewrite Hc, bind_Ok, Hsend, bind_Ok. exists m'. split; [done|]. split; [done|]. by split.
Qed.

(** The frames of consecutive chunks. *)
Fixpoint frames_from (h : ip) (p : SwiftNetPacketInfo) (i : Z) (ps : list (list Z)) : list (list Z) :=
  match ps with
  | [] => []
  | q :: ps => dpdk_chunk_frame h p i q :: frames_from h p (i + 1) ps
  end.

(** The message buffers [ls] hold the frames [fs], ready to be sent again. *)
Definition frame_held (s : Store rte_mbuf) (l : loc) (f : list Z) : Prop :=
  exists m, s !! l = Some m /\ mbuf_frame m = f.

Lemma dpdk_send_chunks_S n b len h p i st s :
  dpdk_send_chunks nd eth (S n) b len h p i st s
  = '(last, st, s) ← dpdk_send_chunk nd eth b len h p i st s;
    if last : bool then Ok (true, st, s) else dpdk_send_chunks nd eth n b len h p (i + 1) st s.
Proof. done. Qed.

Lemma dpdk_send_chunks_ok b h p pb full q s st :
  buffer_inv D s0 b (pb ++ full ++ [q]) s -> (forall r, r ∈ pb ++ full -> Z.of_nat (length r) = D) ->
  Z.of_nat (length q) <= D -> Z.of_nat (size s0 + length (dpdk_buffers b)) < mempool_available ->
  exists s', dpdk_send_chunks nd eth (S (length full)) b (total_data_size b) h p (Z.of_nat (length pb)) st s
      = Ok (bool_decide (Z.of_nat (length q) < D), send_frames (frames_from h p (Z.of_nat (length pb)) (full ++ [q])) st, s')
    /\ buffer_inv D s0 b (pb ++ full ++ [q]) s'
    /\ Forall2 (frame_held s') (drop (length pb) (dpdk_buffers b)) (frames_from h p (Z.of_nat (length pb)) (full ++ [q]))
    /\ (forall l, l ∈ take (length pb) (dpdk_buffers b) -> s' !! l = s !! l).
Proof.
  revert pb s st. induction full as [|r full IH]; intros pb s st Hi Hf Hq Hs; pose proof (inv_size _ _ _ _ _ Hi) as Hsz.
  - destruct (dpdk_send_chunk_ok b pb q [] s h p st Hi) as (l & m' & Hc & Hat & Hfr & Hi'); [|done|by right|lia|].
    { intros r Hr. apply Hf. by rewrite app_nil_r. }
    cbn [length app dpdk_send_chunks frames_from]. rewrite Hc, bind_Ok. exists (<[l := m']> s).
    split; [by case_bool_decide|]. split; [done|].
    pose proof (Forall2_length _ _ _ (bi_mbufs _ _ _ _ _ Hi)) as Hl. rewrite length_app in Hl. cbn in Hl. split.
    + rewrite (drop_S _ l) by done. rewrite drop_ge by lia. constructor; [|constructor]. exists m'. by rewrite lookup_insert_eq.
    + intros l' Hl'. apply lookup_insert_ne. intros ->. apply elem_of_take in Hl' as (j & Hj & Hlt).
      pose proof (NoDup_lookup _ _ _ _ (bi_nodup _ _ _ _ _ Hi) Hj Hat). lia.
  - destruct (dpdk_send_chunk_ok b pb r (full ++ [q]) s h p st Hi) as (l & m' & Hc & Hat & Hfr & Hi'); try done; try lia.
    { intros x Hx. apply Hf, elem_of_app. by left. }
    { rewrite Hf; [lia|]. apply elem_of_app. right. left. }
    { left. apply Hf, elem_of_app. right. left. }
    assert (Z.of_nat (length r) = D) as HrD by (apply Hf, elem_of_app; right; left).
    destruct (IH (pb ++ [r]) (<[l := m']> s) (SWIFTNET_SEND_PACKET (dpdk_chunk_frame h p (Z.of_nat (length pb)) r) st))
      as (s' & He & Hi2 & Hfs & Hkeep).
    { by rewrite <- app_assoc. }
    { intros x Hx. apply Hf. by rewrite <- app_assoc in Hx. }
    { done. }
    { done. }
    rewrite <- app_assoc in Hi2. rewrite length_app in He, Hfs, Hkeep. cbn [length] in He, Hfs, Hkeep.
    rewrite Nat2Z.inj_add in He, Hfs. change (Z.of_nat 1) with 1 in He, Hfs.
    exists s'. cbn [length app]. rewrite dpdk_send_chunks_S, Hc, bind_Ok, (bool_decide_false (Z.of_nat (length r) < D)) by lia.
    rewrite He. split; [|split; [done|split]].
    + cbn [frames_from app]. unfold send_frames, SWIFTNET_SEND_PACKET. cbn. by rewrite <- app_assoc.
    + rewrite (drop_S _ l) by done. cbn [frames_from app]. constructor.
      * exists m'. split; [|done]. rewrite Hkeep; [apply lookup_insert_eq|]. apply elem_of_take. exists (length pb). split; [done|lia].
      * replace (S (length pb)) with (length pb + 1)%nat by lia. exact Hfs.
    + intros l' Hl'. rewrite Hkeep.
      * apply lookup_insert_ne. intros ->. apply elem_of_take in Hl' as (j & Hj & Hlt).
        pose proof (NoDup_lookup _ _ _ _ (bi_nodup _ _ _ _ _ Hi) Hj Hat). lia.
      * apply elem_of_take in Hl' as (j & Hj & Hlt). apply elem_of_take. exists j. split; [done|lia].
Qed.

(** *** Sending again *)

(** The buffer of a packet whose frames [fs] have been sent. *)
Definition sent_inv (b : SwiftNetPacketBuffer) (ps fs : list (list Z)) (s : Store rte_mbuf) : Prop :=
  buffer_inv D s0 b ps s /\ Forall2 (frame_held s) (dpdk_buffers b) fs.

(** A change of the headroom of one message buffer. *)
Lemma sent_inv_front b ps fs s l m mem :
  sent_inv b ps fs s -> l ∈ dpdk_buffers b -> s !! l = Some m -> length mem = length (buf_addr m) ->
  (forall off k, RTE_PKTMBUF_HEADROOM <= Z.of_nat off -> slice off k mem = slice off k (buf_addr m)) ->
  sent_inv b ps fs (<[l := with_memory mem m]> s) /\ mbuf_frame (with_memory mem m) = mbuf_frame m.
Proof.
  intros [Hi Hfs] Hin Hm Hlen Hk. pose proof headroom_nonneg. assert (mbuf_headers = 58) as Hh by done.
  apply list_elem_of_lookup in Hin as [i Hat].
  destruct (Forall2_lookup_l _ _ _ _ _ (bi_mbufs _ _ _ _ _ Hi) Hat) as (q & Hq & m' & Hm' & Hhold).
  rewrite Hm in Hm'. injection Hm' as <-.
  assert (mbuf_frame (with_memory mem m) = mbuf_frame m) as Hf.
  { unfold mbuf_frame. cbn. destruct Hhold as [(_ & _ & Hoff & _) _]. apply Hk. lia. }
  split; [|done]. pose proof (bi_nodup _ _ _ _ _ Hi) as Hnd. split.
  - rewrite <- (take_drop_middle ps i q Hq) in Hi |- *.
    eapply inv_update_chunk; [exact Hi|symmetry; by apply take_drop_middle| | |done].
    + pose proof (Forall2_length _ _ _ (bi_mbufs _ _ _ _ _ Hi)) as Hl. rewrite (take_drop_middle ps i q Hq) in Hl.
      rewrite !length_take. lia.
    + apply holds_data_prefix; [done|done|]. intros k. apply Hk. lia.
  - apply Forall2_same_length_lookup. split; [by eapply Forall2_length|]. intros j x f Hx Hf'.
    destruct (Forall2_lookup_lr _ _ _ _ _ _ Hfs Hx Hf') as (m2 & Hm2 & Hfr).
    destruct (decide (x = l)) as [->|Hne].
    + exists (with_memory mem m). rewrite lookup_insert_eq, Hf. split; [done|]. congruence.
    + exists m2. by rewrite lookup_insert_ne by done.
Qed.

Lemma dpdk_resend_chunk_ok b ps fs s i j f len st :
  sent_inv b ps fs s -> fs !! i = Some f -> 0 <= j -> j * D + D < 2 ^ 32 ->
  Z.of_nat (size s0 + length (dpdk_buffers b)) < mempool_available ->
  exists s', dpdk_resend_chunk nd b len (Z.of_nat i) j st s = Ok (SWIFTNET_SEND_PACKET f st, s') /\ sent_inv b ps fs s'.
Proof.
  intros Hsi Hf Hj Hw Hs. pose proof Hsi as [Hi Hfs]. assert (mbuf_headers = 58) as Hh by done.
  destruct (Forall2_lookup_r _ _ _ _ _ Hfs Hf) as (l & Hat & m & Hm & Hfr).
  destruct (Forall2_lookup_l _ _ _ _ _ (bi_mbufs _ _ _ _ _ Hi) Hat) as (q & Hq & m2 & Hm2 & Hhold).
  rewrite Hm in Hm2. injection Hm2 as <-. destruct Hhold as [(Hdl & Hpl & Hoff & Hlen) _].
  assert (Z.of_nat (length q) <= D) as HqD.
  { destruct (bi_shape _ _ _ _ _ Hi) as (full & last & -> & Hfull & Hlast).
    apply list_elem_of_lookup_2, elem_of_app in Hq as [Hq| ->%list_elem_of_singleton]; [|done]. rewrite Hfull by done. lia. }
  unfold dpdk_resend_chunk. rewrite (slot_get_ok _ _ _ Hat), bind_Ok, (bi_chunk _ _ _ _ _ Hi).
  change (sizeof_ether_header + sizeof_ip + offsetof_checksum) with 46.
  destruct (raw_write_front l m s 46 (repeat 0 4)) as (-> & Hml & Hk); [done|done|done|cbn; lia|lia|].
  set (mem := blit (Z.to_nat 46) (repeat 0 4) (buf_addr m)) in *. rewrite bind_Ok.
  destruct (sent_inv_front b ps fs s l m mem Hsi) as [Hsi1 Hf1];
    [by eapply list_elem_of_lookup_2|done|done|done|].
  unfold store_get. rewrite lookup_insert_eq. cbn [of_option]. rewrite bind_Ok. cbn [with_memory data_len].
  rewrite (u32_id (j * D)), (u32_id (j * D + D)) by nia. rewrite (proj2 (Z.ltb_ge (j * D + D) D)) by nia. cbn [andb].
  rewrite Hprepend, Hdl. unfold mbuf_checksum, store_get. rewrite lookup_insert_eq. cbn [of_option]. rewrite bind_Ok.
  cbn [with_memory buf_addr data_off data_len pkt_len]. unfold sizeof_ether_header, sizeof_ip.
  replace (mbuf_headers + Z.of_nat (length q) - 20 - 14) with (24 + Z.of_nat (length q)) by lia. rewrite u32_id by lia.
  destruct (handle_checksum_ok mem (14 + 20) (24 + Z.of_nat (length q))) as (mem2 & Hc & Hmem2 & Hml2 & _);
    [lia|unfold sizeof_SwiftNetPacketInfo; lia|lia|].
  rewrite Hc, bind_Ok. fold (with_memory mem2 m). rewrite <- (with_memory_twice mem2 mem m).
  destruct (sent_inv_front b ps fs _ l (with_memory mem m) mem2 Hsi1) as [Hsi2 Hf2];
    [by eapply list_elem_of_lookup_2|apply lookup_insert_eq|done| |].
  { intros off k Hoff2. cbn [with_memory buf_addr]. rewrite Hmem2. apply slice_blit_other; rewrite length_le_bytes; lia. }
  exists (<[l := with_memory mem2 (with_memory mem m)]> (<[l := with_memory mem m]> s)). split; [|done].
  rewrite bind_Ok.  rewrite (dpdk_send_taken l (with_memory mem2 (with_memory mem m))); [|done|apply lookup_insert_eq|].
  - by rewrite Hf2, Hf1, Hfr.
  - rewrite (inv_size _ _ _ _ _ (proj1 Hsi2)). lia.
Qed.

(** Whatever chunks the list names, the first message buffers are sent. *)
Lemma dpdk_resend_chunks_ok b ps fs len done_ is_ rest s st :
  sent_inv b ps fs s -> (length done_ + length is_ <= length fs)%nat ->
  (forall j, j ∈ is_ -> 0 <= j /\ j * D + D < 2 ^ 32) -> Z.of_nat (size s0 + length (dpdk_buffers b)) < mempool_available ->
  exists s', dpdk_resend_chunks nd (length is_) (Z.of_nat (length done_)) b len (index_bytes done_ ++ index_bytes is_ ++ rest) st s
      = Ok (send_frames (slice (length done_) (length is_) fs) st, s') /\ sent_inv b ps fs s'.
Proof.
  revert done_ s st. induction is_ as [|j is_ IH]; intros done_ s st Hsi Hlen Hj Hs.
  { exists s. split; [|done]. cbn [dpdk_resend_chunks length]. unfold send_frames. rewrite slice_0, app_nil_r. by destruct st. }
  pose proof (length_index_bytes done_) as Hd. destruct (Hj j ltac:(left)) as [Hj1 Hj2].
  cbn [length] in Hlen. destruct (lookup_lt_is_Some_2 fs (length done_) ltac:(lia)) as [f Hf].
  cbn [dpdk_resend_chunks length].
  rewrite mem_read_ok, bind_Ok by (rewrite ?length_app, ?length_index_bytes; cbn [length]; lia).
  replace (Z.to_nat (4 * Z.of_nat (length done_))) with (length (index_bytes done_)) by lia.
  rewrite slice_app_r, Nat.sub_diag by lia.
  assert (index_bytes (j :: is_) = le_bytes 4 j ++ index_bytes is_) as -> by done.
  rewrite <- app_assoc, slice_app_l by (by rewrite length_le_bytes).
  change (slice 0 (Z.to_nat 4) (le_bytes 4 j)) with (le_bytes 4 j).
  rewrite le_val_le_bytes, Z.mod_small by (change (8 * Z.of_nat 4) with 32; nia).
  destruct (dpdk_resend_chunk_ok b ps fs s (length done_) j f len st Hsi Hf Hj1 Hj2 Hs) as (s1 & -> & Hsi1). rewrite bind_Ok.
  assert (index_bytes done_ ++ le_bytes 4 j ++ index_bytes is_ ++ rest
    = index_bytes (done_ ++ [j]) ++ index_bytes is_ ++ rest) as ->.
  { unfold index_bytes. rewrite map_app, concat_app. cbn [map concat]. by rewrite app_nil_r, <- !app_assoc. }
  replace (Z.of_nat (length done_) + 1) with (Z.of_nat (length (done_ ++ [j]))) by (rewrite length_app; cbn; lia).
  destruct (IH (done_ ++ [j]) s1 (SWIFTNET_SEND_PACKET f st) Hsi1) as (s2 & -> & Hsi2);
    [rewrite length_app; cbn; lia|intros x Hx; apply Hj; by right|done|].
  exists s2. split; [|done]. unfold send_frames, SWIFTNET_SEND_PACKET. cbn. rewrite <- app_assoc. do 3 f_equal. cbn [app].
  rewrite length_app. unfold slice. cbn [length]. f_equal. rewrite (drop_S fs f (length done_)) by done. by rewrite Nat.add_1_r.
Qed.
End chunks.

(** ** The exchange about lost chunks *)
Section exchange.
Context `{L : MbufLib} `{E : EthDev} `{HL : !MbufLaws L} `{HE : !EthLaws L E}.
Hypothesis Htakes : card_takes.

(** The polling loop behaves as the one of the pcap backend and leaves the pool alone. *)
Lemma dpdk_poll_equiv raw m l env t st s :
  s !! raw = Some m -> Z.of_nat (size s) < mempool_available ->
  dpdk_poll_updates raw l env t st s
  = '(r, st', env') ← poll_updates (mbuf_frame m) l env t st; Ok (r, st', s, env').
Proof.
  intros Hm Hs. revert t st. induction env as [|action env IH]; intros t st; [done|]. cbn [dpdk_poll_updates poll_updates].
  destruct (store_update l action (sending_store st)) as [store| | |]; [|done|done|done]. rewrite !bind_Ok.
  destruct (store_get l store) as [p| | |]; [|done|done|done]. rewrite !bind_Ok. cbv zeta.
  destruct (updated p); [|done|done]. destruct (t + 1 <? 0xFF); [apply IH|].
  rewrite (dpdk_send_taken raw m), bind_Ok by done. apply IH.
Qed.

Lemma dpdk_request_equiv raw m l env st s :
  s !! raw = Some m -> Z.of_nat (size s) < mempool_available ->
  dpdk_request_lost_packets raw l env st s
  = '(r, st', env') ← request_lost_packets_bitarray (mbuf_frame m) l env st; Ok (r, st', s, env').
Proof.
  intros Hm Hs. unfold dpdk_request_lost_packets. rewrite (dpdk_send_taken raw m), bind_Ok by done. by apply dpdk_poll_equiv.
Qed.

Context (nd : SwiftNetNetworkData) (eth : ether_header) (D : Z) (s0 : Store rte_mbuf).
Hypothesis HD : 0 < D.
Hypothesis Hroom : mbuf_headers + D <= data_room.
Hypothesis Hword : mbuf_headers + D < 2 ^ 16.
Hypothesis Hprepend : prepend_size nd = sizeof_ether_header.
Hypothesis Heth : ether_header_ok eth.
Hypothesis Hhead : mbuf_headers <= RTE_PKTMBUF_HEADROOM.

(** The frames of an exchange: per round the requests and then the first chunks, as
    many as the list has entries. *)
Definition dpdk_exchange_wire (raw : list Z) (fs : list (list Z)) (rounds : list (nat * list Z * list Z)) (final : nat)
    : list (list Z) :=
  concat (map (fun '(n, is_, _) => requests_during raw n ++ take (length is_) fs) rounds) ++ requests_during raw final.

Lemma dpdk_handle_lost_loop_ok raw m b ps fs len l rounds final fuel st s q :
  s0 !! raw = Some m -> sent_inv D s0 b ps fs s -> sending_store st !! l = Some q -> updated q = NO_UPDATE ->
  (forall n is_ block, (n, is_, block) ∈ rounds -> (length is_ <= length fs)%nat
     /\ forall j, j ∈ is_ -> 0 <= j /\ j * D + D < 2 ^ 32) ->
  Z.of_nat (size s0 + length (dpdk_buffers b)) < mempool_available -> (length rounds < fuel)%nat ->
  exists s', dpdk_handle_lost_loop nd fuel raw b len l (env_script rounds final) st s
      = Ok (send_frames (dpdk_exchange_wire (mbuf_frame m) fs rounds final)
              (set_sending (al_remove (sending_packet_id q) (packets_sending st)) (delete l (sending_store st)) st), s')
    /\ sent_inv D s0 b ps fs s'.
Proof.
  intros Hraw. revert fuel st s q. induction rounds as [|[[n is_] block] rounds IH]; intros fuel st s q Hsi Hl Hq Hr Hs Hf;
    (destruct fuel as [|fuel]; [cbn in Hf; lia|]); cbn [dpdk_handle_lost_loop];
    assert (s !! raw = Some m) as Hm by
      (rewrite (bi_rest _ _ _ _ _ (proj1 Hsi)); [done|]; intros Hin; pose proof (bi_fresh _ _ _ _ _ (proj1 Hsi) raw Hin); congruence);
    pose proof (inv_size _ _ _ _ _ (proj1 Hsi)) as Hsz; rewrite (dpdk_request_equiv raw m) by (done || lia).
  - unfold env_script. cbn [map concat app].
    rewrite (request_spec _ _ _ _ _ _ q) by done. rewrite !bind_Ok. cbn [sending_store set_obj send_frames set_sending].
    rewrite decide_False by done. unfold store_free, store_get. rewrite lookup_insert_eq. cbn [of_option].
    rewrite !bind_Ok. exists s. split; [|done]. do 2 f_equal. unfold send_frames, set_obj, set_sending, dpdk_exchange_wire. cbn.
    by rewrite delete_insert_eq.
  - assert (env_script ((n, is_, block) :: rounds) final
      = repeat id n ++ action_lost block is_ :: env_script rounds final) as ->.
    { unfold env_script. cbn [map concat]. by rewrite <- !app_assoc. }
    rewrite (request_spec _ _ _ _ _ _ q) by done. rewrite !bind_Ok. rewrite decide_True by done.
    cbn [sending_store set_obj send_frames set_sending]. unfold store_get. rewrite lookup_insert_eq.
    cbn [of_option]. rewrite bind_Ok. cbn [lost_chunks lost_chunks_size set_updated action_lost]. cbv zeta.
    cbn [default from_option id]. rewrite Nat2Z.id.
    destruct (Hr n is_ block ltac:(left)) as [Hlen Hj].
    match goal with |- context [dpdk_resend_chunks _ _ _ _ _ _ ?st1 _] => set (st' := st1) end.
    destruct (dpdk_resend_chunks_ok nd D s0 HD Hroom Hword Hprepend Hhead Htakes b ps fs len [] is_ block s st' Hsi)
      as (s1 & He & Hsi1); [cbn; lia|done|done|].
    cbn [length index_bytes map concat app] in He. change (Z.of_nat 0) with 0 in He. rewrite He, bind_Ok. clear He.
    destruct (IH fuel (send_frames (slice 0 (length is_) fs) st') s1 (set_updated NO_UPDATE (action_lost block is_ q)) Hsi1)
      as (s2 & He2 & Hsi2).
    + cbn. apply lookup_insert_eq.
    + done.
    + intros n' is' b' Hin. apply (Hr n' is' b'). by right.
    + done.
    + cbn in Hf. lia.
    + exists s2. rewrite He2. split; [|done]. do 2 f_equal. unfold st', send_frames, set_obj, set_sending, dpdk_exchange_wire.
      cbn [packets_sending sending_store requests_sent requests_store wire map concat sending_packet_id set_updated action_lost].
      rewrite delete_insert_eq, <- !app_assoc. unfold slice. rewrite drop_0. done.
Qed.
End exchange.

(** ** A whole send *)
Section whole.
Context `{L : MbufLib} `{E : EthDev} `{HL : !MbufLaws L} `{HE : !EthLaws L E}.
Context (g : Globals) (nd : SwiftNetNetworkData) (eth : ether_header).
Hypothesis Htakes : card_takes.
Hypothesis Hnd : network_ok nd.
Hypothesis Htype : addr_type nd = DLT_EN10MB.
Hypothesis Heth : ether_header_ok eth.
Hypothesis Hhead : mbuf_headers <= RTE_PKTMBUF_HEADROOM.

Lemma ethernet_prepend : prepend_size nd = sizeof_ether_header.
Proof. destruct Hnd as [_ ->]. by rewrite Htype. Qed.

Lemma ethernet_link : link_header nd eth = ether_header_bytes eth.
Proof. unfold link_header. by rewrite Htype. Qed.

(** The message buffer of the request for lost chunks. *)
Lemma dpdk_request_built {B} dst id ports s (k : loc -> Store rte_mbuf -> Outcome B) :
  Z.of_nat (size s) < mempool_available -> mbuf_headers <= data_room ->
  exists l m, s !! l = None /\ mbuf_frame m = lost_request_frame g nd eth dst id ports
    /\ ('(l, s) ← dpdk_packet_construction nd eth (construct_ip_header g dst PACKET_HEADER_SIZE id)
                    (construct_packet_info g 0x00 (packet_type_code SEND_LOST_PACKETS_REQUEST) 1 0 ports)
                    (PACKET_HEADER_SIZE + prepend_size nd) s;
        m ← store_get l s;
        s ← mbuf_checksum l (data_off m + prepend_size nd + sizeof_ip) sizeof_SwiftNetPacketInfo s;
        k l s) = k l (<[l := m]> s).
Proof.
  intros Hs Hroom. assert (mbuf_headers = 58) as Hh by done. pose proof headroom_nonneg as Hh0.
  destruct (alloc_law s Hs) as (l & m0 & Ha & Hl & (Hd0 & Hp0 & Hoff & Hlen)).
  set (h := construct_ip_header g dst PACKET_HEADER_SIZE id).
  set (p := construct_packet_info g 0x00 (packet_type_code SEND_LOST_PACKETS_REQUEST) 1 0 ports).
  set (m1 := mbuf_with_len 58 m0). set (lh := ether_header_bytes eth).
  set (payload := slice (Z.to_nat (RTE_PKTMBUF_HEADROOM + mbuf_headers)) (Z.to_nat 0) (buf_addr m1)).
  assert (payload = []) as Hpay by apply slice_0.
  assert (Z.of_nat (length (buf_addr m1)) = RTE_PKTMBUF_HEADROOM + data_room) as Hlen1 by exact Hlen.
  set (m2 := with_memory (blit (Z.to_nat RTE_PKTMBUF_HEADROOM) (headers lh h (sealed_info p payload)) (buf_addr m1)) m1).
  exists l, m2. split; [done|]. split.
  { unfold mbuf_frame, m2. cbn [with_memory buf_addr data_off data_len mbuf_with_len m1]. rewrite Hoff.
    unfold payload. rewrite (sealed_mbuf_frame eth h p (buf_addr m1) 0 58) by (done || lia). fold payload. rewrite Hpay.
    unfold lost_request_frame. by rewrite ethernet_link. }
  unfold dpdk_packet_construction. rewrite Ha, ethernet_prepend. change (u16 (PACKET_HEADER_SIZE + sizeof_ether_header)) with 58.
  rewrite (append_law l m0 58), bool_decide_true by (apply lookup_insert_eq || lia). cbn [of_option]. rewrite bind_Ok.
  erewrite store_update_ok by apply lookup_insert_eq. rewrite bind_Ok, !insert_insert_eq.
  change (mbuf_with_len 58 (mk_mbuf (buf_addr m0) (data_off m0) (data_len m0 + 58) (pkt_len m0 + 58))) with m1.
  rewrite Htype. change (DLT_EN10MB =? 0) with false. cbv iota.
  pose proof (write_mbuf_headers_ok eth h p l m1 (<[l := m1]> s) 58 Heth) as Hw. unfold write_mbuf_headers in Hw.
  rewrite Hw; [|apply lookup_insert_eq|by repeat split|done]. rewrite !bind_Ok, insert_insert_eq.
  unfold store_get at 1. rewrite lookup_insert_eq. cbn [of_option]. rewrite bind_Ok.
  change (data_off (with_memory _ m1)) with (data_off m0). rewrite Hoff. pose proof (mbuf_checksum_ok eth h p l m1
    (<[l := with_memory (blit (Z.to_nat RTE_PKTMBUF_HEADROOM) (headers lh h p) (buf_addr m1)) m1]> s) (buf_addr m1) 0 Heth) as Hc.
  rewrite Z.add_0_l in Hc. unfold lh in Hc. rewrite Hc; [|apply lookup_insert_eq|lia|lia]. by rewrite bind_Ok, insert_insert_eq.
Qed.

(** Another message buffer in use beside those of the packet. *)
Lemma inv_rest_insert D s0 b ps s l m :
  buffer_inv D s0 b ps s -> s !! l = None -> buffer_inv D (<[l := m]> s0) b ps (<[l := m]> s).
Proof.
  intros Hi Hl. assert (l ∉ dpdk_buffers b) as Hni.
  { intros Hin. destruct (inv_live _ _ _ _ _ _ Hi Hin) as [x Hx]. congruence. }
  destruct Hi as [Ham HDb Htot Hb Hnd' Hm Hsh Hf Hr]. constructor; try done.
  - eapply mbufs_mono, Hm. intros x Hx. apply lookup_insert_ne. by intros ->.
  - intros x Hx. rewrite lookup_insert_ne; [by apply Hf|]. by intros ->.
  - intros x Hx. destruct (decide (x = l)) as [->|Hne]; [by rewrite !lookup_insert_eq|].
    rewrite !lookup_insert_ne by done. by apply Hr.
Qed.

Lemma held_insert s ls fs l (m : rte_mbuf) :
  s !! l = None -> Forall2 (frame_held s) ls fs -> Forall2 (frame_held (<[l := m]> s)) ls fs.
Proof.
  intros Hl Hf. eapply Forall2_impl; [exact Hf|]. intros x f (m' & Hm' & Hfr). exists m'.
  split; [|done]. rewrite lookup_insert_ne; [done|]. intros ->. congruence.
Qed.

(** The frames of the first transmission. *)
Definition dpdk_frames (D dst id ty : Z) (ports : SwiftNetPortInfo) (len : Z) (ps : list (list Z)) : list (list Z) :=
  let mtu := maximum_transmission_unit g in
  frames_from eth (with_ip_len (htons (u16 (mtu + sizeof_ether_header))) (construct_ip_header g dst mtu id))
    (construct_packet_info g len ty (chunk_count D len) 0 ports) 0 ps.

Lemma dpdk_fragmented_send D s0 b full q s ports dst id ty rounds final st :
  maximum_transmission_unit g = D + PACKET_HEADER_SIZE -> 0 < D -> mbuf_headers + D <= data_room -> mbuf_headers + D < 2 ^ 16 ->
  buffer_inv D s0 b (full ++ [q]) s -> (forall r, r ∈ full -> Z.of_nat (length r) = D) -> Z.of_nat (length q) < D ->
  Z.of_nat (size s0 + length (dpdk_buffers b)) + 1 < mempool_available -> al_get id (packets_sending st) = None ->
  let len := total_data_size b in
  let fs := dpdk_frames D dst id ty ports len (full ++ [q]) in
  (forall n is_ block, (n, is_, block) ∈ rounds -> (length is_ <= length fs)%nat
     /\ forall j, j ∈ is_ -> 0 <= j < chunk_count D len) -> 0 < len ->
  exists s' l m, dpdk_send_fragmented g nd eth (maximum_transmission_unit g) ports b len dst id ty (chunk_count D len)
        (env_script rounds final) st s
      = Ok (send_frames (fs ++ dpdk_exchange_wire (lost_request_frame g nd eth dst id ports) fs rounds final) st, s')
    /\ s0 !! l = None /\ buffer_inv D (<[l := m]> s0) b (full ++ [q]) s'.
Proof.
  intros Hmtu HD Hroom Hword Hi Hf Hq Hpool Hget len fs Hr Hlen. assert (mbuf_headers = 58) as Hh by done.
  pose proof ethernet_prepend as Hpre. pose proof (bi_bound _ _ _ _ _ Hi) as Hb.
  pose proof (Forall2_length _ _ _ (bi_mbufs _ _ _ _ _ Hi)) as Hl2. rewrite length_app in Hl2. cbn in Hl2.
  unfold dpdk_send_fragmented. rewrite Hpre. cbn [store_alloc].
  match goal with |- context [dpdk_send_chunks _ _ _ _ _ ?h ?p _ ?st1 _] => set (st' := st1); set (hdr := h); set (info := p) end.
  destruct (dpdk_send_chunks_ok nd eth D s0 HD Hroom Hword Hpre Heth Hhead Htakes b hdr info [] full q s st')
    as (s1 & He & Hi1 & Hfs & _); [done|done|lia|lia|].
  cbn [length app] in He, Hi1, Hfs. rewrite drop_0 in Hfs. change (Z.of_nat 0) with 0 in He, Hfs. fold len in He.
  assert (frames_from eth hdr info 0 (full ++ [q]) = fs) as Heq by done. rewrite Heq in He, Hfs.
  rewrite (bi_amount _ _ _ _ _ Hi), Nat2Z.id, Hl2, Nat.add_1_r, He, bind_Ok, bool_decide_true by lia.
  unfold dpdk_handle_lost_packets.
  rewrite (proj2 (store_get_ok (sending_store (send_frames fs st')) (store_next (sending_store st))
    (mk_packet_sending None NO_UPDATE 50 0 id false))), bind_Ok by apply lookup_insert_eq. cbn [sending_packet_id].
  replace (mk_port_info (destination_port ports) (source_port ports)) with ports by (by destruct ports).
  match goal with |- context [dpdk_handle_lost_loop _ ?fuel _ _ _ ?lq ?env ?st2 _] =>
    destruct (dpdk_request_built dst id ports s1
      (fun l s => dpdk_handle_lost_loop nd fuel l b len lq env st2 s)) as (l & m & Hl & Hfr & Hk) end.
  { rewrite (inv_size _ _ _ _ _ Hi1). lia. }
  { lia. }
  rewrite Hk. set (st2' := send_frames fs st'). set (lsend := store_next (sending_store st)).
  assert (s0 !! l = None) as Hl0.
  { rewrite <- (bi_rest _ _ _ _ _ Hi1); [done|]. intros Hin. destruct (inv_live _ _ _ _ _ _ Hi1 Hin) as [x Hx]. congruence. }
  destruct (dpdk_handle_lost_loop_ok Htakes nd D (<[l := m]> s0) HD Hroom Hword Hpre Hhead l m b (full ++ [q]) fs len lsend
    rounds final (S (length (env_script rounds final))) st2' (<[l := m]> s1) (mk_packet_sending None NO_UPDATE 50 0 id false))
    as (s2 & He2 & Hsi2); try done.
  - apply lookup_insert_eq.
  - split; [by apply inv_rest_insert|by apply held_insert].
  - apply lookup_insert_eq.
  - intros n is_ block Hin. destruct (Hr n is_ block Hin) as [H1 H2]. split; [done|]. intros j Hj. specialize (H2 j Hj).
    pose proof (chunk_count_bounds D len HD Hlen). split; [lia|]. unfold len in *. nia.
  - rewrite map_size_insert_None by done. lia.
  - pose proof (env_script_length rounds final). lia.
  - exists s2, l, m. split; [|split; [done|apply Hsi2]]. rewrite He2, Hfr. do 2 f_equal.
    unfold st2', st', send_frames, set_sending. cbn [packets_sending sending_store requests_sent requests_store wire sending_packet_id].
    rewrite al_remove_insert by done. unfold lsend. rewrite delete_insert_id by apply store_next_fresh.
    rewrite <- app_assoc. by destruct st.
Qed.
End whole.

(** ** The frames as chunks of the data *)
Lemma frames_from_lookup eth h p i ps j :
  frames_from eth h p i ps !! j = (fun q => dpdk_chunk_frame eth h p (i + Z.of_nat j) q) <$> ps !! j.
Proof.
  revert i j. induction ps as [|q ps IH]; intros i [|j]; [done|done| |]; cbn [frames_from].
  - change (Some (dpdk_chunk_frame eth h p i q) = Some (dpdk_chunk_frame eth h p (i + Z.of_nat 0) q)).
    by rewrite Z.add_0_r.
  - change (frames_from eth h p (i + 1) ps !! j = (fun q => dpdk_chunk_frame eth h p (i + Z.of_nat (S j)) q) <$> ps !! j).
    rewrite IH. by replace (i + 1 + Z.of_nat j) with (i + Z.of_nat (S j)) by lia.
Qed.

Lemma length_frames_from eth h p i ps : length (frames_from eth h p i ps) = length ps.
Proof. revert i. induction ps as [|q ps IH]; intros i; [done|]. cbn. by rewrite IH. Qed.

Lemma chunk_payload_full D ps j q :
  0 < D -> chunk_shape D ps -> ps !! j = Some q -> chunk_payload D (concat ps) (Z.of_nat j) = q.
Proof.
  intros HD (full & last & -> & Hf & Hl) Hj. unfold chunk_payload.
  assert (exists before behind, full ++ [last] = before ++ q :: behind /\ length before = j
    /\ (forall r, r ∈ before -> Z.of_nat (length r) = D) /\ Z.of_nat (length q) <= D /\ (Z.of_nat (length q) = D \/ behind = []))
    as (before & behind & -> & Hlen & Hb & Hq & Hlast).
  { destruct (decide (j < length full)%nat) as [Hlt|Hge].
    - rewrite lookup_app_l in Hj by done. exists (take j full), (drop (S j) full ++ [last]).
      assert (Z.of_nat (length q) = D) by (apply Hf; by eapply list_elem_of_lookup_2).
      split; [by rewrite app_comm_cons, app_assoc, take_drop_middle|]. split; [rewrite length_take; lia|].
      split; [|split; [lia|by left]]. intros r Hr. apply Hf. apply elem_of_take in Hr as (i & Hi & _). by eapply list_elem_of_lookup_2.
    - rewrite lookup_app_r in Hj by lia. apply list_lookup_singleton_Some in Hj as [Hz ->].
      exists full, []. split; [done|]. split; [lia|]. split; [done|]. split; [done|by right]. }
  pose proof (length_concat_full D before Hb) as Hcl. rewrite concat_app. cbn [concat].
  rewrite length_app, slice_app_r by lia. rewrite length_app.
  replace (Z.to_nat (Z.of_nat j * D) - length (concat before))%nat with 0%nat by lia.
  assert (Z.min D (Z.of_nat (length (concat before) + (length q + length (concat behind))) - Z.of_nat j * D) = Z.of_nat (length q)) as ->.
  { destruct Hlast as [HqD| ->]; [|cbn; lia]. lia. }
  rewrite Nat2Z.id, slice_app_l by lia. apply slice_full.
Qed.

Lemma frames_are_chunks eth h p D full q :
  0 < D -> (forall r, r ∈ full -> Z.of_nat (length r) = D) -> 0 < Z.of_nat (length q) <= D ->
  let data := concat (full ++ [q]) in
  frames_from eth h p 0 (full ++ [q])
  = map (fun i => dpdk_chunk_frame eth h p i (chunk_payload D data i)) (seqZ 0 (chunk_count D (Z.of_nat (length data)))).
Proof.
  intros HD Hf Hq data.
  assert (chunk_shape D (full ++ [q])) as Hsh by (exists full, q; split; [done|split; [done|lia]]).
  assert (Z.of_nat (length data) = Z.of_nat (length full) * D + Z.of_nat (length q)) as Hlen.
  { unfold data. rewrite concat_app, length_app, Nat2Z.inj_add, (length_concat_full D) by done. cbn. by rewrite app_nil_r. }
  assert (chunk_count D (Z.of_nat (length data)) = Z.of_nat (length full) + 1) as Hn.
  { pose proof (chunk_count_bounds D (Z.of_nat (length data)) HD ltac:(nia)). nia. }
  apply list_eq. intros j. rewrite frames_from_lookup, list_lookup_fmap, Hn.
  destruct (decide (j < S (length full))%nat) as [Hlt|Hge].
  - destruct (lookup_lt_is_Some_2 (full ++ [q]) j) as [r Hr]; [rewrite length_app; cbn; lia|].
    rewrite lookup_seqZ_lt by lia. rewrite Hr.
    change (Some (dpdk_chunk_frame eth h p (0 + Z.of_nat j) r)
      = Some (dpdk_chunk_frame eth h p (0 + Z.of_nat j) (chunk_payload D data (0 + Z.of_nat j)))).
    rewrite Z.add_0_l. unfold data. by rewrite (chunk_payload_full D (full ++ [q]) j r).
  - rewrite !lookup_ge_None_2; [done| |rewrite length_app; cbn; lia]. rewrite length_seqZ. lia.
Qed.

(** The index of a chunk in its frame. *)
Lemma sealed_frame_index eth h p payload :
  ether_header_ok eth -> slice 42 4 (sealed_frame (ether_header_bytes eth) h p payload) = le_bytes 4 (chunk_index p).
Proof.
  intros He. pose proof (length_ether_header_bytes eth He) as Hle. unfold sealed_frame, headers. rewrite <- !app_assoc.
  rewrite slice_app_r, Hle by lia. rewrite slice_app_r, length_ip_bytes by (rewrite length_ip_bytes; lia).
  rewrite slice_app_l by (rewrite length_packet_info_bytes; lia). reflexivity.
Qed.

Lemma chunk_frames_differ eth h p i j q r :
  ether_header_ok eth -> in_word 32 i -> in_word 32 j -> i <> j -> dpdk_chunk_frame eth h p i q <> dpdk_chunk_frame eth h p j r.
Proof.
  intros He Hi Hj Hne Heq. apply (f_equal (slice 42 4)) in Heq. unfold dpdk_chunk_frame in Heq.
  rewrite !sealed_frame_index in Heq by done. cbn [chunk_index with_checksum with_index] in Heq.
  apply (f_equal le_val) in Heq. rewrite !le_val_word in Heq by done. done.
Qed.

(** ** Properties *)

(** Hypotheses on the interface and the pool that the theorems share: Ethernet, a pool
    whose message buffers hold a full frame behind a headroom of at least the headers
    (the default configuration has 128 and 2048 bytes). *)
Definition dpdk_ok `{L : MbufLib} (g : Globals) (nd : SwiftNetNetworkData) (eth : ether_header) : Prop :=
  network_ok nd /\ addr_type nd = DLT_EN10MB /\ ether_header_ok eth /\ mbuf_headers <= RTE_PKTMBUF_HEADROOM
  /\ PACKET_HEADER_SIZE < maximum_transmission_unit g
  /\ maximum_transmission_unit g + sizeof_ether_header <= data_room
  /\ maximum_transmission_unit g + sizeof_ether_header < 2 ^ 16.

(** Where the last message buffer ends. *)
Lemma inv_last_size `{L : MbufLib} D s0 b full q s :
  0 < D -> buffer_inv D s0 b (full ++ [q]) s -> (forall r, r ∈ full -> Z.of_nat (length r) = D) ->
  total_data_size b = Z.of_nat (length full) * D + Z.of_nat (length q).
Proof.
  intros HD Hi Hf. rewrite (bi_total _ _ _ _ _ Hi), concat_app, length_app, Nat2Z.inj_add, (length_concat_full D) by done.
  cbn. by rewrite app_nil_r.
Qed.

(** A packet longer than the transmission unit, on a card that takes every frame. *)
Lemma fragmented_all_taken `{L : MbufLib} `{E : EthDev} `{HL : !MbufLaws L} `{HE : !EthLaws L E}
    g nd eth target_mtu ports b ps s s0 dst (response : bool) rid rnd rounds final st :
  card_takes -> dpdk_ok g nd eth -> maximum_transmission_unit g <= target_mtu ->
  let D := maximum_transmission_unit g - PACKET_HEADER_SIZE in
  buffer_inv D s0 b ps s ->
  let data := buffer_data s b in
  let len := Z.of_nat (length data) in
  maximum_transmission_unit g < len -> len mod D <> 0 ->
  Z.of_nat (size s0 + length (dpdk_buffers b)) + 1 < mempool_available ->
  let id := if response then rid else u16 rnd in
  al_get id (packets_sending st) = None ->
  let n := chunk_count D len in
  (forall k is_ block, (k, is_, block) ∈ rounds -> Z.of_nat (length is_) <= n /\ forall j, j ∈ is_ -> 0 <= j < n) ->
  let hdr := with_ip_len (htons (u16 (maximum_transmission_unit g + sizeof_ether_header)))
               (construct_ip_header g dst (maximum_transmission_unit g) id) in
  let info := construct_packet_info g len (packet_type_code (if response then RESPONSE else MESSAGE)) n 0 ports in
  let frames := map (fun i => dpdk_chunk_frame eth hdr info i (chunk_payload D data i)) (seqZ 0 n) in
  concat (map (fun i => chunk_payload D data (Z.of_nat i)) (seq 0 (Z.to_nat n))) = data
  /\ exists s' l m,
    dpdk_swiftnet_send_packet g nd eth target_mtu ports b len dst None response rid rnd (env_script rounds final) st s
    = Ok (send_frames (frames ++ dpdk_exchange_wire (lost_request_frame g nd eth dst id ports) frames rounds final) st, s')
    /\ buffer_data s' b = data /\ s0 !! l = None /\ destroy_packet_buffer b s' = Ok (<[l := m]> s0).
Proof.
  intros Ht (Hnd & Hty & He & Hhead & Hm1 & Hm2 & Hm3) Htm D Hi data len Hlen Hmod Hpool id Hget n Hr hdr info frames.
  assert (PACKET_HEADER_SIZE = 44) as Hp44 by done. assert (sizeof_ether_header = 14) as He14 by done.
  assert (mbuf_headers = 58) as Hh by done. assert (0 < D) as HD by lia.
  pose proof (inv_data _ _ _ _ _ Hi) as Hdata. fold data in Hdata.
  assert (total_data_size b = len) as Htot by (unfold len; rewrite Hdata; apply Hi).
  destruct (bi_shape _ _ _ _ _ Hi) as (full & q & -> & Hf & Hq).
  pose proof (inv_last_size D s0 b full q s HD Hi Hf) as Hsize. rewrite Htot in Hsize.
  assert (0 < Z.of_nat (length q) < D) as HqD.
  { split.
    - destruct (decide (length q = 0)%nat) as [E0|]; [|lia]. exfalso. apply Hmod. rewrite Hsize, E0, Z.add_0_r. by apply Z_mod_mult.
    - destruct (decide (Z.of_nat (length q) = D)) as [ED|]; [|lia]. exfalso. apply Hmod.
      replace len with ((Z.of_nat (length full) + 1) * D) by lia. by apply Z_mod_mult. }
  split; [apply chunks_concat; [done|unfold len in Hlen; lia]|].
  assert (frames = dpdk_frames g eth D dst id (packet_type_code (if response then RESPONSE else MESSAGE)) ports len (full ++ [q])) as Hfr.
  { unfold dpdk_frames. fold hdr n info. rewrite (frames_are_chunks eth hdr info D full q) by (done || lia).
    unfold frames, n, len. by rewrite Hdata. }
  assert (Z.of_nat (length frames) = n) as Hfl.
  { unfold frames. rewrite length_fmap, length_seqZ. pose proof (chunk_count_pos D len HD ltac:(lia)). lia. }
  destruct (dpdk_fragmented_send g nd eth Ht Hnd Hty He Hhead D s0 b full q s ports dst id
    (packet_type_code (if response then RESPONSE else MESSAGE)) rounds final st) as (s' & l & m & Hsend & Hl & Hi'); try done; try lia.
  { rewrite Htot, <- Hfr. intros k is_ block Hin. destruct (Hr k is_ block Hin) as [H1 H2]. split; [lia|done]. }
  rewrite Htot in Hsend. rewrite <- Hfr in Hsend. exists s', l, m.
  split; [|split; [by rewrite (inv_data _ _ _ _ _ Hi')|split; [done|by eapply destroy_ok]]].
  unfold dpdk_swiftnet_send_packet. rewrite Z.min_r by lia. rewrite bind_Ok.
  rewrite compute_chunk_amount_ok, bind_Ok by (pose proof (bi_bound _ _ _ _ _ Hi); lia).
  rewrite (proj2 (Z.ltb_lt _ _)) by lia. fold id D n. destruct response; exact Hsend.
Qed.

(** C39 Retransmission sends the wrong chunks: the loop over the lost chunks takes the
    message buffer at its own counter instead of the listed index.  After the chunks
    of a packet have been sent, a round with a list of [k] lost chunks transmits the
    frames of chunks [0] to [k - 1], so no chunk of the list with an index from [k] on
    is transmitted, whatever its content, and the buffer still has the same frames for
    the next round. *)
Theorem dpdk_lost_chunk_not_resent `{L : MbufLib} `{E : EthDev} `{HL : !MbufLaws L} `{HE : !EthLaws L E}
    g nd eth b ps s s0 h p len is_ rest st :
  card_takes -> dpdk_ok g nd eth ->
  let D := maximum_transmission_unit g - PACKET_HEADER_SIZE in
  buffer_inv D s0 b ps s -> Z.of_nat (size s0 + length (dpdk_buffers b)) < mempool_available ->
  (length is_ <= length ps)%nat -> (forall j, j ∈ is_ -> 0 <= j < chunk_count D (total_data_size b)) -> 0 < total_data_size b ->
  exists last fs s1 s2,
    dpdk_send_chunks nd eth (length ps) b (total_data_size b) h p 0 st s = Ok (last, send_frames fs st, s1)
    /\ dpdk_resend_chunks nd (length is_) 0 b len (index_bytes is_ ++ rest) (send_frames fs st) s1
       = Ok (send_frames (take (length is_) fs) (send_frames fs st), s2)
    /\ Forall2 (frame_held s2) (dpdk_buffers b) fs
    /\ forall j q, j ∈ is_ -> Z.of_nat (length is_) <= j -> dpdk_chunk_frame eth h p j q ∉ take (length is_) fs.
Proof.
  intros Ht (Hnd & Hty & He & Hhead & Hm1 & Hm2 & Hm3) D Hi Hpool Hlen Hj Htot.
  assert (PACKET_HEADER_SIZE = 44) as Hp44 by done. assert (sizeof_ether_header = 14) as He14 by done.
  assert (mbuf_headers = 58) as Hh by done. assert (0 < D) as HD by lia. pose proof (bi_bound _ _ _ _ _ Hi) as Hb.
  assert (mbuf_headers + D <= data_room) as Hroom by lia. assert (mbuf_headers + D < 2 ^ 16) as Hword by lia.
  pose proof (ethernet_prepend nd Hnd Hty) as Hpre.
  destruct (bi_shape _ _ _ _ _ Hi) as (full & q & -> & Hf & Hq).
  destruct (dpdk_send_chunks_ok nd eth D s0 HD Hroom Hword Hpre He Hhead Ht b h p [] full q s st Hi)
    as (s1 & Hs1 & Hi1 & Hfs & _); [done|done|done|].
  cbn [length app] in Hs1, Hi1, Hfs. rewrite drop_0 in Hfs. change (Z.of_nat 0) with 0 in Hs1, Hfs.
  assert (length (full ++ [q]) = S (length full)) as Hlf by (rewrite length_app; cbn; lia). rewrite Hlf in *.
  set (fs := frames_from eth h p 0 (full ++ [q])) in *.
  assert (length fs = S (length full)) as Hlfs by (unfold fs; by rewrite length_frames_from).
  pose proof (chunk_count_bounds D (total_data_size b) HD Htot) as Hcc.
  destruct (dpdk_resend_chunks_ok nd D s0 HD Hroom Hword Hpre Hhead Ht b (full ++ [q]) fs len [] is_ rest s1
    (send_frames fs st)) as (s2 & Hs2 & Hsi2); [by split|cbn; lia| |done|].
  { intros j Hin. specialize (Hj j Hin). split; [lia|]. nia. }
  cbn [length index_bytes map concat app] in Hs2. change (Z.of_nat 0) with 0 in Hs2. unfold slice in Hs2. rewrite drop_0 in Hs2.
  eexists _, fs, s1, s2. split; [exact Hs1|]. split; [exact Hs2|]. split; [apply Hsi2|].
  intros j r Hin Hge Hel. apply elem_of_take in Hel as (i & Hi' & Hlt). unfold fs in Hi'.
  rewrite frames_from_lookup in Hi'. apply fmap_Some in Hi' as (r' & Hr' & Heq). rewrite Z.add_0_l in Heq.
  specialize (Hj j Hin). assert (j < 2 ^ 32) as Hj32 by nia.
  eapply (chunk_frames_differ eth h p j (Z.of_nat i) r r'); try done; unfold in_word; lia.
Qed.

(** A packet whose length is a multiple of the data per message buffer, in a buffer
    that was resized to it: no iteration of the loop takes the branch of the last
    chunk (the comparison is strict), so [swiftnet_send_packet] returns without asking
    for lost chunks, and the entry of the packet stays in the table of packets being
    sent for good. *)
Theorem dpdk_multiple_never_confirmed `{L : MbufLib} `{E : EthDev} `{HL : !MbufLaws L} `{HE : !EthLaws L E}
    g nd eth target_mtu ports b full q s s0 dst rnd env st :
  card_takes -> dpdk_ok g nd eth -> maximum_transmission_unit g <= target_mtu ->
  let D := maximum_transmission_unit g - PACKET_HEADER_SIZE in
  buffer_inv D s0 b (full ++ [q]) s -> (forall r, r ∈ full ++ [q] -> Z.of_nat (length r) = D) ->
  maximum_transmission_unit g < total_data_size b -> Z.of_nat (size s0 + length (dpdk_buffers b)) < mempool_available ->
  exists l s' frames,
    dpdk_swiftnet_send_packet g nd eth target_mtu ports b (total_data_size b) dst None false 0 rnd env st s
    = Ok (send_frames frames (set_sending (al_insert (u16 rnd) l (packets_sending st))
            (<[l := mk_packet_sending None NO_UPDATE 50 0 (u16 rnd) false]> (sending_store st)) st), s')
    /\ Z.of_nat (length frames) = chunk_count D (total_data_size b) /\ sending_store st !! l = None.
Proof.
  intros Ht (Hnd & Hty & He & Hhead & Hm1 & Hm2 & Hm3) Htm D Hi Hf Hlen Hpool.
  assert (PACKET_HEADER_SIZE = 44) as Hp44 by done. assert (sizeof_ether_header = 14) as He14 by done.
  assert (mbuf_headers = 58) as Hh by done. assert (0 < D) as HD by lia. pose proof (bi_bound _ _ _ _ _ Hi) as Hb.
  assert (mbuf_headers + D <= data_room) as Hroom by lia. assert (mbuf_headers + D < 2 ^ 16) as Hword by lia.
  pose proof (ethernet_prepend nd Hnd Hty) as Hpre. assert (Z.of_nat (length q) = D) as HqD by (apply Hf, elem_of_app; right; left).
  assert (forall r, r ∈ full -> Z.of_nat (length r) = D) as Hf' by (intros r Hr; apply Hf, elem_of_app; by left).
  pose proof (inv_last_size D s0 b full q s HD Hi Hf') as Hsize. unfold dpdk_swiftnet_send_packet. rewrite Z.min_r, bind_Ok by lia.
  rewrite compute_chunk_amount_ok, bind_Ok by lia. rewrite (proj2 (Z.ltb_lt _ (total_data_size b))) by lia. fold D.
  unfold dpdk_send_fragmented. cbn [store_alloc].
  match goal with |- context [dpdk_send_chunks _ _ _ _ _ ?h ?p _ ?st1 _] => set (st' := st1); set (hdr := h); set (info := p) end.
  destruct (dpdk_send_chunks_ok nd eth D s0 HD Hroom Hword Hpre He Hhead Ht b hdr info [] full q s st')
    as (s1 & Hs1 & _ & _ & _); [done|done|lia|done|].
  cbn [length app] in Hs1. change (Z.of_nat 0) with 0 in Hs1.
  pose proof (Forall2_length _ _ _ (bi_mbufs _ _ _ _ _ Hi)) as Hl2. rewrite length_app in Hl2. cbn in Hl2.
  rewrite (bi_amount _ _ _ _ _ Hi), Nat2Z.id, Hl2, Nat.add_1_r, Hs1, bind_Ok, bool_decide_false by lia.
  eexists _, s1, _. split; [reflexivity|]. split; [|apply store_next_fresh].
  rewrite length_frames_from, length_app. cbn. pose proof (chunk_count_bounds D (total_data_size b) HD ltac:(lia)). nia.
Qed.

(** A packet whose length is a multiple of the data per message buffer, in a buffer
    created for it: the creation adds an empty message buffer, which leaves as one more
    frame without data whose index is the announced number of chunks, one past the last
    index the receiver expects. *)
Theorem dpdk_extra_empty_chunk `{L : MbufLib} `{E : EthDev} `{HL : !MbufLaws L} `{HE : !EthLaws L E}
    g nd eth target_mtu ports b full s s0 dst rnd final st :
  card_takes -> dpdk_ok g nd eth -> maximum_transmission_unit g <= target_mtu ->
  let D := maximum_transmission_unit g - PACKET_HEADER_SIZE in
  buffer_inv D s0 b (full ++ [[]]) s -> (forall r, r ∈ full -> Z.of_nat (length r) = D) ->
  let len := total_data_size b in
  maximum_transmission_unit g < len -> Z.of_nat (size s0 + length (dpdk_buffers b)) + 1 < mempool_available ->
  al_get (u16 rnd) (packets_sending st) = None ->
  exists s' frames behind info,
    dpdk_swiftnet_send_packet g nd eth target_mtu ports b len dst None false 0 rnd (env_script [] final) st s
    = Ok (send_frames (frames ++ behind) st, s')
    /\ Z.of_nat (length frames) = chunk_count D len + 1 /\ chunk_amount info = chunk_count D len
    /\ exists h, last frames = Some (sealed_frame (ether_header_bytes eth) h (with_index (chunk_amount info) info) []).
Proof.
  intros Ht (Hnd & Hty & He & Hhead & Hm1 & Hm2 & Hm3) Htm D Hi Hf len Hlen Hpool Hget.
  assert (PACKET_HEADER_SIZE = 44) as Hp44 by done. assert (sizeof_ether_header = 14) as He14 by done.
  assert (mbuf_headers = 58) as Hh by done. assert (0 < D) as HD by lia. pose proof (bi_bound _ _ _ _ _ Hi) as Hb.
  pose proof (inv_last_size D s0 b full [] s HD Hi Hf) as Hsize. cbn in Hsize. fold len in Hsize.
  assert (chunk_count D len = Z.of_nat (length full)) as Hn.
  { pose proof (chunk_count_bounds D len HD ltac:(lia)). nia. }
  set (ty := packet_type_code MESSAGE).
  destruct (dpdk_fragmented_send g nd eth Ht Hnd Hty He Hhead D s0 b full [] s ports dst (u16 rnd) ty [] final st)
    as (s' & l & m & Hsend & _ & _); try done; try lia.
  { intros k is_ block Hin. by apply not_elem_of_nil in Hin. }
  fold len in Hsend. unfold dpdk_swiftnet_send_packet. rewrite Z.min_r, bind_Ok by lia.
  rewrite compute_chunk_amount_ok, bind_Ok by lia. rewrite (proj2 (Z.ltb_lt _ len)) by lia. fold D ty. rewrite Hsend.
  eexists s', _, _, (construct_packet_info g len ty (chunk_count D len) 0 ports). split; [reflexivity|].
  unfold dpdk_frames. rewrite length_frames_from, length_app. cbn [length chunk_amount construct_packet_info].
  split; [lia|]. split; [done|]. eexists.
  rewrite last_lookup, length_frames_from, length_app, frames_from_lookup. cbn [length].
  rewrite lookup_app_r by lia. replace (Init.Nat.pred (length full + 1) - length full)%nat with 0%nat by lia.
  replace (Init.Nat.pred (length full + 1)) with (length full) by lia. rewrite Z.add_0_l, Hn. reflexivity.
Qed.

(** One message buffer: the frame carries the [len] bytes behind its headers, whether
    they are its data or not. *)
Lemma dpdk_send_single_ok `{L : MbufLib} `{E : EthDev} `{HL : !MbufLaws L} `{HE : !EthLaws L E}
    g nd eth ports b q ps s s0 dst id ty len st :
  card_takes -> dpdk_ok g nd eth ->
  let D := maximum_transmission_unit g - PACKET_HEADER_SIZE in
  buffer_inv D s0 b (q :: ps) s -> 0 <= len -> mbuf_headers + len <= data_room -> mbuf_headers + len < 2 ^ 16 ->
  Z.of_nat (size s0 + length (dpdk_buffers b)) < mempool_available ->
  exists l m s', dpdk_buffers b !! 0%nat = Some l /\ s !! l = Some m /\ holds_data q m
    /\ dpdk_send_single g nd eth ports b len dst id ty st s
       = Ok (send_frames [sealed_frame (ether_header_bytes eth) (construct_ip_header g dst (PACKET_HEADER_SIZE + len) id)
               (construct_packet_info g len ty 1 0 ports)
               (slice (Z.to_nat (RTE_PKTMBUF_HEADROOM + mbuf_headers)) (Z.to_nat len) (buf_addr m))] st, s')
    /\ buffer_inv D s0 b (q :: ps) s'.
Proof.
  intros Ht (Hnd & Hty & He & Hhead & Hm1 & Hm2 & Hm3) D Hi Hlen Hroom Hword Hpool.
  pose proof headroom_nonneg as Hh0. assert (PACKET_HEADER_SIZE = 44) as Hp44 by done. assert (sizeof_ether_header = 14) as He14 by done.
  assert (mbuf_headers = 58) as Hh by done. pose proof (ethernet_prepend nd Hnd Hty) as Hpre.
  destruct (mbufs_at _ _ [] q ps (bi_mbufs _ _ _ _ _ Hi)) as (lb & l & la & m & Hls & Hll & Hm & Hhold & Hat).
  pose proof Hhold as [Hsz Hdata]. pose proof Hsz as (Hdl & Hpl & Hoff & Hml).
  set (h := construct_ip_header g dst (PACKET_HEADER_SIZE + len) id). set (p := construct_packet_info g len ty 1 0 ports).
  set (payload := slice (Z.to_nat (RTE_PKTMBUF_HEADROOM + mbuf_headers)) (Z.to_nat len) (buf_addr m)).
  set (m1 := with_memory (blit (Z.to_nat RTE_PKTMBUF_HEADROOM) (headers (ether_header_bytes eth) h (sealed_info p payload)) (buf_addr m)) m).
  exists l, m, (<[l := m1]> s). split; [done|]. split; [done|]. split; [done|].
  assert (buffer_inv D s0 b (q :: ps) (<[l := m1]> s)) as Hi'.
  { apply (inv_update_chunk D s0 b [] q ps s lb l la m1 q Hi Hls Hll); [|done].
    apply holds_data_prefix; [done| |].
    - apply length_blit. rewrite length_headers, (length_ether_header_bytes eth He). lia.
    - intros k. apply blit_headers_keeps; [done|lia]. }
  split; [|done]. unfold dpdk_send_single. rewrite Hpre, (u16_id (_ + _ + len)) by lia.
  replace (sizeof_ether_header + PACKET_HEADER_SIZE + len - sizeof_ether_header) with (PACKET_HEADER_SIZE + len) by lia. fold h p.
  assert (slot_get (dpdk_buffers b) 0 = Ok l) as -> by (change 0 with (Z.of_nat 0); by apply slot_get_ok).
  rewrite bind_Ok, (write_mbuf_headers_ok eth h p l m s _ He Hm Hsz), bind_Ok by lia.
  unfold store_get at 1. rewrite lookup_insert_eq. cbn [of_option]. rewrite bind_Ok.
  change (data_off (with_memory _ m)) with (data_off m). change (data_len (with_memory _ m)) with (data_len m). rewrite Hoff.
  rewrite (mbuf_checksum_ok eth h p l m _ (buf_addr m) len He) by (apply lookup_insert_eq || lia).
  rewrite bind_Ok, insert_insert_eq. fold payload m1.
  assert (forall n, n = mbuf_headers + len -> mbuf_frame (mbuf_with_len n m1) = sealed_frame (ether_header_bytes eth) h p payload) as Hfr.
  { intros n ->. unfold mbuf_frame, m1. cbn [mbuf_with_len with_memory buf_addr data_off data_len]. rewrite Hoff.
    unfold payload. apply sealed_mbuf_frame; try done; lia. }
  assert (forall m', Z.of_nat (size (<[l := m']> s)) < mempool_available) as Hs'.
  { intros m'. rewrite map_size_insert_Some by (by rewrite Hm). rewrite (inv_size _ _ _ _ _ Hi). lia. }
  destruct (Z.eqb_spec (sizeof_ether_header + PACKET_HEADER_SIZE + len) (data_len m)) as [Heq|Hne]; cbn [negb].
  - rewrite (dpdk_send_taken l m1); [|done|apply lookup_insert_eq|apply Hs'].
    rewrite <- (mbuf_with_len_id (data_len m) m1) at 1; [|done|unfold m1; cbn; lia].
    by rewrite Hfr by lia.
  - erewrite store_update_ok by apply lookup_insert_eq. rewrite bind_Ok, insert_insert_eq.
    erewrite dpdk_send_taken; [|done|apply lookup_insert_eq|apply Hs']. rewrite bind_Ok.
    erewrite store_update_ok by apply lookup_insert_eq. rewrite bind_Ok, insert_insert_eq.
    rewrite Hfr by lia. do 3 f_equal. f_equal. unfold mbuf_with_len, m1, with_memory. cbn. f_equal. lia.
Qed.

(** One frame, on a card that takes it. *)
Lemma short_all_taken `{L : MbufLib} `{E : EthDev} `{HL : !MbufLaws L} `{HE : !EthLaws L E}
    g nd eth target_mtu ports b ps s s0 dst (response : bool) rid rnd len env st :
  card_takes -> dpdk_ok g nd eth ->
  let D := maximum_transmission_unit g - PACKET_HEADER_SIZE in
  buffer_inv D s0 b ps s -> PACKET_HEADER_SIZE < Z.min target_mtu (maximum_transmission_unit g) ->
  0 < len <= D -> len <= Z.min target_mtu (maximum_transmission_unit g) -> len <= total_data_size b ->
  Z.of_nat (size s0 + length (dpdk_buffers b)) < mempool_available ->
  let id := if response then rid else u16 rnd in
  exists s', dpdk_swiftnet_send_packet g nd eth target_mtu ports b len dst None response rid rnd env st s
      = Ok (send_frames [sealed_frame (ether_header_bytes eth) (construct_ip_header g dst (PACKET_HEADER_SIZE + len) id)
              (construct_packet_info g len (packet_type_code (if response then RESPONSE else MESSAGE)) 1 0 ports)
              (take (Z.to_nat len) (buffer_data s b))] st, s')
    /\ buffer_data s' b = buffer_data s b /\ destroy_packet_buffer b s' = Ok s0.
Proof.
  intros Ht Hok D Hi Hm Hlen Hle Htot Hpool id. pose proof Hok as (_ & _ & _ & _ & Hm1 & Hm2 & Hm3).
  assert (PACKET_HEADER_SIZE = 44) as Hp44 by done. assert (sizeof_ether_header = 14) as He14 by done.
  assert (mbuf_headers = 58) as Hh by done. pose proof headroom_nonneg as Hh0.
  destruct (shape_lookup D ps 0) as (before & q & behind & Hps & Hb & _ & _ & HqD & Hlast);
    [lia|apply Hi|rewrite <- (bi_total _ _ _ _ _ Hi); lia|].
  rewrite Z.div_0_l in Hb by lia. assert (before = []) as -> by (apply nil_length_inv; lia). cbn in Hps. subst ps.
  assert (len <= Z.of_nat (length q)) as Hlq.
  { destruct Hlast as [HD| ->]; [lia|]. rewrite (bi_total _ _ _ _ _ Hi) in Htot. cbn in Htot. rewrite app_nil_r in Htot. lia. }
  destruct (dpdk_send_single_ok g nd eth ports b q behind s s0 dst id
    (packet_type_code (if response then RESPONSE else MESSAGE)) len st Ht Hok Hi) as (l & m & s' & _ & _ & Hhold & Hs & Hi'); try lia.
  exists s'. rewrite (inv_data _ _ _ _ _ Hi), (inv_data _ _ _ _ _ Hi'). split; [|split; [done|by eapply destroy_ok]].
  unfold dpdk_swiftnet_send_packet. rewrite bind_Ok. rewrite compute_chunk_amount_ok, bind_Ok by lia.
  rewrite (proj2 (Z.ltb_ge _ _)) by lia. fold id.
  replace (take (Z.to_nat len) (concat (q :: behind)))
    with (slice (Z.to_nat (RTE_PKTMBUF_HEADROOM + mbuf_headers)) (Z.to_nat len) (buf_addr m)); [destruct response; exact Hs|].
  cbn [concat]. rewrite take_app_le by lia. destruct Hhold as [(Hdl & _ & Hoff & _) <-]. unfold mbuf_data.
  rewrite Hoff. unfold slice. rewrite take_take. f_equal. lia.
Qed.

(** Messages between one message buffer and the transmission unit: a message longer
    than the data of a message buffer that still fits the transmission unit takes the
    branch for one frame.  The frame carries the data of the first message buffer
    followed by the unused bytes behind it in that message buffer: the rest of the
    message, in the second message buffer, is not sent. *)
Theorem dpdk_gap_message_garbled `{L : MbufLib} `{E : EthDev} `{HL : !MbufLaws L} `{HE : !EthLaws L E}
    g nd eth target_mtu ports b ps s s0 dst (response : bool) rid rnd env st :
  card_takes -> dpdk_ok g nd eth ->
  let D := maximum_transmission_unit g - PACKET_HEADER_SIZE in
  buffer_inv D s0 b ps s ->
  let len := total_data_size b in
  D < len <= Z.min target_mtu (maximum_transmission_unit g) -> mbuf_headers + len <= data_room -> mbuf_headers + len < 2 ^ 16 ->
  PACKET_HEADER_SIZE < target_mtu -> Z.of_nat (size s0 + length (dpdk_buffers b)) < mempool_available ->
  let id := if response then rid else u16 rnd in
  exists s' l m, dpdk_buffers b !! 0%nat = Some l /\ s !! l = Some m
    /\ dpdk_swiftnet_send_packet g nd eth target_mtu ports b len dst None response rid rnd env st s
      = Ok (send_frames [sealed_frame (ether_header_bytes eth) (construct_ip_header g dst (PACKET_HEADER_SIZE + len) id)
              (construct_packet_info g len (packet_type_code (if response then RESPONSE else MESSAGE)) 1 0 ports)
              (take (Z.to_nat D) (buffer_data s b)
               ++ slice (Z.to_nat (data_off m + data_len m)) (Z.to_nat (len - D)) (buf_addr m))] st, s').
Proof.
  intros Ht Hok D Hi len Hlen Hroom Hword Htm Hpool id. pose proof Hok as (_ & _ & _ & _ & Hm1 & Hm2 & Hm3).
  assert (PACKET_HEADER_SIZE = 44) as Hp44 by done. assert (sizeof_ether_header = 14) as He14 by done.
  assert (mbuf_headers = 58) as Hh by done. pose proof headroom_nonneg as Hh0.
  destruct (shape_lookup D ps 0) as (before & q & behind & Hps & Hb & _ & _ & HqD & Hlast);
    [lia|apply Hi|rewrite <- (bi_total _ _ _ _ _ Hi); lia|].
  rewrite Z.div_0_l in Hb by lia. assert (before = []) as -> by (apply nil_length_inv; lia). cbn in Hps. subst ps.
  assert (Z.of_nat (length q) = D) as HqD'.
  { destruct Hlast as [HD| ->]; [lia|]. pose proof (bi_total _ _ _ _ _ Hi) as Htot. cbn in Htot. rewrite app_nil_r in Htot. lia. }
  destruct (dpdk_send_single_ok g nd eth ports b q behind s s0 dst id
    (packet_type_code (if response then RESPONSE else MESSAGE)) len st Ht Hok Hi) as (l & m & s' & Hat & Hm & Hhold & Hs & Hi'); try lia.
  exists s', l, m. split; [done|]. split; [done|]. rewrite (inv_data _ _ _ _ _ Hi).
  unfold dpdk_swiftnet_send_packet. rewrite bind_Ok. rewrite compute_chunk_amount_ok, bind_Ok by lia.
  rewrite (proj2 (Z.ltb_ge _ _)) by lia. fold id.
  replace (take (Z.to_nat D) (concat (q :: behind)) ++ slice (Z.to_nat (data_off m + data_len m)) (Z.to_nat (len - D)) (buf_addr m))
    with (slice (Z.to_nat (RTE_PKTMBUF_HEADROOM + mbuf_headers)) (Z.to_nat len) (buf_addr m)); [destruct response; exact Hs|].
  destruct Hhold as [(Hdl & _ & Hoff & Hml) Hq]. cbn [concat]. rewrite take_app_le, take_ge by lia.
  replace (Z.to_nat len) with (length q + Z.to_nat (len - D))%nat by lia. rewrite slice_split by lia. f_equal.
  - rewrite <- Hq at 2. unfold mbuf_data. rewrite Hoff, Hdl. f_equal. lia.
  - f_equal. rewrite Hoff, Hdl. lia.
Qed.

(** ** A card, and concrete runs *)
#[local] Instance card_lib : EthDev := {|
  rte_pktmbuf_clone l s := m ← s !! l; Some (store_next s, <[store_next s := m]> s);
  rte_eth_tx_burst c s := (1, delete c s)
|}.

Lemma card_laws `{L : MbufLib} : EthLaws L card_lib.
Proof.
  constructor.
  - intros l m s Hm _. exists (store_next s), m. cbn. rewrite Hm. split; [done|]. split; [apply store_next_fresh|done].
  - intros c m s _. by left.
Qed.

Lemma card_lib_takes : card_takes (E := card_lib).
Proof. by intros c m s Hm. Qed.

(** A buffer filled with [data]. *)
Definition filled_buffer `{MbufLib} (g : Globals) (data : list Z) : Outcome (SwiftNetPacketBuffer * Store rte_mbuf) :=
  '(b, s) ← create_packet_buffer g true (Z.of_nat (length data)) nd_ethernet ∅;
  swiftnet_append_to_buffer g true (Some data) (Z.of_nat (length data)) b s.

Lemma filled_buffer_inv `{L : MbufLib} `{HL : !MbufLaws L} g D data :
  0 < D -> maximum_transmission_unit g = D + PACKET_HEADER_SIZE -> mbuf_headers + D <= data_room -> mbuf_headers + D < 2 ^ 16 ->
  0 < Z.of_nat (length data) <= 2 ^ 32 - 2 ^ 16 -> Z.of_nat (length data) / D + 1 <= mempool_available ->
  exists b ps s, filled_buffer g data = Ok (b, s) /\ buffer_inv D ∅ b ps s /\ concat ps = data.
Proof.
  intros HD Hmtu Hroom Hword Hlen Hpool.
  destruct (create_inv g nd_ethernet D HD Hmtu Hroom Hword eq_refl (Z.of_nat (length data)) ∅) as (b & ps & s & Hc & Hi & Ht & Ha);
    [lia|rewrite map_size_empty; lia|].
  destruct (write_inv g D HD Hmtu Hroom Hword ∅ b ps s 0 data Hi) as (s' & ps' & Hw & Hi' & Hd); [lia|lia|].
  unfold filled_buffer. rewrite Hc, bind_Ok. unfold swiftnet_append_to_buffer, validate_append_to_packet_args.
  rewrite (proj2 (Z.eqb_neq (Z.of_nat (length data)) 0)), bind_Ok, Ha, Hw, bind_Ok by lia.
  eexists _, ps', s'. split; [reflexivity|]. split; [by destruct Hi'; constructor|]. rewrite Hd.
  pose proof (bi_total _ _ _ _ _ Hi) as Htot. unfold blit. rewrite drop_ge by lia. cbn. by rewrite app_nil_r.
Qed.

#[local] Instance small_pool : MbufLib := pool_lib 32 128 2048.
#[local] Instance small_pool_laws : MbufLaws small_pool := pool_laws 32 128 2048.
#[local] Instance small_card_laws : EthLaws small_pool card_lib := card_laws.

Lemma small_dpdk_ok : dpdk_ok g_small nd_ethernet eth0.
Proof. repeat split; try done; [by right|apply eth0_ok..]. Qed.

Lemma small_buffer data :
  (0 < length data <= 89)%nat ->
  exists b ps s, filled_buffer g_small data = Ok (b, s) /\ buffer_inv 6 ∅ b ps s /\ concat ps = data
    /\ buffer_data s b = data /\ (length (dpdk_buffers b) <= 15)%nat /\ total_data_size b = Z.of_nat (length data).
Proof.
  intros Hl. destruct (filled_buffer_inv g_small 6 data) as (b & ps & s & Hf & Hi & Hd); try done; try lia.
  { cbn. dlia. }
  exists b, ps, s. split; [done|]. split; [done|]. split; [done|]. split; [by rewrite (inv_data _ _ _ _ _ Hi)|].
  split; [|by rewrite (bi_total _ _ _ _ _ Hi), Hd].
  destruct (shape_length 6 ps ltac:(lia) (bi_shape _ _ _ _ _ Hi)) as (full & q & -> & _ & _ & Hlen & Hlp).
  rewrite (Forall2_length _ _ _ (bi_mbufs _ _ _ _ _ Hi)). rewrite Hd in Hlen. lia.
Qed.

Lemma dpdk_lost_chunk_not_resent_witness :
  exists b s last fs s1 s2, filled_buffer g_small (seqZ 0 56) = Ok (b, s)
    /\ dpdk_send_chunks nd_ethernet eth0 10 b 56 (construct_ip_header g_small 1 50 7)
         (construct_packet_info g_small 56 1 10 0 (mk_port_info 1 2)) 0 st0 s = Ok (last, send_frames fs st0, s1)
    /\ dpdk_resend_chunks nd_ethernet 1 0 b 56 (index_bytes [5] ++ []) (send_frames fs st0) s1
       = Ok (send_frames (take 1 fs) (send_frames fs st0), s2)
    /\ forall q, dpdk_chunk_frame eth0 (construct_ip_header g_small 1 50 7)
         (construct_packet_info g_small 56 1 10 0 (mk_port_info 1 2)) 5 q ∉ take 1 fs.
Proof.
  destruct (small_buffer (seqZ 0 56)) as (b & ps & s & Hf & Hi & Hc & Hd & Hls & Ht); [vm_compute; lia|].
  destruct (shape_length 6 ps ltac:(lia) (bi_shape _ _ _ _ _ Hi)) as (full & q & Hps & _ & Hq & Hlen & Hlp).
  rewrite Hc in Hlen. change (Z.of_nat (length (seqZ 0 56))) with 56 in *.
  assert (length ps = 10%nat) as Hl10 by lia.
  destruct (dpdk_lost_chunk_not_resent g_small nd_ethernet eth0 b ps s ∅ (construct_ip_header g_small 1 50 7)
    (construct_packet_info g_small 56 1 10 0 (mk_port_info 1 2)) 56 [5] [] st0 card_lib_takes small_dpdk_ok)
    as (last & fs & s1 & s2 & H1 & H2 & _ & H3).
  - exact Hi.
  - rewrite map_size_empty. cbn. lia.
  - cbn. lia.
  - intros j Hj. apply list_elem_of_singleton in Hj as ->. rewrite Ht. vm_compute. split; congruence.
  - rewrite Ht. lia.
  - rewrite Hl10, Ht in H1. exists b, s, last, fs, s1, s2. split; [done|]. split; [exact H1|]. split; [exact H2|].
    intros r. apply (H3 5 r); [left|cbn; lia].
Defined.

Lemma dpdk_gap_message_garbled_witness :
  exists b s s' frame, filled_buffer g_small [1; 2; 3; 4; 5; 6; 7; 8] = Ok (b, s)
    /\ dpdk_swiftnet_send_packet g_small nd_ethernet eth0 1500 (mk_port_info 8080 4000) b 8 1 None false 0 7 [] st0 s
       = Ok (send_frames [frame] st0, s')
    /\ take 6 (drop 58 frame) = [1; 2; 3; 4; 5; 6].
Proof.
  destruct (small_buffer [1; 2; 3; 4; 5; 6; 7; 8]) as (b & ps & s & Hf & Hi & Hc & Hd & Hls & Ht); [cbn; lia|].
  change (Z.of_nat (length [1; 2; 3; 4; 5; 6; 7; 8])) with 8 in Ht.
  destruct (dpdk_gap_message_garbled g_small nd_ethernet eth0 1500 (mk_port_info 8080 4000) b ps s ∅ 1 false 0 7 [] st0
    card_lib_takes small_dpdk_ok Hi) as (s' & l & m & _ & _ & Hs); rewrite ?Ht.
  - split; [reflexivity|discriminate].
  - discriminate.
  - reflexivity.
  - reflexivity.
  - rewrite map_size_empty. cbn. lia.
  - rewrite Hd, Ht in Hs. eexists b, s, s', _. split; [done|]. split; [exact Hs|reflexivity].
Defined.

(** A buffer of 54 bytes, nine message buffers, created and resized. *)
Lemma resized_multiple :
  exists b full q s, ('(b, s) ← create_packet_buffer g_small true 50 nd_ethernet ∅; run_ops g_small nd_ethernet true [BufResize 54] b s) = Ok (b, s)
    /\ buffer_inv 6 ∅ b (full ++ [q]) s /\ (forall r, r ∈ full ++ [q] -> Z.of_nat (length r) = 6)
    /\ total_data_size b = 54 /\ length (dpdk_buffers b) = 9%nat.
Proof.
  assert (0 < 6) as H6 by lia. assert (mbuf_headers + 6 <= data_room) as Hroom by done.
  assert (mbuf_headers + 6 < 2 ^ 16) as Hword by done. assert (60 <= 2 ^ 32 - 2 ^ 16) as H60 by lia.
  assert (Z.of_nat (size (∅ : Store rte_mbuf)) + 60 / 6 + 1 <= mempool_available) as Hpool by done.
  destruct (create_inv g_small nd_ethernet 6 H6 eq_refl Hroom Hword eq_refl 50 ∅) as (b & ps & s & Hc & Hi & Ht & Ha);
    [lia|done|].
  destruct (run_ops_inv g_small nd_ethernet 6 60 ∅ true H6 eq_refl Hroom Hword eq_refl H60 Hpool
    [BufResize 54] b ps s Hi) as (b' & ps' & s' & Hr & Hi' & _); [lia|rewrite Ht, Ha; cbn; lia|].
  assert (match ('(b, s) ← create_packet_buffer g_small true 50 nd_ethernet ∅; run_ops g_small nd_ethernet true [BufResize 54] b s) with
          | Ok (b, s) => length (dpdk_buffers b) = 9%nat /\ total_data_size b = 54 | _ => False end) as Hrun by (vm_compute; split; reflexivity).
  rewrite Hc, bind_Ok, Hr in Hrun. destruct Hrun as [Hlen Htot].
  destruct (shape_length 6 ps' ltac:(lia) (bi_shape _ _ _ _ _ Hi')) as (full & q & -> & Hf & Hq & Hl & Hlp).
  rewrite <- (Forall2_length _ _ _ (bi_mbufs _ _ _ _ _ Hi')), Hlen in Hlp.
  rewrite <- (bi_total _ _ _ _ _ Hi'), Htot in Hl.
  exists b', full, q, s'. rewrite Hc, bind_Ok. split; [exact Hr|]. split; [exact Hi'|]. split; [|by split].
  intros r [Hr'| ->%list_elem_of_singleton]%elem_of_app; [by apply Hf|lia].
Qed.

Lemma dpdk_multiple_never_confirmed_witness :
  exists b s l s' frames,
    dpdk_swiftnet_send_packet g_small nd_ethernet eth0 1500 (mk_port_info 8080 4000) b 54 1 None false 0 7 [] st0 s
    = Ok (send_frames frames (set_sending [(7, l)] {[ l := mk_packet_sending None NO_UPDATE 50 0 7 false ]} st0), s')
    /\ length frames = 9%nat.
Proof.
  destruct resized_multiple as (b & full & q & s & _ & Hi & Hf & Ht & Hlen).
  destruct (dpdk_multiple_never_confirmed g_small nd_ethernet eth0 1500 (mk_port_info 8080 4000) b full q s ∅ 1 7 [] st0
    card_lib_takes small_dpdk_ok) as (l & s' & frames & Hs & Hn & _).
  - discriminate.
  - exact Hi.
  - exact Hf.
  - rewrite Ht. reflexivity.
  - rewrite map_size_empty, Hlen. reflexivity.
  - rewrite Ht in Hs, Hn. exists b, s, l, s', frames. split; [exact Hs|]. change (chunk_count _ 54) with 9 in Hn. lia.
Defined.

Lemma dpdk_extra_empty_chunk_witness :
  exists b s s' frames behind info,
    filled_buffer g_small (seqZ 0 54) = Ok (b, s)
    /\ dpdk_swiftnet_send_packet g_small nd_ethernet eth0 1500 (mk_port_info 8080 4000) b 54 1 None false 0 7
         (env_script [] 0) st0 s = Ok (send_frames (frames ++ behind) st0, s')
    /\ length frames = 10%nat /\ chunk_amount info = 9
    /\ exists h, last frames = Some (sealed_frame (ether_header_bytes eth0) h (with_index 9 info) []).
Proof.
  destruct (small_buffer (seqZ 0 54)) as (b & ps & s & Hf & Hi & Hc & Hd & Hls & Ht); [vm_compute; lia|].
  change (Z.of_nat (length (seqZ 0 54))) with 54 in Ht.
  assert (match filled_buffer g_small (seqZ 0 54) with Ok (b, s) => length (dpdk_buffers b) = 10%nat | _ => False end) as Hrun
    by (vm_compute; reflexivity).
  rewrite Hf in Hrun.
  destruct (shape_length 6 ps ltac:(lia) (bi_shape _ _ _ _ _ Hi)) as (full & q & -> & Hfull & Hq & Hl & Hlp).
  rewrite <- (Forall2_length _ _ _ (bi_mbufs _ _ _ _ _ Hi)), Hrun in Hlp.
  rewrite <- (bi_total _ _ _ _ _ Hi), Ht in Hl. assert (q = []) as -> by (apply nil_length_inv; lia).
  destruct (dpdk_extra_empty_chunk g_small nd_ethernet eth0 1500 (mk_port_info 8080 4000) b full s ∅ 1 7 0 st0
    card_lib_takes small_dpdk_ok) as (s' & frames & behind & info & Hs & Hn & Hamt & h & Hlast).
  - discriminate.
  - exact Hi.
  - exact Hfull.
  - rewrite Ht. reflexivity.
  - rewrite map_size_empty, Hrun. reflexivity.
  - reflexivity.
  - rewrite Ht in Hs, Hn, Hamt. change (chunk_count _ 54) with 9 in Hn, Hamt. rewrite Hamt in Hlast.
    exists b, s, s', frames, behind, info. split; [exact Hf|]. split; [exact Hs|]. split; [lia|]. split; [exact Hamt|]. by exists h.
Defined.
