(* ===== verification/DpdkCard.v ===== *)
(** * Sending with the DPDK backend on any network card

    [rte_eth_tx_burst] may refuse a frame; [swiftnet_dpdk_send] then drops it.  A run of the
    sending code is compared with the run on a card that takes every frame ([perfect]): the
    sender goes through the same steps, with the same message buffers, and puts a part of
    the same frames on the wire.  The theorems on sending hold for every card. *)

From S2P Require Import Prelude Store Crc32 Wire Frames SendPacket DpdkBuffer DpdkSend.

(** ** Simulation of outcomes *)
Definition osim {A B} (R : A -> B -> Prop) (o : Outcome A) (o' : Outcome B) : Prop :=
  forall b, o' = Ok b -> exists a, o = Ok a /\ R a b.

Lemma osim_ok {A B} (R : A -> B -> Prop) a b : R a b -> osim R (Ok a) (Ok b).
Proof. intros H b' [= <-]. by exists a. Qed.

Lemma osim_bind {A B A' B'} (R : A -> B -> Prop) (S : A' -> B' -> Prop) o o' k k' :
  osim R o o' -> (forall a b, R a b -> osim S (k a) (k' b)) -> osim S (o ≫= k) (o' ≫= k').
Proof. intros Ho Hk c (b & Hb & Hc)%bind_ok. destruct (Ho b Hb) as (a & -> & HR). rewrite bind_Ok. by apply (Hk a b HR). Qed.

Lemma osim_same {A A' B'} (S : A' -> B' -> Prop) (o : Outcome A) k k' :
  (forall a, osim S (k a) (k' a)) -> osim S (o ≫= k) (o ≫= k').
Proof. intros Hk c (b & -> & Hc)%bind_ok. rewrite bind_Ok. by apply Hk. Qed.

(** A step that both runs take. *)
Ltac both := apply osim_same; intros ?.

(** ** The card *)
Definition perfect (E : EthDev) : EthDev := {|
  rte_pktmbuf_clone := rte_pktmbuf_clone;
  rte_eth_tx_burst c s := (1, delete c s)
|}.

Section simulation.
Context {L : MbufLib} {E : EthDev} {HL : MbufLaws L} {HE : EthLaws L E}.

#[local] Instance perfect_laws : EthLaws L (perfect E).
Proof. constructor; [exact (clone_law (E := E))|]. intros c m s _. by left. Qed.

Lemma perfect_takes : card_takes (E := perfect E).
Proof. by intros c m s _. Qed.

(** The sender's memory and the frames on the wire since [w]: a part of those of the
    perfect card, all of them if the card takes all. *)
Definition fewer (w : list (list Z)) (st st' : SendState) : Prop :=
  packets_sending st = packets_sending st' /\ sending_store st = sending_store st'
  /\ requests_sent st = requests_sent st' /\ requests_store st = requests_store st'
  /\ exists ws ws', wire st = w ++ ws /\ wire st' = w ++ ws' /\ ws `sublist_of` ws' /\ (card_takes (E := E) -> ws = ws').

Definition fewer_s (w : list (list Z)) (x y : SendState * Store rte_mbuf) : Prop := fewer w x.1 y.1 /\ x.2 = y.2.

Lemma fewer_refl st : fewer (wire st) st st.
Proof. split_and!; try done. exists [], []. by rewrite app_nil_r. Qed.

Lemma fewer_sending w st st' t store : fewer w st st' -> fewer w (set_sending t store st) (set_sending t store st').
Proof. intros (_ & _ & H3 & H4 & H5). by split_and!. Qed.

Lemma send_sim w l st st' s :
  fewer w st st' -> osim (fewer_s w) (swiftnet_dpdk_send l st s) (swiftnet_dpdk_send (H0 := perfect E) l st' s).
Proof.
  intros Hf. unfold swiftnet_dpdk_send. both. apply osim_same. intros [c s1].
  intros [st1' s1'] (m & Hm & H)%bind_ok. rewrite Hm, bind_Ok. cbn in H. apply Ok_inj in H as [= <- <-].
  apply store_get_ok in Hm. destruct Hf as (H1 & H2 & H3 & H4 & ws & ws' & H5 & H6 & H7 & H8).
  assert (forall b : bool, (card_takes (E := E) -> b = true) ->
    fewer w (if b then SWIFTNET_SEND_PACKET (mbuf_frame m) st else st) (SWIFTNET_SEND_PACKET (mbuf_frame m) st')) as Hfew.
  { intros [] Hb; split_and!; cbn; try done.
    - exists (ws ++ [mbuf_frame m]), (ws' ++ [mbuf_frame m]). rewrite H5, H6, !app_assoc.
      split_and!; [done..|by apply sublist_app|]. intros Ht. by rewrite H8.
    - exists ws, (ws' ++ [mbuf_frame m]). rewrite H6, app_assoc.
      split_and!; [done..|by apply sublist_inserts_r|]. intros Ht. by specialize (Hb Ht). }
  destruct (tx_law c m s1 Hm) as [Htx|Htx]; rewrite Htx; cbn.
  - eexists. split; [reflexivity|]. split; [by apply (Hfew true)|done].
  - unfold mbuf_free. rewrite (proj2 (store_get_ok _ _ _) Hm), !bind_Ok, (free_law c m) by done.
    eexists. split; [reflexivity|]. split; [apply (Hfew false)|done]. intros Ht. rewrite (Ht c m s1 Hm) in Htx. discriminate.
Qed.

#[local] Abbreviation ideal := (perfect E).

Definition fewer_poll (w : list (list Z))
    (x y : RequestLostPacketsReturnType * SendState * Store rte_mbuf * list (SwiftNetPacketSending -> SwiftNetPacketSending)) : Prop :=
  x.1.1.1 = y.1.1.1 /\ fewer w x.1.1.2 y.1.1.2 /\ x.1.2 = y.1.2 /\ x.2 = y.2.

Lemma poll_sim w raw ls env : forall i st st' s,
  fewer w st st' -> osim (fewer_poll w) (dpdk_poll_updates raw ls env i st s) (dpdk_poll_updates (H0 := ideal) raw ls env i st' s).
Proof.
  induction env as [|action env IH]; intros i st st' s Hf; cbn [dpdk_poll_updates]; [by intros b Hb|].
  pose proof Hf as (H1 & H2 & _). rewrite H1, H2. both. both.
  match goal with |- context [updated ?p] => destruct (updated p) end.
  - destruct (_ <? _); [by apply IH, fewer_sending|]. eapply osim_bind; [by apply send_sim, fewer_sending|].
    intros [st1 s1] [st1' s1'] [Hf1 Hs]. cbn in Hs. subst s1'. by apply IH.
  - apply osim_ok. split; [done|]. split; [by apply fewer_sending|done].
  - apply osim_ok. split; [done|]. split; [by apply fewer_sending|done].
Qed.

Context (g : Globals) (nd : SwiftNetNetworkData) (eth : ether_header).

Lemma resend_chunk_sim w b len i j st st' s :
  fewer w st st' -> osim (fewer_s w) (dpdk_resend_chunk nd b len i j st s) (dpdk_resend_chunk (H0 := ideal) nd b len i j st' s).
Proof.
  intros Hf. unfold dpdk_resend_chunk. both. both. both. destruct (_ && _).
  - both. both. both. eapply osim_bind; [by apply send_sim|]. intros [st1 s1] [st1' s1'] [Hf1 Hs]. cbn in Hs. subst s1'.
    both. by apply osim_ok.
  - both. by apply send_sim.
Qed.

Lemma resend_chunks_sim w n b len lost : forall i st st' s,
  fewer w st st' -> osim (fewer_s w) (dpdk_resend_chunks nd n i b len lost st s) (dpdk_resend_chunks (H0 := ideal) nd n i b len lost st' s).
Proof.
  induction n as [|n IH]; intros i st st' s Hf; cbn [dpdk_resend_chunks]; [by apply osim_ok|]. both.
  eapply osim_bind; [by apply resend_chunk_sim|]. intros [st1 s1] [st1' s1'] [Hf1 Hs]. cbn in Hs. subst s1'. by apply IH.
Qed.

Lemma lost_loop_sim w fuel raw b len ls : forall env st st' s,
  fewer w st st' -> osim (fewer_s w) (dpdk_handle_lost_loop nd fuel raw b len ls env st s)
                      (dpdk_handle_lost_loop (H0 := ideal) nd fuel raw b len ls env st' s).
Proof.
  induction fuel as [|fuel IH]; intros env st st' s Hf; cbn [dpdk_handle_lost_loop]; [by intros x Hx|].
  eapply osim_bind with (R := fewer_poll w).
  { unfold dpdk_request_lost_packets. eapply osim_bind; [by apply send_sim|]. intros [st1 s1] [st1' s1'] [Hf1 Hs]. cbn in Hs. subst s1'. by apply poll_sim. }
  intros [[[re st1] s1] env1] [[[re' st1'] s1'] env1'] (Hre & Hf1 & Hs & He). cbn in Hre, Hf1, Hs, He. subst re' s1' env1'.
  pose proof Hf1 as (H1 & H2 & _). rewrite H1, H2. both. destruct re.
  - eapply osim_bind; [by apply resend_chunks_sim|]. intros [st2 s2] [st2' s2'] [Hf2 Hs2]. cbn in Hs2. subst s2'. by apply IH.
  - both. apply osim_ok. split; [by apply fewer_sending|done].
Qed.

Definition fewer_b (w : list (list Z)) (x y : bool * SendState * Store rte_mbuf) : Prop :=
  x.1.1 = y.1.1 /\ fewer w x.1.2 y.1.2 /\ x.2 = y.2.

Lemma send_chunk_sim w b len h p i st st' s :
  fewer w st st' -> osim (fewer_b w) (dpdk_send_chunk nd eth b len h p i st s) (dpdk_send_chunk (H0 := ideal) nd eth b len h p i st' s).
Proof.
  intros Hf. unfold dpdk_send_chunk. both. both. both. destruct (_ <? _).
  - both. both. both. eapply osim_bind; [by apply send_sim|]. intros [st1 s1] [st1' s1'] [Hf1 Hs]. cbn in Hs. subst s1'.
    both. by apply osim_ok.
  - both. eapply osim_bind; [by apply send_sim|]. intros [st1 s1] [st1' s1'] [Hf1 Hs]. cbn in Hs. subst s1'. by apply osim_ok.
Qed.

Lemma send_chunks_sim w n b len h p : forall i st st' s,
  fewer w st st' -> osim (fewer_b w) (dpdk_send_chunks nd eth n b len h p i st s) (dpdk_send_chunks (H0 := ideal) nd eth n b len h p i st' s).
Proof.
  induction n as [|n IH]; intros i st st' s Hf; cbn [dpdk_send_chunks]; [by apply osim_ok|].
  eapply osim_bind; [by apply send_chunk_sim|]. intros [[la st1] s1] [[la' st1'] s1'] (Hl & Hf1 & Hs). cbn in Hl, Hf1, Hs. subst la' s1'.
  destruct la; [by apply osim_ok|by apply IH].
Qed.

Lemma send_packet_sim tm ports b len dst (response : bool) rid rnd env st s :
  osim (fewer_s (wire st)) (dpdk_swiftnet_send_packet g nd eth tm ports b len dst None response rid rnd env st s)
    (dpdk_swiftnet_send_packet (H0 := ideal) g nd eth tm ports b len dst None response rid rnd env st s).
Proof.
  pose proof (fewer_refl st) as Hf. unfold dpdk_swiftnet_send_packet. rewrite !bind_Ok. both. destruct (_ <? _).
  - unfold dpdk_send_fragmented. cbn [store_alloc]. eapply osim_bind; [by apply send_chunks_sim, fewer_sending|].
    intros [[la st1] s1] [[la' st1'] s1'] (Hl & Hf1 & Hs). cbn in Hl, Hf1, Hs. subst la' s1'. destruct la; [|by apply osim_ok].
    unfold dpdk_handle_lost_packets. pose proof Hf1 as (_ & H2 & _). rewrite H2. both. apply osim_same. intros [rb s2]. both. both.
    by apply lost_loop_sim.
  - unfold dpdk_send_single. both. both. both. both. destruct (negb _); [|by apply send_sim].
    both. eapply osim_bind; [by apply send_sim|]. intros [st1 s1] [st1' s1'] [Hf1 Hs]. cbn in Hs. subst s1'. both. by apply osim_ok.
Qed.

(** What a packet leaves on the wire, from what it leaves there with the perfect card. *)
Lemma send_packet_part tm ports b len dst (response : bool) rid rnd env st s frames s' :
  dpdk_swiftnet_send_packet (H0 := ideal) g nd eth tm ports b len dst None response rid rnd env st s = Ok (send_frames frames st, s') ->
  exists part, dpdk_swiftnet_send_packet g nd eth tm ports b len dst None response rid rnd env st s = Ok (send_frames part st, s')
    /\ part `sublist_of` frames /\ (card_takes (E := E) -> part = frames).
Proof.
  intros Hp. destruct (send_packet_sim tm ports b len dst response rid rnd env st s _ Hp) as ([st1 s1] & -> & Hf & Hs). cbn in Hf, Hs. subst s1.
  destruct Hf as (H1 & H2 & H3 & H4 & ws & ws' & H5 & H6 & H7 & H8). cbn in *. apply app_inv_head in H6. subst ws'.
  exists ws. split; [|done]. do 2 f_equal. destruct st1. unfold send_frames. cbn in *. by subst.
Qed.
End simulation.

(** ** Properties *)

(** C22 Fragmentation with message buffers, on any card.  A packet longer than the
    transmission unit, whose length is not a multiple of the data per message buffer, is
    handed to the card as one sealed frame per chunk, in order, the pieces being the data;
    then, per round of the exchange, the requests and as many frames again as the receiver
    listed.  On the wire are those of these frames the card took, in this order, and all of
    them if it took all; a refused frame is dropped and the sender does not notice.  Either
    way the data in the buffer is unchanged, the table of packets being sent is as before,
    and the message buffer of the request is still in use after the packet buffer has been
    destroyed.  (For multiples of the data per message buffer see
    [dpdk_multiple_never_confirmed] and [dpdk_extra_empty_chunk].) *)
Theorem dpdk_fragmented_send_exact `{L : MbufLib} `{E : EthDev} `{HL : !MbufLaws L} `{HE : !EthLaws L E}
    g nd eth target_mtu ports b ps s s0 dst (response : bool) rid rnd rounds final st :
  dpdk_ok g nd eth -> maximum_transmission_unit g <= target_mtu ->
  let D := maximum_transmission_unit g - PACKET_HEADER_SIZE in
  buffer_inv D s0 b ps s ->
  let data := buffer_data s b in
  let len := Z.of_nat (length data) in
  maximum_transmission_unit g < len -> len mod D <> 0 ->
  Z.of_nat (size s0 + length (dpdk_buffers b)) + 1 < mempool_available ->
  let id := if response then rid else u16 rnd in
  al_get id (packets_sending st) = None ->
  let n := chunk_count D len in
  (forall k is_ block, (k, is_, block) ∈ rounds -> Z.of_nat (length is_) <= n /\ forall j, j ∈ is_ -> 0 <= j < n) ->
  let hdr := with_ip_len (htons (u16 (maximum_transmission_unit g + sizeof_ether_header)))
               (construct_ip_header g dst (maximum_transmission_unit g) id) in
  let info := construct_packet_info g len (packet_type_code (if response then RESPONSE else MESSAGE)) n 0 ports in
  let frames := map (fun i => dpdk_chunk_frame eth hdr info i (chunk_payload D data i)) (seqZ 0 n) in
  concat (map (fun i => chunk_payload D data (Z.of_nat i)) (seq 0 (Z.to_nat n))) = data
  /\ exists on_wire s' l m,
    dpdk_swiftnet_send_packet g nd eth target_mtu ports b len dst None response rid rnd (env_script rounds final) st s
    = Ok (send_frames on_wire st, s')
    /\ (let offered := frames ++ dpdk_exchange_wire (lost_request_frame g nd eth dst id ports) frames rounds final in
        on_wire `sublist_of` offered /\ (card_takes -> on_wire = offered))
    /\ buffer_data s' b = data /\ s0 !! l = None /\ destroy_packet_buffer b s' = Ok (<[l := m]> s0).
Proof.
  intros Hok Htm D Hi data len Hlen Hmod Hpool id Hget n Hr hdr info frames.
  destruct (fragmented_all_taken (E := perfect E) (HE := perfect_laws) g nd eth target_mtu ports b ps s s0 dst response rid rnd rounds final st
    perfect_takes Hok Htm Hi Hlen Hmod Hpool Hget Hr) as (Hcat & s' & l & m & Hsend & Hrest).
  split; [exact Hcat|]. destruct (send_packet_part _ _ _ _ _ _ _ _ _ _ _ _ _ _ _ _ Hsend) as (part & Hpart & Hsub). by exists part, s', l, m.
Qed.

(** C30 One frame with message buffers, on any card: a packet that fits one message buffer
    is handed to the card as one sealed frame with the first bytes of the buffer's data.
    It is on the wire if the card takes it; else it is dropped and nothing is on the wire.
    Either way the data stays in the buffer, the sender's tables are unchanged and no
    message buffer is lost. *)
Theorem dpdk_short_send_exact `{L : MbufLib} `{E : EthDev} `{HL : !MbufLaws L} `{HE : !EthLaws L E}
    g nd eth target_mtu ports b ps s s0 dst (response : bool) rid rnd len env st :
  dpdk_ok g nd eth ->
  let D := maximum_transmission_unit g - PACKET_HEADER_SIZE in
  buffer_inv D s0 b ps s -> PACKET_HEADER_SIZE < Z.min target_mtu (maximum_transmission_unit g) ->
  0 < len <= D -> len <= Z.min target_mtu (maximum_transmission_unit g) -> len <= total_data_size b ->
  Z.of_nat (size s0 + length (dpdk_buffers b)) < mempool_available ->
  let id := if response then rid else u16 rnd in
  let frame := sealed_frame (ether_header_bytes eth) (construct_ip_header g dst (PACKET_HEADER_SIZE + len) id)
              (construct_packet_info g len (packet_type_code (if response then RESPONSE else MESSAGE)) 1 0 ports)
              (take (Z.to_nat len) (buffer_data s b)) in
  exists on_wire s', dpdk_swiftnet_send_packet g nd eth target_mtu ports b len dst None response rid rnd env st s = Ok (send_frames on_wire st, s')
    /\ (on_wire = [frame] \/ on_wire = []) /\ (card_takes -> on_wire = [frame])
    /\ buffer_data s' b = buffer_data s b /\ destroy_packet_buffer b s' = Ok s0.
Proof.
  intros Hok D Hi Hm Hlen Hle Htot Hpool id frame.
  destruct (short_all_taken (E := perfect E) (HE := perfect_laws) g nd eth target_mtu ports b ps s s0 dst response rid rnd len env st
    perfect_takes Hok Hi Hm Hlen Hle Htot Hpool) as (s' & Hsend & Hrest).
  destruct (send_packet_part _ _ _ _ _ _ _ _ _ _ _ _ _ _ _ _ Hsend) as (part & Hpart & Hsub & Hall). exists part, s'.
  split; [exact Hpart|]. split; [|by split]. apply sublist_cons_r in Hsub as [->%sublist_nil_r|(l & -> & ->%sublist_nil_r)]; [by right|by left].
Qed.

(** ** Concrete runs *)

(** A card that refuses the frames with an odd chunk index. *)
#[local] Instance picky_card : EthDev := {|
  rte_pktmbuf_clone l s := m ← s !! l; Some (store_next s, <[store_next s := m]> s);
  rte_eth_tx_burst c s := match s !! c with
    | Some m => if Z.odd (default 0 (mbuf_frame m !! 42%nat)) then (0, s) else (1, delete c s)
    | None => (0, s)
    end
|}.

#[local] Existing Instance small_pool.
#[local] Existing Instance small_pool_laws.
#[local] Instance picky_laws : EthLaws small_pool picky_card.
Proof.
  constructor.
  - intros l m s Hm _. exists (store_next s), m. cbn. rewrite Hm. split; [done|]. split; [apply store_next_fresh|done].
  - intros c m s Hm. cbn. rewrite Hm. destruct (Z.odd _); [by right|by left].
Qed.

(** Ten chunks, of which the five even ones leave; the second round lists two chunks. *)
Lemma dpdk_fragmented_send_exact_witness :
  exists b s s' l m on_wire, filled_buffer g_small (seqZ 0 56) = Ok (b, s)
    /\ dpdk_swiftnet_send_packet g_small nd_ethernet eth0 1500 (mk_port_info 8080 4000) b 56 0x0201A8C0 None false 0 7
         (env_script [(2%nat, [8; 9], [])] 3) st0 s = Ok (send_frames on_wire st0, s')
    /\ (length on_wire <= 14)%nat /\ destroy_packet_buffer b s' = Ok (<[l := m]> ∅).
Proof.
  destruct (small_buffer (seqZ 0 56)) as (b & ps & s & Hf & Hi & _ & Hd & Hls & _); [vm_compute; lia|].
  destruct (dpdk_fragmented_send_exact g_small nd_ethernet eth0 1500 (mk_port_info 8080 4000) b ps s ∅ 0x0201A8C0 false 0 7
    [(2%nat, [8; 9], [])] 3 st0 small_dpdk_ok) as (_ & on_wire & s' & l & m & Hsend & [Hsub _] & _ & _ & Hdest); rewrite ?Hd.
  - done.
  - exact Hi.
  - done.
  - done.
  - rewrite map_size_empty. cbn. lia.
  - done.
  - intros k is_ block Hin. rewrite elem_of_cons, elem_of_nil in Hin. destruct Hin as [[= -> -> ->]|[]].
    split; [done|]. intros j Hj. rewrite !elem_of_cons, elem_of_nil in Hj.
    destruct Hj as [->|[->|[]]]; vm_compute; split; congruence.
  - rewrite Hd in Hsend, Hsub. apply sublist_length in Hsub. eexists b, s, s', l, m, on_wire. split; [done|]. split; [exact Hsend|].
    split; [exact Hsub|done].
Defined.

Lemma dpdk_short_send_exact_witness :
  exists b s s' on_wire, filled_buffer g_small [1; 2; 3; 4; 5; 6; 7; 8] = Ok (b, s)
    /\ dpdk_swiftnet_send_packet g_small nd_ethernet eth0 1500 (mk_port_info 8080 4000) b 5 1 None false 0 7 [] st0 s
       = Ok (send_frames on_wire st0, s')
    /\ (on_wire = [] \/ exists frame, on_wire = [frame] /\ drop 58 frame = [1; 2; 3; 4; 5]).
Proof.
  destruct (small_buffer [1; 2; 3; 4; 5; 6; 7; 8]) as (b & ps & s & Hf & Hi & Hc & Hd & Hls & Ht); [cbn; lia|].
  destruct (dpdk_short_send_exact g_small nd_ethernet eth0 1500 (mk_port_info 8080 4000) b ps s ∅ 1 false 0 7 5 [] st0
    small_dpdk_ok Hi) as (on_wire & s' & Hs & Hw & _).
  - reflexivity.
  - split; [reflexivity|discriminate].
  - discriminate.
  - rewrite Ht. discriminate.
  - rewrite map_size_empty. cbn. lia.
  - rewrite Hd in Hw. exists b, s, s', on_wire. split; [done|]. split; [exact Hs|]. destruct Hw as [->| ->]; [right|by left].
    eexists. split; [reflexivity|reflexivity].
Defined.
