(* ===== verification/DpdkListener.v ===== *)
(** * Receiving with the DPDK backend (src/src/handle_packets.c,
    src/src/internal/networking.h, src/src/internal/dpdk/dpdk_open.c)

    The listener takes bursts of message buffers from the network card and hands their
    frames to the code of Listener.v; the branches of src/src/handle_packets.c for this
    backend give the message buffers back.  Opening a port and setting up the interface
    data are here too; the answers of DPDK are parameters. *)

From S2P Require Import Prelude Store Queue Crc32 Wire Frames Receiver Listener DpdkBuffer DpdkSend.

(** ** The listener *)
Section listener.
Context `{MbufLib} (g : Globals).

(** [swiftnet_handle_packets]: the label [exit] gives the message buffer back; the
    early return for a frame that is not IP does not reach it. *)
Definition dpdk_handle_packets (packet_queue : PacketQueue) (processing_packets : bool) (network_data : SwiftNetNetworkData)
    (packet_data : list Z) (dpdk_buf : loc) (sh : Shared) (s : Store rte_mbuf)
    : Outcome (PacketQueue * bool * Shared * Store rte_mbuf) :=
  '(q, wake, sh) ← swiftnet_handle_packets g packet_queue processing_packets network_data packet_data sh;
  if Z.of_nat (length packet_data) =? 0 then s ← mbuf_free dpdk_buf s; Ok (q, wake, sh, s)
  else
    copied ← mem_write 0 packet_data (uninitialized g (packet_buffer_size g));
    sender_address ← get_sender_addr (addr_type network_data) copied;
    match sender_address with
    | None => Ok (q, wake, sh, s)
    | Some _ => s ← mbuf_free dpdk_buf s; Ok (q, wake, sh, s)
    end.

(** [handle_client_init]: a closing client and a frame of the wrong size return early. *)
Definition dpdk_handle_client_init (buffer : list Z) (dpdk_buf : loc) (c : SwiftNetClientConnection) (s : Store rte_mbuf)
    : Outcome (SwiftNetClientConnection * Store rte_mbuf) :=
  c' ← handle_client_init buffer c;
  if cc_closing c then Ok (c', s)
  else if negb (Z.of_nat (length buffer) =? PACKET_HEADER_SIZE + sizeof_SwiftNetServerInformation + prepend_size (cc_network_data c))
  then Ok (c', s)
  else s ← mbuf_free dpdk_buf s; Ok (c', s).

Definition dpdk_handle_correct_receiver (connection_type : ConnectionType) (li : Listener) (dport : Z) (packet_data : list Z)
    (dpdk_buf : loc) (sh : Shared) (s : Store rte_mbuf) : Outcome (bool * Shared * Store rte_mbuf) :=
  match connection_type with
  | CONNECTION_TYPE_CLIENT =>
      match al_get dport (client_connections li) with
      | None => Ok (false, sh, s)
      | Some l =>
          c ← store_get l (client_store sh);
          if cc_initialized c then
            '(q, wake, sh, s) ← dpdk_handle_packets (cc_packet_queue c) (cc_processing_packets c) (cc_network_data c) packet_data dpdk_buf sh s;
            Ok (true, signal wake (CONNECTION_TYPE_CLIENT, l) (put_client l (set_client_queue q c) sh), s)
          else
            '(c, s) ← dpdk_handle_client_init packet_data dpdk_buf c s;
            Ok (true, put_client l c sh, s)
      end
  | CONNECTION_TYPE_SERVER =>
      match al_get dport (servers li) with
      | None => Ok (false, sh, s)
      | Some l =>
          v ← store_get l (server_store sh);
          '(q, wake, sh, s) ← dpdk_handle_packets (sv_packet_queue v) (sv_processing_packets v) (sv_network_data v) packet_data dpdk_buf sh s;
          Ok (true, signal wake (CONNECTION_TYPE_SERVER, l) (put_server l (set_server_queue q v) sh), s)
      end
  end.

(** The port is read from the memory of the message buffer, the frame has its length. *)
Definition dpdk_packet_handle (li : Listener) (dpdk_buf : loc) (sh : Shared) (s : Store rte_mbuf)
    : Outcome (Shared * Store rte_mbuf) :=
  m ← store_get dpdk_buf s;
  port ← mem_read (data_off m + (PACKET_PREPEND_SIZE (li_addr_type li) + sizeof_ip + offsetof_port_info)) 2 (buf_addr m);
  packet ← mem_read (data_off m) (data_len m) (buf_addr m);
  let dport := le_val port in
  '(handled, sh, s) ← dpdk_handle_correct_receiver CONNECTION_TYPE_CLIENT li dport packet dpdk_buf sh s;
  if handled : bool then Ok (sh, s)
  else '(_, sh, s) ← dpdk_handle_correct_receiver CONNECTION_TYPE_SERVER li dport packet dpdk_buf sh s; Ok (sh, s).

(** One burst. *)
Fixpoint handle_burst (li : Listener) (buffers : list loc) (sh : Shared) (s : Store rte_mbuf) : Outcome (Shared * Store rte_mbuf) :=
  match buffers with
  | [] => Ok (sh, s)
  | l :: buffers => '(sh, s) ← dpdk_packet_handle li l sh s; handle_burst li buffers sh s
  end.

(** [SWIFTNET_LOOP_PACKETS] until the listener is closed: the bursts the card delivers,
    with the new message buffers they bring; an empty burst is a pause. *)
Fixpoint interface_start_listening_dpdk (li : Listener) (bursts : list (list (loc * rte_mbuf))) (sh : Shared)
    (s : Store rte_mbuf) : Outcome (Shared * Store rte_mbuf) :=
  match bursts with
  | [] => Ok (sh, s)
  | burst :: bursts =>
      '(sh, s) ← handle_burst li (map fst burst) sh (list_to_map burst ∪ s);
      interface_start_listening_dpdk li bursts sh s
  end.
End listener.

(** ** Opening a port *)

(** What DPDK answers: the pool (if it could be created) and the results of the calls
    that configure and start the device. *)
Record PortAnswers := mk_port_answers {
  pool_create : option loc;
  dev_configure : Z;
  rx_queue_setup : Z;
  tx_queue_setup : Z;
  dev_start : Z
}.

Definition swiftnet_dpdk_open_port (a : PortAnswers) : Outcome loc :=
  match pool_create a with
  | None => Exit
  | Some mem_pool =>
      if dev_configure a <? 0 then Exit
      else if rx_queue_setup a <? 0 then Exit
      else if tx_queue_setup a <? 0 then Exit
      else if dev_start a <? 0 then Exit
      else Ok mem_pool
  end.

(** The interface data of this backend: port, pool, and the closing flag. *)
Record DpdkInterface := mk_dpdk_interface {
  di_network_data : SwiftNetNetworkData;
  di_port : Z;
  di_mem_pool : loc;
  di_closing : bool
}.

Definition dpdk_initialize_networking (ret port : Z) (a : PortAnswers) : Outcome DpdkInterface :=
  if ret <? 0 then Exit
  else
    mem_pool ← swiftnet_dpdk_open_port a;
    Ok (mk_dpdk_interface (mk_network_data None 1 sizeof_ether_header) port mem_pool false).

(** [SWIFTNET_BREAK_RECEIVER_LOOP]. *)
Definition dpdk_break_receiver_loop (d : DpdkInterface) : DpdkInterface :=
  mk_dpdk_interface (di_network_data d) (di_port d) (di_mem_pool d) true.

(** An interface that was set up is an Ethernet link for the send functions. *)
Lemma dpdk_interface_ethernet ret port a d :
  dpdk_initialize_networking ret port a = Ok d ->
  network_ok (di_network_data d) /\ addr_type (di_network_data d) = DLT_EN10MB /\ di_closing d = false.
Proof.
  unfold dpdk_initialize_networking. destruct (ret <? 0); [done|]. intros Hd. ok_inv. by split; [split; [right|]|].
Qed.

(** ** Properties *)

(** Is the frame an IP frame on this link. *)
Definition is_ip_frame (nd : SwiftNetNetworkData) (f : list Z) : bool :=
  (addr_type nd =? 0) || (htons (le_val (slice 12 2 f)) =? ETHERTYPE_IP).

(** Is the message buffer of the frame given back: an endpoint owns the port, and the
    frame is IP, or is a well-sized answer for a client that waits for it. *)
Definition releases (li : Listener) (f : list Z) (sh : Shared) : bool :=
  let dport := le_val (slice (Z.to_nat (PACKET_PREPEND_SIZE (li_addr_type li) + sizeof_ip + offsetof_port_info)) 2 f) in
  match al_get dport (client_connections li) ≫= fun l => client_store sh !! l with
  | Some c =>
      if cc_initialized c then is_ip_frame (cc_network_data c) f
      else negb (cc_closing c)
           && (Z.of_nat (length f) =? PACKET_HEADER_SIZE + sizeof_SwiftNetServerInformation + prepend_size (cc_network_data c))
  | None =>
      match al_get dport (servers li) ≫= fun l => server_store sh !! l with
      | Some v => is_ip_frame (sv_network_data v) f
      | None => false
      end
  end.

(** A message buffer the card delivered: its frame lies in its memory and holds the
    headers. *)
Definition received (s : Store rte_mbuf) (l : loc) (f : list Z) : Prop :=
  exists m, s !! l = Some m /\ mem_read (data_off m) (data_len m) (buf_addr m) = Ok f
    /\ 0 <= data_off m /\ (52 <= length f)%nat.

Section receive.
Context `{HL : MbufLaws} (g : Globals).

Lemma received_free s l f : received s l f -> mbuf_free l s = Ok (delete l s).
Proof.
  intros (m & Hm & _). unfold mbuf_free. rewrite (proj2 (store_get_ok _ _ _) Hm), bind_Ok. by erewrite free_law.
Qed.

Lemma get_sender_addr_is_ip nd f pad :
  (52 <= length f)%nat ->
  exists a, get_sender_addr (addr_type nd) (f ++ pad) = Ok (if is_ip_frame nd f then Some a else None).
Proof.
  intros Hl. unfold get_sender_addr, is_ip_frame. destruct (addr_type nd =? 0); [by eexists|].
  rewrite (mem_read_ok 12 2), bind_Ok by (rewrite ?length_app; lia).
  change (Z.to_nat 12) with 12%nat. change (Z.to_nat 2) with 2%nat. rewrite slice_app_l by lia. cbn [orb].
  destruct (htons (le_val (slice 12 2 f)) =? ETHERTYPE_IP); [|by exists 0].
  unfold sizeof_ether_header. rewrite (mem_read_ok _ 4), bind_Ok by (rewrite ?length_app; lia). by eexists.
Qed.

Lemma dpdk_handle_packets_equiv q processing nd f l sh s :
  received s l f ->
  dpdk_handle_packets g q processing nd f l sh s
  = '(q', wake, sh') ← swiftnet_handle_packets g q processing nd f sh;
    Ok (q', wake, sh', if is_ip_frame nd f then delete l s else s).
Proof.
  intros Hr. pose proof Hr as (m & _ & _ & _ & Hlen). unfold dpdk_handle_packets.
  destruct (swiftnet_handle_packets g q processing nd f sh) as [[[q' wake] sh']| | |] eqn:E; [|done|done|done]. rewrite !bind_Ok.
  unfold swiftnet_handle_packets in E. rewrite (proj2 (Z.eqb_neq _ 0)) in E |- * by lia. cbn [store_alloc] in E.
  set (u := uninitialized g (packet_buffer_size g)) in *.
  destruct (mem_write 0 f u) as [copied| | |] eqn:Ew; [|done|done|done]. rewrite bind_Ok. clear E.
  apply mem_write_inv in Ew as (_ & _ & -> & _). change (blit (Z.to_nat 0) f u) with (f ++ drop (length f) u).
  destruct (get_sender_addr_is_ip nd f (drop (length f) u) Hlen) as [a ->]. rewrite bind_Ok.
  destruct (is_ip_frame nd f); [|done]. by rewrite (received_free s l f).
Qed.

Lemma dpdk_handle_client_init_equiv f l c s :
  received s l f ->
  dpdk_handle_client_init f l c s
  = c' ← handle_client_init f c;
    Ok (c', if negb (cc_closing c)
               && (Z.of_nat (length f) =? PACKET_HEADER_SIZE + sizeof_SwiftNetServerInformation + prepend_size (cc_network_data c))
            then delete l s else s).
Proof.
  intros Hr. unfold dpdk_handle_client_init. destruct (handle_client_init f c) as [c'| | |]; [|done|done|done]. rewrite !bind_Ok.
  destruct (cc_closing c); [done|]. cbn [negb andb]. destruct (Z.of_nat (length f) =? _); [|done]. by rewrite (received_free s l f).
Qed.

Lemma dpdk_packet_handle_equiv li l f sh s :
  received s l f -> PACKET_PREPEND_SIZE (li_addr_type li) = 14 \/ PACKET_PREPEND_SIZE (li_addr_type li) = 4 ->
  dpdk_packet_handle g li l sh s
  = sh' ← pcap_packet_handle g li f sh; Ok (sh', if releases li f sh then delete l s else s).
Proof.
  intros Hr Hpre. pose proof Hr as (m & Hm & Hf & Ho & Hlen). unfold dpdk_packet_handle, pcap_packet_handle, releases.
  rewrite (proj2 (store_get_ok _ _ _) Hm), bind_Ok.
  assert (f = slice (Z.to_nat (data_off m)) (length f) (buf_addr m) /\ data_off m + Z.of_nat (length f) <= Z.of_nat (length (buf_addr m)))
    as [Hfs Hfl].
  { unfold mem_read in Hf. case_bool_decide as Hb; [|done]. injection Hf as <-. rewrite length_slice by lia. split; [done|lia]. }
  set (o := PACKET_PREPEND_SIZE (li_addr_type li) + sizeof_ip + offsetof_port_info).
  assert (0 <= o <= 50) as Ho' by (unfold o, sizeof_ip, offsetof_port_info; lia).
  assert (mem_read (data_off m + o) 2 (buf_addr m) = mem_read o 2 f) as ->.
  { rewrite !mem_read_ok by lia. f_equal. rewrite Hfs at 1. rewrite slice_slice by lia. f_equal. lia. }
  rewrite (mem_read_ok o 2 f) by lia. rewrite !bind_Ok, Hf, bind_Ok. change (Z.to_nat 2) with 2%nat.
  set (dport := le_val (slice (Z.to_nat o) 2 f)). cbn [handle_correct_receiver dpdk_handle_correct_receiver].
  destruct (al_get dport (client_connections li)) as [lc|] eqn:Ec; cbn [mbind option_bind].
  - unfold store_get. destruct (client_store sh !! lc) as [c|]; cbn [of_option]; [|done]. rewrite !bind_Ok.
    destruct (cc_initialized c).
    + rewrite dpdk_handle_packets_equiv by done.
      by destruct (swiftnet_handle_packets g (cc_packet_queue c) (cc_processing_packets c) (cc_network_data c) f sh) as [[[q' w] sh']| | |].
    + rewrite dpdk_handle_client_init_equiv by done. by destruct (handle_client_init f c).
  - rewrite !bind_Ok. destruct (al_get dport (servers li)) as [lv|] eqn:Es; cbn [mbind option_bind]; [|done].
    unfold store_get. destruct (server_store sh !! lv) as [v|]; cbn [of_option]; [|done]. rewrite !bind_Ok.
    rewrite dpdk_handle_packets_equiv by done.
    by destruct (swiftnet_handle_packets g (sv_packet_queue v) (sv_processing_packets v) (sv_network_data v) f sh) as [[[q' w] sh']| | |].
Qed.
End receive.

Lemma received_other s s' l f : received s l f -> s' !! l = s !! l -> received s' l f.
Proof. intros (m & Hm & H) He. exists m. by rewrite He. Qed.

Lemma received_others s s' ls fs :
  (forall l, l ∈ ls -> s' !! l = s !! l) -> Forall2 (received s) ls fs -> Forall2 (received s') ls fs.
Proof.
  intros He Hf. induction Hf as [|l f ls fs Hr Hf IH]; constructor.
  - eapply received_other; [exact Hr|]. apply He. left.
  - apply IH. intros x Hx. apply He. by right.
Qed.

(** C23 The listeners of the two backends agree: on the frames of a burst, in order, the
    endpoints end up exactly as the pcap listener leaves them for the same frames
    (queues, packet buffers, hand-shakes, signals); message buffers outside the burst
    are not touched, and none is changed. *)
Theorem dpdk_listener_equals_pcap `{HL : MbufLaws} (g : Globals) li ls fs sh sh' s :
  PACKET_PREPEND_SIZE (li_addr_type li) = 14 \/ PACKET_PREPEND_SIZE (li_addr_type li) = 4 ->
  NoDup ls -> Forall2 (received s) ls fs -> interface_start_listening g li fs sh = Ok sh' ->
  exists s', handle_burst g li ls sh s = Ok (sh', s') /\ s' ⊆ s /\ forall l, l ∉ ls -> s' !! l = s !! l.
Proof.
  intros Hpre Hnd Hrec. revert sh s Hrec. revert fs. induction ls as [|l ls IH]; intros fs sh s Hrec Hpcap.
  { apply Forall2_nil_inv_l in Hrec as ->. injection Hpcap as <-. by exists s. }
  apply Forall2_cons_inv_l in Hrec as (f & fs' & Hf & Hrec & ->). apply NoDup_cons in Hnd as [Hni Hnd].
  cbn [interface_start_listening] in Hpcap. apply bind_ok in Hpcap as (sh1 & Hp & Hpcap).
  cbn [handle_burst]. rewrite (dpdk_packet_handle_equiv g li l f sh s Hf Hpre), Hp, !bind_Ok.
  set (s1 := if releases li f sh then delete l s else s).
  assert (s1 ⊆ s) as Hsub by (unfold s1; destruct (releases li f sh); [apply delete_subseteq|done]).
  assert (forall x, x <> l -> s1 !! x = s !! x) as Hother.
  { intros x Hx. unfold s1. destruct (releases li f sh); [by rewrite lookup_delete_ne|done]. }
  destruct (IH Hnd fs' sh1 s1) as (s' & Hb & Hsub' & Hkeep).
  { eapply received_others, Hrec. intros x Hx. apply Hother. by intros ->. }
  { done. }
  exists s'. split; [done|]. split; [by trans s1|]. intros x [Hx Hx']%not_elem_of_cons. rewrite Hkeep by done. by apply Hother.
Qed.

(** No endpoint of the listener owns the destination port of the frame. *)
Definition foreign (li : Listener) (f : list Z) : Prop :=
  let dport := le_val (slice (Z.to_nat (PACKET_PREPEND_SIZE (li_addr_type li) + sizeof_ip + offsetof_port_info)) 2 f) in
  al_get dport (client_connections li) = None /\ al_get dport (servers li) = None.

Lemma foreign_frame_kept `{HL : MbufLaws} (g : Globals) li l f sh s :
  PACKET_PREPEND_SIZE (li_addr_type li) = 14 \/ PACKET_PREPEND_SIZE (li_addr_type li) = 4 ->
  received s l f -> foreign li f -> dpdk_packet_handle g li l sh s = Ok (sh, s).
Proof.
  intros Hpre Hr [Hc Hs]. rewrite (dpdk_packet_handle_equiv g li l f sh s Hr Hpre). unfold releases, pcap_packet_handle.
  pose proof Hr as (m & _ & _ & _ & Hlen).
  rewrite mem_read_ok, bind_Ok by (unfold sizeof_ip, offsetof_port_info; lia). change (Z.to_nat 2) with 2%nat.
  cbn [handle_correct_receiver]. by rewrite Hc, Hs.
Qed.

Lemma foreign_burst_kept `{HL : MbufLaws} (g : Globals) li ls sh s :
  PACKET_PREPEND_SIZE (li_addr_type li) = 14 \/ PACKET_PREPEND_SIZE (li_addr_type li) = 4 ->
  (forall l, l ∈ ls -> exists f, received s l f /\ foreign li f) -> handle_burst g li ls sh s = Ok (sh, s).
Proof.
  intros Hpre. induction ls as [|l ls IH]; intros Hls; [done|]. cbn [handle_burst].
  destruct (Hls l ltac:(left)) as (f & Hr & Hf). rewrite (foreign_frame_kept g li l f sh s Hpre Hr Hf), bind_Ok.
  apply IH. intros x Hx. apply Hls. by right.
Qed.

(** C40 Frames for others use up the pool: the card is in promiscuous mode, and a frame
    whose port no endpoint of the listener owns is dropped without giving its message
    buffer back.  Whatever bursts of such frames arrive, the endpoints are unchanged and
    afterwards every one of the message buffers is still in use, so the number in use
    grows by the number of frames. *)
Theorem dpdk_foreign_frames_leak `{HL : MbufLaws} (g : Globals) li bursts sh s :
  PACKET_PREPEND_SIZE (li_addr_type li) = 14 \/ PACKET_PREPEND_SIZE (li_addr_type li) = 4 ->
  NoDup (map fst (concat bursts)) -> (forall l, l ∈ map fst (concat bursts) -> s !! l = None) ->
  (forall l m, (l, m) ∈ concat bursts -> exists f, received {[ l := m ]} l f /\ foreign li f) ->
  exists s', interface_start_listening_dpdk g li bursts sh s = Ok (sh, s')
    /\ size s' = (size s + length (concat bursts))%nat
    /\ (forall l m, (l, m) ∈ concat bursts -> s' !! l = Some m) /\ s ⊆ s'.
Proof.
  intros Hpre. revert s. induction bursts as [|burst bursts IH]; intros s Hnd Hfresh Hforeign.
  { exists s. split; [done|]. split; [cbn; lia|]. split; [|done]. intros l m Hin. by apply not_elem_of_nil in Hin. }
  cbn [concat] in *. rewrite map_app in Hnd, Hfresh. apply NoDup_app in Hnd as (Hnd1 & Hdis & Hnd2).
  set (s1 := list_to_map burst ∪ s).
  assert (forall l m, (l, m) ∈ burst -> s1 !! l = Some m) as Hnew.
  { intros l m Hin. apply lookup_union_Some_l. by apply elem_of_list_to_map_1. }
  assert (forall l, l ∉ map fst burst -> s1 !! l = s !! l) as Hold.
  { intros l Hl. apply lookup_union_r. by apply not_elem_of_list_to_map_1. }
  cbn [interface_start_listening_dpdk]. fold s1. rewrite foreign_burst_kept, bind_Ok by
    (done || (intros l Hl; apply list_elem_of_fmap in Hl as ([l' m] & -> & Hin);
      destruct (Hforeign l' m ltac:(apply elem_of_app; by left)) as (f & Hr & Hf); exists f; split; [|done];
      eapply received_other; [exact Hr|]; rewrite lookup_singleton_eq; by apply Hnew)).
  assert (size s1 = size s + length burst)%nat as Hsz.
  { rewrite <- (length_fmap fst burst). apply store_extension_size; [done| |done].
    intros l Hl. split; [apply Hfresh, elem_of_app; by left|].
    apply list_elem_of_fmap in Hl as ([l' m] & -> & Hin). cbn [fst]. rewrite (Hnew l' m Hin). by eexists. }
  destruct (IH s1 Hnd2) as (s' & He & Hsize & Hin' & Hsub).
  { intros l Hl. rewrite Hold; [apply Hfresh, elem_of_app; by right|]. intros Hl'. by apply (Hdis l Hl'). }
  { intros l m Hin. apply Hforeign, elem_of_app. by right. }
  exists s'. split; [done|]. split; [rewrite length_app; lia|]. split.
  - intros l m [Hin|Hin]%elem_of_app; [|by apply Hin']. eapply lookup_weaken; [by apply Hnew|done].
  - trans s1; [|done]. apply map_subseteq_spec. intros l m Hm. rewrite Hold; [done|]. intros Hl.
    rewrite Hfresh in Hm; [done|]. apply elem_of_app. by left.
Qed.

(** A frame to port 9999, which nobody owns, and one to the server on port 8080. *)
Definition mbuf_of (f : list Z) : rte_mbuf :=
  mk_mbuf (repeat 0 128 ++ f ++ repeat 0 64) 128 (Z.of_nat (length f)) (Z.of_nat (length f)).

Definition frame_to (port : Z) : list Z :=
  headers (ether_header_bytes eth0) (construct_ip_header g0 0x0201A8C0 47 7)
    (construct_packet_info g0 3 1 1 0 (mk_port_info port 4242)) ++ [1; 2; 3].

Lemma received_mbuf_of s l port : s !! l = Some (mbuf_of (frame_to port)) -> received s l (frame_to port).
Proof.
  intros Hl. exists (mbuf_of (frame_to port)). split; [done|].
  assert (52 <= length (frame_to port))%nat as Hf.
  { unfold frame_to. rewrite length_app, length_headers, length_ether_header_bytes by apply eth0_ok. cbn. lia. }
  split; [|split; [done|exact Hf]]. unfold mbuf_of. cbn [data_off data_len buf_addr].
  rewrite mem_read_ok by (rewrite ?length_app, ?repeat_length; lia). reflexivity.
Qed.

Lemma dpdk_foreign_frames_leak_witness :
  exists s', interface_start_listening_dpdk (H := pool_lib 8 128 2048) g0 sample_listener
      [[(1%positive, mbuf_of (frame_to 9999)); (2%positive, mbuf_of (frame_to 9998))]; []; [(3%positive, mbuf_of (frame_to 9999))]]
      sample_shared ∅ = Ok (sample_shared, s')
    /\ size s' = 3%nat.
Proof.
  destruct (dpdk_foreign_frames_leak (HL := pool_laws 8 128 2048) g0 sample_listener
    [[(1%positive, mbuf_of (frame_to 9999)); (2%positive, mbuf_of (frame_to 9998))]; []; [(3%positive, mbuf_of (frame_to 9999))]]
    sample_shared ∅) as (s' & He & Hsize & _ & _).
  - by left.
  - apply (bool_decide_unpack _). vm_compute. reflexivity.
  - intros l _. apply lookup_empty.
  - intros l m Hin. cbn [concat app] in Hin. rewrite !elem_of_cons, elem_of_nil in Hin.
    destruct Hin as [[= -> ->]|[[= -> ->]|[[= -> ->]|[]]]];
      (eexists; split; [apply received_mbuf_of, lookup_singleton_eq|vm_compute; by split]).
  - exists s'. split; [exact He|]. rewrite Hsize. vm_compute. reflexivity.
Defined.

Lemma dpdk_listener_equals_pcap_witness :
  exists sh' s', interface_start_listening g0 sample_listener [frame_to 8080; frame_to 9999] sample_shared = Ok sh'
    /\ handle_burst (H := pool_lib 8 128 2048) g0 sample_listener [1%positive; 2%positive] sample_shared
         (<[1%positive := mbuf_of (frame_to 8080)]> {[ 2%positive := mbuf_of (frame_to 9999) ]}) = Ok (sh', s')
    /\ length (signals sh') = 1%nat.
Proof.
  assert (match interface_start_listening g0 sample_listener [frame_to 8080; frame_to 9999] sample_shared with
          | Ok sh => length (signals sh) = 1%nat | _ => False end) as Hrun by (vm_compute; reflexivity).
  destruct (interface_start_listening g0 sample_listener [frame_to 8080; frame_to 9999] sample_shared) as [sh'| | |] eqn:E;
    [|done|done|done].
  destruct (dpdk_listener_equals_pcap (HL := pool_laws 8 128 2048) g0 sample_listener [1%positive; 2%positive]
    [frame_to 8080; frame_to 9999] sample_shared sh' (<[1%positive := mbuf_of (frame_to 8080)]> {[ 2%positive := mbuf_of (frame_to 9999) ]}))
    as (s' & Hb & _).
  - by left.
  - apply (bool_decide_unpack _). vm_compute. reflexivity.
  - repeat constructor.
    + apply received_mbuf_of, lookup_insert_eq.
    + apply received_mbuf_of. reflexivity.
  - exact E.
  - exists sh', s'. split; [done|]. split; [exact Hb|exact Hrun].
Defined.
