(* ===== verification/Backends.v ===== *)
(** * The packet buffers behind the public interface
    (src/src/internal/pcap/pcap_buffer.c, src/src/internal/dpdk/dpdk_buffer.c)

    The functions an application calls for its packet buffers, for a client connection
    and for a server, in the two builds of the library.  [BufferBackend] is the
    interface the two builds share, [BufferLaws] what a build promises: its buffers are
    sequences of bytes with an append position.  Both builds keep the promise, so an
    application that fits its buffers finds the same bytes whichever build it uses. *)

From S2P Require Import Prelude Store Queue Wire Frames Listener PacketBuffer DpdkBuffer.

(** ** The public functions of the pcap build *)
Section pcap.
Context (g : Globals).

Definition swiftnet_client_create_packet_buffer (malloc_ok : bool) (buffer_size : Z) (client_connection : SwiftNetClientConnection)
    : PacketBuffer.SwiftNetPacketBuffer := PacketBuffer.create_packet_buffer g malloc_ok buffer_size.

Definition swiftnet_server_create_packet_buffer (malloc_ok : bool) (buffer_size : Z) (server : SwiftNetServer)
    : PacketBuffer.SwiftNetPacketBuffer := PacketBuffer.create_packet_buffer g malloc_ok buffer_size.

Definition swiftnet_client_resize_packet_buffer (realloc_ok : bool) (new_buffer_size : Z) (b : PacketBuffer.SwiftNetPacketBuffer)
    (client_connection : SwiftNetClientConnection) : Outcome PacketBuffer.SwiftNetPacketBuffer :=
  PacketBuffer.resize_packet_buffer g realloc_ok new_buffer_size b.

Definition swiftnet_server_resize_packet_buffer (realloc_ok : bool) (new_buffer_size : Z) (b : PacketBuffer.SwiftNetPacketBuffer)
    (server : SwiftNetServer) : Outcome PacketBuffer.SwiftNetPacketBuffer :=
  PacketBuffer.resize_packet_buffer g realloc_ok new_buffer_size b.

(** [data_size] bytes are read from [data]. *)
Definition swiftnet_client_write_packet_buffer (byte_offset : Z) (b : PacketBuffer.SwiftNetPacketBuffer) (data : list Z)
    (data_size : Z) (client_connection : SwiftNetClientConnection) : Outcome PacketBuffer.SwiftNetPacketBuffer :=
  src ← mem_read 0 data_size data; PacketBuffer.write_packet_buffer byte_offset b src.

Definition swiftnet_server_write_packet_buffer (byte_offset : Z) (b : PacketBuffer.SwiftNetPacketBuffer) (data : list Z)
    (data_size : Z) (server : SwiftNetServer) : Outcome PacketBuffer.SwiftNetPacketBuffer :=
  src ← mem_read 0 data_size data; PacketBuffer.write_packet_buffer byte_offset b src.

Definition swiftnet_client_destroy_packet_buffer (b : PacketBuffer.SwiftNetPacketBuffer)
    (client_connection : SwiftNetClientConnection) : Outcome unit := PacketBuffer.destroy_packet_buffer b.

Definition swiftnet_server_destroy_packet_buffer (b : PacketBuffer.SwiftNetPacketBuffer) (server : SwiftNetServer)
    : Outcome unit := PacketBuffer.destroy_packet_buffer b.
End pcap.

(** ** The public functions of the DPDK build *)
Section dpdk.
Context `{MbufLib} (g : Globals).

Definition dpdk_client_create_packet_buffer (malloc_ok : bool) (buffer_size : Z) (client_connection : SwiftNetClientConnection)
    (s : Store rte_mbuf) : Outcome (SwiftNetPacketBuffer * Store rte_mbuf) :=
  create_packet_buffer g malloc_ok buffer_size (cc_network_data client_connection) s.

Definition dpdk_server_create_packet_buffer (malloc_ok : bool) (buffer_size : Z) (server : SwiftNetServer)
    (s : Store rte_mbuf) : Outcome (SwiftNetPacketBuffer * Store rte_mbuf) :=
  create_packet_buffer g malloc_ok buffer_size (sv_network_data server) s.

Definition dpdk_client_resize_packet_buffer (realloc_ok : bool) (new_buffer_size : Z) (b : SwiftNetPacketBuffer)
    (client_connection : SwiftNetClientConnection) (s : Store rte_mbuf) : Outcome (SwiftNetPacketBuffer * Store rte_mbuf) :=
  resize_packet_buffer g realloc_ok new_buffer_size b (cc_network_data client_connection) s.

Definition dpdk_server_resize_packet_buffer (realloc_ok : bool) (new_buffer_size : Z) (b : SwiftNetPacketBuffer)
    (server : SwiftNetServer) (s : Store rte_mbuf) : Outcome (SwiftNetPacketBuffer * Store rte_mbuf) :=
  resize_packet_buffer g realloc_ok new_buffer_size b (sv_network_data server) s.

Definition dpdk_client_write_packet_buffer (byte_offset : Z) (b : SwiftNetPacketBuffer) (data : list Z) (data_size : Z)
    (client_connection : SwiftNetClientConnection) (s : Store rte_mbuf) : Outcome (Store rte_mbuf) :=
  write_packet_buffer g byte_offset b data data_size s.

Definition dpdk_server_write_packet_buffer (byte_offset : Z) (b : SwiftNetPacketBuffer) (data : list Z) (data_size : Z)
    (server : SwiftNetServer) (s : Store rte_mbuf) : Outcome (Store rte_mbuf) :=
  write_packet_buffer g byte_offset b data data_size s.

Definition dpdk_client_destroy_packet_buffer (b : SwiftNetPacketBuffer) (client_connection : SwiftNetClientConnection)
    (s : Store rte_mbuf) : Outcome (Store rte_mbuf) := destroy_packet_buffer b s.

Definition dpdk_server_destroy_packet_buffer (b : SwiftNetPacketBuffer) (server : SwiftNetServer)
    (s : Store rte_mbuf) : Outcome (Store rte_mbuf) := destroy_packet_buffer b s.
End dpdk.

(** ** The interface of a build *)
Class BufferBackend (B S : Type) := {
  be_create : Z -> S -> Outcome (B * S);
  be_append : list Z -> B -> S -> Outcome (B * S);
  be_write : Z -> list Z -> B -> S -> Outcome (B * S);
  be_resize : Z -> B -> S -> Outcome (B * S);
  be_destroy : B -> S -> Outcome S;
  be_data : B -> S -> list Z
}.

(** What a build promises for sizes up to [N] from the state [s0] on: some relation
    between a buffer, its data and its append position that every operation inside the
    size preserves. *)
Class BufferLaws {B S} (BE : BufferBackend B S) (N : Z) (s0 : S) := {
  be_inv : list Z -> Z -> B -> S -> Prop;
  be_create_ok n : 0 <= n <= N ->
    exists b s d, be_create n s0 = Ok (b, s) /\ be_inv d 0 b s /\ Z.of_nat (length d) = n;
  be_append_ok x d a b s : be_inv d a b s -> x <> [] -> 0 <= a -> a + Z.of_nat (length x) <= Z.of_nat (length d) ->
    exists b' s', be_append x b s = Ok (b', s') /\ be_inv (blit (Z.to_nat a) x d) (a + Z.of_nat (length x)) b' s';
  be_write_ok off x d a b s : be_inv d a b s -> 0 <= a -> 0 <= off -> off + Z.of_nat (length x) <= Z.of_nat (length d) ->
    exists b' s', be_write off x b s = Ok (b', s') /\ be_inv (blit (Z.to_nat off) x d) a b' s';
  be_resize_ok n d a b s : be_inv d a b s -> 0 <= a -> 0 <= n <= N ->
    exists b' s' d', be_resize n b s = Ok (b', s') /\ be_inv d' a b' s' /\ resized n d d';
  be_data_ok d a b s : be_inv d a b s -> be_data b s = d;
  be_destroy_ok d a b s : be_inv d a b s -> be_destroy b s = Ok s0
}.

Definition backend_op {B S} `{BufferBackend B S} (op : buffer_op) (b : B) (s : S) : Outcome (B * S) :=
  match op with
  | BufAppend x => be_append x b s
  | BufWrite off x => be_write off x b s
  | BufResize n => be_resize n b s
  end.

Fixpoint backend_run {B S} `{BufferBackend B S} (ops : list buffer_op) (b : B) (s : S) : Outcome (B * S) :=
  match ops with
  | [] => Ok (b, s)
  | op :: ops => '(b, s) ← backend_op op b s; backend_run ops b s
  end.

(** ** The bytes an application has determined *)

(** A byte is known once it has been written; a resize cuts or adds unknown bytes. *)
Definition known_op (op : buffer_op) (k : list (option Z) * Z) : list (option Z) * Z :=
  match op with
  | BufAppend x => (blit (Z.to_nat k.2) (Some <$> x) k.1, k.2 + Z.of_nat (length x))
  | BufWrite off x => (blit (Z.to_nat off) (Some <$> x) k.1, k.2)
  | BufResize n => (take (Z.to_nat n) k.1 ++ repeat None (Z.to_nat n - length k.1), k.2)
  end.

Definition known_bytes (n : Z) (ops : list buffer_op) : list (option Z) :=
  (foldl (fun k op => known_op op k) (repeat None (Z.to_nat n), 0) ops).1.

(** The bytes [d] are those known in [k]. *)
Definition knows (k : list (option Z)) (d : list Z) : Prop :=
  Forall2 (fun o x => match o with Some y => x = y | None => True end) k d.

Lemma knows_length k d : knows k d -> length k = length d.
Proof. apply Forall2_length. Qed.

Lemma knows_none d : knows (repeat None (length d)) d.
Proof. induction d; cbn; constructor; done. Qed.

Lemma knows_known x : knows (Some <$> x) x.
Proof. induction x; cbn; constructor; done. Qed.

Lemma knows_blit k d i x : knows k d -> (i + length x <= length d)%nat -> knows (blit i (Some <$> x) k) (blit i x d).
Proof.
  intros Hk Hi. unfold blit. apply Forall2_app; [by apply Forall2_take|]. apply Forall2_app; [apply knows_known|].
  rewrite length_fmap. by apply Forall2_drop.
Qed.

Lemma knows_resize k d d' n :
  knows k d -> resized n d d' -> knows (take (Z.to_nat n) k ++ repeat None (Z.to_nat n - length k)) d'.
Proof.
  intros Hk [Hn [[e ->]|[e He]]]; pose proof (knows_length _ _ Hk) as Hl.
  - rewrite length_app in Hn. rewrite take_ge by lia. apply Forall2_app; [done|].
    replace (Z.to_nat n - length k)%nat with (length e) by lia. apply knows_none.
  - subst d. rewrite length_app in Hl. replace (Z.to_nat n - length k)%nat with 0%nat by lia. rewrite app_nil_r.
    assert (d' = take (Z.to_nat n) (d' ++ e)) as -> by (replace (Z.to_nat n) with (length d') by lia; by rewrite take_app_length).
    by apply Forall2_take.
Qed.

(** ** Every build with these laws holds the bytes the application wrote *)
Section refinement.
Context {B S : Type} (BE : BufferBackend B S) (N : Z) (s0 : S) (BL : BufferLaws BE N s0).

Lemma backend_run_knows ops : forall d a k b s,
  be_inv d a b s -> 0 <= a -> knows k d -> ops_fit N (Z.of_nat (length d)) a ops ->
  exists b' s' d' a', backend_run ops b s = Ok (b', s') /\ be_inv d' a' b' s'
    /\ knows (foldl (fun k op => known_op op k) (k, a) ops).1 d'.
Proof.
  induction ops as [|op ops IH]; intros d a k b s Hi Ha Hk Hfit; [by exists b, s, d, a|].
  destruct op as [x|off x|n]; cbn [ops_fit backend_run backend_op foldl known_op fst snd] in *.
  - destruct Hfit as (Hx & Hle & Hfit). destruct (be_append_ok x d a b s Hi Hx Ha Hle) as (b1 & s1 & -> & Hi1).
    rewrite bind_Ok. apply (IH _ _ _ _ _ Hi1); [lia|by apply knows_blit; [|lia]|]. by rewrite length_blit by lia.
  - destruct Hfit as (Ho & Hle & Hfit). destruct (be_write_ok off x d a b s Hi Ha Ho Hle) as (b1 & s1 & -> & Hi1).
    rewrite bind_Ok. apply (IH _ _ _ _ _ Hi1); [lia|by apply knows_blit; [|lia]|]. by rewrite length_blit by lia.
  - destruct Hfit as (Hn & Hfit). destruct (be_resize_ok n d a b s Hi Ha Hn) as (b1 & s1 & d1 & -> & Hi1 & Hr).
    rewrite bind_Ok. apply (IH _ _ _ _ _ Hi1); [lia|by apply (knows_resize k d)|]. by rewrite (proj1 Hr).
Qed.

Lemma backend_holds n ops :
  0 <= n <= N -> ops_fit N n 0 ops ->
  exists b s, ('(b, s) ← be_create n s0; backend_run ops b s) = Ok (b, s)
    /\ knows (known_bytes n ops) (be_data b s) /\ be_destroy b s = Ok s0.
Proof.
  intros Hn Hfit. destruct (be_create_ok n Hn) as (b & s & d & -> & Hi & Hd). rewrite bind_Ok.
  destruct (backend_run_knows ops d 0 (repeat None (Z.to_nat n)) b s Hi) as (b' & s' & d' & a' & Hr & Hi' & Hk); [lia| |by rewrite Hd|].
  { replace (Z.to_nat n) with (length d) by lia. apply knows_none. }
  exists b', s'. split; [done|]. rewrite (be_data_ok _ _ _ _ Hi'). split; [done|by eapply be_destroy_ok].
Qed.
End refinement.

(** ** The two builds *)
Section builds.
Context (g : Globals) (ec : bool) (c : SwiftNetClientConnection) (N : Z).

#[local] Instance pcap_backend : BufferBackend PacketBuffer.SwiftNetPacketBuffer unit := {|
  be_create n _ := Ok (swiftnet_client_create_packet_buffer g true n c, tt);
  be_append x b _ := b ← PacketBuffer.swiftnet_append_to_buffer ec (Some x) (Z.of_nat (length x)) b; Ok (b, tt);
  be_write off x b _ := b ← swiftnet_client_write_packet_buffer off b x (Z.of_nat (length x)) c; Ok (b, tt);
  be_resize n b _ := b ← swiftnet_client_resize_packet_buffer g true n b c; Ok (b, tt);
  be_destroy b _ := swiftnet_client_destroy_packet_buffer b c;
  be_data b _ := drop (Z.to_nat (packet_data_start b)) (packet_memory b)
|}.

(** A block with [data_offset] bytes in front of the data. *)
Record pcap_inv (d : list Z) (a : Z) (b : PacketBuffer.SwiftNetPacketBuffer) (u : unit) : Prop := {
  pi_start : packet_buffer_start b = 0;
  pi_data : packet_data_start b = data_offset;
  pi_append : packet_append_pointer b = data_offset + a;
  pi_memory : exists front, packet_memory b = front ++ d /\ Z.of_nat (length front) = data_offset;
  pi_size : Z.of_nat (length d) <= N;
  pi_position : a <= N
}.

Lemma pcap_write_inv off x d a b t a' :
  pcap_inv d a b t -> 0 <= off -> off + Z.of_nat (length x) <= Z.of_nat (length d) -> a' <= N ->
  exists m, mem_write (data_offset + off) x (packet_memory b) = Ok m
    /\ pcap_inv (blit (Z.to_nat off) x d) a' (PacketBuffer.mk_packet_buffer m (packet_buffer_start b) (packet_data_start b) (data_offset + a')) t.
Proof.
  intros [Hs Hd Ha (front & Hm & Hf) Hsz Hp] Ho Hle Ha'. rewrite Hm, mem_write_ok by (rewrite ?length_app; lia). eexists. split; [done|].
  replace (Z.to_nat (data_offset + off)) with (length front + Z.to_nat off)%nat by lia. rewrite blit_app_r by lia.
  constructor; cbn; try done; [by exists front|]. by rewrite length_blit by lia.
Qed.

Hypothesis HN : N <= 2 ^ 32 - 2 ^ 16.

Lemma pcap_resize_inv n d a b t :
  pcap_inv d a b t -> 0 <= a -> 0 <= n <= N ->
  exists b' d', PacketBuffer.resize_packet_buffer g true n b = Ok b' /\ pcap_inv d' a b' t /\ resized n d d'.
Proof.
  intros [Hs Hd Hap (front & Hm & Hf) Hsz Hp] Ha Hn. assert (data_offset = 58) as Hoff by done.
  unfold PacketBuffer.resize_packet_buffer. rewrite Hap, Hd, !u32_id by lia.
  set (m := realloc g (packet_memory b) (n + data_offset)).
  pose proof (length_uninitialized g (n + data_offset) ltac:(lia)) as Hu.
  exists (PacketBuffer.mk_packet_buffer m 0 data_offset (data_offset + (data_offset + a - data_offset))).
  set (e := drop (length (front ++ d)) (uninitialized g (n + data_offset))).
  assert (length e = Z.to_nat (n + data_offset) - (length front + length d))%nat as He by (unfold e; rewrite length_drop, length_app; lia).
  assert (m = front ++ take (Z.to_nat n) d ++ e) as Hmm.
  { unfold m, realloc. rewrite Hm. fold e. rewrite take_app_ge, <- app_assoc by lia. do 3 f_equal. lia. }
  exists (take (Z.to_nat n) d ++ e). split; [done|].
  assert (Z.of_nat (length (take (Z.to_nat n) d ++ e)) = n) as Hlen by (rewrite length_app, length_take; lia).
  split.
  + constructor; cbn; [done|done|lia| |lia|lia]. by exists front.
  + split; [done|]. destruct (decide (length d <= Z.to_nat n)%nat).
    * left. rewrite take_ge by lia. by eexists.
    * right. rewrite (nil_length_inv e) by lia. rewrite app_nil_r. exists (drop (Z.to_nat n) d). by rewrite take_drop.
Qed.

#[local] Instance pcap_buffer_laws : BufferLaws pcap_backend N tt.
Proof.
  assert (data_offset = 58) as Hoff by done. refine {| be_inv := pcap_inv |}.
  - intros n Hn. pose proof (length_uninitialized g (n + data_offset) ltac:(lia)) as Hu.
    eexists _, tt, (drop 58 (uninitialized g (n + data_offset))). split; [reflexivity|]. rewrite length_drop. split; [|lia].
    constructor; cbn; try done; try lia; [|rewrite length_drop; lia].
    exists (take 58 (uninitialized g (n + data_offset))). rewrite take_drop, length_take. split; [done|lia].
  - intros x d a b [] Hi Hx Ha Hle. destruct (pcap_write_inv a x d a b tt (a + Z.of_nat (length x)) Hi) as (m & Hm & Hi'); [lia|lia|destruct Hi; lia|].
    assert (length x <> 0)%nat by (intros E; by apply nil_length_inv in E).
    cbn [be_append pcap_backend]. unfold PacketBuffer.swiftnet_append_to_buffer, PacketBuffer.validate_append_to_packet_args, append_data.
    rewrite (proj2 (Z.eqb_neq (Z.of_nat (length x)) 0)) by lia.
    replace (if ec then Ok tt else Ok tt) with (Ok tt) by (by destruct ec). rewrite bind_Ok, mem_read_ok, Nat2Z.id, slice_full, bind_Ok by lia.
    rewrite (pi_append _ _ _ _ Hi), Hm, !bind_Ok. eexists _, tt. split; [reflexivity|]. by rewrite <- Z.add_assoc.
  - intros off x d a b [] Hi Ha Ho Hle. destruct (pcap_write_inv off x d a b tt a Hi) as (m & Hm & Hi'); [lia|lia|apply Hi|].
    cbn [be_write pcap_backend]. unfold swiftnet_client_write_packet_buffer, PacketBuffer.write_packet_buffer.
    rewrite mem_read_ok, Nat2Z.id, slice_full, bind_Ok by lia.
    rewrite (pi_data _ _ _ _ Hi), Hm, !bind_Ok. eexists _, tt. split; [reflexivity|].
    rewrite (pi_append _ _ _ _ Hi). by rewrite (pi_data _ _ _ _ Hi) in Hi'.
  - intros n d a b [] Hi Ha Hn. destruct (pcap_resize_inv n d a b tt Hi Ha Hn) as (b' & d' & Hr & H).
    cbn [be_resize pcap_backend]. unfold swiftnet_client_resize_packet_buffer. rewrite Hr, bind_Ok. by exists b', tt, d'.
  - intros d a b [] [_ Hd _ (front & Hm & Hf) _ _]. cbn. rewrite Hd, Hm. replace (Z.to_nat data_offset) with (length front) by lia. apply drop_app_length.
  - intros d a b [] [Hs _ _ _ _ _]. cbn. unfold swiftnet_client_destroy_packet_buffer, PacketBuffer.destroy_packet_buffer. by rewrite Hs.
Qed.
End builds.

Section dpdk_build.
Context `{HL : MbufLaws} (g : Globals) (ec : bool) (c : SwiftNetClientConnection) (D N : Z) (s0 : Store rte_mbuf).
Hypothesis HD : 0 < D.
Hypothesis Hmtu : maximum_transmission_unit g = D + PACKET_HEADER_SIZE.
Hypothesis Hroom : mbuf_headers + D <= data_room.
Hypothesis Hword : mbuf_headers + D < 2 ^ 16.
Hypothesis Hprepend : prepend_size (cc_network_data c) = sizeof_ether_header.
Hypothesis HN : N <= 2 ^ 32 - 2 ^ 16.
Hypothesis Hpool : Z.of_nat (size s0) + N / D + 1 <= mempool_available.

#[local] Instance dpdk_backend : BufferBackend SwiftNetPacketBuffer (Store rte_mbuf) := {|
  be_create n s := dpdk_client_create_packet_buffer g true n c s;
  be_append x b s := swiftnet_append_to_buffer g ec (Some x) (Z.of_nat (length x)) b s;
  be_write off x b s := s ← dpdk_client_write_packet_buffer g off b x (Z.of_nat (length x)) c s; Ok (b, s);
  be_resize n b s := dpdk_client_resize_packet_buffer g true n b c s;
  be_destroy b s := dpdk_client_destroy_packet_buffer b c s;
  be_data b s := buffer_data s b
|}.

Definition dpdk_inv (d : list Z) (a : Z) (b : SwiftNetPacketBuffer) (s : Store rte_mbuf) : Prop :=
  exists ps, buffer_inv D s0 b ps s /\ d = concat ps /\ a = append_offset b.

(** One operation of the contract of DpdkBuffer.v. *)
Lemma dpdk_op_inv op d a b s :
  dpdk_inv d a b s -> 0 <= a -> ops_fit N (Z.of_nat (length d)) a [op] ->
  exists b' s' d' a', apply_op g (cc_network_data c) ec op b s = Ok (b', s') /\ dpdk_inv d' a' b' s' /\ buffer_spec op (d, a) (d', a').
Proof.
  intros (ps & Hi & -> & ->) Ha Hfit. rewrite <- (bi_total _ _ _ _ _ Hi) in Hfit.
  destruct (apply_op_inv g (cc_network_data c) D N s0 ec HD Hmtu Hroom Hword Hprepend HN Hpool op [] b ps s Hi Ha Hfit)
    as (b' & ps' & s' & He & Hi' & Hspec & _).
  exists b', s', (concat ps'), (append_offset b'). split; [exact He|]. split; [by exists ps'|exact Hspec].
Qed.

#[local] Instance dpdk_buffer_laws : BufferLaws dpdk_backend N s0.
Proof.
  refine {| be_inv := dpdk_inv |}.
  - intros n Hn. assert (n / D <= N / D) by (apply Z.div_le_mono; lia).
    destruct (create_inv g (cc_network_data c) D HD Hmtu Hroom Hword Hprepend n s0) as (b & ps & s & Hc & Hi & Ht & Ha); [lia|lia|].
    exists b, s, (concat ps). split; [exact Hc|]. split; [by exists ps|]. by rewrite <- (bi_total _ _ _ _ _ Hi).
  - intros x d a b s Hi Hx Ha Hle. destruct (dpdk_op_inv (BufAppend x) d a b s Hi Ha) as (b' & s' & d' & a' & He & Hi' & Hspec); [done|].
    inversion Hspec; subst. by exists b', s'.
  - intros off x d a b s Hi Ha Ho Hle. destruct (dpdk_op_inv (BufWrite off x) d a b s Hi Ha) as (b' & s' & d' & a' & He & Hi' & Hspec); [done|].
    inversion Hspec; subst. by exists b', s'.
  - intros n d a b s Hi Ha Hn. destruct (dpdk_op_inv (BufResize n) d a b s Hi Ha) as (b' & s' & d' & a' & He & Hi' & Hspec); [done|].
    inversion Hspec; subst. by exists b', s', d'.
  - intros d a b s (ps & Hi & -> & _). by eapply inv_data.
  - intros d a b s (ps & Hi & _). by eapply destroy_ok.
Qed.
End dpdk_build.

(** C21 The two builds of the library agree on packet buffers: an application that creates
    a buffer of [n] bytes through the public functions and then appends, writes and
    resizes inside its size, in any order, gets through without an error in either
    build, and every byte it has written and not cut off again is in both buffers, at
    the same place; both hold as many bytes as were asked for last, and both can be
    destroyed, the pool of message buffers being as before. *)
Theorem backends_agree `{HL : MbufLaws} (g : Globals) (ec : bool) (c : SwiftNetClientConnection) (n N : Z)
    (ops : list buffer_op) (s0 : Store rte_mbuf) :
  let mtu := maximum_transmission_unit g in
  let D := mtu - PACKET_HEADER_SIZE in
  0 < D -> mtu + sizeof_ether_header <= data_room -> mtu + sizeof_ether_header < 2 ^ 16 ->
  prepend_size (cc_network_data c) = sizeof_ether_header ->
  0 <= n <= N -> N <= 2 ^ 32 - 2 ^ 16 -> Z.of_nat (size s0) + N / D + 1 <= mempool_available -> ops_fit N n 0 ops ->
  let known := known_bytes n ops in
  exists b1 b2 s,
    ('(b, t) ← be_create (BufferBackend := pcap_backend g ec c) n tt; backend_run (H := pcap_backend g ec c) ops b t) = Ok (b1, tt)
    /\ ('(b, s) ← be_create (BufferBackend := dpdk_backend g ec c) n s0; backend_run (H := dpdk_backend g ec c) ops b s) = Ok (b2, s)
    /\ (forall i x, known !! i = Some (Some x) ->
          drop (Z.to_nat (packet_data_start b1)) (packet_memory b1) !! i = Some x /\ buffer_data s b2 !! i = Some x)
    /\ length (drop (Z.to_nat (packet_data_start b1)) (packet_memory b1)) = length known
    /\ length (buffer_data s b2) = length known
    /\ swiftnet_client_destroy_packet_buffer b1 c = Ok tt /\ dpdk_client_destroy_packet_buffer b2 c s = Ok s0.
Proof.
  intros mtu D HD Hroom Hword Hpre Hn HN Hpool Hfit known.
  assert (mbuf_headers + D = mtu + sizeof_ether_header) as Hh by (unfold D, mbuf_headers; lia).
  assert (maximum_transmission_unit g = D + PACKET_HEADER_SIZE) as Hmtu by (unfold D, mtu; lia). rewrite <- Hh in Hroom, Hword.
  destruct (backend_holds _ N tt (pcap_buffer_laws g ec c N HN) n ops Hn Hfit) as (b1 & [] & Hr1 & Hk1 & Hd1).
  destruct (backend_holds _ N s0 (dpdk_buffer_laws g ec c D N s0 HD Hmtu Hroom Hword Hpre HN Hpool) n ops Hn Hfit)
    as (b2 & s & Hr2 & Hk2 & Hd2).
  exists b1, b2, s. split; [exact Hr1|]. split; [exact Hr2|]. split; [|split; [|split; [|split; [exact Hd1|exact Hd2]]]].
  - intros i x Hx. destruct (Forall2_lookup_l _ _ _ _ _ Hk1 Hx) as (y1 & Hy1 & ->).
    destruct (Forall2_lookup_l _ _ _ _ _ Hk2 Hx) as (y2 & Hy2 & ->). split; [exact Hy1|exact Hy2].
  - symmetry. exact (knows_length _ _ Hk1).
  - symmetry. exact (knows_length _ _ Hk2).
Qed.

Definition sample_connection : SwiftNetClientConnection :=
  mk_client nd_ethernet empty_queue (mk_port_info 0 0) eth0 0 0 false false false true.

Lemma backends_agree_witness :
  known_bytes 8 small_ops = Some <$> [1; 2; 3; 4; 5; 66; 67]
  /\ exists b1 b2 s,
    ('(b, t) ← be_create (BufferBackend := pcap_backend g_small true sample_connection) 8 tt;
      backend_run (H := pcap_backend g_small true sample_connection) small_ops b t) = Ok (b1, tt)
    /\ ('(b, s) ← be_create (BufferBackend := dpdk_backend (L := pool_lib 8 128 2048) g_small true sample_connection) 8 ∅;
      backend_run (H := dpdk_backend (L := pool_lib 8 128 2048) g_small true sample_connection) small_ops b s) = Ok (b2, s)
    /\ drop (Z.to_nat (packet_data_start b1)) (packet_memory b1) !! 6%nat = Some 67 /\ buffer_data s b2 !! 6%nat = Some 67.
Proof.
  split; [vm_compute; reflexivity|].
  destruct (backends_agree (HL := pool_laws 8 128 2048) g_small true sample_connection 8 20 small_ops ∅)
    as (b1 & b2 & s & H1 & H2 & H3 & _).
  1-7: vm_compute; repeat split; intros; discriminate.
  { repeat split; cbn; try lia; discriminate. }
  exists b1, b2, s. split; [exact H1|]. split; [exact H2|]. apply H3. vm_compute. reflexivity.
Defined.
